(* ===== verification/_CoqProject ===== *)
-Q . S2P
Prelude.v
Exceptions.v
PyStr.v
TokenTypes.v
Stores.v
UtxoAmounts.v
UtxoCache.v
TokenUtils.v
TokenHandlers.v
SortedItems.v
Json.v
JsonText.v
Packaging.v
Glue.v
GetUtxo.v
FeesState.v
FeesAuthorizer.v
Ledger.v
DomainFees.v
Payments.v
Frames.v
BatchHandlers.v
ThreePhase.v
Authn.v
AuthRules.v
Validation.v
StaticErrors.v
FeeRules.v
TokenLedger.v
StateKeys.v
Guarantees.v
Requests.v
Catchup.v
NodeBatches.v
NodeRuns.v
ChainCatchup.v
QueryUtxo.v
Registries.v
Wiring.v
Dispatch.v
