(* ===== verification/Prelude.v ===== *)
(** * The token and fees plugins of Sovrin: a verified model

    The repository holds two plugins of indy-plenum / indy-node, Python programs
    that a ledger node loads: [sovtoken] (under src/sovtoken/sovtoken, below ST)
    keeps a ledger of payments in unspent outputs, [sovtokenfees] (under
    src/sovtokenfees/sovtokenfees, below SF) makes other transactions pay a fee
    on that ledger.  This library models their logic and proves it correct.

    ** How the parts interact

    A client's request is JSON.  The node checks its shape (static validation),
    its signatures (authenticators), and whether it may and can be executed
    (dynamic validation with the authorizers); then it applies it: a transaction
    is added to a ledger and [update_state] changes the token state (a trie with
    the key "address:seqNo" per unspent output) and the UTXO cache (a key-value
    store with the text "seqNo:amount:..." per address).  With the fees plugin,
    a domain request carries inputs, change and signatures of its own, and the
    node adds a fee transaction to the token ledger.  Requests are applied in
    batches that are later committed or rejected; batch handlers and trackers
    keep the cache, the state and the ledger together, and the three-phase
    messages carry the roots on which the nodes must agree.

    ** Files

    - Prelude: sums, association lists (Python dictionaries and flat lists of
      pairs), list lemmas, the hint database [tok].
    - Exceptions: the exceptions as values, the result type [res], the state
      and exception monad [M] in which stateful methods are written, as Python
      leaves the state when it raises (ST exceptions.py).
    - PyStr: [split], [join], [str] and [int] of Python, with their round trips.
    - TokenTypes: constants, transaction codes, [Output], requests and
      transactions as the handlers read them (constants.py, transactions.py of
      both plugins, ST types.py).
    - Stores, Ledger: the interfaces to plenum, as type classes: the key-value
      store under the cache, the state trie, the ledger, its transactions, the
      uncommitted tracker, the batches of the cache.  Classes of laws state what
      the plugins rely on ([KVStoreLaws], [StateStoreLaws], [LedgerLaws]) and,
      for batches, what each store keeps of its earlier versions ([KVViewLaws],
      [StateHistoryLaws], [LedgerHistoryLaws], [TrackerLaws]); in-memory instances
      satisfy them and serve the witnesses.
    - UtxoAmounts, UtxoCache: [UTXOAmounts] and [UTXOCache] (ST utxo_cache.py),
      the abstract map of unspent outputs [utxos], its [supply], and the
      refinement of the abstract operations by the cache.
    - TokenUtils: [TokenStaticHelper] (ST request_handlers/token_utils.py); the
      relation [db_repr] between state, cache and the abstract map.
    - TokenHandlers: [MintHandler], [XferHandler], [XferHandler100] (ST
      request_handlers/write_request_handler), [XferFeeHandler],
      [FeeTxnCatchupHandler] (SF req_handlers/write_handlers).
    - SortedItems, GetUtxo: [SortedItems] with the binary heap of [heapq] (ST
      util.py), [GetUtxoHandler.get_result] with its paging (ST
      request_handlers/read_req_handler/get_utxo_handler.py).
    - JsonText, Packaging: the text of JSON as Python's [json] reads and prints it;
      the scripts around the plugins: updateVersion.py, both __metadata__.py,
      setup.py and __init__.py, on a file system.
    - Glue: the text and hash of an [Output], closing the cache, the callbacks of
      token wallets (ST util.py), the names of the serializers (SF serializers.py).
    - Json, Validation: untyped JSON, the field classes and validators (ST
      messages, SF messages/fields.py) and the [static_validation] methods.
    - StaticErrors: every exception that leaves these methods, with its cause.
    - FeesState: the table of fees in the config state: [SetFeesHandler],
      [SetFeesHandler093], [GetFeeHandler], [GetFeesHandler],
      [get_fee_from_state] (SF domain.py, req_handlers).
    - FeesAuthorizer: [FeesAuthorizer] (SF fees_authorizer.py).
    - DomainFees: [BatchFeesTracker], [DomainFeeHandler].
    - BatchHandlers: [UTXOBatchHandler], [TokenBatchHandler],
      [DomainFeeBatchHandler], [TrackerBatchHandler].
    - ThreePhase: [ThreePhaseCommitHandler] (SF three_phase_commit_handling.py).
    - Authn: address conversions (ST util.py), [add_sigs_to_txn] (ST
      txn_util.py), [TokenAuthNr], [FeesAuthNr] (client_authnr.py of both).
    - AuthRules: [AuthRuleFeeHandler], [AuthRulesFeeHandler]; FeeRules: these, the
      fees and the authorizer over the life of one config state.
    - TokenLedger: all transactions that touch tokens as one state machine, with
      the validation that guards them.
    - Payments: the payments of transactions as updates of the abstract map.
    - Frames: what an operation leaves alone in the layers of the stores below
      the uncommitted one.
    - NodeBatches: the batch handlers of both plugins as the node runs them on
      all stores, the runs of transactions that make a batch, and the abstract
      chain of batches.
    - NodeRuns: the runs of a node over its batches (applied, rejected, committed),
      each event with the exception it ends with, and their refinement of the chain.
    - StateKeys: every key of the token state is that of an output.
    - Guarantees: what holders of tokens may rely on.
    - Requests: a mint and a domain request with fees, from the JSON of the client
      to the ledger (a transfer is in TokenLedger).
    - Catchup, ChainCatchup: replaying committed transactions on an empty node; the
      same for the chain of batches of NodeBatches.
    - QueryUtxo: GET_UTXO on a node of NodeBatches, and the client that follows its
      pages.
    - Registries: what a plugin touches in plenum's node when it is loaded, the
      calls that change it (class [PlenumNode] with its laws), the constructors
      of the handlers, and a tactic that runs programs of such calls.
    - Wiring: both main.py call by call, the auth maps, the wrapped callbacks of
      the token ledger.
    - Dispatch: the methods of all write handlers together, run as the node's
      write manager runs the handlers registered for a type.

    A method is a definition of the same name.  A method that changes an object
    is a computation in [M] over that object's record; the handlers of a node
    work on the record of the stores they reach through the database manager.
    Pure code is in [res].  A dictionary is an association list where its order
    can be seen.  Integers are Python's, unbounded; strings are ASCII, [bytes]
    are strings and [encode]/[decode] are the identity.  An exception message is
    kept as its template and arguments.  The names of plenum's message fields
    (["identifier"], ["state_proof"], ...) are constants with the values that
    the documents under src/docs and the messages show.

    ** What the theorems show

    - The token ledger (TokenLedger, TokenHandlers): the supply is what was
      minted less the fees, along every run; a transfer conserves it, cannot
      spend twice, cannot spend what is not there; validated
      transactions never fail when applied, whether transfers
      ([validated_transfer_applied]), mints or domain requests with fees
      (Requests); the two transfer versions are equivalent.
    - The cache (UtxoAmounts, UtxoCache): refinement of the abstract map, failure
      included; sums over distinct inputs; the text format round-trips and
      never loses its pairing.
    - Fees (FeesState, FeesAuthorizer, DomainFees, FeeRules): setting fees merges
      them; the alias of an accepted auth rule always has a fee, which is asked
      for ([fee_rules_invariant]); the authorizer's complete decision; exactly
      the fee is taken.
    - Batches (BatchHandlers, NodeBatches, NodeRuns, ThreePhase): through every
      run of applied, rejected and committed batches of both ledgers the state, the
      cache, the ledger and the trackers implement one chain of versions, each
      worth what its history minted less the fees it took, no handler fails
      ([node_refines_chain]) and the pending batches can be committed
      ([pending_batches_commit]).  Both hold for the runs without a stale record:
      no applied transaction without a fee has the type and number of one that
      paid in a rejected batch, whose record the tracker keeps; in such a run
      committing can raise ([stale_record_raises]).  Fee transactions reach the
      right replies ([fee_commit_attaches]); a replica accepts the PRE-PREPAREs
      with the fees it has counted and the roots it has, and any when it has
      counted none ([pre_prepare_agreement]).
    - Guarantees: an output leaves the ledger only with its owner's signature
      ([only_owner_spends]), and with it can always be sent on, past validation and
      the authenticators ([outputs_spendable]); a sum of inputs is at least their
      number, repetitions apart, and at most the supply ([sum_inputs_bounded]).
    - Catch-up and integration (ChainCatchup, Wiring, Dispatch): a node that replays
      the committed transactions arrives at the committed outputs of those that
      executed the requests in batches ([chain_catchup]); loading both plugins
      gives a node exactly the handlers, in the order, that the other files compose,
      with their read handlers, databases, stores and callbacks, and changes nothing
      else ([plugins_loaded]); the requests and transactions that such a node
      handles meet the checks and updates proved about here, and a type without
      handlers is refused; the fees plugin alone fails to load.
    - Signatures and validation (Authn, Validation, AuthRules): an accepted
      payment is signed input by input under the key that the input's address
      encodes ([payments_signed_by_address]); accepted JSON has
      the typed form and the distinctness that the handlers need, though a transfer may
      have no inputs or no outputs ([empty_transfer_accepted]); JSON that is
      not accepted is refused, or raises one of the exceptions listed
      ([static_validation_errors]).
    - Reading (SortedItems, GetUtxo, QueryUtxo): replies are sorted, the same on
      every node, and the pages of an address enumerate exactly the outputs that a
      committed transaction created and no later one spent, whatever batches are
      pending ([query_shows_history]); nodes with the same committed history
      answer alike ([replicas_answer_alike]).
    - Packaging: updateVersion.py makes both packages publish the version asked
      for ([version_published]); JSON text round-trips ([json_loads_dumps]).
    - Behaviours that differ from what the code means to do are theorems as
      well: the lost first page ([select_page_loses_first]), the fees of the
      0.9.3 handler ([set_fees_093_forgets]), the alias that hides the table
      ([set_fees_alias_collision]), the deducted fees that outlive a rejected
      batch ([deducted_fees_survive_rejection], [stale_record_raises]), the null fees field that raises
      ([verify_signature_outcomes]), the signatures kept per address
      ([sigs_by_address_last]), the version written to one package only
      ([version_half_updated]), the exports that are no names ([star_imports]), the
      exceptions that escape from static validation ([escapes_happen]).

    ** Fuel

    Loops over lists are structural.  [siftdown_loop] runs for at most [pos]
    steps (the position decreases), [siftup_loop] and [drain] for at most the
    length of the heap; the lemmas of SortedItems show that this is enough.
    [fetch_all], the paging client, has one step more than there are outputs,
    and [pagination_complete] shows that it returns; [follow], the client of the
    whole handler, has the same.  The JSON reader has the length of its text,
    and [scan_value_fuel] shows that more changes nothing; the recursion limit
    of Python is not modelled.

    ** What is not modelled

    Code of plenum, indy-node, base58, the state trie and the ed25519 verifier
    is outside the repository and enters as parameters with stated laws; so do
    the write manager's loops over handlers, the revert of a rejected batch and the
    domain transactions a batch is committed with, which Dispatch, NodeBatches and
    NodeRuns describe in their headers.  The length of a reply as JSON text is that
    of ujson; the standard json, which GET_UTXO falls back on, is left out.  Left
    out is logging; what it prints of an [Output] is in Glue.  The client that calls the
    wallets and the wallet's own method are arguments.  Of the scripts, the
    parsing of versions (semver) and options (argparse), [find_packages] and
    what [setup] does with its arguments are library code.  [ThreePhaseCommitHandler]
    is modelled although no main.py registers its hooks.  A property that looks up
    a store in the database manager, or a constructor that keeps its arguments,
    has no definition of its own where the store or the argument is one of the
    model's.  The registries name an
    object by its constructor call, so what opening a storage does on disk is not
    modelled.  A rendered exception text is not modelled beyond its template. *)

From stdpp Require Export base list strings gmap fin_maps.
From Stdlib Require Export ZArith Lia.

(** ** Sums of integers *)

Fixpoint zsum (l : list Z) : Z :=
  match l with [] => 0 | x :: l' => x + zsum l' end%Z.

Lemma zsum_nil : zsum [] = 0%Z.
Proof. reflexivity. Qed.

Lemma zsum_cons x l : zsum (x :: l) = (x + zsum l)%Z.
Proof. reflexivity. Qed.

Lemma zsum_app l1 l2 : zsum (l1 ++ l2) = (zsum l1 + zsum l2)%Z.
Proof. induction l1 as [|x l1 IH]; simpl; [done|]. rewrite IH. lia. Qed.

#[export] Instance zsum_Permutation : Proper ((≡ₚ) ==> (=)) zsum.
Proof. induction 1; simpl; lia. Qed.

Lemma zsum_nonneg l : Forall (fun x => 0 <= x)%Z l -> (0 <= zsum l)%Z.
Proof. induction 1; simpl; lia. Qed.

(** ** The last element, or a default *)

Fixpoint last_or {A} (d : A) (l : list A) : A :=
  match l with [] => d | x :: l' => last_or x l' end.

Lemma last_or_snoc {A} (d : A) l x : last_or d (l ++ [x]) = x.
Proof. revert d. by induction l; simpl. Qed.

Lemma last_or_fmap {A B} (f : A -> B) d l : last_or (f d) (f <$> l) = f (last_or d l).
Proof. revert d. by induction l; simpl. Qed.

Lemma last_or_elem {A} (d : A) l : last_or d l ∈ d :: l.
Proof. revert d. induction l as [|x l IH]; intros d; simpl; [left|]. right. apply IH. Qed.

(** ** Association lists

    The program keeps ordered dictionaries (Python [dict]) and flattened lists
    of pairs; both are association lists here.  [alookup] finds the first
    entry of a key, [adelete] removes the first entry, [aset] is Python's
    [d[k] = v]: it overwrites in place, or appends. *)

Section Assoc.
Context {K V : Type} `{EqDecision K}.
Implicit Types (k : K) (v : V) (l : list (K * V)).

Fixpoint alookup k l : option V :=
  match l with
  | [] => None
  | (k', v) :: l' => if decide (k' = k) then Some v else alookup k l'
  end.

Fixpoint adelete k l : list (K * V) :=
  match l with
  | [] => []
  | (k', v) :: l' => if decide (k' = k) then l' else (k', v) :: adelete k l'
  end.

Fixpoint aset k v l : list (K * V) :=
  match l with
  | [] => [(k, v)]
  | (k', v') :: l' => if decide (k' = k) then (k', v) :: l' else (k', v') :: aset k v l'
  end.

(** Python's [d.update(other)], with [other]'s items in their order. *)
Definition aupdate l (other : list (K * V)) : list (K * V) :=
  foldl (fun d kv => aset kv.1 kv.2 d) l other.

Definition ahas k l : bool :=
  match alookup k l with Some _ => true | None => false end.

Lemma alookup_elem k v l : alookup k l = Some v -> (k, v) ∈ l.
Proof.
  induction l as [|[k' v'] l IH]; simpl; [done|].
  case_decide; intros; simplify_eq; [left|right; auto].
Qed.

Lemma alookup_None k l : alookup k l = None <-> k ∉ l.*1.
Proof.
  induction l as [|[k' v'] l IH]; simpl; [set_solver|].
  case_decide; set_solver.
Qed.

Lemma alookup_is_Some k l : is_Some (alookup k l) <-> k ∈ l.*1.
Proof.
  rewrite <- not_eq_None_Some, alookup_None. split; [|tauto].
  intros H. destruct (decide (k ∈ l.*1)); tauto.
Qed.

Lemma alookup_NoDup k v l : NoDup l.*1 -> (k, v) ∈ l -> alookup k l = Some v.
Proof.
  induction l as [|[k' v'] l IH]; simpl; [set_solver|].
  intros [Hn Hd]%NoDup_cons [[= -> ->]|Hin]%elem_of_cons.
  - by rewrite decide_True by done.
  - rewrite decide_False; [auto|]. intros ->. apply Hn.
    apply list_elem_of_fmap. by exists (k, v).
Qed.

Lemma alookup_app k l1 l2 :
  alookup k (l1 ++ l2) = match alookup k l1 with Some v => Some v | None => alookup k l2 end.
Proof. induction l1 as [|[k' v'] l1 IH]; simpl; [done|]. by case_decide. Qed.

Lemma adelete_Permutation k v l :
  alookup k l = Some v -> l ≡ₚ (k, v) :: adelete k l.
Proof.
  induction l as [|[k' v'] l IH]; simpl; [done|].
  case_decide; intros; simplify_eq; [done|].
  etransitivity; [apply perm_skip, IH; done|]. apply perm_swap.
Qed.

Lemma adelete_keys_sublist k l : adelete k l `sublist_of` l.
Proof. induction l as [|[k' v'] l IH]; simpl; [done|]. case_decide; by constructor. Qed.

Lemma adelete_NoDup k l : NoDup l.*1 -> NoDup (adelete k l).*1.
Proof.
  intros Hnd. refine (sublist_NoDup _ _ Hnd _). apply fmap_sublist, adelete_keys_sublist.
Qed.

Lemma alookup_adelete_ne k k' l : k <> k' -> alookup k' (adelete k l) = alookup k' l.
Proof.
  intros Hne. induction l as [|[k1 v1] l IH]; simpl; [done|].
  repeat case_decide; simplify_eq; simpl; rewrite ?decide_True, ?decide_False by done; auto.
Qed.

Lemma adelete_None k l : alookup k l = None -> adelete k l = l.
Proof. induction l as [|[k' v'] l IH]; simpl; [done|]. case_decide; [done|]. intros. f_equal. auto. Qed.

Lemma alookup_adelete_eq k l : NoDup l.*1 -> alookup k (adelete k l) = None.
Proof.
  induction l as [|[k1 v1] l IH]; simpl; [done|].
  intros [Hn Hd]%NoDup_cons. case_decide; simplify_eq.
  - by apply alookup_None.
  - simpl. rewrite decide_False by done. auto.
Qed.

Lemma alookup_aset_eq k v l : alookup k (aset k v l) = Some v.
Proof.
  induction l as [|[k1 v1] l IH]; simpl.
  - by rewrite decide_True.
  - case_decide; simpl; [by rewrite decide_True | by rewrite decide_False].
Qed.

Lemma alookup_aset_ne k k' v l : k <> k' -> alookup k' (aset k v l) = alookup k' l.
Proof.
  intros Hne. induction l as [|[k1 v1] l IH]; simpl.
  - by rewrite decide_False.
  - repeat case_decide; simplify_eq; simpl; rewrite ?decide_True, ?decide_False by done; auto.
Qed.

Lemma elem_of_aset_keys k k' v l : k' ∈ (aset k v l).*1 <-> k' = k \/ k' ∈ l.*1.
Proof.
  induction l as [|[k1 v1] l IH]; simpl; [set_solver|].
  case_decide; simpl; rewrite !elem_of_cons; [intuition congruence|].
  rewrite IH. tauto.
Qed.

Lemma aset_NoDup k v l : NoDup l.*1 -> NoDup (aset k v l).*1.
Proof.
  induction l as [|[k1 v1] l IH]; simpl; [intros _; apply NoDup_singleton|].
  intros [Hn Hd]%NoDup_cons. case_decide; simpl; apply NoDup_cons; [done|].
  rewrite elem_of_aset_keys. intuition congruence.
Qed.

Lemma Forall_aset (P : K * V -> Prop) k v l : Forall P l -> P (k, v) -> Forall P (aset k v l).
Proof.
  intros Hl Hp. induction Hl as [|[k1 v1] l H1 Hl IH]; simpl; [by repeat constructor|].
  case_decide; constructor; simplify_eq; done.
Qed.

(** [d.update(other)]: the last binding of [other] wins over [d]'s. *)
Lemma alookup_aupdate k l other :
  alookup k (aupdate l other) =
    match alookup k (reverse other) with Some v => Some v | None => alookup k l end.
Proof.
  revert l. induction other as [|[k1 v1] other IH] using rev_ind; intros l; [done|].
  unfold aupdate in *. rewrite foldl_app, reverse_snoc. simpl.
  case_decide; simplify_eq; [by rewrite alookup_aset_eq|].
  rewrite alookup_aset_ne by done. apply IH.
Qed.

Lemma alookup_reverse_NoDup k l : NoDup l.*1 -> alookup k (reverse l) = alookup k l.
Proof.
  intros Hnd. destruct (alookup k l) as [v|] eqn:E.
  - apply alookup_NoDup.
    + by rewrite reverse_Permutation.
    + rewrite elem_of_reverse. by apply alookup_elem.
  - apply alookup_None. rewrite fmap_reverse, elem_of_reverse. by apply alookup_None.
Qed.

Lemma aupdate_NoDup l other : NoDup l.*1 -> NoDup (aupdate l other).*1.
Proof.
  revert l. induction other as [|[k1 v1] other IH]; intros l Hl; [done|].
  apply IH, aset_NoDup, Hl.
Qed.
End Assoc.

(** ** Lists *)

Lemma omap_ext_elem {A B} (f g : A -> option B) (l : list A) :
  (forall x, x ∈ l -> f x = g x) -> omap f l = omap g l.
Proof.
  induction l as [|x l IH]; intros H; [done|]. csimpl.
  rewrite (H x) by (by left). rewrite IH by (intros; apply H; by right). done.
Qed.

Lemma omap_of_fmap {A B C} (f : B -> option C) (g : A -> B) (l : list A) :
  omap f (g <$> l) = omap (fun x => f (g x)) l.
Proof. induction l as [|x l IH]; [done|]. csimpl. by rewrite IH. Qed.

Lemma omap_app {A B} (f : A -> option B) (l1 l2 : list A) : omap f (l1 ++ l2) = omap f l1 ++ omap f l2.
Proof. induction l1 as [|x l1 IH]; [done|]. csimpl. rewrite IH. by destruct (f x). Qed.

Lemma remove_dups_NoDup_id {A} `{EqDecision A} (l : list A) : NoDup l -> remove_dups l = l.
Proof. induction 1; simpl; [done|]. case_decide; [done|]. by f_equal. Qed.

Create HintDb tok discriminated.
#[export] Hint Resolve adelete_NoDup aset_NoDup aupdate_NoDup zsum_nonneg : tok.
