(* ===== verification/Exceptions.v ===== *)
(** * Exceptions and the effect monad

    [sovtoken/exceptions.py], the exceptions of the Python builtins and of
    plenum that the modelled code raises, and the state-and-exception monad in
    which every stateful operation is written.  As in Python, an exception does
    not undo the state changes made before it was raised. *)

From S2P Require Import Prelude.

Create HintDb frame.

(** ** Messages

    A message is kept unrendered, as a format template with its arguments, so
    that arguments whose rendering is not specified (the order of a set, the
    [repr] of a list) do not have to be printed. *)

Inductive marg :=
  | MStr (s : string)
  | MInt (z : Z)
  | MNone
  | MStrs (l : list string)
  | MInts (l : list Z)
  | MVal (truthy : bool)
  | MMsg (m : message)
  | MExn (e : exn)
with message :=
  | Msg (template : string) (args : list marg)

(** [idr] and [reqId] are the two attributes that [InvalidClientMessageException]
    and its subclasses carry besides the reason; [getattr(request, .., None)]
    makes both optional.  [InvalidClientRequest] takes them as the callers pass
    them. *)
with exn :=
  (* Python builtins *)
  | KeyError (key : string)
  | ValueError (m : message)
  | IndexError
  | TypeError (m : message)
  | AttributeError (m : message)
  | ImportError (m : message)
  | FileNotFoundError (path : string)
  | SystemExit (code : option Z)
  | OtherException (m : message)
  (* sovtoken/exceptions.py *)
  | UTXOError (m : message)
  | UTXONotFound (m : message)
  | UTXOAddressNotFound (m : message)
  | UTXOAlreadySpentError (m : message)
  | InsufficientFundsError (idr : option string) (reqId : option Z) (reason : message)
  | InvalidFundsError (idr : option string) (reqId : option Z) (reason : message)
  | ExtraFundsError (idr : option string) (reqId : option Z) (reason : message)
  | TokenValueError (field : string) (value : option string) (m : message)
  (* plenum.common.exceptions *)
  | InvalidClientMessageException (idr : option string) (reqId : option Z) (reason : message)
  | InvalidClientRequest (idr reqId : marg) (reason : message)
  (** the same class, given a fourth argument *)
  | InvalidClientRequest4 (idr reqId : marg) (reason : message) (arg : marg)
  | LogicError (m : message)
  | UnauthorizedClientRequest (idr : option string) (reqId : option Z) (reason : message)
  | OperationError (m : message)
  | UnknownIdentifier (m : message)
  | InvalidSignatureFormat
  | InsufficientCorrectSignatures (required : Z) (found : Z) (incorrect : list (string * string)).

(** [except UTXOError]: the class and its subclasses. *)
Definition is_UTXOError (e : exn) : bool :=
  match e with
  | UTXOError _ | UTXONotFound _ | UTXOAddressNotFound _ | UTXOAlreadySpentError _ => true
  | _ => false
  end.

(** [isinstance(e, InvalidClientMessageException)] for the exceptions that
    [sovtoken/exceptions.py] derives from it. *)
Definition is_InvalidClientMessage (e : exn) : bool :=
  match e with
  | InvalidClientMessageException _ _ _ | InsufficientFundsError _ _ _
  | InvalidFundsError _ _ _ | ExtraFundsError _ _ _ => true
  | _ => false
  end.

Definition is_ValueError (e : exn) : bool :=
  match e with ValueError _ => true | _ => false end.

Definition is_KeyError (e : exn) : bool :=
  match e with KeyError _ => true | _ => false end.

(** ** Results of code without side effects *)

Inductive res (A : Type) :=
  | Ok (a : A)
  | Raise (e : exn).
Arguments Ok {A} a.
Arguments Raise {A} e.

Definition res_bind {A B} (r : res A) (f : A -> res B) : res B :=
  match r with Ok a => f a | Raise e => Raise e end.

(** [try: r except <classes h accepts> as e: h e]. *)
Definition res_catch {A} (r : res A) (h : exn -> option (res A)) : res A :=
  match r with
  | Ok a => Ok a
  | Raise e => match h e with Some r' => r' | None => Raise e end
  end.

Definition is_ok {A} (r : res A) : bool := match r with Ok _ => true | Raise _ => false end.

(** ** Stateful code *)

Definition M (S A : Type) : Type := S -> res A * S.

Definition ret {S A} (a : A) : M S A := fun s => (Ok a, s).
Definition raise {S A} (e : exn) : M S A := fun s => (Raise e, s).
Definition get {S} : M S S := fun s => (Ok s, s).
Definition put {S} (s : S) : M S unit := fun _ => (Ok tt, s).
Definition modify {S} (f : S -> S) : M S unit := fun s => (Ok tt, f s).
Definition lift {S A} (r : res A) : M S A := fun s => (r, s).
Definition bind {S A B} (m : M S A) (f : A -> M S B) : M S B :=
  fun s => match m s with
           | (Ok a, s') => f a s'
           | (Raise e, s') => (Raise e, s')
           end.

(** The handler of a [try] runs in the state the exception left. *)
Definition catch {S A} (m : M S A) (h : exn -> option (M S A)) : M S A :=
  fun s => match m s with
           | (Ok a, s') => (Ok a, s')
           | (Raise e, s') => match h e with Some m' => m' s' | None => (Raise e, s') end
           end.

(** An operation on a part of the state. *)
Definition zoom {S T A} (get_part : S -> T) (set_part : T -> S -> S) (m : M T A) : M S A :=
  fun s => let '(r, t) := m (get_part s) in (r, set_part t s).

(** [for x in l: f(x)] *)
Fixpoint for_each {S A} (l : list A) (f : A -> M S unit) : M S unit :=
  match l with
  | [] => ret tt
  | x :: l' => bind (f x) (fun _ => for_each l' f)
  end.

Declare Scope py_scope.
Delimit Scope py_scope with py.
Notation "'let!' x ':=' m 'in' k" := (bind m (fun x => k))
  (at level 10, x pattern, m at level 100, k at level 200) : py_scope.
Notation "m ';;;' k" := (bind m (fun _ => k))
  (at level 100, k at level 200, right associativity) : py_scope.
Notation "'let?' x ':=' r 'in' k" := (res_bind r (fun x => k))
  (at level 10, x pattern, r at level 100, k at level 200) : py_scope.
Open Scope py_scope.

(** ** Lemmas *)

Lemma res_bind_Ok {A B} (r : res A) (f : A -> res B) b :
  res_bind r f = Ok b <-> exists a, r = Ok a /\ f a = Ok b.
Proof. destruct r; simpl; naive_solver. Qed.

Lemma bind_Ok {S A B} (m : M S A) (f : A -> M S B) s a s' :
  m s = (Ok a, s') -> bind m f s = f a s'.
Proof. unfold bind. by intros ->. Qed.

Lemma bind_Raise {S A B} (m : M S A) (f : A -> M S B) s e s' :
  m s = (Raise e, s') -> bind m f s = (Raise e, s').
Proof. unfold bind. by intros ->. Qed.

Lemma bind_inv_Ok {S A B} (m : M S A) (f : A -> M S B) s b s' :
  bind m f s = (Ok b, s') ->
  exists a s1, m s = (Ok a, s1) /\ f a s1 = (Ok b, s').
Proof. unfold bind. destruct (m s) as [[a|e] s1]; naive_solver. Qed.

Lemma for_each_app {S A} (l1 l2 : list A) (f : A -> M S unit) s :
  for_each (l1 ++ l2) f s = bind (for_each l1 f) (fun _ => for_each l2 f) s.
Proof.
  revert s. induction l1 as [|x l1 IH]; intros s; simpl; [done|].
  unfold bind in *. destruct (f x s) as [[[]|e] s1]; [apply IH|done].
Qed.

(** A loop whose body re-establishes an invariant re-establishes it. *)
Lemma for_each_invariant {S A} (P : S -> Prop) (f : A -> M S unit) l s :
  (forall x s, x ∈ l -> P s -> P (f x s).2) -> P s -> P (for_each l f s).2.
Proof.
  revert s. induction l as [|x l IH]; intros s Hf Hs; simpl; [done|].
  assert (P (f x s).2) as H1 by (apply Hf; [left|done]).
  unfold bind. destruct (f x s) as [[[]|e] s1]; simpl in *; [|done].
  apply IH; [|done]. intros. apply Hf; [by right|done].
Qed.

(** [within R m]: whatever [m] does, and also when it raises, relates the state
    before it to the state after it. *)
Definition within {S A} (R : relation S) (m : M S A) : Prop := forall s, R s (m s).2.

Section Within.
Context {S : Type} (R : relation S) `{!PreOrder R}.

Lemma within_ret {A} (a : A) : within R (ret a).
Proof. intros s. simpl. reflexivity. Qed.

Lemma within_raise {A} e : within R (@raise S A e).
Proof. intros s. simpl. reflexivity. Qed.

Lemma within_get : within R get.
Proof. intros s. simpl. reflexivity. Qed.

Lemma within_lift {A} (r : res A) : within R (lift r).
Proof. intros s. simpl. reflexivity. Qed.

Lemma within_modify f : (forall s, R s (f s)) -> within R (modify f).
Proof. intros Hf s. apply Hf. Qed.

Lemma within_bind {A B} (m : M S A) (f : A -> M S B) :
  within R m -> (forall a, within R (f a)) -> within R (bind m f).
Proof.
  intros Hm Hf s. specialize (Hm s). unfold bind. destruct (m s) as [[a|e] s']; [|done].
  simpl in *. etransitivity; [exact Hm|apply Hf].
Qed.

Lemma within_for_each {A} (l : list A) (f : A -> M S unit) :
  (forall a, within R (f a)) -> within R (for_each l f).
Proof.
  intros Hf. induction l as [|x l IH]; simpl; [apply within_ret|]. by apply within_bind.
Qed.

Lemma within_catch {A} (m : M S A) h :
  within R m -> (forall e m', h e = Some m' -> within R m') -> within R (catch m h).
Proof.
  intros Hm Hh s. specialize (Hm s). unfold catch. destruct (m s) as [[a|e] s']; [done|].
  simpl in *. destruct (h e) as [m'|] eqn:E; [|done]. etransitivity; [exact Hm|by apply (Hh e)].
Qed.
End Within.

Lemma within_zoom {S T A} (R : relation S) (Q : relation T) (g : S -> T) (p : T -> S -> S) (m : M T A) :
  within Q m -> (forall s t, Q (g s) t -> R s (p t s)) -> within R (zoom g p m).
Proof.
  intros Hm Hp s. specialize (Hm (g s)). unfold zoom. destruct (m (g s)) as [r t]. by apply Hp.
Qed.

(** Follow the shape of a computation; the operations come from [frame]. *)
Ltac solve_within :=
  repeat match goal with
  | |- within _ (ret _) => refine (within_ret _ _)
  | |- within _ (raise _) => refine (within_raise _ _)
  | |- within _ get => refine (within_get _)
  | |- within _ (lift _) => refine (within_lift _ _)
  | |- within _ (bind _ _) => refine (within_bind _ _ _ _ _); [|intros ?]
  | |- within _ (for_each _ _) => refine (within_for_each _ _ _ _); intros ?
  | |- within _ (catch _ _) => refine (within_catch _ _ _ _ _); [|intros ? ? ?]
  | |- within _ (modify _) => refine (within_modify _ _ _); intros ?
  | |- within _ (match ?x with _ => _ end) => destruct x
  | |- within _ _ => solve [eauto with frame]
  | _ => eauto with frame
  end.

(** Run a method on an object and return the object it left. *)
Definition exec {S A} (m : M S A) (s : S) : res S :=
  match m s with (Ok _, s') => Ok s' | (Raise e, _) => Raise e end.

(** Reduction of the monad's plumbing, leaving the operations folded. *)
Ltac reduce_monad :=
  unfold bind, lift, get, put, modify, ret, raise, res_bind; cbv beta iota zeta;
  cbn [fst snd].
