(* ===== verification/PyStr.v ===== *)
(** * Python strings

    The string operations of Python's standard library that the modelled code
    uses: [str.split] and [str.join] with a one-character separator, [str] of
    an integer, and [int] of a string (base 10, with surrounding white space, a
    sign and single underscores between digits, as the language accepts).
    Strings are ASCII; [bytes] values are strings too, [encode] and [decode]
    being the identity on them. *)

From Stdlib Require Export Ascii.
From Stdlib Require Import Decimal DecimalFacts DecimalZ.
From S2P Require Import Prelude.

Open Scope stdpp_scope.

(** ** Concatenation *)

Lemma sapp_nil_r s : s +:+ "" = s.
Proof. unfold String.append. induction s as [|c s IH]; [done|]. by rewrite IH. Qed.

Lemma sapp_assoc s1 s2 s3 : s1 +:+ (s2 +:+ s3) = (s1 +:+ s2) +:+ s3.
Proof. unfold String.append. induction s1 as [|c s IH]; [done|]. by rewrite IH. Qed.

Lemma sapp_cons c s1 s2 : String c s1 +:+ s2 = String c (s1 +:+ s2).
Proof. reflexivity. Qed.

(** ** [split] and [join] *)

Fixpoint has_char (d : ascii) (s : string) : bool :=
  match s with
  | EmptyString => false
  | String c s' => bool_decide (c = d) || has_char d s'
  end.

(** [s.split(d)] *)
Fixpoint py_split (d : ascii) (s : string) : list string :=
  match s with
  | EmptyString => [""]
  | String c s' =>
      if decide (c = d) then "" :: py_split d s'
      else match py_split d s' with
           | [] => [String c ""]
           | h :: t => String c h :: t
           end
  end.

(** [d.join(l)] *)
Fixpoint py_join (d : ascii) (l : list string) : string :=
  match l with
  | [] => ""
  | [s] => s
  | s :: l' => s +:+ String d (py_join d l')
  end.

Lemma py_split_nonnil d s : py_split d s <> [].
Proof. destruct s; simpl; [done|]. case_decide; [done|]. by destruct (py_split d s). Qed.

Lemma py_join_cons d s l : l <> [] -> py_join d (s :: l) = s +:+ String d (py_join d l).
Proof. by destruct l. Qed.

Lemma py_split_no_char d s : has_char d s = false -> py_split d s = [s].
Proof.
  induction s as [|c s IH]; simpl; [done|].
  intros [Hc Hs]%orb_false_iff. apply bool_decide_eq_false in Hc.
  rewrite decide_False by done. by rewrite IH.
Qed.

Lemma py_split_app d a b : py_split d (a +:+ String d b) = py_split d a ++ py_split d b.
Proof.
  induction a as [|c a IH]; [simpl; by rewrite decide_True|].
  rewrite sapp_cons. simpl. case_decide; [by rewrite IH|].
  rewrite IH. pose proof (py_split_nonnil d a). by destruct (py_split d a).
Qed.

(** [d.join(s.split(d)) == s] *)
Lemma py_join_split d s : py_join d (py_split d s) = s.
Proof.
  induction s as [|c s IH]; [done|]. simpl.
  pose proof (py_split_nonnil d s) as Hn. case_decide as Hc.
  - subst c. rewrite py_join_cons by done. by rewrite IH.
  - destruct (py_split d s) as [|h t]; [done|].
    destruct t; simpl in *; rewrite ?sapp_cons; by rewrite IH.
Qed.

(** [d.join(l).split(d) == l] for a non-empty list of pieces without [d]. *)
Lemma py_split_join d l :
  l <> [] -> Forall (fun s => has_char d s = false) l -> py_split d (py_join d l) = l.
Proof.
  intros Hne Hall. induction Hall as [|s l Hs Hl IH]; [done|].
  destruct l as [|s' l]; [by apply py_split_no_char|].
  rewrite py_join_cons by done.
  by rewrite py_split_app, IH, py_split_no_char.
Qed.

(** The rest of [s] after a first character [c] *)
Definition next_char (c : ascii) (s : string) : option string :=
  match s with
  | String c' s' => if decide (c' = c) then Some s' else None
  | EmptyString => None
  end.

Lemma next_char_app c s r : next_char c s = Some r -> s = String c r.
Proof. destruct s as [|c' s]; simpl; [done|]. case_decide; naive_solver. Qed.

(** ** [str] of an integer *)

Fixpoint digits_of_uint (u : Decimal.uint) : string :=
  match u with
  | Decimal.Nil => ""
  | Decimal.D0 u => String "0" (digits_of_uint u)
  | Decimal.D1 u => String "1" (digits_of_uint u)
  | Decimal.D2 u => String "2" (digits_of_uint u)
  | Decimal.D3 u => String "3" (digits_of_uint u)
  | Decimal.D4 u => String "4" (digits_of_uint u)
  | Decimal.D5 u => String "5" (digits_of_uint u)
  | Decimal.D6 u => String "6" (digits_of_uint u)
  | Decimal.D7 u => String "7" (digits_of_uint u)
  | Decimal.D8 u => String "8" (digits_of_uint u)
  | Decimal.D9 u => String "9" (digits_of_uint u)
  end.

Definition py_str (z : Z) : string :=
  match Z.to_int z with
  | Decimal.Pos u => digits_of_uint u
  | Decimal.Neg u => String "-" (digits_of_uint u)
  end.

(** ** [int] of a string *)

(** The white space that [int] strips. *)
Definition is_space (c : ascii) : bool :=
  match c with
  | " " | "009" | "010" | "011" | "012" | "013" => true
  | _ => false
  end%char.

Fixpoint lstrip (s : string) : string :=
  match s with
  | EmptyString => ""
  | String c s' => if is_space c then lstrip s' else s
  end.

Fixpoint rstrip (s : string) : string :=
  match s with
  | EmptyString => ""
  | String c s' =>
      match rstrip s' with
      | EmptyString => if is_space c then "" else String c ""
      | r => String c r
      end
  end.

Definition cons_digit (c : ascii) : option (Decimal.uint -> Decimal.uint) :=
  match c with
  | "0" => Some Decimal.D0 | "1" => Some Decimal.D1 | "2" => Some Decimal.D2
  | "3" => Some Decimal.D3 | "4" => Some Decimal.D4 | "5" => Some Decimal.D5
  | "6" => Some Decimal.D6 | "7" => Some Decimal.D7 | "8" => Some Decimal.D8
  | "9" => Some Decimal.D9
  | _ => None
  end%char.

(** Digits with single underscores between them; [after_digit] tells whether
    the previous character was a digit. *)
Fixpoint parse_digits (after_digit : bool) (s : string) : option Decimal.uint :=
  match s with
  | EmptyString => if after_digit then Some Decimal.Nil else None
  | String c s' =>
      match cons_digit c with
      | Some D => D <$> parse_digits true s'
      | None =>
          if (bool_decide (c = "_"%char) && after_digit)%bool
          then parse_digits false s' else None
      end
  end.

(** [int(s)]; [None] is [ValueError]. *)
Definition py_int (s : string) : option Z :=
  match rstrip (lstrip s) with
  | String "-" s' => (fun u => Z.of_int (Decimal.Neg u)) <$> parse_digits false s'
  | String "+" s' => (fun u => Z.of_int (Decimal.Pos u)) <$> parse_digits false s'
  | s' => (fun u => Z.of_int (Decimal.Pos u)) <$> parse_digits false s'
  end.

(** ** Printing and parsing integers *)

Lemma digits_has_char d u :
  cons_digit d = None -> has_char d (digits_of_uint u) = false.
Proof.
  intros Hd. induction u; simpl; [done| ..]; rewrite IHu, orb_false_r;
    apply bool_decide_eq_false; intros <-; done.
Qed.

Lemma py_str_has_char d z :
  cons_digit d = None -> d <> "-"%char -> has_char d (py_str z) = false.
Proof.
  intros Hd Hm. unfold py_str. destruct (Z.to_int z) as [u|u]; simpl.
  - by apply digits_has_char.
  - rewrite digits_has_char by done. rewrite orb_false_r.
    apply bool_decide_eq_false. congruence.
Qed.

(** The printed digits of a number do not contain the delimiter [':']. *)
Lemma py_str_no_colon z : has_char ":" (py_str z) = false.
Proof. by apply py_str_has_char. Qed.

Lemma parse_digits_of_uint b u :
  (u = Decimal.Nil -> b = true) -> parse_digits b (digits_of_uint u) = Some u.
Proof.
  revert b. induction u; intros b Hb; simpl; [by rewrite Hb|..]; by rewrite IHu.
Qed.

Lemma lstrip_digits c u D :
  cons_digit c = Some D -> lstrip (String c (digits_of_uint u)) = String c (digits_of_uint u).
Proof.
  intros Hc. simpl. destruct (is_space c) eqn:E; [|done].
  destruct c as [[] [] [] [] [] [] [] []]; done.
Qed.

Lemma rstrip_digits u : rstrip (digits_of_uint u) = digits_of_uint u.
Proof. induction u; simpl; [done|..]; rewrite IHu; by destruct (digits_of_uint u). Qed.

Lemma rstrip_cons_digits c u :
  is_space c = false ->
  rstrip (String c (digits_of_uint u)) = String c (digits_of_uint u).
Proof. intros Hc. simpl. rewrite rstrip_digits. destruct (digits_of_uint u); [by rewrite Hc|done]. Qed.

Lemma lstrip_digits_of_uint u : lstrip (digits_of_uint u) = digits_of_uint u.
Proof. by destruct u. Qed.

Lemma to_int_nonnil z :
  match Z.to_int z with Decimal.Pos u | Decimal.Neg u => u <> Decimal.Nil end.
Proof.
  destruct z as [|p|p]; simpl; [done|..]; apply DecimalPos.Unsigned.to_uint_nonnil.
Qed.

(** [int(str(z)) == z] *)
Lemma py_int_str z : py_int (py_str z) = Some z.
Proof.
  unfold py_int, py_str. pose proof (DecimalZ.of_to z) as Hz. pose proof (to_int_nonnil z) as Hn.
  destruct (Z.to_int z) as [u|u].
  - rewrite lstrip_digits_of_uint, rstrip_digits.
    assert (parse_digits false (digits_of_uint u) = Some u) as Hp
      by (apply parse_digits_of_uint; done).
    destruct u; simpl in Hp |- *; try done; rewrite Hp; exact (f_equal Some Hz).
  - change (lstrip _) with (String "-" (digits_of_uint u)).
    rewrite rstrip_cons_digits by done.
    rewrite parse_digits_of_uint by done. exact (f_equal Some Hz).
Qed.

#[export] Instance py_str_inj : Inj (=) (=) py_str.
Proof. intros x y H. apply (f_equal py_int) in H. rewrite !py_int_str in H. congruence. Qed.

Lemma py_str_nonempty z : py_str z <> "".
Proof.
  unfold py_str. pose proof (to_int_nonnil z). by destruct (Z.to_int z) as [[]|[]].
Qed.

#[export] Hint Resolve py_str_no_colon py_str_nonempty : tok.
