(* ===== verification/TokenTypes.v ===== *)
(** * Constants, transaction codes and data types of both plugins

    [sovtoken/constants.py], [sovtoken/transactions.py], [sovtoken/types.py],
    [sovtokenfees/constants.py], [sovtokenfees/transactions.py], and the parts of
    requests and transactions that the handlers read. *)

From S2P Require Import Prelude Exceptions PyStr.

Open Scope stdpp_scope.

(** ** Transaction codes *)

Definition TOKEN_PREFIX : string := "1000".

Inductive TokenTransactions := MINT_PUBLIC_TXN | XFER_PUBLIC_TXN | GET_UTXO_TXN.

Definition token_txn_value (t : TokenTransactions) : string :=
  match t with
  | MINT_PUBLIC_TXN => TOKEN_PREFIX +:+ "0"
  | XFER_PUBLIC_TXN => TOKEN_PREFIX +:+ "1"
  | GET_UTXO_TXN => TOKEN_PREFIX +:+ "2"
  end.

(** [TokenTransactions.__str__] *)
Definition token_txn_name (t : TokenTransactions) : string :=
  match t with
  | MINT_PUBLIC_TXN => "MINT_PUBLIC"
  | XFER_PUBLIC_TXN => "XFER_PUBLIC"
  | GET_UTXO_TXN => "GET_UTXO"
  end.

Definition FEES_PREFIX : string := "2000".

Inductive FeesTransactions := SET_FEES_TXN | GET_FEES_TXN | FEES_TXN | GET_FEE_TXN.

Definition fees_txn_value (t : FeesTransactions) : string :=
  match t with
  | SET_FEES_TXN => FEES_PREFIX +:+ "0"
  | GET_FEES_TXN => FEES_PREFIX +:+ "1"
  | FEES_TXN => FEES_PREFIX +:+ "2"
  | GET_FEE_TXN => FEES_PREFIX +:+ "3"
  end.

(** [FeesTransactions.__str__] *)
Definition fees_txn_name (t : FeesTransactions) : string :=
  match t with
  | SET_FEES_TXN => "SET_FEES"
  | GET_FEES_TXN => "GET_FEES"
  | FEES_TXN => "FEES"
  | GET_FEE_TXN => "GET_FEE"
  end.

(** ** Constants of sovtoken *)

Definition INPUTS : string := "inputs".
Definition OUTPUTS : string := "outputs".
Definition EXTRA : string := "extra".
Definition ADDRESS : string := "address".
Definition SIGS : string := "signatures".
Definition RESULT : string := "result".
Definition PAYMENT_ADDRESS : string := "paymentAddress".
Definition AMOUNT : string := "amount".
Definition SEQNO : string := "seqNo".
Definition TOKEN_LEDGER_ID : Z := 1001.
Definition MINT_PUBLIC : string := token_txn_value MINT_PUBLIC_TXN.
Definition XFER_PUBLIC : string := token_txn_value XFER_PUBLIC_TXN.
Definition GET_UTXO : string := token_txn_value GET_UTXO_TXN.
Definition ACCEPTABLE_TXN_TYPES : list string := [MINT_PUBLIC; XFER_PUBLIC; GET_UTXO].
Definition UTXO_CACHE_LABEL : string := "utxo_cache".
Definition ACCEPTABLE_WRITE_TYPES : gset string :=
  {[token_txn_value MINT_PUBLIC_TXN; token_txn_value XFER_PUBLIC_TXN]}.
Definition ACCEPTABLE_QUERY_TYPES : gset string := {[token_txn_value GET_UTXO_TXN]}.
Definition ACCEPTABLE_ACTION_TYPES : gset string := ∅.
Definition UTXO_LIMIT : nat := Z.to_nat 1000.
Definition NEXT_SEQNO : string := "next".
Definition FROM_SEQNO : string := "from".

(** [sovtoken/__init__.py] *)
Definition LEDGER_IDS : gset Z := {[TOKEN_LEDGER_ID]}.

(** ** Constants of sovtokenfees *)

Definition FEES : string := "fees".
Definition FEE : string := "fee".
Definition REF : string := "ref".
Definition FEE_TXNS_IN_BATCH : string := "fee_txns_in_batch".
Definition FEES_SEQ_NO : string := "fees_seqNo".
Definition SET_FEES : string := fees_txn_value SET_FEES_TXN.
Definition GET_FEES : string := fees_txn_value GET_FEES_TXN.
Definition GET_FEE : string := fees_txn_value GET_FEE_TXN.
Definition FEE_TXN : string := fees_txn_value FEES_TXN.
Definition FEES_STATE_PREFIX : string := "200".
Definition FEES_KEY_DELIMITER : string := ":".
Definition FEES_KEY_FOR_ALL : string := "fees".
Definition FEES_FIELD_NAME : string := "fees".
Definition FEE_ALIAS_LENGTH : Z := 128.
Definition MAX_FEE_OUTPUTS : Z := 1.
Definition ACCEPTABLE_WRITE_TYPES_FEE : gset string := {[fees_txn_value SET_FEES_TXN]}.
Definition ACCEPTABLE_QUERY_TYPES_FEE : gset string :=
  {[fees_txn_value GET_FEES_TXN; fees_txn_value GET_FEE_TXN]}.
Definition ACCEPTABLE_ACTION_TYPES_FEE : gset string := ∅.

(** ** Output ([sovtoken/types.py])

    [amount] is [Optional[int]]: spending builds [Output(address, seq_no, None)]. *)

Record Output := mkOutput { out_address : string; out_seqNo : Z; out_amount : option Z }.

#[export] Instance Output_eq_dec : EqDecision Output.
Proof. solve_decision. Defined.

Definition Output_less_than (o other : Output) : bool := (out_seqNo o <? out_seqNo other)%Z.

(** An argument that the code checks with [isinstance(_, Output)]. *)
Inductive maybe_output := IsOutput (o : Output) | NotAnOutput.

(** ** Payments in requests and transactions

    The elements of the [inputs] and [outputs] lists, after static validation. *)

Record PInput := mkInput { in_address : string; in_seqNo : Z }.
Record POutput := mkPOutput { po_address : string; po_amount : Z }.

#[export] Instance PInput_eq_dec : EqDecision PInput.
Proof. solve_decision. Defined.
#[export] Instance POutput_eq_dec : EqDecision POutput.
Proof. solve_decision. Defined.
#[export] Program Instance PInput_countable : Countable PInput :=
  inj_countable' (fun i => (in_address i, in_seqNo i)) (fun p => mkInput p.1 p.2) _.
Next Obligation. by intros []. Qed.

(** [request.operation]: the entries the handlers read; [None] is a missing key. *)
Record operation := mkOperation {
  op_type : string;
  op_inputs : option (list PInput);
  op_outputs : option (list POutput);
  op_sigs : option (list string);
}.

(** [request.fees]: no attribute, the value [None], or a sequence of inputs,
    outputs and signatures of which the code reads a prefix by index. *)
Inductive fees_value :=
  | Fees0
  | Fees1 (ins : list PInput)
  | Fees2 (ins : list PInput) (outs : list POutput)
  | Fees3 (ins : list PInput) (outs : list POutput) (sigs : list string).

Inductive fees_attr := FeesMissing | FeesIsNone | FeesIs (f : fees_value).

Record request := mkRequest {
  identifier : option string;
  reqId : option Z;
  req_operation : operation;
  req_fees : fees_attr;
}.

(** [d[key]] for an entry that may be missing. *)
Definition dict_item {A} (key : string) (o : option A) : res A :=
  match o with Some a => Ok a | None => Raise (KeyError key) end.

(** A transaction: [get_payload_data(txn)] and [get_seq_no(txn)] read its parts. *)
Record txn := mkTxn {
  txn_type : string;
  txn_inputs : option (list PInput);
  txn_outputs : option (list POutput);
  txn_seqNo : Z;
}.
