(* ===== verification/Stores.v ===== *)
(** * Interfaces of the stores the plugins are built on

    [OptimisticKVStore] (the base class of the UTXO cache) and [PruningState]
    (the token and config states) are plenum's code.  They enter the
    development as type classes of operations; what the plugins rely on is
    stated as classes of laws.  The last section has in-memory stores that
    satisfy the laws; they serve to instantiate theorems and are not a model
    of plenum's classes. *)

From S2P Require Import Prelude Exceptions PyStr.

Open Scope stdpp_scope.

(** ** The key-value store under the UTXO cache *)

(** What [get] may return: a [str], a [bytes]/[bytearray] (from a database), or
    some other object, of which only the truth value matters. *)
Inductive pyval := VStr (s : string) | VBytes (s : string) | VOther (truthy : bool).

Definition text_of (v : pyval) : option string :=
  match v with VStr s | VBytes s => Some s | VOther _ => None end.

(** A state root is given as a base58 [str] or as [bytes], which are never equal. *)
Inductive state_root_arg := RootStr (s : string) | RootBytes (b : string).

#[global] Instance state_root_arg_eq_dec : EqDecision state_root_arg.
Proof. solve_decision. Defined.

Class KVStore (K : Type) := {
  (** [get(key, is_committed)]; [None] is [KeyError]. *)
  kv_get : K -> bool -> string -> option pyval;
  (** [set(key, value, is_committed)] *)
  kv_set : K -> bool -> string -> string -> K;
  (** The batch is kept under the state root it is given. *)
  kv_create_batch_from_current : K -> state_root_arg -> K;
  kv_reject_batch : M K Z;
  kv_commit_batch : M K unit;
  kv_first_batch_idr : K -> option state_root_arg;
}.

(** [get] after [set] on the same layer, and the frame of [set]. *)
Class KVStoreLaws (K : Type) `{KVStore K} : Prop := {
  kv_get_set_eq k c key s :
    exists v, kv_get (kv_set k c key s) c key = Some v /\ text_of v = Some s;
  kv_get_set_ne k c key key' s :
    key <> key' -> kv_get (kv_set k c key s) c key' = kv_get k c key';
  kv_get_set_uncommitted k key key' s :
    kv_get (kv_set k false key s) true key' = kv_get k true key';
}.

(** ** A ledger's state trie *)

Class StateStore (T : Type) := {
  (** [get(key, isCommitted)]; [None] is Python's [None]. *)
  st_get : T -> bool -> string -> option string;
  st_set : T -> string -> string -> T;
  st_remove : T -> string -> T;
  st_headHash : T -> string;
  st_committedHeadHash : T -> string;
  st_revertToHead : T -> string -> T;
}.

(** Writes go to the uncommitted head. *)
Class StateStoreLaws (T : Type) `{StateStore T} : Prop := {
  st_get_set_eq t key v : st_get (st_set t key v) false key = Some v;
  st_get_set_ne t key key' v :
    key <> key' -> st_get (st_set t key v) false key' = st_get t false key';
  st_get_remove_eq t key : st_get (st_remove t key) false key = None;
  st_get_remove_ne t key key' :
    key <> key' -> st_get (st_remove t key) false key' = st_get t false key';
}.

(** ** The layers of the two stores

    Batches make the stores keep several versions.  [KVViewLaws] describes the
    optimistic key-value store by the texts it shows at three places: the
    committed ones, those at the end of each uncommitted batch (oldest first,
    under the name the batch was given) and the current ones.  Rejecting is only
    described when nothing was written after the batch. *)

Class KVViewLaws (K : Type) `{KVStore K} := {
  kv_committed : K -> gmap string string;
  kv_views : K -> list (state_root_arg * gmap string string);
  kv_current : K -> gmap string string;
  kv_get_view (k : K) (c : bool) (key : string) :
    match (if c then kv_committed k else kv_current k) !! key with
    | Some s => exists v, kv_get k c key = Some v /\ text_of v = Some s
    | None => kv_get k c key = None
    end;
  kv_current_set (k : K) key s : kv_current (kv_set k false key s) = <[key := s]> (kv_current k);
  kv_committed_set (k : K) key s : kv_committed (kv_set k false key s) = kv_committed k;
  kv_views_set (k : K) key s : kv_views (kv_set k false key s) = kv_views k;
  kv_views_first (k : K) : kv_first_batch_idr k = fst <$> head (kv_views k);
  kv_current_create (k : K) idr : kv_current (kv_create_batch_from_current k idr) = kv_current k;
  kv_committed_create (k : K) idr : kv_committed (kv_create_batch_from_current k idr) = kv_committed k;
  kv_views_create (k : K) idr :
    kv_views (kv_create_batch_from_current k idr) = kv_views k ++ [(idr, kv_current k)];
  kv_views_commit (k : K) b bs :
    kv_views k = b :: bs ->
    exists k', kv_commit_batch k = (Ok tt, k') /\ kv_views k' = bs /\
      kv_committed k' = b.2 /\ kv_current k' = kv_current k;
  kv_views_reject (k : K) bs b :
    kv_views k = bs ++ [b] -> kv_current k = b.2 ->
    exists n k', kv_reject_batch k = (Ok n, k') /\ kv_views k' = bs /\
      kv_committed k' = kv_committed k /\ kv_current k' = last_or (kv_committed k) bs.*2;
}.

(** A trie keeps the nodes of the roots it has had: [st_at t h key] is the value
    of [key] under the root [h], meaningful for the roots [st_known]. *)
Inductive st_write {T : Type} `{StateStore T} (t : T) : T -> Prop :=
  | st_write_set key v : st_write t (st_set t key v)
  | st_write_remove key : st_write t (st_remove t key)
  | st_write_revert h : st_write t (st_revertToHead t h).

Class StateHistoryLaws (T : Type) `{StateStore T} := {
  st_known : T -> string -> Prop;
  st_at : T -> string -> string -> option string;
  st_get_head (t : T) key : st_get t false key = st_at t (st_headHash t) key;
  st_get_committed (t : T) key : st_get t true key = st_at t (st_committedHeadHash t) key;
  st_known_head (t : T) : st_known t (st_headHash t);
  st_known_write (t t' : T) h : st_write t t' -> st_known t h -> st_known t' h;
  st_at_write (t t' : T) h key : st_write t t' -> st_known t h -> st_at t' h key = st_at t h key;
  st_committed_write (t t' : T) : st_write t t' -> st_committedHeadHash t' = st_committedHeadHash t;
  st_revert_head (t : T) h : st_known t h -> st_headHash (st_revertToHead t h) = h;
}.

(** ** In-memory instances *)

Module Mem.
Record kv := mkKv {
  committed : gmap string string;
  uncommitted : list (state_root_arg * gmap string string);  (* oldest first *)
  current : gmap string string;
}.

Definition empty_kv : kv := mkKv ∅ [] ∅.

Fixpoint find_layer (key : string) (ls : list (gmap string string)) : option string :=
  match ls with
  | [] => None
  | l :: ls => match l !! key with Some v => Some v | None => find_layer key ls end
  end.

Definition get (k : kv) (c : bool) (key : string) : option pyval :=
  if c then VBytes <$> committed k !! key
  else match find_layer key (current k :: reverse (uncommitted k).*2) with
       | Some s => Some (VStr s)
       | None => VBytes <$> committed k !! key
       end.

Definition set (k : kv) (c : bool) (key s : string) : kv :=
  if c then mkKv (<[key := s]> (committed k))
                 ((fun b => (b.1, delete key b.2)) <$> uncommitted k) (delete key (current k))
  else mkKv (committed k) (uncommitted k) (<[key := s]> (current k)).

Definition create_batch (k : kv) (idr : state_root_arg) : kv :=
  mkKv (committed k) (uncommitted k ++ [(idr, current k)]) ∅.

Definition reject_batch : M kv Z := fun k =>
  match reverse (uncommitted k) with
  | [] => (Raise (ValueError (Msg "No items to reject" [])), k)
  | b :: bs => (Ok (Z.of_nat (size b.2)), mkKv (committed k) (reverse bs) ∅)
  end.

Definition commit_batch : M kv unit := fun k =>
  match uncommitted k with
  | [] => (Raise (ValueError (Msg "No items to commit" [])), k)
  | b :: bs => (Ok tt, mkKv (b.2 ∪ committed k) bs (current k))
  end.

#[global] Instance kv_store : KVStore kv := {
  kv_get := get; kv_set := set; kv_create_batch_from_current := create_batch;
  kv_reject_batch := reject_batch; kv_commit_batch := commit_batch;
  kv_first_batch_idr k := fst <$> head (uncommitted k);
}.

(** The texts after each batch, and what a key has at the last one. *)
Fixpoint views_from (c : gmap string string) (us : list (state_root_arg * gmap string string))
    : list (state_root_arg * gmap string string) :=
  match us with
  | [] => []
  | u :: us => (u.1, u.2 ∪ c) :: views_from (u.2 ∪ c) us
  end.

Lemma views_from_snoc c us u :
  views_from c (us ++ [u]) = views_from c us ++ [(u.1, u.2 ∪ last_or c (views_from c us).*2)].
Proof.
  revert c. induction us as [|u' us IH]; intros c; [done|]. simpl. by rewrite IH.
Qed.

Lemma last_view_lookup c us key :
  last_or c (views_from c us).*2 !! key =
    match find_layer key (reverse us.*2) with Some s => Some s | None => c !! key end.
Proof.
  induction us as [|u us IH] using rev_ind; [done|].
  rewrite views_from_snoc, !fmap_app, reverse_app. cbn [fmap list_fmap snd].
  rewrite last_or_snoc, lookup_union. simpl. rewrite IH.
  destruct (u.2 !! key) as [s|]; [by rewrite union_Some_l|]. by rewrite (left_id_L None (∪)).
Qed.

#[global] Instance kv_store_laws : KVStoreLaws kv.
Proof.
  split; intros k; [intros [] key s | intros [] key key' s Hne | ]; simpl.
  - exists (VBytes s). by rewrite lookup_insert_eq.
  - exists (VStr s). by rewrite lookup_insert_eq.
  - by rewrite lookup_insert_ne.
  - unfold get. simpl. by rewrite lookup_insert_ne.
  - done.
Qed.

#[global] Program Instance kv_view_laws : KVViewLaws kv := {
  kv_committed := committed;
  kv_views k := views_from (committed k) (uncommitted k);
  kv_current k := current k ∪ last_or (committed k) (views_from (committed k) (uncommitted k)).*2;
}.
Next Obligation.
  intros k c key. simpl. unfold get. destruct c.
  - destruct (committed k !! key); [by eexists|done].
  - rewrite lookup_union, last_view_lookup. cbn [find_layer]. destruct (current k !! key) as [v|]; simpl.
    { rewrite union_Some_l. by eexists. }
    rewrite (left_id_L None (∪)). destruct (find_layer key _) as [v|]; [by eexists|].
    destruct (committed k !! key); [by eexists|done].
Qed.
Next Obligation. intros k key s. simpl. by rewrite insert_union_l. Qed.
Next Obligation. done. Qed.
Next Obligation. done. Qed.
Next Obligation. intros k. simpl. by destruct (uncommitted k). Qed.
Next Obligation.
  intros k idr. simpl. rewrite views_from_snoc, fmap_app. cbn [fmap list_fmap snd].
  rewrite last_or_snoc. by rewrite (left_id_L ∅ (∪)).
Qed.
Next Obligation. done. Qed.
Next Obligation. intros k idr. simpl. by rewrite views_from_snoc. Qed.
Next Obligation.
  intros k b bs Hk. simpl in *. unfold commit_batch.
  destruct (uncommitted k) as [|u us]; [done|]. simplify_eq/=. by eexists.
Qed.
Next Obligation.
  intros k bs b Hk Hc. simpl in *. unfold reject_batch.
  destruct (uncommitted k) as [|u us _] using rev_ind; [by destruct bs|].
  rewrite views_from_snoc in Hk. apply app_inj_tail in Hk as [<- <-]. rewrite reverse_snoc.
  eexists _, _. split_and!; [done|..]; simpl; rewrite ?reverse_involutive; try done. by rewrite (left_id_L ∅ (∪)).
Qed.

(** A state: the uncommitted and the committed trie, each with its hash, here
    a number that encodes all its entries. *)
Record state := mkState { head : gmap string string; chead : gmap string string }.

Definition empty_state : state := mkState ∅ ∅.

Definition hash (m : gmap string string) : string :=
  py_str (Zpos (encode m)).

Definition unhash (h : string) : option (gmap string string) :=
  match py_int h with Some (Zpos p) => decode p | _ => None end.

Lemma unhash_hash m : unhash (hash m) = Some m.
Proof. unfold unhash, hash. by rewrite py_int_str, decode_encode. Qed.

#[global] Instance state_store : StateStore state := {
  st_get t c key := (if c then chead t else head t) !! key;
  st_set t key v := mkState (<[key := v]> (head t)) (chead t);
  st_remove t key := mkState (delete key (head t)) (chead t);
  st_headHash t := hash (head t);
  st_committedHeadHash t := hash (chead t);
  st_revertToHead t h := mkState (default (head t) (unhash h)) (chead t);
}.

#[global] Instance state_store_laws : StateStoreLaws state.
Proof.
  split; intros; simpl;
    rewrite ?lookup_insert_eq, ?lookup_delete_eq, ?lookup_insert_ne, ?lookup_delete_ne; done.
Qed.

#[global] Program Instance state_history_laws : StateHistoryLaws state := {
  st_known t h := exists m, h = hash m;
  st_at t h key := unhash h ≫= lookup key;
}.
Next Obligation. intros. simpl. by rewrite unhash_hash. Qed.
Next Obligation. intros. simpl. by rewrite unhash_hash. Qed.
Next Obligation. intros t. by exists (head t). Qed.
Next Obligation. done. Qed.
Next Obligation. done. Qed.
Next Obligation. by intros t _ []. Qed.
Next Obligation. intros t h [m ->]. simpl. by rewrite unhash_hash. Qed.
End Mem.
