(* ===== verification/UtxoAmounts.v ===== *)
(** * UTXOAmounts ([sovtoken/utxo_cache.py])

    The unspent outputs of one address, kept as the flat list
    [seq_no, amount, seq_no, amount, ...] of decimal strings and stored as its
    [':']-joined text. *)

From S2P Require Import Prelude Exceptions PyStr TokenTypes Stores.

Open Scope stdpp_scope.

Record UTXOAmounts := mkAmounts { ua_address : string; ua_data : list string }.

Definition DELIMITER : ascii := ":".

(** [if data:] *)
Definition truthy (v : pyval) : bool :=
  match v with
  | VStr s | VBytes s => negb (bool_decide (s = ""))
  | VOther b => b
  end.

Definition UTXOAmounts_init (address : string) (data : option pyval) : res UTXOAmounts :=
  match data with
  | Some v =>
      if truthy v then
        match text_of v with
        | None => Raise (UTXOError (Msg "Items are not valid string -- '{}'" [MVal true]))
        | Some s =>
            let split := py_split DELIMITER s in
            if Nat.even (length split) then Ok (mkAmounts address split)
            else Raise (UTXOError (Msg "Stored seqNo-amount pairs is not even" []))
        end
      else Ok (mkAmounts address [])
  | None => Ok (mkAmounts address [])
  end.

(** The class method [get_amounts]; [KeyError] of the cache is the only
    exception its [except] clause sees, since the constructor raises none. *)
Definition get_amounts {K} `{KVStore K} (address : string) (cache : K)
    (make_new is_committed : bool) : res UTXOAmounts :=
  match kv_get cache is_committed address with
  | Some data => UTXOAmounts_init address (Some data)
  | None =>
      if make_new then UTXOAmounts_init address None
      else Raise (UTXOAddressNotFound (Msg "Address {} was not found" [MStr address]))
  end.

(** [seq_no] is an [int] by its type; [amount] is when it is not [None]. *)
Definition add_amount (seq_no : Z) (amount : option Z) : M UTXOAmounts unit := fun self =>
  match amount with
  | None =>
      (Raise (UTXOError (Msg "Adding invalid types -- seqNo:{} amount:{}" [MInt seq_no; MNone])), self)
  | Some a => (Ok tt, mkAmounts (ua_address self) (ua_data self ++ [py_str seq_no; py_str a]))
  end.

(** The loop [for i in range(0, len(data), 2): if data[i] == s: break]. *)
Fixpoint find_seq_no (s : string) (data : list string) (i : nat) : option nat :=
  match data with
  | [] => None
  | x :: rest =>
      if decide (x = s) then Some i
      else match rest with
           | [] => None
           | _ :: rest' => find_seq_no s rest' (S (S i))
           end
  end.

Definition remove_seq_no (seq_no : Z) : M UTXOAmounts unit := fun self =>
  let data := ua_data self in
  let seq_no_str := py_str seq_no in
  match find_seq_no seq_no_str data 0 with
  | None =>
      (Raise (UTXONotFound (Msg "seq_no {} is not found is list of seq_nos_amounts for address -- current list: {}"
                                [MStr seq_no_str; MStrs data])), self)
  | Some i =>
      if ((i <? length data) && (i + 1 <? length data))%nat%bool
      then (Ok tt, mkAmounts (ua_address self) (delete i (delete i data)))
      else (Raise (UTXOError (Msg "Unable to remove seq_no from address" [])), self)
  end.

(** [int(s)] *)
Definition int_of (s : string) : res Z :=
  match py_int s with
  | Some z => Ok z
  | None => Raise (ValueError (Msg "invalid literal for int() with base 10: {}" [MStr s]))
  end.

(** The loop of [sum_amounts]: what is left of [data], of the requested
    [seq_nos], and the running [total]. *)
Fixpoint sum_loop (data : list string) (seq_nos : gset Z) (total : Z) : res (Z * gset Z) :=
  match data with
  | [] => Ok (total, seq_nos)
  | x :: rest =>
      let? n := int_of x in
      if decide (n ∈ seq_nos) then
        match rest with
        | [] => Raise IndexError
        | y :: rest' =>
            let? a := int_of y in
            let seq_nos' := seq_nos ∖ {[n]} in
            if decide (seq_nos' = ∅) then Ok ((total + a)%Z, seq_nos')
            else sum_loop rest' seq_nos' (total + a)%Z
        end
      else match rest with
           | [] => Ok (total, seq_nos)
           | _ :: rest' => sum_loop rest' seq_nos total
           end
  end.

Definition sum_amounts (self : UTXOAmounts) (seq_nos : gset Z) : res Z :=
  let? r := sum_loop (ua_data self) seq_nos 0%Z in
  if decide (r.2 = ∅) then Ok r.1
  else Raise (UTXONotFound
         (Msg "seq_nos {} are not found in list of seq_nos_amounts for address {} -- current list: {}"
              [MInts (elements r.2); MStr (ua_address self); MStrs (ua_data self)])).

(** The loop of [as_output_list]; [ValueError] of [int] becomes [UTXOError]. *)
Fixpoint outputs_loop (address : string) (data : list string) : res (list Output) :=
  match data with
  | [] => Ok []
  | [_] => Raise IndexError
  | x :: y :: rest =>
      match py_int x, py_int y with
      | Some seq_no, Some amount =>
          let? rtn := outputs_loop address rest in
          Ok (mkOutput address seq_no (Some amount) :: rtn)
      | _, _ =>
          Raise (UTXOError (Msg "Invalid data -- not integers -- seq_no:{} amount:{}, address:{}"
                                [MStr x; MStr y; MStr address]))
      end
  end.

Definition odd_length_error (data : list string) : exn :=
  UTXOError (Msg "Length of seqNo-amount pairs must be even: items={}" [MInt (Z.of_nat (length data))]).

Definition as_output_list (self : UTXOAmounts) : res (list Output) :=
  if Nat.even (length (ua_data self)) then outputs_loop (ua_address self) (ua_data self)
  else Raise (odd_length_error (ua_data self)).

Definition as_str (self : UTXOAmounts) : res string :=
  if Nat.even (length (ua_data self)) then Ok (py_join DELIMITER (ua_data self))
  else Raise (odd_length_error (ua_data self)).

(** ** The list of pairs a record stands for *)

Fixpoint flat (l : list (Z * Z)) : list string :=
  match l with
  | [] => []
  | (s, a) :: l' => py_str s :: py_str a :: flat l'
  end.

(** The text under which the pairs [l] are stored. *)
Definition utxo_text (l : list (Z * Z)) : string := py_join DELIMITER (flat l).

(** The amounts of the requested numbers, each counted once. *)
Definition amounts_of (l : list (Z * Z)) (seq_nos : gset Z) : Z :=
  zsum (omap (fun s => alookup s l) (elements seq_nos)).

(** ** Lemmas *)

Lemma flat_app l1 l2 : flat (l1 ++ l2) = flat l1 ++ flat l2.
Proof. induction l1 as [|[s a] l1 IH]; simpl; [done|]. by rewrite IH. Qed.

Lemma flat_even l : Nat.even (length (flat l)) = true.
Proof. by induction l as [|[s a] l IH]. Qed.

Lemma flat_no_delimiter l : Forall (fun s => has_char DELIMITER s = false) (flat l).
Proof. induction l as [|[s a] l IH]; simpl; repeat constructor; auto with tok. Qed.

Lemma as_str_flat addr l : as_str (mkAmounts addr (flat l)) = Ok (utxo_text l).
Proof. unfold as_str. simpl. by rewrite flat_even. Qed.

(** A non-empty even list of pieces prints to a non-empty text. *)
Lemma py_join_pair_nonempty d x y l : py_join d (x :: y :: l) <> "".
Proof. rewrite py_join_cons by done. by destruct x. Qed.

(** The constructor inverts [as_str] on pieces without the delimiter. *)
Lemma init_as_str addr data v s :
  Forall (fun x => has_char DELIMITER x = false) data ->
  as_str (mkAmounts addr data) = Ok s -> text_of v = Some s ->
  UTXOAmounts_init addr (Some v) = Ok (mkAmounts addr data).
Proof.
  intros Hnd Hs Hv. unfold as_str in Hs. simpl in Hs.
  destruct (Nat.even (length data)) eqn:He; [|done]. injection Hs as <-.
  unfold UTXOAmounts_init.
  assert (truthy v = negb (bool_decide (py_join DELIMITER data = ""))) as Ht
    by (by destruct v; simplify_eq/=).
  rewrite Ht, Hv. destruct data as [|x [|y data]]; [done|done|].
  rewrite bool_decide_eq_false_2 by apply py_join_pair_nonempty. simpl negb. cbv iota zeta.
  by rewrite py_split_join, He.
Qed.

Lemma init_utxo_text addr l v :
  text_of v = Some (utxo_text l) -> UTXOAmounts_init addr (Some v) = Ok (mkAmounts addr (flat l)).
Proof. intros. eapply init_as_str; eauto using flat_no_delimiter, as_str_flat. Qed.

Lemma find_seq_no_flat s l i :
  match find_seq_no (py_str s) (flat l) i with
  | None => alookup s l = None
  | Some j => exists k l1 a l2,
      j = (i + 2 * k)%nat /\ k = length l1 /\ l = l1 ++ (s, a) :: l2 /\ alookup s l1 = None
  end.
Proof.
  revert i. induction l as [|[n a] l IH]; intros i; simpl; [done|].
  destruct (decide (n = s)) as [->|Hne].
  - rewrite decide_True by done. exists 0%nat, [], a, l. split_and!; [lia|done|done|done].
  - rewrite decide_False by (intros ?%(inj py_str); done).
    specialize (IH (S (S i))). destruct (find_seq_no _ _ _) as [j|]; [|done].
    destruct IH as (k & l1 & b & l2 & -> & -> & -> & Hl).
    exists (S (length l1)), ((n, a) :: l1), b, l2. split_and!; [lia|done|done|].
    simpl. by rewrite decide_False.
Qed.

Lemma length_flat l : length (flat l) = (2 * length l)%nat.
Proof. induction l as [|[s a] l IH]; simpl; lia. Qed.

Lemma adelete_app_cons s a (l1 l2 : list (Z * Z)) :
  alookup s l1 = None -> adelete s (l1 ++ (s, a) :: l2) = l1 ++ l2.
Proof.
  induction l1 as [|[n b] l1 IH]; simpl; [by rewrite decide_True|].
  case_decide; [done|]. intros. by rewrite IH.
Qed.

Lemma alookup_app_cons s a (l1 l2 : list (Z * Z)) :
  alookup s l1 = None -> alookup s (l1 ++ (s, a) :: l2) = Some a.
Proof. intros. rewrite alookup_app, H. simpl. by rewrite decide_True. Qed.

(** [remove_seq_no] on stored pairs: it fails exactly when the number is
    absent, and otherwise removes its first entry. *)
Lemma remove_seq_no_flat addr l s :
  exec (remove_seq_no s) (mkAmounts addr (flat l)) =
    match alookup s l with
    | Some _ => Ok (mkAmounts addr (flat (adelete s l)))
    | None => Raise (UTXONotFound
        (Msg "seq_no {} is not found is list of seq_nos_amounts for address -- current list: {}"
             [MStr (py_str s); MStrs (flat l)]))
    end.
Proof.
  unfold exec, remove_seq_no. simpl. pose proof (find_seq_no_flat s l 0) as Hf.
  destruct (find_seq_no _ _ _) as [j|].
  - destruct Hf as (k & l1 & a & l2 & -> & -> & -> & Hl). simpl.
    rewrite alookup_app_cons, adelete_app_cons by done.
    pose proof (length_flat (l1 ++ (s, a) :: l2)) as Hlen.
    rewrite length_app in Hlen. simpl in Hlen.
    rewrite !(proj2 (Nat.ltb_lt _ _)) by lia. simpl. do 2 f_equal.
    rewrite !flat_app. simpl. pose proof (length_flat l1) as H1. simpl in H1.
    by rewrite <- H1, !delete_middle.
  - by rewrite Hf.
Qed.

Lemma amounts_of_cons_in n a l (X : gset Z) :
  n ∈ X -> amounts_of ((n, a) :: l) X = (a + amounts_of l (X ∖ {[n]}))%Z.
Proof.
  intros Hn. unfold amounts_of.
  assert (elements X ≡ₚ n :: elements (X ∖ {[n]})) as ->.
  { rewrite <- elements_union_singleton by set_solver.
    by rewrite <- union_difference_singleton_L. }
  simpl. rewrite decide_True by done. simpl. do 2 f_equal.
  apply list_omap_ext, Forall2_same_length_lookup.
  split; [done|]. intros i x y Hx Hy. rewrite Hx in Hy. injection Hy as <-.
  apply list_elem_of_lookup_2, elem_of_elements in Hx.
  by rewrite decide_False by set_solver.
Qed.

Lemma amounts_of_cons_notin n a l (X : gset Z) :
  n ∉ X -> amounts_of ((n, a) :: l) X = amounts_of l X.
Proof.
  intros Hn. unfold amounts_of. f_equal. apply omap_ext_elem.
  intros x Hx%elem_of_elements. simpl. by rewrite decide_False by set_solver.
Qed.

Lemma amounts_of_empty l : amounts_of l ∅ = 0%Z.
Proof. unfold amounts_of. by rewrite elements_empty. Qed.

Lemma int_of_py_str z : int_of (py_str z) = Ok z.
Proof. unfold int_of. by rewrite py_int_str. Qed.

Lemma sum_loop_flat l X t :
  sum_loop (flat l) X t = Ok ((t + amounts_of l X)%Z, X ∖ list_to_set l.*1).
Proof.
  revert X t. induction l as [|[n a] l IH]; intros X t.
  - simpl. unfold amounts_of. rewrite (omap_ext_elem _ (fun _ => None)) by done.
    replace (omap _ (elements X)) with (@nil Z)
      by (generalize (elements X); intros e; induction e; simpl; auto).
    f_equal. f_equal; [by rewrite zsum_nil, Z.add_0_r|set_solver].
  - cbn [flat sum_loop fmap list_fmap list_to_set fst]. rewrite int_of_py_str. cbn [res_bind].
    destruct (decide (n ∈ X)) as [Hin|Hin].
    + rewrite int_of_py_str, amounts_of_cons_in by done. cbn [res_bind]. rewrite Z.add_assoc.
      destruct (decide (X ∖ {[n]} = ∅)) as [He|He].
      * rewrite He, amounts_of_empty, Z.add_0_r. do 2 f_equal. set_solver.
      * rewrite IH. do 2 f_equal. set_solver.
    + rewrite IH, amounts_of_cons_notin by done. do 2 f_equal. set_solver.
Qed.

(** [sum_amounts] on stored pairs: the amounts of the requested numbers if all
    are there, [UTXONotFound] otherwise. *)
Lemma sum_amounts_flat addr l X :
  X ⊆ list_to_set l.*1 -> sum_amounts (mkAmounts addr (flat l)) X = Ok (amounts_of l X).
Proof.
  intros HX. unfold sum_amounts. cbn [ua_data]. rewrite sum_loop_flat. simpl.
  by rewrite decide_True by set_solver.
Qed.

Lemma sum_amounts_flat_missing addr l (X : gset Z) :
  ~ X ⊆ list_to_set l.*1 ->
  exists m, sum_amounts (mkAmounts addr (flat l)) X = Raise (UTXONotFound m).
Proof.
  intros HX. unfold sum_amounts. cbn [ua_data]. rewrite sum_loop_flat. simpl.
  rewrite decide_False; [eauto|].
  intros He. apply HX. intros x Hx. apply dec_stable. intros Hn. set_solver.
Qed.

Lemma as_output_list_flat addr l :
  as_output_list (mkAmounts addr (flat l)) =
    Ok ((fun p => mkOutput addr p.1 (Some p.2)) <$> l).
Proof.
  unfold as_output_list. cbn [ua_data ua_address]. rewrite flat_even.
  induction l as [|[s a] l IH]; [done|].
  cbn [flat outputs_loop]. rewrite !py_int_str, IH. done.
Qed.

Lemma add_amount_flat addr l s a :
  exec (add_amount s (Some a)) (mkAmounts addr (flat l)) = Ok (mkAmounts addr (flat (l ++ [(s, a)]))).
Proof. unfold exec, add_amount. simpl. by rewrite flat_app. Qed.

(** ** The even-length invariant

    The objects the program can build: from a stored value or none, then changed
    by the two methods, whatever their results. *)

Inductive amounts_reachable : UTXOAmounts -> Prop :=
  | reach_init address data u :
      UTXOAmounts_init address data = Ok u -> amounts_reachable u
  | reach_add u seq_no amount :
      amounts_reachable u -> amounts_reachable (add_amount seq_no amount u).2
  | reach_remove u seq_no :
      amounts_reachable u -> amounts_reachable (remove_seq_no seq_no u).2.

Lemma find_seq_no_bound s data i j :
  find_seq_no s data i = Some j ->
  exists k, j = (i + 2 * k)%nat /\ (2 * k < length data)%nat.
Proof.
  assert (forall n data i, (length data <= n)%nat -> find_seq_no s data i = Some j ->
            exists k, j = (i + 2 * k)%nat /\ (2 * k < length data)%nat) as Hn; [|by eapply Hn].
  clear. induction n as [|n IH]; intros [|x [|y data]] i Hlen; simpl in *; try done; try lia.
  - case_decide; [|done]. intros [= <-]. exists 0%nat. lia.
  - case_decide; [intros [= <-]; exists 0%nat; lia|].
    intros (k & -> & Hk)%IH; [|lia]. exists (S k). lia.
Qed.

Lemma remove_seq_no_outcome s u :
  Nat.even (length (ua_data u)) = true ->
  match remove_seq_no s u with
  | (Ok _, u') => length (ua_data u') = (length (ua_data u) - 2)%nat
  | (Raise e, u') => (exists msg, e = UTXONotFound msg) /\ u' = u
  end.
Proof.
  intros He. unfold remove_seq_no. destruct (find_seq_no _ _ _) as [i|] eqn:Hf; [|by eauto].
  apply find_seq_no_bound in Hf as (k & -> & Hk).
  apply Nat.even_spec in He as [h Hh]. rewrite !(proj2 (Nat.ltb_lt _ _)) by lia. simpl.
  assert (length (delete (0 + 2 * k)%nat (ua_data u)) = (length (ua_data u) - 1)%nat) as Hd
    by (apply length_delete, lookup_lt_is_Some; lia).
  simpl in Hd. rewrite length_delete; [lia|]. apply lookup_lt_is_Some. lia.
Qed.

Lemma amounts_reachable_even u : amounts_reachable u -> Nat.even (length (ua_data u)) = true.
Proof.
  induction 1 as [address data u Hu|u s a Hu IH|u s Hu IH].
  - destruct data as [v|]; simpl in Hu; repeat case_match; by simplify_eq/=.
  - destruct a as [a|]; simpl; [|done]. rewrite length_app, Nat.even_add, IH. done.
  - pose proof (remove_seq_no_outcome s u IH) as Ho.
    destruct (remove_seq_no s u) as [[[]|e] u']; simpl in *; [|by destruct Ho as [_ ->]].
    rewrite Ho. apply Nat.even_spec in IH as [h ->].
    replace (2 * h - 2)%nat with (2 * (h - 1))%nat by lia. by rewrite Nat.even_even.
Qed.

(** ** Properties *)

(** C36: storing and reloading an address's record is the identity: the text
    [as_str] prints, read back as a [str] or as [bytes], gives the same list
    (the pieces the program writes never contain the delimiter). *)
Theorem amounts_roundtrip address data v s :
  Forall (fun x => has_char DELIMITER x = false) data ->
  as_str (mkAmounts address data) = Ok s -> text_of v = Some s ->
  UTXOAmounts_init address (Some v) = Ok (mkAmounts address data).
Proof. apply init_as_str. Qed.

Lemma amounts_roundtrip_witness :
  UTXOAmounts_init "alice" (Some (VBytes "1:10:2:20")) = Ok (mkAmounts "alice" ["1"; "10"; "2"; "20"]).
Proof. by apply (amounts_roundtrip _ _ _ "1:10:2:20"); [repeat constructor|..]. Defined.

(** C37: no reachable record can fail to print: its list always has even length,
    so [as_str] succeeds, and [remove_seq_no] either removes one pair or
    raises [UTXONotFound] and changes nothing (its "Unable to remove" error and
    the odd-length errors are unreachable). *)
Theorem amounts_always_even u :
  amounts_reachable u ->
  (exists s, as_str u = Ok s) /\
  (forall seq_no, match remove_seq_no seq_no u with
                  | (Ok _, u') => length (ua_data u') = (length (ua_data u) - 2)%nat
                  | (Raise e, u') => (exists msg, e = UTXONotFound msg) /\ u' = u
                  end).
Proof.
  intros He%amounts_reachable_even. split.
  - unfold as_str. rewrite He. eauto.
  - intros seq_no. by apply remove_seq_no_outcome.
Qed.

Lemma amounts_always_even_witness :
  exists s, as_str (mkAmounts "alice" ["1"; "10"]) = Ok s.
Proof.
  apply (amounts_always_even (mkAmounts "alice" ["1"; "10"])).
  by apply (reach_init "alice" (Some (VStr "1:10"))).
Defined.

(** [sum_amounts] on stored pairs: the amounts of the requested sequence
    numbers, each counted once, if all of them are stored; [UTXONotFound] if one
    is missing. *)
Theorem sum_amounts_correct address l (seq_nos : gset Z) :
  (seq_nos ⊆ list_to_set l.*1 ->
     sum_amounts (mkAmounts address (flat l)) seq_nos = Ok (amounts_of l seq_nos)) /\
  (~ seq_nos ⊆ list_to_set l.*1 ->
     exists msg, sum_amounts (mkAmounts address (flat l)) seq_nos = Raise (UTXONotFound msg)).
Proof. split; [apply sum_amounts_flat|apply sum_amounts_flat_missing]. Qed.
