(* ===== verification/UtxoCache.v ===== *)
(** * UTXOCache ([sovtoken/utxo_cache.py])

    The cache of unspent outputs: one entry per address in the optimistic
    key-value store, holding the text of the address's [UTXOAmounts].  The
    abstract view is a finite map from addresses to lists of pairs (sequence
    number, amount); every operation is shown to implement its abstract
    counterpart on that map. *)

From S2P Require Import Prelude Exceptions PyStr TokenTypes Stores UtxoAmounts.

Open Scope stdpp_scope.

Definition _is_valid_output (output : maybe_output) : res Output :=
  match output with
  | IsOutput o => Ok o
  | NotAnOutput => Raise (UTXOError (Msg "Output is invalid object type" []))
  end.

(** ['{}'.format(output.address)]; the class [UTXOAmounts] repeats it. *)
Definition _create_key (output : Output) : string := out_address output.

(** [addresses = defaultdict(set)] filled with the inputs. *)
Definition add_to_group (groups : list (string * gset Z)) (inp : PInput) : list (string * gset Z) :=
  aset (in_address inp)
       ({[in_seqNo inp]} ∪ default ∅ (alookup (in_address inp) groups)) groups.

Definition group_inputs (inputs : list PInput) : list (string * gset Z) :=
  foldl add_to_group [] inputs.

Section UTXOCache.
Context {K : Type} `{KVStore K}.

Definition add_output (output : maybe_output) (is_committed : bool) : M K unit :=
  let! o := lift (_is_valid_output output) in
  let! cache := get in
  let! amounts := lift (get_amounts (out_address o) cache true is_committed) in
  let! amounts := lift (exec (add_amount (out_seqNo o) (out_amount o)) amounts) in
  let! s := lift (as_str amounts) in
  modify (fun k => kv_set k is_committed (out_address o) s).

Definition spend_output (output : maybe_output) (is_committed : bool) : M K unit :=
  let! o := lift (_is_valid_output output) in
  let! cache := get in
  let! amounts := lift (get_amounts (out_address o) cache false is_committed) in
  let! amounts := lift (exec (remove_seq_no (out_seqNo o)) amounts) in
  let! s := lift (as_str amounts) in
  modify (fun k => kv_set k is_committed (out_address o) s).

Definition get_unspent_outputs (cache : K) (address : string) (is_committed : bool) : res (list Output) :=
  let? amounts := get_amounts address cache true is_committed in
  as_output_list amounts.

(** [for addr, seq_nos in addresses.items(): ...] *)
Fixpoint sum_groups (cache : K) (is_committed : bool) (groups : list (string * gset Z))
    (output_val : Z) : res Z :=
  match groups with
  | [] => Ok output_val
  | (addr, seq_nos) :: groups' =>
      let? amounts := get_amounts addr cache false is_committed in
      let? total := sum_amounts amounts seq_nos in
      sum_groups cache is_committed groups' (output_val + total)%Z
  end.

Definition sum_inputs (cache : K) (inputs : list PInput) (is_committed : bool) : res Z :=
  sum_groups cache is_committed (group_inputs inputs) 0%Z.
End UTXOCache.

(** ** The abstract set of unspent outputs *)

Abbreviation utxos := (gmap string (list (Z * Z))).

Definition u_list (m : utxos) (a : string) : list (Z * Z) := default [] (m !! a).

Definition u_amount (m : utxos) (i : PInput) : option Z :=
  alookup (in_seqNo i) (u_list m (in_address i)).

Definition u_add (m : utxos) (a : string) (s amount : Z) : utxos :=
  <[a := u_list m a ++ [(s, amount)]]> m.

Definition u_spend (m : utxos) (i : PInput) : utxos :=
  <[in_address i := adelete (in_seqNo i) (u_list m (in_address i))]> m.

Definition sum_pairs (l : list (Z * Z)) : Z := zsum l.*2.

(** All the tokens in existence. *)
Definition supply (m : utxos) : Z := zsum (sum_pairs <$> (map_to_list m).*2).

(** No address holds two outputs with the same sequence number. *)
Definition u_wf (m : utxos) : Prop := forall a, NoDup (u_list m a).*1.

(** The cache [k] shows, in its committed or uncommitted view, the outputs [m]. *)
Definition cache_repr {K} `{KVStore K} (k : K) (c : bool) (m : utxos) : Prop :=
  forall a, match m !! a with
            | Some l => exists v, kv_get k c a = Some v /\ text_of v = Some (utxo_text l)
            | None => kv_get k c a = None
            end.

(** ** Supply *)

Lemma sum_pairs_cons s a l : sum_pairs ((s, a) :: l) = (a + sum_pairs l)%Z.
Proof. reflexivity. Qed.

Lemma sum_pairs_app l1 l2 : sum_pairs (l1 ++ l2) = (sum_pairs l1 + sum_pairs l2)%Z.
Proof. unfold sum_pairs. by rewrite fmap_app, zsum_app. Qed.

#[export] Instance sum_pairs_Permutation : Proper ((≡ₚ) ==> (=)) sum_pairs.
Proof. intros l1 l2 Hl. unfold sum_pairs. by rewrite Hl. Qed.

Lemma sum_pairs_adelete s a l : alookup s l = Some a -> sum_pairs l = (a + sum_pairs (adelete s l))%Z.
Proof. intros Hl. by rewrite (adelete_Permutation s a l Hl) at 1. Qed.

Lemma supply_insert_None (m : utxos) a l :
  m !! a = None -> supply (<[a := l]> m) = (sum_pairs l + supply m)%Z.
Proof. intros Hm. unfold supply. by rewrite map_to_list_insert. Qed.

Lemma supply_insert (m : utxos) a l :
  supply (<[a := l]> m) = (supply m - sum_pairs (u_list m a) + sum_pairs l)%Z.
Proof.
  unfold u_list. destruct (m !! a) as [l0|] eqn:E; simpl.
  - rewrite <- (insert_delete_id m a l0 E) at 2. rewrite <- insert_delete_eq.
    rewrite !supply_insert_None by apply lookup_delete_eq. lia.
  - rewrite supply_insert_None by done. unfold sum_pairs at 2. simpl. lia.
Qed.

Lemma supply_u_add m a s amount : supply (u_add m a s amount) = (supply m + amount)%Z.
Proof. unfold u_add. rewrite supply_insert, sum_pairs_app, sum_pairs_cons. unfold sum_pairs at 3. simpl. lia. Qed.

Lemma supply_u_spend m i amount :
  u_amount m i = Some amount -> supply (u_spend m i) = (supply m - amount)%Z.
Proof.
  intros Hi. unfold u_spend. rewrite supply_insert.
  rewrite (sum_pairs_adelete _ _ _ Hi). lia.
Qed.

(** ** Lookups after the abstract operations *)

Lemma u_list_insert m a a' l :
  u_list (<[a := l]> m) a' = if decide (a = a') then l else u_list m a'.
Proof. unfold u_list. rewrite lookup_insert. by case_decide. Qed.

Lemma u_amount_add_eq m a s amount :
  u_amount m (mkInput a s) = None -> u_amount (u_add m a s amount) (mkInput a s) = Some amount.
Proof.
  unfold u_amount, u_add. simpl. intros Hn. rewrite u_list_insert, decide_True by done.
  by apply alookup_app_cons.
Qed.

Lemma u_amount_add_ne m a s amount i :
  i <> mkInput a s -> u_amount (u_add m a s amount) i = u_amount m i.
Proof.
  destruct i as [a' s']. unfold u_amount, u_add. simpl. intros Hne. rewrite u_list_insert.
  case_decide; [|done]. subst a'. rewrite alookup_app. simpl.
  rewrite decide_False by congruence. by destruct (alookup s' _).
Qed.

Lemma u_amount_spend_ne m i j : i <> j -> u_amount (u_spend m i) j = u_amount m j.
Proof.
  destruct i as [a s], j as [a' s']. unfold u_amount, u_spend. simpl. intros Hne.
  rewrite u_list_insert. case_decide; [|done]. subst a'.
  apply alookup_adelete_ne. congruence.
Qed.

Lemma u_amount_spend_eq m i : u_wf m -> u_amount (u_spend m i) i = None.
Proof.
  intros Hm. unfold u_amount, u_spend. rewrite u_list_insert, decide_True by done.
  apply alookup_adelete_eq, Hm.
Qed.

Lemma u_wf_spend m i : u_wf m -> u_wf (u_spend m i).
Proof.
  intros Hm a. unfold u_spend. rewrite u_list_insert. case_decide; [apply adelete_NoDup|]; apply Hm.
Qed.

Lemma u_wf_add m a s amount :
  u_wf m -> u_amount m (mkInput a s) = None -> u_wf (u_add m a s amount).
Proof.
  intros Hm Hn a'. unfold u_add. rewrite u_list_insert. case_decide; [|apply Hm]. subst a'.
  rewrite fmap_app. apply NoDup_app. split_and!; [apply Hm| |apply NoDup_singleton].
  simpl. intros x Hx ->%list_elem_of_singleton. by apply alookup_None in Hn.
Qed.

#[export] Hint Resolve u_wf_spend u_wf_add u_amount_spend_eq : tok.

(** ** Grouping the inputs by address *)

Definition in_group (g : list (string * gset Z)) (i : PInput) : Prop :=
  in_seqNo i ∈ default ∅ (alookup (in_address i) g).

(** The inputs a grouping stands for. *)
Definition group_elements (g : list (string * gset Z)) : list PInput :=
  g ≫= fun p => mkInput p.1 <$> elements p.2.

Definition group_wf (g : list (string * gset Z)) : Prop :=
  NoDup g.*1 /\ Forall (fun p : string * gset Z => p.2 <> ∅) g.

Lemma in_group_add g i j : in_group (add_to_group g i) j <-> j = i \/ in_group g j.
Proof.
  destruct i as [a s], j as [a' s']. unfold in_group, add_to_group. simpl.
  destruct (decide (a = a')) as [->|Hne].
  - rewrite alookup_aset_eq. simpl. rewrite elem_of_union, elem_of_singleton. naive_solver.
  - rewrite alookup_aset_ne by done. naive_solver.
Qed.

Lemma group_wf_add g i : group_wf g -> group_wf (add_to_group g i).
Proof.
  intros [Hn Hf]. split; [by apply aset_NoDup|]. apply Forall_aset; [done|]. simpl. set_solver.
Qed.

Lemma group_inputs_spec inputs :
  group_wf (group_inputs inputs) /\ forall j, in_group (group_inputs inputs) j <-> j ∈ inputs.
Proof.
  unfold group_inputs. induction inputs as [|i inputs [IHw IHe]] using rev_ind.
  - split; [split; constructor|]. intros j. unfold in_group. simpl. set_solver.
  - rewrite foldl_app. simpl. split; [by apply group_wf_add|].
    intros j. rewrite in_group_add, IHe. set_solver.
Qed.

Lemma elem_of_group_elements g i : NoDup g.*1 -> i ∈ group_elements g <-> in_group g i.
Proof.
  intros Hn. unfold group_elements, in_group. rewrite list_elem_of_bind. split.
  - intros [[a X] [Hi Hp]]. apply list_elem_of_fmap in Hi as [s [-> Hs%elem_of_elements]]. simpl in *.
    by rewrite (alookup_NoDup _ _ _ Hn Hp).
  - destruct i as [a s]. simpl. destruct (alookup a g) as [X|] eqn:E; simpl; [|set_solver].
    intros Hs. exists (a, X). split; [|by apply alookup_elem].
    apply list_elem_of_fmap. exists s. by rewrite elem_of_elements.
Qed.

Lemma NoDup_group_elements g : NoDup g.*1 -> NoDup (group_elements g).
Proof.
  unfold group_elements. induction g as [|[a X] g IH]; simpl; [constructor|].
  intros [Hn Hd]%NoDup_cons. apply NoDup_app. split_and!; [| |by apply IH].
  - apply NoDup_fmap_2; [intros ?? [=]; done|apply NoDup_elements].
  - intros i (s & -> & _)%list_elem_of_fmap ([b Y] & Hi & Hp)%list_elem_of_bind.
    apply list_elem_of_fmap in Hi as (s' & [= -> ->] & _).
    apply Hn, list_elem_of_fmap. by exists (b, Y).
Qed.

Lemma group_elements_inputs inputs :
  group_elements (group_inputs inputs) ≡ₚ remove_dups inputs.
Proof.
  destruct (group_inputs_spec inputs) as [[Hn _] He].
  apply NoDup_Permutation; [by apply NoDup_group_elements|apply NoDup_remove_dups|].
  intros i. by rewrite elem_of_group_elements, He, elem_of_remove_dups by done.
Qed.

Lemma group_amounts m a (X : gset Z) :
  zsum (omap (u_amount m) (mkInput a <$> elements X)) = amounts_of (u_list m a) X.
Proof. unfold amounts_of. by rewrite omap_of_fmap. Qed.

(** ** Refinement: the operations implement their abstract counterparts *)

Section Refinement.
Context {K : Type} `{KVStoreLaws K}.
Implicit Types (k : K) (c : bool) (m : utxos) (a : string) (i : PInput).

Lemma cache_repr_Some k c m a l :
  cache_repr k c m -> m !! a = Some l ->
  exists v, kv_get k c a = Some v /\ text_of v = Some (utxo_text l).
Proof. intros Hr Hm. specialize (Hr a). by rewrite Hm in Hr. Qed.

Lemma cache_repr_None k c m a : cache_repr k c m -> m !! a = None -> kv_get k c a = None.
Proof. intros Hr Hm. specialize (Hr a). by rewrite Hm in Hr. Qed.

Lemma cache_repr_set k c m a l :
  cache_repr k c m -> cache_repr (kv_set k c a (utxo_text l)) c (<[a := l]> m).
Proof.
  intros Hr a'. rewrite lookup_insert. case_decide as Ha.
  - subst a'. apply kv_get_set_eq.
  - rewrite kv_get_set_ne by done. apply Hr.
Qed.

Lemma get_amounts_repr k c m a new :
  cache_repr k c m ->
  get_amounts a k new c =
    match m !! a with
    | Some l => Ok (mkAmounts a (flat l))
    | None => if new then Ok (mkAmounts a [])
              else Raise (UTXOAddressNotFound (Msg "Address {} was not found" [MStr a]))
    end.
Proof.
  intros Hr. unfold get_amounts. destruct (m !! a) as [l|] eqn:E.
  - destruct (cache_repr_Some _ _ _ _ _ Hr E) as (v & -> & Hv). by apply init_utxo_text.
  - by rewrite (cache_repr_None _ _ _ _ Hr E).
Qed.

Lemma get_amounts_new k c m a :
  cache_repr k c m -> get_amounts a k true c = Ok (mkAmounts a (flat (u_list m a))).
Proof. intros Hr. rewrite (get_amounts_repr _ _ m) by done. unfold u_list. by destruct (m !! a). Qed.

(** [add_output] adds the pair to the address's list. *)
Lemma add_output_repr k c m a s amount :
  cache_repr k c m ->
  exists k', add_output (IsOutput (mkOutput a s (Some amount))) c k = (Ok tt, k') /\
             k' = kv_set k c a (utxo_text (u_list m a ++ [(s, amount)])) /\
             cache_repr k' c (u_add m a s amount).
Proof.
  intros Hr. eexists. split; [|split; [reflexivity|by apply cache_repr_set]].
  unfold add_output. reduce_monad. cbn [_is_valid_output out_address out_seqNo out_amount].
  rewrite (get_amounts_new _ _ m) by done. rewrite add_amount_flat. by rewrite as_str_flat.
Qed.

(** [spend_output] removes the output if it is there. *)
Lemma spend_output_repr k c m i amount x :
  cache_repr k c m -> u_amount m i = Some amount ->
  exists k', spend_output (IsOutput (mkOutput (in_address i) (in_seqNo i) x)) c k = (Ok tt, k') /\
             k' = kv_set k c (in_address i) (utxo_text (adelete (in_seqNo i) (u_list m (in_address i)))) /\
             cache_repr k' c (u_spend m i).
Proof.
  intros Hr Hi. eexists. split; [|split; [reflexivity|by apply cache_repr_set]].
  unfold spend_output. reduce_monad. cbn [_is_valid_output out_address out_seqNo].
  rewrite (get_amounts_repr _ _ m) by done. unfold u_amount, u_list in *.
  destruct (m !! in_address i) as [l|]; [|done]. cbn [from_option id] in *.
  rewrite remove_seq_no_flat, Hi. by rewrite as_str_flat.
Qed.

(** It fails, leaving the cache alone, when the output is not there. *)
Lemma spend_output_missing k c m i x :
  cache_repr k c m -> u_amount m i = None ->
  exists e, spend_output (IsOutput (mkOutput (in_address i) (in_seqNo i) x)) c k = (Raise e, k) /\
             is_UTXOError e = true.
Proof.
  intros Hr Hi. unfold spend_output. reduce_monad. cbn [_is_valid_output out_address out_seqNo].
  rewrite (get_amounts_repr _ _ m) by done. unfold u_amount, u_list in *.
  destruct (m !! in_address i) as [l|]; cbn [from_option id] in *; [|eauto].
  rewrite remove_seq_no_flat, Hi. eauto.
Qed.

Lemma sum_groups_ok k c m g t :
  cache_repr k c m -> Forall (fun p : string * gset Z => p.2 <> ∅) g ->
  (forall i, i ∈ group_elements g -> is_Some (u_amount m i)) ->
  sum_groups k c g t = Ok (t + zsum (omap (u_amount m) (group_elements g)))%Z.
Proof.
  intros Hr Hf. revert t. induction Hf as [|[a X] g HX Hf IH]; intros t Hall; simpl in *.
  { by rewrite Z.add_0_r. }
  assert (forall s, s ∈ X -> is_Some (alookup s (u_list m a))) as Hs.
  { intros s Hs. apply (Hall (mkInput a s)). apply elem_of_app. left.
    apply list_elem_of_fmap. exists s. by rewrite elem_of_elements. }
  destruct (set_choose_L X HX) as [s0 Hs0].
  rewrite (get_amounts_repr _ _ m) by done.
  assert (exists l, m !! a = Some l /\ u_list m a = l) as (l & E & El).
  { unfold u_list in *. destruct (m !! a) as [l|]; [by eauto|].
    by destruct (Hs s0 Hs0). }
  rewrite E. simpl. rewrite sum_amounts_flat.
  - simpl. rewrite IH by (intros; apply Hall, elem_of_app; by right).
    rewrite omap_app, zsum_app, group_amounts, El. f_equal. lia.
  - rewrite <- El. intros s Hs'. by apply elem_of_list_to_set, alookup_is_Some, Hs.
Qed.

Lemma sum_groups_missing k c m g t i :
  cache_repr k c m -> i ∈ group_elements g -> u_amount m i = None ->
  exists e, sum_groups k c g t = Raise e /\ is_UTXOError e = true.
Proof.
  intros Hr Hi Hn. revert t. induction g as [|[a X] g IH]; intros t; simpl in *; [set_solver|].
  rewrite (get_amounts_repr _ _ m) by done.
  destruct (m !! a) as [l|] eqn:E; simpl; [|eauto].
  destruct (decide (X ⊆ list_to_set l.*1)) as [HX|HX].
  - rewrite sum_amounts_flat by done. simpl. apply IH.
    apply elem_of_app in Hi as [(s & -> & Hs)%list_elem_of_fmap|Hi]; [|done].
    unfold u_amount, u_list in Hn. simpl in Hn. rewrite E in Hn. simpl in Hn.
    apply alookup_None in Hn. rewrite elem_of_elements in Hs. set_solver.
  - destruct (sum_amounts_flat_missing a l X HX) as [msg ->]. simpl. eauto.
Qed.

(** [sum_inputs] adds the amounts of the distinct inputs. *)
Lemma sum_inputs_repr k c m inputs :
  cache_repr k c m -> (forall i, i ∈ inputs -> is_Some (u_amount m i)) ->
  sum_inputs k inputs c = Ok (zsum (omap (u_amount m) (remove_dups inputs))).
Proof.
  intros Hr Hall. unfold sum_inputs.
  destruct (group_inputs_spec inputs) as [[Hn Hf] He].
  rewrite (sum_groups_ok _ _ m) by
    (try done; intros i; rewrite elem_of_group_elements, He by done; apply Hall).
  by rewrite group_elements_inputs, Z.add_0_l.
Qed.

Lemma sum_inputs_missing k c m inputs i :
  cache_repr k c m -> i ∈ inputs -> u_amount m i = None ->
  exists e, sum_inputs k inputs c = Raise e /\ is_UTXOError e = true.
Proof.
  intros Hr Hi Hn. unfold sum_inputs. destruct (group_inputs_spec inputs) as [[Hnd _] He].
  eapply sum_groups_missing; [done| |done]. by rewrite elem_of_group_elements, He.
Qed.

(** [sum_inputs] succeeds only if every input is there. *)
Lemma sum_inputs_Ok k c m inputs v :
  cache_repr k c m -> sum_inputs k inputs c = Ok v ->
  (forall i, i ∈ inputs -> is_Some (u_amount m i)) /\
  v = zsum (omap (u_amount m) (remove_dups inputs)).
Proof.
  intros Hr Hs. assert (forall i, i ∈ inputs -> is_Some (u_amount m i)) as Hall.
  { intros i Hi. destruct (u_amount m i) as [z|] eqn:E; [by eauto|].
    destruct (sum_inputs_missing k c m inputs i Hr Hi E) as (e & He & _). congruence. }
  split; [done|]. rewrite (sum_inputs_repr _ _ m) in Hs by done. congruence.
Qed.

Lemma get_unspent_outputs_repr k c m a :
  cache_repr k c m ->
  get_unspent_outputs k a c = Ok ((fun p => mkOutput a p.1 (Some p.2)) <$> u_list m a).
Proof.
  intros Hr. unfold get_unspent_outputs. rewrite (get_amounts_new _ _ m) by done.
  simpl. by rewrite as_output_list_flat.
Qed.
End Refinement.

(** ** Spending and adding lists *)

Definition u_spend_all (m : utxos) (inputs : list PInput) : utxos := foldl u_spend m inputs.

Definition u_add_all (m : utxos) (s : Z) (outputs : list POutput) : utxos :=
  foldl (fun m o => u_add m (po_address o) s (po_amount o)) m outputs.

Lemma u_wf_spend_all m inputs : u_wf m -> u_wf (u_spend_all m inputs).
Proof. revert m. induction inputs; intros m Hm; simpl; auto with tok. Qed.

Lemma u_amount_spend_None m i j : u_wf m -> u_amount m j = None -> u_amount (u_spend m i) j = None.
Proof.
  intros Hm Hj. destruct (decide (i = j)) as [->|Hne]; [by apply u_amount_spend_eq|].
  by rewrite u_amount_spend_ne.
Qed.

Lemma u_amount_spend_all_None m inputs j :
  u_wf m -> u_amount m j = None -> u_amount (u_spend_all m inputs) j = None.
Proof.
  revert m. induction inputs as [|i inputs IH]; intros m Hm Hj; simpl; [done|].
  apply IH; [by apply u_wf_spend|by apply u_amount_spend_None].
Qed.

Lemma u_amount_spend_all_ne m inputs j :
  j ∉ inputs -> u_amount (u_spend_all m inputs) j = u_amount m j.
Proof.
  revert m. induction inputs as [|i inputs IH]; intros m; simpl; [done|].
  intros [Hne Hj]%not_elem_of_cons. rewrite IH by done. by apply u_amount_spend_ne.
Qed.

Lemma u_amount_spend_all_in m inputs j :
  u_wf m -> j ∈ inputs -> u_amount (u_spend_all m inputs) j = None.
Proof.
  revert m. induction inputs as [|i inputs IH]; intros m Hm; simpl; [set_solver|].
  intros [->|Hj]%elem_of_cons; [|by apply IH; [apply u_wf_spend|]].
  apply u_amount_spend_all_None; [by apply u_wf_spend|by apply u_amount_spend_eq].
Qed.

Lemma supply_spend_all m inputs :
  NoDup inputs -> (forall i, i ∈ inputs -> is_Some (u_amount m i)) ->
  supply (u_spend_all m inputs) = (supply m - zsum (omap (u_amount m) inputs))%Z.
Proof.
  intros Hnd. revert m. induction Hnd as [|i inputs Hi Hnd IH]; intros m Hall; csimpl; [lia|].
  destruct (Hall i) as [v Hv]; [by left|].
  assert (forall j, j ∈ inputs -> u_amount (u_spend m i) j = u_amount m j) as Hj.
  { intros j Hj. apply u_amount_spend_ne. by intros ->. }
  rewrite IH by (intros j Hin; rewrite Hj by done; apply Hall; by right).
  rewrite (supply_u_spend _ _ v), (omap_ext_elem _ (u_amount m)) by done. rewrite Hv.
  csimpl. lia.
Qed.

Lemma supply_add_all m s outputs :
  supply (u_add_all m s outputs) = (supply m + zsum (po_amount <$> outputs))%Z.
Proof.
  revert m. induction outputs as [|o outputs IH]; intros m; csimpl; [lia|].
  rewrite IH, supply_u_add. lia.
Qed.

Lemma u_amount_add_all_ne m s outputs i :
  (in_seqNo i = s -> in_address i ∉ po_address <$> outputs) ->
  u_amount (u_add_all m s outputs) i = u_amount m i.
Proof.
  revert m. induction outputs as [|o outputs IH]; intros m Hi; simpl in *; [done|].
  rewrite IH by (intros Hs; specialize (Hi Hs); set_solver).
  apply u_amount_add_ne. intros ->. apply Hi; [done|]. simpl. by left.
Qed.

Lemma u_amount_add_all_in m s outputs o :
  NoDup (po_address <$> outputs) -> o ∈ outputs ->
  u_amount m (mkInput (po_address o) s) = None ->
  u_amount (u_add_all m s outputs) (mkInput (po_address o) s) = Some (po_amount o).
Proof.
  revert m. induction outputs as [|o' outputs IH]; intros m; simpl; [set_solver|].
  intros [Hn Hd]%NoDup_cons [->|Ho]%elem_of_cons Hm.
  - rewrite u_amount_add_all_ne by done. by apply u_amount_add_eq.
  - apply IH; [done..|]. rewrite u_amount_add_ne; [done|].
    intros [= Ha]. apply Hn. rewrite <- Ha. by apply list_elem_of_fmap_2.
Qed.

Lemma u_wf_add_all m s outputs :
  u_wf m -> NoDup (po_address <$> outputs) ->
  (forall o, o ∈ outputs -> u_amount m (mkInput (po_address o) s) = None) ->
  u_wf (u_add_all m s outputs).
Proof.
  revert m. induction outputs as [|o outputs IH]; intros m Hm; simpl; [done|].
  intros [Hn Hd]%NoDup_cons Hf. apply IH; [|done|].
  - apply u_wf_add; [done|]. apply Hf. by left.
  - intros o' Ho'. rewrite u_amount_add_ne; [apply Hf; by right|].
    intros [= Ha]. apply Hn. rewrite <- Ha. by apply list_elem_of_fmap_2.
Qed.

(** ** Properties

    The specification of the cache as a state machine on the abstract map. *)

Inductive cache_op := OpAdd (address : string) (seq_no amount : Z) | OpSpend (i : PInput).

Definition run_op {K} `{KVStore K} (c : bool) (op : cache_op) : M K unit :=
  match op with
  | OpAdd a s amount => add_output (IsOutput (mkOutput a s (Some amount))) c
  | OpSpend i => spend_output (IsOutput (mkOutput (in_address i) (in_seqNo i) None)) c
  end.

Definition spec_op (op : cache_op) (m : utxos) : option utxos :=
  match op with
  | OpAdd a s amount => Some (u_add m a s amount)
  | OpSpend i => match u_amount m i with Some _ => Some (u_spend m i) | None => None end
  end.

Fixpoint spec_ops (ops : list cache_op) (m : utxos) : option utxos :=
  match ops with
  | [] => Some m
  | op :: ops' => match spec_op op m with Some m' => spec_ops ops' m' | None => None end
  end.

Section Properties.
Context {K : Type} `{KVStoreLaws K}.
Implicit Types (k : K) (c : bool) (m : utxos).

(** An operation on the uncommitted layer leaves the committed view alone. *)
Lemma run_op_committed op k a :
  kv_get (run_op false op k).2 true a = kv_get k true a.
Proof.
  destruct op as [a' s amount|i]; simpl.
  - unfold add_output. reduce_monad. cbn [_is_valid_output].
    repeat (case_match; simplify_eq; try done). apply kv_get_set_uncommitted.
  - unfold spend_output. reduce_monad. cbn [_is_valid_output].
    repeat (case_match; simplify_eq; try done). apply kv_get_set_uncommitted.
Qed.

(** C14: the cache refines its specification: a sequence of additions and spends
    succeeds exactly when the specification allows it, ends in a cache that
    shows the specified outputs, and fails with a [UTXOError] otherwise. *)
Theorem cache_refines c ops k m :
  cache_repr k c m ->
  match spec_ops ops m with
  | Some m' => exists k', for_each ops (run_op c) k = (Ok tt, k') /\ cache_repr k' c m'
  | None => exists e k', for_each ops (run_op c) k = (Raise e, k') /\ is_UTXOError e = true
  end.
Proof.
  revert k m. induction ops as [|op ops IH]; intros k m Hr; simpl; [by exists k|].
  destruct op as [a s amount|i]; simpl.
  - destruct (add_output_repr k c m a s amount Hr) as (k' & Hrun & _ & Hr').
    rewrite (bind_Ok _ _ _ _ _ Hrun). by apply IH.
  - destruct (u_amount m i) as [v|] eqn:Hv.
    + destruct (spend_output_repr k c m i v None Hr Hv) as (k' & Hrun & _ & Hr').
      rewrite (bind_Ok _ _ _ _ _ Hrun). by apply IH.
    + destruct (spend_output_missing k c m i None Hr Hv) as (e & Hrun & He).
      rewrite (bind_Raise _ _ _ _ _ Hrun). eauto.
Qed.

(** Work on the uncommitted layer never shows in the committed view, even
    when one of the operations fails. *)
Theorem cache_uncommitted_frame ops k a :
  kv_get (for_each ops (run_op false) k).2 true a = kv_get k true a.
Proof.
  apply (for_each_invariant (fun k' => kv_get k' true a = kv_get k true a)); [|done].
  intros op k' _ Hk. by rewrite run_op_committed.
Qed.

(** C20: [sum_inputs] is total and exact: it returns iff every input is an
    unspent output, its value is then the sum over the distinct inputs, and
    otherwise it raises a [UTXOError]. *)
Theorem sum_inputs_correct k c m inputs :
  cache_repr k c m ->
  (forall v, sum_inputs k inputs c = Ok v <->
     (forall i, i ∈ inputs -> is_Some (u_amount m i)) /\
     v = zsum (omap (u_amount m) (remove_dups inputs))) /\
  (forall e, sum_inputs k inputs c = Raise e -> is_UTXOError e = true).
Proof.
  intros Hr. split.
  - intros v. split; [by apply sum_inputs_Ok|]. intros [Hall ->]. by apply sum_inputs_repr.
  - intros e He.
    destruct (decide (Forall (fun i => is_Some (u_amount m i)) inputs)) as [Hall|Hno].
    + rewrite (sum_inputs_repr _ _ m) in He by (try done; by apply Forall_forall). done.
    + apply not_Forall_Exists, Exists_exists in Hno as (i & Hi & Hn); [|tc_solve].
      destruct (sum_inputs_missing k c m inputs i Hr Hi) as (e' & He' & ?); [|congruence].
      by apply eq_None_not_Some.
Qed.

(** [get_unspent_outputs] returns exactly the unspent outputs of the
    address with their amounts, and the empty list for an unknown address. *)
Theorem get_unspent_outputs_correct k c m a :
  cache_repr k c m -> u_wf m ->
  exists l, get_unspent_outputs k a c = Ok l /\ NoDup l /\
    forall o, o ∈ l <->
      out_address o = a /\ out_amount o <> None /\ u_amount m (mkInput a (out_seqNo o)) = out_amount o.
Proof.
  intros Hr Hm. eexists. split; [by apply get_unspent_outputs_repr|]. split.
  - apply (NoDup_fmap_1 out_seqNo). rewrite <- list_fmap_compose. apply Hm.
  - intros [a' s x]. rewrite list_elem_of_fmap. unfold u_amount. simpl. split.
    + intros ([s' v] & [= -> -> ->] & Hin). split_and!; [done..|]. simpl.
      apply alookup_NoDup; [apply Hm|done].
    + intros (-> & Hx & Hl). destruct x as [v|]; [|done].
      exists (s, v). split; [done|]. by apply alookup_elem.
Qed.
End Properties.

(** ** Witnesses *)

Lemma empty_cache_repr c : cache_repr Mem.empty_kv c ∅.
Proof. intros a. rewrite lookup_empty. by destruct c. Qed.

Definition ex_ops : list cache_op :=
  [OpAdd "alice" 1 10; OpAdd "alice" 2 20; OpAdd "bob" 2 5; OpSpend (mkInput "alice" 1)].

Lemma cache_refines_witness :
  exists k' , for_each ex_ops (run_op false) Mem.empty_kv = (Ok tt, k') /\
    cache_repr k' false (u_spend (u_add (u_add (u_add ∅ "alice" 1 10) "alice" 2 20) "bob" 2 5) (mkInput "alice" 1)).
Proof. exact (cache_refines false ex_ops Mem.empty_kv ∅ (empty_cache_repr false)). Defined.

Lemma cache_uncommitted_frame_witness :
  kv_get (for_each ex_ops (run_op false) Mem.empty_kv).2 true "alice" = kv_get Mem.empty_kv true "alice".
Proof. exact (cache_uncommitted_frame ex_ops Mem.empty_kv "alice"). Defined.

Definition ex_cache : Mem.kv := kv_set Mem.empty_kv false "alice" (utxo_text [(1, 10); (2, 20)]%Z).
Definition ex_utxos : utxos := <["alice" := [(1, 10); (2, 20)]%Z]> ∅.

Lemma ex_cache_repr : cache_repr ex_cache false ex_utxos.
Proof. apply cache_repr_set, empty_cache_repr. Qed.

Lemma sum_inputs_correct_witness :
  sum_inputs ex_cache [mkInput "alice" 2; mkInput "alice" 1; mkInput "alice" 2] false = Ok 30%Z.
Proof.
  apply (sum_inputs_correct ex_cache false ex_utxos); [apply ex_cache_repr|].
  split; [apply Forall_forall, (bool_decide_unpack _)|]; by vm_compute.
Defined.

Lemma get_unspent_outputs_correct_witness :
  exists l, get_unspent_outputs ex_cache "alice" false = Ok l /\ NoDup l /\
    forall o, o ∈ l <-> out_address o = "alice" /\ out_amount o <> None /\
                        u_amount ex_utxos (mkInput "alice" (out_seqNo o)) = out_amount o.
Proof.
  apply (get_unspent_outputs_correct ex_cache false ex_utxos "alice"); [apply ex_cache_repr|].
  intros a. unfold ex_utxos. rewrite u_list_insert. case_decide; [|constructor].
  by apply (bool_decide_unpack _).
Defined.
