(* ===== verification/TokenUtils.v ===== *)
(** * TokenStaticHelper ([sovtoken/request_handlers/token_utils.py])

    The two places a payment is recorded, the token state (a trie with one key
    ["address:seqNo"] per unspent output) and the UTXO cache, are updated
    together by [spend_input] and [add_new_output].  The abstract view of both
    is one map of unspent outputs. *)

From S2P Require Import Prelude Exceptions PyStr TokenTypes Stores UtxoAmounts UtxoCache.

Open Scope stdpp_scope.

(** The stores of the token ledger that the handlers update. *)
Record token_db (T K : Type) := mkDb { db_state : T; db_cache : K }.
Arguments mkDb {T K} _ _.
Arguments db_state {T K} _.
Arguments db_cache {T K} _.

Definition create_state_key (address : string) (seq_no : Z) : string :=
  py_join ":" [address; py_str seq_no].

Definition parse_state_key (key : string) : list string := py_split ":" key.

Section TokenStaticHelper.
Context {T K : Type} `{StateStore T} `{KVStore K}.

Definition on_state (f : T -> T) : M (token_db T K) unit :=
  modify (fun d => mkDb (f (db_state d)) (db_cache d)).

Definition on_cache {A} (m : M K A) : M (token_db T K) A :=
  zoom db_cache (fun k d => mkDb (db_state d) k) m.

Definition spend_input (address : string) (seq_no : Z) (is_committed remove_spent : bool)
    : M (token_db T K) unit :=
  let state_key := create_state_key address seq_no in
  (if remove_spent then on_state (fun t => st_remove t state_key)
   else on_state (fun t => st_set t state_key "")) ;;;
  on_cache (spend_output (IsOutput (mkOutput address seq_no None)) is_committed).

(** [str(amount)] of an [Optional[int]] *)
Definition str_amount (amount : option Z) : string :=
  match amount with Some a => py_str a | None => "None" end.

Definition add_new_output (output : Output) (is_committed : bool) : M (token_db T K) unit :=
  let state_key := create_state_key (out_address output) (out_seqNo output) in
  on_state (fun t => st_set t state_key (str_amount (out_amount output))) ;;;
  on_cache (add_output (IsOutput output) is_committed).

(** [TokenStaticHelper.sum_inputs]: [UTXOError] becomes [InvalidFundsError]. *)
Definition sum_request_inputs (cache : K) (req : request) (is_committed : bool) : res Z :=
  res_catch
    (let? inputs := dict_item INPUTS (op_inputs (req_operation req)) in
     sum_inputs cache inputs is_committed)
    (fun ex => if is_UTXOError ex
               then Some (Raise (InvalidFundsError (identifier req) (reqId req) (Msg "{}" [MExn ex])))
               else None).

Definition sum_outputs (req : request) : res Z :=
  let? outputs := dict_item OUTPUTS (op_outputs (req_operation req)) in
  Ok (zsum (po_amount <$> outputs)).

Definition with_suffix (error : message) (suffix : option message) : message :=
  match suffix with Some s => Msg "{} {}" [MMsg error; MMsg s] | None => error end.

Definition validate_given_inputs_outputs (inputs_sum outputs_sum required_amount : Z)
    (req : request) (error_msg_suffix : option message) : res unit :=
  if (inputs_sum =? required_amount)%Z then Ok tt
  else if (inputs_sum >? required_amount)%Z then
    Raise (ExtraFundsError (identifier req) (reqId req)
      (with_suffix
         (Msg "Extra funds, sum of inputs is {} but required amount: {} -- sum of outputs: {}"
              [MInt inputs_sum; MInt required_amount; MInt outputs_sum]) error_msg_suffix))
  else if (inputs_sum <? required_amount)%Z then
    Raise (InsufficientFundsError (identifier req) (reqId req)
      (with_suffix
         (Msg "Insufficient funds, sum of inputs is {}but required amount is {}. sum of outputs: {}"
              [MInt inputs_sum; MInt required_amount; MInt outputs_sum]) error_msg_suffix))
  else Raise (InvalidClientMessageException (identifier req) (reqId req)
                (Msg "Request to not meet minimum requirements" [])).

(** [b58decode] is the base58 library's. *)
Definition commit_to_utxo_cache (b58decode : string -> res string) (state_root : state_root_arg)
    : M K unit :=
  let! root := lift (match state_root with RootStr s => b58decode s | RootBytes b => Ok b end) in
  let! cache := get in
  if decide (kv_first_batch_idr cache = Some (RootBytes root)) then kv_commit_batch
  else raise (TokenValueError "state_root" (Some root)
                (Msg "equal to utxo_cache.first_batch_idr hash {}"
                     [match kv_first_batch_idr cache with Some (RootStr h | RootBytes h) => MStr h | None => MNone end])).
End TokenStaticHelper.
Arguments token_db : clear implicits.

(** ** Keys of the token state *)

Lemma create_state_key_eq a s : create_state_key a s = a +:+ String ":" (py_str s).
Proof. reflexivity. Qed.

Lemma split_state_key a s : parse_state_key (create_state_key a s) = py_split ":" a ++ [py_str s].
Proof.
  unfold parse_state_key. rewrite create_state_key_eq, py_split_app.
  by rewrite (py_split_no_char _ (py_str s)) by apply py_str_no_colon.
Qed.

(** Two different outputs never share a state key, whatever the addresses. *)
Lemma create_state_key_inj a s a' s' :
  create_state_key a s = create_state_key a' s' -> a = a' /\ s = s'.
Proof.
  intros Hk. apply (f_equal parse_state_key) in Hk. rewrite !split_state_key in Hk.
  apply app_inj_tail in Hk as [Ha ?%(inj py_str)].
  split; [|done]. by rewrite <- (py_join_split ":" a), Ha, py_join_split.
Qed.

(** ** Representation of the outputs by the state and the cache together *)

(** A spent output's key is absent, or holds the empty value. *)
Definition nonempty (v : option string) : option string :=
  match v with Some "" => None | _ => v end.

Definition state_repr {T} `{StateStore T} (t : T) (m : utxos) : Prop :=
  forall a s, nonempty (st_get t false (create_state_key a s)) = py_str <$> u_amount m (mkInput a s).

Definition db_repr {T K} `{StateStore T} `{KVStore K} (c : bool) (d : token_db T K) (m : utxos) : Prop :=
  cache_repr (db_cache d) c m /\ state_repr (db_state d) m /\ u_wf m.

Lemma nonempty_Some s : s <> "" -> nonempty (Some s) = Some s.
Proof. by destruct s. Qed.

Section Refinement.
Context {T K : Type} `{StateStoreLaws T} `{KVStoreLaws K}.
Implicit Types (t : T) (k : K) (d : token_db T K) (c : bool) (m : utxos).

Lemma state_repr_remove t m i :
  u_wf m -> state_repr t m -> state_repr (st_remove t (create_state_key (in_address i) (in_seqNo i))) (u_spend m i).
Proof.
  intros Hm Ht a s. destruct (decide (i = mkInput a s)) as [->|Hne]; simpl.
  - by rewrite st_get_remove_eq, u_amount_spend_eq.
  - rewrite st_get_remove_ne, u_amount_spend_ne by
      (try done; intros [? ?]%create_state_key_inj; apply Hne; by destruct i; simplify_eq/=).
    apply Ht.
Qed.

Lemma state_repr_clear t m i :
  u_wf m -> state_repr t m -> state_repr (st_set t (create_state_key (in_address i) (in_seqNo i)) "") (u_spend m i).
Proof.
  intros Hm Ht a s. destruct (decide (i = mkInput a s)) as [->|Hne]; simpl.
  - by rewrite st_get_set_eq, u_amount_spend_eq.
  - rewrite st_get_set_ne, u_amount_spend_ne by
      (try done; intros [? ?]%create_state_key_inj; apply Hne; by destruct i; simplify_eq/=).
    apply Ht.
Qed.

Lemma state_repr_add t m a s amount :
  u_amount m (mkInput a s) = None -> state_repr t m ->
  state_repr (st_set t (create_state_key a s) (py_str amount)) (u_add m a s amount).
Proof.
  intros Hm Ht a' s'. destruct (decide (mkInput a' s' = mkInput a s)) as [[= -> ->]|Hne].
  - by rewrite st_get_set_eq, u_amount_add_eq, nonempty_Some by auto with tok.
  - rewrite st_get_set_ne, u_amount_add_ne by
      (try done; intros [? ?]%create_state_key_inj; apply Hne; congruence).
    apply Ht.
Qed.

Lemma spend_input_repr d c m i remove_spent :
  db_repr c d m -> is_Some (u_amount m i) ->
  exists d', spend_input (in_address i) (in_seqNo i) c remove_spent d = (Ok tt, d') /\
    db_repr c d' (u_spend m i).
Proof.
  intros (Hk & Ht & Hm) [v Hv].
  destruct (spend_output_repr _ _ _ _ _ None Hk Hv) as (k' & Hsp & _ & Hk').
  destruct remove_spent; eexists;
    (split; [unfold spend_input, on_cache, on_state, zoom; reduce_monad; cbn [db_cache];
             rewrite Hsp; reflexivity|]);
    split_and!; simpl; auto using state_repr_remove, state_repr_clear with tok.
Qed.

Lemma spend_input_missing d c m i remove_spent :
  cache_repr (db_cache d) c m -> u_amount m i = None ->
  exists e d', spend_input (in_address i) (in_seqNo i) c remove_spent d = (Raise e, d') /\
    is_UTXOError e = true /\ db_cache d' = db_cache d.
Proof.
  intros Hk Hv. destruct (spend_output_missing _ _ _ _ None Hk Hv) as (e & Hsp & He).
  exists e. destruct remove_spent; eexists;
    (split; [unfold spend_input, on_cache, on_state, zoom; reduce_monad; cbn [db_cache];
             rewrite Hsp; reflexivity|done]).
Qed.

Lemma add_new_output_repr d c m a s amount :
  db_repr c d m -> u_amount m (mkInput a s) = None ->
  exists d', add_new_output (mkOutput a s (Some amount)) c d = (Ok tt, d') /\
    db_repr c d' (u_add m a s amount).
Proof.
  intros (Hk & Ht & Hm) Hv.
  destruct (add_output_repr _ _ _ a s amount Hk) as (k' & Hadd & _ & Hk').
  eexists. split.
  - unfold add_new_output, on_cache, on_state, zoom. reduce_monad. cbn [db_cache].
    rewrite Hadd. reflexivity.
  - split_and!; simpl; auto using state_repr_add with tok.
Qed.

(** The loops of the handlers. *)
Lemma spend_loop_repr d c m inputs remove_spent :
  db_repr c d m -> NoDup inputs -> (forall i, i ∈ inputs -> is_Some (u_amount m i)) ->
  exists d',
    for_each inputs (fun i => spend_input (in_address i) (in_seqNo i) c remove_spent) d = (Ok tt, d') /\
    db_repr c d' (u_spend_all m inputs).
Proof.
  intros Hr Hnd. revert d m Hr. induction Hnd as [|i inputs Hi Hnd IH]; intros d m Hr Hall; simpl.
  { by exists d. }
  destruct (spend_input_repr d c m i remove_spent Hr) as (d1 & Hstep & Hr1); [apply Hall; by left|].
  rewrite (bind_Ok _ _ _ _ _ Hstep). apply IH; [done|].
  intros j Hj. rewrite u_amount_spend_ne by (by intros ->). apply Hall. by right.
Qed.

Lemma add_loop_repr d c m outputs s :
  db_repr c d m -> NoDup (po_address <$> outputs) ->
  (forall o, o ∈ outputs -> u_amount m (mkInput (po_address o) s) = None) ->
  exists d',
    for_each outputs (fun o => add_new_output (mkOutput (po_address o) s (Some (po_amount o))) c) d = (Ok tt, d') /\
    db_repr c d' (u_add_all m s outputs).
Proof.
  revert d m. induction outputs as [|o outputs IH]; intros d m Hr; simpl; [by exists d|].
  intros [Hn Hnd]%NoDup_cons Hall.
  destruct (add_new_output_repr d c m (po_address o) s (po_amount o) Hr) as (d1 & Hstep & Hr1);
    [apply Hall; by left|].
  rewrite (bind_Ok _ _ _ _ _ Hstep). apply IH; [done..|].
  intros o' Ho'. rewrite u_amount_add_ne; [apply Hall; by right|].
  intros [= Ha]. apply Hn. rewrite <- Ha. by apply list_elem_of_fmap_2.
Qed.

(** Spending an output that is not there, or the same output twice, fails. *)
Lemma spend_loop_fails d c m inputs remove_spent :
  db_repr c d m -> ~ (NoDup inputs /\ forall i, i ∈ inputs -> is_Some (u_amount m i)) ->
  exists e d',
    for_each inputs (fun i => spend_input (in_address i) (in_seqNo i) c remove_spent) d = (Raise e, d') /\
    is_UTXOError e = true.
Proof.
  revert d m. induction inputs as [|i inputs IH]; intros d m Hr Hbad; simpl.
  { exfalso. apply Hbad. split; [constructor|set_solver]. }
  destruct (u_amount m i) as [v|] eqn:Hv.
  - destruct (spend_input_repr d c m i remove_spent Hr) as (d1 & Hstep & Hr1); [by eexists|].
    rewrite (bind_Ok _ _ _ _ _ Hstep). apply (IH d1 _ Hr1). intros [Hnd Hall].
    destruct Hr as (_ & _ & Hm). apply Hbad. split.
    + apply NoDup_cons. split; [|done]. intros Hi. destruct (Hall i Hi) as [w Hw].
      by rewrite u_amount_spend_eq in Hw.
    + intros j [->|Hj]%elem_of_cons; [by eexists|].
      destruct (decide (i = j)) as [->|Hne]; [by eexists|].
      rewrite <- (u_amount_spend_ne m i j) by done. by apply Hall.
  - destruct (spend_input_missing d c m i remove_spent (proj1 Hr) Hv) as (e & d1 & Hstep & He & _).
    rewrite (bind_Raise _ _ _ _ _ Hstep). eauto.
Qed.
End Refinement.

(** ** Properties *)

(** The state key of an output determines it, even for addresses that contain
    the delimiter: different outputs never overwrite each other's key. *)
Theorem state_key_injective a s a' s' :
  create_state_key a s = create_state_key a' s' -> a = a' /\ s = s'.
Proof. apply create_state_key_inj. Qed.

Lemma state_key_injective_witness : "a:1" = "a:1" /\ 2%Z = 2%Z.
Proof. apply (state_key_injective "a:1" 2 "a:1" 2). reflexivity. Defined.

(** Parsing a state key gives back the address and the number it was made
    from, for addresses without the delimiter (base58 has no [':']). *)
Theorem state_key_roundtrip a s :
  has_char ":" a = false ->
  exists str, parse_state_key (create_state_key a s) = [a; str] /\ py_int str = Some s.
Proof.
  intros Ha. exists (py_str s). split; [|apply py_int_str].
  by rewrite split_state_key, py_split_no_char.
Qed.

Lemma state_key_roundtrip_witness :
  exists str, parse_state_key (create_state_key "dctKSXBb" 42) = ["dctKSXBb"; str] /\ py_int str = Some 42%Z.
Proof. by apply (state_key_roundtrip "dctKSXBb" 42). Defined.

(** The comparison of sums decides on every integer: equal sums pass, a
    surplus is [ExtraFundsError], a deficit [InsufficientFundsError]; the final
    "minimum requirements" exception is never raised. *)
Theorem validate_given_total inputs_sum outputs_sum required req suffix :
  match (inputs_sum ?= required)%Z, validate_given_inputs_outputs inputs_sum outputs_sum required req suffix with
  | Eq, Ok tt => True
  | Gt, Raise (ExtraFundsError idr rid _) => idr = identifier req /\ rid = reqId req
  | Lt, Raise (InsufficientFundsError idr rid _) => idr = identifier req /\ rid = reqId req
  | _, _ => False
  end.
Proof.
  unfold validate_given_inputs_outputs. rewrite Z.gtb_ltb.
  destruct (Z.compare_spec inputs_sum required) as [->|Hlt|Hgt].
  - by rewrite Z.eqb_refl.
  - rewrite (proj2 (Z.eqb_neq _ _)), (proj2 (Z.ltb_ge _ _)), (proj2 (Z.ltb_lt _ _)) by lia. done.
  - rewrite (proj2 (Z.eqb_neq _ _)), (proj2 (Z.ltb_lt _ _)) by lia. done.
Qed.

(** Committing the cache only ever commits the oldest batch under its own
    root: with any other root it raises [TokenValueError] and leaves the cache
    as it was, and an undecodable root raises the decoder's exception. *)
Theorem commit_to_utxo_cache_guard {K} `{KVStore K} b58decode root (k : K) :
  match (match root with RootStr s => b58decode s | RootBytes b => Ok b end) with
  | Raise e => commit_to_utxo_cache b58decode root k = (Raise e, k)
  | Ok r =>
      (kv_first_batch_idr k = Some (RootBytes r) -> commit_to_utxo_cache b58decode root k = kv_commit_batch k) /\
      (kv_first_batch_idr k <> Some (RootBytes r) ->
         exists msg, commit_to_utxo_cache b58decode root k = (Raise (TokenValueError "state_root" (Some r) msg), k))
  end.
Proof.
  unfold commit_to_utxo_cache. reduce_monad. destruct (match root with RootStr _ => _ | _ => _ end) as [r|e]; [|done].
  split; intros Hi; case_decide; try done. eauto.
Qed.
