(* ===== verification/TokenHandlers.v ===== *)
(** * Write handlers of token transactions

    [MintHandler], [XferHandler], [XferHandler100] (sovtoken) and
    [XferFeeHandler], [FeeTxnCatchupHandler] (sovtokenfees).  The request
    validator [WriteRequestValidator.validate] is plenum's and indy's; it is the
    argument [validator].  Theorems: what a mint and a transfer do to the set
    of unspent outputs, conservation of the supply, rejection of spends that
    are not possible, and the equivalence of the two versions of the transfer. *)

From S2P Require Import Prelude Exceptions PyStr TokenTypes Stores UtxoAmounts UtxoCache TokenUtils.

Open Scope stdpp_scope.

(** [indy_common.authorize.auth_actions] *)
Inductive auth_action :=
  | AuthActionAdd (txn_type field value : string)
  | AuthActionEdit (txn_type field old_value new_value : string).

Section Handlers.
Context {T K : Type} `{StateStore T} `{KVStore K}.

(** [except UTXOError as ex: raise OperationError(...)] of every [update_state] *)
Definition update_error {A} (ex : exn) : option (M (token_db T K) A) :=
  if is_UTXOError ex
  then Some (raise (OperationError (Msg "Exception {} while updating state" [MExn ex])))
  else None.

(** [pass]: both handlers have no state key of their own and no further validation. *)
Definition mint_gen_state_key (t : txn) : option string := None.
Definition mint_additional_dynamic_validation (req : request) (req_pp_time : option Z) : res unit := Ok tt.
Definition xfer_gen_state_key (t : txn) : option string := None.
Definition xfer_additional_dynamic_validation (req : request) (req_pp_time : option Z) : res unit := Ok tt.

(** ** Mint *)

Definition mint_dynamic_validation {A} (validator : request -> list auth_action -> res A)
    (req : request) : res A :=
  validator req [AuthActionAdd MINT_PUBLIC "*" "*"].

Definition mint_update_state (t : txn) (is_committed : bool) : M (token_db T K) unit :=
  catch
    (let! outputs := lift (dict_item OUTPUTS (txn_outputs t)) in
     for_each outputs (fun output =>
       add_new_output (mkOutput (po_address output) (txn_seqNo t) (Some (po_amount output)))
                      is_committed))
    update_error.

(** ** Transfer *)

Definition do_validate_inputs_ouputs (cache : K) (req : request) : res unit :=
  match (let? sum_in := sum_request_inputs cache req false in
         let? sum_out := sum_outputs req in
         Ok (sum_in, sum_out)) with
  | Raise ex =>
      if is_InvalidClientMessage ex then Raise ex
      else Raise (InvalidClientMessageException (identifier req) (reqId req)
                    (Msg "Exception {} while processing inputs/outputs" [MExn ex]))
  | Ok (sum_in, sum_out) => validate_given_inputs_outputs sum_in sum_out sum_out req None
  end.

Definition xfer_dynamic_validation {A} (validator : request -> list auth_action -> res A)
    (cache : K) (req : request) : res A :=
  let? _ := do_validate_inputs_ouputs cache req in
  validator req [AuthActionAdd XFER_PUBLIC "*" "*"].

(** The common text of the two [update_state] methods. *)
Definition xfer_update (remove_spent : bool) (t : txn) (is_committed : bool)
    : M (token_db T K) unit :=
  catch
    (let! inputs := lift (dict_item INPUTS (txn_inputs t)) in
     for_each inputs (fun inp =>
       spend_input (in_address inp) (in_seqNo inp) is_committed remove_spent) ;;;
     let! outputs := lift (dict_item OUTPUTS (txn_outputs t)) in
     for_each outputs (fun output =>
       add_new_output (mkOutput (po_address output) (txn_seqNo t) (Some (po_amount output)))
                      is_committed))
    update_error.

(** [XferHandler.update_state]: [spend_input] with its default [remove_spent=True]. *)
Definition xfer_update_state (t : txn) (is_committed : bool) : M (token_db T K) unit :=
  xfer_update true t is_committed.

(** [XferHandler100.update_state] *)
Definition xfer100_update_state (t : txn) (is_committed : bool) : M (token_db T K) unit :=
  xfer_update false t is_committed.

(** ** Transfer with fees *)

(** [XferFeeHandler.dynamic_validation]: no check of the sums here. *)
Definition xfer_fee_dynamic_validation {A} (validator : request -> list auth_action -> res A)
    (req : request) : res A :=
  validator req [AuthActionAdd XFER_PUBLIC "*" "*"].

(** [FeeTxnCatchupHandler]: every validation step passes, [apply_request]
    returns nothing, and [update_state] is inherited from [XferHandler]. *)
Definition fee_txn_dynamic_validation (req : request) : res unit := Ok tt.
Definition fee_txn_update_state (t : txn) (is_committed : bool) : M (token_db T K) unit :=
  xfer_update_state t is_committed.
End Handlers.

(** [XferHandler._req_to_txn]: the signatures are taken out of the operation
    while plenum builds the transaction, put back, and added to the transaction
    next to the address of their input.  [super_req_to_txn] and
    [add_sigs_to_txn] are plenum's. *)
Section ReqToTxn.
Context {X : Type} (super_req_to_txn : request -> res X)
        (add_sigs_to_txn : X -> list (string * string) -> X).

Definition with_sigs (req : request) (sigs : option (list string)) : request :=
  mkRequest (identifier req) (reqId req)
    (mkOperation (op_type (req_operation req)) (op_inputs (req_operation req))
                 (op_outputs (req_operation req)) sigs) (req_fees req).

Definition xfer_req_to_txn : M request X :=
  let! req := get in
  let! sigs := lift (dict_item SIGS (op_sigs (req_operation req))) in
  put (with_sigs req None) ;;;
  let! req' := get in
  let! t := lift (super_req_to_txn req') in
  modify (fun r => with_sigs r (Some sigs)) ;;;
  let! req'' := get in
  let! inputs := lift (dict_item INPUTS (op_inputs (req_operation req''))) in
  ret (add_sigs_to_txn t (zip (in_address <$> inputs) sigs)).
End ReqToTxn.

(** ** Lemmas *)

Section Lemmas.
Context {T K : Type} `{StateStoreLaws T} `{KVStoreLaws K}.
Implicit Types (t : txn) (d : token_db T K) (c : bool) (m : utxos).

Lemma mint_update_repr d c m t outputs :
  db_repr c d m -> txn_outputs t = Some outputs -> NoDup (po_address <$> outputs) ->
  (forall o, o ∈ outputs -> u_amount m (mkInput (po_address o) (txn_seqNo t)) = None) ->
  exists d', mint_update_state t c d = (Ok tt, d') /\ db_repr c d' (u_add_all m (txn_seqNo t) outputs).
Proof.
  intros Hr Ho Hnd Hfresh.
  destruct (add_loop_repr d c m outputs (txn_seqNo t) Hr Hnd Hfresh) as (d' & Hloop & Hr').
  exists d'. split; [|done]. unfold mint_update_state, catch. rewrite Ho.
  reduce_monad. cbn [dict_item]. by rewrite Hloop.
Qed.

Lemma xfer_update_repr rm d c m t inputs outputs :
  db_repr c d m -> txn_inputs t = Some inputs -> txn_outputs t = Some outputs ->
  NoDup inputs -> (forall i, i ∈ inputs -> is_Some (u_amount m i)) ->
  NoDup (po_address <$> outputs) ->
  (forall o, o ∈ outputs -> u_amount m (mkInput (po_address o) (txn_seqNo t)) = None) ->
  exists d', xfer_update rm t c d = (Ok tt, d') /\
             db_repr c d' (u_add_all (u_spend_all m inputs) (txn_seqNo t) outputs).
Proof.
  intros Hr Hi Ho Hnd Hall Hnd' Hfresh.
  destruct (spend_loop_repr d c m inputs rm Hr Hnd Hall) as (d1 & Hloop1 & Hr1).
  destruct (add_loop_repr d1 c _ outputs (txn_seqNo t) Hr1 Hnd') as (d' & Hloop & Hr').
  { intros o Hin. apply u_amount_spend_all_None; [apply Hr|by apply Hfresh]. }
  exists d'. split; [|done]. unfold xfer_update, catch. rewrite Hi, Ho.
  reduce_monad. cbn [dict_item]. rewrite Hloop1. by rewrite Hloop.
Qed.

Lemma xfer_update_fails rm d c m t inputs :
  db_repr c d m -> txn_inputs t = Some inputs ->
  ~ (NoDup inputs /\ forall i, i ∈ inputs -> is_Some (u_amount m i)) ->
  exists msg d', xfer_update rm t c d = (Raise (OperationError msg), d').
Proof.
  intros Hr Hi Hbad.
  destruct (spend_loop_fails d c m inputs rm Hr Hbad) as (e & d' & Hloop & He).
  exists (Msg "Exception {} while updating state" [MExn e]), d'.
  unfold xfer_update, catch. rewrite Hi. reduce_monad. cbn [dict_item]. rewrite Hloop.
  unfold update_error. by rewrite He.
Qed.

Lemma sum_request_inputs_missing d c m req inputs i :
  cache_repr (db_cache d) c m -> op_inputs (req_operation req) = Some inputs ->
  i ∈ inputs -> u_amount m i = None ->
  exists msg, sum_request_inputs (db_cache d) req c = Raise (InvalidFundsError (identifier req) (reqId req) msg).
Proof.
  intros Hr Hi Hin Hn. destruct (sum_inputs_missing _ _ _ _ _ Hr Hin Hn) as (e & Hs & He).
  unfold sum_request_inputs. rewrite Hi. cbn [dict_item res_bind]. rewrite Hs. cbn [res_catch].
  rewrite He. eauto.
Qed.

Lemma sum_request_inputs_repr k c m req inputs :
  cache_repr k c m -> op_inputs (req_operation req) = Some inputs ->
  (forall i, i ∈ inputs -> is_Some (u_amount m i)) ->
  sum_request_inputs k req c = Ok (zsum (omap (u_amount m) (remove_dups inputs))).
Proof.
  intros Hr Hi Hall. unfold sum_request_inputs. rewrite Hi. cbn [dict_item res_bind].
  by rewrite (sum_inputs_repr _ _ m).
Qed.

(** What [_do_validate_inputs_ouputs] has established when it returns. *)
Lemma do_validate_Ok d m req :
  cache_repr (db_cache d) false m -> do_validate_inputs_ouputs (db_cache d) req = Ok tt ->
  exists inputs outputs,
    op_inputs (req_operation req) = Some inputs /\ op_outputs (req_operation req) = Some outputs /\
    (forall i, i ∈ inputs -> is_Some (u_amount m i)) /\
    zsum (omap (u_amount m) (remove_dups inputs)) = zsum (po_amount <$> outputs).
Proof.
  intros Hr. unfold do_validate_inputs_ouputs.
  destruct (op_inputs (req_operation req)) as [inputs|] eqn:Hi;
    [|unfold sum_request_inputs; by rewrite Hi].
  destruct (decide (Exists (fun i => u_amount m i = None) inputs)) as [Hex|Hex].
  { apply Exists_exists in Hex as (i & Hin & Hn).
    destruct (sum_request_inputs_missing _ _ _ _ _ _ Hr Hi Hin Hn) as [msg ->]. done. }
  assert (forall i, i ∈ inputs -> is_Some (u_amount m i)) as Hall.
  { intros i Hin. apply not_eq_None_Some. intros Hn. apply Hex, Exists_exists. eauto. }
  rewrite (sum_request_inputs_repr _ _ _ _ _ Hr Hi Hall). unfold sum_outputs.
  destruct (op_outputs (req_operation req)) as [outputs|]; [|done].
  cbn [dict_item res_bind]. unfold validate_given_inputs_outputs.
  destruct (Z.eqb_spec (zsum (omap (u_amount m) (remove_dups inputs))) (zsum (po_amount <$> outputs)))
    as [Heq|Hne]; [by eauto 10|].
  repeat case_match; done.
Qed.
End Lemmas.

(** States that hold the same non-empty values; spent outputs may be missing
    from one and empty in the other. *)
Definition state_equiv {T} `{StateStore T} (t1 t2 : T) : Prop :=
  forall key, nonempty (st_get t1 false key) = nonempty (st_get t2 false key).

Definition db_equiv {T K} `{StateStore T} (d1 d2 : token_db T K) : Prop :=
  state_equiv (db_state d1) (db_state d2) /\ db_cache d1 = db_cache d2.

Section Equivalence.
Context {T K : Type} `{StateStoreLaws T} `{KVStore K}.

#[export] Instance state_equiv_equivalence : Equivalence (@state_equiv T _).
Proof.
  split; [intros t key; reflexivity|intros t1 t2 Ht key; by rewrite Ht|].
  intros t1 t2 t3 H12 H23 key. by rewrite H12.
Qed.

#[export] Instance db_equiv_equivalence : Equivalence (@db_equiv T K _).
Proof.
  split; [intros d; split; reflexivity|intros d1 d2 [Ht Hk]; by split; symmetry|].
  intros d1 d2 d3 [Ht Hk] [Ht' Hk']. split; [by etransitivity|by etransitivity].
Qed.

#[export] Instance state_repr_proper : Proper (state_equiv ==> (=) ==> iff) (@state_repr T _).
Proof.
  intros t1 t2 Ht m ? <-. unfold state_repr.
  split; intros Hr a s; [rewrite <- (Ht _)|rewrite (Ht _)]; apply Hr.
Qed.

(** Two computations give the same result and equivalent stores. *)
Definition same_run {A} (r1 r2 : res A * token_db T K) : Prop :=
  r1.1 = r2.1 /\ db_equiv r1.2 r2.2.

Lemma same_run_bind {A B} (m1 m2 : M (token_db T K) A) (f1 f2 : A -> M (token_db T K) B) d1 d2 :
  same_run (m1 d1) (m2 d2) -> (forall a d1' d2', db_equiv d1' d2' -> same_run (f1 a d1') (f2 a d2')) ->
  same_run (bind m1 f1 d1) (bind m2 f2 d2).
Proof.
  unfold bind, same_run. destruct (m1 d1) as [r1 d1'], (m2 d2) as [r2 d2']; simpl.
  intros [-> Hd] Hf. destruct r2 as [a|e]; [by apply Hf|done].
Qed.

Lemma same_run_catch {A} (m1 m2 : M (token_db T K) A) h d1 d2 :
  same_run (m1 d1) (m2 d2) ->
  (forall e m, h e = Some m -> forall d1' d2', db_equiv d1' d2' -> same_run (m d1') (m d2')) ->
  same_run (catch m1 h d1) (catch m2 h d2).
Proof.
  unfold catch. destruct (m1 d1) as [r1 d1'], (m2 d2) as [r2 d2'].
  intros [Hr Hd] Hh. simpl in *. subst r2. destruct r1 as [a|e]; [done|].
  destruct (h e) as [m|] eqn:E; [by apply (Hh e)|done].
Qed.

Lemma same_run_lift {A} (r : res A) d1 d2 : db_equiv d1 d2 -> same_run (lift r d1) (lift r d2).
Proof. by split. Qed.

Lemma same_run_for_each {A} (l : list A) (f1 f2 : A -> M (token_db T K) unit) d1 d2 :
  db_equiv d1 d2 -> (forall a d1' d2', db_equiv d1' d2' -> same_run (f1 a d1') (f2 a d2')) ->
  same_run (for_each l f1 d1) (for_each l f2 d2).
Proof.
  intros Hd Hf. revert d1 d2 Hd. induction l as [|a l IH]; intros d1 d2 Hd; simpl; [done|].
  apply same_run_bind; [by apply Hf|]. intros [] d1' d2'. apply IH.
Qed.

Lemma state_equiv_step t1 t2 key v (f1 f2 : T -> T) :
  state_equiv t1 t2 ->
  (forall t, nonempty (st_get (f1 t) false key) = v) -> (forall t, nonempty (st_get (f2 t) false key) = v) ->
  (forall t key', key <> key' -> st_get (f1 t) false key' = st_get t false key') ->
  (forall t key', key <> key' -> st_get (f2 t) false key' = st_get t false key') ->
  state_equiv (f1 t1) (f2 t2).
Proof.
  intros Ht H1v H2v H1n H2n key'. destruct (decide (key = key')) as [<-|Hne].
  - by rewrite H1v, H2v.
  - by rewrite H1n, H2n.
Qed.

Lemma same_run_spend a s c rm1 rm2 d1 d2 :
  db_equiv d1 d2 -> same_run (spend_input a s c rm1 d1) (spend_input a s c rm2 d2).
Proof.
  intros [Ht Hk]. set (key := create_state_key a s).
  assert (forall rm, exists f : T -> T, forall d : token_db T K,
    spend_input a s c rm d = on_cache (spend_output (IsOutput (mkOutput a s None)) c)
                                      (mkDb (f (db_state d)) (db_cache d)) /\
    (forall t, nonempty (st_get (f t) false key) = None) /\
    (forall t key', key <> key' -> st_get (f t) false key' = st_get t false key')) as Hf.
  { intros []; [exists (fun t => st_remove t key)|exists (fun t => st_set t key "")];
      intros d; split_and!; try reflexivity; intros;
      by rewrite ?st_get_remove_eq, ?st_get_set_eq, ?st_get_remove_ne, ?st_get_set_ne. }
  destruct (Hf rm1) as [f1 Hf1], (Hf rm2) as [f2 Hf2].
  destruct (Hf1 d1) as (-> & ? & ?), (Hf2 d2) as (-> & ? & ?).
  unfold on_cache, zoom. cbn [db_cache]. rewrite Hk.
  destruct (spend_output _ _ _) as [r k']. split; [done|]. split; [|done].
  by eapply state_equiv_step.
Qed.

Lemma same_run_add o c d1 d2 :
  db_equiv d1 d2 -> same_run (add_new_output o c d1) (add_new_output o c d2).
Proof.
  intros [Ht Hk]. unfold add_new_output, on_state, on_cache, zoom. reduce_monad. cbn [db_cache].
  rewrite Hk. destruct (add_output _ _ _) as [r k']. split; [done|]. split; [|done].
  cbn [snd db_state]. eapply (state_equiv_step _ _ _ _ (fun t => st_set t _ _) (fun t => st_set t _ _));
    [done| | |..]; intros; cbv beta; rewrite ?st_get_set_eq, ?st_get_set_ne by done; reflexivity.
Qed.
End Equivalence.

(** ** Properties *)

Section Properties.
Context {T K : Type} `{StateStoreLaws T} `{KVStoreLaws K}.
Implicit Types (t : txn) (d : token_db T K) (m : utxos).

(** C6: a transfer that passed dynamic validation is applied without error in
    both handler versions, keeps the total supply, makes its inputs
    unspendable and its outputs spendable at the transaction's sequence
    number, and touches nothing else. *)
Theorem xfer_conserves_supply {A} validator rm d m req t (v : A) inputs outputs :
  db_repr false d m ->
  xfer_dynamic_validation validator (db_cache d) req = Ok v ->
  op_inputs (req_operation req) = Some inputs -> NoDup inputs ->
  op_outputs (req_operation req) = Some outputs -> NoDup (po_address <$> outputs) ->
  txn_inputs t = Some inputs -> txn_outputs t = Some outputs ->
  (forall o, o ∈ outputs -> u_amount m (mkInput (po_address o) (txn_seqNo t)) = None) ->
  exists d' m', xfer_update rm t false d = (Ok tt, d') /\ db_repr false d' m' /\
    supply m' = supply m /\
    (forall i, i ∈ inputs -> u_amount m' i = None) /\
    (forall o, o ∈ outputs -> u_amount m' (mkInput (po_address o) (txn_seqNo t)) = Some (po_amount o)) /\
    (forall j, j ∉ inputs -> (in_seqNo j = txn_seqNo t -> in_address j ∉ po_address <$> outputs) ->
               u_amount m' j = u_amount m j).
Proof.
  intros Hr Hval Hi Hnd Ho Hnd' Hti Hto Hfresh.
  unfold xfer_dynamic_validation in Hval. apply res_bind_Ok in Hval as ([] & Hval & _).
  destruct (do_validate_Ok _ _ _ (proj1 Hr) Hval) as (ins & outs & Hi' & Ho' & Hall & Hsum).
  simplify_eq. rewrite remove_dups_NoDup_id in Hsum by done.
  destruct (xfer_update_repr rm d false m t inputs outputs) as (d' & Hrun & Hr'); [done..|].
  eexists d', _. split_and!; [exact Hrun|exact Hr'|..].
  - rewrite supply_add_all, supply_spend_all by done. lia.
  - intros i Hin. rewrite u_amount_add_all_ne; [apply u_amount_spend_all_in; [apply Hr|done]|].
    intros Hs (o & Ha & Hout)%list_elem_of_fmap. destruct (Hall i Hin) as [w Hw].
    specialize (Hfresh o Hout). rewrite <- Hs, <- Ha in Hfresh. destruct i; simpl in *. congruence.
  - intros o Hout. apply u_amount_add_all_in; [done..|].
    apply u_amount_spend_all_None; [apply Hr|by apply Hfresh].
  - intros j Hj Hs. rewrite u_amount_add_all_ne by done. by apply u_amount_spend_all_ne.
Qed.

(** C7: no double spending: once a transfer has been applied, every later
    transfer request that names one of its inputs is refused with
    [InvalidFundsError], whatever the other inputs, outputs and signatures
    and whatever the authorization rules say. *)
Theorem xfer_no_double_spend {A} validator rm d d' m t inputs outputs req inputs' i :
  db_repr false d m -> txn_inputs t = Some inputs -> txn_outputs t = Some outputs ->
  NoDup (po_address <$> outputs) ->
  (forall o, o ∈ outputs -> u_amount m (mkInput (po_address o) (txn_seqNo t)) = None) ->
  xfer_update rm t false d = (Ok tt, d') ->
  op_inputs (req_operation req) = Some inputs' -> i ∈ inputs -> i ∈ inputs' ->
  exists msg, xfer_dynamic_validation (A:=A) validator (db_cache d') req =
              Raise (InvalidFundsError (identifier req) (reqId req) msg).
Proof.
  intros Hr Hi Ho Hnd' Hfresh Hrun Hi' Hin Hin'.
  destruct (decide (NoDup inputs /\ Forall (fun j => is_Some (u_amount m j)) inputs))
    as [[Hnd Hall]|Hbad]; rewrite Forall_forall in *.
  2: { destruct (xfer_update_fails rm d false m t inputs Hr Hi Hbad) as (msg & d2 & Hf). congruence. }
  destruct (xfer_update_repr rm d false m t inputs outputs) as (d2 & Hrun' & Hr'); [done..|].
  rewrite Hrun in Hrun'. injection Hrun' as <-.
  destruct (sum_request_inputs_missing d' false _ req inputs' i (proj1 Hr') Hi' Hin') as [msg Hm].
  { rewrite u_amount_add_all_ne; [apply u_amount_spend_all_in; [apply Hr|done]|].
    intros Hs (o & Ha & Hout)%list_elem_of_fmap. destruct (Hall i Hin) as [w Hw].
    specialize (Hfresh o Hout). rewrite <- Hs, <- Ha in Hfresh. destruct i; simpl in *. congruence. }
  exists msg. unfold xfer_dynamic_validation, do_validate_inputs_ouputs. by rewrite Hm.
Qed.

(** Applying a transfer whose inputs are not all present, or not pairwise
    different, raises [OperationError]; it never succeeds partially. *)
Theorem xfer_update_rejects rm d c m t inputs :
  db_repr c d m -> txn_inputs t = Some inputs ->
  ~ (NoDup inputs /\ forall i, i ∈ inputs -> is_Some (u_amount m i)) ->
  exists msg d', xfer_update rm t c d = (Raise (OperationError msg), d').
Proof. apply xfer_update_fails. Qed.

(** A mint adds exactly the minted amounts to the supply, makes its outputs
    spendable and changes no other output. *)
Theorem mint_increases_supply d c m t outputs :
  db_repr c d m -> txn_outputs t = Some outputs -> NoDup (po_address <$> outputs) ->
  (forall o, o ∈ outputs -> u_amount m (mkInput (po_address o) (txn_seqNo t)) = None) ->
  exists d' m', mint_update_state t c d = (Ok tt, d') /\ db_repr c d' m' /\
    supply m' = (supply m + zsum (po_amount <$> outputs))%Z /\
    (forall o, o ∈ outputs -> u_amount m' (mkInput (po_address o) (txn_seqNo t)) = Some (po_amount o)) /\
    (forall j, (in_seqNo j = txn_seqNo t -> in_address j ∉ po_address <$> outputs) ->
               u_amount m' j = u_amount m j).
Proof.
  intros Hr Ho Hnd Hfresh.
  destruct (mint_update_repr d c m t outputs) as (d' & Hrun & Hr'); [done..|].
  eexists d', _. split_and!; [exact Hrun|exact Hr'|apply supply_add_all|..].
  - intros o Hout. apply u_amount_add_all_in; auto.
  - intros j Hj. by apply u_amount_add_all_ne.
Qed.

(** The check of a transfer's sums, on every branch: a missing input gives
    [InvalidFundsError]; otherwise the sum of the distinct inputs is compared
    with the sum of the outputs, and equality is the only way to pass. *)
Theorem xfer_sums_outcome d m req inputs outputs :
  cache_repr (db_cache d) false m ->
  op_inputs (req_operation req) = Some inputs -> op_outputs (req_operation req) = Some outputs ->
  ((exists i, i ∈ inputs /\ u_amount m i = None) ->
     exists msg, do_validate_inputs_ouputs (db_cache d) req =
                 Raise (InvalidFundsError (identifier req) (reqId req) msg)) /\
  ((forall i, i ∈ inputs -> is_Some (u_amount m i)) ->
     match (zsum (omap (u_amount m) (remove_dups inputs)) ?= zsum (po_amount <$> outputs))%Z with
     | Eq => do_validate_inputs_ouputs (db_cache d) req = Ok tt
     | Gt => exists msg, do_validate_inputs_ouputs (db_cache d) req =
                         Raise (ExtraFundsError (identifier req) (reqId req) msg)
     | Lt => exists msg, do_validate_inputs_ouputs (db_cache d) req =
                         Raise (InsufficientFundsError (identifier req) (reqId req) msg)
     end).
Proof.
  intros Hr Hi Ho. unfold do_validate_inputs_ouputs. split.
  - intros (i & Hin & Hn). destruct (sum_request_inputs_missing _ _ _ _ _ _ Hr Hi Hin Hn) as [msg ->].
    simpl. eauto.
  - intros Hall. rewrite (sum_request_inputs_repr _ _ _ _ _ Hr Hi Hall). unfold sum_outputs.
    rewrite Ho. cbn [dict_item res_bind]. unfold validate_given_inputs_outputs.
    set (x := zsum (omap _ _)). set (y := zsum _).
    destruct (Z.compare_spec x y) as [->|Hlt|Hgt].
    + by rewrite Z.eqb_refl.
    + rewrite (proj2 (Z.eqb_neq x y)), (proj2 (Z.ltb_lt x y)) by lia.
      rewrite Z.gtb_ltb, (proj2 (Z.ltb_ge y x)) by lia. eauto.
    + rewrite (proj2 (Z.eqb_neq x y)), Z.gtb_ltb, (proj2 (Z.ltb_lt y x)) by lia. eauto.
Qed.

(** C22: the current and the 1.0.0 version of the transfer handler agree: run on
    equivalent stores (one may have kept empty values for spent outputs) with
    any transaction they return the same result or exception, and leave the
    same UTXO cache and states with the same non-empty values. *)
Theorem xfer_versions_equivalent t c d1 d2 :
  db_equiv d1 d2 ->
  (xfer_update_state t c d1).1 = (xfer100_update_state t c d2).1 /\
  db_equiv (xfer_update_state t c d1).2 (xfer100_update_state t c d2).2.
Proof.
  intros Hd. change (same_run (xfer_update true t c d1) (xfer_update false t c d2)).
  apply same_run_catch.
  - apply same_run_bind; [by apply same_run_lift|]. intros ins d1' d2' Hd'.
    apply same_run_bind; [apply same_run_for_each; [done|]; auto using same_run_spend|].
    intros [] d1'' d2'' Hd''. apply same_run_bind; [by apply same_run_lift|].
    intros outs e1 e2 He. apply same_run_for_each; [done|]. auto using same_run_add.
  - intros e m0 Hm e1 e2 He. unfold update_error in Hm. case_match; simplify_eq. by split.
Qed.
End Properties.

(** Building the transaction of a transfer leaves the request as it was,
    and plenum's conversion sees the operation without its signatures; each
    signature is attached to the address of the input it belongs to. *)
Theorem xfer_req_to_txn_restores {X} (super : request -> res X) add req inputs sigs t :
  op_inputs (req_operation req) = Some inputs -> op_sigs (req_operation req) = Some sigs ->
  super (with_sigs req None) = Ok t ->
  xfer_req_to_txn super add req = (Ok (add t (zip (in_address <$> inputs) sigs)), req).
Proof.
  intros Hi Hs Ht. unfold xfer_req_to_txn. reduce_monad. rewrite Hs. cbn [dict_item].
  rewrite Ht. cbn [with_sigs req_operation op_inputs identifier reqId req_fees op_type op_outputs].
  rewrite Hi. cbn [dict_item]. rewrite <- Hs. destruct req as [? ? []]. simpl in *. by subst.
Qed.

(** ** Witnesses

    A ledger on which one mint (transaction 1) gave 10 tokens to ["alice"] and
    5 to ["bob"]. *)
Module Ex.
Abbreviation db := (token_db Mem.state Mem.kv).

Definition empty : db := mkDb Mem.empty_state Mem.empty_kv.

Lemma empty_repr c : db_repr c empty ∅.
Proof.
  split_and!.
  - intros a. rewrite lookup_empty. by destruct c.
  - intros a s. done.
  - intros a. constructor.
Qed.

Definition mint : txn := mkTxn MINT_PUBLIC None (Some [mkPOutput "alice" 10; mkPOutput "bob" 5]) 1.
Definition ledger : db := (mint_update_state mint false empty).2.
Definition outs : utxos := u_add_all ∅ 1 [mkPOutput "alice" 10; mkPOutput "bob" 5].

Lemma ledger_repr : db_repr false ledger outs.
Proof.
  destruct (mint_update_repr empty false ∅ mint [mkPOutput "alice" 10; mkPOutput "bob" 5])
    as (d' & Hrun & Hr); [apply empty_repr|done|by apply (bool_decide_unpack _)|done|].
  unfold ledger. by rewrite Hrun.
Qed.

(** ["alice"] pays 4 to ["carol"] and keeps 6. *)
Definition pay_inputs : list PInput := [mkInput "alice" 1].
Definition pay_outputs : list POutput := [mkPOutput "carol" 4; mkPOutput "alice" 6].
Definition pay : txn := mkTxn XFER_PUBLIC (Some pay_inputs) (Some pay_outputs) 2.
Definition pay_request : request :=
  mkRequest (Some "alice") (Some 7%Z)
    (mkOperation XFER_PUBLIC (Some pay_inputs) (Some pay_outputs) (Some ["sig"])) FeesMissing.
Definition allow (r : request) (l : list auth_action) : res unit := Ok tt.
End Ex.

Lemma xfer_conserves_supply_witness :
  exists d' m', xfer_update true Ex.pay false Ex.ledger = (Ok tt, d') /\ db_repr false d' m' /\
    supply m' = supply Ex.outs /\
    (forall i, i ∈ Ex.pay_inputs -> u_amount m' i = None) /\
    (forall o, o ∈ Ex.pay_outputs -> u_amount m' (mkInput (po_address o) 2) = Some (po_amount o)) /\
    (forall j, j ∉ Ex.pay_inputs -> (in_seqNo j = 2%Z -> in_address j ∉ po_address <$> Ex.pay_outputs) ->
               u_amount m' j = u_amount Ex.outs j).
Proof.
  apply (xfer_conserves_supply Ex.allow true Ex.ledger Ex.outs Ex.pay_request Ex.pay tt);
    try (vm_compute; reflexivity); try (by apply (bool_decide_unpack _)).
  - apply Ex.ledger_repr.
  - apply Forall_forall, (bool_decide_unpack _). by vm_compute.
Defined.

Lemma xfer_no_double_spend_witness :
  exists msg, xfer_dynamic_validation (A:=unit) Ex.allow
                (db_cache (xfer_update true Ex.pay false Ex.ledger).2) Ex.pay_request =
              Raise (InvalidFundsError (Some "alice") (Some 7%Z) msg).
Proof.
  apply (xfer_no_double_spend (A:=unit) Ex.allow true Ex.ledger _ Ex.outs Ex.pay
           Ex.pay_inputs Ex.pay_outputs Ex.pay_request Ex.pay_inputs (mkInput "alice" 1));
    try (vm_compute; reflexivity); try (by apply (bool_decide_unpack _)).
  - apply Ex.ledger_repr.
  - apply Forall_forall, (bool_decide_unpack _). by vm_compute.
Defined.

Lemma xfer_update_rejects_witness :
  exists msg d', xfer_update true (mkTxn XFER_PUBLIC (Some [mkInput "alice" 1; mkInput "alice" 1]) (Some []) 2)
                   false Ex.ledger = (Raise (OperationError msg), d').
Proof.
  apply (xfer_update_rejects true Ex.ledger false Ex.outs _ [mkInput "alice" 1; mkInput "alice" 1]);
    [apply Ex.ledger_repr|reflexivity|].
  intros [Hnd _]. apply NoDup_cons in Hnd as [Hn _]. apply Hn. by left.
Defined.

Lemma mint_increases_supply_witness :
  exists d' m', mint_update_state Ex.mint false Ex.empty = (Ok tt, d') /\ db_repr false d' m' /\
    supply m' = (supply ∅ + 15)%Z /\
    (forall o, o ∈ [mkPOutput "alice" 10; mkPOutput "bob" 5] ->
               u_amount m' (mkInput (po_address o) 1) = Some (po_amount o)) /\
    (forall j, (in_seqNo j = 1%Z -> in_address j ∉ ["alice"; "bob"]) -> u_amount m' j = u_amount ∅ j).
Proof.
  apply (mint_increases_supply Ex.empty false ∅ Ex.mint [mkPOutput "alice" 10; mkPOutput "bob" 5]);
    [apply Ex.empty_repr|reflexivity|by apply (bool_decide_unpack _)|done].
Defined.

Lemma xfer_sums_outcome_witness :
  do_validate_inputs_ouputs (db_cache Ex.ledger) Ex.pay_request = Ok tt.
Proof.
  apply (xfer_sums_outcome Ex.ledger Ex.outs Ex.pay_request Ex.pay_inputs Ex.pay_outputs
           (proj1 Ex.ledger_repr) eq_refl eq_refl).
  apply Forall_forall, (bool_decide_unpack _). by vm_compute.
Defined.

Lemma xfer_versions_equivalent_witness :
  (xfer_update_state Ex.pay false Ex.ledger).1 = (xfer100_update_state Ex.pay false Ex.ledger).1 /\
  db_equiv (xfer_update_state Ex.pay false Ex.ledger).2 (xfer100_update_state Ex.pay false Ex.ledger).2.
Proof. apply (xfer_versions_equivalent Ex.pay false Ex.ledger Ex.ledger). done. Defined.

Definition ex_convert (r : request) : res (option (list string) * list (string * string)) :=
  Ok (op_sigs (req_operation r), []).
Definition ex_attach (t : option (list string) * list (string * string)) (s : list (string * string)) :=
  (t.1, s).

Lemma xfer_req_to_txn_restores_witness :
  xfer_req_to_txn ex_convert ex_attach Ex.pay_request = (Ok (None, [("alice", "sig")]), Ex.pay_request).
Proof.
  by apply (xfer_req_to_txn_restores ex_convert ex_attach Ex.pay_request Ex.pay_inputs ["sig"] (None, [])).
Defined.
