(* ===== verification/SortedItems.v ===== *)
(** * SortedItems ([sovtoken/util.py])

    The sorted container of the GET_UTXO reply: a binary heap kept by Python's
    [heapq] ([heappush], [heappop] with its [_siftdown] and [_siftup]) and read
    by popping until it is empty.  The heap is a list updated by index, as in
    the library; the theorems say that reading returns the added items sorted. *)

From stdpp Require Import sorting.
From S2P Require Import Prelude Exceptions TokenTypes.

#[export] Instance Output_inhabited : Inhabited Output := populate (mkOutput "" 0 None).

Section Heapq.
Context {A : Type} `{!Inhabited A} (lt : A -> A -> bool).
Implicit Types (heap : list A) (pos : nat).

(** [heapq._siftdown(heap, startpos, pos)]: [newitem] moves towards the root;
    [pos] decreases, so [pos] steps are enough. *)
Fixpoint siftdown_loop (fuel : nat) heap (newitem : A) (startpos pos : nat) : list A :=
  match fuel with
  | O => <[pos := newitem]> heap
  | S fuel =>
      if (startpos <? pos)%nat then
        let parentpos := ((pos - 1) / 2)%nat in
        let parent := heap !!! parentpos in
        if lt newitem parent
        then siftdown_loop fuel (<[pos := parent]> heap) newitem startpos parentpos
        else <[pos := newitem]> heap
      else <[pos := newitem]> heap
  end.

Definition siftdown heap (startpos pos : nat) : list A :=
  siftdown_loop pos heap (heap !!! pos) startpos pos.

(** The first loop of [heapq._siftup]: the smaller child moves up until the
    hole reaches a leaf; [pos] grows, so [length heap] steps are enough. *)
Fixpoint siftup_loop (fuel : nat) heap (pos : nat) : list A * nat :=
  match fuel with
  | O => (heap, pos)
  | S fuel =>
      let endpos := length heap in
      let childpos := (2 * pos + 1)%nat in
      if (childpos <? endpos)%nat then
        let rightpos := (childpos + 1)%nat in
        let childpos := if ((rightpos <? endpos)%nat && negb (lt (heap !!! childpos) (heap !!! rightpos)))%bool
                        then rightpos else childpos in
        siftup_loop fuel (<[pos := heap !!! childpos]> heap) childpos
      else (heap, pos)
  end.

Definition siftup heap (pos : nat) : list A :=
  let newitem := heap !!! pos in
  let '(heap, pos') := siftup_loop (length heap) heap pos in
  siftdown (<[pos' := newitem]> heap) pos pos'.

Definition heappush heap (item : A) : list A :=
  siftdown (heap ++ [item]) 0 (length heap).

(** [None] is the [IndexError] of popping an empty heap. *)
Definition heappop heap : option (A * list A) :=
  match heap with
  | [] => None
  | _ =>
      let lastelt := heap !!! (length heap - 1)%nat in
      let heap := take (length heap - 1) heap in
      match heap with
      | [] => Some (lastelt, heap)
      | returnitem :: _ => Some (returnitem, siftup (<[O := lastelt]> heap) 0)
      end
  end.

(** ** SortedItems *)

(** [SortedItems.add]; the object is its [_heap]. *)
Definition items_add (item : A) : M (list A) unit := modify (fun heap => heappush heap item).

Fixpoint drain (fuel : nat) (ordered : list A) heap : list A * list A :=
  match fuel with
  | O => (ordered, heap)
  | S fuel =>
      match heappop heap with
      | None => (ordered, heap)
      | Some (item, heap') => drain fuel (ordered ++ [item]) heap'
      end
  end.

(** The property [SortedItems.sorted_list] empties the heap. *)
Definition sorted_list : M (list A) (list A) := fun heap =>
  let '(ordered, heap') := drain (length heap) [] heap in (Ok ordered, heap').
End Heapq.

(** ** Heap order *)

Section HeapFacts.
Context {A : Type} `{!Inhabited A} (lt : A -> A -> bool).
Definition item_le (x y : A) : Prop := lt y x = false.
Context (lt_asym : forall x y, lt x y = true -> lt y x = false).
Context (le_trans : forall x y z, item_le x y -> item_le y z -> item_le x z).
Implicit Types (h : list A) (i pos : nat).

Definition par (i : nat) : nat := (i - 1) / 2.

Definition heap_ordered h : Prop :=
  forall i, (0 < i < length h)%nat -> item_le (h !!! par i) (h !!! i).

(** Ordered except between [pos] and its parent. *)
Definition ordered_above h pos : Prop :=
  (forall i, (0 < i < length h)%nat -> i <> pos -> item_le (h !!! par i) (h !!! i)) /\
  (forall i, (0 < i < length h)%nat -> (0 < pos)%nat -> par i = pos -> item_le (h !!! par pos) (h !!! i)).

(** Ordered around a hole at [pos]. *)
Definition ordered_around h pos : Prop :=
  (forall i, (0 < i < length h)%nat -> i <> pos -> par i <> pos -> item_le (h !!! par i) (h !!! i)) /\
  (forall i, (0 < i < length h)%nat -> (0 < pos)%nat -> par i = pos -> item_le (h !!! par pos) (h !!! i)).

Lemma par_lt i : (0 < i)%nat -> (par i < i)%nat.
Proof. intros. unfold par. apply Nat.Div0.div_lt_upper_bound. lia. Qed.

Lemma par_child i p : (0 < i)%nat -> par i = p <-> (i = 2 * p + 1 \/ i = 2 * p + 2)%nat.
Proof.
  intros Hi. unfold par. pose proof (Nat.div_mod_eq (i - 1) 2) as Hd.
  pose proof (Nat.mod_upper_bound (i - 1) 2). split; [lia|].
  intros [->| ->]; [replace (2 * p + 1 - 1)%nat with (p * 2)%nat by lia; by apply Nat.div_mul|].
  replace (2 * p + 2 - 1)%nat with (1 + p * 2)%nat by lia. rewrite Nat.div_add by lia. done.
Qed.

Lemma le_refl x : item_le x x.
Proof. unfold item_le. destruct (lt x x) eqn:E; [|done]. by rewrite (lt_asym _ _ E) in E. Qed.

Lemma insert_swap h i j x :
  (i < length h)%nat -> (j < length h)%nat -> i <> j ->
  <[j := x]> (<[i := h !!! j]> h) ≡ₚ <[i := x]> h.
Proof.
  intros Hi Hj Hne. apply Permutation_inj. split; [by rewrite !length_insert|].
  exists (fun k => if decide (k = i) then j else if decide (k = j) then i else k). split.
  - intros k1 k2. repeat case_decide; congruence.
  - intros k. destruct (decide (k = i)) as [->|Hki].
    + rewrite list_lookup_insert_ne by done. rewrite list_lookup_insert_eq by done.
      rewrite list_lookup_insert_ne by done. symmetry. by apply list_lookup_lookup_total_lt.
    + destruct (decide (k = j)) as [->|Hkj].
      * by rewrite !list_lookup_insert_eq by (rewrite ?length_insert; done).
      * by rewrite !list_lookup_insert_ne by done.
Qed.

Lemma siftdown_loop_length fuel h x s pos : length (siftdown_loop lt fuel h x s pos) = length h.
Proof.
  revert h pos. induction fuel as [|fuel IH]; intros h pos; simpl; [apply length_insert|].
  repeat case_match; rewrite ?IH; apply length_insert.
Qed.

Lemma siftdown_loop_perm fuel h x s pos :
  (pos < length h)%nat -> siftdown_loop lt fuel h x s pos ≡ₚ <[pos := x]> h.
Proof.
  revert h pos. induction fuel as [|fuel IH]; intros h pos Hpos; cbn [siftdown_loop]; [done|].
  destruct (Nat.ltb_spec s pos); [|done]. case_match; [|done].
  change ((pos - 1) / 2)%nat with (par pos). pose proof (par_lt pos ltac:(lia)).
  rewrite IH by (rewrite length_insert; lia). apply insert_swap; lia.
Qed.

(** One step of the climb keeps the order everywhere but at the new position. *)
Lemma ordered_above_step h x pos :
  (0 < pos < length h)%nat -> ordered_above (<[pos := x]> h) pos -> lt x (h !!! par pos) = true ->
  ordered_above (<[par pos := x]> (<[pos := h !!! par pos]> h)) (par pos).
Proof.
  intros Hpos [Ho Hc] Hlt. pose proof (par_lt pos ltac:(lia)) as Hpp.
  set (p := par pos) in *. rewrite length_insert in *. split.
  - intros i Hi Hip. rewrite !length_insert in Hi.
    pose proof (par_lt i ltac:(lia)) as Hpi.
    destruct (decide (i = pos)) as [->|Hin].
    + fold p. rewrite list_lookup_total_insert_eq by (rewrite length_insert; lia).
      rewrite list_lookup_total_insert_ne, list_lookup_total_insert_eq by lia. by apply lt_asym.
    + rewrite (list_lookup_total_insert_ne _ p i), (list_lookup_total_insert_ne _ pos i) by done.
      specialize (Ho i Hi Hin). rewrite (list_lookup_total_insert_ne _ pos i) in Ho by done.
      destruct (decide (par i = p)) as [Hp|Hp].
      * rewrite Hp, list_lookup_total_insert_eq by (rewrite length_insert; lia).
        rewrite Hp, list_lookup_total_insert_ne in Ho by lia.
        apply (le_trans _ (h !!! p)); [by apply lt_asym|done].
      * rewrite list_lookup_total_insert_ne by done.
        destruct (decide (par i = pos)) as [Hq|Hq].
        -- rewrite Hq, list_lookup_total_insert_eq by lia.
           specialize (Hc i Hi ltac:(lia) Hq).
           by rewrite !list_lookup_total_insert_ne in Hc by lia.
        -- rewrite list_lookup_total_insert_ne in Ho |- * by done. done.
  - intros i Hi Hp Hip. rewrite !length_insert in Hi. pose proof (par_lt p Hp) as Hpp'.
    assert (item_le (h !!! par p) (h !!! p)) as Hup.
    { specialize (Ho p ltac:(lia) ltac:(lia)). by rewrite !list_lookup_total_insert_ne in Ho by lia. }
    rewrite (list_lookup_total_insert_ne _ p (par p)), (list_lookup_total_insert_ne _ pos (par p)) by lia.
    pose proof (par_lt i ltac:(lia)). rewrite (list_lookup_total_insert_ne _ p i) by lia.
    destruct (decide (i = pos)) as [->|Hin]; [by rewrite list_lookup_total_insert_eq by lia|].
    rewrite list_lookup_total_insert_ne by done.
    specialize (Ho i Hi Hin). rewrite Hip, !list_lookup_total_insert_ne in Ho by lia.
    by apply (le_trans _ (h !!! p)).
Qed.

Lemma siftdown_loop_ordered fuel h x pos :
  (pos <= fuel)%nat -> (pos < length h)%nat -> ordered_above (<[pos := x]> h) pos ->
  heap_ordered (siftdown_loop lt fuel h x 0 pos).
Proof.
  revert h pos. induction fuel as [|fuel IH]; intros h pos Hf Hpos Ho; cbn [siftdown_loop].
  { intros i Hi. apply Ho; lia. }
  destruct (Nat.ltb_spec 0 pos) as [Hp|Hp]; [|intros i Hi; apply Ho; lia].
  change ((pos - 1) / 2)%nat with (par pos). pose proof (par_lt pos Hp).
  destruct (lt x (h !!! par pos)) eqn:E.
  - apply IH; [lia|rewrite length_insert; lia|]. by apply ordered_above_step.
  - intros i Hi. destruct (decide (i = pos)) as [->|Hne]; [|by apply Ho].
    rewrite length_insert in Hi. rewrite list_lookup_total_insert_eq by lia.
    by rewrite list_lookup_total_insert_ne by lia.
Qed.

(** The descent of [_siftup]: the list with [x] written into the hole keeps its
    elements, and the order around the hole is kept until it is a leaf. *)
Lemma siftup_loop_spec fuel h x pos :
  (pos < length h)%nat -> (length h <= fuel + pos)%nat -> ordered_around h pos ->
  let '(h', p) := siftup_loop lt fuel h pos in
  length h' = length h /\ (p < length h)%nat /\ <[p := x]> h' ≡ₚ <[pos := x]> h /\
  ordered_above (<[p := x]> h') p.
Proof.
  revert h pos. induction fuel as [|fuel IH]; intros h pos Hpos Hf [Ho Hc]; [lia|].
  cbn [siftup_loop]. destruct (Nat.ltb_spec (2 * pos + 1) (length h)) as [Hch|Hleaf].
  - set (c := if ((2 * pos + 1 + 1 <? length h)%nat &&
                  negb (lt (h !!! (2 * pos + 1)%nat) (h !!! (2 * pos + 1 + 1)%nat)))%bool
              then (2 * pos + 1 + 1)%nat else (2 * pos + 1)%nat).
    assert ((c = 2 * pos + 1 \/ c = 2 * pos + 2) /\ (c < length h) /\
      forall i, (0 < i < length h) -> par i = pos -> item_le (h !!! c) (h !!! i))%nat as (Hcc & Hcl & Hmin).
    { destruct (Nat.ltb_spec (2 * pos + 1 + 1) (length h)) as [Hr|Hr];
        [destruct (lt (h !!! (2 * pos + 1)%nat) (h !!! (2 * pos + 1 + 1)%nat)) eqn:E|];
        cbn [andb negb] in c; unfold c; (split_and!; [lia|lia|]);
        intros i Hi Hpi; apply par_child in Hpi; [|lia| |lia| |lia]; destruct Hpi as [->| ->]; try lia;
        replace (2 * pos + 2)%nat with (2 * pos + 1 + 1)%nat by lia;
        first [apply le_refl|by apply lt_asym|done]. }
    assert (par c = pos) as Hpc by (apply par_child; lia).
    specialize (IH (<[pos := h !!! c]> h) c). rewrite length_insert in IH.
    destruct (siftup_loop lt fuel _ c) as [h' p]. destruct IH as (Hl & Hp & Hperm & Hord); [lia|lia| |].
    + split; intros i Hi; rewrite length_insert in Hi; pose proof (par_lt i ltac:(lia)).
      * intros Hic Hpic. destruct (decide (i = pos)) as [->|Hip].
        -- rewrite list_lookup_total_insert_eq, list_lookup_total_insert_ne by lia.
           apply Hc; lia.
        -- rewrite (list_lookup_total_insert_ne _ pos i) by done.
           destruct (decide (par i = pos)) as [Hq|Hq].
           ++ rewrite Hq, list_lookup_total_insert_eq by lia. by apply Hmin.
           ++ rewrite list_lookup_total_insert_ne by done. by apply Ho.
      * intros _ Hpic. rewrite Hpc, list_lookup_total_insert_eq by lia.
        rewrite list_lookup_total_insert_ne by lia. rewrite <- Hpic. apply Ho; lia.
    + split_and!; [done|done| |done]. rewrite Hperm. apply insert_swap; lia.
  - split_and!; [done|done|done|]. split; intros i Hi; rewrite length_insert in Hi.
    + intros Hne. assert (par i <> pos) by (intros Hq; apply par_child in Hq; lia).
      rewrite !list_lookup_total_insert_ne by done. by apply Ho.
    + intros _ Hq. apply par_child in Hq; lia.
Qed.

Lemma siftup_spec h :
  h <> [] -> ordered_around h 0 ->
  siftup lt h 0 ≡ₚ h /\ heap_ordered (siftup lt h 0).
Proof.
  intros Hne Ho. assert (0 < length h)%nat as Hl by (destruct h; simpl; [done|lia]).
  unfold siftup. pose proof (siftup_loop_spec (length h) h (h !!! 0%nat) 0 Hl ltac:(lia) Ho) as Hs.
  destruct (siftup_loop _ _ _ _) as [h' p]. destruct Hs as (Hl' & Hp & Hperm & Hord).
  rewrite (list_insert_id h 0) in Hperm by (apply list_lookup_lookup_total_lt; lia).
  unfold siftdown. rewrite list_lookup_total_insert_eq by lia. split.
  - rewrite siftdown_loop_perm by (rewrite length_insert; lia). by rewrite list_insert_insert_eq.
  - apply siftdown_loop_ordered; [lia|rewrite length_insert; lia|]. by rewrite list_insert_insert_eq.
Qed.

Lemma heappush_spec h x :
  heap_ordered h -> heappush lt h x ≡ₚ x :: h /\ heap_ordered (heappush lt h x).
Proof.
  intros Ho. unfold heappush, siftdown.
  assert ((h ++ [x]) !!! length h = x) as Hx by (by rewrite lookup_total_app_r, Nat.sub_diag by lia).
  assert (<[length h := x]> (h ++ [x]) = h ++ [x]) as Hid.
  { apply list_insert_id. by rewrite lookup_app_r, Nat.sub_diag by lia. }
  rewrite Hx. split.
  - rewrite siftdown_loop_perm by (rewrite length_app; simpl; lia). rewrite Hid.
    symmetry. apply Permutation_cons_append.
  - apply siftdown_loop_ordered; [lia|rewrite length_app; simpl; lia|]. rewrite Hid.
    split; intros i Hi; rewrite length_app in Hi; simpl in Hi; pose proof (par_lt i ltac:(lia)).
    + intros Hne. rewrite !lookup_total_app_l by lia. apply Ho. lia.
    + intros _ Hq. apply par_child in Hq; lia.
Qed.

Lemma heap_root_min h i : heap_ordered h -> (i < length h)%nat -> item_le (h !!! 0%nat) (h !!! i).
Proof.
  intros Ho. induction (lt_wf i) as [i _ IH]. intros Hi.
  destruct (decide (i = 0%nat)) as [->|Hne]; [apply le_refl|].
  pose proof (par_lt i ltac:(lia)). eapply le_trans; [apply (IH (par i)); lia|]. apply Ho. lia.
Qed.

(** [heappop] takes out a least element and keeps the rest in heap order. *)
Lemma heappop_spec h :
  heap_ordered h ->
  match heappop lt h with
  | None => h = []
  | Some (x, h') => h ≡ₚ x :: h' /\ heap_ordered h' /\ Forall (item_le x) h'
  end.
Proof.
  intros Ho. destruct h as [|y l0] eqn:Eh; [done|]. rewrite <- Eh in *.
  assert (0 < length h)%nat as Hl by (subst; simpl; lia).
  assert (heappop lt h = match take (length h - 1) h with
    | [] => Some (h !!! (length h - 1)%nat, take (length h - 1) h)
    | r :: _ => Some (r, siftup lt (<[O := h !!! (length h - 1)%nat]> (take (length h - 1) h)) 0) end) as ->
    by (by rewrite Eh).
  set (n := (length h - 1)%nat). set (z := h !!! n). set (t := take n h).
  assert (h = t ++ [z]) as Ht.
  { unfold t. rewrite <- (take_drop n h) at 1. f_equal.
    apply list_eq. intros i. rewrite lookup_drop. destruct i as [|i].
    - rewrite Nat.add_0_r. apply list_lookup_lookup_total_lt. lia.
    - simpl. apply lookup_ge_None. lia. }
  assert (length t = n) as Htl by (unfold t; rewrite length_take; lia).
  clearbody t z n. clear Eh. subst h. destruct t as [|r t].
  { split_and!; [done| |constructor]. intros i Hi. simpl in Hi. lia. }
  rewrite length_app in Hl. simpl in Hl.
  destruct (siftup_spec (<[0%nat := z]> (r :: t))) as [Hp Hh]; [done| |].
  { split; intros i Hi; rewrite length_insert in Hi; simpl in Hi; pose proof (par_lt i ltac:(lia)); [|lia].
    intros Hne Hpne. rewrite !list_lookup_total_insert_ne by lia.
    specialize (Ho i). rewrite length_app in Ho. simpl in Ho.
    change (r :: t ++ [z]) with ((r :: t) ++ [z]) in Ho.
    rewrite !lookup_total_app_l in Ho by (simpl; lia). apply Ho. lia. }
  simpl in Hp, Hh |- *. split_and!; [|done|].
  - apply perm_skip. rewrite Hp. symmetry. apply Permutation_cons_append.
  - apply Forall_forall. intros x Hx. rewrite Hp in Hx.
    assert (x ∈ r :: t ++ [z]) as Hx' by (apply elem_of_cons; right; apply elem_of_app; set_solver).
    apply list_elem_of_lookup_1 in Hx' as [i Hi].
    rewrite <- (list_lookup_total_correct _ _ _ Hi).
    apply (heap_root_min (r :: t ++ [z]) i Ho). by apply lookup_lt_Some in Hi.
Qed.

Lemma drain_spec fuel acc h :
  (length h <= fuel)%nat -> heap_ordered h -> StronglySorted item_le acc ->
  (forall x y, x ∈ acc -> y ∈ h -> item_le x y) ->
  let '(l, h') := drain lt fuel acc h in
  h' = [] /\ l ≡ₚ acc ++ h /\ StronglySorted item_le l.
Proof.
  revert acc h. induction fuel as [|fuel IH]; intros acc h Hf Ho Hs Hle.
  { destruct h; simpl in *; [|lia]. by rewrite app_nil_r. }
  cbn [drain]. pose proof (heappop_spec h Ho) as Hp.
  destruct (heappop lt h) as [[x h']|]; [|subst; by rewrite app_nil_r].
  destruct Hp as (Hp & Ho' & Hmin). rewrite Forall_forall in Hmin.
  specialize (IH (acc ++ [x]) h'). destruct (drain lt fuel _ _) as [l h''].
  destruct IH as (-> & Hl & Hsort).
  - apply Permutation_length in Hp. simpl in Hp. lia.
  - done.
  - apply StronglySorted_app. split_and!; [|done|repeat constructor].
    intros x1 x2 H1 ->%list_elem_of_singleton. apply Hle; [done|]. rewrite Hp. by left.
  - intros x1 y1 [H1| ->%list_elem_of_singleton]%elem_of_app Hy; [|by apply Hmin].
    apply Hle; [done|]. rewrite Hp. by right.
  - split_and!; [done| |done]. rewrite Hl, Hp, <- app_assoc. done.
Qed.

(** Adding the items of [l] one by one. *)
Lemma add_all_spec l h :
  heap_ordered h ->
  exists h', for_each l (items_add lt) h = (Ok tt, h') /\ heap_ordered h' /\ h' ≡ₚ l ++ h.
Proof.
  revert h. induction l as [|x l IH]; intros h Ho; simpl; [by exists h|].
  destruct (heappush_spec h x Ho) as [Hp Ho'].
  destruct (IH (heappush lt h x) Ho') as (h' & Hrun & Ho'' & Hp').
  exists h'. split_and!; [|done|].
  - unfold bind, items_add, modify. exact Hrun.
  - rewrite Hp', Hp. symmetry. apply Permutation_middle.
Qed.

Lemma sorted_list_spec l :
  exists h sorted,
    for_each l (items_add lt) [] = (Ok tt, h) /\ sorted_list lt h = (Ok sorted, []) /\
    sorted ≡ₚ l /\ StronglySorted item_le sorted.
Proof.
  destruct (add_all_spec l []) as (h & Hrun & Ho & Hp); [intros i Hi; simpl in Hi; lia|].
  rewrite app_nil_r in Hp. unfold sorted_list.
  pose proof (drain_spec (length h) [] h ltac:(done) Ho ltac:(constructor) ltac:(set_solver)) as Hd.
  destruct (drain _ _ _ _) as [sorted h'] eqn:E. destruct Hd as (-> & Hl & Hs).
  exists h, sorted. rewrite E. split_and!; [done|done| |done]. by rewrite Hl, Hp.
Qed.
End HeapFacts.

(** ** Properties *)

Lemma Output_le_spec (x y : Output) : item_le Output_less_than x y <-> (out_seqNo x <= out_seqNo y)%Z.
Proof. unfold item_le, Output_less_than. apply Z.ltb_ge. Qed.

Lemma Output_lt_asym (x y : Output) : Output_less_than x y = true -> Output_less_than y x = false.
Proof. unfold Output_less_than. rewrite Z.ltb_lt, Z.ltb_ge. lia. Qed.

Lemma Output_le_trans (x y z : Output) :
  item_le Output_less_than x y -> item_le Output_less_than y z -> item_le Output_less_than x z.
Proof. rewrite !Output_le_spec. lia. Qed.

Definition seqNo_le (x y : Output) : Prop := (out_seqNo x <= out_seqNo y)%Z.

(** Outputs added in any order are read back sorted, none lost or doubled, and
    the heap is empty afterwards. *)
Lemma sorted_outputs_spec (l : list Output) :
  exists h sorted,
    for_each l (items_add Output_less_than) [] = (Ok tt, h) /\
    sorted_list Output_less_than h = (Ok sorted, []) /\
    sorted ≡ₚ l /\ StronglySorted seqNo_le sorted.
Proof.
  destruct (sorted_list_spec Output_less_than Output_lt_asym Output_le_trans l)
    as (h & sorted & Ha & Hs & Hp & Hsort).
  exists h, sorted. split_and!; [done..|]. clear -Hsort.
  induction Hsort as [|x l _ IH Hx]; constructor; [done|].
  eapply Forall_impl; [exact Hx|]. intros y. apply Output_le_spec.
Qed.

(** A [SortedItems] to which outputs are added in any order and any number
    gives them all back by increasing sequence number, and is empty afterwards;
    with distinct sequence numbers the list does not depend on the order of
    insertion (so every node sends the same reply). *)
Theorem sorted_items_canonical (l1 l2 : list Output) :
  l1 ≡ₚ l2 -> NoDup (out_seqNo <$> l1) ->
  exists h1 h2 sorted,
    for_each l1 (items_add Output_less_than) [] = (Ok tt, h1) /\
    for_each l2 (items_add Output_less_than) [] = (Ok tt, h2) /\
    sorted_list Output_less_than h1 = (Ok sorted, []) /\
    sorted_list Output_less_than h2 = (Ok sorted, []) /\
    sorted ≡ₚ l1 /\ StronglySorted seqNo_le sorted.
Proof.
  intros Hp Hnd. destruct (sorted_outputs_spec l1) as (h1 & s1 & Ha1 & Hs1 & Hp1 & Hsort1).
  destruct (sorted_outputs_spec l2) as (h2 & s2 & Ha2 & Hs2 & Hp2 & Hsort2).
  assert (s1 = s2) as <-; [|exists h1, h2, s1; auto 10].
  assert (NoDup (out_seqNo <$> s1)) as Hnd1 by (by rewrite Hp1).
  assert (s1 ≡ₚ s2) as Hp12 by (by rewrite Hp1, Hp2).
  clear -Hsort1 Hsort2 Hnd1 Hp12. revert s2 Hsort2 Hp12.
  induction Hsort1 as [|x l1 Hl1 IH Hx]; intros s2 Hs2 Hp.
  { by apply Permutation_nil_l in Hp. }
  destruct Hs2 as [|y l2 Hl2 Hy]; [by apply Permutation_nil_r in Hp|].
  rewrite Forall_forall in Hx, Hy. apply NoDup_cons in Hnd1 as [Hxn Hnd1].
  assert (x = y) as <-.
  { assert (y ∈ x :: l1) as [->|Hyin]%elem_of_cons by (rewrite Hp; by left); [done|].
    assert (x ∈ y :: l2) as [->|Hxin]%elem_of_cons by (rewrite <- Hp; by left); [done|].
    exfalso. apply Hxn. apply list_elem_of_fmap. exists y. split; [|done].
    specialize (Hx y Hyin). specialize (Hy x Hxin). unfold seqNo_le in *. lia. }
  f_equal. apply IH; [done..|]. by apply Permutation_cons_inv in Hp.
Qed.

Lemma sorted_items_canonical_witness :
  exists h1 h2 sorted,
    for_each [mkOutput "a" 3 (Some 1%Z); mkOutput "a" 1 None] (items_add Output_less_than) [] = (Ok tt, h1) /\
    for_each [mkOutput "a" 1 None; mkOutput "a" 3 (Some 1%Z)] (items_add Output_less_than) [] = (Ok tt, h2) /\
    sorted_list Output_less_than h1 = (Ok sorted, []) /\
    sorted_list Output_less_than h2 = (Ok sorted, []) /\
    sorted ≡ₚ [mkOutput "a" 3 (Some 1%Z); mkOutput "a" 1 None] /\ StronglySorted seqNo_le sorted.
Proof.
  apply (sorted_items_canonical [mkOutput "a" 3 (Some 1%Z); mkOutput "a" 1 None]
                                [mkOutput "a" 1 None; mkOutput "a" 3 (Some 1%Z)]);
    [apply perm_swap|by apply (bool_decide_unpack _)].
Defined.
