(* ===== verification/Json.v ===== *)
(** * JSON values as the code sees them

    Requests arrive as Python objects decoded from JSON.  A [dict] is an
    association list (Prelude); a float is the dyadic number [m * 2^e]. *)

From S2P Require Import Prelude Exceptions PyStr TokenTypes.

Open Scope stdpp_scope.

Inductive json :=
  | JNull
  | JBool (b : bool)
  | JInt (z : Z)
  | JFloat (m e : Z)
  | JStr (s : string)
  | JArr (l : list json)
  | JObj (o : list (string * json)).

Abbreviation dict := (list (string * json)).

(** [bool(v)] *)
Definition json_truthy (v : json) : bool :=
  match v with
  | JNull => false
  | JBool b => b
  | JInt z => negb (z =? 0)%Z
  | JFloat m _ => negb (m =? 0)%Z
  | JStr s => negb (bool_decide (s = ""))
  | JArr l => match l with [] => false | _ => true end
  | JObj o => match o with [] => false | _ => true end
  end.

(** [d[key]] *)
Definition get_item (key : string) (d : dict) : res json := dict_item key (alookup key d).

(** [d.get(key)], with Python's [None] for a missing key *)
Definition get_default_none (key : string) (d : dict) : json := default JNull (alookup key d).

(** [n >= v] for an [int] on the left. *)
Definition int_ge (n : Z) (v : json) : res bool :=
  match v with
  | JInt z => Ok (z <=? n)%Z
  | JBool b => Ok (Z.b2z b <=? n)%Z
  | JFloat m e => Ok (if (0 <=? e)%Z then (m * 2 ^ e <=? n)%Z else (m <=? n * 2 ^ (- e))%Z)
  | _ => Raise (TypeError (Msg "'>=' not supported" []))
  end.

(** [len(v)] *)
Definition json_len (v : json) : res Z :=
  match v with
  | JStr s => Ok (Z.of_nat (String.length s))
  | JArr l => Ok (Z.of_nat (length l))
  | JObj o => Ok (Z.of_nat (length o))
  | _ => Raise (TypeError (Msg "object has no len()" []))
  end.

(** [v[key]] for a value that should be a [dict]. *)
Definition json_item (key : string) (v : json) : res json :=
  match v with
  | JObj o => get_item key o
  | _ => Raise (TypeError (Msg "not subscriptable by str" []))
  end.

(** [v[i]] for a value that should be a [list]; [i] is a non-negative literal. *)
Definition json_index (i : nat) (v : json) : res json :=
  match v with
  | JArr l => match l !! i with Some x => Ok x | None => Raise IndexError end
  | JStr s => match String.get i s with
              | Some c => Ok (JStr (String c "")) | None => Raise IndexError end
  | JObj _ => Raise (KeyError "")
  | _ => Raise (TypeError (Msg "object is not subscriptable" []))
  end.

(** A request with the operation as it came. *)
Record raw_request := mkRawRequest {
  raw_identifier : option string;
  raw_reqId : option Z;
  raw_operation : dict;
}.
