(* ===== verification/JsonText.v ===== *)
(** * JSON text

    What the scripts use of Python's [json] module: [json.load] of a file's text
    and [json.dump(.., indent=2)].  The reader is the one of [json.decoder]: a
    scanner per kind of value, white space where the module skips it, [dict] of
    the members in their order, so that the last of two equal keys wins.  The
    texts are ASCII.  Theorems: the reader's fuel, the length of the text, is
    always enough, and a float-free value printed and read back is itself. *)

From Stdlib Require Import Decimal DecimalFacts DecimalZ.
From S2P Require Import Prelude Exceptions PyStr Json.

Open Scope stdpp_scope.

(** Floating point literals, and characters beyond ASCII, which an escape can
    denote: how they are held is left open. *)
Class PyText := {
  float_repr : Z -> Z -> string;
  float_value : string -> json;
  wide_char : Z -> string;
}.

Abbreviation dquote := "034"%char.
Abbreviation backslash := "\"%char.
Abbreviation newline := "010"%char.

Definition str1 (c : ascii) : string := String c "".

(** [json.JSONDecodeError], a [ValueError] *)
Definition json_error {A} (msg : string) : res A := Raise (ValueError (Msg msg [])).

(** ** Strings *)

Definition hex_digit (c : ascii) : option Z :=
  let n := Z.of_nat (nat_of_ascii c) in
  if (48 <=? n)%Z && (n <=? 57)%Z then Some (n - 48)%Z
  else if (97 <=? n)%Z && (n <=? 102)%Z then Some (n - 87)%Z
  else if (65 <=? n)%Z && (n <=? 70)%Z then Some (n - 55)%Z
  else None.

Definition hex_char (n : nat) : ascii :=
  ascii_of_nat (if decide (n < 10) then 48 + n else 87 + n).

(** The two-character escapes. *)
Definition unescape (c : ascii) : option ascii :=
  match c with
  | "034" => Some "034" | "\" => Some "\" | "/" => Some "/"
  | "b" => Some "008" | "f" => Some "012" | "n" => Some "010"
  | "r" => Some "013" | "t" => Some "009"
  | _ => None
  end%char.

Definition short_escape (c : ascii) : option ascii :=
  match c with
  | "034" => Some "034" | "\" => Some "\"
  | "008" => Some "b" | "012" => Some "f" | "010" => Some "n"
  | "013" => Some "r" | "009" => Some "t"
  | _ => None
  end%char.

(** [py_encode_basestring_ascii] *)
Definition dump_char (c : ascii) : string :=
  match short_escape c with
  | Some e => String backslash (str1 e)
  | None =>
      let n := nat_of_ascii c in
      if decide (32 <= n < 127) then str1 c
      else String backslash ("u00" +:+ String (hex_char (n / 16)) (str1 (hex_char (n mod 16))))
  end.

Fixpoint dump_chars (s : string) : string :=
  match s with EmptyString => "" | String c s' => dump_char c +:+ dump_chars s' end.

Definition dump_string (s : string) : string := String dquote (dump_chars s +:+ str1 dquote).

Section Reader.
Context `{PyText}.

Definition char_of (z : Z) : string :=
  if (z <? 128)%Z then str1 (ascii_of_nat (Z.to_nat z)) else wide_char z.

(** [json.decoder.scanstring], after the opening quote *)
Fixpoint scan_string (s : string) : res (string * string) :=
  match s with
  | EmptyString => json_error "Unterminated string starting at"
  | String c s1 =>
      if decide (c = dquote) then Ok ("", s1)
      else if decide (c = backslash) then
        match s1 with
        | EmptyString => json_error "Unterminated string starting at"
        | String e s2 =>
            match unescape e with
            | Some c' => let? (t, r) := scan_string s2 in Ok (String c' t, r)
            | None =>
                if decide (e = "u"%char) then
                  match s2 with
                  | String h1 (String h2 (String h3 (String h4 s3))) =>
                      match hex_digit h1, hex_digit h2, hex_digit h3, hex_digit h4 with
                      | Some a1, Some a2, Some a3, Some a4 =>
                          let? (t, r) := scan_string s3 in
                          Ok (char_of (((a1 * 16 + a2) * 16 + a3) * 16 + a4) +:+ t, r)
                      | _, _, _, _ => json_error "Invalid \uXXXX escape"
                      end
                  | _ => json_error "Invalid \uXXXX escape"
                  end
                else json_error "Invalid \escape"
            end
        end
      else if decide (nat_of_ascii c < 32) then json_error "Invalid control character at"
      else let? (t, r) := scan_string s1 in Ok (String c t, r)
  end.

(** ** Numbers

    An optional sign, [0] or digits that do not start with it, and optionally a
    fraction and an exponent. *)

Definition is_digit (c : ascii) : bool :=
  match cons_digit c with Some _ => true | None => false end.

Fixpoint take_digits (s : string) : string * string :=
  match s with
  | String c s' => if is_digit c then let '(d, r) := take_digits s' in (String c d, r) else ("", s)
  | EmptyString => ("", "")
  end.

Definition scan_int (s : string) : option (string * string) :=
  match s with
  | String c s' =>
      if decide (c = "0"%char) then Some ("0", s')
      else if is_digit c then Some (take_digits s) else None
  | EmptyString => None
  end.

Definition scan_frac (s : string) : string * string :=
  match s with
  | String c s' =>
      let '(d, r) := take_digits s' in
      if decide (c = "."%char /\ d <> "") then (String c d, r) else ("", s)
  | EmptyString => ("", s)
  end.

Definition scan_sign (s : string) : string * string :=
  match s with
  | String c s' => if decide (c = "-"%char \/ c = "+"%char) then (str1 c, s') else ("", s)
  | EmptyString => ("", s)
  end.

Definition scan_exp (s : string) : string * string :=
  match s with
  | String c s' =>
      let '(sign, s'') := scan_sign s' in
      let '(d, r) := take_digits s'' in
      if decide ((c = "e"%char \/ c = "E"%char) /\ d <> "") then (String c (sign +:+ d), r) else ("", s)
  | EmptyString => ("", s)
  end.

Definition scan_minus (s : string) : string * string :=
  match s with
  | String c s' => if decide (c = "-"%char) then (str1 c, s') else ("", s)
  | EmptyString => ("", s)
  end.

(** The digits of the integer part are those [int] reads. *)
Definition scan_number (s : string) : res (json * string) :=
  let '(sign, s1) := scan_minus s in
  match scan_int s1 with
  | None => json_error "Expecting value"
  | Some (ds, r1) =>
      let '(fr, r2) := scan_frac r1 in
      let '(ex, r3) := scan_exp r2 in
      if decide (fr = "" /\ ex = "") then
        match py_int (sign +:+ ds) with
        | Some z => Ok (JInt z, r3)
        | None => json_error "invalid literal for int()"
        end
      else Ok (float_value (sign +:+ ds +:+ fr +:+ ex), r3)
  end.

(** ** Values *)

Definition is_json_space (c : ascii) : bool :=
  match c with " " | "009" | "010" | "013" => true | _ => false end%char.

Fixpoint skip_ws (s : string) : string :=
  match s with
  | String c s' => if is_json_space c then skip_ws s' else s
  | EmptyString => ""
  end.

(** [s.startswith(w)], and the rest *)
Fixpoint strip_prefix (w s : string) : option string :=
  match w, s with
  | EmptyString, _ => Some s
  | String a w', String b s' => if decide (a = b) then strip_prefix w' s' else None
  | String _ _, EmptyString => None
  end.

Definition scan_word (s : string) : res (json * string) :=
  match strip_prefix "null" s, strip_prefix "true" s, strip_prefix "false" s with
  | Some r, _, _ => Ok (JNull, r)
  | _, Some r, _ => Ok (JBool true, r)
  | _, _, Some r => Ok (JBool false, r)
  | None, None, None =>
      match strip_prefix "NaN" s, strip_prefix "Infinity" s, strip_prefix "-Infinity" s with
      | Some r, _, _ => Ok (float_value "nan", r)
      | _, Some r, _ => Ok (float_value "inf", r)
      | _, _, Some r => Ok (float_value "-inf", r)
      | None, None, None => scan_number s
      end
  end.

(** The loops of [JSONArray] and [JSONObject]; [value] is [scan_once]. *)
Fixpoint scan_elements (value : string -> res (json * string)) (fuel : nat) (s : string) :
    res (list json * string) :=
  match fuel with
  | O => json_error "out of fuel"
  | S fuel =>
      let? (v, r) := value s in
      match next_char "]" (skip_ws r), next_char "," (skip_ws r) with
      | Some r', _ => Ok ([v], r')
      | None, Some r' =>
          let? (l, r'') := scan_elements value fuel (skip_ws r') in Ok (v :: l, r'')
      | None, None => json_error "Expecting ',' delimiter"
      end
  end.

Fixpoint scan_members (value : string -> res (json * string)) (fuel : nat) (s : string) :
    res (list (string * json) * string) :=
  match fuel with
  | O => json_error "out of fuel"
  | S fuel =>
      match next_char dquote s with
      | None => json_error "Expecting property name enclosed in double quotes"
      | Some s1 =>
          let? (key, s2) := scan_string s1 in
          match next_char ":" (skip_ws s2) with
          | None => json_error "Expecting ':' delimiter"
          | Some s3 =>
              let? (v, r) := value (skip_ws s3) in
              match next_char "}" (skip_ws r), next_char "," (skip_ws r) with
              | Some r', _ => Ok ([(key, v)], r')
              | None, Some r' =>
                  let? (l, r'') := scan_members value fuel (skip_ws r') in
                  Ok ((key, v) :: l, r'')
              | None, None => json_error "Expecting ',' delimiter"
              end
          end
      end
  end.

Definition scan_array (value : string -> res (json * string)) (s : string) : res (json * string) :=
  match next_char "]" (skip_ws s) with
  | Some r => Ok (JArr [], r)
  | None =>
      let? (l, r) := scan_elements value (S (String.length s)) (skip_ws s) in Ok (JArr l, r)
  end.

Definition scan_object (value : string -> res (json * string)) (s : string) : res (json * string) :=
  match next_char "}" (skip_ws s) with
  | Some r => Ok (JObj [], r)
  | None =>
      let? (kvs, r) := scan_members value (S (String.length s)) (skip_ws s) in
      Ok (JObj (aupdate [] kvs), r)
  end.

(** [scan_once]; the fuel bounds the nesting. *)
Fixpoint scan_value (fuel : nat) (s : string) : res (json * string) :=
  match fuel with
  | O => json_error "out of fuel"
  | S fuel =>
      match next_char dquote s, next_char "[" s, next_char "{" s with
      | Some s', _, _ => let? (t, r) := scan_string s' in Ok (JStr t, r)
      | _, Some s', _ => scan_array (scan_value fuel) s'
      | _, _, Some s' => scan_object (scan_value fuel) s'
      | None, None, None => scan_word s
      end
  end.

(** [json.loads(text)] *)
Definition json_loads (s : string) : res json :=
  let? (v, r) := scan_value (S (String.length s)) (skip_ws s) in
  match skip_ws r with
  | EmptyString => Ok v
  | _ => json_error "Extra data"
  end.

(** ** Printing, with [indent=2] *)

Fixpoint spaces (n : nat) : string :=
  match n with O => "" | S n => String " " (spaces n) end.

Definition new_line (level : nat) : string := String newline (spaces (2 * level)).

Definition dump_member (dump : json -> string) (kv : string * json) : string :=
  dump_string kv.1 +:+ ": " +:+ dump kv.2.

Fixpoint dump_value (level : nat) (v : json) : string :=
  match v with
  | JNull => "null"
  | JBool true => "true"
  | JBool false => "false"
  | JInt z => py_str z
  | JFloat m e => float_repr m e
  | JStr s => dump_string s
  | JArr [] => "[]"
  | JArr l =>
      "[" +:+ new_line (S level) +:+
      String.concat ("," +:+ new_line (S level)) (map (dump_value (S level)) l) +:+
      new_line level +:+ "]"
  | JObj [] => "{}"
  | JObj o =>
      "{" +:+ new_line (S level) +:+
      String.concat ("," +:+ new_line (S level)) (map (dump_member (dump_value (S level))) o) +:+
      new_line level +:+ "}"
  end.

(** [json.dump(v, f, indent=2)] *)
Definition json_dumps (v : json) : string := dump_value 0 v.
End Reader.

(** ** The fuel is enough *)

Lemma slen_app s1 s2 : String.length (s1 +:+ s2) = String.length s1 + String.length s2.
Proof. induction s1 as [|c s IH]; simpl; [done|]. by rewrite IH. Qed.

(** A scanner consumes at least a character. *)
Definition consumes {A} (scan : string -> res (A * string)) : Prop :=
  forall s a r, scan s = Ok (a, r) -> String.length r < String.length s.

(** Split the matches of a scanner's equation [H]. *)
Ltac scan_cases H :=
  repeat (simplify_eq/=; match type of H with
  | res_bind ?x _ = Ok _ => let E := fresh "E" in destruct x as [[??]|] eqn:E
  | context [match ?x with _ => _ end] => let E := fresh "E" in destruct x eqn:E
  end); simplify_eq/=.

Section Fuel.
Context `{PyText}.

Lemma skip_ws_length s : String.length (skip_ws s) <= String.length s.
Proof. induction s as [|c s IH]; simpl; [lia|]. destruct (is_json_space c); simpl; lia. Qed.

Lemma scan_string_consumes : consumes scan_string.
Proof.
  intros s. remember (String.length s) as n eqn:Hn. revert s Hn.
  induction n as [n IH] using lt_wf_ind. intros s -> t r Hs.
  destruct s as [|c s]; [done|]. cbn [scan_string] in Hs. scan_cases Hs;
    try match goal with E : scan_string ?x = Ok (_, ?y) |- _ =>
      specialize (IH (String.length x) ltac:(simpl; lia) x eq_refl _ _ E) end; simpl in *; lia.
Qed.

Lemma take_digits_length s : String.length (take_digits s).2 <= String.length s.
Proof.
  induction s as [|c s IH]; simpl; [done|]. destruct (is_digit c); [|done].
  destruct (take_digits s) as [d r]. simpl in *. lia.
Qed.

Lemma scan_int_length s d r : scan_int s = Some (d, r) -> String.length r < String.length s.
Proof.
  intros Hs. destruct s as [|c s]; simpl in *; [done|]. case_decide; [simplify_eq; lia|].
  destruct (is_digit c); [|done].
  pose proof (take_digits_length s). destruct (take_digits s). simplify_eq/=. lia.
Qed.

Ltac use_length L :=
  match goal with E : ?f ?x = (_, ?r) |- _ => pose proof (L x); rewrite E in *; clear E; simpl in * end.

Lemma scan_frac_length s : String.length (scan_frac s).2 <= String.length s.
Proof.
  destruct s as [|c s]; simpl; [lia|]. destruct (take_digits s) as [d r] eqn:E.
  use_length take_digits_length. case_decide; simpl; lia.
Qed.

Lemma scan_sign_length s : String.length (scan_sign s).2 <= String.length s.
Proof. destruct s as [|c s]; simpl; [lia|]. case_decide; simpl; lia. Qed.

Lemma scan_minus_length s : String.length (scan_minus s).2 <= String.length s.
Proof. destruct s as [|c s]; simpl; [lia|]. case_decide; simpl; lia. Qed.

Lemma scan_exp_length s : String.length (scan_exp s).2 <= String.length s.
Proof.
  destruct s as [|c s]; simpl; [lia|]. destruct (scan_sign s) as [sg s'] eqn:E.
  use_length scan_sign_length. destruct (take_digits s') as [d r] eqn:E.
  use_length take_digits_length. case_decide; simpl; lia.
Qed.

Lemma scan_number_consumes : consumes scan_number.
Proof.
  intros s v r Hs. unfold scan_number in Hs. destruct (scan_minus s) as [sg s1] eqn:E.
  use_length scan_minus_length.
  destruct (scan_int s1) as [[ds r1]|] eqn:E2; [|done]. apply scan_int_length in E2.
  destruct (scan_frac r1) as [fr r2] eqn:E. use_length scan_frac_length.
  destruct (scan_exp r2) as [ex r3] eqn:E. use_length scan_exp_length.
  scan_cases Hs; lia.
Qed.

Lemma strip_prefix_app w s r : strip_prefix w s = Some r -> s = w +:+ r.
Proof.
  revert s. induction w as [|a w IH]; intros [|b s]; simpl; intros; simplify_eq/=; try done.
  case_decide; simplify_eq. rewrite sapp_cons. f_equal. by apply IH.
Qed.

Lemma scan_word_consumes : consumes scan_word.
Proof.
  intros s v r Hs. unfold scan_word in Hs.
  repeat case_match; simplify_eq; try (by apply (scan_number_consumes _ _ _ Hs));
    match goal with E : strip_prefix _ _ = Some r |- _ => apply strip_prefix_app in E; subst s end;
    rewrite slen_app; simpl; lia.
Qed.

Lemma next_ws_length c s r :
  next_char c (skip_ws s) = Some r -> String.length (skip_ws r) < String.length s.
Proof.
  intros E%next_char_app. pose proof (skip_ws_length s) as H1. pose proof (skip_ws_length r) as H2.
  rewrite E in H1. simpl in H1. lia.
Qed.

Lemma next_ws_length' c s r :
  next_char c (skip_ws s) = Some r -> String.length r < String.length s.
Proof.
  intros E%next_char_app. pose proof (skip_ws_length s) as H1. rewrite E in H1. simpl in H1. lia.
Qed.

Lemma next_char_length c s r : next_char c s = Some r -> S (String.length r) = String.length s.
Proof. by intros ->%next_char_app. Qed.

(** The lengths that the equations in the context give. *)
Ltac scan_lengths :=
  repeat match goal with
  | E : next_char _ (skip_ws ?x) = Some ?r |- _ =>
      pose proof (next_ws_length _ _ _ E); pose proof (next_ws_length' _ _ _ E); clear E
  | E : next_char _ _ = Some _ |- _ => apply next_char_length in E
  | E : scan_string _ = Ok _ |- _ => apply scan_string_consumes in E
  | E : scan_word _ = Ok _ |- _ => apply scan_word_consumes in E
  end.

Section Loops.
Variables value value' : string -> res (json * string).
Hypothesis value_consumes : consumes value.

Lemma scan_elements_consumes fuel : consumes (scan_elements value fuel).
Proof.
  induction fuel as [|fuel IH]; intros s l r Hs; simpl in Hs; [done|].
  scan_cases Hs; scan_lengths; apply value_consumes in E; [lia|].
  match goal with E0 : scan_elements _ _ _ = _ |- _ => apply IH in E0; lia end.
Qed.

Lemma scan_members_consumes fuel : consumes (scan_members value fuel).
Proof.
  induction fuel as [|fuel IH]; intros s l r Hs; simpl in Hs; [done|].
  scan_cases Hs; scan_lengths;
    match goal with E0 : value ?x = _ |- _ => apply value_consumes in E0 end; [lia|].
  match goal with E0 : scan_members _ _ _ = _ |- _ => apply IH in E0; lia end.
Qed.

Lemma scan_array_consumes : consumes (scan_array value).
Proof.
  intros s v r Hs. unfold scan_array in Hs.
  destruct (next_char "]" _) eqn:E1; [simplify_eq; scan_lengths; lia|].
  apply res_bind_Ok in Hs as ([l r'] & E%scan_elements_consumes & ?). simplify_eq.
  pose proof (skip_ws_length s). lia.
Qed.

Lemma scan_object_consumes : consumes (scan_object value).
Proof.
  intros s v r Hs. unfold scan_object in Hs.
  destruct (next_char "}" _) eqn:E1; [simplify_eq; scan_lengths; lia|].
  apply res_bind_Ok in Hs as ([l r'] & E%scan_members_consumes & ?). simplify_eq.
  pose proof (skip_ws_length s). lia.
Qed.

(** The loops depend on the scanner of values up to their input's length, and
    not on how much more fuel than that they have. *)
Definition agree (n : nat) : Prop := forall s, String.length s <= n -> value s = value' s.

Lemma scan_elements_fuel k k' s :
  agree (String.length s) -> String.length s < k -> String.length s < k' ->
  scan_elements value k s = scan_elements value' k' s.
Proof.
  revert k' s. induction k as [|k IH]; intros [|k'] s Ha Hk Hk'; try lia. simpl.
  rewrite <- (Ha s) by lia. destruct (value s) as [[v r]|e] eqn:E; [|done]. simpl.
  apply value_consumes in E. destruct (next_char "]" _); [done|].
  destruct (next_char "," _) eqn:Ec; [|done]. scan_lengths.
  rewrite (IH k'); [done| |lia|lia]. intros x Hx. apply Ha. lia.
Qed.

Lemma scan_members_fuel k k' s :
  agree (String.length s) -> String.length s < k -> String.length s < k' ->
  scan_members value k s = scan_members value' k' s.
Proof.
  revert k' s. induction k as [|k IH]; intros [|k'] s Ha Hk Hk'; try lia. simpl.
  destruct (next_char dquote s) as [s1|] eqn:E1; [|done].
  destruct (scan_string s1) as [[key s2]|] eqn:E2; [|done]. simpl.
  destruct (next_char ":" _) as [s3|] eqn:E3; [|done]. scan_lengths.
  rewrite <- (Ha (skip_ws s3)) by lia.
  destruct (value (skip_ws s3)) as [[v r]|e] eqn:E; [|done]. simpl.
  apply value_consumes in E. destruct (next_char "}" _); [done|].
  destruct (next_char "," _) eqn:Ec; [|done]. scan_lengths.
  rewrite (IH k'); [done| |lia|lia]. intros x Hx. apply Ha. lia.
Qed.
End Loops.

Lemma scan_value_consumes n : consumes (scan_value n).
Proof.
  induction n as [|n IH]; intros s v r Hs; simpl in Hs; [done|].
  destruct (next_char dquote s) eqn:E1; [scan_cases Hs; scan_lengths; lia|].
  destruct (next_char "[" s) eqn:E2; [scan_lengths; apply scan_array_consumes in Hs; [lia|done]|].
  destruct (next_char "{" s) eqn:E3; [scan_lengths; apply scan_object_consumes in Hs; [lia|done]|].
  by apply scan_word_consumes in Hs.
Qed.

(** Any fuel above the length of the text gives the same result. *)
Lemma scan_value_fuel n m s :
  String.length s < n -> String.length s < m -> scan_value n s = scan_value m s.
Proof.
  revert m s. induction n as [|n IH]; intros [|m] s Hn Hm; try lia. simpl.
  destruct (next_char dquote s); [done|].
  destruct (next_char "[" s) as [s'|] eqn:E2; [|destruct (next_char "{" s) as [s'|] eqn:E3; [|done]];
    scan_lengths; unfold scan_array, scan_object; case_match; try done;
    pose proof (skip_ws_length s').
  - rewrite (scan_elements_fuel _ (scan_value m) (scan_value_consumes n) _ (S (String.length s')));
      [done| |lia|lia]. intros x Hx. apply IH; lia.
  - rewrite (scan_members_fuel _ (scan_value m) (scan_value_consumes n) _ (S (String.length s')));
      [done| |lia|lia]. intros x Hx. apply IH; lia.
Qed.
End Fuel.

(** ** What is printed is read back *)

Section JsonInduction.
Variable P : json -> Prop.
Hypothesis P_null : P JNull.
Hypothesis P_bool : forall b, P (JBool b).
Hypothesis P_int : forall z, P (JInt z).
Hypothesis P_float : forall m e, P (JFloat m e).
Hypothesis P_str : forall s, P (JStr s).
Hypothesis P_arr : forall l, Forall P l -> P (JArr l).
Hypothesis P_obj : forall o, Forall (fun kv => P kv.2) o -> P (JObj o).

Fixpoint json_nested_ind (v : json) : P v :=
  match v with
  | JNull => P_null
  | JBool b => P_bool b
  | JInt z => P_int z
  | JFloat m e => P_float m e
  | JStr s => P_str s
  | JArr l =>
      P_arr l ((fix go l := match l return Forall P l with
                            | [] => @List.Forall_nil _ _
                            | x :: l' => @List.Forall_cons _ P x l' (json_nested_ind x) (go l')
                            end) l)
  | JObj o =>
      P_obj o ((fix go o := match o return Forall (fun kv => P kv.2) o with
                            | [] => @List.Forall_nil _ _
                            | (k, x) :: o' => @List.Forall_cons _ (fun kv => P kv.2) (k, x) o' (json_nested_ind x) (go o')
                            end) o)
  end.
End JsonInduction.

Fixpoint is_ascii (s : string) : bool :=
  match s with
  | EmptyString => true
  | String c s' => bool_decide (nat_of_ascii c < 128) && is_ascii s'
  end.

(** No floats, ASCII strings, and the distinct keys of a [dict]. *)
Inductive plain : json -> Prop :=
  | plain_null : plain JNull
  | plain_bool b : plain (JBool b)
  | plain_int z : plain (JInt z)
  | plain_str s : is_ascii s = true -> plain (JStr s)
  | plain_arr l : Forall plain l -> plain (JArr l)
  | plain_obj o :
      NoDup o.*1 -> Forall (fun kv => is_ascii kv.1 = true /\ plain kv.2) o -> plain (JObj o).

(** What follows a value must not continue a number. *)
Definition ends (s : string) : Prop :=
  match s with
  | EmptyString => True
  | String c _ => is_digit c = false /\ c <> "."%char /\ c <> "e"%char /\ c <> "E"%char
  end.

Section RoundTrip.
Context `{PyText}.

Lemma scan_dump_char c s :
  nat_of_ascii c < 128 ->
  scan_string (dump_char c +:+ s) = let? (t, r) := scan_string s in Ok (String c t, r).
Proof.
  intros Hc. destruct c as [[] [] [] [] [] [] [] []]; first [reflexivity | exfalso; vm_compute in Hc; lia].
Qed.

Lemma scan_dump_chars s r :
  is_ascii s = true -> scan_string (dump_chars s +:+ String dquote r) = Ok (s, r).
Proof.
  induction s as [|c s IH]; [done|]. intros [Hc Hs]%andb_true_iff.
  apply bool_decide_eq_true in Hc.
  change (dump_chars (String c s)) with (dump_char c +:+ dump_chars s).
  rewrite <- sapp_assoc, scan_dump_char, IH by done. done.
Qed.

Lemma take_digits_of_uint u s :
  match s with String c _ => is_digit c = false | "" => True end ->
  take_digits (digits_of_uint u +:+ s) = (digits_of_uint u, s).
Proof.
  intros Hs. induction u; [destruct s as [|c s]; simpl; [done|by rewrite Hs]|..];
    cbn [digits_of_uint]; rewrite sapp_cons; simpl; by rewrite IHu.
Qed.

(** The digits of an integer do not start with [0], except those of [0]. *)
Lemma nzhead_not_D0 u u' : nzhead u <> D0 u'.
Proof. induction u; simpl; try done. Qed.

Lemma to_int_digits z :
  match Z.to_int z with
  | Pos u => u = D0 Nil \/ (u <> Nil /\ forall u', u <> D0 u')
  | Neg u => u <> Nil /\ forall u', u <> D0 u'
  end.
Proof.
  pose proof (DecimalZ.to_of (Z.to_int z)) as Hn. rewrite DecimalZ.of_to in Hn.
  destruct (Z.to_int z) as [u|u]; simpl in Hn.
  - injection Hn as Hn. unfold unorm in Hn. pose proof (nzhead_not_D0 u) as H0.
    destruct (nzhead u) eqn:E; [by left|..]; right; rewrite Hn; done.
  - pose proof (nzhead_not_D0 u) as H0. destruct (nzhead u) eqn:E; [done|..]; injection Hn as ->; done.
Qed.

Lemma scan_int_digits u s :
  u = D0 Nil \/ (u <> Nil /\ forall u', u <> D0 u') ->
  match s with String c _ => is_digit c = false | "" => True end ->
  scan_int (digits_of_uint u +:+ s) = Some (digits_of_uint u, s).
Proof.
  intros Hu Hs. pose proof (take_digits_of_uint u s Hs) as Ht.
  destruct Hu as [->|[Hn H0]]; [done|].
  destruct u; try done; [by destruct (H0 u)|..]; cbn [digits_of_uint] in *;
    rewrite sapp_cons in *; cbn [scan_int]; rewrite Ht; done.
Qed.

Lemma ends_digits s : ends s -> match s with String c _ => is_digit c = false | "" => True end.
Proof. destruct s; simpl; tauto. Qed.

Lemma scan_frac_none s : ends s -> scan_frac s = ("", s).
Proof.
  destruct s as [|c s]; simpl; [done|]. intros (_ & Hc & _). destruct (take_digits s).
  by rewrite decide_False by tauto.
Qed.

Lemma scan_exp_none s : ends s -> scan_exp s = ("", s).
Proof.
  destruct s as [|c s]; simpl; [done|]. intros (_ & _ & Hc & Hc'). destruct (scan_sign s) as [? s'].
  destruct (take_digits s'). by rewrite decide_False by tauto.
Qed.

Lemma scan_number_str z s : ends s -> scan_number (py_str z +:+ s) = Ok (JInt z, s).
Proof.
  intros Hs. pose proof (to_int_digits z) as Hu. pose proof (py_int_str z) as Hz.
  pose proof (ends_digits s Hs) as Hd. unfold scan_number, py_str in *.
  destruct (Z.to_int z) as [u|u].
  - assert (scan_minus (digits_of_uint u +:+ s) = ("", digits_of_uint u +:+ s)) as ->
      by (destruct Hu as [->|[Hn _]]; [done|by destruct u]).
    rewrite scan_int_digits by done. rewrite scan_frac_none, scan_exp_none by done.
    rewrite decide_True by done. change ("" +:+ digits_of_uint u) with (digits_of_uint u). by rewrite Hz.
  - rewrite sapp_cons. cbn [scan_minus]. rewrite decide_True by done.
    rewrite scan_int_digits by auto. rewrite scan_frac_none, scan_exp_none by done.
    rewrite decide_True by done. change (str1 "-" +:+ digits_of_uint u) with (String "-" (digits_of_uint u)).
    by rewrite Hz.
Qed.

(** An integer is not taken for another kind of value. *)
Lemma scan_int_value n z s : ends s -> scan_value (S n) (py_str z +:+ s) = Ok (JInt z, s).
Proof.
  intros Hs. pose proof (scan_number_str z s Hs) as Hz. pose proof (to_int_digits z) as Hu.
  unfold py_str in *. destruct (Z.to_int z) as [u|u].
  - destruct u; [by destruct Hu as [?|[? _]]|..]; exact Hz.
  - destruct u; [by destruct Hu|..]; exact Hz.
Qed.

Lemma skip_ws_spaces n s : skip_ws (spaces n +:+ s) = skip_ws s.
Proof. induction n as [|n IH]; [done|]. exact IH. Qed.

Lemma skip_ws_new_line n s : skip_ws (new_line n +:+ s) = skip_ws s.
Proof. apply skip_ws_spaces. Qed.

(** A printed value starts with none of white space, [']'] and ['}']. *)
Lemma dump_value_start level v s :
  plain v ->
  let t := dump_value level v +:+ s in
  skip_ws t = t /\ next_char "]" t = None /\ next_char "}" t = None.
Proof.
  destruct 1 as [|[]|z|? _|[|? ?] _|[|? ?] _]; try done.
  pose proof (to_int_digits z) as Hu. simpl. unfold py_str.
  destruct (Z.to_int z) as [u|u]; [|done].
  by destruct u; [by destruct Hu as [?|[? _]]|..].
Qed.

Definition reads (n level : nat) (v : json) : Prop :=
  forall rest, ends rest -> scan_value n (dump_value level v +:+ rest) = Ok (v, rest).

Definition item_sep (level : nat) : string := "," +:+ new_line level.

Lemma concat_length {A} (f : A -> string) level l r :
  length l <= S (String.length (String.concat (item_sep level) (map f l) +:+ r)).
Proof.
  induction l as [|x [|y l] IH]; simpl in *; try lia.
  rewrite !slen_app in *. simpl in *. lia.
Qed.

(** Items separated and followed by [r]: the first one, and what follows it. *)
Lemma concat_one {A} (f : A -> string) sep x r : String.concat sep (map f [x]) +:+ r = f x +:+ r.
Proof. done. Qed.

Lemma concat_more {A} (f : A -> string) sep x y l r :
  String.concat sep (map f (x :: y :: l)) +:+ r =
  f x +:+ (sep +:+ (String.concat sep (map f (y :: l)) +:+ r)).
Proof. cbn [map String.concat]. by rewrite <- !sapp_assoc. Qed.

Lemma concat_start {A} (f : A -> string) sep x l r :
  exists t, String.concat sep (map f (x :: l)) +:+ r = f x +:+ t.
Proof. destruct l as [|y l]; [by exists r|]. rewrite concat_more. by eexists. Qed.

Lemma after_sep c i t :
  c <> ","%char -> is_json_space c = false ->
  next_char c (skip_ws (item_sep i +:+ t)) = None /\
  next_char "," (skip_ws (item_sep i +:+ t)) = Some (new_line i +:+ t) /\ ends (item_sep i +:+ t).
Proof.
  intros Hc Hs. split_and!; try done. change (skip_ws _) with (item_sep i +:+ t).
  unfold item_sep. simpl. by rewrite decide_False.
Qed.

Lemma scan_elements_dump n level i j l k rest :
  l <> [] -> Forall plain l -> Forall (reads n level) l -> length l <= k ->
  scan_elements (scan_value n) k
    (String.concat (item_sep i) (map (dump_value level) l) +:+ (new_line j +:+ String "]" rest))
  = Ok (l, rest).
Proof.
  revert k. induction l as [|v l IH]; intros k Hne Hp Hr Hk; [done|].
  apply Forall_cons in Hp as [_ Hp]. apply Forall_cons in Hr as [Hr Hrs].
  destruct k as [|k]; [simpl in Hk; lia|]. destruct l as [|w l]; cbn [scan_elements].
  - rewrite concat_one, Hr by done. cbn [res_bind]. by rewrite skip_ws_new_line.
  - rewrite concat_more.
    set (t := String.concat _ _ +:+ _). destruct (after_sep "]" i t) as (E1 & E2 & E3); [done..|].
    rewrite Hr by done. cbn [res_bind]. rewrite E1, E2, skip_ws_new_line.
    assert (skip_ws t = t) as ->.
    { destruct (concat_start (dump_value level) (item_sep i) w l (new_line j +:+ String "]" rest)) as [t' Ht].
      subst t. rewrite Ht. apply Forall_cons in Hp as [Hw _]. by apply dump_value_start. }
    subst t. rewrite IH; [done|done|done|done|simpl in *; lia].
Qed.

Lemma scan_member_dump n level k v r :
  is_ascii k = true -> plain v -> reads n level v -> ends r ->
  exists s1 s2, dump_member (dump_value level) (k, v) +:+ r = String dquote s1 /\
    scan_string s1 = Ok (k, s2) /\
    exists s3, next_char ":" (skip_ws s2) = Some s3 /\ scan_value n (skip_ws s3) = Ok (v, r).
Proof.
  intros Hk Hp Hr He.
  exists (dump_chars k +:+ String dquote (": " +:+ dump_value level v +:+ r)), (": " +:+ dump_value level v +:+ r).
  split_and!.
  - unfold dump_member, dump_string. rewrite <- !sapp_assoc, sapp_cons, <- sapp_assoc. done.
  - by apply scan_dump_chars.
  - exists (" " +:+ (dump_value level v +:+ r)). split; [done|].
    change (skip_ws _) with (skip_ws (dump_value level v +:+ r)).
    destruct (dump_value_start level v r Hp) as [-> _]. by apply Hr.
Qed.

Lemma scan_members_dump n level i j o k rest :
  o <> [] -> Forall (fun kv => is_ascii kv.1 = true /\ plain kv.2) o ->
  Forall (fun kv => reads n level kv.2) o -> length o <= k ->
  scan_members (scan_value n) k
    (String.concat (item_sep i) (map (dump_member (dump_value level)) o) +:+
     (new_line j +:+ String "}" rest))
  = Ok (o, rest).
Proof.
  revert k. induction o as [|[key v] o IH]; intros k Hne Hp Hr Hk; [done|].
  apply Forall_cons in Hp as [[Hkey Hv] Hp]. apply Forall_cons in Hr as [Hr Hrs].
  destruct k as [|k]; [simpl in Hk; lia|]. destruct o as [|kw o]; cbn [scan_members].
  - rewrite concat_one.
    destruct (scan_member_dump n level key v (new_line j +:+ String "}" rest))
      as (s1 & s2 & -> & E1 & s3 & E2 & E3); [done..|].
    cbn [next_char]. rewrite decide_True, E1 by done. cbn [res_bind]. rewrite E2, E3.
    cbn [res_bind]. by rewrite skip_ws_new_line.
  - rewrite concat_more.
    set (t := String.concat _ _ +:+ _). destruct (after_sep "}" i t) as (F1 & F2 & F3); [done..|].
    destruct (scan_member_dump n level key v (item_sep i +:+ t))
      as (s1 & s2 & -> & E1 & s3 & E2 & E3); [done..|].
    cbn [next_char]. rewrite decide_True, E1 by done. cbn [res_bind]. rewrite E2, E3.
    cbn [res_bind]. rewrite F1, F2, skip_ws_new_line.
    assert (skip_ws t = t) as ->.
    { destruct (concat_start (dump_member (dump_value level)) (item_sep i) kw o
        (new_line j +:+ String "}" rest)) as [t' Ht].
      subst t. by rewrite Ht. }
    subst t. rewrite IH; [done|done|done|done|simpl in *; lia].
Qed.

Lemma aupdate_NoDup_app (o1 o2 : dict) : NoDup (o1 ++ o2).*1 -> aupdate o1 o2 = o1 ++ o2.
Proof.
  revert o1. induction o2 as [|[k v] o2 IH]; intros o1 Hnd; [by rewrite app_nil_r|].
  change (aupdate o1 ((k, v) :: o2)) with (aupdate (aset k v o1) o2).
  assert (aset k v o1 = o1 ++ [(k, v)]) as ->.
  { rewrite fmap_app in Hnd. apply NoDup_app in Hnd as (_ & Hd & _).
    clear -Hd. induction o1 as [|[k1 v1] o1 IH]; [done|]. simpl.
    rewrite decide_False by (intros ->; apply (Hd k); simpl; set_solver).
    rewrite IH; [done|]. set_solver. }
  rewrite IH; by rewrite <- app_assoc.
Qed.

(** Enough nesting for each is enough for all. *)
Lemma Forall_enough {A} (P : nat -> A -> Prop) l :
  Forall (fun x => exists d, forall n, d <= n -> P n x) l ->
  exists d, forall n, d <= n -> Forall (P n) l.
Proof.
  induction 1 as [|x l [d Hd] Hl [d' IH]]; [by exists 0|].
  exists (d + d'). intros n Hn. constructor; [apply Hd; lia|apply IH; lia].
Qed.

Lemma scan_array_dump n level l rest :
  l <> [] -> Forall plain l -> Forall (reads n (S level)) l ->
  scan_value (S n) (dump_value level (JArr l) +:+ rest) = Ok (JArr l, rest).
Proof.
  intros Hne Hp Hr. destruct l as [|v l]; [done|]. set (l' := v :: l) in *.
  change (scan_array (scan_value n) ((new_line (S level) +:+
    (String.concat (item_sep (S level)) (map (dump_value (S level)) l') +:+
    (new_line level +:+ "]"))) +:+ rest) = Ok (JArr l', rest)).
  rewrite <- !sapp_assoc. change ("]" +:+ rest) with (String "]" rest).
  unfold scan_array. rewrite skip_ws_new_line.
  set (t := String.concat _ _ +:+ _).
  assert (skip_ws t = t /\ next_char "]" t = None) as [-> ->].
  { destruct (concat_start (dump_value (S level)) (item_sep (S level)) v l
      (new_line level +:+ String "]" rest)) as [t' Ht].
    subst t l'. rewrite Ht. apply Forall_cons in Hp as [Hv _].
    destruct (dump_value_start (S level) v t' Hv) as (? & ? & _). done. }
  subst t. rewrite scan_elements_dump; [done..|].
  pose proof (concat_length (dump_value (S level)) (S level) l' (new_line level +:+ String "]" rest)).
  rewrite slen_app. lia.
Qed.

Lemma scan_object_dump n level o rest :
  o <> [] -> NoDup o.*1 -> Forall (fun kv => is_ascii kv.1 = true /\ plain kv.2) o ->
  Forall (fun kv => reads n (S level) kv.2) o ->
  scan_value (S n) (dump_value level (JObj o) +:+ rest) = Ok (JObj o, rest).
Proof.
  intros Hne Hnd Hp Hr. destruct o as [|kv o]; [done|]. set (o' := kv :: o) in *.
  change (scan_object (scan_value n) ((new_line (S level) +:+
    (String.concat (item_sep (S level)) (map (dump_member (dump_value (S level))) o') +:+
    (new_line level +:+ "}"))) +:+ rest) = Ok (JObj o', rest)).
  rewrite <- !sapp_assoc. change ("}" +:+ rest) with (String "}" rest).
  unfold scan_object. rewrite skip_ws_new_line.
  set (t := String.concat _ _ +:+ _).
  assert (skip_ws t = t /\ next_char "}" t = None) as [-> ->].
  { destruct (concat_start (dump_member (dump_value (S level))) (item_sep (S level)) kv o
      (new_line level +:+ String "}" rest)) as [t' Ht].
    subst t o'. by rewrite Ht. }
  subst t. rewrite scan_members_dump; [|done..|].
  - cbn [res_bind]. by rewrite aupdate_NoDup_app.
  - pose proof (concat_length (dump_member (dump_value (S level))) (S level) o'
      (new_line level +:+ String "}" rest)).
    rewrite slen_app. lia.
Qed.

Lemma scan_dump_value v :
  plain v -> exists d, forall n, d <= n -> forall level, reads n level v.
Proof.
  induction v as [|b|z|m e|s|l IH|o IH] using json_nested_ind; intros Hp; try by inversion Hp.
  - exists 1. intros [|n] Hn level rest Hrest; [lia|]. done.
  - exists 1. intros [|n] Hn level rest Hrest; [lia|]. by destruct b.
  - exists 1. intros [|n] Hn level rest Hrest; [lia|]. by apply scan_int_value.
  - exists 1. intros [|n] Hn level rest Hrest; [lia|].
    inversion Hp; subst. unfold dump_value, dump_string. cbn [scan_value].
    rewrite sapp_cons, <- sapp_assoc. cbn [next_char]. rewrite decide_True by done.
    change (str1 dquote +:+ rest) with (String dquote rest). by rewrite scan_dump_chars.
  - inversion Hp as [| | | |? Hl|]; subst.
    destruct (Forall_enough (fun n v => forall level, reads n level v) l) as [d Hd].
    { eapply Forall_impl; [apply Forall_and; exact (conj IH Hl)|]. naive_solver. }
    exists (S d). intros [|n] Hn level rest Hrest; [lia|].
    destruct l as [|x l]; [done|]. apply scan_array_dump; [done..|].
    eapply Forall_impl; [apply (Hd n); lia|]. auto.
  - inversion Hp as [| | | | |? Hnd Ho]; subst.
    destruct (Forall_enough (fun n kv => forall level, reads n level kv.2) o) as [d Hd].
    { eapply Forall_impl; [apply Forall_and; exact (conj IH Ho)|]. naive_solver. }
    exists (S d). intros [|n] Hn level rest Hrest; [lia|].
    destruct o as [|x o]; [done|]. apply scan_object_dump; [done..|].
    eapply Forall_impl; [apply (Hd n); lia|]. auto.
Qed.

(** [json.loads(json.dumps(v, indent=2)) == v] *)
Lemma json_loads_dumps v : plain v -> json_loads (json_dumps v) = Ok v.
Proof.
  intros Hp. destruct (scan_dump_value v Hp) as [d Hd].
  pose proof (dump_value_start 0 v "" Hp) as [Hw _]. rewrite sapp_nil_r in Hw.
  unfold json_loads, json_dumps. rewrite Hw.
  rewrite (scan_value_fuel _ (S (String.length (dump_value 0 v)) + d)) by lia.
  specialize (Hd (S (String.length (dump_value 0 v)) + d) ltac:(lia) 0 "" I).
  rewrite sapp_nil_r in Hd. by rewrite Hd.
Qed.
End RoundTrip.
