(* ===== verification/Packaging.v ===== *)
(** * Packaging and versions

    The scripts that give the two packages their version: [updateVersion.py],
    which rewrites the [metadata.json] of both packages; the two
    [__metadata__.py], which read it when the package is imported; and the two
    [setup.py], which execute [__metadata__.py] and hand its names to
    [setuptools].  The file system maps absolute paths to texts; the scripts
    also print.  The paths are computed as the scripts compute them.

    Theorem: [updateVersion.py] with a version, or a timestamp to add to the present
    one, makes both packages publish it and changes nothing else; what is no
    version changes nothing. *)

From S2P Require Import Prelude Exceptions PyStr TokenTypes Json JsonText.

Open Scope stdpp_scope.

(** ** [os.path] *)

(** [os.path.join(a, b)] *)
Definition path_join (a b : string) : string :=
  match next_char "/" b with
  | Some _ => b
  | None =>
      if decide (a = "" \/ last_or "" (py_split "/" a) = "") then a +:+ b else a +:+ "/" +:+ b
  end.

Fixpoint rstrip_slash (s : string) : string :=
  match s with
  | EmptyString => ""
  | String c s' =>
      match rstrip_slash s' with
      | EmptyString => if decide (c = "/"%char) then "" else String c ""
      | r => String c r
      end
  end.

(** [os.path.dirname(p)]: up to the last slash, without trailing slashes unless
    there is nothing else. *)
Definition dirname (p : string) : string :=
  let comps := py_split "/" p in
  if decide (length comps <= 1) then ""
  else
    let head := py_join "/" (take (length comps - 1) comps) +:+ "/" in
    if decide (rstrip_slash head = "") then head else rstrip_slash head.

(** The loop of [os.path.normpath]; [new_comps] is kept reversed. *)
Definition norm_step (absolute : bool) (new_comps : list string) (comp : string) : list string :=
  if decide (comp = "" \/ comp = ".") then new_comps
  else if decide (comp <> ".." \/ (absolute = false /\ new_comps = []) \/ head new_comps = Some "..")
  then comp :: new_comps
  else tail new_comps.

(** Exactly two leading slashes are kept. *)
Definition initial_slashes (p : string) : nat :=
  match next_char "/" p with
  | None => 0
  | Some p1 =>
      match next_char "/" p1 with
      | None => 1
      | Some p2 => match next_char "/" p2 with None => 2 | Some _ => 1 end
      end
  end.

Definition normpath (p : string) : string :=
  let n := initial_slashes p in
  let comps := reverse (foldl (norm_step (0 <? n)%nat) [] (py_split "/" p)) in
  let path := String.concat "" (replicate n "/") +:+ py_join "/" comps in
  if decide (path = "") then "." else path.

(** ** The scripts' world *)

Record world := mkWorld { files : gmap string string; stdout : list string }.

(** The [semver] package: [Version.is_valid], [Version.parse] of what a JSON member
    holds, [str] of a version and [replace(prerelease=..)]. *)
Class Semver := {
  Version : Type;
  is_valid : string -> bool;
  parse : json -> res Version;
  version_str : Version -> string;
  replace_prerelease : string -> Version -> Version;
}.

Class SemverLaws `{Semver} : Prop := {
  is_valid_parse : forall s, is_valid s = is_ok (parse (JStr s));
  parse_str : forall s v, parse (JStr s) = Ok v -> version_str v = s;
}.

Section Scripts.
(** The current directory, and [setuptools.find_packages(exclude=..)]. *)
Context `{PyText} `{Semver} (cwd : string) (find_packages : list string -> list string).

Definition abspath (p : string) : string := normpath (path_join cwd p).

(** [with open(path, 'r') as f: f.read()] *)
Definition read_file (path : string) : M world string :=
  let! w := get in
  match files w !! abspath path with
  | Some text => ret text
  | None => raise (FileNotFoundError path)
  end.

(** [open(path, 'w').write(text)] *)
Definition write_file (path text : string) : M world unit :=
  modify (fun w => mkWorld (<[abspath path := text]> (files w)) (stdout w)).

Definition print (line : string) : M world unit :=
  modify (fun w => mkWorld (files w) (stdout w ++ [line])).

Definition load_json (path : string) : M world json :=
  let! text := read_file path in lift (json_loads text).

(** [data[key] = v] *)
Definition set_item (key : string) (v : json) (data : json) : res json :=
  match data with
  | JObj o => Ok (JObj (aset key v o))
  | JArr _ => Raise (TypeError (Msg "list indices must be integers or slices, not str" []))
  | _ => Raise (TypeError (Msg "object does not support item assignment" []))
  end.

(** ** updateVersion.py *)

Definition TOKEN_METADATA : string := "sovtoken/sovtoken/metadata.json".
Definition FEES_METADATA : string := "sovtokenfees/sovtokenfees/metadata.json".

(** [vars(ap.parse_args())]; [argparse] takes exactly one of the three options. *)
Record arguments := mkArguments {
  arg_tag : option string;
  arg_timestamp : option string;
  arg_getVersion : bool;
}.

Definition updateWithTag (ver : string) : M world string :=
  if negb (is_valid ver) then raise (ValueError (Msg "No Valid Semver in Tag" [])) else ret ver.

Definition updateWithTimestamp (timestamp : string) : M world string :=
  let! data := load_json TOKEN_METADATA in
  let! version := lift (json_item "version" data) in
  let! v := lift (parse version) in
  ret (version_str (replace_prerelease ("dev" +:+ timestamp) v)).

Definition getVersion : M world unit :=
  let! data := load_json TOKEN_METADATA in
  let! version := lift (json_item "version" data) in
  let! v := lift (parse version) in
  print (version_str v).

Definition set_version (path version : string) : M world unit :=
  let! data := load_json path in
  let! data' := lift (set_item "version" (JStr version) data) in
  write_file path (json_dumps data').

(** [quit()] *)
Definition quit : M world unit := raise (SystemExit None).

(** [usage] is what [ap.print_help] prints. *)
Definition updateVersion (usage : string) (args : arguments) : M world unit :=
  (if arg_getVersion args then getVersion ;;; quit else ret tt) ;;;
  let! version :=
    match arg_tag args, arg_timestamp args with
    | Some tag, _ =>
        let! version := updateWithTag tag in
        print ("Version will be updated to: " +:+ version) ;;;
        ret version
    | None, Some timestamp =>
        let! version := updateWithTimestamp timestamp in
        print ("Replacing  Dev-Version with UX-timestamp: " +:+ version) ;;;
        ret version
    | None, None => print usage ;;; quit ;;; ret "string"
    end in
  set_version TOKEN_METADATA version ;;;
  set_version FEES_METADATA version ;;;
  print ("Updated version of sovtoken and sovtokenfees metadata.json to: " +:+ " " +:+ version).

(** ** __metadata__.py

    Executing one of the two modules with a given [__file__] gives its names. *)

Abbreviation namespace := (list (string * json)).

Definition METADATA_FILENAME : string := "metadata.json".

Definition METADATA_FILE (file : string) : string :=
  path_join (abspath (dirname file)) METADATA_FILENAME.

Definition loadAuthor (metadata_file : string) : M world json :=
  let! data := load_json metadata_file in lift (json_item "author" data).

Definition loadLicense (metadata_file : string) : M world json :=
  let! data := load_json metadata_file in lift (json_item "license" data).

Definition loadVersion (metadata_file : string) : M world json :=
  let! data := load_json metadata_file in lift (json_item "version" data).

Definition sovtoken_metadata (file : string) : M world namespace :=
  let! author := loadAuthor (METADATA_FILE file) in
  let! license := loadLicense (METADATA_FILE file) in
  let! version := loadVersion (METADATA_FILE file) in
  ret [("__file__", JStr file);
       ("__author__", author); ("__license__", license); ("__version__", version);
       ("__author_email__", JStr "");
       ("__description__", JStr "Token Plugin For Indy Plenum");
       ("__long_description__", JStr "");
       ("__maintainer__", JStr "Sovrin");
       ("__title__", JStr "sovtoken");
       ("__url__", JStr "https://github.com/sovrin-foundation/token-plugin/tree/master/sovtoken")].

Definition fees_loadAuthor (metadata_file : string) : M world json :=
  let! data := load_json metadata_file in lift (json_item "author" data).

Definition fees_loadLicense (metadata_file : string) : M world json :=
  let! data := load_json metadata_file in lift (json_item "license" data).

Definition fees_loadVersion (metadata_file : string) : M world json :=
  let! data := load_json metadata_file in lift (json_item "version" data).

Definition sovtokenfees_metadata (file : string) : M world namespace :=
  let! author := fees_loadAuthor (METADATA_FILE file) in
  let! license := fees_loadLicense (METADATA_FILE file) in
  let! version := fees_loadVersion (METADATA_FILE file) in
  ret [("__file__", JStr file);
       ("__author__", author); ("__license__", license); ("__version__", version);
       ("__author_email__", JStr "");
       ("__description__", JStr "Token Fees Plugin For Indy Plenum");
       ("__long_description__", JStr "");
       ("__maintainer__", JStr "Sovrin");
       ("__title__", JStr "sovtokenfees");
       ("__url__", JStr "https://github.com/sovrin-foundation/token-plugin/tree/master/sovtokenfees")].

(** *** Exports

    [from <module> import *] takes the names listed in [__all__]; an entry that is
    not a string is an error. *)
Inductive export := Name (s : string) | Object (type : string).

Fixpoint star_import (all : list export) (names : namespace) : res namespace :=
  match all with
  | [] => Ok []
  | Object type :: _ => Raise (TypeError (Msg "Item in __all__ must be str, not {}" [MStr type]))
  | Name name :: all =>
      let? v := (match alookup name names with
                 | Some v => Ok v
                 | None => Raise (AttributeError (Msg "module has no attribute {}" [MStr name]))
                 end) in
      let? rest := star_import all names in
      Ok ((name, v) :: rest)
  end.

Definition sovtoken_metadata_all : list export :=
  [Name "__title__"; Name "__description__"; Name "__version__"; Name "__long_description__";
   Name "__url__"; Name "__author__"; Name "__author_email__"; Name "__maintainer__"; Name "__license__"].

Definition sovtokenfees_metadata_all : list export :=
  [Name "__title__"; Name "__description__"; Name "__version__"; Name "__long_description__";
   Name "__url__"; Name "__author__"; Name "__author_email__"; Name "__maintainer__"; Name "__license__"].

(** [__all__] of the two packages themselves: a set and a dictionary. *)
Definition sovtoken_all : list export := [Object "set"].
Definition sovtokenfees_all : list export := [Object "dict"].

(** ** setup.py *)

(** The call of [setuptools.setup]; [None] is an argument that is not given. *)
Record setup_call := mkSetup {
  s_name : json; s_version : json; s_description : json; s_long_description : json;
  s_url : option json; s_author : json; s_author_email : json; s_maintainer : option json;
  s_license : json;
  s_keywords : string;
  s_packages : list string;
  s_package_data : list (string * list string);
  s_include_package_data : bool;
  s_install_requires : list string;
  s_setup_requires : list string;
  s_extras_require : list (string * list string);
  s_tests_require : list string;
  s_scripts : list string;
}.

Definition check_python (v : Z * Z * Z) : M world unit :=
  let '(major, minor, micro) := v in
  if decide (major < 3 \/ (major = 3 /\ minor < 5))%Z then
    print ("FAIL: Requires Python 3.5 or later, but setup.py was run using " +:+
           py_str major +:+ "." +:+ py_str minor +:+ "." +:+ py_str micro) ;;;
    print "NOTE: Installation failed. Run setup.py using python3" ;;;
    raise (SystemExit (Some 1%Z))
  else ret tt.

(** [here]; a frozen script has no [__file__] *)
Definition script_dir (file : option string) (argv0 : string) : string :=
  abspath (dirname (default argv0 file)).

Definition excluded : list string := ["test"; "test.*"; "docs"; "docs*"].
Definition data_globs (package : string) : list (string * list string) :=
  [("", ["*.txt"; "*.md"; "*.rst"; "*.json"; "*.conf"; "*.html";
         "*.css"; "*.ico"; "*.png"; "LICENSE"; "LEGAL"; package])].

(** [exec(f.read(), metadata)]: the text is that of the package's module. *)
Definition exec_metadata (module : string -> M world namespace) (path : string) : M world namespace :=
  let! _ := read_file path in module path.

Definition name_of (metadata : namespace) (key : string) : M world json :=
  lift (dict_item key (alookup key metadata)).

Definition sovtoken_tests_require : list string :=
  ["pip==9.0.3"; "pytest-xdist"; "mock"; "python-rocksdb==0.6.9"; "python3-indy==1.16.0.post286"].

Definition sovtoken_setup (py_version : Z * Z * Z) (file : option string) (argv0 : string) :
    M world setup_call :=
  check_python py_version ;;;
  let here := script_dir file argv0 in
  let! metadata :=
    exec_metadata sovtoken_metadata (path_join (path_join here "sovtoken") "__metadata__.py") in
  let! name := name_of metadata "__title__" in
  let! version := name_of metadata "__version__" in
  let! description := name_of metadata "__description__" in
  let! long_description := name_of metadata "__long_description__" in
  let! url := name_of metadata "__url__" in
  let! author := name_of metadata "__author__" in
  let! author_email := name_of metadata "__author_email__" in
  let! maintainer := name_of metadata "__maintainer__" in
  let! license := name_of metadata "__license__" in
  ret (mkSetup name version description long_description (Some url) author author_email
         (Some maintainer) license "" (find_packages excluded) (data_globs "sovtoken") true
         ["indy-node==1.13.2"] ["pytest-runner"]
         [("test", sovtoken_tests_require); ("benchmark", ["pympler"])] sovtoken_tests_require []).

Definition fees_tests_require : list string :=
  ["attrs==19.1.0"; "pytest==4.6.2"; "pytest-xdist"; "python3-indy==1.16.0.post286"].

Definition fees_setup (py_version : Z * Z * Z) (file : option string) (argv0 : string) :
    M world setup_call :=
  check_python py_version ;;;
  let here := script_dir file argv0 in
  let! metadata :=
    exec_metadata sovtokenfees_metadata
      (path_join (path_join here "sovtokenfees") "__metadata__.py") in
  let! name := name_of metadata "__title__" in
  let! version := name_of metadata "__version__" in
  let! description := name_of metadata "__description__" in
  let! long_description := name_of metadata "__long_description__" in
  let! author := name_of metadata "__author__" in
  let! author_email := name_of metadata "__author_email__" in
  let! license := name_of metadata "__license__" in
  ret (mkSetup name version description long_description None author author_email
         None license "" (find_packages excluded) (data_globs "sovtokenfees") true
         ["sovtoken"] ["pytest-runner"]
         [("test", fees_tests_require); ("benchmark", ["pympler"])] fees_tests_require []).
End Scripts.

(** ** Paths of the repository *)

(** The absolute path with the given components. *)
Definition abs_path (comps : list string) : string := py_join "/" ("" :: comps).

(** The name of a file or directory. *)
Definition is_name (c : string) : Prop :=
  c <> "" /\ c <> "." /\ c <> ".." /\ has_char "/" c = false.

Lemma names_no_slash comps : Forall is_name comps -> Forall (fun s => has_char "/" s = false) comps.
Proof. intros H. eapply Forall_impl; [exact H|]. by intros c (_ & _ & _ & ?). Qed.

Lemma split_abs_path comps : Forall is_name comps -> py_split "/" (abs_path comps) = "" :: comps.
Proof.
  intros Hc. apply py_split_join; [done|]. constructor; [done|]. by apply names_no_slash.
Qed.

Lemma abs_path_cons c comps : abs_path (c :: comps) = String "/" (py_join "/" (c :: comps)).
Proof. unfold abs_path. by rewrite py_join_cons. Qed.

Lemma py_join_snoc d l x : l <> [] -> py_join d (l ++ [x]) = py_join d l +:+ String d x.
Proof.
  induction l as [|y [|z l] IH]; [done|done|]. intros _.
  change ((y :: z :: l) ++ [x]) with (y :: ((z :: l) ++ [x])).
  rewrite !py_join_cons by done. rewrite IH by done. by rewrite <- sapp_assoc, sapp_cons.
Qed.

Lemma py_join_app d l l' : l <> [] -> l' <> [] -> py_join d (l ++ l') = py_join d l +:+ String d (py_join d l').
Proof.
  intros Hl. revert l Hl. induction l' as [|x l' IH]; intros l Hl Hl'; [done|].
  destruct l' as [|y l']; [by apply py_join_snoc|].
  replace (l ++ x :: y :: l') with ((l ++ [x]) ++ y :: l') by (by rewrite <- app_assoc).
  rewrite IH by (try done; by destruct l). rewrite py_join_snoc by done. rewrite (py_join_cons d x) by done.
  by rewrite <- sapp_assoc, sapp_cons.
Qed.

Lemma join_start c comps : is_name c -> next_char "/" (py_join "/" (c :: comps)) = None.
Proof.
  intros (Hn & _ & _ & Hs). destruct c as [|a c]; [done|]. simpl in Hs.
  apply orb_false_iff in Hs as [Ha _]. apply bool_decide_eq_false in Ha.
  destruct comps; simpl; by rewrite decide_False.
Qed.

Lemma normpath_abs comps : Forall is_name comps -> comps <> [] -> normpath (abs_path comps) = abs_path comps.
Proof.
  intros Hc Hne. unfold normpath. rewrite split_abs_path by done.
  destruct comps as [|c comps]; [done|].
  assert (initial_slashes (abs_path (c :: comps)) = 1) as ->.
  { apply Forall_cons in Hc as [Hc _]. rewrite abs_path_cons. unfold initial_slashes.
    cbn [next_char]. rewrite decide_True by done. by rewrite join_start. }
  assert (forall acc l, Forall is_name l -> foldl (norm_step true) acc l = reverse l ++ acc) as Hf.
  { clear. intros acc l Hl. revert acc. induction Hl as [|x l (H1 & H2 & H3 & _) Hl IH]; intros acc; [done|].
    simpl. rewrite IH, reverse_cons, <- app_assoc. simpl. f_equal.
    unfold norm_step. rewrite decide_False by tauto. by rewrite decide_True by tauto. }
  change (0 <? 1)%nat with true.
  change (foldl (norm_step true) [] ("" :: ?l)) with (foldl (norm_step true) [] l). rewrite Hf by done.
  rewrite app_nil_r, reverse_involutive, abs_path_cons.
  change (String.concat "" (replicate 1 "/") +:+ ?x) with (String "/" x). by rewrite decide_False.
Qed.

Lemma last_or_names comps : Forall is_name comps -> comps <> [] -> last_or "" comps <> "".
Proof.
  intros Hc Hne. destruct comps as [|c comps] using rev_ind; [done|].
  rewrite last_or_snoc. apply Forall_app in Hc as [_ Hc]. apply Forall_cons in Hc as [(Hn & _) _]. done.
Qed.

Lemma path_join_abs comps rel :
  Forall is_name comps -> comps <> [] -> Forall is_name rel -> rel <> [] ->
  path_join (abs_path comps) (py_join "/" rel) = abs_path (comps ++ rel).
Proof.
  intros Hc Hne Hr Hrne. unfold path_join. destruct rel as [|r rel]; [done|].
  rewrite join_start by (by apply Forall_cons in Hr as [? _]).
  rewrite split_abs_path by done. rewrite decide_False.
  - unfold abs_path. rewrite app_comm_cons, py_join_app by done. done.
  - destruct comps as [|c comps]; [done|]. rewrite abs_path_cons. intros [?|Hl]; [done|].
    by apply (last_or_names (c :: comps)).
Qed.

Lemma rstrip_slash_snoc s : rstrip_slash (s +:+ "/") = rstrip_slash s.
Proof. induction s as [|c s IH]; [done|]. rewrite sapp_cons. simpl. by rewrite IH. Qed.

Lemma rstrip_slash_no c s :
  rstrip_slash s = s -> c <> "/"%char \/ s <> "" -> rstrip_slash (String c s) = String c s.
Proof. simpl. intros ->. destruct s; [|done]. intros [?|?]; [by rewrite decide_False|done]. Qed.

Lemma rstrip_slash_name s t : t <> "" -> rstrip_slash t = t -> rstrip_slash (s +:+ t) = s +:+ t.
Proof.
  intros Hne Ht. induction s as [|c s IH]; [done|]. rewrite sapp_cons. apply rstrip_slash_no; [done|].
  right. destruct s; [|done]. by destruct t.
Qed.

Lemma rstrip_no_char s : has_char "/" s = false -> rstrip_slash s = s.
Proof.
  induction s as [|c s IH]; [done|]. simpl. intros [Hc Hs]%orb_false_iff.
  apply bool_decide_eq_false in Hc. apply rstrip_slash_no; auto.
Qed.

Lemma dirname_abs comps c :
  Forall is_name comps -> comps <> [] -> is_name c -> dirname (abs_path (comps ++ [c])) = abs_path comps.
Proof.
  intros Hc Hne Hn. unfold dirname. rewrite split_abs_path by (by apply Forall_app_2; [|constructor]).
  rewrite decide_False by (simpl; rewrite length_app; simpl; destruct comps; simpl; [done|lia]).
  assert (take (length ("" :: comps ++ [c]) - 1) ("" :: comps ++ [c]) = "" :: comps) as ->.
  { simpl. rewrite length_app. simpl. rewrite Nat.add_1_r. simpl. f_equal. by apply take_app_length'. }
  fold (abs_path comps). rewrite rstrip_slash_snoc.
  assert (rstrip_slash (abs_path comps) = abs_path comps) as ->.
  { destruct comps as [|x comps] using rev_ind; [done|]. apply Forall_app in Hc as [_ Hc].
    apply Forall_cons in Hc as [(Hx & _ & _ & Hs) _].
    unfold abs_path. rewrite app_comm_cons, py_join_snoc by done.
    apply rstrip_slash_name; [done|]. apply rstrip_slash_no; [by apply rstrip_no_char|by right]. }
  destruct comps as [|x comps]; [done|]. rewrite abs_path_cons. by rewrite decide_False.
Qed.

(** ** The scripts run in the repository *)

Section Repository.
Context `{PyText} `{SemverLaws} (find_packages : list string -> list string).
(** The directory of the repository, from which the scripts are run. *)
Context (root : list string).
Hypothesis root_names : Forall is_name root.
Hypothesis root_nonempty : root <> [].

Definition cwd : string := abs_path root.
Definition at_root (rel : list string) : string := abs_path (root ++ rel).

Definition metadata_of (package : string) : string := at_root [package; package; "metadata.json"].
Definition module_of (package : string) : string := at_root [package; package; "__metadata__.py"].

(** A package of the repository: its [metadata.json] holds the dictionary [d],
    and its [__metadata__.py] is there. *)
Record package_files (w : world) (package : string) (d : dict) : Prop := {
  pf_metadata : exists text, files w !! metadata_of package = Some text /\ json_loads text = Ok (JObj d);
  pf_module : is_Some (files w !! module_of package);
}.

Lemma abspath_abs comps :
  Forall is_name comps -> comps <> [] -> abspath cwd (abs_path comps) = abs_path comps.
Proof.
  intros Hc Hne. unfold abspath, path_join.
  destruct comps as [|c comps]; [done|]. rewrite abs_path_cons. cbn [next_char].
  rewrite decide_True by done. rewrite <- abs_path_cons. by apply normpath_abs.
Qed.

Lemma abspath_rel rel : Forall is_name rel -> rel <> [] -> abspath cwd (py_join "/" rel) = at_root rel.
Proof.
  intros Hr Hne. unfold abspath, cwd. rewrite path_join_abs by done. apply normpath_abs.
  - by apply Forall_app_2.
  - by destruct root.
Qed.

Lemma at_root_nonempty rel : root ++ rel <> [].
Proof. by destruct root. Qed.

Lemma at_root_names rel : Forall is_name rel -> Forall is_name (root ++ rel).
Proof. intros. by apply Forall_app_2. Qed.

Lemma abspath_at_root rel : Forall is_name rel -> abspath cwd (at_root rel) = at_root rel.
Proof. intros. apply abspath_abs; [by apply at_root_names|apply at_root_nonempty]. Qed.

Lemma dirname_at_root rel c :
  Forall is_name rel -> is_name c -> dirname (at_root (rel ++ [c])) = at_root rel.
Proof.
  intros Hr Hc. unfold at_root. rewrite app_assoc.
  apply dirname_abs; [by apply at_root_names|apply at_root_nonempty|done].
Qed.

Lemma join_at_root rel c : Forall is_name rel -> is_name c -> path_join (at_root rel) c = at_root (rel ++ [c]).
Proof.
  intros Hr Hc. unfold at_root. rewrite app_assoc.
  apply (path_join_abs (root ++ rel) [c]);
    [by apply at_root_names|apply at_root_nonempty|by apply Forall_singleton|done].
Qed.

Lemma load_json_ok w path text v :
  files w !! abspath cwd path = Some text -> json_loads text = Ok v -> load_json cwd path w = (Ok v, w).
Proof. intros Hf Hj. unfold load_json, read_file. reduce_monad. rewrite Hf. by rewrite Hj. Qed.

Lemma set_version_ok w path text d v :
  files w !! abspath cwd path = Some text -> json_loads text = Ok (JObj d) ->
  set_version cwd path v w =
    (Ok tt, mkWorld (<[abspath cwd path := json_dumps (JObj (aset "version" (JStr v) d))]> (files w)) (stdout w)).
Proof.
  intros Hf Hj. unfold set_version. by rewrite (bind_Ok _ _ _ _ _ (load_json_ok _ _ _ _ Hf Hj)).
Qed.

Lemma plain_aset k v d :
  plain (JObj d) -> is_ascii k = true -> is_ascii v = true -> plain (JObj (aset k (JStr v) d)).
Proof.
  intros Hp Hk Hv. inversion Hp; subst. constructor; [by apply aset_NoDup|].
  apply Forall_aset; [done|]. split; [done|]. by constructor.
Qed.

(** The paths that occur have the names of files and packages. *)
Ltac solve_names := repeat (apply Forall_cons; split); try apply Forall_nil; try done; by repeat split.

Lemma token_metadata_path : abspath cwd TOKEN_METADATA = metadata_of "sovtoken".
Proof. apply (abspath_rel ["sovtoken"; "sovtoken"; "metadata.json"]); [solve_names|done]. Qed.

Lemma fees_metadata_path : abspath cwd FEES_METADATA = metadata_of "sovtokenfees".
Proof. apply (abspath_rel ["sovtokenfees"; "sovtokenfees"; "metadata.json"]); [solve_names|done]. Qed.

Lemma METADATA_FILE_of package :
  is_name package -> abspath cwd (METADATA_FILE cwd (module_of package)) = metadata_of package.
Proof.
  intros Hp. unfold METADATA_FILE, module_of, metadata_of.
  change [package; package; ?c] with ([package; package] ++ [c]).
  rewrite dirname_at_root by solve_names. rewrite abspath_at_root by solve_names.
  rewrite join_at_root by solve_names. apply abspath_at_root. solve_names.
Qed.

(** [setup.py] finds the module next to it. *)
Lemma setup_module package argv0 :
  is_name package ->
  path_join (path_join (script_dir cwd (Some (at_root [package; "setup.py"])) argv0) package) "__metadata__.py"
  = module_of package.
Proof.
  intros Hp. unfold script_dir. change (default argv0 (Some ?x)) with x.
  change [package; "setup.py"] with ([package] ++ ["setup.py"]).
  rewrite dirname_at_root by solve_names. rewrite abspath_at_root by solve_names.
  rewrite join_at_root by solve_names. rewrite join_at_root by solve_names. done.
Qed.

(** *** What is published *)

Lemma load_package w package d key v :
  is_name package -> package_files w package d -> alookup key d = Some v ->
  bind (load_json cwd (METADATA_FILE cwd (module_of package)))
    (fun data => lift (json_item key data)) w = (Ok v, w).
Proof.
  intros Hn [(text & Hf & Hj) _] Hk.
  rewrite <- METADATA_FILE_of in Hf by done.
  rewrite (bind_Ok _ _ _ _ _ (load_json_ok _ _ _ _ Hf Hj)).
  unfold lift. simpl. unfold get_item. by rewrite Hk.
Qed.

Definition new_python (py : Z * Z * Z) : Prop := let '(major, minor, _) := py in (3 < major \/ (major = 3 /\ 5 <= minor))%Z.

Lemma check_python_new py w : new_python py -> check_python py w = (Ok tt, w).
Proof. destruct py as [[major minor] micro]. simpl. intros. rewrite decide_False by lia. done. Qed.

Lemma exec_package w package d module :
  is_name package -> package_files w package d ->
  exec_metadata cwd module (module_of package) w = module (module_of package) w.
Proof.
  intros Hn [_ [code Hc]]. unfold exec_metadata, read_file. reduce_monad.
  unfold module_of in *. rewrite abspath_at_root by solve_names. by rewrite Hc.
Qed.

(** What the metadata says is what [setup] is given, for both packages. *)
Lemma sovtoken_setup_ok w d author license version py argv0 :
  package_files w "sovtoken" d -> new_python py ->
  alookup "author" d = Some author -> alookup "license" d = Some license ->
  alookup "version" d = Some version ->
  exists call,
    sovtoken_setup cwd find_packages py (Some (at_root ["sovtoken"; "setup.py"])) argv0 w = (Ok call, w) /\
    s_name call = JStr "sovtoken" /\ s_version call = version /\ s_author call = author /\
    s_license call = license.
Proof.
  intros Hp Hpy Ha Hl Hv. unfold sovtoken_setup.
  rewrite (bind_Ok _ _ _ _ _ (check_python_new py w Hpy)). cbv zeta.
  rewrite setup_module by solve_names.
  assert (exec_metadata cwd (sovtoken_metadata cwd) (module_of "sovtoken") w =
    sovtoken_metadata cwd (module_of "sovtoken") w) as He by (by eapply exec_package; [solve_names|]).
  unfold sovtoken_metadata, loadAuthor, loadLicense, loadVersion in He.
  rewrite (bind_Ok _ _ _ _ _ (load_package w "sovtoken" d "author" author ltac:(solve_names) Hp Ha)),
    (bind_Ok _ _ _ _ _ (load_package w "sovtoken" d "license" license ltac:(solve_names) Hp Hl)),
    (bind_Ok _ _ _ _ _ (load_package w "sovtoken" d "version" version ltac:(solve_names) Hp Hv)) in He.
  unfold sovtoken_metadata, loadAuthor, loadLicense, loadVersion.
  rewrite (bind_Ok _ _ _ _ _ He). by eexists.
Qed.

Lemma fees_setup_ok w d author license version py argv0 :
  package_files w "sovtokenfees" d -> new_python py ->
  alookup "author" d = Some author -> alookup "license" d = Some license ->
  alookup "version" d = Some version ->
  exists call,
    fees_setup cwd find_packages py (Some (at_root ["sovtokenfees"; "setup.py"])) argv0 w = (Ok call, w) /\
    s_name call = JStr "sovtokenfees" /\ s_version call = version /\ s_author call = author /\
    s_license call = license /\ s_install_requires call = ["sovtoken"].
Proof.
  intros Hp Hpy Ha Hl Hv. unfold fees_setup.
  rewrite (bind_Ok _ _ _ _ _ (check_python_new py w Hpy)). cbv zeta.
  rewrite setup_module by solve_names.
  assert (exec_metadata cwd (sovtokenfees_metadata cwd) (module_of "sovtokenfees") w =
    sovtokenfees_metadata cwd (module_of "sovtokenfees") w) as He by (by eapply exec_package; [solve_names|]).
  unfold sovtokenfees_metadata, fees_loadAuthor, fees_loadLicense, fees_loadVersion in He.
  rewrite (bind_Ok _ _ _ _ _ (load_package w "sovtokenfees" d "author" author ltac:(solve_names) Hp Ha)),
    (bind_Ok _ _ _ _ _ (load_package w "sovtokenfees" d "license" license ltac:(solve_names) Hp Hl)),
    (bind_Ok _ _ _ _ _ (load_package w "sovtokenfees" d "version" version ltac:(solve_names) Hp Hv)) in He.
  unfold sovtokenfees_metadata, fees_loadAuthor, fees_loadLicense, fees_loadVersion.
  rewrite (bind_Ok _ _ _ _ _ He). by eexists.
Qed.

Lemma getVersion_ok w d v :
  package_files w "sovtoken" d -> alookup "version" d = Some (JStr v) -> is_valid v = true ->
  getVersion cwd w = (Ok tt, mkWorld (files w) (stdout w ++ [v])).
Proof.
  intros [(text & Hf & Hj) _] Hv Hvalid. rewrite is_valid_parse in Hvalid.
  destruct (parse (JStr v)) as [ver|e] eqn:Hp; [|done].
  rewrite <- token_metadata_path in Hf. unfold getVersion.
  rewrite (bind_Ok _ _ _ _ _ (load_json_ok _ _ _ _ Hf Hj)).
  unfold json_item, get_item. rewrite Hv. reduce_monad. cbn [dict_item].
  rewrite Hp. by rewrite (parse_str _ _ Hp).
Qed.

(** *** Publishing a version *)

Lemma at_root_ne r1 r2 : Forall is_name r1 -> Forall is_name r2 -> r1 <> r2 -> at_root r1 <> at_root r2.
Proof.
  intros Ht Hu Hne He. apply Hne. apply (f_equal (py_split "/")) in He. unfold at_root in He.
  rewrite !split_abs_path in He by (by apply at_root_names). injection He as He. by apply app_inv_head in He.
Qed.

Lemma metadata_ne package package' :
  is_name package -> is_name package' -> package <> package' -> metadata_of package <> metadata_of package'.
Proof. intros. apply at_root_ne; [solve_names..|congruence]. Qed.

Lemma metadata_module_ne package package' :
  is_name package -> is_name package' -> metadata_of package <> module_of package'.
Proof. intros. apply at_root_ne; [solve_names..|congruence]. Qed.

(** Rewriting a package's metadata leaves it, with the new version, and the other
    package as they were. *)
Lemma package_files_written w out package d v :
  is_name package -> plain (JObj d) -> is_ascii v = true -> package_files w package d ->
  package_files (mkWorld (<[metadata_of package := json_dumps (JObj (aset "version" (JStr v) d))]> (files w)) out)
    package (aset "version" (JStr v) d).
Proof.
  intros Hn Hd Hv [_ Hm]. split; simpl.
  - eexists. rewrite lookup_insert_eq. split; [done|]. apply json_loads_dumps. by apply plain_aset.
  - by rewrite lookup_insert_ne by (by apply metadata_module_ne).
Qed.

Lemma package_files_other w out package package' d text :
  is_name package -> is_name package' -> package' <> package -> package_files w package d ->
  package_files (mkWorld (<[metadata_of package' := text]> (files w)) out) package d.
Proof.
  intros Hn Hn' Hne [(t & Ht & Hj) Hm]. split; simpl.
  - exists t. by rewrite lookup_insert_ne by (by apply metadata_ne).
  - by rewrite lookup_insert_ne by (by apply metadata_module_ne).
Qed.

Lemma package_files_stdout w out package d :
  package_files w package d -> package_files (mkWorld (files w) out) package d.
Proof. by intros [? ?]. Qed.

Definition set_both (v : string) : M world unit :=
  set_version cwd TOKEN_METADATA v ;;; set_version cwd FEES_METADATA v.

Lemma set_both_ok w d1 d2 v :
  package_files w "sovtoken" d1 -> package_files w "sovtokenfees" d2 ->
  plain (JObj d1) -> plain (JObj d2) -> is_ascii v = true ->
  exists w', set_both v w = (Ok tt, w') /\ stdout w' = stdout w /\
    package_files w' "sovtoken" (aset "version" (JStr v) d1) /\
    package_files w' "sovtokenfees" (aset "version" (JStr v) d2) /\
    forall p, p <> metadata_of "sovtoken" -> p <> metadata_of "sovtokenfees" ->
      files w' !! p = files w !! p.
Proof.
  intros Ht Hu Hp1 Hp2 Hv. pose proof Ht as [(t1 & Hf1 & Hj1) _].
  rewrite <- token_metadata_path in Hf1. unfold set_both.
  rewrite (bind_Ok _ _ _ _ _ (set_version_ok w _ _ _ v Hf1 Hj1)). rewrite token_metadata_path.
  set (w1 := mkWorld _ _).
  assert (package_files w1 "sovtoken" (aset "version" (JStr v) d1)) as Ht'
    by (apply package_files_written; [solve_names|done..]).
  assert (package_files w1 "sovtokenfees" d2) as Hu'
    by (apply package_files_other; [solve_names|solve_names|done..]).
  pose proof Hu' as [(t2 & Hf2 & Hj2) _]. rewrite <- fees_metadata_path in Hf2.
  rewrite (set_version_ok w1 _ _ _ v Hf2 Hj2), fees_metadata_path.
  eexists. split_and!; [done|done|..].
  - apply package_files_other; [solve_names|solve_names|done..].
  - apply package_files_written; [solve_names|done..].
  - intros p Hn1 Hn2. simpl. by rewrite !lookup_insert_ne.
Qed.

(** The version that the arguments ask for, given the metadata of sovtoken. *)
Definition requested (args : arguments) (d : dict) : res string :=
  match arg_tag args, arg_timestamp args with
  | Some tag, _ =>
      if is_valid tag then Ok tag else Raise (ValueError (Msg "No Valid Semver in Tag" []))
  | None, Some timestamp =>
      let? version := get_item "version" d in
      let? v := parse version in
      Ok (version_str (replace_prerelease ("dev" +:+ timestamp) v))
  | None, None => Raise (SystemExit None)
  end.

Lemma updateWithTimestamp_run w d ts :
  package_files w "sovtoken" d ->
  updateWithTimestamp cwd ts w = (requested (mkArguments None (Some ts) false) d, w).
Proof.
  intros [(t & Hf & Hj) _]. rewrite <- token_metadata_path in Hf. unfold updateWithTimestamp.
  rewrite (bind_Ok _ _ _ _ _ (load_json_ok _ _ _ _ Hf Hj)). reduce_monad. cbn [json_item requested arg_tag arg_timestamp].
  destruct (get_item "version" d) as [ver|]; [|done]. cbn [res_bind]. by destruct (parse ver).
Qed.

Lemma updateVersion_ok w d1 d2 args usage v :
  package_files w "sovtoken" d1 -> package_files w "sovtokenfees" d2 ->
  plain (JObj d1) -> plain (JObj d2) ->
  arg_getVersion args = false -> requested args d1 = Ok v -> is_ascii v = true ->
  exists w', updateVersion cwd usage args w = (Ok tt, w') /\
    package_files w' "sovtoken" (aset "version" (JStr v) d1) /\
    package_files w' "sovtokenfees" (aset "version" (JStr v) d2) /\
    forall p, p <> metadata_of "sovtoken" -> p <> metadata_of "sovtokenfees" ->
      files w' !! p = files w !! p.
Proof.
  intros Ht Hu Hp1 Hp2 Hg Hr Hv. unfold updateVersion. rewrite Hg.
  assert (exists line, forall (k : string -> M world unit),
    bind (match arg_tag args, arg_timestamp args with
    | Some tag, _ =>
        let! version := updateWithTag tag in
        print ("Version will be updated to: " +:+ version) ;;; ret version
    | None, Some timestamp =>
        let! version := updateWithTimestamp cwd timestamp in
        print ("Replacing  Dev-Version with UX-timestamp: " +:+ version) ;;; ret version
    | None, None => print usage ;;; quit ;;; ret "string"
    end) k w = k v (mkWorld (files w) (stdout w ++ [line]))) as [line Hline].
  { unfold requested in Hr. destruct (arg_tag args) as [tag|].
    - unfold updateWithTag. destruct (is_valid tag); simplify_eq. by eexists.
    - destruct (arg_timestamp args) as [ts|]; [|done].
      pose proof (updateWithTimestamp_run w d1 ts Ht) as Hts.
      change (requested (mkArguments None (Some ts) false) d1 = Ok v) in Hr. rewrite Hr in Hts.
      eexists. intros k. unfold bind. rewrite Hts. reflexivity. }
  change (bind (ret tt) ?k w) with (k tt w). cbv beta. rewrite Hline.
  destruct (set_both_ok (mkWorld (files w) (stdout w ++ [line])) d1 d2 v)
    as (w' & Hb & _ & Ht' & Hu' & Ho); [by apply package_files_stdout|by apply package_files_stdout|done..|].
  eexists (mkWorld (files w') _). split_and!.
  - unfold set_both in Hb. apply bind_inv_Ok in Hb as ([] & w1 & Hb1 & Hb2).
    rewrite (bind_Ok _ _ _ _ _ Hb1), (bind_Ok _ _ _ _ _ Hb2). reflexivity.
  - by apply package_files_stdout.
  - by apply package_files_stdout.
  - done.
Qed.

Lemma updateVersion_raises w d1 args usage e :
  package_files w "sovtoken" d1 -> arg_getVersion args = false -> requested args d1 = Raise e ->
  exists w', updateVersion cwd usage args w = (Raise e, w') /\ files w' = files w.
Proof.
  intros Ht Hg Hr. unfold updateVersion. rewrite Hg. unfold requested in Hr.
  destruct (arg_tag args) as [tag|].
  - unfold updateWithTag. destruct (is_valid tag); simplify_eq. by eexists.
  - destruct (arg_timestamp args) as [ts|]; [|simplify_eq; by eexists].
    pose proof (updateWithTimestamp_run w d1 ts Ht) as Hts.
    change (requested (mkArguments None (Some ts) false) d1 = Raise e) in Hr. rewrite Hr in Hts.
    exists w. unfold bind, ret. by rewrite Hts.
Qed.
End Repository.

(** C35: [updateVersion.py] publishes the version asked for.  Run in the repository
    with [--tag] or [--timestamp]: when the request gives a version [v] (a tag
    that is a semantic version, or the current version with the prerelease
    [dev<timestamp>]), the script succeeds, touches the two [metadata.json]
    only, and afterwards both [setup.py] give [setup] the version [v], with the
    author and licence as before; and if [v] is a semantic version,
    [--getVersion] prints it and changes nothing.  When it gives none, the
    script raises that error and no file changes. *)
Theorem version_published `{PyText} `{SemverLaws} find_packages root w d1 d2 args usage py argv0 a1 l1 a2 l2 :
  Forall is_name root -> root <> [] ->
  package_files root w "sovtoken" d1 -> package_files root w "sovtokenfees" d2 ->
  plain (JObj d1) -> plain (JObj d2) ->
  alookup "author" d1 = Some a1 -> alookup "license" d1 = Some l1 ->
  alookup "author" d2 = Some a2 -> alookup "license" d2 = Some l2 ->
  new_python py -> arg_getVersion args = false ->
  (forall v, requested args d1 = Ok v -> is_ascii v = true) ->
  let cwd := cwd root in
  let '(r, w') := updateVersion cwd usage args w in
  match requested args d1 with
  | Ok v =>
      r = Ok tt /\
      (forall p, p <> metadata_of root "sovtoken" -> p <> metadata_of root "sovtokenfees" ->
        files w' !! p = files w !! p) /\
      (exists call,
        sovtoken_setup cwd find_packages py (Some (at_root root ["sovtoken"; "setup.py"])) argv0 w'
          = (Ok call, w') /\
        s_name call = JStr "sovtoken" /\ s_version call = JStr v /\ s_author call = a1 /\
        s_license call = l1) /\
      (exists call,
        fees_setup cwd find_packages py (Some (at_root root ["sovtokenfees"; "setup.py"])) argv0 w'
          = (Ok call, w') /\
        s_name call = JStr "sovtokenfees" /\ s_version call = JStr v /\ s_author call = a2 /\
        s_license call = l2) /\
      (is_valid v = true ->
        updateVersion cwd usage (mkArguments None None true) w' =
          (Raise (SystemExit None), mkWorld (files w') (stdout w' ++ [v])))
  | Raise e => r = Raise e /\ files w' = files w
  end.
Proof.
  intros Hn Hne Ht Hu Hp1 Hp2 Ha1 Hl1 Ha2 Hl2 Hpy Hg Hascii. cbv zeta.
  destruct (requested args d1) as [v|e] eqn:Hr.
  - destruct (updateVersion_ok root Hn Hne w d1 d2 args usage v) as (w' & E & Ht' & Hu' & Ho);
      [by auto..|].
    rewrite E. split_and!; [done|done|..].
    + apply (sovtoken_setup_ok find_packages root Hn Hne w' (aset "version" (JStr v) d1));
        rewrite ?alookup_aset_ne, ?alookup_aset_eq by done; done.
    + destruct (fees_setup_ok find_packages root Hn Hne w' (aset "version" (JStr v) d2) a2 l2 (JStr v) py argv0)
        as (call & Hc & ? & ? & ? & ? & _); rewrite ?alookup_aset_ne, ?alookup_aset_eq by done; try done.
      by exists call.
    + intros Hvalid. unfold updateVersion. cbn [arg_getVersion].
      pose proof (getVersion_ok root Hn Hne w' _ v Ht' (alookup_aset_eq _ _ _) Hvalid) as Hgv.
      apply bind_Raise. by rewrite (bind_Ok _ _ _ _ _ Hgv).
  - destruct (updateVersion_raises root Hn Hne w d1 args usage e) as (w' & E & Hf); [done..|].
    by rewrite E.
Qed.

(** The script is not atomic: when the metadata of sovtokenfees cannot be read,
    that of sovtoken already holds the new version. *)
Lemma version_half_updated `{PyText} root w d1 v :
  Forall is_name root -> root <> [] ->
  (exists text, files w !! metadata_of root "sovtoken" = Some text /\ json_loads text = Ok (JObj d1)) ->
  files w !! metadata_of root "sovtokenfees" = None ->
  set_both root v w =
    (Raise (FileNotFoundError FEES_METADATA),
     mkWorld (<[metadata_of root "sovtoken" := json_dumps (JObj (aset "version" (JStr v) d1))]> (files w))
       (stdout w)).
Proof.
  intros Hn Hne (t & Hf & Hj) Hnone.
  assert (metadata_of root "sovtoken" <> metadata_of root "sovtokenfees") as Hdiff
    by (apply metadata_ne; done).
  rewrite <- (token_metadata_path root Hn Hne) in Hf |- *. unfold set_both.
  rewrite (bind_Ok _ _ _ _ _ (set_version_ok root w _ _ _ v Hf Hj)).
  apply bind_Raise. unfold load_json, read_file. reduce_monad. simpl.
  rewrite fees_metadata_path, lookup_insert_ne by (rewrite ?token_metadata_path; done).
  by rewrite Hnone.
Qed.

(** Every name that the metadata modules export is one they define, and importing
    all names of one of the packages fails. *)
Lemma star_imports `{PyText} cwd file names w w' :
  sovtoken_metadata cwd file w = (Ok names, w') \/ sovtokenfees_metadata cwd file w = (Ok names, w') ->
  is_ok (star_import sovtoken_metadata_all names) = true /\
  is_ok (star_import sovtokenfees_metadata_all names) = true /\
  is_ok (star_import sovtoken_all names) = false /\ is_ok (star_import sovtokenfees_all names) = false.
Proof.
  intros [Hm|Hm]; repeat (apply bind_inv_Ok in Hm as (? & ? & _ & Hm)); injection Hm as <- _; done.
Qed.

(** ** Example: the repository's own files *)

Module ExRepo.
#[global] Instance text : PyText := {| float_repr := fun _ _ => ""; float_value := fun _ => JNull; wide_char := fun _ => "" |}.

(** Three parts; the last one may carry a prerelease. *)
Definition valid (s : string) : bool :=
  match py_split "." s with
  | [a; b; c] => negb (bool_decide (a = "" \/ b = "" \/ c = ""))
  | _ => false
  end.

#[global] Instance semver : Semver := {|
  Version := string;
  is_valid := valid;
  parse v := match v with
             | JStr s => if valid s then Ok s else Raise (ValueError (Msg "not valid SemVer string" []))
             | _ => Raise (TypeError (Msg "not expecting type" []))
             end;
  version_str v := v;
  replace_prerelease p v := match py_split "-" v with c :: _ => c +:+ "-" +:+ p | [] => v end;
|}.

#[global] Instance semver_laws : SemverLaws.
Proof.
  split; simpl.
  - intros s. by destruct (valid s).
  - intros s v. destruct (valid s); congruence.
Qed.

Definition metadata : dict := [("version", JStr "1.1.1"); ("author", JStr "Sovrin"); ("license", JStr "Apache 2.0")].

(** [metadata.json] as it is in the repository *)
Definition metadata_text : string := json_dumps (JObj metadata).

Definition repo : world :=
  mkWorld (list_to_map
    [("/repo/sovtoken/sovtoken/metadata.json", metadata_text);
     ("/repo/sovtoken/sovtoken/__metadata__.py", "import os");
     ("/repo/sovtokenfees/sovtokenfees/metadata.json", metadata_text);
     ("/repo/sovtokenfees/sovtokenfees/__metadata__.py", "import os")]) [].
End ExRepo.

Lemma version_published_witness :
  let '(r, w') := updateVersion "/repo" "usage" (mkArguments (Some "1.2.0") None false) ExRepo.repo in
  r = Ok tt /\
  exists call,
    sovtoken_setup "/repo" id (3, 6, 9)%Z (Some "/repo/sovtoken/setup.py") "" w' = (Ok call, w') /\
    s_version call = JStr "1.2.0".
Proof.
  pose proof (version_published id ["repo"] ExRepo.repo ExRepo.metadata ExRepo.metadata
    (mkArguments (Some "1.2.0") None false) "usage" (3, 6, 9)%Z "" (JStr "Sovrin") (JStr "Apache 2.0")
    (JStr "Sovrin") (JStr "Apache 2.0")) as H.
  assert (forall package, package = "sovtoken" \/ package = "sovtokenfees" ->
    package_files ["repo"] ExRepo.repo package ExRepo.metadata) as Hf.
  { intros ? [-> | ->]; (split; [exists ExRepo.metadata_text; split; reflexivity|by eexists]). }
  assert (plain (JObj ExRepo.metadata)) as Hp.
  { constructor; [by apply (bool_decide_unpack _)|].
    repeat (apply Forall_cons; split; [split; [reflexivity|by apply plain_str]|]). by apply Forall_nil. }
  assert (forall v, requested (mkArguments (Some "1.2.0") None false) ExRepo.metadata = Ok v ->
    is_ascii v = true) as Hv.
  { intros v Hv. vm_compute in Hv. injection Hv as <-. reflexivity. }
  specialize (H ltac:(by repeat constructor) ltac:(done) (Hf _ (or_introl eq_refl)) (Hf _ (or_intror eq_refl))
    Hp Hp eq_refl eq_refl eq_refl eq_refl ltac:(simpl; lia) eq_refl Hv).
  cbv zeta in H. change (cwd ["repo"]) with "/repo" in H.
  destruct (updateVersion "/repo" "usage" _ ExRepo.repo) as [r w'].
  destruct H as (Hr & _ & (call & Hc & _ & Hver & _) & _). split; [exact Hr|]. by exists call.
Defined.
