(* ===== verification/Glue.v ===== *)
(** * Small parts around the plugins

    What is left of the two packages: how an [Output] prints and hashes
    ([sovtoken/types.py]), closing the UTXO cache ([utxo_cache.py]), the callbacks that
    connect a token wallet to a client ([util.py]) and the names of the serializers
    ([sovtokenfees/serializers.py]).  Lemmas: an output's text is the JSON of its
    attributes; equal outputs have equal hashes; a registered wallet gets the replies
    of the network as [update_token_wallet_with_result] would give them. *)

From S2P Require Import Prelude Exceptions PyStr TokenTypes Json JsonText.

Open Scope stdpp_scope.

(** ** Output *)

(** [self.__dict__] *)
Definition Output_dict (o : Output) : dict :=
  [("address", JStr (out_address o)); ("seqNo", JInt (out_seqNo o));
   ("amount", match out_amount o with Some a => JInt a | None => JNull end)].

(** [json.dumps(self.__dict__)], on one line *)
Definition Output_repr `{PyText} (o : Output) : string :=
  "{" +:+ String.concat ", " (map (dump_member (dump_value 0)) (Output_dict o)) +:+ "}".

(** [self.__eq__(other)]; the argument need not be an [Output]. *)
Definition Output_eq (self : Output) (other : maybe_output) : bool :=
  match other with
  | IsOutput o =>
      bool_decide (out_address self = out_address o) && bool_decide (out_seqNo self = out_seqNo o) &&
      bool_decide (out_amount self = out_amount o)
  | NotAnOutput => false
  end.

(** [hash] of a string, an integer and an [Optional[int]] is Python's. *)
Definition Output_hash (hash_str : string -> Z) (hash_int : Z -> Z) (hash_amount : option Z -> Z) (self : Output) : Z :=
  (hash_str (out_address self) + hash_int (out_seqNo self) + hash_amount (out_amount self))%Z.

Lemma Output_eq_spec o o' : Output_eq o (IsOutput o') = true <-> o = o'.
Proof.
  destruct o, o'. unfold Output_eq. cbn. rewrite !andb_true_iff, !bool_decide_eq_true. naive_solver.
Qed.

Lemma Output_eq_hash hs hi ha o o' :
  Output_eq o (IsOutput o') = true -> Output_hash hs hi ha o = Output_hash hs hi ha o'.
Proof. by intros ->%Output_eq_spec. Qed.

(** [OutputList], which nothing uses. *)
Record OutputList := mkOutputList { spent : gset Z; unspent : gset Z }.

(** The three members of the text, read one after the other. *)
Lemma scan_line `{PyText} n k key v o r o' r' :
  is_ascii key = true -> plain v -> reads n 0 v ->
  scan_members (scan_value n) k o = Ok (o', r') -> skip_ws o = o -> r = ", " +:+ o ->
  scan_members (scan_value n) (S k) (dump_member (dump_value 0) (key, v) +:+ r) = Ok ((key, v) :: o', r').
Proof.
  intros Hk Hp Hr Ho Hs ->. destruct (scan_member_dump n 0 key v (", " +:+ o)) as (s1 & s2 & -> & E1 & s3 & E2 & E3); [done..|].
  cbn [scan_members next_char]. rewrite decide_True, E1 by done. cbn [res_bind]. rewrite E2, E3. cbn [res_bind].
  change (skip_ws (", " +:+ o)) with (", " +:+ o). change (next_char "}" (", " +:+ o)) with (@None string).
  change (next_char "," (", " +:+ o)) with (Some (" " +:+ o)). cbv iota.
  change (skip_ws (" " +:+ o)) with (skip_ws o). by rewrite Hs, Ho.
Qed.

Lemma scan_line_end `{PyText} n k key v rest :
  is_ascii key = true -> plain v -> reads n 0 v ->
  scan_members (scan_value n) (S k) (dump_member (dump_value 0) (key, v) +:+ String "}" rest) = Ok ([(key, v)], rest).
Proof.
  intros Hk Hp Hr. destruct (scan_member_dump n 0 key v (String "}" rest)) as (s1 & s2 & -> & E1 & s3 & E2 & E3); [done..|].
  cbn [scan_members next_char]. rewrite decide_True, E1 by done. cbn [res_bind]. by rewrite E2, E3.
Qed.

(** The text of an output reads back as its attributes. *)
Lemma Output_repr_loads `{PyText} o :
  is_ascii (out_address o) = true -> json_loads (Output_repr o) = Ok (JObj (Output_dict o)).
Proof.
  destruct o as [a s v]. cbn [out_address]. intros Ha.
  set (amount := match v with Some x => JInt x | None => JNull end).
  assert (plain amount) as Hv by (destruct v; constructor).
  destruct (scan_dump_value (JStr a)) as [d1 H1]; [by constructor|].
  destruct (scan_dump_value (JInt s)) as [d2 H2]; [constructor|].
  destruct (scan_dump_value amount Hv) as [d3 H3].
  set (n := String.length (Output_repr (mkOutput a s v)) + d1 + d2 + d3).
  set (members := dump_member (dump_value 0) ("address", JStr a) +:+ (", " +:+
    (dump_member (dump_value 0) ("seqNo", JInt s) +:+ (", " +:+
     (dump_member (dump_value 0) ("amount", amount) +:+ "}"))))).
  assert (Output_repr (mkOutput a s v) = String "{" members) as Htext
    by (unfold Output_repr, Output_dict; cbn [map String.concat out_address out_seqNo out_amount];
        fold amount; by rewrite <- !sapp_assoc).
  unfold json_loads. change (skip_ws (Output_repr (mkOutput a s v))) with (Output_repr (mkOutput a s v)).
  rewrite (scan_value_fuel _ (S n)) by (unfold n; lia). rewrite Htext. cbn [scan_value next_char].
  rewrite decide_False, decide_False, decide_True by done. unfold scan_object.
  change (skip_ws members) with members. change (next_char "}" members) with (@None string). cbv iota beta.
  assert (exists k, S (String.length members) = S (S (S k))) as [k ->].
  { exists (String.length members - 2). unfold members. rewrite slen_app. simpl. lia. }
  pose proof (scan_line_end n k "amount" amount "" eq_refl Hv (H3 n ltac:(unfold n; lia) 0)) as E3.
  pose proof (scan_line n _ "seqNo" (JInt s) _ _ _ _ eq_refl (plain_int s) (H2 n ltac:(unfold n; lia) 0) E3 eq_refl eq_refl) as E2.
  pose proof (scan_line n _ "address" (JStr a) _ _ _ _ eq_refl (plain_str a Ha) (H1 n ltac:(unfold n; lia) 0) E2 eq_refl eq_refl) as E1.
  change (String "}" "") with "}" in E1. fold members in E1. rewrite E1. done.
Qed.

(** ** Closing the cache *)

(** [UTXOCache.close]: [store] is [self._store], if there is one. *)
Definition close {S W} (store_close : S -> M W unit) (store : option S) : M W unit :=
  match store with Some s => store_close s | None => ret tt end.

(** ** Wallets

    [W] is what the callbacks of a client change.  A wallet is known by its method
    [on_reply_from_network(observer_name, req_id, frm, result, num_replies)]; a client
    calls its observers for every reply. *)

Section Wallets.
Context {W R : Type}.

Record reply := mkReply {
  observer_name : option string;
  req_id : option Z;
  frm : option string;
  reply_result : R;
  num_replies : option Z;
}.

Definition callback : Type := reply -> M W unit.
Record token_wallet := mkWallet { on_reply_from_network : callback }.

Context {C : Type} (registerObserver : C -> callback -> C).

Definition register_token_wallet_with_client (client : C) (wallet : token_wallet) : C :=
  registerObserver client (on_reply_from_network wallet).

Definition update_token_wallet_with_result (wallet : token_wallet) (result : R) : M W unit :=
  on_reply_from_network wallet (mkReply None None None result None).

(** With a client that calls its observers in the order they registered in, a wallet
    registered with it sees the replies after the observers before it. *)
Lemma registered_wallet_updated (observers : C -> list callback) client wallet result w :
  (forall c cb, observers (registerObserver c cb) = observers c ++ [cb]) ->
  let notify c := for_each (observers c) (fun cb => cb (mkReply None None None result None)) in
  notify (register_token_wallet_with_client client wallet) w =
    (notify client ;;; update_token_wallet_with_result wallet result) w.
Proof.
  intros Hobs notify. unfold notify, register_token_wallet_with_client. rewrite Hobs, for_each_app.
  unfold bind. destruct (for_each _ _ w) as [[[]|] w']; [|done]. cbn [for_each]. unfold bind, update_token_wallet_with_result.
  by destruct (on_reply_from_network _ _ _) as [[[]|] ?].
Qed.
End Wallets.
Arguments reply : clear implicits.
Arguments callback : clear implicits.
Arguments token_wallet : clear implicits.

(** ** Names of the serializers ([sovtokenfees/serializers.py])

    plenum's serializers under the plugin's names. *)
Section Serializers.
Context {S : Type} (Base58Serializer pstate_serializer pproof_nodes_serializer pconfig_state_serializer : S).

Definition txn_root_serializer : S := Base58Serializer.
Definition state_roots_serializer : S := pstate_serializer.
Definition proof_nodes_serializer : S := pproof_nodes_serializer.
Definition config_state_serializer : S := pconfig_state_serializer.
End Serializers.
