(* ===== verification/GetUtxo.v ===== *)
(** * GetUtxoHandler ([sovtoken/request_handlers/read_req_handler/get_utxo_handler.py])

    The read handler that lists the unspent outputs of an address from the
    committed token state, page by page.  The state proof query, [rlp_decode],
    the BLS store, the serializers and [json.dumps] are plenum's or external:
    they are the parameters of the section.  Theorems: what a reply lists, that
    following [next] lists everything, and the page that the code loses. *)

From stdpp Require Import sorting.
From S2P Require Import Prelude Exceptions PyStr TokenTypes UtxoAmounts TokenUtils SortedItems Json.

Open Scope stdpp_scope.

(** The entries of a reply. *)
Inductive result_value (P : Type) :=
  | RId (v : option string)
  | RReqId (v : option Z)
  | RJson (v : json)
  | ROutputs (l : list Output)
  | RSeqNo (n : Z)
  | RProof (p : P).
Arguments RId {P} v.
Arguments RReqId {P} v.
Arguments RJson {P} v.
Arguments ROutputs {P} l.
Arguments RSeqNo {P} n.
Arguments RProof {P} p.

(** [f.IDENTIFIER.nm], [f.REQ_ID.nm] and [STATE_PROOF] of plenum *)
Definition IDENTIFIER : string := "identifier".
Definition REQ_ID : string := "reqId".
Definition STATE_PROOF : string := "state_proof".

(** [GetUtxoHandler.create_state_key] *)
Definition get_utxo_create_state_key (address : string) (seq_no : Z) : string := create_state_key address seq_no.

(** [addr, seq_no = parse_state_key(k)] *)
Definition unpack2 (l : list string) : res (string * string) :=
  match l with
  | [x; y] => Ok (x, y)
  | _ => Raise (ValueError (Msg "wrong number of values to unpack" []))
  end.

(** [next((idx for utxo, idx in zip(utxos, range(len(utxos))) if utxo.seqNo >= from_seqno), None)] *)
Fixpoint find_from (from_seqno : json) (utxos : list Output) (idx : nat) : res (option nat) :=
  match utxos with
  | [] => Ok None
  | utxo :: utxos' =>
      let? ge := int_ge (out_seqNo utxo) from_seqno in
      if ge then Ok (Some idx) else find_from from_seqno utxos' (S idx)
  end.

(** The page of [utxos] that starts at [from_seqno], and the number after it.
    [if idx:] is false for [None] and for the index [0]. *)
Definition select_page (from_seqno : json) (utxos : list Output) : res (list Output * option Z) :=
  let? utxos :=
    (if json_truthy from_seqno then
       let? idx := find_from from_seqno utxos 0 in
       match idx with
       | Some (S i) => Ok (drop (S i) utxos)
       | _ => Ok []
       end
     else Ok utxos) in
  if (UTXO_LIMIT <? length utxos)%nat
  then Ok (take UTXO_LIMIT utxos, out_seqNo <$> utxos !! UTXO_LIMIT)
  else Ok (utxos, None).

Section GetUtxoHandler.
Context {T S P : Type}.
(** [self.state.generate_state_proof_for_keys_with_prefix(address, ...)]: the
    proof and the dictionary of keys and stored values *)
Context (proof_for_prefix : T -> json -> res (P * list (string * string))).
(** [rlp_decode], and [state_roots_serializer.serialize(committedHeadHash)] *)
Context (rlp_decode : string -> res (list string)) (root_of : T -> string).
(** [bls_store.get], and the proof dictionary made of a multi-signature, the
    root and the serialized proof nodes *)
Context (bls_get : string -> option S) (proof_dict : S -> string -> P -> P).
(** [len(json.dumps(result))], and [self._msg_limit].  [json] is [ujson], whose
    [dumps] writes every reply, the [Output] objects in it included; the
    standard [json] that the module falls back on when ujson is not installed
    raises [TypeError] for an [Output] and is not modelled. *)
Context (dumps_len : list (string * result_value P) -> Z) (msg_limit : Z).

(** [rlp_decode(v)[0]] *)
Definition decode_amount (v : string) : res string :=
  let? items := rlp_decode v in
  match items with [] => Raise IndexError | x :: _ => Ok x end.

(** The loop over [rv.items()]. *)
Definition collect_outputs (rv : list (string * string)) : M (list Output) unit :=
  for_each rv (fun kv =>
    let! (addr, seq_no) := lift (unpack2 (parse_state_key kv.1)) in
    let! amount := lift (decode_amount kv.2) in
    if bool_decide (amount = "") then ret tt
    else let! s := lift (int_of seq_no) in
         let! a := lift (int_of amount) in
         items_add Output_less_than (mkOutput addr s (Some a))).

Definition update_result (result : list (string * result_value P)) (op : dict)
    : list (string * result_value P) :=
  aupdate result ((fun kv => (kv.1, RJson kv.2)) <$> op).

Definition get_result (state : T) (req : raw_request) : res (list (string * result_value P)) :=
  let? address := get_item ADDRESS (raw_operation req) in
  let from_seqno := get_default_none FROM_SEQNO (raw_operation req) in
  let encoded_root_hash := root_of state in
  let? (proof, rv) := proof_for_prefix state address in
  let proof := match bls_get encoded_root_hash with
               | Some multi_sig => Some (proof_dict multi_sig encoded_root_hash proof)
               | None => None
               end in
  match collect_outputs rv [] with
  | (Raise e, _) => Raise e
  | (Ok tt, outputs) =>
      let? utxos := (sorted_list Output_less_than outputs).1 in
      let? (utxos, next_seqno) := select_page from_seqno utxos in
      let result := [(IDENTIFIER, RId (raw_identifier req)); (REQ_ID, RReqId (raw_reqId req));
                     (OUTPUTS, ROutputs utxos)] in
      let result := update_result result (raw_operation req) in
      let result := match next_seqno with
                    | Some n => if (n =? 0)%Z then result else aset NEXT_SEQNO (RSeqNo n) result
                    | None => result
                    end in
      match proof with
      | Some p =>
          let res_sub := aset STATE_PROOF (RProof p) result in
          Ok (if (dumps_len res_sub <=? msg_limit)%Z then res_sub else result)
      | None => Ok result
      end
  end.
End GetUtxoHandler.

(** ** Lemmas *)

Definition seqNo_lt (x y : Output) : Prop := (out_seqNo x < out_seqNo y)%Z.

(** The first page of a list of outputs. *)
Definition page (utxos : list Output) : list Output * option Z :=
  if (UTXO_LIMIT <? length utxos)%nat
  then (take UTXO_LIMIT utxos, out_seqNo <$> utxos !! UTXO_LIMIT) else (utxos, None).

Lemma find_from_spec n l1 o l2 idx :
  Forall (fun x => out_seqNo x < n)%Z l1 -> (n <= out_seqNo o)%Z ->
  find_from (JInt n) (l1 ++ o :: l2) idx = Ok (Some (length l1 + idx)%nat).
Proof.
  intros Hl Ho. revert idx. induction Hl as [|x l1 Hx _ IH]; intros idx; cbn [app find_from int_ge res_bind].
  - by rewrite (proj2 (Z.leb_le _ _) Ho).
  - rewrite (proj2 (Z.leb_gt _ _) Hx). rewrite IH. do 2 f_equal. simpl. lia.
Qed.

Lemma find_from_none n l idx :
  Forall (fun x => out_seqNo x < n)%Z l -> find_from (JInt n) l idx = Ok None.
Proof.
  intros Hl. revert idx. induction Hl as [|x l Hx _ IH]; intros idx; [done|].
  cbn [find_from int_ge res_bind]. rewrite (proj2 (Z.leb_gt _ _) Hx). apply IH.
Qed.

Lemma json_truthy_int n : n <> 0%Z -> json_truthy (JInt n) = true.
Proof. intros Hn. simpl. by rewrite (proj2 (Z.eqb_neq _ _) Hn). Qed.

Lemma select_page_falsy v utxos : json_truthy v = false -> select_page v utxos = Ok (page utxos).
Proof. intros Hv. unfold select_page, page. rewrite Hv. cbn [res_bind]. by destruct (_ <? _)%nat. Qed.

(** A page is found when something precedes it. *)
Lemma select_page_at n l1 o l2 :
  n <> 0%Z -> l1 <> [] -> Forall (fun x => out_seqNo x < n)%Z l1 -> (n <= out_seqNo o)%Z ->
  select_page (JInt n) (l1 ++ o :: l2) = Ok (page (o :: l2)).
Proof.
  intros Hn Hne Hl Ho. unfold select_page, page. rewrite json_truthy_int by done.
  rewrite (find_from_spec n l1 o l2 0 Hl Ho). cbn [res_bind]. rewrite Nat.add_0_r.
  assert (drop (length l1) (l1 ++ o :: l2) = o :: l2) as Hd by (by rewrite drop_app_length).
  destruct (length l1) as [|i] eqn:E; [by destruct l1|]. cbn [res_bind]. rewrite Hd. by destruct (_ <? _)%nat.
Qed.

Lemma select_page_first n utxos :
  n <> 0%Z -> Forall (fun x => n <= out_seqNo x)%Z utxos -> select_page (JInt n) utxos = Ok ([], None).
Proof.
  intros Hn Hall. unfold select_page. rewrite json_truthy_int by done.
  destruct Hall as [|o l Ho _]; [done|]. cbn [find_from int_ge res_bind].
  by rewrite (proj2 (Z.leb_le _ _) Ho).
Qed.

Lemma select_page_past n utxos :
  n <> 0%Z -> Forall (fun x => out_seqNo x < n)%Z utxos -> select_page (JInt n) utxos = Ok ([], None).
Proof.
  intros Hn Hall. unfold select_page. rewrite json_truthy_int by done. by rewrite find_from_none.
Qed.

(** A list sorted by sequence number, cut at [n]. *)
Lemma sorted_cut n (utxos : list Output) :
  StronglySorted seqNo_le utxos ->
  exists l1 l2, utxos = l1 ++ l2 /\ Forall (fun x => out_seqNo x < n)%Z l1 /\
                Forall (fun x => n <= out_seqNo x)%Z l2.
Proof.
  induction 1 as [|x l _ (l1 & l2 & -> & H1 & H2) Hx]; [by exists [], []|].
  destruct (decide (out_seqNo x < n)%Z) as [Hlt|Hge].
  - exists (x :: l1), l2. split_and!; [done|by constructor|done].
  - exists [], (x :: l1 ++ l2). split_and!; [done|constructor|]. constructor; [lia|].
    eapply Forall_impl; [exact Hx|]. unfold seqNo_le. intros; lia.
Qed.

(** The client that asks for page after page. *)
Fixpoint fetch_all (fuel : nat) (from_seqno : json) (utxos : list Output) : option (res (list Output)) :=
  match fuel with
  | O => None
  | S fuel =>
      match select_page from_seqno utxos with
      | Raise e => Some (Raise e)
      | Ok (got, None) => Some (Ok got)
      | Ok (got, Some n) =>
          match fetch_all fuel (JInt n) utxos with
          | Some (Ok rest) => Some (Ok (got ++ rest))
          | r => r
          end
      end
  end.

Lemma page_split l :
  page l = (l, None) \/
  exists o l2, page l = (take UTXO_LIMIT l, Some (out_seqNo o)) /\
               l = take UTXO_LIMIT l ++ o :: l2 /\ length (take UTXO_LIMIT l) = UTXO_LIMIT.
Proof.
  unfold page. destruct (Nat.ltb_spec UTXO_LIMIT (length l)) as [Hlt|]; [right|by left].
  destruct (lookup_lt_is_Some_2 l _ Hlt) as [o Ho]. exists o, (drop (S UTXO_LIMIT) l).
  rewrite Ho. split_and!; [done|by rewrite take_drop_middle|]. rewrite length_take. lia.
Qed.

Lemma UTXO_LIMIT_pos : (0 < UTXO_LIMIT)%nat.
Proof. apply Nat.ltb_lt. by vm_compute. Qed.

Lemma fetch_from fuel l1 o l2 :
  StronglySorted seqNo_lt (l1 ++ o :: l2) -> l1 <> [] -> (0 < out_seqNo o)%Z ->
  (length (o :: l2) <= fuel)%nat ->
  fetch_all fuel (JInt (out_seqNo o)) (l1 ++ o :: l2) = Some (Ok (o :: l2)).
Proof.
  revert l1 o l2. induction fuel as [|fuel IH]; intros l1 o l2 Hs Hne Hpos Hlen; [simpl in Hlen; lia|].
  pose proof UTXO_LIMIT_pos as Hlim. cbn [fetch_all].
  pose proof (proj1 (StronglySorted_app _ _ _) Hs) as (Hcross & _ & Hs2).
  assert (Forall (fun x => out_seqNo x < out_seqNo o)%Z l1) as Hl1.
  { apply Forall_forall. intros x Hx. apply (Hcross x o Hx). by left. }
  rewrite (select_page_at _ l1 o l2) by (lia || done).
  destruct (page_split (o :: l2)) as [->|(o' & l3 & -> & Hl & Hlt)]; [done|].
  assert (l1 ++ o :: l2 = (l1 ++ take UTXO_LIMIT (o :: l2)) ++ o' :: l3) as Heq
    by (rewrite <- app_assoc; by f_equal).
  assert (seqNo_lt o o') as Hoo.
  { rewrite Hl in Hs2. destruct UTXO_LIMIT as [|k]; [lia|]. simpl in Hs2.
    apply StronglySorted_inv in Hs2 as [_ Hall]. rewrite Forall_forall in Hall. apply Hall. set_solver. }
  rewrite Heq, IH.
  - by rewrite <- Hl.
  - by rewrite <- Heq.
  - by destruct l1.
  - unfold seqNo_lt in Hoo. lia.
  - apply (f_equal length) in Hl. rewrite length_app, Hlt in Hl. lia.
Qed.

(** What a key-value dictionary of the state says: a live output for each key
    whose value decodes to an amount, nothing for a spent one. *)
Section Reply.
Context {T S P : Type} (proof_for_prefix : T -> json -> res (P * list (string * string))).
Context (rlp_decode : string -> res (list string)) (root_of : T -> string).
Context (bls_get : string -> option S) (proof_dict : S -> string -> P -> P).
Context (dumps_len : list (string * result_value P) -> Z) (msg_limit : Z).

Inductive rv_shows : list (string * string) -> list Output -> Prop :=
  | rv_nil : rv_shows [] []
  | rv_live a s n v rest rv l :
      has_char ":" a = false -> rlp_decode v = Ok (py_str n :: rest) -> rv_shows rv l ->
      rv_shows ((create_state_key a s, v) :: rv) (mkOutput a s (Some n) :: l)
  | rv_spent a s v rest rv l :
      has_char ":" a = false -> rlp_decode v = Ok ("" :: rest) -> rv_shows rv l ->
      rv_shows ((create_state_key a s, v) :: rv) l.

Lemma unpack_state_key a s :
  has_char ":" a = false -> unpack2 (parse_state_key (create_state_key a s)) = Ok (a, py_str s).
Proof. intros Ha. by rewrite split_state_key, py_split_no_char. Qed.

Lemma collect_outputs_spec rv l h :
  rv_shows rv l -> collect_outputs rlp_decode rv h = for_each l (items_add Output_less_than) h.
Proof.
  intros Hrv. revert h. induction Hrv as [|a s n v rest rv l Ha Hd _ IH|a s v rest rv l Ha Hd _ IH];
    intros h; [done| |]; unfold collect_outputs in *; cbn [for_each fst snd];
    rewrite unpack_state_key by done; unfold decode_amount; rewrite Hd; reduce_monad.
  - rewrite bool_decide_false by apply py_str_nonempty. rewrite !int_of_py_str.
    unfold items_add, modify. apply IH.
  - rewrite bool_decide_true by done. apply IH.
Qed.

Lemma alookup_update_result (result : list (string * result_value P)) (op : dict) k :
  NoDup op.*1 ->
  alookup k (update_result result op) =
    match alookup k op with Some v => Some (RJson v) | None => alookup k result end.
Proof.
  intros Hnd. unfold update_result.
  assert (((fun kv : string * json => (kv.1, RJson kv.2)) <$> op : list (string * result_value P)).*1 = op.*1) as Hk.
  { rewrite <- list_fmap_compose. done. }
  rewrite alookup_aupdate, alookup_reverse_NoDup by (by rewrite Hk). clear.
  assert (alookup k ((fun kv : string * json => (kv.1, RJson (P:=P) kv.2)) <$> op) = RJson <$> alookup k op) as ->.
  { induction op as [|[k' v] op IH]; simpl; [done|]. by case_decide. }
  by destruct (alookup k op).
Qed.

Definition has_proof state : bool := match bls_get (root_of state) with Some _ => true | None => false end.
End Reply.

(** The reply of [get_result] to any request for an address, given what the query
    of the state finds for it. *)
Lemma get_result_core {T S P : Type} proof_for_prefix rlp_decode (root_of : T -> string)
    (bls_get : string -> option S) (proof_dict : S -> string -> P -> P) dumps_len msg_limit
    state address p rv l :
  proof_for_prefix state address = Ok (p, rv) -> rv_shows rlp_decode rv l ->
  exists utxos, utxos ≡ₚ l /\ StronglySorted seqNo_le utxos /\
    forall req, let op := raw_operation req in
    alookup ADDRESS op = Some address ->
    NoDup op.*1 -> OUTPUTS ∉ op.*1 -> NEXT_SEQNO ∉ op.*1 -> STATE_PROOF ∉ op.*1 ->
    match select_page (get_default_none FROM_SEQNO op) utxos,
          get_result proof_for_prefix rlp_decode root_of bls_get proof_dict dumps_len msg_limit state req with
    | Raise e, r => r = Raise e
    | Ok (got, next), r =>
        exists result, r = Ok result /\
          alookup OUTPUTS result = Some (ROutputs got) /\
          (forall k v, alookup k op = Some v -> alookup k result = Some (RJson v)) /\
          alookup NEXT_SEQNO result =
            match next with Some n => if (n =? 0)%Z then None else Some (RSeqNo n) | None => None end /\
          (alookup STATE_PROOF result <> None -> has_proof root_of bls_get state = true /\
                                                 (dumps_len result <= msg_limit)%Z)
    end.
Proof.
  intros Hp Hrv. destruct (sorted_outputs_spec l) as (h & utxos & Hadd & Hsorted & Hperm & Hsort).
  exists utxos. split_and!; [done..|]. intros req op Ha Hnd Ho Hn Hs. unfold get_result, get_item. fold op. rewrite Ha. cbn [dict_item res_bind].
  rewrite Hp. cbn [res_bind]. rewrite (collect_outputs_spec _ _ l) by done. rewrite Hadd, Hsorted. cbn [fst res_bind].
  destruct (select_page _ utxos) as [[got next]|e]; cbn [res_bind]; [|done].
  set (r0 := update_result _ op).
  assert (forall k, alookup k r0 = match alookup k op with Some v => Some (RJson v) | None =>
    alookup k [(IDENTIFIER, RId (raw_identifier req)); (REQ_ID, RReqId (raw_reqId req)); (OUTPUTS, ROutputs got)] end) as Hr0
    by (intros; by apply alookup_update_result).
  set (r1 := match next with Some n => if (n =? 0)%Z then r0 else aset NEXT_SEQNO (RSeqNo n) r0 | None => r0 end).
  assert (forall k, k <> NEXT_SEQNO -> alookup k r1 = alookup k r0) as Hr1.
  { intros k Hk. unfold r1. repeat case_match; rewrite ?alookup_aset_ne by done; done. }
  apply alookup_None in Ho, Hn, Hs.
  assert (alookup NEXT_SEQNO r1 = match next with
    | Some n => if (n =? 0)%Z then None else Some (RSeqNo n) | None => None end) as Hnext.
  { unfold r1. repeat case_match; rewrite ?alookup_aset_eq, ?Hr0, ?Hn by done; done. }
  assert (forall k v, alookup k op = Some v -> alookup k r1 = Some (RJson v)) as Hop.
  { intros k v Hk. rewrite Hr1, Hr0, Hk by congruence. done. }
  clearbody r1.
  destruct (bls_get (root_of state)) as [sig|] eqn:Hbls; [destruct (dumps_len _ <=? msg_limit)%Z eqn:Hlen|]; eexists; (split; [done|]).
  - rewrite !alookup_aset_ne by done. split_and!; [by rewrite Hr1, Hr0, Ho| |done|].
    + intros k v Hk. rewrite alookup_aset_ne by congruence. by apply Hop.
    + intros _. unfold has_proof. rewrite Hbls. split; [done|]. by apply Z.leb_le.
  - split_and!; [by rewrite Hr1, Hr0, Ho|done|done|]. rewrite Hr1, Hr0, Hs by done. done.
  - split_and!; [by rewrite Hr1, Hr0, Ho|done|done|]. rewrite Hr1, Hr0, Hs by done. done.
Qed.

(** Following the pages of a sorted list gives the list. *)
Lemma pagination_core (utxos : list Output) :
  StronglySorted seqNo_lt utxos -> Forall (fun o => 0 <= out_seqNo o)%Z utxos ->
  fetch_all (S (length utxos)) JNull utxos = Some (Ok utxos).
Proof.
  intros Hs Hpos. pose proof UTXO_LIMIT_pos as Hlim. cbn [fetch_all]. rewrite select_page_falsy by done.
  destruct (page_split utxos) as [->|(o & l2 & -> & Hl & Hlt)]; [done|].
  set (l1 := take UTXO_LIMIT utxos) in *. clearbody l1. subst utxos.
  destruct l1 as [|x l1]; [simpl in Hlt; lia|].
  rewrite fetch_from; [done|done|done| |].
  - apply StronglySorted_app in Hs as (Hcross & _ & _).
    specialize (Hcross x o ltac:(by left) ltac:(by left)).
    apply Forall_cons in Hpos as [Hx _]. unfold seqNo_lt in Hcross. lia.
  - rewrite length_app. simpl. lia.
Qed.

(** ** Properties of a page *)

(** C33: a client that starts without [from] and follows [next] gets every
    unspent output of the sorted list, once and in order, after finitely many
    requests. *)
Theorem pagination_complete (utxos : list Output) :
  StronglySorted seqNo_lt utxos -> Forall (fun o => 0 <= out_seqNo o)%Z utxos ->
  fetch_all (S (length utxos)) JNull utxos = Some (Ok utxos).
Proof. apply pagination_core. Qed.

(** C34: what [from] selects from a sorted list, for every integer other than 0:
    the outputs numbered from there on, cut to the limit, except that the reply
    is empty when they are all of the list. *)
Theorem select_page_from (utxos : list Output) n :
  StronglySorted seqNo_le utxos -> n <> 0%Z ->
  select_page (JInt n) utxos =
    Ok (if forallb (fun o => n <=? out_seqNo o)%Z utxos then ([], None)
        else page (filter (fun o => n <= out_seqNo o)%Z utxos)).
Proof.
  intros Hs Hn. destruct (sorted_cut n utxos Hs) as (l1 & l2 & -> & H1 & H2).
  rewrite filter_app, forallb_app.
  assert (filter (fun o => n <= out_seqNo o)%Z l1 = []) as ->.
  { clear -H1. induction H1 as [|x l Hx _ IH]; [done|]. rewrite filter_cons_False; [done|lia]. }
  assert (filter (fun o => n <= out_seqNo o)%Z l2 = l2) as Hf.
  { clear -H2. induction H2 as [|x l Hx _ IH]; [done|]. by rewrite filter_cons_True, IH. }
  rewrite Hf. destruct l1 as [|x l1].
  - cbn [forallb andb app]. rewrite (proj2 (forallb_forall _ l2)); [by apply select_page_first|]. intros x Hx.
    apply Z.leb_le. rewrite Forall_forall in H2. apply H2. by apply list_elem_of_In.
  - cbn [forallb]. rewrite (proj2 (Z.leb_gt _ _)) by (by apply Forall_cons in H1 as [? _]). cbn [andb].
    destruct l2 as [|o l2].
    + rewrite app_nil_r. rewrite select_page_past by done. unfold page. by rewrite (proj2 (Nat.ltb_ge _ _)) by (simpl; lia).
    + apply Forall_cons in H2 as [Ho _]. by rewrite select_page_at.
Qed.

(** An address whose unspent outputs all match [from] gets an empty reply:
    the index 0 of the first output is taken for a missing index. *)
Theorem select_page_loses_first (utxos : list Output) n :
  n <> 0%Z -> (forall o, o ∈ utxos -> n <= out_seqNo o)%Z ->
  select_page (JInt n) utxos = Ok ([], None).
Proof. intros Hn Hall. apply select_page_first; [done|]. by apply Forall_forall. Qed.

(** The reply of [get_result] for a state that shows the outputs [l]: the
    page selected by [from] from the sorted outputs, the number to continue
    from, and the entries of the operation; a comparison that fails makes the
    request fail, and the state proof only adds an entry, when there is a
    multi-signature and the reply stays within the message limit. *)
Theorem get_result_reply {T S P : Type} proof_for_prefix rlp_decode (root_of : T -> string)
    (bls_get : string -> option S) (proof_dict : S -> string -> P -> P) dumps_len msg_limit
    state req address p rv l :
  let op := raw_operation req in
  alookup ADDRESS op = Some address ->
  proof_for_prefix state address = Ok (p, rv) -> rv_shows rlp_decode rv l ->
  NoDup op.*1 -> OUTPUTS ∉ op.*1 -> NEXT_SEQNO ∉ op.*1 -> STATE_PROOF ∉ op.*1 ->
  exists utxos, utxos ≡ₚ l /\ StronglySorted seqNo_le utxos /\
    match select_page (get_default_none FROM_SEQNO op) utxos,
          get_result proof_for_prefix rlp_decode root_of bls_get proof_dict dumps_len msg_limit state req with
    | Raise e, r => r = Raise e
    | Ok (got, next), r =>
        exists result, r = Ok result /\
          alookup OUTPUTS result = Some (ROutputs got) /\
          (forall k v, alookup k op = Some v -> alookup k result = Some (RJson v)) /\
          alookup NEXT_SEQNO result =
            match next with Some n => if (n =? 0)%Z then None else Some (RSeqNo n) | None => None end /\
          (alookup STATE_PROOF result <> None -> has_proof root_of bls_get state = true /\
                                                 (dumps_len result <= msg_limit)%Z)
    end.
Proof.
  intros op Ha Hp Hrv Hnd Ho Hn Hs.
  destruct (get_result_core proof_for_prefix rlp_decode root_of bls_get proof_dict dumps_len msg_limit state address p rv l)
    as (utxos & Hperm & Hsort & Hreply); [done..|].
  exists utxos. split_and!; [done..|]. by apply (Hreply req).
Qed.

(** ** Witnesses *)

Module Ex.
Definition utxos : list Output := [mkOutput "alice" 1 (Some 10%Z); mkOutput "alice" 3 (Some 5%Z)].
Definition rv : list (string * string) :=
  [(create_state_key "alice" 3, "5"); (create_state_key "alice" 2, ""); (create_state_key "alice" 1, "10")].
Definition decode (v : string) : res (list string) := Ok [v].
Definition query (state : unit) (address : json) : res (unit * list (string * string)) := Ok (tt, rv).
Definition req (from_seqno : Z) : raw_request :=
  mkRawRequest (Some "did") (Some 1%Z)
    [("type", JStr GET_UTXO); (ADDRESS, JStr "alice"); (FROM_SEQNO, JInt from_seqno)].

Lemma rv_ok : rv_shows decode rv [mkOutput "alice" 3 (Some 5%Z); mkOutput "alice" 1 (Some 10%Z)].
Proof.
  apply (rv_live _ "alice" 3 5 "5" []); [done..|]. apply (rv_spent _ "alice" 2 "" []); [done..|].
  apply (rv_live _ "alice" 1 10 "10" []); [done..|]. constructor.
Qed.
End Ex.

Lemma get_result_reply_witness :
  exists utxos, utxos ≡ₚ [mkOutput "alice" 3 (Some 5%Z); mkOutput "alice" 1 (Some 10%Z)] /\
    StronglySorted seqNo_le utxos /\
    match select_page (JInt 2) utxos,
          get_result Ex.query Ex.decode (fun _ => "root") (fun _ => Some tt) (fun _ _ p => p) (fun _ => 50%Z) 100
                     tt (Ex.req 2) with
    | Raise e, r => r = Raise e
    | Ok (got, next), r =>
        exists result, r = Ok result /\
          alookup OUTPUTS result = Some (ROutputs got) /\
          (forall k v, alookup k (raw_operation (Ex.req 2)) = Some v -> alookup k result = Some (RJson v)) /\
          alookup NEXT_SEQNO result =
            match next with Some n => if (n =? 0)%Z then None else Some (RSeqNo n) | None => None end /\
          (alookup STATE_PROOF result <> None ->
             has_proof (S:=unit) (fun _ : unit => "root") (fun _ => Some tt) tt = true /\ (50 <= 100)%Z)
    end.
Proof.
  apply (get_result_reply Ex.query Ex.decode (fun _ => "root") (fun _ => Some tt) (fun _ _ p => p)
           (fun _ => 50%Z) 100 tt (Ex.req 2) (JStr "alice") tt Ex.rv _ eq_refl eq_refl Ex.rv_ok);
    by apply (bool_decide_unpack _).
Defined.

Lemma pagination_complete_witness : fetch_all 3 JNull Ex.utxos = Some (Ok Ex.utxos).
Proof. apply (pagination_complete Ex.utxos); repeat constructor; simpl; done. Defined.

Lemma select_page_from_witness :
  select_page (JInt 2) Ex.utxos = Ok ([mkOutput "alice" 3 (Some 5%Z)], None).
Proof. rewrite (select_page_from Ex.utxos 2); [reflexivity|repeat constructor; done|done]. Defined.

Lemma select_page_loses_first_witness : select_page (JInt 1) Ex.utxos = Ok ([], None).
Proof.
  apply (select_page_loses_first Ex.utxos 1); [done|]. apply Forall_forall. repeat constructor; done.
Defined.
