(* ===== verification/FeesState.v ===== *)
(** * Fees in the config state

    [sovtokenfees/domain.py], [FeesStaticHelper.get_fee_from_state]
    ([req_handlers/fees_utils.py]), [SetFeesHandler], [SetFeesHandler093],
    [GetFeeHandler], [GetFeesHandler].  The config state keeps the fee of each
    alias under ["200:alias"] and the table of all fees under ["200:fees"].
    The serializer of the state, the state proofs and the BLS store are
    plenum's: parameters.  Theorems: setting fees merges the table and the
    aliases consistently, both read paths see the table, and two keys that the
    code confuses. *)

From S2P Require Import Prelude Exceptions PyStr TokenTypes Stores Json GetUtxo.

Open Scope stdpp_scope.

(** [domain.build_path_for_set_fees]; [alias] is [None], a key of the [SET_FEES]
    dictionary, or what a [GET_FEE] request has. *)
Definition build_path_for_set_fees (alias : json) : res string :=
  if json_truthy alias then
    match alias with
    | JStr a => Ok (py_join ":" [FEES_STATE_PREFIX; a])
    | _ => Raise (TypeError (Msg "sequence item 1: expected str instance" []))
    end
  else Ok (py_join ":" [FEES_STATE_PREFIX; FEES_KEY_FOR_ALL]).

(** ** The serializer of the config state

    What the plugins rely on: an integer and a table of integers survive, up to
    the order of the keys, and no serialized value is empty. *)
Class Serializer := {
  serialize : json -> string;
  deserialize : string -> res json;
}.

Definition is_jint (v : json) : Prop := match v with JInt _ => True | _ => False end.

Definition dict_equiv (d d' : dict) : Prop := forall k, alookup k d = alookup k d'.

Class SerializerLaws `{Serializer} : Prop := {
  serialize_nonempty v : serialize v <> "";
  deserialize_int z : deserialize (serialize (JInt z)) = Ok (JInt z);
  deserialize_table d :
    NoDup d.*1 -> Forall (fun kv => is_jint kv.2) d ->
    exists d', deserialize (serialize (JObj d)) = Ok (JObj d') /\ NoDup d'.*1 /\
               Forall (fun kv => is_jint kv.2) d' /\ dict_equiv d' d;
}.

Section FeesState.
Context {T : Type} `{StateStore T} `{Serializer}.

(** ** [get_fee_from_state] without a proof *)

Definition get_fee_from_state (state : T) (fees_alias : json) (is_committed : bool) : res json :=
  res_catch
    (let? fees_key := build_path_for_set_fees fees_alias in
     match st_get state is_committed fees_key with
     | None | Some "" => Ok JNull
     | Some serz => deserialize serz
     end)
    (fun e => if is_KeyError e then Some (Ok JNull) else None).

(** ** [get_fee_from_state] with a proof

    The local variables [fees] and [proof] keep what they were given when a
    [KeyError] is swallowed. *)
Section WithProof.
Context {P S : Type}.
Context (generate_state_proof : T -> string -> string -> res (P * option string)).
Context (get_decoded : string -> res string) (serialize_root : string -> string).
Context (bls_get : string -> option S) (proof_dict : S -> string -> P -> P).

Inductive proof_value := ProofNone | ProofRaw (p : P) | ProofMade (p : P) | ProofEmpty.

Definition get_fee_with_proof (state : T) (fees_alias : json) (is_committed : bool)
    : res (json * proof_value) :=
  let body : M (json * proof_value) unit :=
    let! fees_key := lift (build_path_for_set_fees fees_alias) in
    let root_hash := if is_committed then st_committedHeadHash state else st_headHash state in
    let! (proof, serz) := lift (generate_state_proof state fees_key root_hash) in
    modify (fun l => (l.1, ProofRaw proof)) ;;;
    let! serz := lift (match serz with
                       | None | Some "" => Ok None
                       | Some s => let? s' := get_decoded s in Ok (Some s') end) in
    let encoded_root_hash := serialize_root root_hash in
    modify (fun l => (l.1, match bls_get encoded_root_hash with
                           | Some multi_sig => ProofMade (proof_dict multi_sig encoded_root_hash proof)
                           | None => ProofEmpty end)) ;;;
    match serz with
    | None | Some "" => ret tt
    | Some s => let! fees := lift (deserialize s) in modify (fun l => (fees, l.2))
    end in
  match body (JNull, ProofNone) with
  | (Ok tt, locals) => Ok locals
  | (Raise e, locals) => if is_KeyError e then Ok locals else Raise e
  end.

(** [if proof:]; [raw_truthy] is the truth value of serialized proof nodes. *)
Definition proof_entry (raw_truthy : P -> bool) (proof : proof_value) : option P :=
  match proof with
  | ProofMade p => Some p
  | ProofRaw p => if raw_truthy p then Some p else None
  | ProofNone | ProofEmpty => None
  end.

(** ** GetFeeHandler and GetFeesHandler *)

Definition ALIAS : string := "alias".

(** The shared end of the two [get_result]s. *)
Definition fee_result (raw_truthy : P -> bool) (req : raw_request) (entry : string) (fees : json)
    (proof : proof_value) : list (string * result_value P) :=
  let result := [(IDENTIFIER, RId (raw_identifier req)); (REQ_ID, RReqId (raw_reqId req)); (entry, RJson fees)] in
  let result := match proof_entry raw_truthy proof with
                | Some p => aset STATE_PROOF (RProof p) result
                | None => result
                end in
  update_result result (raw_operation req).

Definition get_fee_get_result (raw_truthy : P -> bool) (state : T) (req : raw_request)
    : res (list (string * result_value P)) :=
  let alias := get_default_none ALIAS (raw_operation req) in
  let? (fee, proof) := get_fee_with_proof state alias true in
  Ok (fee_result raw_truthy req FEE fee proof).

Definition get_fees_with_proof (state : T) (is_committed : bool) : res (json * proof_value) :=
  let? (fees, proof) := get_fee_with_proof state JNull is_committed in
  Ok (match fees with JNull => JObj [] | _ => fees end, proof).

Definition get_fees_get_result (raw_truthy : P -> bool) (state : T) (req : raw_request)
    : res (list (string * result_value P)) :=
  let? (fees, proof) := get_fees_with_proof state true in
  Ok (fee_result raw_truthy req FEES fees proof).
End WithProof.

(** [GetFeesHandler.get_fees] without a proof *)
Definition get_fees (state : T) (is_committed : bool) : res json :=
  let? result := get_fee_from_state state JNull is_committed in
  Ok (match result with JNull => JObj [] | _ => result end).

(** ** SetFeesHandler *)

Definition set_to_state (key : string) (val : json) : M T unit :=
  modify (fun t => st_set t key (serialize val)).

(** [current_fees if current_fees else {}], which must then be a [dict]. *)
Definition current_table (current_fees : json) : res dict :=
  if json_truthy current_fees then
    match current_fees with
    | JObj d => Ok d
    | _ => Raise (AttributeError (Msg "object has no attribute 'update'" []))
    end
  else Ok [].

(** [current_fees.update(fees_from_req)] *)
Definition update_table (current_fees : dict) (fees_from_req : json) : res (dict * dict) :=
  match fees_from_req with
  | JObj d => Ok (aupdate current_fees d, d)
  | _ => Raise (TypeError (Msg "object is not iterable" []))
  end.

(** [for fees_alias, fees_value in fees_from_req.items(): ...] *)
Definition set_aliases (d : dict) : M T unit :=
  for_each d (fun kv =>
    let! path := lift (build_path_for_set_fees (JStr kv.1)) in set_to_state path kv.2).

Definition set_fees_update_state (payload : dict) : M T unit :=
  let fees_from_req := get_default_none FEES payload in
  let! state := get in
  let! current_fees := lift (get_fee_from_state state JNull false) in
  let! current_fees := lift (current_table current_fees) in
  let! (current_fees, fees_from_req) := lift (update_table current_fees fees_from_req) in
  set_aliases fees_from_req ;;;
  let! path := lift (build_path_for_set_fees JNull) in
  set_to_state path (JObj current_fees).

(** [SetFeesHandler093.fees_state_key] *)
Definition fees_state_key : string := "fees".

Definition set_fees_093_update_state (payload : dict) : M T unit :=
  let fees_from_req := get_default_none FEES payload in
  let! state := get in
  let! current_fees := lift (get_fee_from_state state JNull false) in
  let! current_fees := lift (current_table current_fees) in
  let! (current_fees, _) := lift (update_table current_fees fees_from_req) in
  set_to_state fees_state_key (JObj current_fees).
End FeesState.
Arguments proof_value : clear implicits.

(** ** Lemmas *)

Definition fees_dict (f : list (string * Z)) : dict := (fun kv => (kv.1, JInt kv.2)) <$> f.

Definition path_of (alias : string) : string := "200:" +:+ alias.

Lemma build_path_alias a : a <> "" -> build_path_for_set_fees (JStr a) = Ok (path_of a).
Proof. intros Ha. unfold build_path_for_set_fees. simpl. by rewrite bool_decide_false. Qed.

Lemma build_path_table : build_path_for_set_fees JNull = Ok (path_of "fees").
Proof. reflexivity. Qed.

#[export] Instance path_of_inj : Inj (=) (=) path_of.
Proof. intros a b Hab. by repeat (injection Hab as Hab). Qed.

Lemma fees_dict_keys f : (fees_dict f).*1 = f.*1.
Proof. unfold fees_dict. rewrite <- list_fmap_compose. done. Qed.

Lemma fees_dict_ints f : Forall (fun kv => is_jint kv.2) (fees_dict f).
Proof. unfold fees_dict. apply Forall_fmap, Forall_true. done. Qed.

Lemma alookup_fees_dict k f : alookup k (fees_dict f) = JInt <$> alookup k f.
Proof. induction f as [|[k' z] f IH]; simpl; [done|]. by case_decide. Qed.

Lemma aupdate_ints (d : dict) other :
  Forall (fun kv => is_jint kv.2) d -> Forall (fun kv => is_jint kv.2) other ->
  Forall (fun kv => is_jint kv.2) (aupdate d other).
Proof.
  intros Hd Ho. revert d Hd. induction Ho as [|[k v] other Hv _ IH]; intros d Hd; [done|].
  apply IH. by apply Forall_aset.
Qed.

(** What the state shows of the fees: the table lists [f], and every alias that
    can be told from the table's key has its fee, or none. *)
Definition stored_table {T} `{StateStore T} `{Serializer} (t : T) (d : dict) : Prop :=
  match st_get t false (path_of FEES_KEY_FOR_ALL) with
  | None | Some "" => d = []
  | Some serz => deserialize serz = Ok (JObj d)
  end.

Definition table_view {T} `{StateStore T} `{Serializer} (t : T) (f : string -> option Z) : Prop :=
  exists d, stored_table t d /\ NoDup d.*1 /\ Forall (fun kv => is_jint kv.2) d /\
    forall k, alookup k d = JInt <$> f k.

Definition alias_view {T} `{StateStore T} `{Serializer} (t : T) (f : string -> option Z) : Prop :=
  forall a, a <> "" -> a <> FEES_KEY_FOR_ALL ->
    get_fee_from_state t (JStr a) false = Ok match f a with Some n => JInt n | None => JNull end.

Definition fees_view {T} `{StateStore T} `{Serializer} (t : T) (f : string -> option Z) : Prop :=
  table_view t f /\ alias_view t f.

(** The abstract operation: the new fees override the old ones. *)
Definition merge_fees (f : string -> option Z) (new : list (string * Z)) (k : string) : option Z :=
  match alookup k new with Some n => Some n | None => f k end.

Section Lemmas.
Context {T : Type} `{StateStoreLaws T} `{SerializerLaws}.
Implicit Types (t : T) (f : string -> option Z).

Lemma get_fee_stored t a v :
  a <> "" -> st_get t false (path_of a) = Some (serialize v) ->
  get_fee_from_state t (JStr a) false =
    res_catch (deserialize (serialize v)) (fun e => if is_KeyError e then Some (Ok JNull) else None).
Proof.
  intros Ha Hg. unfold get_fee_from_state. rewrite build_path_alias by done. cbn [res_bind]. rewrite Hg.
  pose proof (serialize_nonempty v). by destruct (serialize v).
Qed.

Lemma get_table_stored t v :
  st_get t false (path_of "fees") = Some (serialize v) ->
  get_fee_from_state t JNull false =
    res_catch (deserialize (serialize v)) (fun e => if is_KeyError e then Some (Ok JNull) else None).
Proof.
  intros Hg. unfold get_fee_from_state. rewrite build_path_table. cbn [res_bind]. rewrite Hg.
  pose proof (serialize_nonempty v). by destruct (serialize v).
Qed.

Lemma stored_table_read t d :
  stored_table t d ->
  exists v, get_fee_from_state t JNull false = Ok v /\ current_table v = Ok d /\ (v = JObj d \/ v = JNull /\ d = []).
Proof.
  unfold stored_table, get_fee_from_state. rewrite build_path_table. cbn [res_bind].
  change (path_of FEES_KEY_FOR_ALL) with (path_of "fees").
  destruct (st_get t false (path_of "fees")) as [[|c s]|]; [intros ->; exists JNull; auto| |intros ->; exists JNull; auto].
  intros Hd. exists (JObj d). rewrite Hd. split_and!; [done|by destruct d|by left].
Qed.

Lemma get_fee_same t t' a :
  a <> "" -> st_get t' false (path_of a) = st_get t false (path_of a) ->
  get_fee_from_state t' (JStr a) false = get_fee_from_state t (JStr a) false.
Proof. intros Ha Hg. unfold get_fee_from_state. rewrite build_path_alias by done. cbn [res_bind]. by rewrite Hg. Qed.

Lemma get_table_same t t' :
  st_get t' false (path_of "fees") = st_get t false (path_of "fees") ->
  get_fee_from_state t' JNull false = get_fee_from_state t JNull false.
Proof. intros Hg. unfold get_fee_from_state. rewrite build_path_table. cbn [res_bind]. by rewrite Hg. Qed.

Lemma set_aliases_spec d t :
  NoDup d.*1 -> Forall (fun kv => kv.1 <> "") d ->
  exists t', set_aliases d t = (Ok tt, t') /\
    forall k, st_get t' false k =
      match alookup k ((fun kv => (path_of kv.1, serialize kv.2)) <$> d) with
      | Some s => Some s | None => st_get t false k end.
Proof.
  unfold set_aliases. revert t. induction d as [|[a v] d IH]; intros t; [by exists t|].
  intros [Hn Hnd]%NoDup_cons [Ha Hd]%Forall_cons. cbn [for_each fst snd] in *. reduce_monad.
  rewrite build_path_alias by done. unfold set_to_state, modify.
  destruct (IH (st_set t (path_of a) (serialize v)) Hnd Hd) as (t' & Hrun & Hget). exists t'. split; [exact Hrun|].
  intros k. rewrite Hget. simpl. case_decide as Hk.
  - subst k. rewrite st_get_set_eq.
    assert (alookup (path_of a) ((fun kv => (path_of kv.1, serialize kv.2)) <$> d) = None) as ->; [|done].
    apply alookup_None. rewrite <- list_fmap_compose. intros (kv & Hkv & Hin)%list_elem_of_fmap.
    apply (inj path_of) in Hkv. apply Hn. subst a. by apply list_elem_of_fmap_2.
  - by rewrite st_get_set_ne.
Qed.

Lemma alookup_paths d k :
  alookup (path_of k) ((fun kv : string * json => (path_of kv.1, serialize kv.2)) <$> d) = serialize <$> alookup k d.
Proof.
  induction d as [|[k' v] d IH]; simpl; [done|].
  destruct (decide (k' = k)) as [->|Hne]; [by rewrite decide_True|].
  by rewrite decide_False by (intros ?%(inj path_of); done).
Qed.

Lemma merge_table (d : dict) f new :
  NoDup new.*1 -> (forall k, alookup k d = JInt <$> f k) ->
  forall k, alookup k (aupdate d (fees_dict new)) = JInt <$> merge_fees f new k.
Proof.
  intros Hnd Hd k. rewrite alookup_aupdate, alookup_reverse_NoDup by (by rewrite fees_dict_keys).
  rewrite alookup_fees_dict. unfold merge_fees. by destruct (alookup k new); simpl.
Qed.

(** [set_fees_update_state] on a state that shows [f]: the stored values. *)
Lemma set_fees_run t f new payload :
  table_view t f -> alookup FEES payload = Some (JObj (fees_dict new)) ->
  NoDup new.*1 -> Forall (fun kv => kv.1 <> "") new ->
  exists t' d, set_fees_update_state payload t = (Ok tt, t') /\
    NoDup d.*1 /\ Forall (fun kv => is_jint kv.2) d /\
    (forall k, alookup k d = JInt <$> merge_fees f new k) /\
    st_get t' false (path_of "fees") = Some (serialize (JObj d)) /\
    (forall a n, a <> "fees" -> alookup a new = Some n ->
       st_get t' false (path_of a) = Some (serialize (JInt n))) /\
    (forall k, (forall a, a ∈ new.*1 \/ a = "fees" -> k <> path_of a) -> st_get t' false k = st_get t false k).
Proof.
  intros (d & (v & Hv & Hd & _)%stored_table_read & Hnd & Hints & Hlook) Hp Hnew Hne.
  destruct (set_aliases_spec (fees_dict new) t) as (t1 & Hrun & Hget).
  { by rewrite fees_dict_keys. }
  { unfold fees_dict. by apply Forall_fmap. }
  exists (st_set t1 (path_of "fees") (serialize (JObj (aupdate d (fees_dict new))))), (aupdate d (fees_dict new)).
  split_and!.
  - unfold set_fees_update_state, get_default_none. rewrite Hp. reduce_monad. cbn [default].
    rewrite Hv, Hd. cbn [update_table id]. by rewrite Hrun.
  - by apply aupdate_NoDup.
  - apply aupdate_ints; auto using fees_dict_ints.
  - by apply merge_table.
  - apply st_get_set_eq.
  - intros a n Ha Hn. rewrite st_get_set_ne by (intros Hc; apply Ha; by apply (inj path_of)).
    by rewrite Hget, alookup_paths, alookup_fees_dict, Hn.
  - intros k Hk. rewrite st_get_set_ne by (apply not_eq_sym, Hk; by right). rewrite Hget.
    assert (alookup k ((fun kv : string * json => (path_of kv.1, serialize kv.2)) <$> fees_dict new) = None) as ->; [|done].
    apply alookup_None. rewrite <- list_fmap_compose. intros (kv & -> & Hin)%list_elem_of_fmap.
    refine (Hk kv.1 _ eq_refl). left. rewrite <- fees_dict_keys. by apply list_elem_of_fmap_2.
Qed.

Lemma table_stored_view t d f :
  st_get t false (path_of "fees") = Some (serialize (JObj d)) -> NoDup d.*1 ->
  Forall (fun kv => is_jint kv.2) d -> (forall k, alookup k d = JInt <$> f k) ->
  exists d', get_fee_from_state t JNull false = Ok (JObj d') /\ stored_table t d' /\ NoDup d'.*1 /\
             Forall (fun kv => is_jint kv.2) d' /\ forall k, alookup k d' = JInt <$> f k.
Proof.
  intros Hg Hnd Hi Hl. destruct (deserialize_table d Hnd Hi) as (d' & Hd & Hnd' & Hi' & He).
  exists d'. rewrite (get_table_stored _ _ Hg), Hd. split_and!; [done| |done..|intros k; by rewrite He].
  unfold stored_table. change (path_of FEES_KEY_FOR_ALL) with (path_of "fees"). rewrite Hg.
  pose proof (serialize_nonempty (JObj d)). by destruct (serialize (JObj d)).
Qed.

Lemma set_fees_core t f new payload :
  fees_view t f -> alookup FEES payload = Some (JObj (fees_dict new)) ->
  NoDup new.*1 -> Forall (fun kv => kv.1 <> "") new ->
  exists t', set_fees_update_state payload t = (Ok tt, t') /\ fees_view t' (merge_fees f new) /\
    forall k, (forall a, k <> path_of a) -> st_get t' false k = st_get t false k.
Proof.
  intros [Ht Ha] Hp Hnd Hne.
  destruct (set_fees_run t f new payload Ht Hp Hnd Hne) as (t' & d & Hrun & Hd & Hi & Hl & Htab & Hal & Hfr).
  exists t'. split_and!; [done| |by intros k Hk; apply Hfr; auto]. split.
  - destruct (table_stored_view t' d _ Htab Hd Hi Hl) as (d' & _ & Hs' & Hnd' & Hi' & Hl').
    by exists d'.
  - intros a Hae Haf. unfold merge_fees. destruct (alookup a new) as [n|] eqn:E.
    + rewrite (get_fee_stored t' a (JInt n)) by auto. by rewrite deserialize_int.
    + rewrite (get_fee_same t t' a Hae); [by apply Ha|]. apply Hfr.
      intros b [Hb| ->] ?%(inj path_of); subst; [|done]. by apply alookup_None in E.
Qed.
End Lemmas.

(** ** Properties *)

Section Properties.
Context {T : Type} `{StateStoreLaws T} `{SerializerLaws}.

(** [SetFeesHandler.update_state] implements the merge of the new fees into
    the old ones: afterwards the table, and the entry of every alias that is not
    the name of the table itself, show the merged fees, and no other key of the
    config state has changed. *)
Theorem set_fees_merges (t : T) f new payload :
  fees_view t f -> alookup FEES payload = Some (JObj (fees_dict new)) ->
  NoDup new.*1 -> Forall (fun kv => kv.1 <> "") new ->
  exists t', set_fees_update_state payload t = (Ok tt, t') /\ fees_view t' (merge_fees f new) /\
    forall k, (forall a, k <> path_of a) -> st_get t' false k = st_get t false k.
Proof. apply set_fees_core. Qed.

(** A fee set for the alias ["fees"] is not readable under that alias: its
    key is the key of the table, which is written last, so reading the alias
    returns the whole table of fees. *)
Theorem set_fees_alias_collision (t : T) f new payload n :
  table_view t f -> alookup FEES payload = Some (JObj (fees_dict new)) ->
  NoDup new.*1 -> Forall (fun kv => kv.1 <> "") new -> alookup FEES_KEY_FOR_ALL new = Some n ->
  exists t' d, set_fees_update_state payload t = (Ok tt, t') /\
    get_fee_from_state t' (JStr FEES_KEY_FOR_ALL) false = Ok (JObj d) /\
    forall k, alookup k d = JInt <$> merge_fees f new k.
Proof.
  intros Ht Hp Hnd Hne Hn.
  destruct (set_fees_run t f new payload Ht Hp Hnd Hne) as (t' & d & Hrun & Hd & Hi & Hl & Htab & _).
  destruct (table_stored_view t' d _ Htab Hd Hi Hl) as (d' & Hg & _ & _ & _ & Hl').
  exists t', d'. split_and!; [done| |done]. rewrite <- Hg.
  rewrite (get_table_stored _ _ Htab). by apply get_fee_stored.
Qed.

(** [SetFeesHandler093] reads the table at one key and writes it at another:
    fees set by it stay invisible to [get_fees], and a second transaction stores
    what it would have stored alone, without the fees of the first one. *)
Theorem set_fees_093_forgets (t : T) f new1 new2 payload1 payload2 :
  table_view t f ->
  alookup FEES payload1 = Some (JObj (fees_dict new1)) ->
  alookup FEES payload2 = Some (JObj (fees_dict new2)) ->
  exists t1 t2, set_fees_093_update_state payload1 t = (Ok tt, t1) /\
    set_fees_093_update_state payload2 t1 = (Ok tt, t2) /\
    get_fees t1 false = get_fees t false /\ get_fees t2 false = get_fees t false /\
    st_get t2 false fees_state_key = st_get (set_fees_093_update_state payload2 t).2 false fees_state_key.
Proof.
  intros (d & (v & Hv & Hd & _)%stored_table_read & _) Hp1 Hp2.
  assert (forall t0 new payload, get_fee_from_state t0 JNull false = Ok v ->
    alookup FEES payload = Some (JObj (fees_dict new)) ->
    set_fees_093_update_state payload t0 =
      (Ok tt, st_set t0 fees_state_key (serialize (JObj (aupdate d (fees_dict new)))))) as Hrun.
  { intros t0 new payload Hv0 Hp. unfold set_fees_093_update_state, get_default_none. rewrite Hp.
    reduce_monad. cbn [default]. rewrite Hv0, Hd. done. }
  assert (forall t0 s, get_fee_from_state (st_set t0 fees_state_key s) JNull false =
                       get_fee_from_state t0 JNull false) as Hsame
    by (intros; apply get_table_same, st_get_set_ne; done).
  rewrite (Hrun t new2 payload2 Hv Hp2).
  eexists _, _. split; [by apply (Hrun t new1)|]. split; [apply (Hrun _ new2); [by rewrite Hsame|done]|].
  unfold get_fees. rewrite !Hsame. split_and!; [done..|]. cbn [snd]. by rewrite !st_get_set_eq.
Qed.
End Properties.

(** Reading a fee with a state proof gives the fee that reading without a
    proof gives (and fails when it fails), whenever the proof query returns the
    value stored under the key; the proof is the one of the signed root, or
    empty without a multi-signature. *)
Theorem get_fee_with_proof_agrees {T P S} `{StateStore T} `{Serializer}
    (gen : T -> string -> string -> res (P * option string)) get_decoded root_str
    (bls_get : string -> option S) proof_dict (t : T) alias key (c : bool) p raw :
  let root := if c then st_committedHeadHash t else st_headHash t in
  build_path_for_set_fees alias = Ok key ->
  gen t key root = Ok (p, raw) ->
  match raw with
  | None | Some "" => st_get t c key = None
  | Some r => exists s, get_decoded r = Ok s /\ st_get t c key = Some s
  end ->
  get_fee_with_proof gen get_decoded root_str bls_get proof_dict t alias c =
    (let? fees := get_fee_from_state t alias c in
     Ok (fees, match bls_get (root_str root) with
               | Some sig => ProofMade (proof_dict sig (root_str root) p)
               | None => ProofEmpty end)).
Proof.
  intros root Hk Hg Hraw. unfold get_fee_with_proof, get_fee_from_state. fold root. rewrite Hk.
  reduce_monad. rewrite Hg. unfold modify. cbn [fst snd].
  assert (forall m : json * proof_value P, (let? fees := res_catch (Ok JNull) (fun e : exn =>
    if is_KeyError e then Some (Ok JNull) else None) in Ok (fees, m.2)) = Ok (JNull, m.2)) as Hnull by done.
  destruct raw as [[|ch r]|]; [by rewrite Hraw| |by rewrite Hraw].
  destruct Hraw as (s & -> & ->). destruct s as [|c0 s]; [done|].
  destruct (deserialize (String c0 s)) as [v|e]; cbn [res_catch]; [done|].
  by destruct (is_KeyError e).
Qed.

(** ** Witnesses *)

(** A serializer: JSON text restricted to integers and tables of integers. *)
Module ExSerializer.
(** Fields are separated by [";"]; [";"] and ["%"] are escaped in keys. *)
Fixpoint esc (s : string) : string :=
  match s with
  | EmptyString => EmptyString
  | String c s => if decide (c = ";"%char) then String "%" (String "s" (esc s))
                  else if decide (c = "%"%char) then String "%" (String "p" (esc s))
                  else String c (esc s)
  end.

Fixpoint unesc (s : string) : string :=
  match s with
  | EmptyString => EmptyString
  | String c s' => if decide (c = "%"%char)
                   then match s' with
                        | String d s'' => String (if decide (d = "s"%char) then ";"%char else "%"%char) (unesc s'')
                        | EmptyString => EmptyString
                        end
                   else String c (unesc s')
  end.

Lemma unesc_esc s : unesc (esc s) = s.
Proof.
  induction s as [|c s IH]; simpl; [done|]. repeat case_decide; subst; simpl; rewrite ?IH; try done.
  by rewrite decide_False.
Qed.

Lemma esc_no_sep s : has_char ";" (esc s) = false.
Proof.
  induction s as [|c s IH]; simpl; [done|].
  destruct (decide (c = ";"%char)) as [->|Hc]; [done|].
  destruct (decide (c = "%"%char)) as [->|Hp]; [done|]. simpl. by rewrite bool_decide_false.
Qed.

Definition fields (d : dict) : list string :=
  flat_map (fun kv : string * json => [esc kv.1; match kv.2 with JInt z => py_str z | _ => "" end]) d.

Definition ser (v : json) : string :=
  match v with
  | JInt z => "i" +:+ py_str z
  | JObj d => "o" +:+ py_join ";" ("" :: fields d)
  | _ => "n"
  end.

Fixpoint table (l : list string) : res dict :=
  match l with
  | [] => Ok []
  | k :: v :: l =>
      match py_int v with
      | Some z => let? d := table l in Ok ((unesc k, JInt z) :: d)
      | None => Raise (ValueError (Msg "not a table" []))
      end
  | _ => Raise (ValueError (Msg "not a table" []))
  end.

Definition deser (s : string) : res json :=
  match s with
  | String "i" s => match py_int s with Some z => Ok (JInt z) | None => Raise (ValueError (Msg "not an int" [])) end
  | String "o" s => let? d := table (tail (py_split ";" s)) in Ok (JObj d)
  | _ => Raise (ValueError (Msg "not serialized" []))
  end.

#[global] Instance serializer : Serializer := { serialize := ser; deserialize := deser }.

Lemma digits_no_sep z : has_char ";" (py_str z) = false.
Proof. by apply py_str_has_char. Qed.

Lemma fields_no_sep d : Forall (fun kv => is_jint kv.2) d -> Forall (fun s => has_char ";" s = false) (fields d).
Proof.
  induction 1 as [|[k v] d Hv _ IH]; simpl; [constructor|].
  destruct v; try done. repeat constructor; [apply esc_no_sep|apply digits_no_sep|exact IH].
Qed.

Lemma table_fields d : Forall (fun kv => is_jint kv.2) d -> table (fields d) = Ok d.
Proof.
  induction 1 as [|[k v] d Hv _ IH]; [done|]. destruct v as [| |z| | | |]; try done.
  change (fields ((k, JInt z) :: d)) with (esc k :: py_str z :: fields d).
  cbn [table]. rewrite py_int_str, IH. simpl. by rewrite unesc_esc.
Qed.

#[global] Instance serializer_laws : SerializerLaws.
Proof.
  split.
  - by intros [].
  - intros z. change (deserialize (serialize (JInt z))) with
      (match py_int (py_str z) with Some z => Ok (JInt z) | None => Raise (ValueError (Msg "not an int" [])) end).
    by rewrite py_int_str.
  - intros d Hnd Hi. exists d. split_and!; [|done..].
    change (deser ("o" +:+ py_join ";" ("" :: fields d)) = Ok (JObj d)). unfold deser. rewrite sapp_cons.
    change ("" +:+ py_join ";" ("" :: fields d)) with (py_join ";" ("" :: fields d)). cbv iota beta.
    rewrite py_split_join; [|done|by constructor; [|apply fields_no_sep]].
    cbn [tail]. by rewrite table_fields.
Qed.
End ExSerializer.

Lemma ex_no_fees : fees_view Mem.empty_state (fun _ => None).
Proof.
  split; [|intros a Ha _; unfold get_fee_from_state; by rewrite build_path_alias by done].
  exists []. split_and!; [done|constructor|constructor|done].
Qed.

Definition ex_fees (n : Z) : dict := [(FEES, JObj (fees_dict [("nym", n)]))].

Lemma set_fees_merges_witness :
  exists t', set_fees_update_state (ex_fees 5) Mem.empty_state = (Ok tt, t') /\
    fees_view t' (merge_fees (fun _ => None) [("nym", 5%Z)]) /\
    forall k, (forall a, k <> path_of a) -> st_get t' false k = st_get Mem.empty_state false k.
Proof.
  apply (set_fees_merges Mem.empty_state (fun _ => None) [("nym", 5%Z)]);
    [apply ex_no_fees|reflexivity|by apply (bool_decide_unpack _)|by repeat constructor].
Defined.

Lemma set_fees_alias_collision_witness :
  exists t' d, set_fees_update_state [(FEES, JObj (fees_dict [("fees", 7%Z)]))] Mem.empty_state = (Ok tt, t') /\
    get_fee_from_state t' (JStr FEES_KEY_FOR_ALL) false = Ok (JObj d) /\
    forall k, alookup k d = JInt <$> merge_fees (fun _ => None) [("fees", 7%Z)] k.
Proof.
  apply (set_fees_alias_collision Mem.empty_state (fun _ => None) [("fees", 7%Z)] _ 7);
    [apply ex_no_fees|reflexivity|by apply (bool_decide_unpack _)|by repeat constructor|reflexivity].
Defined.

Lemma set_fees_093_forgets_witness :
  exists t1 t2, set_fees_093_update_state (ex_fees 5) Mem.empty_state = (Ok tt, t1) /\
    set_fees_093_update_state [(FEES, JObj (fees_dict [("schema", 2%Z)]))] t1 = (Ok tt, t2) /\
    get_fees t1 false = get_fees Mem.empty_state false /\ get_fees t2 false = get_fees Mem.empty_state false /\
    st_get t2 false fees_state_key =
      st_get (set_fees_093_update_state [(FEES, JObj (fees_dict [("schema", 2%Z)]))] Mem.empty_state).2 false fees_state_key.
Proof.
  apply (set_fees_093_forgets Mem.empty_state (fun _ => None) [("nym", 5%Z)] [("schema", 2%Z)]);
    [apply ex_no_fees|reflexivity|reflexivity].
Defined.

Definition ex_gen (t : Mem.state) (key root : string) : res (string * option string) :=
  Ok ("nodes", st_get t false key).

Lemma get_fee_with_proof_agrees_witness :
  get_fee_with_proof ex_gen (fun s => Ok s) (fun r => r) (fun _ => Some "sig") (fun s _ p => s +:+ p)
    (set_fees_update_state (ex_fees 5) Mem.empty_state).2 (JStr "nym") false
  = Ok (JInt 5, ProofMade "signodes").
Proof.
  rewrite (get_fee_with_proof_agrees ex_gen (fun s => Ok s) (fun r => r) (fun _ => Some "sig") (fun s _ p => s +:+ p)
             _ (JStr "nym") "200:nym" false "nodes" (Some "i5"));
    [vm_compute; reflexivity|reflexivity|vm_compute; reflexivity|exists "i5"; split; vm_compute; reflexivity].
Defined.
