(* ===== verification/FeesAuthorizer.v ===== *)
(** * FeesAuthorizer ([sovtokenfees/fees_authorizer.py])

    The authorizer that decides, for every write request, whether the fee that
    the auth rule asks for is paid.  Logging is left out.  Theorems: the complete
    decision of [authorize], and that the fee it asks for is the one [SET_FEES]
    has stored. *)

From S2P Require Import Prelude Exceptions PyStr TokenTypes Stores UtxoAmounts UtxoCache TokenUtils.
From S2P Require Import TokenHandlers Json GetUtxo FeesState.

Open Scope stdpp_scope.

Definition has_fees (req : request) : bool :=
  match req_fees req with FeesIs _ => true | _ => false end.

(** [request.fees], as a sequence *)
Definition fees_of (req : request) : res fees_value :=
  match req_fees req with
  | FeesMissing => Raise (AttributeError (Msg "object has no attribute 'fees'" []))
  | FeesIsNone => Raise (TypeError (Msg "'NoneType' object is not subscriptable" []))
  | FeesIs f => Ok f
  end.

(** [request.fees[0]] *)
Definition fees_inputs (req : request) : res (list PInput) :=
  let? f := fees_of req in
  match f with
  | Fees0 => Raise IndexError
  | Fees1 ins | Fees2 ins _ | Fees3 ins _ _ => Ok ins
  end.

Definition get_change_for_fees (req : request) : res (list POutput) :=
  let? f := fees_of req in
  match f with
  | Fees0 | Fees1 _ => Ok []
  | Fees2 _ outs | Fees3 _ outs _ => Ok outs
  end.

(** The inputs and outputs that [calculate_fees_from_req] adds up. *)
Definition fees_payment (req : request) : res (list PInput * list POutput) :=
  match req_fees req with
  | FeesMissing =>
      let? inputs := dict_item INPUTS (op_inputs (req_operation req)) in
      let? outputs := dict_item OUTPUTS (op_outputs (req_operation req)) in
      Ok (inputs, outputs)
  | _ =>
      let? inputs := fees_inputs req in
      let? outputs := get_change_for_fees req in
      Ok (inputs, outputs)
  end.

Section FeesAuthorizer.
Context {T K : Type} `{StateStore T} `{KVStore K} `{Serializer}.

Definition calculate_fees_from_req (utxo_cache : K) (req : request) : res Z :=
  let? (inputs, outputs) := fees_payment req in
  match sum_inputs utxo_cache inputs false with
  | Raise _ => Ok 0%Z
  | Ok sum_in => Ok (sum_in - zsum (po_amount <$> outputs))%Z
  end.

Definition validate_fees_can_pay (utxo_cache : K) (req : request) (inputs : list PInput)
    (outputs : list POutput) (required_fees : Z) : res unit :=
  match sum_inputs utxo_cache inputs false with
  | Raise ex =>
      if is_UTXOError ex
      then Raise (InvalidFundsError (identifier req) (reqId req) (Msg "{}" [MExn ex]))
      else Raise (UnauthorizedClientRequest (identifier req) (reqId req)
                    (Msg "Exception {} while processing inputs/outputs" [MExn ex]))
  | Ok sum_in =>
      let change_amount := zsum (po_amount <$> outputs) in
      let expected_amount := (change_amount + required_fees)%Z in
      validate_given_inputs_outputs sum_in change_amount expected_amount req
        (Some (Msg "fees: {}" [MInt required_fees]))
  end.

(** [FeesAuthorizer._can_pay_fees] *)
Definition can_pay_fees_or_raise (utxo_cache : K) (req : request) (required_fees : Z) : res unit :=
  if bool_decide (op_type (req_operation req) = XFER_PUBLIC) then
    let? inputs := dict_item INPUTS (op_inputs (req_operation req)) in
    let? outputs := dict_item OUTPUTS (op_outputs (req_operation req)) in
    validate_fees_can_pay utxo_cache req inputs outputs required_fees
  else
    let? inputs := fees_inputs req in
    let? outputs := get_change_for_fees req in
    validate_fees_can_pay utxo_cache req inputs outputs required_fees.

(** The classes that [can_pay_fees] catches. *)
Definition is_payment_error (e : exn) : bool :=
  match e with
  | InvalidFundsError _ _ _ | UnauthorizedClientRequest _ _ _ | ExtraFundsError _ _ _
  | InsufficientFundsError _ _ _ | InvalidClientMessageException _ _ _ => true
  | _ => false
  end.

Definition can_pay_fees (utxo_cache : K) (req : request) (required_fees : Z) : res (bool * message) :=
  match can_pay_fees_or_raise utxo_cache req required_fees with
  | Ok tt => Ok (true, Msg "" [])
  | Raise e => if is_payment_error e then Ok (false, Msg "{}" [MExn e]) else Raise e
  end.

(** [_get_fees_alias_from_constraint]; [metadata] is the constraint's dictionary. *)
Definition get_fees_alias_from_constraint (metadata : dict) : json :=
  get_default_none FEES_FIELD_NAME metadata.

(** [_get_fees_from_state] *)
Definition get_fees_from_state (config_state : T) : res json :=
  let? key := build_path_for_set_fees JNull in
  match st_get config_state false key with
  | None | Some "" => Ok (JObj [])
  | Some serz => deserialize serz
  end.

(** [fees.get(fees_alias, 0)]; the values of the table are integers. *)
Definition fee_of_alias (fees fees_alias : json) : res Z :=
  match fees with
  | JObj d =>
      match fees_alias with
      | JStr a =>
          match alookup a d with
          | None => Ok 0%Z
          | Some (JInt n) => Ok n
          | Some (JBool b) => Ok (Z.b2z b)
          | Some _ => Raise (TypeError (Msg "'>' not supported" []))
          end
      | JArr _ | JObj _ => Raise (TypeError (Msg "unhashable type" []))
      | _ => Ok 0%Z
      end
  | _ => Raise (AttributeError (Msg "object has no attribute 'get'" []))
  end.

(** The first lines of [authorize]. *)
Definition required_fee (config_state : T) (metadata : dict) : res Z :=
  let fees_alias := get_fees_alias_from_constraint metadata in
  let? fees := get_fees_from_state config_state in
  fee_of_alias fees fees_alias.

Definition authorize (config_state : T) (utxo_cache : K) (req : request) (metadata : dict)
    : res (bool * message) :=
  let? fees_amount := required_fee config_state metadata in
  let is_fees_required := (fees_amount >? 0)%Z in
  if bool_decide (op_type (req_operation req) <> XFER_PUBLIC) then
    if is_fees_required && negb (has_fees req) then
      Ok (false, Msg "Fees are required for this txn type" [])
    else
      let? refused :=
        (if negb is_fees_required && has_fees req then
           let? paid := calculate_fees_from_req utxo_cache req in Ok (paid >? 0)%Z
         else Ok false) in
      if (refused : bool) then Ok (false, Msg "Fees are not required for this txn type" [])
      else if negb is_fees_required && negb (has_fees req) then Ok (true, Msg "" [])
      else can_pay_fees utxo_cache req fees_amount
  else can_pay_fees utxo_cache req fees_amount.
End FeesAuthorizer.

(** ** Lemmas *)

(** The inputs are all unspent and are worth the outputs and the fee. *)
Definition pays (m : utxos) (inputs : list PInput) (outputs : list POutput) (fee : Z) : Prop :=
  (forall i, i ∈ inputs -> is_Some (u_amount m i)) /\
  zsum (omap (u_amount m) (remove_dups inputs)) = (zsum (po_amount <$> outputs) + fee)%Z.

Lemma validate_given_cases a b req r suffix :
  (a = r /\ validate_given_inputs_outputs a b r req suffix = Ok tt) \/
  (a <> r /\ exists e, validate_given_inputs_outputs a b r req suffix = Raise e /\ is_payment_error e = true).
Proof.
  unfold validate_given_inputs_outputs. destruct (Z.eqb_spec a r) as [->|Hne]; [by left|right].
  split; [done|]. repeat case_match; eexists; done.
Qed.

Section Lemmas.
Context {T K : Type} `{StateStoreLaws T} `{KVStoreLaws K} `{Serializer}.
Implicit Types (k : K) (m : utxos).

Lemma validate_fees_can_pay_spec k m req inputs outputs n :
  cache_repr k false m ->
  (pays m inputs outputs n /\ validate_fees_can_pay k req inputs outputs n = Ok tt) \/
  (~ pays m inputs outputs n /\
   exists e, validate_fees_can_pay k req inputs outputs n = Raise e /\ is_payment_error e = true).
Proof.
  intros Hr. unfold validate_fees_can_pay, pays. destruct (sum_inputs k inputs false) as [v|e] eqn:Hs.
  - destruct (sum_inputs_Ok _ _ m _ _ Hr Hs) as [Hall ->].
    edestruct (validate_given_cases (zsum (omap (u_amount m) (remove_dups inputs)))
      (zsum (po_amount <$> outputs)) req (zsum (po_amount <$> outputs) + n)) as [[He ->]|[Hne Hv]];
      [left; by split|right; split; [tauto|exact Hv]].
  - right. split.
    + intros [Hall _]. by rewrite (sum_inputs_repr _ _ m) in Hs.
    + destruct (is_UTXOError e); eexists; done.
Qed.

(** [can_pay_fees] decides [pays]; it raises nothing once the payment is there. *)
Lemma can_pay_fees_spec k m req inputs outputs n :
  cache_repr k false m ->
  (if bool_decide (op_type (req_operation req) = XFER_PUBLIC)
   then op_inputs (req_operation req) = Some inputs /\ op_outputs (req_operation req) = Some outputs
   else fees_inputs req = Ok inputs /\ get_change_for_fees req = Ok outputs) ->
  exists b msg, can_pay_fees k req n = Ok (b, msg) /\ (b = true <-> pays m inputs outputs n).
Proof.
  intros Hr Hp. assert (can_pay_fees_or_raise k req n = validate_fees_can_pay k req inputs outputs n) as Heq.
  { unfold can_pay_fees_or_raise. case_bool_decide; destruct Hp as [-> ->]; done. }
  unfold can_pay_fees. rewrite Heq.
  destruct (validate_fees_can_pay_spec k m req inputs outputs n Hr) as [[Hp' ->]|[Hp' (e & -> & ->)]].
  - exists true, (Msg "" []). tauto.
  - exists false, (Msg "{}" [MExn e]). split; [done|]. split; [done|tauto].
Qed.

Lemma fees_payment_ok req f ins :
  req_fees req = FeesIs f -> fees_inputs req = Ok ins ->
  exists outs, get_change_for_fees req = Ok outs /\ fees_payment req = Ok (ins, outs).
Proof.
  unfold fees_payment, fees_inputs, get_change_for_fees, fees_of. intros ->.
  destruct f; intros; simplify_eq/=; eauto.
Qed.

Lemma calculate_fees_spec k m req ins outs :
  cache_repr k false m -> fees_payment req = Ok (ins, outs) ->
  exists z, calculate_fees_from_req k req = Ok z /\ (forall n, pays m ins outs n -> z = n).
Proof.
  intros Hr Hp. unfold calculate_fees_from_req. rewrite Hp. cbn [res_bind].
  destruct (sum_inputs k ins false) as [v|e] eqn:Hs.
  - destruct (sum_inputs_Ok _ _ m _ _ Hr Hs) as [_ ->]. eexists. split; [done|].
    intros n [_ Hn]. lia.
  - exists 0%Z. split; [done|]. intros n [Hall _]. by rewrite (sum_inputs_repr _ _ m) in Hs.
Qed.
End Lemmas.

(** ** Properties *)

Section Properties.
Context {T K : Type} `{StateStore T} `{KVStoreLaws K} `{Serializer}.

(** C15: the decision of [authorize] for a request that is not a transfer, when
    the rule asks for the fee [n]: it always returns; without fees the request
    passes exactly when nothing is asked; with fees it passes exactly when the
    fee inputs are unspent and are worth the change plus [n], no less and no
    more. *)
Theorem authorize_other (t : T) (k : K) m req metadata n :
  cache_repr k false m -> op_type (req_operation req) <> XFER_PUBLIC ->
  required_fee t metadata = Ok n ->
  (forall f, req_fees req = FeesIs f -> f <> Fees0) ->
  exists b msg, authorize t k req metadata = Ok (b, msg) /\
    (b = true <->
     match req_fees req with
     | FeesIs (Fees1 ins) => pays m ins [] n
     | FeesIs (Fees2 ins outs) | FeesIs (Fees3 ins outs _) => pays m ins outs n
     | FeesIs Fees0 => False
     | FeesMissing | FeesIsNone => (n <= 0)%Z
     end).
Proof.
  intros Hr Ht Hn Hf. unfold authorize. rewrite Hn. cbn [res_bind].
  rewrite bool_decide_true by done. rewrite Z.gtb_ltb.
  destruct (has_fees req) eqn:Hh; unfold has_fees in Hh.
  - destruct (req_fees req) as [| |f] eqn:Hfees; try done.
    assert (exists ins, fees_inputs req = Ok ins) as [ins Hin].
    { unfold fees_inputs, fees_of. rewrite Hfees. specialize (Hf f eq_refl). destruct f; simpl; eauto. done. }
    destruct (fees_payment_ok req f ins Hfees Hin) as (outs & Hout & Hpay).
    destruct (calculate_fees_spec k m req ins outs Hr Hpay) as (z & Hz & Hzn).
    destruct (can_pay_fees_spec k m req ins outs n Hr) as (b & msg & Hc & Hb).
    { by rewrite bool_decide_false. }
    assert (pays m ins outs n <-> match f with
      | Fees0 => False | Fees1 ins => pays m ins [] n
      | Fees2 ins outs | Fees3 ins outs _ => pays m ins outs n end) as Hgoal.
    { unfold fees_inputs, get_change_for_fees, fees_of in Hin, Hout. rewrite Hfees in Hin, Hout.
      destruct f; simplify_eq/=; done. }
    rewrite andb_false_r, andb_true_r, andb_false_r, Hz. cbn [res_bind]. rewrite Z.gtb_ltb.
    destruct (Z.ltb_spec 0 n) as [Hpos|Hneg]; cbn [negb].
    + exists b, msg. by rewrite <- Hgoal.
    + destruct (Z.ltb_spec 0 z) as [Hzpos|]; [|exists b, msg; by rewrite <- Hgoal].
      eexists false, _. split; [done|]. split; [done|]. intros Hp%Hgoal. apply Hzn in Hp. lia.
  - assert (match req_fees req with FeesIs f => False | _ => True end) as Hno by (by destruct (req_fees req)).
    rewrite andb_true_r, andb_false_r. cbn [res_bind].
    destruct (Z.ltb_spec 0 n) as [Hpos|Hneg]; eexists _, _; (split; [done|]);
      destruct (req_fees req); split; (done || lia).
Qed.

(** C16: a transfer passes [authorize] exactly when its inputs are unspent and
    are worth its outputs plus the fee of the rule; there is no other outcome. *)
Theorem authorize_xfer (t : T) (k : K) m req metadata n inputs outputs :
  cache_repr k false m -> op_type (req_operation req) = XFER_PUBLIC ->
  required_fee t metadata = Ok n ->
  op_inputs (req_operation req) = Some inputs -> op_outputs (req_operation req) = Some outputs ->
  exists b msg, authorize t k req metadata = Ok (b, msg) /\ (b = true <-> pays m inputs outputs n).
Proof.
  intros Hr Ht Hn Hi Ho. unfold authorize. rewrite Hn. cbn [res_bind].
  rewrite bool_decide_false by tauto. apply can_pay_fees_spec; [done|]. by rewrite bool_decide_true.
Qed.
End Properties.

(** The fee that the authorizer asks for is the one of the alias in the table. *)
Lemma required_fee_view {T} `{StateStore T} `{Serializer} (t : T) f metadata :
  table_view t f ->
  required_fee t metadata =
    match get_default_none FEES_FIELD_NAME metadata with
    | JStr a => Ok (default 0%Z (f a))
    | JArr _ | JObj _ => Raise (TypeError (Msg "unhashable type" []))
    | _ => Ok 0%Z
    end.
Proof.
  intros (d & Hs & _ & _ & Hl). unfold required_fee, get_fees_alias_from_constraint.
  assert (get_fees_from_state t = Ok (JObj d)) as ->.
  { unfold get_fees_from_state, stored_table in *. change (path_of FEES_KEY_FOR_ALL) with (path_of "fees") in Hs.
    rewrite build_path_table. cbn [res_bind]. destruct (st_get t false (path_of "fees")) as [[]|]; by subst. }
  cbn [res_bind]. unfold fee_of_alias. destruct (get_default_none _ _) as [| | | |a| |]; try done.
  rewrite Hl. by destruct (f a).
Qed.

(** A fee set by a [SET_FEES] transaction is the fee the authorizer requires
    for every rule that names its alias; rules without an alias require
    nothing, and the fees of other aliases stay as they were. *)
Theorem set_fees_then_required {T} `{StateStoreLaws T} `{SerializerLaws} (t : T) f new payload metadata :
  table_view t f -> alookup FEES payload = Some (JObj (fees_dict new)) ->
  NoDup new.*1 -> Forall (fun kv => kv.1 <> "") new ->
  exists t', set_fees_update_state payload t = (Ok tt, t') /\
    match alookup FEES_FIELD_NAME metadata with
    | Some (JStr a) =>
        required_fee t' metadata = match alookup a new with
                                   | Some n => Ok n | None => required_fee t metadata end
    | None => required_fee t' metadata = Ok 0%Z
    | Some _ => True
    end.
Proof.
  intros Ht Hp Hnd Hne.
  destruct (set_fees_run t f new payload Ht Hp Hnd Hne) as (t' & d & Hrun & Hd & Hi & Hl & Htab & _).
  destruct (table_stored_view t' d _ Htab Hd Hi Hl) as (d' & _ & Hs & Hnd' & Hi' & Hl').
  assert (table_view t' (merge_fees f new)) as Ht' by (exists d'; auto).
  exists t'. split; [done|]. rewrite (required_fee_view _ _ _ Ht), (required_fee_view _ _ _ Ht').
  unfold get_default_none. destruct (alookup FEES_FIELD_NAME metadata) as [[]|]; try done.
  cbn [default id]. unfold merge_fees. by destruct (alookup _ new).
Qed.

(** ** Witnesses *)

Module ExFees.
(** The fee 4 is set for the alias ["nym"]. *)
Definition config : Mem.state := (set_fees_update_state (ex_fees 4) Mem.empty_state).2.
Definition nym_rule : dict := [(FEES_FIELD_NAME, JStr "nym")].
(** ["alice"] pays 4 of her 10 tokens as the fee of a NYM request. *)
Definition nym_request : request :=
  mkRequest (Some "did") (Some 1%Z) (mkOperation "1" None None None)
    (FeesIs (Fees3 [mkInput "alice" 1] [mkPOutput "alice" 6] ["sig"])).
End ExFees.

Lemma ex_outs_repr : cache_repr (db_cache TokenHandlers.Ex.ledger) false TokenHandlers.Ex.outs.
Proof. apply TokenHandlers.Ex.ledger_repr. Qed.

Lemma authorize_other_witness :
  exists b msg, authorize ExFees.config (db_cache TokenHandlers.Ex.ledger) ExFees.nym_request ExFees.nym_rule = Ok (b, msg) /\
    (b = true <-> pays TokenHandlers.Ex.outs [mkInput "alice" 1] [mkPOutput "alice" 6] 4).
Proof.
  apply (authorize_other ExFees.config (db_cache TokenHandlers.Ex.ledger) TokenHandlers.Ex.outs ExFees.nym_request
           ExFees.nym_rule 4 ex_outs_repr); [done|vm_compute; reflexivity|].
  by intros f [= <-].
Defined.

Lemma authorize_xfer_witness :
  exists b msg, authorize ExFees.config (db_cache TokenHandlers.Ex.ledger) TokenHandlers.Ex.pay_request ExFees.nym_rule = Ok (b, msg) /\
    (b = true <-> pays TokenHandlers.Ex.outs TokenHandlers.Ex.pay_inputs TokenHandlers.Ex.pay_outputs 4).
Proof.
  by apply (authorize_xfer ExFees.config (db_cache TokenHandlers.Ex.ledger) TokenHandlers.Ex.outs TokenHandlers.Ex.pay_request
           ExFees.nym_rule 4 _ _ ex_outs_repr); vm_compute.
Defined.

Lemma set_fees_then_required_witness :
  exists t', set_fees_update_state (ex_fees 4) Mem.empty_state = (Ok tt, t') /\
    required_fee t' ExFees.nym_rule = Ok 4%Z.
Proof.
  apply (set_fees_then_required Mem.empty_state (fun _ => None) [("nym", 4%Z)] (ex_fees 4) ExFees.nym_rule);
    [apply ex_no_fees|reflexivity|by apply (bool_decide_unpack _)|by repeat constructor].
Defined.
