(* ===== verification/Ledger.v ===== *)
(** * Interfaces of the ledger, its transactions and the batch machinery

    [plenum.common.ledger.Ledger], [plenum.common.txn_util], the tracker
    [LedgerUncommittedTracker] and the batches of [OptimisticKVStore] are
    plenum's code.  They enter as classes of operations; the laws state what the
    plugins rely on; the last section has in-memory instances. *)

From S2P Require Import Prelude Exceptions PyStr TokenTypes Stores.

Open Scope stdpp_scope.

(** The dictionary of a fee transaction that [DomainFeeHandler.apply_request]
    hands to [reqToTxn]. *)
Record fee_request := mkFeeRequest {
  fr_type : string;
  fr_inputs : list PInput;
  fr_outputs : list POutput;
  fr_ref : string;
  fr_fees : Z;
  fr_sigs : list (string * string);
  fr_reqId : option Z;
  fr_protocolVersion : Z;
}.

(** [plenum.common.txn_util] on transactions; [set_fees_entry txn v] is
    [txn[FEES] = v]. *)
Class TxnOps (X : Type) := {
  get_type : X -> string;
  get_seq_no : X -> Z;
  get_txn_time : X -> option Z;
  get_req_id : X -> option Z;
  payload_inputs : X -> list PInput;
  payload_outputs : X -> list POutput;
  set_fees_entry : X -> X -> X;
}.

Class LedgerOps (L X : Type) := {
  reqToTxn : fee_request -> X;
  (** [append_txns_metadata([txn], txn_time)] fills [txn] in, [appendTxns([txn])]
      adds it to the uncommitted part of the ledger. *)
  append_txns_metadata : L -> X -> option Z -> X;
  appendTxns : L -> X -> L;
  uncommitted_root_hash : L -> string;
  uncommitted_size : L -> Z;
  discardTxns : L -> Z -> L;
}.

Class LedgerLaws (L X : Type) `{TxnOps X} `{LedgerOps L X} : Prop := {
  payload_inputs_reqToTxn l r time :
    payload_inputs (append_txns_metadata l (reqToTxn r) time) = fr_inputs r;
  payload_outputs_reqToTxn l r time :
    payload_outputs (append_txns_metadata l (reqToTxn r) time) = fr_outputs r;
  get_seq_no_append l r time :
    get_seq_no (append_txns_metadata l (reqToTxn r) time) = (uncommitted_size l + 1)%Z;
  uncommitted_size_append l (x : X) : uncommitted_size (appendTxns l x) = (uncommitted_size l + 1)%Z;
}.

(** The leaves of the ledger's Merkle tree, the committed ones first.  The root
    of the uncommitted tree is determined by its leaves and determines them. *)
Class LedgerHistoryLaws (L X : Type) `{LedgerOps L X} := {
  lg_leaf : Type;
  lg_leaves : L -> list lg_leaf;
  lg_committed : L -> nat;
  lg_size (l : L) : uncommitted_size (X:=X) l = Z.of_nat (length (lg_leaves l));
  lg_committed_le (l : L) : (lg_committed l <= length (lg_leaves l))%nat;
  lg_append (l : L) (x : X) : exists leaf, lg_leaves (appendTxns l x) = lg_leaves l ++ [leaf];
  lg_append_committed (l : L) (x : X) : lg_committed (appendTxns l x) = lg_committed l;
  lg_discard (l : L) n :
    (lg_committed l <= n <= length (lg_leaves l))%nat ->
    lg_leaves (discardTxns (X:=X) l (Z.of_nat (length (lg_leaves l)) - Z.of_nat n)) = take n (lg_leaves l) /\
    lg_committed (discardTxns (X:=X) l (Z.of_nat (length (lg_leaves l)) - Z.of_nat n)) = lg_committed l;
  lg_root (l l' : L) :
    uncommitted_root_hash (X:=X) l = uncommitted_root_hash (X:=X) l' <-> lg_leaves l = lg_leaves l';
}.

(** [LedgerUncommittedTracker]; rejecting and committing return a state root, a
    ledger root and a number of transactions. *)
Class TrackerOps (R : Type) := {
  tr_apply_batch : R -> string -> string -> Z -> R;
  tr_reject_batch : M R (string * string * Z);
  tr_commit_batch : M R (string * string * Z);
  tr_set_last_committed : R -> string -> string -> Z -> R;
}.

(** The last committed roots and size, followed by those of each uncommitted
    batch, oldest first. *)
Class TrackerLaws (R : Type) `{TrackerOps R} := {
  tr_view : R -> list (string * string * Z);
  tr_view_apply r s l n : tr_view (tr_apply_batch r s l n) = tr_view r ++ [(s, l, n)];
  tr_view_reject r v (p b : string * string * Z) :
    tr_view r = v ++ [p; b] ->
    exists r', tr_reject_batch r = (Ok (p.1.1, p.1.2, (b.2 - p.2)%Z), r') /\ tr_view r' = v ++ [p];
  tr_view_commit r (p b : string * string * Z) v :
    tr_view r = p :: b :: v ->
    exists r', tr_commit_batch r = (Ok (b.1.1, b.1.2, (b.2 - p.2)%Z), r') /\ tr_view r' = b :: v;
}.

(** The batches of the UTXO cache, oldest first. *)
Class KVBatchLaws (K : Type) `{KVStore K} := {
  kv_batches : K -> list state_root_arg;
  kv_batches_first k : kv_first_batch_idr k = head (kv_batches k);
  kv_batches_create k idr : kv_batches (kv_create_batch_from_current k idr) = kv_batches k ++ [idr];
  kv_batches_set k key s : kv_batches (kv_set k false key s) = kv_batches k;
  kv_batches_commit k b bs :
    kv_batches k = b :: bs -> exists k', kv_commit_batch k = (Ok tt, k') /\ kv_batches k' = bs;
  kv_batches_reject k b bs :
    kv_batches k = bs ++ [b] -> exists n k', kv_reject_batch k = (Ok n, k') /\ kv_batches k' = bs;
  kv_batches_reject_nil k :
    kv_batches k = [] -> exists e, kv_reject_batch k = (Raise e, k);
}.

(** ** In-memory instances *)

Module MemLedger.
Record mtxn := mkMTxn {
  t_type : string; t_seqNo : Z; t_time : option Z; t_reqId : option Z;
  t_request : option fee_request; t_fees : list Z;
}.

#[global] Instance txn_ops : TxnOps mtxn := {
  get_type := t_type;
  get_seq_no := t_seqNo;
  get_txn_time := t_time;
  get_req_id := t_reqId;
  payload_inputs t := match t_request t with Some r => fr_inputs r | None => [] end;
  payload_outputs t := match t_request t with Some r => fr_outputs r | None => [] end;
  set_fees_entry t f := mkMTxn (t_type t) (t_seqNo t) (t_time t) (t_reqId t) (t_request t) [t_seqNo f];
}.

Definition with_metadata (x : mtxn) (n : Z) (time : option Z) : mtxn :=
  mkMTxn (t_type x) n time (t_reqId x) (t_request x) (t_fees x).

(** A ledger is the number of its committed transactions and the uncommitted
    ones; a root is their number written out. *)
Record ledger := mkLedger { l_committed : nat; l_txns : list mtxn }.

Definition size (l : ledger) : Z := Z.of_nat (l_committed l + length (l_txns l)).

#[global] Instance ledger_ops : LedgerOps ledger mtxn := {
  reqToTxn r := mkMTxn (fr_type r) 0 None (fr_reqId r) (Some r) [];
  append_txns_metadata l x time := with_metadata x (size l + 1) time;
  appendTxns l x := mkLedger (l_committed l) (l_txns l ++ [x]);
  uncommitted_root_hash l := "root" +:+ py_str (size l);
  uncommitted_size := size;
  discardTxns l n := mkLedger (l_committed l) (take (length (l_txns l) - Z.to_nat n) (l_txns l));
}.

#[global] Instance ledger_laws : LedgerLaws ledger mtxn.
Proof. split; try done. intros l x. simpl. unfold size. simpl. rewrite length_app. simpl. lia. Qed.

(** Leaves without content: the root only tells their number. *)
#[global] Program Instance ledger_history_laws : LedgerHistoryLaws ledger mtxn := {
  lg_leaf := unit;
  lg_leaves l := replicate (l_committed l + length (l_txns l)) tt;
  lg_committed := l_committed;
}.
Next Obligation. intros l. simpl. by rewrite length_replicate. Qed.
Next Obligation. intros l. simpl. rewrite length_replicate. lia. Qed.
Next Obligation.
  intros l x. exists tt. simpl. rewrite length_app. simpl. rewrite Nat.add_assoc, replicate_add. done.
Qed.
Next Obligation. done. Qed.
Next Obligation.
  intros l n Hn. simpl in *. rewrite length_replicate in *. split; [|done].
  rewrite take_replicate, length_take. f_equal. lia.
Qed.
Next Obligation.
  intros l l'. change ("root" +:+ py_str (size l) = "root" +:+ py_str (size l') <->
    replicate (l_committed l + length (l_txns l)) tt = replicate (l_committed l' + length (l_txns l')) tt).
  assert (forall n n' : Z, "root" +:+ py_str n = "root" +:+ py_str n' -> n = n') as Hinj
    by (intros ? ? [=]; by apply (inj py_str)).
  unfold size. split; intros Hr.
  - apply Hinj in Hr. f_equal. lia.
  - apply (f_equal length) in Hr. rewrite !length_replicate in Hr. by rewrite Hr.
Qed.

(** The tracker keeps the last committed roots and those of each batch. *)
Record tracker := mkTracker { last : string * string * Z; batches : list (string * string * Z) }.

#[global] Instance tracker_ops : TrackerOps tracker := {
  tr_apply_batch r s l n := mkTracker (last r) (batches r ++ [(s, l, n)]);
  tr_reject_batch := fun r =>
    match reverse (batches r) with
    | [] => (Raise (ValueError (Msg "No items to return" [])), r)
    | b :: bs =>
        let prev := hd (last r) bs in
        (Ok (prev.1.1, prev.1.2, (b.2 - prev.2)%Z), mkTracker (last r) (reverse bs))
    end;
  tr_commit_batch := fun r =>
    match batches r with
    | [] => (Raise (ValueError (Msg "No items to commit" [])), r)
    | b :: bs => (Ok (b.1.1, b.1.2, (b.2 - (last r).2)%Z), mkTracker b bs)
    end;
  tr_set_last_committed r s l n := mkTracker (s, l, n) [];
}.

#[global] Program Instance tracker_laws : TrackerLaws tracker := {
  tr_view r := last r :: batches r;
}.
Next Obligation. done. Qed.
Next Obligation.
  intros [la bs] v p b Hv. change (la :: bs = v ++ [p; b]) in Hv. simpl.
  destruct bs as [|x bs _] using rev_ind; [destruct v as [|? [|? ?]]; simplify_eq/=|].
  change (la :: bs ++ [x]) with ((la :: bs) ++ [x]) in Hv.
  replace (v ++ [p; b]) with ((v ++ [p]) ++ [b]) in Hv by (by rewrite <- app_assoc).
  apply app_inj_tail in Hv as [Hv <-]. rewrite reverse_snoc. rewrite reverse_involutive.
  assert (hd la (reverse bs) = p) as ->.
  { destruct bs as [|y bs _] using rev_ind; [destruct v as [|? []]; simplify_eq/=; done|].
    rewrite reverse_snoc. change (la :: bs ++ [y]) with ((la :: bs) ++ [y]) in Hv.
    by apply app_inj_tail in Hv as [_ ->]. }
  eexists. split; [reflexivity|]. exact Hv.
Qed.
Next Obligation.
  intros [la bs] p b v Hv. change (la :: bs = p :: b :: v) in Hv. simplify_eq/=. by eexists.
Qed.

#[global] Program Instance kv_batch_laws : KVBatchLaws Mem.kv := {
  kv_batches k := (Mem.uncommitted k).*1;
}.
Next Obligation. intros k. simpl. by destruct (Mem.uncommitted k). Qed.
Next Obligation. intros k idr. simpl. by rewrite fmap_app. Qed.
Next Obligation. done. Qed.
Next Obligation.
  intros k b bs Hk. change ((Mem.uncommitted k).*1 = b :: bs) in Hk. unfold kv_commit_batch. simpl. unfold Mem.commit_batch.
  destruct (Mem.uncommitted k) as [|p l]; [done|]. simplify_eq/=. by eexists.
Qed.
Next Obligation.
  intros k b bs Hk. change ((Mem.uncommitted k).*1 = bs ++ [b]) in Hk. simpl. unfold Mem.reject_batch.
  destruct (Mem.uncommitted k) as [|x l _] eqn:E using rev_ind; [by destruct bs|].
  rewrite reverse_snoc. rewrite fmap_app in Hk. apply app_inj_tail in Hk as [<- _].
  eexists _, _. split; [done|]. simpl. by rewrite reverse_involutive.
Qed.
Next Obligation.
  intros k Hk. change ((Mem.uncommitted k).*1 = []) in Hk. simpl. unfold Mem.reject_batch. destruct (Mem.uncommitted k); [|done]. by eexists.
Qed.
End MemLedger.
