(* ===== verification/DomainFees.v ===== *)
(** * Fees of domain transactions

    [BatchFeesTracker] ([sovtokenfees/req_handlers/fees_utils.py]) and
    [DomainFeeHandler] ([req_handlers/write_handlers/domain_fee_handler.py]):
    after a domain request has been applied, its fee is written to the token
    ledger as a transaction of its own, its inputs are spent and the change is
    created.  Theorems: an authorized request takes exactly its fee out of the
    supply, in both ways a fee is paid, and the signatures the fee transaction
    keeps. *)

From S2P Require Import Prelude Exceptions PyStr TokenTypes Stores UtxoAmounts UtxoCache TokenUtils.
From S2P Require Import TokenHandlers Json GetUtxo FeesState FeesAuthorizer Ledger.

Open Scope stdpp_scope.

(** ** BatchFeesTracker *)

Record BatchFeesTracker := mkFeesTracker {
  fees_in_current_batch : Z;
  deducted_fees : list (string * Z);
}.

Definition BatchFeesTracker_init : BatchFeesTracker := mkFeesTracker 0 [].

(** ["{}#{}".format(txn_type, seq_no)] *)
Definition deducted_key (txn_type : string) (seq_no : Z) : string := txn_type +:+ "#" +:+ py_str seq_no.

Definition add_deducted_fees (txn_type : string) (seq_no fees : Z) : M BatchFeesTracker unit :=
  modify (fun self => mkFeesTracker (fees_in_current_batch self)
                        (aset (deducted_key txn_type seq_no) fees (deducted_fees self))).

Definition has_deducted_fees (self : BatchFeesTracker) (txn_type : string) (seq_no : Z) : bool :=
  ahas (deducted_key txn_type seq_no) (deducted_fees self).

Definition set_fees_in_batch (n : Z) : M BatchFeesTracker unit :=
  modify (fun self => mkFeesTracker n (deducted_fees self)).

(** ** DomainFeeHandler *)

(** [pass] *)
Definition domain_fee_gen_state_key {X} (t : X) : option string := None.

(** The stores of a node that the fee handlers reach through the database
    manager, with the tracker they share. *)
Record fee_node (T K L : Type) := mkFeeNode {
  fn_db : token_db T K;
  fn_ledger : L;
  fn_tracker : BatchFeesTracker;
}.
Arguments mkFeeNode {T K L} _ _ _.
Arguments fn_db {T K L} _.
Arguments fn_ledger {T K L} _.
Arguments fn_tracker {T K L} _.

(** [inputs, outputs, signatures = getattr(request, f.FEES.nm)] *)
Definition unpack_fees (req : request) : res (list PInput * list POutput * list string) :=
  let? f := fees_of req in
  match f with
  | Fees3 ins outs sigs => Ok (ins, outs, sigs)
  | _ => Raise (ValueError (Msg "not enough values to unpack (expected 3)" []))
  end.

(** [{i[ADDRESS]: s for i, s in zip(inputs, signatures)}] *)
Definition sigs_by_address (inputs : list PInput) (signatures : list string) : list (string * string) :=
  aupdate [] (zip (in_address <$> inputs) signatures).

Section DomainFeeHandler.
Context {T K L X : Type} `{StateStore T} `{KVStore K} `{TxnOps X} `{LedgerOps L X}.
(** [self.ledger_id], plenum's [DOMAIN_LEDGER_ID] *)
Context (ledger_id : Z).

Definition on_db {A} (m : M (token_db T K) A) : M (fee_node T K L) A :=
  zoom fn_db (fun d n => mkFeeNode d (fn_ledger n) (fn_tracker n)) m.

Definition on_tracker {A} (m : M BatchFeesTracker A) : M (fee_node T K L) A :=
  zoom fn_tracker (fun t n => mkFeeNode (fn_db n) (fn_ledger n) t) m.

Definition on_ledger (f : L -> L) : M (fee_node T K L) unit :=
  modify (fun n => mkFeeNode (fn_db n) (f (fn_ledger n)) (fn_tracker n)).

Definition get_ref_for_txn_fees (seq_no : Z) : string := py_str ledger_id +:+ ":" +:+ py_str seq_no.

(** [update_token_state], called with the default [is_committed=False] *)
Definition update_token_state (t : X) (is_committed : bool) : M (token_db T K) unit :=
  for_each (payload_inputs t) (fun utxo =>
    spend_input (in_address utxo) (in_seqNo utxo) is_committed true) ;;;
  for_each (payload_outputs t) (fun output =>
    add_new_output (mkOutput (po_address output) (get_seq_no t) (Some (po_amount output))) is_committed).

(** [apply_request]; what it returns, [(None, None, prev_result)], is the same on
    every path. *)
Definition apply_request (req : request) (prev_result : X) : M (fee_node T K L) unit :=
  let txn_type := op_type (req_operation req) in
  let seq_no := get_seq_no prev_result in
  let cons_time := get_txn_time prev_result in
  if has_fees req then
    let! (inputs, outputs, signatures) := lift (unpack_fees req) in
    let! node := get in
    let! fees := lift (calculate_fees_from_req (db_cache (fn_db node)) req) in
    let sigs := sigs_by_address inputs signatures in
    let t := reqToTxn (mkFeeRequest FEE_TXN inputs outputs (get_ref_for_txn_fees seq_no) fees sigs
                         (get_req_id prev_result) 2) in
    let t := append_txns_metadata (fn_ledger node) t cons_time in
    on_ledger (fun l => appendTxns l t) ;;;
    on_db (update_token_state t false) ;;;
    on_tracker (let! self := get in set_fees_in_batch (fees_in_current_batch self + 1)) ;;;
    on_tracker (add_deducted_fees txn_type seq_no fees)
  else ret tt.
End DomainFeeHandler.

(** ** Lemmas *)

Lemma has_deducted_add t ty n fees :
  has_deducted_fees (add_deducted_fees ty n fees t).2 ty n = true.
Proof. unfold has_deducted_fees, add_deducted_fees, ahas, modify. simpl. by rewrite alookup_aset_eq. Qed.

Lemma has_deducted_aset t ty q ty' q' fees d :
  deducted_fees t = aset (deducted_key ty' q') fees d ->
  has_deducted_fees t ty q = bool_decide (deducted_key ty q = deducted_key ty' q') || ahas (deducted_key ty q) d.
Proof.
  intros Hd. unfold has_deducted_fees, ahas. rewrite Hd. case_bool_decide as Hk; [by rewrite Hk, alookup_aset_eq|].
  by rewrite alookup_aset_ne.
Qed.

(** [str(seq_no)] has no ['#'], so the key determines the number; the type too. *)
Lemma deducted_key_inj ty n ty' n' : deducted_key ty n = deducted_key ty' n' -> ty = ty' /\ n = n'.
Proof.
  unfold deducted_key. intros Hk. apply (f_equal (py_split "#")) in Hk.
  change ("#" +:+ py_str n) with (String "#" (py_str n)) in Hk.
  change ("#" +:+ py_str n') with (String "#" (py_str n')) in Hk.
  rewrite !py_split_app in Hk.
  rewrite !(py_split_no_char _ (py_str _)) in Hk by (by apply py_str_has_char).
  apply app_inj_tail in Hk as [Ha ?%(inj py_str)]. split; [|done].
  by rewrite <- (py_join_split "#" ty), Ha, py_join_split.
Qed.

(** No unspent output has a number that the ledger has not yet given. *)
Definition seqNos_below (m : utxos) (n : Z) : Prop :=
  forall i, is_Some (u_amount m i) -> (in_seqNo i <= n)%Z.

Lemma seqNos_below_fresh m n a : seqNos_below m n -> u_amount m (mkInput a (n + 1)) = None.
Proof.
  intros Hb. destruct (u_amount m (mkInput a (n + 1))) eqn:E; [|done].
  specialize (Hb (mkInput a (n + 1)) ltac:(by eexists)). simpl in Hb. lia.
Qed.

Lemma seqNos_below_update m n inputs outputs :
  u_wf m -> seqNos_below m n -> seqNos_below (u_add_all (u_spend_all m inputs) (n + 1) outputs) (n + 1).
Proof.
  intros Hwf Hb i Hi. destruct (decide (in_seqNo i = n + 1)%Z) as [->|Hne]; [done|].
  rewrite u_amount_add_all_ne in Hi by done.
  destruct (u_amount m i) as [z|] eqn:E.
  - specialize (Hb i ltac:(by eexists)). lia.
  - rewrite u_amount_spend_all_None in Hi by done. by destruct Hi.
Qed.

Section Lemmas.
Context {T K : Type} `{StateStoreLaws T} `{KVStoreLaws K}.

(** Spending unspent inputs and creating outputs with fresh numbers. *)
Lemma update_stores d m n inputs outputs :
  db_repr false d m -> seqNos_below m n -> NoDup inputs -> (forall i, i ∈ inputs -> is_Some (u_amount m i)) ->
  NoDup (po_address <$> outputs) ->
  exists d', (for_each inputs (fun i => spend_input (in_address i) (in_seqNo i) false true) ;;;
     for_each outputs (fun o => add_new_output (mkOutput (po_address o) (n + 1) (Some (po_amount o))) false)) d
     = (Ok tt, d') /\ db_repr false d' (u_add_all (u_spend_all m inputs) (n + 1) outputs).
Proof.
  intros Hr Hb Hnd Hall Hnd'.
  destruct (spend_loop_repr d false m inputs true Hr Hnd Hall) as (d1 & Hrun1 & Hr1).
  destruct (add_loop_repr d1 false _ outputs (n + 1) Hr1 Hnd') as (d' & Hrun & Hr').
  { intros o _. apply u_amount_spend_all_None; [apply Hr|]. by apply seqNos_below_fresh. }
  exists d'. split; [|done]. rewrite (bind_Ok _ _ _ _ _ Hrun1). exact Hrun.
Qed.

Lemma supply_payment m n inputs outputs fee :
  pays m inputs outputs fee -> NoDup inputs ->
  supply (u_add_all (u_spend_all m inputs) n outputs) = (supply m - fee)%Z.
Proof.
  intros [Hall Hsum] Hnd. rewrite supply_add_all, supply_spend_all by done.
  rewrite remove_dups_NoDup_id in Hsum by done. lia.
Qed.
End Lemmas.

(** What an accepted request has shown. *)
Section Accepted.
Context {T K : Type} `{StateStore T} `{KVStoreLaws K} `{Serializer}.

Lemma authorize_other_pays (config : T) metadata (k : K) m req n msg ins outs sigs :
  cache_repr k false m -> op_type (req_operation req) <> XFER_PUBLIC ->
  req_fees req = FeesIs (Fees3 ins outs sigs) -> required_fee config metadata = Ok n ->
  authorize config k req metadata = Ok (true, msg) -> pays m ins outs n.
Proof.
  intros Hr Hty Hf Hn Hauth.
  destruct (can_pay_fees_spec k m req ins outs n Hr) as (b & msg' & Hc & Hiff).
  { rewrite bool_decide_false by done. unfold fees_inputs, get_change_for_fees, fees_of. by rewrite Hf. }
  apply Hiff. unfold authorize in Hauth. rewrite Hn in Hauth. cbn [res_bind] in Hauth.
  rewrite bool_decide_true in Hauth by done.
  assert (has_fees req = true) as Hh by (unfold has_fees; by rewrite Hf).
  rewrite Hh, andb_false_r, andb_true_r, andb_false_r in Hauth.
  destruct (negb (n >? 0)%Z); [|cbn [res_bind] in Hauth; congruence].
  destruct (calculate_fees_from_req _ req) as [z|]; cbn [res_bind] in Hauth; [|done].
  destruct (z >? 0)%Z; [done|congruence].
Qed.

Lemma authorize_xfer_pays (config : T) metadata (k : K) m req n msg ins outs :
  cache_repr k false m -> op_type (req_operation req) = XFER_PUBLIC ->
  op_inputs (req_operation req) = Some ins -> op_outputs (req_operation req) = Some outs ->
  required_fee config metadata = Ok n ->
  authorize config k req metadata = Ok (true, msg) -> pays m ins outs n.
Proof.
  intros Hr Hty Hi Ho Hn Hauth.
  destruct (can_pay_fees_spec k m req ins outs n Hr) as (b & msg' & Hc & Hiff).
  { by rewrite bool_decide_true. }
  apply Hiff. unfold authorize in Hauth. rewrite Hn in Hauth. cbn [res_bind] in Hauth.
  rewrite bool_decide_false in Hauth by tauto. congruence.
Qed.

Lemma calculate_fees_pays (k : K) m req n ins outs sigs :
  cache_repr k false m -> req_fees req = FeesIs (Fees3 ins outs sigs) -> pays m ins outs n ->
  calculate_fees_from_req k req = Ok n.
Proof.
  intros Hr Hf Hpays. destruct (fees_payment_ok req (Fees3 ins outs sigs) ins Hf) as (outs' & Ho & Hpay).
  { unfold fees_inputs, fees_of. by rewrite Hf. }
  unfold get_change_for_fees, fees_of in Ho. rewrite Hf in Ho. simplify_eq/=.
  destruct (calculate_fees_spec k m req ins outs' Hr Hpay) as (z & -> & Hz). f_equal. by apply Hz.
Qed.
End Accepted.

Section Applied.
Context {T K L X : Type} `{StateStoreLaws T} `{KVStoreLaws K} `{LedgerLaws L X}.

(** [apply_request] on a payment that is there. *)
Lemma apply_request_pays ledger_id (node : fee_node T K L) m req prev n ins outs sigs :
  db_repr false (fn_db node) m -> seqNos_below m (uncommitted_size (fn_ledger node)) ->
  req_fees req = FeesIs (Fees3 ins outs sigs) -> NoDup ins -> NoDup (po_address <$> outs) -> pays m ins outs n ->
  exists node', apply_request (X:=X) ledger_id req prev node = (Ok tt, node') /\
    db_repr false (fn_db node') (u_add_all (u_spend_all m ins) (uncommitted_size (fn_ledger node) + 1) outs) /\
    uncommitted_size (fn_ledger node') = (uncommitted_size (fn_ledger node) + 1)%Z /\
    fees_in_current_batch (fn_tracker node') = (fees_in_current_batch (fn_tracker node) + 1)%Z /\
    alookup (deducted_key (op_type (req_operation req)) (get_seq_no prev))
            (deducted_fees (fn_tracker node')) = Some n /\
    deducted_fees (fn_tracker node') =
      aset (deducted_key (op_type (req_operation req)) (get_seq_no prev)) n (deducted_fees (fn_tracker node)).
Proof.
  intros Hr Hb Hf Hnd Hnd' Hpays. set (num := uncommitted_size (fn_ledger node)).
  destruct (update_stores (fn_db node) m num ins outs Hr Hb Hnd (proj1 Hpays) Hnd') as (d' & Hrun & Hr').
  pose proof (calculate_fees_pays _ m req n ins outs sigs (proj1 Hr) Hf Hpays) as Hcalc.
  unfold apply_request, has_fees, unpack_fees, fees_of. rewrite Hf. reduce_monad. rewrite Hcalc.
  set (t := append_txns_metadata _ _ _).
  assert (update_token_state t false (fn_db node) = (Ok tt, d')) as Hupd.
  { unfold update_token_state, t. rewrite payload_inputs_reqToTxn, payload_outputs_reqToTxn, get_seq_no_append.
    exact Hrun. }
  unfold on_ledger, on_db, on_tracker, zoom, modify. cbn [fn_db fn_ledger fn_tracker]. rewrite Hupd.
  eexists. split; [reflexivity|].
  cbn [fn_db fn_ledger fn_tracker fees_in_current_batch deducted_fees fst snd].
  rewrite uncommitted_size_append. split_and!; [done..| |done]. by rewrite alookup_aset_eq.
Qed.
End Applied.

(** ** Properties *)

Section Properties.
Context {T K L X : Type} `{StateStoreLaws T} `{KVStoreLaws K} `{LedgerLaws L X} `{Serializer}.
Implicit Types (node : fee_node T K L).

(** C17: a domain request with fees that [authorize] has accepted for the fee [n]
    is charged exactly [n]: [apply_request] returns, the fee inputs are spent
    and the change exists under the number of the new fee transaction, the
    supply has shrunk by [n], the token ledger has grown by the fee transaction,
    and the tracker counts the fee and knows the transaction that paid it. *)
Theorem fee_charged (config : T) metadata ledger_id node m req prev n msg ins outs sigs :
  db_repr false (fn_db node) m -> seqNos_below m (uncommitted_size (fn_ledger node)) ->
  op_type (req_operation req) <> XFER_PUBLIC -> req_fees req = FeesIs (Fees3 ins outs sigs) ->
  NoDup ins -> NoDup (po_address <$> outs) ->
  required_fee config metadata = Ok n ->
  authorize config (db_cache (fn_db node)) req metadata = Ok (true, msg) ->
  exists node' m', apply_request (X:=X) ledger_id req prev node = (Ok tt, node') /\
    db_repr false (fn_db node') m' /\ supply m' = (supply m - n)%Z /\
    (forall i, i ∈ ins -> u_amount m' i = None) /\
    (forall o, o ∈ outs -> u_amount m' (mkInput (po_address o) (uncommitted_size (fn_ledger node'))) = Some (po_amount o)) /\
    seqNos_below m' (uncommitted_size (fn_ledger node')) /\
    uncommitted_size (fn_ledger node') = (uncommitted_size (fn_ledger node) + 1)%Z /\
    fees_in_current_batch (fn_tracker node') = (fees_in_current_batch (fn_tracker node) + 1)%Z /\
    alookup (deducted_key (op_type (req_operation req)) (get_seq_no prev))
            (deducted_fees (fn_tracker node')) = Some n.
Proof.
  intros Hr Hb Hty Hf Hnd Hnd' Hn Hauth.
  pose proof (authorize_other_pays config metadata _ m req n msg ins outs sigs (proj1 Hr) Hty Hf Hn Hauth) as Hpays.
  destruct (apply_request_pays (X:=X) ledger_id node m req prev n ins outs sigs Hr Hb Hf Hnd Hnd' Hpays)
    as (node' & Hrun & Hr' & Hsize & Hcount & Hkey & _).
  eexists node', _. split; [exact Hrun|]. split; [exact Hr'|]. rewrite Hsize. split_and!; try done.
  - by apply supply_payment.
  - intros i Hi. rewrite u_amount_add_all_ne.
    + by apply u_amount_spend_all_in; [apply Hr|].
    + intros Hs. specialize (Hb i (proj1 Hpays i Hi)). lia.
  - intros o Ho. apply u_amount_add_all_in; [done..|]. apply u_amount_spend_all_None; [apply Hr|].
    by apply seqNos_below_fresh.
  - apply seqNos_below_update; [apply Hr|done].
Qed.

(** C18: a transfer that [authorize] has accepted for the fee [n] takes exactly
    [n] out of the supply when its transaction is applied; with no fee the
    supply is unchanged. *)
Theorem xfer_fee_charged (config : T) metadata rm (d : token_db T K) m req t msg n inputs outputs :
  db_repr false d m -> seqNos_below m (txn_seqNo t - 1) ->
  op_type (req_operation req) = XFER_PUBLIC -> required_fee config metadata = Ok n ->
  op_inputs (req_operation req) = Some inputs -> op_outputs (req_operation req) = Some outputs ->
  txn_inputs t = Some inputs -> txn_outputs t = Some outputs ->
  NoDup inputs -> NoDup (po_address <$> outputs) ->
  authorize config (db_cache d) req metadata = Ok (true, msg) ->
  exists d' m', xfer_update rm t false d = (Ok tt, d') /\ db_repr false d' m' /\
    supply m' = (supply m - n)%Z /\ (forall i, i ∈ inputs -> u_amount m' i = None).
Proof.
  intros Hr Hb Hty Hn Hi Ho Hti Hto Hnd Hnd' Hauth.
  pose proof (authorize_xfer_pays config metadata _ m req n msg inputs outputs (proj1 Hr) Hty Hi Ho Hn Hauth) as Hpays.
  assert (txn_seqNo t = (txn_seqNo t - 1) + 1)%Z as Hs by lia.
  destruct (xfer_update_repr rm d false m t inputs outputs Hr Hti Hto Hnd (proj1 Hpays) Hnd') as (d' & Hrun & Hr').
  { intros o _. rewrite Hs. by apply seqNos_below_fresh. }
  exists d', (u_add_all (u_spend_all m inputs) (txn_seqNo t) outputs). split_and!; [done|done| |].
  - by apply supply_payment.
  - intros i Hin. rewrite u_amount_add_all_ne.
    + by apply u_amount_spend_all_in; [apply Hr|].
    + intros Hs'. specialize (Hb i (proj1 Hpays i Hin)). lia.
Qed.
End Properties.

(** The fee transaction keeps one signature per address: of two inputs from
    the same address only the last signature stays. *)
Theorem sigs_by_address_last a s1 s2 sig1 sig2 :
  sigs_by_address [mkInput a s1; mkInput a s2] [sig1; sig2] = [(a, sig2)].
Proof. unfold sigs_by_address, aupdate. simpl. by rewrite decide_True. Qed.

(** ** Witnesses *)

Module ExDomain.
Definition node : fee_node Mem.state Mem.kv MemLedger.ledger :=
  mkFeeNode TokenHandlers.Ex.ledger (MemLedger.mkLedger 1 []) BatchFeesTracker_init.
Definition nym_txn : MemLedger.mtxn := MemLedger.mkMTxn "1" 9 (Some 100%Z) (Some 1%Z) None [].

Lemma below : seqNos_below TokenHandlers.Ex.outs 1.
Proof.
  intros [a s] Hi. simpl. destruct (decide (s = 1)%Z) as [->|Hne]; [lia|].
  unfold TokenHandlers.Ex.outs in Hi. rewrite u_amount_add_all_ne in Hi by (simpl; congruence).
  by destruct Hi.
Qed.

(** ["alice"] pays ["carol"] 2, keeps 4, and the fee of the rule is 4. *)
Definition xfer_outputs : list POutput := [mkPOutput "carol" 2; mkPOutput "alice" 4].
Definition xfer_request : request :=
  mkRequest (Some "alice") (Some 8%Z)
    (mkOperation XFER_PUBLIC (Some TokenHandlers.Ex.pay_inputs) (Some xfer_outputs) (Some ["sig"])) FeesMissing.
Definition xfer_txn : txn := mkTxn XFER_PUBLIC (Some TokenHandlers.Ex.pay_inputs) (Some xfer_outputs) 2.
End ExDomain.

Lemma fee_charged_witness :
  exists node' m', apply_request (X:=MemLedger.mtxn) 1 ExFees.nym_request ExDomain.nym_txn ExDomain.node = (Ok tt, node') /\
    db_repr false (fn_db node') m' /\ supply m' = (supply TokenHandlers.Ex.outs - 4)%Z /\
    (forall i, i ∈ [mkInput "alice" 1] -> u_amount m' i = None) /\
    (forall o, o ∈ [mkPOutput "alice" 6] ->
       u_amount m' (mkInput (po_address o) (uncommitted_size (fn_ledger node'))) = Some (po_amount o)) /\
    seqNos_below m' (uncommitted_size (fn_ledger node')) /\
    uncommitted_size (fn_ledger node') = (uncommitted_size (fn_ledger ExDomain.node) + 1)%Z /\
    fees_in_current_batch (fn_tracker node') = (fees_in_current_batch (fn_tracker ExDomain.node) + 1)%Z /\
    alookup (deducted_key (op_type (req_operation ExFees.nym_request)) (get_seq_no ExDomain.nym_txn)) (deducted_fees (fn_tracker node')) = Some 4%Z.
Proof.
  apply (fee_charged (X:=MemLedger.mtxn) ExFees.config ExFees.nym_rule 1 ExDomain.node TokenHandlers.Ex.outs
           ExFees.nym_request ExDomain.nym_txn 4 (Msg "" []) [mkInput "alice" 1] [mkPOutput "alice" 6] ["sig"]);
    try (vm_compute; reflexivity); try (by apply (bool_decide_unpack _)).
  - apply TokenHandlers.Ex.ledger_repr.
  - apply ExDomain.below.
Defined.

Lemma xfer_fee_charged_witness :
  exists d' m', xfer_update true ExDomain.xfer_txn false TokenHandlers.Ex.ledger = (Ok tt, d') /\ db_repr false d' m' /\
    supply m' = (supply TokenHandlers.Ex.outs - 4)%Z /\
    (forall i, i ∈ TokenHandlers.Ex.pay_inputs -> u_amount m' i = None).
Proof.
  apply (xfer_fee_charged ExFees.config ExFees.nym_rule true TokenHandlers.Ex.ledger TokenHandlers.Ex.outs
           ExDomain.xfer_request ExDomain.xfer_txn (Msg "" []) 4 TokenHandlers.Ex.pay_inputs ExDomain.xfer_outputs);
    try (vm_compute; reflexivity); try (by apply (bool_decide_unpack _)).
  - apply TokenHandlers.Ex.ledger_repr.
  - apply ExDomain.below.
Defined.
