(* ===== verification/Payments.v ===== *)
(** * Payments on the abstract set of unspent outputs

    What every transaction of the token ledger does to the set of unspent
    outputs: a mint, a transfer and a fee all spend some inputs (a mint none) and
    create outputs under the transaction's number.  The lemmas here are shared by
    the theorems on the token ledger, on catch-up and on batches. *)

From S2P Require Import Prelude Exceptions PyStr TokenTypes Stores UtxoAmounts UtxoCache TokenUtils.
From S2P Require Import TokenHandlers Json GetUtxo FeesState FeesAuthorizer Ledger DomainFees.

Open Scope stdpp_scope.

Record payment := mkPayment {
  pay_type : string;
  pay_inputs : list PInput;
  pay_outputs : list POutput;
}.

(** The set of outputs after the transaction with the number [n]. *)
Definition u_pay (m : utxos) (n : Z) (p : payment) : utxos :=
  u_add_all (u_spend_all m (pay_inputs p)) n (pay_outputs p).

(** The transactions with the numbers [n], [n + 1], ... *)
Fixpoint u_pay_all (m : utxos) (n : Z) (ps : list payment) : utxos :=
  match ps with
  | [] => m
  | p :: ps => u_pay_all (u_pay m n p) (n + 1) ps
  end.

Definition u_positive (m : utxos) : Prop := forall a, Forall (fun p => (0 < p.2)%Z) (u_list m a).

Definition payment_ok (m : utxos) (p : payment) : Prop :=
  NoDup (pay_inputs p) /\ (forall i, i ∈ pay_inputs p -> is_Some (u_amount m i)) /\
  NoDup (po_address <$> pay_outputs p) /\ Forall (fun o => 0 < po_amount o)%Z (pay_outputs p).

(** What a payment is by its type; a mint has no inputs. *)
Definition payment_typed (p : payment) : Prop :=
  (pay_type p = MINT_PUBLIC /\ pay_inputs p = []) \/ pay_type p = XFER_PUBLIC \/ pay_type p = FEE_TXN.

(** Payments that are possible one after the other, with the numbers [n], [n + 1], ... *)
Fixpoint payments_ok (m : utxos) (n : Z) (ps : list payment) : Prop :=
  match ps with
  | [] => True
  | p :: ps => payment_ok m p /\ payment_typed p /\ payments_ok (u_pay m n p) (n + 1) ps
  end.

(** What holds of the outputs of a ledger with [n] transactions. *)
Definition outputs_inv (m : utxos) (n : Z) : Prop := u_wf m /\ u_positive m /\ seqNos_below m n.

(** ** Positive amounts *)

Lemma u_positive_add m a s amount : u_positive m -> (0 < amount)%Z -> u_positive (u_add m a s amount).
Proof.
  intros Hm Hp b. unfold u_add. rewrite u_list_insert. case_decide; [|done]. subst.
  apply Forall_app_2; [done|]. by repeat constructor.
Qed.

Lemma u_positive_spend m i : u_positive m -> u_positive (u_spend m i).
Proof.
  intros Hm b. unfold u_spend. rewrite u_list_insert. case_decide; [|done].
  specialize (Hm (in_address i)). induction (u_list m (in_address i)) as [|[s v] l IH]; simpl; [done|].
  apply Forall_cons in Hm as [H1 H2]. case_decide; [done|]. constructor; [done|]. by apply IH.
Qed.

Lemma u_positive_spend_all m ins : u_positive m -> u_positive (u_spend_all m ins).
Proof. revert m. induction ins as [|i ins IH]; intros m Hm; [done|]. by apply IH, u_positive_spend. Qed.

Lemma u_positive_add_all m s outs :
  u_positive m -> Forall (fun o => 0 < po_amount o)%Z outs -> u_positive (u_add_all m s outs).
Proof.
  intros Hm Ho. revert m Hm. induction Ho as [|o outs Ho _ IH]; intros m Hm; [done|].
  by apply IH, u_positive_add.
Qed.

Lemma u_positive_amount m i a : u_positive m -> u_amount m i = Some a -> (0 < a)%Z.
Proof.
  intros Hm Hi. unfold u_amount in Hi. apply alookup_elem in Hi. specialize (Hm (in_address i)).
  rewrite Forall_forall in Hm. by apply (Hm _ Hi).
Qed.

Lemma supply_nonneg m : u_positive m -> (0 <= supply m)%Z.
Proof.
  intros Hm. unfold supply. apply zsum_nonneg. apply Forall_fmap, Forall_forall.
  intros l Hl. apply list_elem_of_fmap in Hl as ([a l'] & -> & Hin). apply elem_of_map_to_list in Hin.
  cbn. unfold sum_pairs. apply zsum_nonneg, Forall_fmap. specialize (Hm a). unfold u_list in Hm. rewrite Hin in Hm.
  eapply Forall_impl; [exact Hm|]. simpl. intros; lia.
Qed.

(** Different outputs are worth at most everything there is. *)
Lemma supply_bounds_inputs m ins :
  u_wf m -> u_positive m -> NoDup ins -> (0 <= zsum (omap (u_amount m) ins) <= supply m)%Z.
Proof.
  intros Hwf Hm Hnd. revert m Hwf Hm. induction Hnd as [|i ins Hi Hnd IH]; intros m Hwf Hm; csimpl.
  { split; [done|by apply supply_nonneg]. }
  assert (omap (u_amount m) ins = omap (u_amount (u_spend m i)) ins) as ->.
  { clear IH Hnd. induction ins as [|j ins IH]; csimpl; [done|]. apply not_elem_of_cons in Hi as [Hij Hi].
    rewrite u_amount_spend_ne, IH by done. done. }
  destruct (IH (u_spend m i)) as [H1 H2]; [by apply u_wf_spend|by apply u_positive_spend|].
  destruct (u_amount m i) as [a|] eqn:E; csimpl.
  - rewrite (supply_u_spend m i a E) in *. pose proof (u_positive_amount m i a Hm E). lia.
  - split; [done|]. etransitivity; [exact H2|]. unfold u_spend. rewrite supply_insert.
    unfold u_amount in E. rewrite adelete_None by done. lia.
Qed.

(** ** Applying a payment *)

Lemma seqNos_below_u_pay m n p : u_wf m -> seqNos_below m n -> seqNos_below (u_pay m (n + 1) p) (n + 1).
Proof. apply seqNos_below_update. Qed.

Lemma outputs_inv_empty n : outputs_inv ∅ n.
Proof.
  split_and!; [intros a; unfold u_list; rewrite lookup_empty; constructor..|].
  intros i [z Hz]. done.
Qed.

Lemma outputs_inv_pay m n p : outputs_inv m n -> payment_ok m p -> outputs_inv (u_pay m (n + 1) p) (n + 1).
Proof.
  intros (Hwf & Hp & Hb) (Hnd & Hall & Hnd' & Hpos). unfold u_pay. split_and!.
  - apply u_wf_add_all; [by apply u_wf_spend_all|done|]. intros o _.
    apply u_amount_spend_all_None; [done|]. by apply seqNos_below_fresh.
  - apply u_positive_add_all; [by apply u_positive_spend_all|done].
  - by apply seqNos_below_update.
Qed.

Lemma supply_u_pay m n p :
  payment_ok m p ->
  supply (u_pay m n p) =
    (supply m - zsum (omap (u_amount m) (pay_inputs p)) + zsum (po_amount <$> pay_outputs p))%Z.
Proof. intros (Hnd & Hall & _). unfold u_pay. by rewrite supply_add_all, supply_spend_all. Qed.

(** A payment found good by the sum checks takes the fee out of the supply. *)
Lemma supply_u_pay_pays m n p fee :
  payment_ok m p -> pays m (pay_inputs p) (pay_outputs p) fee -> supply (u_pay m n p) = (supply m - fee)%Z.
Proof. intros Hok Hp. unfold u_pay. by apply supply_payment; [|apply Hok]. Qed.

(** An output that was there before is still there, unless it is an input. *)
Lemma u_amount_u_pay_old m n p i a :
  seqNos_below m n -> u_amount m i = Some a -> i ∉ pay_inputs p -> u_amount (u_pay m (n + 1) p) i = Some a.
Proof.
  intros Hb Hi Hni. unfold u_pay. rewrite u_amount_add_all_ne.
  - by rewrite u_amount_spend_all_ne.
  - intros Hs. specialize (Hb i ltac:(by eexists)). lia.
Qed.

(** What is gone, or was never there, does not come back under an old number. *)
Lemma u_amount_u_pay_None m n p i :
  u_wf m -> (in_seqNo i <= n)%Z -> u_amount m i = None -> u_amount (u_pay m (n + 1) p) i = None.
Proof.
  intros Hwf Hs Hi. unfold u_pay. rewrite u_amount_add_all_ne by lia. by apply u_amount_spend_all_None.
Qed.

Lemma u_amount_u_pay_spent m n p i :
  u_wf m -> seqNos_below m n -> payment_ok m p -> i ∈ pay_inputs p -> u_amount (u_pay m (n + 1) p) i = None.
Proof.
  intros Hwf Hb (Hnd & Hall & _) Hi. unfold u_pay. rewrite u_amount_add_all_ne.
  - by apply u_amount_spend_all_in.
  - intros Hs. specialize (Hb i (Hall i Hi)). lia.
Qed.

(** An output of the new set is an old one, or made by the payment. *)
Lemma u_amount_u_pay_inv m n p i :
  u_wf m -> is_Some (u_amount (u_pay m n p) i) ->
  is_Some (u_amount m i) \/ (in_seqNo i = n /\ in_address i ∈ po_address <$> pay_outputs p).
Proof.
  intros Hwf Hi. destruct (decide (in_seqNo i = n /\ in_address i ∈ po_address <$> pay_outputs p)) as [|Hno]; [by right|left].
  unfold u_pay in Hi. rewrite u_amount_add_all_ne in Hi by tauto.
  destruct (u_amount m i) as [a|] eqn:E; [by eexists|].
  rewrite u_amount_spend_all_None in Hi by done. by destruct Hi.
Qed.

(** What a created output of a payment is worth. *)
Lemma u_amount_u_pay_created m n p o :
  u_wf m -> seqNos_below m n -> NoDup (po_address <$> pay_outputs p) -> o ∈ pay_outputs p ->
  u_amount (u_pay m (n + 1) p) (mkInput (po_address o) (n + 1)) = Some (po_amount o).
Proof.
  intros Hwf Hb Hnd Ho. apply (u_amount_add_all_in _ (n + 1) (pay_outputs p) o); [done|done|].
  apply u_amount_spend_all_None; [done|]. by apply seqNos_below_fresh.
Qed.

(** One payment, completely: an output after it is an old one that it does not spend,
    or one that it creates. *)
Lemma u_amount_u_pay_iff m n p i v :
  outputs_inv m n -> payment_ok m p ->
  u_amount (u_pay m (n + 1) p) i = Some v <->
  (u_amount m i = Some v /\ i ∉ pay_inputs p) \/
  (in_seqNo i = (n + 1)%Z /\ mkPOutput (in_address i) v ∈ pay_outputs p).
Proof.
  intros (Hwf & _ & Hb) Hok. assert (NoDup (po_address <$> pay_outputs p)) as Hnd by apply Hok. split.
  - intros Hi. destruct (decide (i ∈ pay_inputs p)) as [Hin|Hni].
    { by rewrite u_amount_u_pay_spent in Hi. }
    destruct (u_amount m i) as [v'|] eqn:Hold.
    { left. split; [|done]. by rewrite (u_amount_u_pay_old m n p i v') in Hi. }
    right. destruct (u_amount_u_pay_inv m (n + 1) p i Hwf ltac:(by eexists)) as [[z Hz]|[Hs Ha]]; [congruence|].
    split; [done|]. apply list_elem_of_fmap in Ha as (o & Ho & Hin). destruct i as [a s], o as [a' v']; simpl in *; subst.
    pose proof (u_amount_u_pay_created m n p _ Hwf Hb Hnd Hin) as Hc. simpl in Hc. by simplify_eq.
  - intros [[Hi Hni]|[Hs Ho]]; [by apply u_amount_u_pay_old|].
    destruct i as [a s]; simpl in *; subst. by apply (u_amount_u_pay_created m n p _ Hwf Hb Hnd Ho).
Qed.

(** A whole history: the unspent outputs are those created by one of its payments, or
    there before, that no later payment spends. *)
Lemma u_pay_all_history m n ps i v :
  outputs_inv m n -> payments_ok m (n + 1) ps ->
  u_amount (u_pay_all m (n + 1) ps) i = Some v <->
  (u_amount m i = Some v /\ Forall (fun q => i ∉ pay_inputs q) ps) \/
  (exists k p, ps !! k = Some p /\ in_seqNo i = (n + 1 + Z.of_nat k)%Z /\
     mkPOutput (in_address i) v ∈ pay_outputs p /\ Forall (fun q => i ∉ pay_inputs q) (drop (S k) ps)).
Proof.
  revert m n. induction ps as [|p ps IH]; intros m n Hinv; cbn [u_pay_all payments_ok].
  { intros _. split; [by left|]. intros [[? _]|(k & p & Hk & _)]; done. }
  intros (Hok & _ & Hps). rewrite (IH _ _ (outputs_inv_pay m n p Hinv Hok) Hps). rewrite u_amount_u_pay_iff by done.
  split.
  - intros [[[[Hi Hni]|[Hs Ho]] Hall]|(k & q & Hk & Hs & Ho & Hall)].
    + left. split; [done|by constructor].
    + right. exists 0%nat, p. split_and!; [done|lia|done|done].
    + right. exists (S k), q. split_and!; [done|lia|done|done].
  - intros [[Hi [Hni Hall]%Forall_cons]|([|k] & q & Hk & Hs & Ho & Hall)].
    + left. auto.
    + left. simplify_eq/=. split; [|done]. right. split; [lia|done].
    + right. exists k, q. split_and!; [done|lia|done|done].
Qed.

(** Two sets that one pair of stores shows have the same amounts. *)
Lemma db_repr_amount {T K} `{StateStore T} `{KVStore K} c (d : token_db T K) m m' i :
  db_repr c d m -> db_repr c d m' -> u_amount m i = u_amount m' i.
Proof.
  intros (_ & Hs & _) (_ & Hs' & _). destruct i as [a s]. apply (inj (fmap (M:=option) py_str)). by rewrite <- Hs, <- Hs'.
Qed.

Lemma u_pay_all_snoc m n ps p :
  u_pay_all m n (ps ++ [p]) = u_pay (u_pay_all m n ps) (n + Z.of_nat (length ps)) p.
Proof.
  revert m n. induction ps as [|q ps IH]; intros m n; cbn [app u_pay_all length]; [by rewrite Z.add_0_r|].
  rewrite IH. f_equal. lia.
Qed.

Lemma u_pay_all_app m n ps qs :
  u_pay_all m n (ps ++ qs) = u_pay_all (u_pay_all m n ps) (n + Z.of_nat (length ps)) qs.
Proof.
  revert m n. induction ps as [|p ps IH]; intros m n; cbn [app u_pay_all length]; [by rewrite Z.add_0_r|].
  rewrite IH. f_equal. lia.
Qed.

Lemma payments_ok_app m n ps qs :
  payments_ok m n (ps ++ qs) <->
  payments_ok m n ps /\ payments_ok (u_pay_all m n ps) (n + Z.of_nat (length ps)) qs.
Proof.
  revert m n. induction ps as [|p ps IH]; intros m n; cbn [app u_pay_all payments_ok length].
  - rewrite Z.add_0_r. tauto.
  - rewrite IH. replace (n + 1 + Z.of_nat (length ps))%Z with (n + Z.of_nat (S (length ps)))%Z by lia. tauto.
Qed.
