(* ===== verification/Frames.v ===== *)
(** * What applying transactions leaves alone

    Applying transactions writes to the uncommitted part of the stores only.
    The relations here say what stays: the committed head and the remembered
    roots of the state, the committed layer and the batches of the cache, the
    ledger up to its old end.  Every operation of the handlers is shown to stay
    within them, whether it returns or raises. *)

From S2P Require Import Prelude Exceptions PyStr TokenTypes Stores UtxoAmounts UtxoCache TokenUtils.
From S2P Require Import TokenHandlers Json GetUtxo FeesState FeesAuthorizer Ledger DomainFees.

Open Scope stdpp_scope.

Section Relations.
Context {T K L X : Type} `{StateHistoryLaws T} `{KVViewLaws K} `{LedgerHistoryLaws L X}.

(** No remembered root is lost. *)
Definition state_keeps (t t' : T) : Prop :=
  forall h, st_known t h -> st_known t' h /\ forall key, st_at t' h key = st_at t h key.

Definition state_frame (t t' : T) : Prop :=
  st_committedHeadHash t' = st_committedHeadHash t /\ state_keeps t t'.

Definition cache_frame (k k' : K) : Prop :=
  kv_views k' = kv_views k /\ kv_committed k' = kv_committed k.

Definition ledger_frame (l l' : L) : Prop :=
  lg_committed (X:=X) l' = lg_committed (X:=X) l /\
  exists ls, lg_leaves (X:=X) l' = lg_leaves (X:=X) l ++ ls.

Definition db_frame (d d' : token_db T K) : Prop :=
  state_frame (db_state d) (db_state d') /\ cache_frame (db_cache d) (db_cache d').

Definition node_frame (n n' : fee_node T K L) : Prop :=
  db_frame (fn_db n) (fn_db n') /\ ledger_frame (fn_ledger n) (fn_ledger n').

#[export] Instance state_frame_preorder : PreOrder state_frame.
Proof.
  split; [by intros t; split|]. intros t1 t2 t3 [Hc1 E1] [Hc2 E2]. split; [congruence|].
  intros h Hh. destruct (E1 h Hh) as [Hk1 Ha1]. destruct (E2 h Hk1) as [Hk2 Ha2].
  split; [done|]. intros key. by rewrite Ha2.
Qed.

#[export] Instance cache_frame_preorder : PreOrder cache_frame.
Proof. split; [done|]. intros k1 k2 k3 [E1 E2] [E3 E4]. split; congruence. Qed.

#[export] Instance ledger_frame_preorder : PreOrder ledger_frame.
Proof.
  split; [intros l; split; [done|by exists []; rewrite app_nil_r]|].
  intros l1 l2 l3 [Hc1 [ls1 E1]] [Hc2 [ls2 E2]]. split; [congruence|].
  exists (ls1 ++ ls2). by rewrite E2, E1, app_assoc.
Qed.

#[export] Instance db_frame_preorder : PreOrder db_frame.
Proof. split; [by intros d; split|]. intros d1 d2 d3 [E1 E2] [E3 E4]. split; by etransitivity. Qed.

#[export] Instance node_frame_preorder : PreOrder node_frame.
Proof. split; [by intros n; split|]. intros n1 n2 n3 [E1 E2] [E3 E4]. split; by etransitivity. Qed.

Lemma state_frame_write t t' : st_write t t' -> state_frame t t'.
Proof.
  intros Hw. split; [by apply st_committed_write|]. intros h Hh.
  split; [by eapply st_known_write|]. intros key. by apply st_at_write.
Qed.

Lemma cache_frame_set k key s : cache_frame k (kv_set k false key s).
Proof. split; [apply kv_views_set|apply kv_committed_set]. Qed.

Lemma ledger_frame_append l (x : X) : ledger_frame l (appendTxns l x).
Proof. split; [apply lg_append_committed|]. destruct (lg_append l x) as [leaf Hl]. by exists [leaf]. Qed.
End Relations.

#[export] Hint Resolve state_frame_write cache_frame_set ledger_frame_append : frame.
#[export] Hint Constructors st_write : frame.

Section Operations.
Context {T K L X : Type} `{StateHistoryLaws T} `{KVViewLaws K} `{TxnOps X} `{LedgerHistoryLaws L X}.

Lemma within_add_output o : within (cache_frame (K:=K)) (add_output o false).
Proof. unfold add_output. solve_within. Qed.

Lemma within_spend_output o : within (cache_frame (K:=K)) (spend_output o false).
Proof. unfold spend_output. solve_within. Qed.

Lemma within_on_state (f : T -> T) :
  (forall t, st_write t (f t)) -> within (db_frame (T:=T) (K:=K)) (on_state f).
Proof. intros Hf d. split; [by apply state_frame_write|reflexivity]. Qed.

Lemma within_on_cache {A} (m : M K A) : within cache_frame m -> within (db_frame (T:=T)) (on_cache m).
Proof. intros Hm. apply (within_zoom _ cache_frame); [done|]. intros d k Hk. by split. Qed.
End Operations.

#[export] Hint Resolve within_add_output within_spend_output within_on_state within_on_cache : frame.

Section Handlers.
Context {T K L X : Type} `{StateHistoryLaws T} `{KVViewLaws K} `{TxnOps X} `{LedgerHistoryLaws L X}.

Lemma within_spend_input a s rm : within (db_frame (T:=T) (K:=K)) (spend_input a s false rm).
Proof. unfold spend_input. solve_within. Qed.

Lemma within_add_new_output o : within (db_frame (T:=T) (K:=K)) (add_new_output o false).
Proof. unfold add_new_output. solve_within. Qed.

Lemma within_update_error {A} e (m : M (token_db T K) A) : update_error e = Some m -> within db_frame m.
Proof. unfold update_error. destruct (is_UTXOError e); intros; simplify_eq. solve_within. Qed.
End Handlers.

#[export] Hint Resolve within_spend_input within_add_new_output within_update_error : frame.

(** The whole handlers. *)
Section Whole.
Context {T K L X : Type} `{StateHistoryLaws T} `{KVViewLaws K} `{TxnOps X} `{LedgerHistoryLaws L X}.

Lemma within_mint_update t : within (db_frame (T:=T) (K:=K)) (mint_update_state t false).
Proof. unfold mint_update_state. solve_within. Qed.

Lemma within_xfer_update rm t : within (db_frame (T:=T) (K:=K)) (xfer_update rm t false).
Proof. unfold xfer_update. solve_within. Qed.

Lemma within_update_token_state (t : X) : within (db_frame (T:=T) (K:=K)) (update_token_state t false).
Proof. unfold update_token_state. solve_within. Qed.

Lemma within_on_db {A} (m : M (token_db T K) A) : within db_frame m -> within (node_frame (L:=L) (X:=X)) (on_db m).
Proof. intros Hm. apply (within_zoom _ db_frame); [done|]. intros n d Hd. by split. Qed.

Lemma within_on_tracker {A} (m : M BatchFeesTracker A) : within (node_frame (T:=T) (K:=K) (L:=L) (X:=X)) (on_tracker m).
Proof. intros n. unfold on_tracker, zoom. destruct (m (fn_tracker n)). by split. Qed.

Lemma within_append (x : X) : within (node_frame (T:=T) (K:=K) (L:=L) (X:=X)) (on_ledger (fun l => appendTxns l x)).
Proof. intros n. split; [reflexivity|apply ledger_frame_append]. Qed.
End Whole.

#[export] Hint Resolve within_mint_update within_xfer_update within_update_token_state within_on_db
  within_on_tracker within_append : frame.

Lemma within_apply_request {T K L X : Type} `{StateHistoryLaws T} `{KVViewLaws K} `{TxnOps X} `{LedgerHistoryLaws L X}
    ledger_id req (prev : X) :
  within (node_frame (T:=T) (K:=K) (L:=L) (X:=X)) (apply_request ledger_id req prev).
Proof. unfold apply_request. solve_within. Qed.
