(* ===== verification/BatchHandlers.v ===== *)
(** * Batch handlers

    [UTXOBatchHandler], [TokenBatchHandler] (sovtoken), [TrackerBatchHandler]
    and [DomainFeeBatchHandler] (sovtokenfees): what happens to the UTXO cache,
    the token state, the token ledger and the trackers when a three-phase batch
    is applied, rejected or committed.  The base class's [_commit] and the
    base58 decoder are plenum's and base58's: parameters.  Theorems: the cache's
    batches follow the ledger's, rejecting undoes applying, committing hands
    each fee transaction to the transaction that paid it, and the record of
    deducted fees that rejecting leaves behind. *)

From S2P Require Import Prelude Exceptions PyStr TokenTypes Stores UtxoAmounts UtxoCache TokenUtils.
From S2P Require Import TokenHandlers Json GetUtxo FeesState FeesAuthorizer Ledger DomainFees.

Open Scope stdpp_scope.

(** The fields of a [ThreePcBatch] that the handlers read or fill in. *)
Record ThreePcBatch := mkBatch {
  b_ledger_id : Z;
  b_inst_id : Z;
  b_view_no : Z;
  b_pp_seq_no : Z;
  b_pp_time : Z;
  b_state_root : state_root_arg;
  b_txn_root : string;
  b_primaries : list string;
  b_valid_digests : list Z;
  b_pp_digest : string;
}.

(** ** UTXOBatchHandler and TokenBatchHandler *)

Section UTXOBatchHandler.
Context {K : Type} `{KVStore K} (b58decode : string -> res string).

Definition utxo_post_batch_rejected : M K unit := kv_reject_batch ;;; ret tt.

Definition utxo_post_batch_applied (batch : ThreePcBatch) : M K unit :=
  modify (fun k => kv_create_batch_from_current k (b_state_root batch)).

Definition utxo_commit_batch (batch : ThreePcBatch) : M K unit :=
  commit_to_utxo_cache b58decode (b_state_root batch).
End UTXOBatchHandler.

Definition token_post_batch_applied {S} (batch : ThreePcBatch) : M S unit := ret tt.
Definition token_post_batch_rejected {S} (ledger_id : Z) : M S unit := ret tt.

(** ** The node as the fee batch handlers see it *)

Record batch_node (T K L R : Type) := mkBatchNode {
  bn_node : fee_node T K L;
  bn_token_tracker : R;
}.
Arguments mkBatchNode {T K L R} _ _.
Arguments bn_node {T K L R} _.
Arguments bn_token_tracker {T K L R} _.

Section FeeBatchHandlers.
Context {T K L X R : Type} `{StateStore T} `{KVStore K} `{TxnOps X} `{LedgerOps L X} `{TrackerOps R}.
(** [super()._commit] on the token ledger and state, [txn_root_serializer.serialize],
    and the base58 decoder *)
Context (commit_ledger : ThreePcBatch -> M (L * T) (list X)) (serialize_txn_root : string -> string).
Context (b58decode : string -> res string).

Definition bn_state (n : batch_node T K L R) : T := db_state (fn_db (bn_node n)).
Definition bn_cache (n : batch_node T K L R) : K := db_cache (fn_db (bn_node n)).
Definition bn_ledger (n : batch_node T K L R) : L := fn_ledger (bn_node n).
Definition bn_fees (n : batch_node T K L R) : BatchFeesTracker := fn_tracker (bn_node n).

Definition on_token_tracker {A} (m : M R A) : M (batch_node T K L R) A :=
  zoom bn_token_tracker (fun r n => mkBatchNode (bn_node n) r) m.

Definition on_bn_cache {A} (m : M K A) : M (batch_node T K L R) A :=
  zoom bn_cache (fun k n =>
    mkBatchNode (mkFeeNode (mkDb (bn_state n) k) (bn_ledger n) (bn_fees n)) (bn_token_tracker n)) m.

Definition on_ledger_state {A} (m : M (L * T) A) : M (batch_node T K L R) A :=
  zoom (fun n => (bn_ledger n, bn_state n)) (fun lt n =>
    mkBatchNode (mkFeeNode (mkDb lt.2 (bn_cache n)) lt.1 (bn_fees n)) (bn_token_tracker n)) m.

Definition on_fees {A} (m : M BatchFeesTracker A) : M (batch_node T K L R) A :=
  zoom bn_fees (fun t n =>
    mkBatchNode (mkFeeNode (fn_db (bn_node n)) (bn_ledger n) t) (bn_token_tracker n)) m.

(** [self.token_tracker.apply_batch(headHash, uncommitted_root_hash, uncommitted_size)] *)
Definition track_batch : M (batch_node T K L R) unit :=
  modify (fun n => mkBatchNode (bn_node n)
    (tr_apply_batch (bn_token_tracker n) (st_headHash (bn_state n))
       (uncommitted_root_hash (X:=X) (bn_ledger n)) (uncommitted_size (X:=X) (bn_ledger n)))).

(** ** TrackerBatchHandler *)

Definition tracker_post_batch_applied (batch : ThreePcBatch) : M (batch_node T K L R) unit := track_batch.
Definition tracker_post_batch_rejected (ledger_id : Z) : M (batch_node T K L R) unit :=
  on_token_tracker tr_reject_batch ;;; ret tt.
Definition tracker_commit_batch (batch : ThreePcBatch) : M (batch_node T K L R) unit :=
  on_token_tracker tr_commit_batch ;;; ret tt.

(** ** DomainFeeBatchHandler *)

Definition fee_post_batch_applied (batch : ThreePcBatch) : M (batch_node T K L R) unit :=
  track_batch ;;;
  let! n := get in
  if (fees_in_current_batch (bn_fees n) >? 0)%Z then
    let state_root := st_headHash (bn_state n) in
    on_bn_cache (modify (fun k => kv_create_batch_from_current k (RootBytes state_root))) ;;;
    on_fees (set_fees_in_batch 0)
  else ret tt.

Definition fee_post_batch_rejected (ledger_id : Z) : M (batch_node T K L R) unit :=
  let! (uncommitted_hash, uncommitted_txn_root, txn_count) := on_token_tracker tr_reject_batch in
  let! n := get in
  if (txn_count =? 0)%Z
     || bool_decide (uncommitted_root_hash (X:=X) (bn_ledger n) = uncommitted_txn_root)
     || bool_decide (st_headHash (bn_state n) = uncommitted_hash)
  then ret tt
  else
    on_ledger_state (modify (fun lt => (lt.1, st_revertToHead lt.2 uncommitted_hash))) ;;;
    on_ledger_state (modify (fun lt => (discardTxns (X:=X) lt.1 txn_count, lt.2))) ;;;
    on_bn_cache kv_reject_batch ;;;
    ret tt.

(** The loop that adds the fee transactions to the replies. *)
Fixpoint attach_fees (seq_nos : list Z) (committed_token_txns : list X) (i : nat) (txns : list X)
    : res (list X) :=
  match txns with
  | [] => Ok []
  | t :: txns' =>
      if bool_decide (get_seq_no t ∈ seq_nos) then
        match committed_token_txns !! i with
        | None => Raise IndexError
        | Some f =>
            let? rest := attach_fees seq_nos committed_token_txns (S i) txns' in
            Ok (set_fees_entry t f :: rest)
        end
      else
        let? rest := attach_fees seq_nos committed_token_txns i txns' in
        Ok (t :: rest)
  end.

Definition seq_nos_with_fees (self : BatchFeesTracker) (committed_txns : list X) : list Z :=
  get_seq_no <$> List.filter (fun t => has_deducted_fees self (get_type t) (get_seq_no t)) committed_txns.

Definition token_fake_three_pc_batch (batch : ThreePcBatch) (token_state_root token_txn_root : string)
    (seq_nos : list Z) : ThreePcBatch :=
  mkBatch TOKEN_LEDGER_ID (b_inst_id batch) (b_view_no batch) (b_pp_seq_no batch) (b_pp_time batch)
    (RootBytes token_state_root) (serialize_txn_root token_txn_root) (b_primaries batch)
    (Z.of_nat <$> seq 0 (length seq_nos)) (b_pp_digest batch).

Definition fee_commit_batch (batch : ThreePcBatch) (committed_txns : list X)
    : M (batch_node T K L R) (list X) :=
  let! (token_state_root, token_txn_root, _) := on_token_tracker tr_commit_batch in
  let! n := get in
  let seq_nos := seq_nos_with_fees (bn_fees n) committed_txns in
  if (0 <? length seq_nos)%nat then
    let! committed_token_txns :=
      on_ledger_state (commit_ledger
        (token_fake_three_pc_batch batch token_state_root token_txn_root seq_nos)) in
    on_bn_cache (commit_to_utxo_cache b58decode (RootBytes token_state_root)) ;;;
    let! txns := lift (attach_fees seq_nos committed_token_txns 0 committed_txns) in
    on_fees (set_fees_in_batch 0) ;;;
    ret txns
  else ret committed_txns.
End FeeBatchHandlers.

(** ** The UTXO cache and the batches of the token ledger *)

Inductive batch_event :=
  | Applied (batch : ThreePcBatch)
  | Rejected
  | Committed (batch : ThreePcBatch).

Section UTXOLockstep.
Context {K : Type} `{KVBatchLaws K} (b58decode : string -> res string).

Definition run_event (e : batch_event) : M K unit :=
  match e with
  | Applied b => utxo_post_batch_applied b
  | Rejected => utxo_post_batch_rejected
  | Committed b => utxo_commit_batch b58decode b
  end.

(** The queue of uncommitted roots: applying appends, rejecting drops the
    newest, committing takes the oldest and only that one. *)
Definition queue_event (e : batch_event) (q : list state_root_arg) : option (list state_root_arg) :=
  match e with
  | Applied b => Some (q ++ [b_state_root b])
  | Rejected => match reverse q with [] => None | _ :: bs => Some (reverse bs) end
  | Committed b =>
      match (match b_state_root b with RootStr s => b58decode s | RootBytes r => Ok r end), q with
      | Ok r, first :: q' => if decide (first = RootBytes r) then Some q' else None
      | _, _ => None
      end
  end.

Fixpoint queue_events (es : list batch_event) (q : list state_root_arg) : option (list state_root_arg) :=
  match es with
  | [] => Some q
  | e :: es => match queue_event e q with Some q' => queue_events es q' | None => None end
  end.

Lemma run_event_queue e k :
  match queue_event e (kv_batches k) with
  | Some q' => exists k', run_event e k = (Ok tt, k') /\ kv_batches k' = q'
  | None => exists err, run_event e k = (Raise err, k)
  end.
Proof.
  destruct e as [b| |b]; simpl.
  - eexists. split; [reflexivity|]. apply kv_batches_create.
  - unfold utxo_post_batch_rejected. destruct (kv_batches k) as [|x l _] eqn:E using rev_ind; cbn [reverse].
    + destruct (kv_batches_reject_nil k E) as [err He]. exists err. by rewrite (bind_Raise _ _ _ _ _ He).
    + rewrite reverse_snoc. destruct (kv_batches_reject k x l E) as (n & k' & Hr & Hk).
      exists k'. rewrite (bind_Ok _ _ _ _ _ Hr), reverse_involutive. done.
  - unfold utxo_commit_batch, commit_to_utxo_cache. reduce_monad.
    destruct (match b_state_root b with RootStr _ => _ | _ => _ end) as [r|err]; [|by exists err].
    rewrite kv_batches_first. destruct (kv_batches k) as [|first q] eqn:E; cbn [head].
    + rewrite decide_False by done. by eexists.
    + destruct (decide (first = RootBytes r)) as [->|Hne].
      * rewrite decide_True by done. destruct (kv_batches_commit k (RootBytes r) q E) as (k' & Hc & Hk). eauto.
      * rewrite decide_False by congruence. by eexists.
Qed.
End UTXOLockstep.

(** ** Handing the fee transactions out *)

Section Attach.
Context {X : Type} `{TxnOps X}.

(** The fee transactions in the order of the transactions that paid them. *)
Fixpoint attach_spec (paid : X -> bool) (fees txns : list X) : list X :=
  match txns, fees with
  | [], _ => []
  | t :: txns', f :: fees' =>
      if paid t then set_fees_entry t f :: attach_spec paid fees' txns' else t :: attach_spec paid fees txns'
  | t :: txns', [] => t :: attach_spec paid [] txns'
  end.

(** With distinct numbers, a transaction is recognised by its number. *)
Lemma paying_seq_nos (paid : X -> bool) txns :
  NoDup (get_seq_no <$> txns) ->
  forall x, x ∈ txns -> bool_decide (get_seq_no x ∈ get_seq_no <$> List.filter paid txns) = paid x.
Proof.
  intros Hnd x Hx. destruct (paid x) eqn:Hp.
  - apply bool_decide_true, list_elem_of_fmap_2, list_elem_of_In, filter_In. split; [|done]. by apply list_elem_of_In.
  - apply bool_decide_false. intros (y & Hxy & [Hy Hpy]%list_elem_of_In%filter_In)%list_elem_of_fmap.
    apply list_elem_of_In in Hy. assert (x = y) as ->; [|congruence].
    apply list_elem_of_lookup_1 in Hx as [i Hi]. apply list_elem_of_lookup_1 in Hy as [j Hj].
    assert (i = j) as ->; [|congruence].
    apply (NoDup_lookup (get_seq_no <$> txns) i j (get_seq_no x) Hnd); rewrite list_lookup_fmap, ?Hi, ?Hj;
      simpl; congruence.
Qed.

Lemma paying_filter (paid : X -> bool) txns :
  NoDup (get_seq_no <$> txns) ->
  List.filter (fun x => bool_decide (get_seq_no x ∈ get_seq_no <$> List.filter paid txns)) txns = List.filter paid txns.
Proof. intros Hnd. apply filter_ext_in. intros x Hx. apply paying_seq_nos; [done|]. by apply list_elem_of_In. Qed.

Lemma attach_spec_ext (f g : X -> bool) fees txns :
  (forall x, x ∈ txns -> f x = g x) -> attach_spec f fees txns = attach_spec g fees txns.
Proof.
  revert fees. induction txns as [|x txns IH]; intros fees Hfg; [done|]. cbn [attach_spec].
  rewrite Hfg by (by left). destruct fees; [|destruct (g x)]; f_equal; apply IH; intros; apply Hfg; by right.
Qed.

Lemma attach_fees_spec seq_nos fees i txns :
  length (List.filter (fun t => bool_decide (get_seq_no t ∈ seq_nos)) txns) = length (drop i fees) ->
  attach_fees seq_nos fees i txns =
    Ok (attach_spec (fun t => bool_decide (get_seq_no t ∈ seq_nos)) (drop i fees) txns).
Proof.
  revert i. induction txns as [|t txns IH]; intros i Hlen; cbn [attach_fees attach_spec List.filter] in *; [by destruct (drop i fees)|].
  destruct (bool_decide (get_seq_no t ∈ seq_nos)) eqn:Hd.
  - destruct (fees !! i) as [f|] eqn:Hf.
    + erewrite drop_S in * by exact Hf. simpl in Hlen. rewrite IH by lia. done.
    + apply lookup_ge_None in Hf. rewrite drop_ge in Hlen by done. done.
  - rewrite IH by done. by destruct (drop i fees).
Qed.
End Attach.

(** ** The fee batch handler, run *)

Section FeeRuns.
Context {T K L X R : Type} `{StateStore T} `{KVStore K} `{TxnOps X} `{LedgerOps L X} `{TrackerOps R}.
Implicit Types (n : batch_node T K L R).

Definition with_cache n (k : K) : batch_node T K L R :=
  mkBatchNode (mkFeeNode (mkDb (bn_state n) k) (bn_ledger n) (bn_fees n)) (bn_token_tracker n).
Definition with_ledger_state n (l : L) (t : T) : batch_node T K L R :=
  mkBatchNode (mkFeeNode (mkDb t (bn_cache n)) l (bn_fees n)) (bn_token_tracker n).
Definition with_fees n (f : BatchFeesTracker) : batch_node T K L R :=
  mkBatchNode (mkFeeNode (fn_db (bn_node n)) (bn_ledger n) f) (bn_token_tracker n).
Definition with_tracker n (r : R) : batch_node T K L R := mkBatchNode (bn_node n) r.

Definition tracked n : batch_node T K L R :=
  with_tracker n (tr_apply_batch (bn_token_tracker n) (st_headHash (bn_state n))
    (uncommitted_root_hash (X:=X) (bn_ledger n)) (uncommitted_size (X:=X) (bn_ledger n))).

Lemma fee_applied_eq batch n :
  fee_post_batch_applied (X:=X) batch n =
    (Ok tt, if (fees_in_current_batch (bn_fees n) >? 0)%Z
            then with_fees (with_cache (tracked n) (kv_create_batch_from_current (bn_cache n) (RootBytes (st_headHash (bn_state n)))))
                           (mkFeesTracker 0 (deducted_fees (bn_fees n)))
            else tracked n).
Proof.
  destruct n as [[[t k] l [c d]] r]. unfold fee_post_batch_applied, track_batch. reduce_monad.
  unfold bn_fees. cbn [bn_node fn_tracker fees_in_current_batch]. by destruct (c >? 0)%Z.
Qed.

Lemma fee_rejected_eq ledger_id n h root cnt r' :
  tr_reject_batch (bn_token_tracker n) = (Ok (h, root, cnt), r') ->
  fee_post_batch_rejected (X:=X) ledger_id n =
    if (cnt =? 0)%Z || bool_decide (uncommitted_root_hash (X:=X) (bn_ledger n) = root)
       || bool_decide (st_headHash (bn_state n) = h)
    then (Ok tt, with_tracker n r')
    else let '(r, k') := kv_reject_batch (bn_cache n) in
         ((let? _ := r in Ok tt),
          with_cache (with_ledger_state (with_tracker n r') (discardTxns (X:=X) (bn_ledger n) cnt)
                        (st_revertToHead (bn_state n) h)) k').
Proof.
  destruct n as [[[t k] l f] r]. cbn [bn_token_tracker]. intros Hrej.
  unfold fee_post_batch_rejected, on_token_tracker, zoom. reduce_monad. cbn [bn_token_tracker]. rewrite Hrej.
  unfold bn_ledger, bn_state, bn_cache. cbn [bn_node fn_ledger fn_db db_state db_cache fst snd].
  destruct (_ || _); [done|]. unfold on_ledger_state, on_bn_cache, zoom, modify.
  unfold bn_ledger, bn_state, bn_cache. cbn [bn_node fn_ledger fn_db db_state db_cache fst snd].
  by destruct (kv_reject_batch k) as [[z|e] k'].
Qed.

(** Without fees in the batch, committing only moves the tracker on. *)
Lemma fee_commit_none commit_ledger serialize_root b58decode batch txns n h root cnt r' :
  tr_commit_batch (bn_token_tracker n) = (Ok (h, root, cnt), r') ->
  seq_nos_with_fees (bn_fees n) txns = [] ->
  fee_commit_batch (X:=X) commit_ledger serialize_root b58decode batch txns n = (Ok txns, with_tracker n r').
Proof.
  destruct n as [[[t k] l f] r]. cbn [bn_token_tracker bn_fees bn_node fn_tracker]. intros Hc Hs.
  unfold fee_commit_batch, on_token_tracker, zoom. reduce_monad. cbn [bn_token_tracker]. rewrite Hc.
  cbn [fst snd bn_fees bn_node fn_tracker]. by rewrite Hs.
Qed.

Lemma fee_commit_some commit_ledger serialize_root b58decode batch txns n h root cnt r' fees l' t' k' :
  let seq_nos := seq_nos_with_fees (bn_fees n) txns in
  tr_commit_batch (bn_token_tracker n) = (Ok (h, root, cnt), r') ->
  seq_nos <> [] ->
  commit_ledger (token_fake_three_pc_batch serialize_root batch h root seq_nos) (bn_ledger n, bn_state n)
    = (Ok fees, (l', t')) ->
  commit_to_utxo_cache b58decode (RootBytes h) (bn_cache n) = (Ok tt, k') ->
  length fees = length (List.filter (fun t => bool_decide (get_seq_no t ∈ seq_nos)) txns) ->
  exists txns', attach_fees seq_nos fees 0 txns = Ok txns' /\
    fee_commit_batch (X:=X) commit_ledger serialize_root b58decode batch txns n =
      (Ok txns', with_fees (with_cache (with_ledger_state (with_tracker n r') l' t') k')
                           (mkFeesTracker 0 (deducted_fees (bn_fees n)))).
Proof.
  intros seq_nos Hc Hne Hcommit Hk Hlen. destruct n as [[[t k] l f] r].
  cbn [bn_token_tracker bn_fees bn_ledger bn_state bn_cache bn_node fn_tracker fn_ledger fn_db db_state db_cache] in *.
  eexists. split; [apply attach_fees_spec; by rewrite drop_0|].
  unfold fee_commit_batch, on_token_tracker, zoom. reduce_monad. cbn [bn_token_tracker]. rewrite Hc.
  cbn [fst snd bn_fees bn_node fn_tracker]. fold seq_nos.
  destruct (Nat.ltb_spec 0 (length seq_nos)) as [_|Hz]; [|exfalso; apply Hne, nil_length_inv; lia].
  unfold on_ledger_state, zoom. cbn [bn_ledger bn_state bn_node fn_ledger fn_db db_state]. rewrite Hcommit.
  unfold on_bn_cache, on_fees, zoom. reduce_monad.
  cbn [bn_cache bn_ledger bn_state bn_fees bn_token_tracker bn_node fn_db fn_ledger fn_tracker db_state db_cache fst snd].
  rewrite Hk. rewrite attach_fees_spec by (by rewrite drop_0). reflexivity.
Qed.
End FeeRuns.

(** ** Lemmas on the fee batch handler *)

Section Lemmas.
Context {T K L X R : Type} `{StateStore T} `{KVBatchLaws K} `{TxnOps X} `{LedgerOps L X} `{TrackerLaws R}.
Implicit Types (n : batch_node T K L R).

(** What [post_batch_applied] leaves. *)
Lemma fee_applied_spec batch n :
  exists n', fee_post_batch_applied (X:=X) batch n = (Ok tt, n') /\
    bn_state n' = bn_state n /\ bn_ledger n' = bn_ledger n /\
    tr_view (bn_token_tracker n') = tr_view (bn_token_tracker n) ++
      [(st_headHash (bn_state n), uncommitted_root_hash (X:=X) (bn_ledger n), uncommitted_size (X:=X) (bn_ledger n))] /\
    deducted_fees (bn_fees n') = deducted_fees (bn_fees n) /\
    if (fees_in_current_batch (bn_fees n) >? 0)%Z
    then kv_batches (bn_cache n') = kv_batches (bn_cache n) ++ [RootBytes (st_headHash (bn_state n))] /\
         fees_in_current_batch (bn_fees n') = 0%Z
    else bn_cache n' = bn_cache n /\ bn_fees n' = bn_fees n.
Proof.
  rewrite fee_applied_eq. eexists. split; [reflexivity|]. destruct n as [[[t k] l [c d]] r]. cbn.
  destruct (c >? 0)%Z; cbn; rewrite ?tr_view_apply, ?kv_batches_create; done.
Qed.

(** What [post_batch_rejected] does to the deducted fees: nothing. *)
Lemma fee_rejected_deducted ledger_id n :
  deducted_fees (bn_fees (fee_post_batch_rejected (X:=X) ledger_id n).2) = deducted_fees (bn_fees n).
Proof.
  destruct (tr_reject_batch (bn_token_tracker n)) as [[[[h root] cnt]|e] r'] eqn:Hr.
  - rewrite (fee_rejected_eq _ _ _ _ _ _ Hr). destruct (_ || _); [done|]. by destruct (kv_reject_batch _).
  - destruct n as [[[t k] l f] r]. unfold fee_post_batch_rejected, on_token_tracker, zoom. reduce_monad.
    cbn [bn_token_tracker] in *. by rewrite Hr.
Qed.
End Lemmas.

(** ** Properties *)

(** Through any sequence of applied, rejected and committed batches, the UTXO
    cache keeps exactly the queue of uncommitted roots, in order; an event that
    the queue does not allow (nothing to reject, or a root that is not the
    oldest) raises and changes nothing. *)
Theorem utxo_batches_lockstep {K} `{KVBatchLaws K} b58decode es (k : K) :
  match queue_events b58decode es (kv_batches k) with
  | Some q' => exists k', for_each es (run_event b58decode) k = (Ok tt, k') /\ kv_batches k' = q'
  | None => exists err k', for_each es (run_event b58decode) k = (Raise err, k')
  end.
Proof.
  revert k. induction es as [|e es IH]; intros k; [by exists k|]. cbn [queue_events for_each].
  pose proof (run_event_queue b58decode e k) as He.
  destruct (queue_event b58decode e (kv_batches k)) as [q|].
  - destruct He as (k1 & Hrun & <-). rewrite (bind_Ok _ _ _ _ _ Hrun). apply IH.
  - destruct He as [err Hrun]. rewrite (bind_Raise _ _ _ _ _ Hrun). eauto.
Qed.

Section Properties.
Context {T K L X R : Type} `{StateStore T} `{KVBatchLaws K} `{TxnOps X} `{LedgerOps L X} `{TrackerLaws R}.
Implicit Types (n : batch_node T K L R).

(** Rejecting undoes applying.  From a node whose last tracked roots are
    [p], a batch that took fees is applied and then rejected: the state goes
    back to the tracked hash, the ledger drops the transactions added since, the
    cache drops the batch and nothing older, and the tracker is as before. *)
Theorem fee_batch_reject_undoes batch ledger_id n v (p : string * string * Z) :
  tr_view (bn_token_tracker n) = v ++ [p] ->
  (fees_in_current_batch (bn_fees n) > 0)%Z ->
  uncommitted_size (X:=X) (bn_ledger n) <> p.2 ->
  uncommitted_root_hash (X:=X) (bn_ledger n) <> p.1.2 -> st_headHash (bn_state n) <> p.1.1 ->
  exists n1 n2, fee_post_batch_applied (X:=X) batch n = (Ok tt, n1) /\
    fee_post_batch_rejected (X:=X) ledger_id n1 = (Ok tt, n2) /\
    bn_state n2 = st_revertToHead (bn_state n) p.1.1 /\
    bn_ledger n2 = discardTxns (X:=X) (bn_ledger n) (uncommitted_size (X:=X) (bn_ledger n) - p.2) /\
    kv_batches (bn_cache n1) = kv_batches (bn_cache n) ++ [RootBytes (st_headHash (bn_state n))] /\
    kv_batches (bn_cache n2) = kv_batches (bn_cache n) /\
    tr_view (bn_token_tracker n2) = tr_view (bn_token_tracker n) /\
    fees_in_current_batch (bn_fees n2) = 0%Z.
Proof.
  intros Hv Hc Hsize Hroot Hhead.
  destruct (fee_applied_spec (X:=X) batch n) as (n1 & Hrun & Hs1 & Hl1 & Ht1 & _ & Hfees).
  rewrite (proj2 (Z.gtb_lt _ _)) in Hfees by lia. destruct Hfees as [Hk1 Hf1].
  rewrite Hv, <- app_assoc in Ht1. simpl in Ht1.
  destruct (tr_view_reject _ _ _ _ Ht1) as (r' & Hrej & Hr').
  destruct (kv_batches_reject _ _ _ Hk1) as (cnt & k' & Hkrej & Hk').
  eexists n1, _. split; [exact Hrun|]. split.
  - rewrite (fee_rejected_eq _ _ _ _ _ _ Hrej), Hs1, Hl1, Hkrej. cbn [fst snd].
    rewrite (proj2 (Z.eqb_neq _ _)) by lia. rewrite !bool_decide_false by done. reflexivity.
  - destruct n1 as [[[t1 k1] l1 f1] r1]. cbn in *. rewrite Hr', Hv. done.
Qed.

(** C24: committing a batch with fees commits the token ledger once, with one
    entry per transaction that paid, takes the oldest batch of the cache, and
    gives each of these transactions its own fee transaction, in order. *)
Theorem fee_commit_attaches commit_ledger serialize_root b58decode batch txns n p root lroot size v q fees lt' :
  tr_view (bn_token_tracker n) = p :: (root, lroot, size) :: v ->
  kv_batches (bn_cache n) = RootBytes root :: q ->
  let paid t := has_deducted_fees (bn_fees n) (get_type t) (get_seq_no t) in
  let paying := List.filter paid txns in
  NoDup (get_seq_no <$> txns) -> paying <> [] ->
  (forall fake, length (b_valid_digests fake) = length paying -> b_ledger_id fake = TOKEN_LEDGER_ID ->
     b_state_root fake = RootBytes root ->
     commit_ledger fake (bn_ledger n, bn_state n) = (Ok fees, lt')) ->
  length fees = length paying ->
  exists n', fee_commit_batch (X:=X) commit_ledger serialize_root b58decode batch txns n
               = (Ok (attach_spec paid fees txns), n') /\
    kv_batches (bn_cache n') = q /\ tr_view (bn_token_tracker n') = (root, lroot, size) :: v /\
    (bn_ledger n', bn_state n') = lt' /\ fees_in_current_batch (bn_fees n') = 0%Z.
Proof.
  intros Hv Hk paid paying Hnd Hne Hcommit Hlen.
  destruct (tr_view_commit _ _ _ _ Hv) as (r' & Htr & Hr').
  destruct (kv_batches_commit _ _ _ Hk) as (k' & Hkc & Hk').
  assert (seq_nos_with_fees (bn_fees n) txns = get_seq_no <$> paying) as Hseq by done.
  pose proof (paying_seq_nos paid txns Hnd) as Hpaid. pose proof (paying_filter paid txns Hnd) as Hfil.
  fold paying in Hpaid, Hfil.
  destruct lt' as [l' t'].
  destruct (fee_commit_some commit_ledger serialize_root b58decode batch txns n root lroot (size - p.2) r' fees l' t' k')
    as (txns' & Hatt & Hrun); rewrite ?Hseq, ?Hfil; try done.
  - by intros ?%fmap_nil_inv.
  - apply Hcommit; [|done..]. cbn [b_valid_digests token_fake_three_pc_batch].
    by rewrite length_fmap, length_seq, length_fmap.
  - unfold commit_to_utxo_cache. reduce_monad. rewrite kv_batches_first, Hk. cbn [head].
    rewrite decide_True by done. exact Hkc.
  - rewrite Hseq, attach_fees_spec in Hatt by (by rewrite drop_0, Hfil). simplify_eq.
    rewrite drop_0, (attach_spec_ext _ paid) in Hrun by done.
    eexists. split; [exact Hrun|]. done.
Qed.

(** C40: the tracker's record of a paid fee outlives the batch that is rejected:
    afterwards a transaction of the same type under the same number that paid
    nothing is taken for one that did, and committing it commits the token
    ledger. *)
Theorem deducted_fees_survive_rejection batch ledger_id n (t : X) :
  has_deducted_fees (bn_fees n) (get_type t) (get_seq_no t) = true ->
  let n1 := (fee_post_batch_applied (X:=X) batch n).2 in
  let n2 := (fee_post_batch_rejected (X:=X) ledger_id n1).2 in
  seq_nos_with_fees (bn_fees n2) [t] = [get_seq_no t].
Proof.
  intros Ht n1 n2. destruct (fee_applied_spec (X:=X) batch n) as (n1' & Hrun & _ & _ & _ & Hd & _).
  assert (deducted_fees (bn_fees n2) = deducted_fees (bn_fees n)) as Hd2.
  { unfold n2, n1. by rewrite fee_rejected_deducted, Hrun. }
  unfold seq_nos_with_fees, has_deducted_fees in *. cbn [List.filter]. by rewrite Hd2, Ht.
Qed.
End Properties.

(** ** Witnesses *)

Module ExBatch.
Definition node0 : batch_node Mem.state Mem.kv MemLedger.ledger MemLedger.tracker :=
  mkBatchNode ExDomain.node
    (MemLedger.mkTracker (st_headHash (db_state TokenHandlers.Ex.ledger), "root1", 1%Z) []).
Definition p : string * string * Z := (st_headHash (db_state TokenHandlers.Ex.ledger), "root1", 1%Z).
(** After a NYM request has paid its fee. *)
Definition node : batch_node Mem.state Mem.kv MemLedger.ledger MemLedger.tracker :=
  mkBatchNode (apply_request (X:=MemLedger.mtxn) 1 ExFees.nym_request ExDomain.nym_txn ExDomain.node).2
              (bn_token_tracker node0).
Definition batch (root : string) : ThreePcBatch := mkBatch 1 0 0 1 100 (RootBytes root) "t" [] [] "d".
Definition applied : batch_node Mem.state Mem.kv MemLedger.ledger MemLedger.tracker :=
  (fee_post_batch_applied (X:=MemLedger.mtxn) (batch "r") node).2.
Definition fee_txns : list MemLedger.mtxn := [MemLedger.mkMTxn FEE_TXN 2 None None None []].
Definition commit (b : ThreePcBatch) : M (MemLedger.ledger * Mem.state) (list MemLedger.mtxn) :=
  fun lt => (Ok fee_txns, lt).
Definition other_txn : MemLedger.mtxn := MemLedger.mkMTxn "100" 10 None None None [].
End ExBatch.

Lemma utxo_batches_lockstep_witness :
  exists k', for_each [Applied (ExBatch.batch "r1"); Applied (ExBatch.batch "r2"); Committed (ExBatch.batch "r1"); Rejected]
               (run_event (fun s => Ok s)) Mem.empty_kv = (Ok tt, k') /\ kv_batches k' = [].
Proof.
  exact (utxo_batches_lockstep (fun s => Ok s)
           [Applied (ExBatch.batch "r1"); Applied (ExBatch.batch "r2"); Committed (ExBatch.batch "r1"); Rejected]
           Mem.empty_kv).
Defined.

Lemma fee_batch_reject_undoes_witness :
  exists n1 n2, fee_post_batch_applied (X:=MemLedger.mtxn) (ExBatch.batch "r") ExBatch.node = (Ok tt, n1) /\
    fee_post_batch_rejected (X:=MemLedger.mtxn) 1 n1 = (Ok tt, n2) /\
    bn_state n2 = st_revertToHead (bn_state ExBatch.node) ExBatch.p.1.1 /\
    bn_ledger n2 = discardTxns (X:=MemLedger.mtxn) (bn_ledger ExBatch.node)
                     (uncommitted_size (X:=MemLedger.mtxn) (bn_ledger ExBatch.node) - ExBatch.p.2) /\
    kv_batches (bn_cache n1) = kv_batches (bn_cache ExBatch.node) ++ [RootBytes (st_headHash (bn_state ExBatch.node))] /\
    kv_batches (bn_cache n2) = kv_batches (bn_cache ExBatch.node) /\
    tr_view (bn_token_tracker n2) = tr_view (bn_token_tracker ExBatch.node) /\
    fees_in_current_batch (bn_fees n2) = 0%Z.
Proof.
  apply (fee_batch_reject_undoes (ExBatch.batch "r") 1 ExBatch.node [] ExBatch.p);
    first [reflexivity|vm_compute; congruence].
Defined.

Lemma fee_commit_attaches_witness :
  exists n', fee_commit_batch (X:=MemLedger.mtxn) ExBatch.commit (fun s => s) (fun s => Ok s) (ExBatch.batch "r")
               [ExBatch.other_txn; ExDomain.nym_txn] ExBatch.applied
             = (Ok [ExBatch.other_txn; MemLedger.mkMTxn "1" 9 (Some 100%Z) (Some 1%Z) None [2]%Z], n') /\
    kv_batches (bn_cache n') = [] /\
    tr_view (bn_token_tracker n') = [(st_headHash (bn_state ExBatch.node), "root2", 2%Z)] /\
    (bn_ledger n', bn_state n') = (bn_ledger ExBatch.applied, bn_state ExBatch.applied) /\
    fees_in_current_batch (bn_fees n') = 0%Z.
Proof.
  assert ([ExBatch.other_txn; MemLedger.mkMTxn "1" 9 (Some 100%Z) (Some 1%Z) None [2]%Z] =
    attach_spec (fun t => has_deducted_fees (bn_fees ExBatch.applied) (get_type t) (get_seq_no t))
      ExBatch.fee_txns [ExBatch.other_txn; ExDomain.nym_txn]) as -> by (vm_compute; reflexivity).
  refine (fee_commit_attaches (X:=MemLedger.mtxn) ExBatch.commit (fun s => s) (fun s => Ok s) (ExBatch.batch "r")
           [ExBatch.other_txn; ExDomain.nym_txn] ExBatch.applied ExBatch.p
           (st_headHash (bn_state ExBatch.node)) "root2" 2 [] [] ExBatch.fee_txns
           (bn_ledger ExBatch.applied, bn_state ExBatch.applied) _ _ _ _ _ _).
  - vm_compute; reflexivity.
  - vm_compute; reflexivity.
  - by apply (bool_decide_unpack _).
  - vm_compute; congruence.
  - reflexivity.
  - vm_compute; reflexivity.
Defined.

Lemma deducted_fees_survive_rejection_witness :
  let n1 := (fee_post_batch_applied (X:=MemLedger.mtxn) (ExBatch.batch "r") ExBatch.node).2 in
  let n2 := (fee_post_batch_rejected (X:=MemLedger.mtxn) 1 n1).2 in
  seq_nos_with_fees (bn_fees n2) [ExDomain.nym_txn] = [get_seq_no ExDomain.nym_txn].
Proof. apply (deducted_fees_survive_rejection (ExBatch.batch "r") 1 ExBatch.node ExDomain.nym_txn). reflexivity. Defined.
