(* ===== verification/ThreePhase.v ===== *)
(** * ThreePhaseCommitHandler ([sovtokenfees/three_phase_commit_handling.py])

    The fee data that the plugin adds to PRE-PREPARE, PREPARE and ORDERED
    messages of other ledgers, and the check of a received PRE-PREPARE.  The
    messages and [updateNamedTuple], the root serializers and the replica's
    ordering service are plenum's: a class of messages and parameters.
    Theorems: exactly which PRE-PREPAREs are accepted, that a replica in the
    same state accepts the primary's, and that the data travels unchanged. *)

From S2P Require Import Prelude Exceptions PyStr TokenTypes Json.

Open Scope stdpp_scope.

(** [f.PLUGIN_FIELDS.nm], [f.STATE_ROOT.nm], [f.TXN_ROOT.nm] *)
Definition PLUGIN_FIELDS : string := "plugin_fields".
Definition STATE_ROOT : string := "stateRootHash".
Definition TXN_ROOT : string := "txnRootHash".

(** A three-phase message: its ledger, its attribute [plugin_fields] ([None] when
    it has no such attribute), and [updateNamedTuple(msg, plugin_fields=v)]. *)
Class Message (A : Type) := {
  m_ledgerId : A -> Z;
  m_plugin_fields : A -> option json;
  updateNamedTuple : A -> json -> A;
}.

Class MessageLaws (A : Type) `{Message A} : Prop := {
  m_plugin_fields_update m v : m_plugin_fields (updateNamedTuple m v) = Some v;
  m_ledgerId_update m v : m_ledgerId (updateNamedTuple m v) = m_ledgerId m;
}.

(** [v.get(key, default)] on a value that should be a [dict] *)
Definition json_get (key : string) (dflt v : json) : res json :=
  match v with
  | JObj d => Ok (default dflt (alookup key d))
  | _ => Raise (AttributeError (Msg "object has no attribute 'get'" []))
  end.

(** [v != n] for an [int] [n] *)
Definition json_ne_int (v : json) (n : Z) : bool :=
  match v with
  | JInt z => negb (z =? n)%Z
  | JBool b => negb (Z.b2z b =? n)%Z
  | JFloat m e => negb (if (0 <=? e)%Z then m * 2 ^ e =? n else m =? n * 2 ^ (- e))%Z
  | _ => true
  end.

(** The string that [.encode()] or [strToHash] takes. *)
Definition json_str (v : json) : res string :=
  match v with
  | JStr s => Ok s
  | _ => Raise (AttributeError (Msg "object has no attribute 'encode'" []))
  end.

Section ThreePhaseCommitHandler.
Context {A : Type} `{Message A}.
(** The fees tracker's count, and the two roots of the token ledger as the
    ordering service prints them. *)
Context (fees_in_batch : Z) (state_root_hash txn_root_hash : string).

Definition fees_extra (count state_root txn_root : json) : json :=
  JObj [(FEES, JObj [(FEE_TXNS_IN_BATCH, count); (STATE_ROOT, state_root); (TXN_ROOT, txn_root)])].

Definition add_to_pre_prepare (pre_prepare : A) : A :=
  if negb (m_ledgerId pre_prepare =? TOKEN_LEDGER_ID)%Z && (fees_in_batch >? 0)%Z then
    updateNamedTuple pre_prepare
      (fees_extra (JInt fees_in_batch) (JStr state_root_hash) (JStr txn_root_hash))
  else pre_prepare.

Definition has_plugin_fields {B} `{Message B} (msg : B) : bool :=
  match m_plugin_fields msg with Some _ => true | None => false end.

(** The common text of [add_to_prepare] and [add_to_ordered]. *)
Definition copy_fees_data {B} `{Message B} (msg : B) (pre_prepare : A) : res B :=
  if negb (m_ledgerId pre_prepare =? TOKEN_LEDGER_ID)%Z then
    match m_plugin_fields pre_prepare with
    | None => Ok msg
    | Some plugin_fields =>
        let? pre_prepare_fees_data := json_get FEES (JObj []) plugin_fields in
        if json_truthy pre_prepare_fees_data then
          let? count := json_get FEE_TXNS_IN_BATCH JNull pre_prepare_fees_data in
          let? state_root := json_get STATE_ROOT JNull pre_prepare_fees_data in
          let? txn_root := json_get TXN_ROOT JNull pre_prepare_fees_data in
          Ok (updateNamedTuple msg (fees_extra count state_root txn_root))
        else Ok msg
    end
  else Ok msg.

Definition add_to_prepare {B} `{Message B} (prepare : B) (pre_prepare : A) : res B :=
  copy_fees_data prepare pre_prepare.

Definition add_to_ordered {B} `{Message B} (ordered : B) (pre_prepare : A) : res B :=
  copy_fees_data ordered pre_prepare.

(** [_state_root_serializer.deserialize] and [token_ledger.strToHash]; the
    head hash of the token state and the root of the token ledger. *)
Context (deserialize_root strToHash : string -> res string) (headHash uncommittedRootHash : string).

Definition mismatch (what expected found : marg) : exn :=
  OtherException (Msg "{} mismatch in PRE-PREPARE expected {}, found {}" [what; expected; found]).

Definition check_recvd_pre_prepare (pre_prepare : A) : res unit :=
  if negb (m_ledgerId pre_prepare =? TOKEN_LEDGER_ID)%Z then
    let fee_txn_count := fees_in_batch in
    if (fee_txn_count >? 0)%Z then
      match m_plugin_fields pre_prepare with
      | None => Raise (OtherException (Msg "Expected {} in PRE-PREPARE" [MStr PLUGIN_FIELDS]))
      | Some plugin_fields =>
          let? fees := json_get FEES JNull plugin_fields in
          if negb (json_truthy fees) then
            Raise (OtherException (Msg "Expected {} in PRE-PREPARE" [MStr FEES]))
          else
            let? count := json_get FEE_TXNS_IN_BATCH JNull fees in
            if json_ne_int count fee_txn_count then
              Raise (mismatch (MStr FEE_TXNS_IN_BATCH) (MInt fee_txn_count) (MVal (json_truthy count)))
            else
              let? state_root := json_get STATE_ROOT (JStr "") fees in
              let? state_root := json_str state_root in
              let? recvd_state_root := deserialize_root state_root in
              if bool_decide (recvd_state_root <> headHash) then
                Raise (mismatch (MStr STATE_ROOT) (MStr headHash) (MStr recvd_state_root))
              else
                let? txn_root := json_get TXN_ROOT (JStr "") fees in
                let? txn_root := json_str txn_root in
                let? recvd_txn_root := strToHash txn_root in
                if bool_decide (recvd_txn_root <> uncommittedRootHash) then
                  Raise (mismatch (MStr TXN_ROOT) (MStr uncommittedRootHash) (MStr recvd_txn_root))
                else Ok tt
      end
    else Ok tt
  else Ok tt.
End ThreePhaseCommitHandler.

(** ** Properties *)

(** The value [v] of [plugin_fields] carries the fee data of a replica. *)
Definition fee_data_matches (deserialize_root strToHash : string -> res string)
    (count : Z) (headHash rootHash : string) (v : json) : Prop :=
  exists d fees c s t,
    v = JObj d /\ alookup FEES d = Some (JObj fees) /\
    alookup FEE_TXNS_IN_BATCH fees = Some c /\ json_ne_int c count = false /\
    default (JStr "") (alookup STATE_ROOT fees) = JStr s /\ deserialize_root s = Ok headHash /\
    default (JStr "") (alookup TXN_ROOT fees) = JStr t /\ strToHash t = Ok rootHash.

Section Properties.
Context {A : Type} `{MessageLaws A}.

(** C28: which PRE-PREPAREs a replica accepts: those of the token ledger, all of
    them while it has no fee in the batch, and otherwise exactly those whose fee
    data has its own count and decodes to its own two roots. *)
Theorem check_recvd_pre_prepare_iff deserialize_root strToHash n headHash rootHash (pp : A) :
  check_recvd_pre_prepare n deserialize_root strToHash headHash rootHash pp = Ok tt <->
  m_ledgerId pp = TOKEN_LEDGER_ID \/ (n <= 0)%Z \/
  exists v, m_plugin_fields pp = Some v /\ fee_data_matches deserialize_root strToHash n headHash rootHash v.
Proof.
  unfold check_recvd_pre_prepare. destruct (Z.eqb_spec (m_ledgerId pp) TOKEN_LEDGER_ID) as [Hl|Hl]; cbn [negb]; [tauto|].
  rewrite Z.gtb_ltb. destruct (Z.ltb_spec 0 n) as [Hn|Hn]; [|tauto].
  split.
  - intros Hc. right; right. destruct (m_plugin_fields pp) as [v|]; [|done]. exists v. split; [done|].
    destruct v as [| | | | | |d]; try done. cbn [json_get res_bind] in Hc.
    destruct (alookup FEES d) as [f|] eqn:Hf; [|done]. cbn [default id] in Hc.
    destruct (json_truthy f) eqn:Ht; [|done]. cbn [negb] in Hc.
    destruct f as [| | | | | |fees]; try done. cbn [json_get res_bind] in Hc.
    destruct (json_ne_int _ n) eqn:Hcount; [done|].
    destruct (alookup FEE_TXNS_IN_BATCH fees) as [c|] eqn:Hfc; [|done].
    destruct (default (JStr "") (alookup STATE_ROOT fees)) as [| | | |s| |] eqn:Hs; try done.
    cbn [json_str res_bind] in Hc. destruct (deserialize_root s) as [sr|] eqn:Hd; [|done]. cbn [res_bind] in Hc.
    case_bool_decide as Hsr; [done|]. subst.
    destruct (default (JStr "") (alookup TXN_ROOT fees)) as [| | | |t| |] eqn:Htx; try done.
    cbn [json_str res_bind] in Hc. destruct (strToHash t) as [tr|] eqn:Hst; [|done]. cbn [res_bind] in Hc.
    case_bool_decide as Htr; [done|]. subst.
    exists d, fees, c, s, t. done.
  - intros [?|[?|(v & -> & d & fees & c & s & t & -> & Hf & Hc & Hcn & Hs & Hd & Ht & Htr)]]; [done|lia|].
    cbn [json_get res_bind]. rewrite Hf. cbn [default id json_get res_bind].
    assert (json_truthy (JObj fees) = true) as -> by (by destruct fees). cbn [negb].
    rewrite Hc. cbn [default id]. rewrite Hcn, Hs. cbn [json_str res_bind]. rewrite Hd. cbn [res_bind].
    rewrite bool_decide_false by tauto. rewrite Ht. cbn [json_str res_bind]. rewrite Htr. cbn [res_bind].
    by rewrite bool_decide_false by tauto.
Qed.

(** C29: what a replica decides on the PRE-PREPARE that the primary's handler has
    extended with its count of [n] fees and its two roots.  A replica that has counted
    fees itself accepts it exactly when it has counted as many and its token state
    and ledger have the primary's roots; a replica that has counted none checks
    nothing and accepts it whatever the primary counted. *)
Theorem pre_prepare_agreement deserialize_root strToHash n n' state_root txn_root sr tr headHash rootHash (pp : A) :
  m_ledgerId pp <> TOKEN_LEDGER_ID -> (0 < n)%Z ->
  deserialize_root state_root = Ok sr -> strToHash txn_root = Ok tr ->
  (check_recvd_pre_prepare n' deserialize_root strToHash headHash rootHash
     (add_to_pre_prepare n state_root txn_root pp) = Ok tt <->
   (n' <= 0)%Z \/ n' = n /\ sr = headHash /\ tr = rootHash).
Proof.
  intros Hl Hn Hs Ht. unfold add_to_pre_prepare, check_recvd_pre_prepare.
  rewrite (proj2 (Z.eqb_neq _ _) Hl), !Z.gtb_ltb, (proj2 (Z.ltb_lt _ _) Hn). cbn [negb andb].
  rewrite m_ledgerId_update, m_plugin_fields_update, (proj2 (Z.eqb_neq _ _) Hl). cbn [negb].
  destruct (Z.ltb_spec 0 n') as [Hn'|Hn']; [|tauto].
  unfold fees_extra. cbn [json_get res_bind]. simpl alookup. cbn [default id json_truthy negb json_get res_bind].
  simpl alookup. cbn [default id json_ne_int].
  destruct (Z.eqb_spec n n') as [->|Hne]; cbn [negb]; [|split; [done|intros [?|[-> _]]; [lia|done]]].
  simpl alookup. cbn [default id json_str res_bind]. rewrite Hs. cbn [res_bind].
  case_bool_decide as Hsr; [split; [done|intros [?|(_ & ? & _)]; [lia|done]]|].
  cbn [json_str res_bind]. rewrite Ht. cbn [res_bind].
  case_bool_decide as Htr; [split; [done|intros [?|(_ & _ & ?)]; [lia|done]]|]. split; [|done]. intros _. right.
  split_and!; [done|by destruct (decide (sr = headHash))|by destruct (decide (tr = rootHash))].
Qed.
End Properties.

(** PREPARE and ORDERED messages get the fee data of the PRE-PREPARE the
    handler extended, unchanged; they are left alone when it did not extend it
    and the PRE-PREPARE had no [plugin_fields]. *)
Theorem fees_data_travels {A B} `{MessageLaws A} `{MessageLaws B} n state_root txn_root (pp : A) (msg : B) :
  m_plugin_fields pp = None ->
  add_to_prepare msg (add_to_pre_prepare n state_root txn_root pp) =
    add_to_ordered msg (add_to_pre_prepare n state_root txn_root pp) /\
  exists msg', add_to_prepare msg (add_to_pre_prepare n state_root txn_root pp) = Ok msg' /\
    if negb (m_ledgerId pp =? TOKEN_LEDGER_ID)%Z && (n >? 0)%Z
    then m_plugin_fields msg' = m_plugin_fields (add_to_pre_prepare n state_root txn_root pp)
    else msg' = msg.
Proof.
  intros Hpp. split; [done|]. unfold add_to_prepare, copy_fees_data, add_to_pre_prepare.
  destruct (m_ledgerId pp =? TOKEN_LEDGER_ID)%Z eqn:Hl; cbn [negb andb].
  { rewrite Hl. cbn [negb]. eauto. }
  destruct (n >? 0)%Z.
  - rewrite m_ledgerId_update, Hl, !m_plugin_fields_update. cbn [negb]. eexists. split; [reflexivity|].
    by rewrite m_plugin_fields_update.
  - rewrite Hl, Hpp. cbn [negb]. eauto.
Qed.

(** ** Witnesses *)

Module ExMessage.
Record message := mkMessage { ledgerId : Z; fields : option json }.

#[global] Instance message_ops : Message message := {
  m_ledgerId := ledgerId; m_plugin_fields := fields;
  updateNamedTuple m v := mkMessage (ledgerId m) (Some v);
}.

#[global] Instance message_laws : MessageLaws message.
Proof. by split. Qed.

Definition pp : message := mkMessage 1 None.
End ExMessage.

Lemma check_recvd_pre_prepare_iff_witness :
  check_recvd_pre_prepare 2 (fun s => Ok s) (fun s => Ok s) "h" "r" ExMessage.pp = Ok tt <->
  m_ledgerId ExMessage.pp = TOKEN_LEDGER_ID \/ (2 <= 0)%Z \/
  exists v, m_plugin_fields ExMessage.pp = Some v /\
            fee_data_matches (fun s => Ok s) (fun s => Ok s) 2 "h" "r" v.
Proof. apply (check_recvd_pre_prepare_iff (fun s => Ok s) (fun s => Ok s) 2 "h" "r" ExMessage.pp). Defined.

Lemma pre_prepare_agreement_witness :
  (check_recvd_pre_prepare 2 (fun s => Ok s) (fun s => Ok s) "h" "r"
    (add_to_pre_prepare 2 "h" "r" ExMessage.pp) = Ok tt <->
   (2 <= 0)%Z \/ 2%Z = 2%Z /\ "h" = "h" /\ "r" = "r") /\
  (check_recvd_pre_prepare 0 (fun s => Ok s) (fun s => Ok s) "h2" "r2"
    (add_to_pre_prepare 2 "h" "r" ExMessage.pp) = Ok tt <->
   (0 <= 0)%Z \/ 0%Z = 2%Z /\ "h" = "h2" /\ "r" = "r2").
Proof.
  split.
  - by apply (pre_prepare_agreement (fun s => Ok s) (fun s => Ok s) 2 2 "h" "r" "h" "r" "h" "r" ExMessage.pp).
  - by apply (pre_prepare_agreement (fun s => Ok s) (fun s => Ok s) 2 0 "h" "r" "h" "r" "h2" "r2" ExMessage.pp).
Defined.

Lemma fees_data_travels_witness :
  add_to_prepare ExMessage.pp (add_to_pre_prepare 2 "h" "r" ExMessage.pp) =
    add_to_ordered ExMessage.pp (add_to_pre_prepare 2 "h" "r" ExMessage.pp) /\
  exists msg', add_to_prepare ExMessage.pp (add_to_pre_prepare 2 "h" "r" ExMessage.pp) = Ok msg' /\
    m_plugin_fields msg' = m_plugin_fields (add_to_pre_prepare 2 "h" "r" ExMessage.pp).
Proof. exact (fees_data_travels 2 "h" "r" ExMessage.pp ExMessage.pp eq_refl). Defined.
