(* ===== verification/Authn.v ===== *)
(** * Addresses and signatures

    The address conversions of [sovtoken/util.py], [add_sigs_to_txn]
    ([sovtoken/txn_util.py]), [TokenAuthNr] ([sovtoken/client_authnr.py]) and
    [FeesAuthNr] ([sovtokenfees/client_authnr.py]).  The base58 library, the
    signing serialization, the ed25519 verifier and the base authenticator are
    not this repository's: a class and parameters.  Theorems: the round trip of
    addresses, what an accepted payment has been signed with, every outcome of
    the signature check, and the fee requests whose signatures cannot be
    checked. *)

From S2P Require Import Prelude Exceptions PyStr TokenTypes Json.

Open Scope stdpp_scope.

(** ** base58 *)

Class Base58 := {
  b58decode : string -> res string;
  b58encode : string -> string;
  b58decode_check : string -> res string;
  b58encode_check : string -> string;
}.

Class Base58Laws `{Base58} : Prop := {
  b58decode_encode x : b58decode (b58encode x) = Ok x;
  b58decode_check_encode x : b58decode_check (b58encode_check x) = Ok x;
  (** [':'] is not a digit of base 58 *)
  b58decode_check_alphabet s x : b58decode_check s = Ok x -> has_char ":" s = false;
}.

Section Addresses.
Context `{Base58}.

Definition decode_address_to_vk_bytes (address : string) : res string :=
  res_catch (b58decode_check address)
    (fun e => if is_ValueError e
              then Some (Raise (UnknownIdentifier (Msg "{} is not a valid base58check value" [MStr address])))
              else None).

Definition address_to_verkey (address : string) : res string :=
  let? vk_bytes := decode_address_to_vk_bytes address in Ok (b58encode vk_bytes).

Definition verkey_to_address (verkey : string) : res string :=
  let? vk := b58decode verkey in Ok (b58encode_check vk).

(** The address made from a verification key leads back to that key; a
    string that is not base58check raises [UnknownIdentifier], which no
    [except ValueError] of the callers catches. *)
Theorem address_roundtrip `{!Base58Laws} bytes address :
  verkey_to_address (b58encode bytes) = Ok address ->
  address_to_verkey address = Ok (b58encode bytes) /\
  forall bad m, b58decode_check bad = Raise (ValueError m) ->
    exists e, address_to_verkey bad = Raise e /\ is_ValueError e = false.
Proof.
  unfold verkey_to_address, address_to_verkey, decode_address_to_vk_bytes. rewrite b58decode_encode.
  cbn [res_bind]. intros [= <-]. rewrite b58decode_check_encode. split; [done|].
  intros bad m ->. eexists. split; reflexivity.
Qed.
End Addresses.

(** ** The signatures of a transaction *)

(** [txn[TXN_SIGNATURE]]: the type and the list of (from, value). *)
Record txn_signature := mkTxnSignature {
  sig_type : option string;
  sig_values : option (list (string * string));
}.

Definition ED25519 : string := "ED25519".

Definition str_truthy (s : option string) : bool :=
  match s with None | Some "" => false | Some _ => true end.

Definition add_sigs_to_txn (sigs : list (string * string)) (ty : string) (t : txn_signature) : txn_signature :=
  let t := if str_truthy (sig_type t) then t else mkTxnSignature (Some ty) (sig_values t) in
  let t := match sig_values t with
           | None | Some [] => mkTxnSignature (sig_type t) (Some [])
           | Some _ => t end in
  mkTxnSignature (sig_type t) (Some (default [] (sig_values t) ++ sigs)).

(** Signatures are added after the ones the transaction already has, and the
    type is filled in once: adding in two steps is adding all at once. *)
Theorem add_sigs_to_txn_app sigs1 sigs2 ty ty' t :
  ty <> "" ->
  add_sigs_to_txn sigs2 ty' (add_sigs_to_txn sigs1 ty t) = add_sigs_to_txn (sigs1 ++ sigs2) ty t /\
  sig_values (add_sigs_to_txn sigs1 ty t) = Some (default [] (sig_values t) ++ sigs1).
Proof.
  intros Hty. destruct t as [[[|c s]|] [[|v l]|]], ty as [|c' ty]; try done;
    unfold add_sigs_to_txn; simpl; (split; [|done]); destruct sigs1; simpl; rewrite ?app_nil_r; try done;
    by rewrite <- app_assoc.
Qed.

(** ** Payment signatures *)

Section Authn.
Context `{Base58}.
(** [serialize_msg_for_signing([inp, outputs, *extra])], for extra fields of any
    type [E], and [verifier(verkey).verify(sig, ser)] *)
Context {E : Type} (serialize_msg_for_signing : PInput -> list POutput -> list E -> string).
Context (verify : string -> string -> string -> res bool).

(** One turn of the loop; the state is the pair of the correct senders and the
    incorrect signatures. *)
Definition check_signature (outputs : list POutput) (extra : list E) (inp : PInput) (sig : string)
    : M (list string * list (string * string)) unit :=
  let! sig_decoded := lift (res_catch (b58decode sig) (fun _ => Some (Raise InvalidSignatureFormat))) in
  let idr := in_address inp in
  let ser := serialize_msg_for_signing inp outputs extra in
  match address_to_verkey idr with
  | Raise e => if is_ValueError e then ret tt else raise e
  | Ok verkey =>
      let! ok := lift (verify verkey sig_decoded ser) in
      if (ok : bool) then modify (fun st => (st.1 ++ [idr], st.2))
      else modify (fun st => (st.1, aset idr sig st.2))
  end.

Definition verify_signtures_on_payments (inputs : list PInput) (outputs : list POutput)
    (signatures : list string) (extra : list E) : res (list string) :=
  match for_each (zip inputs signatures) (fun p => check_signature outputs extra p.1 p.2) ([], []) with
  | (Raise e, _) => Raise e
  | (Ok tt, (correct_sigs_from, incorrect_signatures)) =>
      if negb (length correct_sigs_from =? length inputs)%nat then
        Raise (InsufficientCorrectSignatures (Z.of_nat (length inputs))
                 (Z.of_nat (length correct_sigs_from)) incorrect_signatures)
      else Ok correct_sigs_from
  end.

(** ** Lemmas *)

(** The signature of one input is there and verifies under the key of its own
    address, for the message of this input and all the outputs. *)
Definition signed (outputs : list POutput) (extra : list E) (inp : PInput) (sig : string) : Prop :=
  exists sig_bytes verkey, b58decode sig = Ok sig_bytes /\ address_to_verkey (in_address inp) = Ok verkey /\
    verify verkey sig_bytes (serialize_msg_for_signing inp outputs extra) = Ok true.

Lemma check_signature_spec outputs extra inp sig st st' :
  check_signature outputs extra inp sig st = (Ok tt, st') ->
  (signed outputs extra inp sig /\ st'.1 = st.1 ++ [in_address inp]) \/
  (~ signed outputs extra inp sig /\ st'.1 = st.1).
Proof.
  unfold check_signature, signed. reduce_monad. destruct (b58decode sig) as [bytes|e]; cbn [res_catch]; [|done].
  destruct (address_to_verkey (in_address inp)) as [vk|e]; [|destruct (is_ValueError e); [|done]].
  - destruct (verify vk bytes _) as [[]|e] eqn:Hv; unfold modify; intros; simplify_eq/=; [left|right]; (split; [|done]).
    + by exists bytes, vk.
    + intros (b & v & ? & ? & ?). congruence.
  - intros [= <-]. right. split; [|done]. intros (b & v & ? & ? & ?). congruence.
Qed.

Lemma check_signature_signed outputs extra inp sig st :
  signed outputs extra inp sig ->
  check_signature outputs extra inp sig st = (Ok tt, (st.1 ++ [in_address inp], st.2)).
Proof.
  intros (bytes & vk & Hs & Hv & Hok). unfold check_signature. reduce_monad. rewrite Hs. cbn [res_catch].
  by rewrite Hv, Hok.
Qed.

Lemma check_loop_bound outputs extra ps st st' :
  for_each ps (fun p => check_signature outputs extra p.1 p.2) st = (Ok tt, st') ->
  (length st'.1 <= length st.1 + length ps)%nat /\
  (length st'.1 = length st.1 + length ps ->
   Forall (fun p => signed outputs extra p.1 p.2) ps /\ st'.1 = st.1 ++ (in_address <$> ps.*1))%nat.
Proof.
  revert st. induction ps as [|[inp sig] ps IH]; intros st.
  { intros [= <-]. split; [simpl; lia|]. rewrite app_nil_r. auto. }
  cbn [for_each]. unfold bind at 1. destruct (check_signature _ _ _ _ st) as [[[]|e] st1] eqn:Hc; [|done].
  intros Hrun. destruct (IH st1 Hrun) as [Hb Hall]. apply check_signature_spec in Hc as [[Hs H1]|[Hs H1]]; rewrite H1 in *.
  - rewrite length_app in *. simpl in *. split; [lia|]. intros Hlen. destruct Hall as [Hf ->]; [lia|].
    split; [by constructor|]. by rewrite <- app_assoc.
  - simpl. split; [lia|]. intros Hlen. lia.
Qed.

Lemma check_loop_signed outputs extra ps st :
  Forall (fun p => signed outputs extra p.1 p.2) ps ->
  for_each ps (fun p => check_signature outputs extra p.1 p.2) st = (Ok tt, (st.1 ++ (in_address <$> ps.*1), st.2)).
Proof.
  intros Hall. revert st. induction Hall as [|[inp sig] ps Hs _ IH]; intros st; cbn [for_each].
  - csimpl. rewrite app_nil_r. by destruct st.
  - rewrite (bind_Ok _ _ _ _ _ (check_signature_signed _ _ _ _ _ Hs)), IH. csimpl. by rewrite <- app_assoc.
Qed.
End Authn.

(** [AddressSigVerifier(verkey).verify(sig, msg)]; [nacl_verify key] is the verifier
    of stp_core for the public key [key], which its constructor may refuse. *)
Definition AddressSigVerifier_verify `{Base58} (nacl_verify : string -> string -> string -> res bool)
    (verkey sig msg : string) : res bool :=
  let? key := b58decode verkey in nacl_verify key sig msg.

Lemma signed_by_address `{Base58Laws} {E} serialize_msg nacl_verify outputs (extra : list E) inp sig :
  signed serialize_msg (AddressSigVerifier_verify nacl_verify) outputs extra inp sig <->
  exists sig_bytes key, b58decode sig = Ok sig_bytes /\ b58decode_check (in_address inp) = Ok key /\
    nacl_verify key sig_bytes (serialize_msg inp outputs extra) = Ok true.
Proof.
  unfold signed, address_to_verkey, decode_address_to_vk_bytes, AddressSigVerifier_verify. split.
  - intros (bytes & vk & Hs & Hv & Hok). exists bytes.
    destruct (b58decode_check (in_address inp)) as [key|e]; cbn [res_catch res_bind] in Hv; [|by destruct (is_ValueError e)].
    simplify_eq. rewrite b58decode_encode in Hok. by exists key.
  - intros (bytes & key & Hs & Hk & Hok). exists bytes, (b58encode key). rewrite Hk, b58decode_encode. done.
Qed.

(** The check, completely. *)
Lemma payments_signed_core `{Base58} {E} serialize_msg verify inputs outputs signatures (extra : list E) r :
  verify_signtures_on_payments serialize_msg verify inputs outputs signatures extra = Ok r <->
  r = in_address <$> inputs /\ (length inputs <= length signatures)%nat /\
  forall i inp sig, inputs !! i = Some inp -> signatures !! i = Some sig ->
    signed serialize_msg verify outputs extra inp sig.
Proof.
  assert (length (zip inputs signatures) = Nat.min (length inputs) (length signatures)) as Hzl
    by apply length_zip_with.
  unfold verify_signtures_on_payments. split.
  - destruct (for_each _ _ _) as [[[]|e] [cor inc]] eqn:Hrun; [|done].
    destruct (Nat.eqb_spec (length cor) (length inputs)) as [Hlen|]; [|done]. intros [= <-].
    destruct (check_loop_bound serialize_msg verify outputs extra _ _ _ Hrun) as [Hb Hall]. simpl in Hb, Hall.
    destruct Hall as [Hf Heq]; [lia|]. simpl in Heq.
    assert (length inputs <= length signatures)%nat as Hle by lia.
    split_and!; [|done|].
    + rewrite Heq. f_equal. by apply fst_zip.
    + intros i inp sig Hi Hs. rewrite Forall_forall in Hf. apply (Hf (inp, sig)).
      apply (list_elem_of_lookup_2 _ i). apply lookup_zip_with_Some. by exists inp, sig.
  - intros (-> & Hle & Hall).
    rewrite check_loop_signed.
    + simpl. rewrite fst_zip by done. rewrite length_fmap, Nat.eqb_refl. done.
    + apply Forall_forall. intros [inp sig] (i & Hi)%list_elem_of_lookup_1.
      apply lookup_zip_with_Some in Hi as (x & y & [= -> ->] & Hx & Hy). by apply (Hall i).
Qed.

(** C19: a payment is accepted under [AddressSigVerifier] exactly when each input
    has a signature that the ed25519 verifier accepts, over this input, all the
    outputs and the extra fields, under the public key that the input's own address
    encodes: one signature short, under another key or over other outputs, and it
    is refused.  Accepted, it gives back the addresses of the inputs, in order. *)
Theorem payments_signed_by_address `{Base58Laws} {E} serialize_msg nacl_verify inputs outputs signatures
    (extra : list E) r :
  verify_signtures_on_payments serialize_msg (AddressSigVerifier_verify nacl_verify) inputs outputs signatures extra = Ok r <->
  r = in_address <$> inputs /\ (length inputs <= length signatures)%nat /\
  forall i inp sig, inputs !! i = Some inp -> signatures !! i = Some sig ->
    exists sig_bytes key, b58decode sig = Ok sig_bytes /\ b58decode_check (in_address inp) = Ok key /\
      nacl_verify key sig_bytes (serialize_msg inp outputs extra) = Ok true.
Proof.
  rewrite payments_signed_core. split; intros (Hr & Hle & Hall); (split_and!; [done|done|]); intros i inp sig Hi Hs;
    specialize (Hall i inp sig Hi Hs); by apply signed_by_address.
Qed.

(** The other outcomes of the check.  A signature that is not base58 raises
    [InvalidSignatureFormat] and an input whose address is not base58check
    raises, both at the first such input; when every signature and address can
    be read and the verifier answers, too few correct signatures raise
    [InsufficientCorrectSignatures] with the two counts. *)
Theorem payments_rejected `{Base58} {E} serialize_msg verify inputs outputs signatures (extra : list E) :
  (forall i inp sig, inputs !! i = Some inp -> signatures !! i = Some sig ->
     (exists s, b58decode sig = Ok s) /\ (exists vk, address_to_verkey (in_address inp) = Ok vk)) ->
  (forall vk s ser, exists b, verify vk s ser = Ok b) ->
  match verify_signtures_on_payments serialize_msg verify inputs outputs signatures extra with
  | Ok r => r = in_address <$> inputs
  | Raise e => exists n incorrect, (n < length inputs)%nat /\
      e = InsufficientCorrectSignatures (Z.of_nat (length inputs)) (Z.of_nat n) incorrect
  end.
Proof.
  intros Hread Hver.
  destruct (verify_signtures_on_payments _ _ _ _ _ _) as [r|e] eqn:Hv.
  { by apply payments_signed_core in Hv as [? _]. }
  assert (forall st, exists st', for_each (zip inputs signatures)
    (fun p => check_signature serialize_msg verify outputs extra p.1 p.2) st = (Ok tt, st')) as Hrun.
  { assert (Forall (fun p => (exists s, b58decode p.2 = Ok s) /\
                             exists vk, address_to_verkey (in_address p.1) = Ok vk) (zip inputs signatures)) as Hall.
    { apply Forall_forall. intros [inp sig] (i & Hi)%list_elem_of_lookup_1.
      apply lookup_zip_with_Some in Hi as (x & y & [= -> ->] & Hx & Hy). by apply (Hread i). }
    clear Hv Hread. induction Hall as [|[inp sig] ps [[s Hs] [vk Hvk]] _ IH]; intros st; [by exists st|].
    cbn [for_each fst snd] in *. unfold bind at 1, check_signature at 1. reduce_monad. rewrite Hs. cbn [res_catch].
    rewrite Hvk. destruct (Hver vk s (serialize_msg inp outputs extra)) as [[] ->]; unfold modify; apply IH. }
  unfold verify_signtures_on_payments in Hv. destruct (Hrun ([], [])) as [[cor inc] Hr]. rewrite Hr in Hv.
  destruct (Nat.eqb_spec (length cor) (length inputs)) as [|Hne]; [done|]. simplify_eq/=.
  exists (length cor), inc. split; [|done].
  destruct (check_loop_bound serialize_msg verify outputs extra _ _ _ Hr) as [Hb _]. simpl in Hb.
  rewrite length_zip_with in Hb. lia.
Qed.

(** ** TokenAuthNr and FeesAuthNr *)

(** [req_data]: the entries the authenticators read.  [ad_extra] and [ad_taa] are
    [operation.get("extra")] and [req_data.get("taaAcceptance")]. *)
Record auth_data := mkAuthData {
  ad_operation : operation;
  ad_reqId : marg;
  ad_extra : json;
  ad_taa : json;
}.

(** The verifier class an authenticator uses: the caller's, or a default. *)
Inductive verifier_class := DidVerifier | AddressSigVerifier | OtherVerifier (name : string).

Section TokenAuthNr.
Context `{Base58} (serialize_msg_for_signing : PInput -> list POutput -> list json -> string).
Context (verify : verifier_class -> string -> string -> string -> res bool).
(** [LedgerBasedAuthNr.authenticate] and [LedgerBasedAuthNr.getVerkey] *)
Context {Rq : Type}.
Context (super_authenticate : auth_data -> marg -> marg -> verifier_class -> res (list string)).
Context (super_getVerkey : string -> Rq -> res string).

Definition authenticate_xfer (req_data : auth_data) (verifier : verifier_class) : res (list string) :=
  let op := ad_operation req_data in
  let extra_fields := (if json_truthy (ad_extra req_data) then [ad_extra req_data] else []) ++
                      (if json_truthy (ad_taa req_data) then [ad_taa req_data] else []) in
  let? inputs := dict_item INPUTS (op_inputs op) in
  let? outputs := dict_item OUTPUTS (op_outputs op) in
  let? sigs := dict_item SIGS (op_sigs op) in
  verify_signtures_on_payments serialize_msg_for_signing (verify verifier) inputs outputs sigs extra_fields.

(** [None] is a call that falls through to the end of the method. *)
Definition token_authenticate (req_data : auth_data) (identifier signature : marg)
    (verifier : option verifier_class) : res (option (list string)) :=
  if bool_decide (op_type (ad_operation req_data) = MINT_PUBLIC) then
    let? r := super_authenticate req_data identifier signature (default DidVerifier verifier) in Ok (Some r)
  else if bool_decide (op_type (ad_operation req_data) = XFER_PUBLIC) then
    let? r := authenticate_xfer req_data (default AddressSigVerifier verifier) in Ok (Some r)
  else Ok None.

Definition getVerkey (ident : string) (req : Rq) : res string :=
  if negb ((String.length ident =? 21) || (String.length ident =? 22))%nat then
    let? vk := address_to_verkey ident in
    if ((String.length vk =? 43) || (String.length vk =? 44))%nat then Ok vk
    else super_getVerkey ident req
  else super_getVerkey ident req.

(** [FeesAuthNr.authenticate]: the exception is given the request id where
    [InvalidClientRequest] takes the identifier, and the other way round. *)
Definition fees_authenticate (req_data : auth_data) (identifier signature : marg)
    (verifier : option verifier_class) : res (list string) :=
  let txn_type := op_type (ad_operation req_data) in
  if bool_decide (txn_type = SET_FEES) then
    super_authenticate req_data identifier signature (default DidVerifier verifier)
  else Raise (InvalidClientRequest (ad_reqId req_data) identifier
                (Msg "txn type is {} not {}" [MStr txn_type; MStr SET_FEES])).

(** [FeesAuthNr.verify_signature] on the request [msg.cmsg] with its digest. *)
Definition verify_signature (req : request) (payload_digest : json) : res (option (list string)) :=
  match req_fees req with
  | FeesMissing => Ok None
  | FeesIsNone => Raise (TypeError (Msg "'NoneType' object is not subscriptable" []))
  | FeesIs (Fees3 ins outs sigs) =>
      let? r := verify_signtures_on_payments serialize_msg_for_signing (verify AddressSigVerifier)
                  ins outs sigs [payload_digest] in
      Ok (Some r)
  | FeesIs _ => Raise IndexError
  end.

(** C38: a transfer is authenticated exactly when it has inputs, outputs and
    signatures and every input is signed, over the [extra] entry and the
    agreement acceptance when they are there; a mint goes to the base
    authenticator; every other type passes unchecked with no result. *)
Theorem token_authenticate_iff req_data identifier signature verifier r :
  let op := ad_operation req_data in
  let extra := List.filter json_truthy [ad_extra req_data; ad_taa req_data] in
  token_authenticate req_data identifier signature verifier = Ok r <->
  (op_type op = MINT_PUBLIC /\
     exists l, super_authenticate req_data identifier signature (default DidVerifier verifier) = Ok l /\ r = Some l) \/
  (op_type op = XFER_PUBLIC /\
     exists inputs outputs sigs,
       op_inputs op = Some inputs /\ op_outputs op = Some outputs /\ op_sigs op = Some sigs /\
       r = Some (in_address <$> inputs) /\ (length inputs <= length sigs)%nat /\
       forall i inp sig, inputs !! i = Some inp -> sigs !! i = Some sig ->
         signed serialize_msg_for_signing (verify (default AddressSigVerifier verifier)) outputs extra inp sig) \/
  (op_type op <> MINT_PUBLIC /\ op_type op <> XFER_PUBLIC /\ r = None).
Proof.
  intros op extra. unfold token_authenticate. fold op.
  case_bool_decide as Hm; [|case_bool_decide as Hx].
  - assert (op_type op <> XFER_PUBLIC) by (rewrite Hm; done).
    destruct (super_authenticate _ _ _ _) as [l|e]; simpl; naive_solver.
  - unfold authenticate_xfer. fold op.
    assert ((if json_truthy (ad_extra req_data) then [ad_extra req_data] else []) ++
            (if json_truthy (ad_taa req_data) then [ad_taa req_data] else []) = extra) as ->.
    { unfold extra. simpl. by destruct (json_truthy (ad_extra req_data)), (json_truthy (ad_taa req_data)). }
    rewrite res_bind_Ok. setoid_rewrite res_bind_Ok.
    split.
    + intros (l & (inputs & Hi & Hrest) & [= <-]). right; left. split; [done|].
      destruct (op_inputs op) as [ins|]; simplify_eq/=.
      destruct (op_outputs op) as [outs|]; simplify_eq/=. destruct (op_sigs op) as [sigs|]; simplify_eq/=.
      apply payments_signed_core in Hrest as (-> & Hle & Hall). by exists inputs, outs, sigs.
    + intros [[? _]|[(_ & inputs & outputs & sigs & Hi & Ho & Hs & -> & Hle & Hall)|(_ & ? & _)]]; [done| |done].
      exists (in_address <$> inputs). split; [|done]. exists inputs. rewrite Hi, Ho, Hs. split; [done|].
      simpl. by apply payments_signed_core.
  - naive_solver.
Qed.

(** The fee signatures of a request are accepted exactly when it has no fees,
    or has all three parts and every fee input is signed over the change and the
    request's digest; a request whose [fees] is [None], which static validation
    allows and [has_fees] treats as no fees, raises [TypeError] here. *)
Theorem verify_signature_outcomes req digest :
  match req_fees req with
  | FeesMissing => verify_signature req digest = Ok None
  | FeesIsNone => exists m, verify_signature req digest = Raise (TypeError m)
  | FeesIs (Fees3 ins outs sigs) =>
      forall r, verify_signature req digest = Ok r <->
        r = Some (in_address <$> ins) /\ (length ins <= length sigs)%nat /\
        forall i inp sig, ins !! i = Some inp -> sigs !! i = Some sig ->
          signed serialize_msg_for_signing (verify AddressSigVerifier) outs [digest] inp sig
  | FeesIs _ => verify_signature req digest = Raise IndexError
  end.
Proof.
  unfold verify_signature. destruct (req_fees req) as [| |[]]; eauto. intros r. rewrite res_bind_Ok. split.
  - intros (l & (-> & Hrest)%payments_signed_core & [= <-]). done.
  - intros (-> & Hrest). exists (in_address <$> ins). split; [by apply payments_signed_core|done].
Qed.

(** Which key a request is checked with: identifiers of 21 or 22 characters
    are resolved by the base authenticator; another identifier must be
    base58check, and names its own key when this has 43 or 44 characters. *)
Theorem getVerkey_outcomes ident req :
  (String.length ident = 21%nat \/ String.length ident = 22%nat ->
     getVerkey ident req = super_getVerkey ident req) /\
  (String.length ident <> 21%nat -> String.length ident <> 22%nat ->
     match address_to_verkey ident with
     | Raise e => getVerkey ident req = Raise e
     | Ok vk => getVerkey ident req =
         if decide (String.length vk = 43%nat \/ String.length vk = 44%nat) then Ok vk
         else super_getVerkey ident req
     end).
Proof.
  unfold getVerkey. split.
  - intros [-> | ->]; done.
  - intros H1 H2. rewrite (proj2 (Nat.eqb_neq _ _) H1), (proj2 (Nat.eqb_neq _ _) H2). cbn [orb negb].
    destruct (address_to_verkey ident) as [vk|]; cbn [res_bind]; [|done].
    destruct (Nat.eqb_spec (String.length vk) 43) as [->|]; [done|].
    destruct (Nat.eqb_spec (String.length vk) 44) as [->|]; [done|].
    rewrite decide_False by lia. done.
Qed.
End TokenAuthNr.

(** ** Witnesses *)

Module ExBase58.
(** A base58 without digits: texts are their own encoding, and a checked text
    starts with ["c"] and has [':'] escaped. *)
Fixpoint escape (s : string) : string :=
  match s with
  | EmptyString => ""
  | String c s =>
      if decide (c = ":"%char) then String "\" (String "c" (escape s))
      else if decide (c = "\"%char) then String "\" (String "\" (escape s))
      else String c (escape s)
  end.

Fixpoint unescape (s : string) : option string :=
  match s with
  | EmptyString => Some ""
  | String c s =>
      if decide (c = ":"%char) then None
      else if decide (c = "\"%char) then
        match s with
        | String e s => if decide (e = "c"%char) then String ":" <$> unescape s
                        else if decide (e = "\"%char) then String "\" <$> unescape s else None
        | EmptyString => None
        end
      else String c <$> unescape s
  end.

Lemma unescape_escape s : unescape (escape s) = Some s.
Proof.
  induction s as [|c s IH]; [done|]. cbn [escape]. repeat case_decide; subst; cbn [unescape].
  - by rewrite decide_False, decide_True, decide_True, IH by done.
  - by rewrite decide_False, decide_True, decide_False, decide_True, IH by done.
  - by rewrite !decide_False, IH by done.
Qed.

Lemma unescape_alphabet s x : unescape s = Some x -> has_char ":" s = false.
Proof.
  remember (String.length s) as n eqn:Hn. revert s x Hn. induction n as [n IH] using lt_wf_ind.
  intros [|c s] x ->; [done|]. cbn [unescape has_char]. case_decide as Hc; [done|].
  rewrite (bool_decide_false (c = _)) by done. simpl. case_decide.
  - destruct s as [|e s]; [done|]. cbn [has_char].
    intros Hs. assert (e <> ":"%char /\ exists y, unescape s = Some y) as [He [y Hy]].
    { repeat case_decide; subst; try done; apply fmap_Some in Hs as (y & Hy & _); by eauto. }
    rewrite (bool_decide_false (e = _)) by done. simpl. eapply IH; [|done|exact Hy]. simpl. lia.
  - intros (y & Hy & _)%fmap_Some. eapply IH; [|done|exact Hy]. simpl. lia.
Qed.

#[global] Instance base58 : Base58 := {
  b58decode s := Ok s;
  b58encode s := s;
  b58decode_check s :=
    match next_char "c" s with
    | Some s => match unescape s with
                | Some s => Ok s
                | None => Raise (ValueError (Msg "Invalid character" []))
                end
    | None => Raise (ValueError (Msg "Invalid checksum" []))
    end;
  b58encode_check s := String "c" (escape s);
}.

#[global] Instance base58_laws : Base58Laws.
Proof.
  split; [done| |]; simpl.
  - intros x. by rewrite unescape_escape.
  - intros s x. destruct (next_char "c" s) as [s'|] eqn:E; [|done]. apply next_char_app in E as ->.
    destruct (unescape s') as [y|] eqn:Hu; [|done]. intros _. cbn [has_char].
    rewrite bool_decide_false by done. by apply (unescape_alphabet s' y).
Qed.

Definition verify (vk sig ser : string) : res bool := Ok (bool_decide (sig = vk +:+ ser)).
Definition ser (i : PInput) (o : list POutput) (e : list json) : string := py_str (in_seqNo i).
End ExBase58.

Lemma address_roundtrip_witness :
  address_to_verkey "ckey" = Ok (b58encode "key") /\
  forall bad m, b58decode_check bad = Raise (ValueError m) ->
    exists e, address_to_verkey bad = Raise e /\ is_ValueError e = false.
Proof. by apply (address_roundtrip "key" "ckey"). Defined.

Lemma add_sigs_to_txn_app_witness :
  add_sigs_to_txn [("b", "2")] ED25519 (add_sigs_to_txn [("a", "1")] ED25519 (mkTxnSignature None None)) =
    add_sigs_to_txn ([("a", "1")] ++ [("b", "2")]) ED25519 (mkTxnSignature None None) /\
  sig_values (add_sigs_to_txn [("a", "1")] ED25519 (mkTxnSignature None None)) = Some ([] ++ [("a", "1")]).
Proof. by apply (add_sigs_to_txn_app [("a", "1")] [("b", "2")] ED25519 ED25519 (mkTxnSignature None None)). Defined.

Lemma payments_rejected_witness :
  match verify_signtures_on_payments ExBase58.ser ExBase58.verify [mkInput "ckey" 1] [] ["forged"] [] with
  | Ok r => r = in_address <$> [mkInput "ckey" 1]
  | Raise e => exists n incorrect, (n < length [mkInput "ckey" 1])%nat /\
      e = InsufficientCorrectSignatures (Z.of_nat (length [mkInput "ckey" 1])) (Z.of_nat n) incorrect
  end.
Proof.
  apply (payments_rejected ExBase58.ser ExBase58.verify [mkInput "ckey" 1] [] ["forged"] []).
  - intros [|[]] inp sig Hi Hs; simplify_eq/=; split; by eexists.
  - intros. by eexists.
Defined.

Lemma payments_signed_by_address_witness :
  let inp := mkInput "cabc" 7 in
  verify_signtures_on_payments ExBase58.ser (AddressSigVerifier_verify ExBase58.verify) [inp] [] ["abc7"] [] = Ok ["cabc"] <->
  ["cabc"] = in_address <$> [inp] /\ (length [inp] <= length ["abc7"])%nat /\
  forall i inp' sig, [inp] !! i = Some inp' -> ["abc7"] !! i = Some sig ->
    exists sig_bytes key, b58decode sig = Ok sig_bytes /\ b58decode_check (in_address inp') = Ok key /\
      ExBase58.verify key sig_bytes (ExBase58.ser inp' [] []) = Ok true.
Proof.
  apply (payments_signed_by_address ExBase58.ser ExBase58.verify [mkInput "cabc" 7] [] ["abc7"] [] ["cabc"]).
Defined.
