(* ===== verification/AuthRules.v ===== *)
(** * AuthRuleFeeHandler and AuthRulesFeeHandler

    [sovtokenfees/req_handlers/write_handlers/auth_rule_fee_handler.py] and
    [auth_rules_fee_handler.py]: an auth rule may only name fee aliases that
    [SET_FEES] has defined.  indy's constraints are read through
    [StaticAuthRuleHelper.get_auth_constraint], a parameter.  Theorems: exactly
    which rules are refused, and with which aliases. *)

From S2P Require Import Prelude Exceptions PyStr TokenTypes Stores Json GetUtxo FeesState FeesAuthorizer.

Open Scope stdpp_scope.

(** [AuthConstraint]: the role constraint with its [metadata], the forbidden one,
    and the combinations (AND, OR) of others. *)
Inductive auth_constraint :=
  | RoleConstraint (metadata : dict)
  | ForbiddenConstraint
  | CombinedConstraint (auth_constraints : list auth_constraint).

(** [v in current_fees] for the dictionary of the fees *)
Definition in_fees (v current_fees : json) : res bool :=
  match current_fees with
  | JObj d =>
      match v with
      | JStr a => Ok (ahas a d)
      | JArr _ | JObj _ => Raise (TypeError (Msg "unhashable type" []))
      | _ => Ok false
      end
  | _ => Raise (TypeError (Msg "argument is not iterable" []))
  end.

(** [validate_metadata]; the state is the list [wrong_aliases]. *)
Fixpoint validate_metadata (current_fees : json) (c : auth_constraint) : M (list json) unit :=
  match c with
  | ForbiddenConstraint => ret tt
  | CombinedConstraint auth_constraints =>
      (fix loop (cs : list auth_constraint) : M (list json) unit :=
         match cs with
         | [] => ret tt
         | constr :: cs => validate_metadata current_fees constr ;;; loop cs
         end) auth_constraints
  | RoleConstraint metadata =>
      let meta_alias := get_default_none FEES_FIELD_NAME metadata in
      if json_truthy meta_alias then
        let! found := lift (in_fees meta_alias current_fees) in
        if (found : bool) then ret tt else modify (fun wrong => wrong ++ [meta_alias])
      else ret tt
  end.

(** [", ".join(wrong_aliases)] takes strings only. *)
Fixpoint join_args (l : list json) : res (list string) :=
  match l with
  | [] => Ok []
  | JStr s :: l => let? r := join_args l in Ok (s :: r)
  | _ => Raise (TypeError (Msg "sequence item: expected str instance" []))
  end.

(** The elements a [for] loop gives. *)
Definition json_iter (v : json) : res (list json) :=
  match v with
  | JArr l => Ok l
  | JObj d => Ok (JStr <$> d.*1)
  | JStr s => Ok ((fun c => JStr (String c "")) <$> String.list_ascii_of_string s)
  | _ => Raise (TypeError (Msg "object is not iterable" []))
  end.

Definition RULES : string := "rules".

Section Handlers.
Context {T : Type} `{StateStore T} `{Serializer}.
Context (get_auth_constraint : json -> res auth_constraint).

(** The check of one constraint, which both handlers make. *)
Definition check_constraint (req : raw_request) (current_fees : json) (c : auth_constraint) : res unit :=
  match validate_metadata current_fees c [] with
  | (Raise e, _) => Raise e
  | (Ok tt, wrong_aliases) =>
      if (0 <? length wrong_aliases)%nat then
        let? names := join_args wrong_aliases in
        Raise (InvalidClientMessageException (raw_identifier req) (raw_reqId req)
          (Msg "Fees alias(es) {} does not exist in current fees {}. Please add the alias(es) via SET_FEES transaction first."
               [MStrs names; MVal (json_truthy current_fees)]))
      else Ok tt
  end.

(** [AuthRuleFeeHandler.fees_specific_validation], the whole of its
    [dynamic_validation]. *)
Definition auth_rule_fees_specific_validation (config_state : T) (req : raw_request) : res unit :=
  let? current_fees := get_fees config_state false in
  let? constraint := get_auth_constraint (JObj (raw_operation req)) in
  check_constraint req current_fees constraint.

Fixpoint map_res {A B} (f : A -> res B) (l : list A) : res (list B) :=
  match l with
  | [] => Ok []
  | x :: l => let? y := f x in let? ys := map_res f l in Ok (y :: ys)
  end.

Fixpoint check_constraints (req : raw_request) (current_fees : json) (cs : list auth_constraint) : res unit :=
  match cs with
  | [] => Ok tt
  | c :: cs => let? _ := check_constraint req current_fees c in check_constraints req current_fees cs
  end.

(** [AuthRulesFeeHandler.fees_specific_validation] *)
Definition auth_rules_fees_specific_validation (config_state : T) (req : raw_request) : res unit :=
  let? current_fees := get_fees config_state false in
  let? rules := get_item RULES (raw_operation req) in
  let? rules := json_iter rules in
  let? constraints := map_res get_auth_constraint rules in
  check_constraints req current_fees constraints.
End Handlers.

(** ** Lemmas *)

Section Induction.
Variable P : auth_constraint -> Prop.
Hypothesis P_role : forall metadata, P (RoleConstraint metadata).
Hypothesis P_forbidden : P ForbiddenConstraint.
Hypothesis P_combined : forall cs, Forall P cs -> P (CombinedConstraint cs).

Fixpoint auth_constraint_nested_ind (c : auth_constraint) : P c :=
  match c with
  | RoleConstraint metadata => P_role metadata
  | ForbiddenConstraint => P_forbidden
  | CombinedConstraint cs =>
      P_combined cs ((fix loop (cs : list auth_constraint) : Forall P cs :=
        match cs with
        | [] => Forall_nil_2 P
        | c :: cs => Forall_cons_2 P c cs (auth_constraint_nested_ind c) (loop cs)
        end) cs)
  end.
End Induction.

(** The aliases that the role constraints of a rule name, left to right. *)
Fixpoint role_aliases (c : auth_constraint) : list json :=
  match c with
  | RoleConstraint metadata => [get_default_none FEES_FIELD_NAME metadata]
  | ForbiddenConstraint => []
  | CombinedConstraint cs => flat_map role_aliases cs
  end.

(** An alias is missing, empty or null, or a string. *)
Definition alias_ok (v : json) : Prop :=
  json_truthy v = false \/ exists a, v = JStr a.

Definition unknown_alias (d : dict) (v : json) : list string :=
  match v with JStr a => if bool_decide (a <> "") && negb (ahas a d) then [a] else [] | _ => [] end.

(** The aliases of a rule that the table [d] does not have. *)
Definition unknown_aliases (d : dict) (c : auth_constraint) : list string :=
  flat_map (unknown_alias d) (role_aliases c).

Lemma validate_metadata_spec d c wrong :
  Forall alias_ok (role_aliases c) ->
  validate_metadata (JObj d) c wrong = (Ok tt, wrong ++ (JStr <$> unknown_aliases d c)).
Proof.
  unfold unknown_aliases. revert wrong. induction c as [metadata| |cs IH] using auth_constraint_nested_ind; intros wrong.
  - intros Ha. apply Forall_cons in Ha as [Ha _]. cbn [validate_metadata role_aliases flat_map].
    destruct Ha as [Hf|[a Ha]].
    + rewrite Hf. assert (unknown_alias d (get_default_none FEES_FIELD_NAME metadata) = []) as ->.
      { destruct (get_default_none _ _) as [| | | |a| |]; try done. simpl in *. by case_bool_decide; subst. }
      by rewrite app_nil_r.
    + rewrite Ha. cbn [json_truthy unknown_alias]. destruct (decide (a = "")) as [->|Hne].
      { simpl. by rewrite app_nil_r. }
      rewrite bool_decide_false, bool_decide_true by done. cbn [negb in_fees andb].
      reduce_monad. destruct (ahas a d); cbn [negb app]; [by rewrite app_nil_r|done].
  - intros _. simpl. by rewrite app_nil_r.
  - cbn [validate_metadata role_aliases]. revert wrong. induction IH as [|c cs Hc _ IH]; intros wrong Ha.
    + simpl. by rewrite app_nil_r.
    + cbn [flat_map] in *. apply Forall_app in Ha as [Ha1 Ha2].
      unfold bind at 1. rewrite Hc by done. rewrite IH by done.
      by rewrite flat_map_app, fmap_app, app_assoc.
Qed.

Lemma join_args_strs l : join_args (JStr <$> l) = Ok l.
Proof. induction l as [|s l IH]; [done|]. csimpl. by rewrite IH. Qed.

Lemma check_constraint_spec req d c :
  Forall alias_ok (role_aliases c) ->
  match unknown_aliases d c with
  | [] => check_constraint req (JObj d) c = Ok tt
  | l => exists m, check_constraint req (JObj d) c =
           Raise (InvalidClientMessageException (raw_identifier req) (raw_reqId req) (Msg m [MStrs l; MVal (json_truthy (JObj d))]))
  end.
Proof.
  intros Ha. unfold check_constraint. rewrite validate_metadata_spec by done. rewrite app_nil_l, length_fmap, join_args_strs.
  destruct (unknown_aliases d c); simpl; [done|]. by eexists.
Qed.

Lemma get_fees_table {T} `{StateStore T} `{Serializer} (t : T) d :
  stored_table t d -> get_fees t false = Ok (JObj d).
Proof.
  intros Hd. destruct (stored_table_read t d Hd) as (v & Hv & _ & Hcase). unfold get_fees. rewrite Hv.
  destruct Hcase as [->|[-> ->]]; done.
Qed.

(** ** Properties *)

Section Properties.
Context {T : Type} `{StateStore T} `{Serializer} (get_auth_constraint : json -> res auth_constraint).

(** An [AUTH_RULE] request is refused exactly when a role constraint of its
    rule, at any depth, names an alias that is not in the table of fees; the
    exception lists these aliases, in order. *)
Theorem auth_rule_outcome (t : T) d req c :
  stored_table t d -> get_auth_constraint (JObj (raw_operation req)) = Ok c ->
  Forall alias_ok (role_aliases c) ->
  match unknown_aliases d c with
  | [] => auth_rule_fees_specific_validation get_auth_constraint t req = Ok tt
  | l => exists m, auth_rule_fees_specific_validation get_auth_constraint t req =
           Raise (InvalidClientMessageException (raw_identifier req) (raw_reqId req) (Msg m [MStrs l; MVal (json_truthy (JObj d))]))
  end.
Proof.
  intros Hd Hc Ha. unfold auth_rule_fees_specific_validation. rewrite (get_fees_table t d Hd), Hc.
  cbn [res_bind]. by apply check_constraint_spec.
Qed.

(** C39: an [AUTH_RULES] request is accepted exactly when none of its rules names
    an unknown alias; otherwise the first rule that does is reported. *)
Theorem auth_rules_outcome (t : T) d req rules cs :
  stored_table t d -> alookup RULES (raw_operation req) = Some (JArr rules) ->
  map_res get_auth_constraint rules = Ok cs ->
  Forall (fun c => Forall alias_ok (role_aliases c)) cs ->
  match List.filter (fun c => match unknown_aliases d c with [] => false | _ => true end) cs with
  | [] => auth_rules_fees_specific_validation get_auth_constraint t req = Ok tt
  | c :: _ => exists m, auth_rules_fees_specific_validation get_auth_constraint t req =
      Raise (InvalidClientMessageException (raw_identifier req) (raw_reqId req)
               (Msg m [MStrs (unknown_aliases d c); MVal (json_truthy (JObj d))]))
  end.
Proof.
  intros Hd Hr Hcs Ha. unfold auth_rules_fees_specific_validation, get_item.
  rewrite (get_fees_table t d Hd), Hr. cbn [dict_item res_bind json_iter]. rewrite Hcs. cbn [res_bind].
  clear Hr Hcs. induction Ha as [|c cs Hc _ IH]; [done|]. cbn [List.filter check_constraints].
  pose proof (check_constraint_spec req d c Hc) as Hcheck. destruct (unknown_aliases d c) as [|a l] eqn:E.
  - rewrite Hcheck. exact IH.
  - destruct Hcheck as [m ->]. cbv iota. rewrite E. by exists m.
Qed.
End Properties.

(** ** Witnesses *)

Definition ex_constraint : auth_constraint :=
  CombinedConstraint [RoleConstraint [(FEES_FIELD_NAME, JStr "nym")]; ForbiddenConstraint;
                      CombinedConstraint [RoleConstraint []; RoleConstraint [(FEES_FIELD_NAME, JStr "schema")]]].

Definition ex_rule_request : raw_request :=
  mkRawRequest (Some "did") (Some 3%Z) [(RULES, JArr [JNull; JNull])].

Lemma ex_stored_table : stored_table ExFees.config (fees_dict [("nym", 4%Z)]).
Proof. vm_compute. reflexivity. Qed.

Lemma ex_aliases_ok : Forall alias_ok (role_aliases ex_constraint).
Proof.
  simpl. apply Forall_cons_2; [right; by eexists|]. apply Forall_cons_2; [by left|].
  apply Forall_cons_2; [right; by eexists|]. apply Forall_nil_2.
Qed.

Lemma auth_rule_outcome_witness :
  exists m, auth_rule_fees_specific_validation (fun _ => Ok ex_constraint) ExFees.config ex_rule_request =
    Raise (InvalidClientMessageException (Some "did") (Some 3%Z) (Msg m [MStrs ["schema"]; MVal true])).
Proof.
  exact (auth_rule_outcome (fun _ => Ok ex_constraint) ExFees.config (fees_dict [("nym", 4%Z)]) ex_rule_request
           ex_constraint ex_stored_table eq_refl ex_aliases_ok).
Defined.

Lemma auth_rules_outcome_witness :
  exists m, auth_rules_fees_specific_validation (fun _ => Ok ex_constraint) ExFees.config ex_rule_request =
    Raise (InvalidClientMessageException (Some "did") (Some 3%Z) (Msg m [MStrs ["schema"]; MVal true])).
Proof.
  exact (auth_rules_outcome (fun _ => Ok ex_constraint) ExFees.config (fees_dict [("nym", 4%Z)]) ex_rule_request
           [JNull; JNull] [ex_constraint; ex_constraint] ex_stored_table eq_refl eq_refl
           (Forall_cons_2 _ _ _ ex_aliases_ok (Forall_cons_2 _ _ _ ex_aliases_ok (Forall_nil_2 _)))).
Defined.
