(* ===== verification/Validation.v ===== *)
(** * Static validation

    [sovtoken/messages/fields.py], [txn_validator.py], [validation.py] and the
    payment fields of [sovtokenfees/messages/fields.py]: the checks that a
    request of untyped JSON passes before the handlers read it.  The field
    classes they derive from ([FieldBase], [IterableField], ...) are plenum's: a
    class of operations with the documented behaviour as laws.  A validator
    returns [None] or a message, or raises.  Theorems: an accepted operation has
    the typed form the handlers work with, and the distinctness that the
    theorems about the handlers assume. *)

From S2P Require Import Prelude Exceptions PyStr TokenTypes Json Authn.

Open Scope stdpp_scope.

Abbreviation validator := (json -> res (option message)).

Inductive base_type := TStr | TInt | TDict | TList.

(** [isinstance(v, t)]; [bool] is a subclass of [int]. *)
Definition has_type (v : json) (t : base_type) : bool :=
  match v, t with
  | JStr _, TStr | JInt _, TInt | JBool _, TInt | JObj _, TDict | JArr _, TList => true
  | _, _ => false
  end.

(** The integer a value is to Python. *)
Definition as_int (v : json) : option Z :=
  match v with JInt z => Some z | JBool b => Some (Z.b2z b) | _ => None end.

(** ** plenum's fields *)

Class Fields := {
  (** [FieldBase(nullable).validate(v)] of a field with these base types and this
      [_specific_validation] *)
  FieldBase_validate : list base_type -> bool -> validator -> validator;
  AnyMapField_specific : validator;
  IterableField_specific : validator -> option nat -> option nat -> validator;
  FixedLengthField_specific : nat -> validator;
  TxnSeqNoField_validate : validator;
  SignatureField_validate : validator;
  MapField_specific : validator -> validator -> validator;
  NonEmptyStringField_validate : validator;
  NonNegativeNumberField_validate : validator;
  ConstantField_validate : string -> validator;
  LimitedLengthStringField_validate : Z -> validator;
  (** the constructor of a [MessageBase] class with this schema *)
  MessageBase_init : list (string * validator) -> dict -> res unit;
}.

Definition within (min max : option nat) (n : nat) : bool :=
  match min with Some k => (k <=? n)%nat | None => true end &&
  match max with Some k => (n <=? k)%nat | None => true end.

Class FieldsLaws `{Fields} : Prop := {
  FieldBase_accepts ts nullable f v :
    FieldBase_validate ts nullable f v = Ok None ->
    (nullable = true /\ v = JNull) \/
    ((exists t, t ∈ ts /\ has_type v t = true) /\ f v = Ok None);
  FieldBase_typed ts nullable f v t :
    t ∈ ts -> has_type v t = true -> (forall b, v <> JBool b) ->
    FieldBase_validate ts nullable f v = f v;
  AnyMapField_ok v : AnyMapField_specific v = Ok None;
  IterableField_iff f min max l :
    IterableField_specific f min max (JArr l) = Ok None <->
    within min max (length l) = true /\ Forall (fun v => f v = Ok None) l;
  FixedLengthField_iff n l : FixedLengthField_specific n (JArr l) = Ok None <-> length l = n;
  TxnSeqNoField_accepts v :
    TxnSeqNoField_validate v = Ok None -> exists n, as_int v = Some n /\ (0 < n)%Z;
  TxnSeqNoField_int n : (0 < n)%Z -> TxnSeqNoField_validate (JInt n) = Ok None;
  MapField_iff key value d :
    MapField_specific key value (JObj d) = Ok None <->
    Forall (fun k => key (JStr k) = Ok None) d.*1 /\ Forall (fun v => value v = Ok None) d.*2;
  NonEmptyStringField_accepts s : NonEmptyStringField_validate (JStr s) = Ok None -> s <> "";
  NonNegativeNumberField_accepts v :
    NonNegativeNumberField_validate v = Ok None -> exists n, as_int v = Some n /\ (0 <= n)%Z;
  MessageBase_accepts schema d :
    MessageBase_init schema d = Ok tt ->
    Forall (fun kv => exists v, alookup kv.1 d = Some v /\ kv.2 v = Ok None) schema;
}.

(** [if error: return error; ...]; an empty message would be false as well, but
    the validators have none. *)
Definition and_then (r : res (option message)) (k : res (option message)) : res (option message) :=
  match r with Ok None => k | _ => r end.

(** [if error: return "prefix -- " + error] *)
Definition prefixed (prefix : string) (r : res (option message)) : res (option message) :=
  match r with Ok (Some m) => Ok (Some (Msg (prefix +:+ " -- {}") [MMsg m])) | _ => r end.

Section Fields.
Context `{Fields} `{Base58}.

(** ** [sovtoken/messages/fields.py] *)

Definition PublicAddressField_specific : validator := fun val =>
  match val with
  | JStr s =>
      match decode_address_to_vk_bytes s with
      | Ok vk => if (String.length vk =? 32)%nat then Ok None
                 else Ok (Some (Msg "Not a valid address as it resolves to {} byte verkey"
                                    [MInt (Z.of_nat (String.length vk))]))
      | Raise e => if is_ValueError e then Ok (Some (Msg "{}" [MExn e])) else Raise e
      end
  | _ => Raise (TypeError (Msg "argument should be bytes or ASCII string" []))
  end.

Definition PublicAddressField_validate : validator :=
  FieldBase_validate [TStr] false PublicAddressField_specific.

Definition PublicAmountField_specific : validator := fun val =>
  match as_int val with
  | Some n => if (n <=? 0)%Z then Ok (Some (Msg "negative or zero value" [])) else Ok None
  | None => Raise (TypeError (Msg "'<=' not supported" []))
  end.

Definition PublicAmountField_validate : validator :=
  FieldBase_validate [TInt] false PublicAmountField_specific.

Definition PublicOutputField_specific : validator := fun val =>
  and_then (AnyMapField_specific val)
    (let? address := json_item "address" val in
     and_then (prefixed "address" (PublicAddressField_validate address))
       (let? amount := json_item "amount" val in
        prefixed "amount" (PublicAmountField_validate amount))).

Definition PublicOutputField_validate : validator :=
  FieldBase_validate [TDict] false PublicOutputField_specific.

(** A value as an element of a Python set; strings and integers are what the
    validated elements hold. *)
Definition set_key (v : json) : res (string + Z) :=
  match v with
  | JStr s => Ok (inl s)
  | JInt z => Ok (inr z)
  | JBool b => Ok (inr (Z.b2z b))
  | _ => Raise (TypeError (Msg "unhashable type" []))
  end.

Definition json_elements (v : json) : res (list json) :=
  match v with JArr l => Ok l | _ => Raise (TypeError (Msg "object is not iterable" [])) end.

Fixpoint set_of {A} `{EqDecision A} (key : json -> res A) (l : list json) : res (list A) :=
  match l with
  | [] => Ok []
  | x :: l => let? k := key x in let? s := set_of key l in Ok (if decide (k ∈ s) then s else k :: s)
  end.

Definition output_key (a : json) : res (string + Z) :=
  let? address := json_item "address" a in set_key address.

Definition PublicOutputsField_specific (min_length max_length : option nat) : validator := fun val =>
  and_then (IterableField_specific PublicOutputField_validate min_length max_length val)
    (let? elements := json_elements val in
     let? set := set_of output_key elements in
     if (length elements =? length set)%nat then Ok None
     else Ok (Some (Msg "Each output should contain unique address" []))).

Definition PublicOutputsField_validate (min_length max_length : option nat) : validator :=
  FieldBase_validate [TList] false (PublicOutputsField_specific min_length max_length).

Definition PublicInputField_specific : validator := fun val =>
  and_then (AnyMapField_specific val)
    (let? address := json_item "address" val in
     and_then (prefixed "address" (PublicAddressField_validate address))
       (let? seq_no := json_item "seqNo" val in
        prefixed "seqNo" (TxnSeqNoField_validate seq_no))).

Definition PublicInputField_validate : validator :=
  FieldBase_validate [TDict] false PublicInputField_specific.

Definition input_key (a : json) : res ((string + Z) * (string + Z)) :=
  let? address := json_item "address" a in
  let? address := set_key address in
  let? seq_no := json_item "seqNo" a in
  let? seq_no := set_key seq_no in
  Ok (address, seq_no).

Definition PublicInputsField_specific (min_length max_length : option nat) : validator := fun val =>
  and_then (IterableField_specific PublicInputField_validate min_length max_length val)
    (let? elements := json_elements val in
     let? set := set_of input_key elements in
     if (length elements =? length set)%nat then Ok None
     else Ok (Some (Msg "Each input should be unique" []))).

Definition PublicInputsField_validate (min_length max_length : option nat) : validator :=
  FieldBase_validate [TList] false (PublicInputsField_specific min_length max_length).

(** ** [sovtokenfees/messages/fields.py]: the field [fees] of a request, which is
    nullable in [CLIENT_REQUEST_FIELDS] *)

Definition TxnFeesField_specific : validator := fun val =>
  and_then (prefixed "fees" (FixedLengthField_specific 3 val))
    (let? inputs := json_index 0 val in
     and_then (prefixed "inputs" (PublicInputsField_validate (Some 1%nat) None inputs))
       (let? outputs := json_index 1 val in
        and_then (prefixed "outputs" (PublicOutputsField_validate None (Some (Z.to_nat MAX_FEE_OUTPUTS)) outputs))
          (let? sigs := json_index 2 val in
           and_then (prefixed "signatures"
                       (FieldBase_validate [TList] false (IterableField_specific SignatureField_validate None None) sigs))
             (let? n_inputs := json_len inputs in
              let? n_sigs := json_len sigs in
              if (n_inputs =? n_sigs)%Z then Ok None
              else Ok (Some (Msg "signatures -- Number of signatures and number of inputs should match but are {} and {} respectively."
                                 [MInt n_sigs; MInt n_inputs])))))).

Definition TxnFeesField_validate : validator := FieldBase_validate [TList] true TxnFeesField_specific.

(** The fields that the plugin adds to every client request ([sovtokenfees/__init__.py]). *)
Definition CLIENT_REQUEST_FIELDS : list (string * validator) := [("fees", TxnFeesField_validate)].

(** ** [sovtoken/messages/txn_validator.py] *)

Definition request_error {A} (req : raw_request) (reason : message) : res A :=
  Raise (InvalidClientRequest (match raw_identifier req with Some s => MStr s | None => MNone end)
                              (match raw_reqId req with Some n => MInt n | None => MNone end) reason).

(** [if key not in operation: raise ...] *)
Definition present (req : raw_request) (key : string) : res json :=
  match alookup key (raw_operation req) with
  | Some v => Ok v
  | None => request_error req (Msg "{} needs to be present" [MStr key])
  end.

Definition PUBLIC_OUTPUT_VALIDATOR : validator :=
  FieldBase_validate [TList] false (IterableField_specific PublicOutputField_validate None None).
Definition PUBLIC_OUTPUTS_VALIDATOR : validator := PublicOutputsField_validate None None.
Definition PUBLIC_INPUTS_VALIDATOR : validator := PublicInputsField_validate None None.
Definition FROM_VALIDATOR : validator := TxnSeqNoField_validate.

Definition outputs_validate (req : raw_request) : res (option message) :=
  let? outputs := present req OUTPUTS in PUBLIC_OUTPUTS_VALIDATOR outputs.

Definition inputs_validate (req : raw_request) : res (option message) :=
  let? inputs := present req INPUTS in
  let? sigs := present req SIGS in
  let? n_inputs := json_len inputs in
  let? n_sigs := json_len sigs in
  if negb (n_inputs =? n_sigs)%Z then request_error req (Msg "all inputs should have signatures" [])
  else PUBLIC_INPUTS_VALIDATOR inputs.

Definition from_validate (req : raw_request) : res (option message) :=
  match alookup FROM_SEQNO (raw_operation req) with
  | Some from_seqno =>
      let? error := FROM_VALIDATOR from_seqno in
      Ok (match error with
          | Some m => Some (Msg "'{}' validation failed: {}" [MStr FROM_SEQNO; MMsg m])
          | None => None end)
  | None => Ok None
  end.

(** [address_validate] raises its error; it has no other result. *)
Definition address_validate (req : raw_request) : res (option message) :=
  let? error := (match alookup ADDRESS (raw_operation req) with
                 | None => Ok (Some (Msg "{} needs to be provided" [MStr ADDRESS]))
                 | Some v => PublicAddressField_validate v
                 end) in
  match error with Some m => request_error req m | None => Ok None end.

Definition TXN_TYPE : string := "type".

Definition is_type (req : raw_request) (ty : string) : res bool :=
  let? t := get_item TXN_TYPE (raw_operation req) in
  Ok (match t with JStr s => bool_decide (s = ty) | _ => false end).

Definition txn_mint_public_validate (req : raw_request) : res (option message) :=
  let? mint := is_type req MINT_PUBLIC in
  if (mint : bool) then
    let? error := outputs_validate req in
    match error with
    | Some m => Ok (Some m)
    | None =>
        let? outputs := get_item OUTPUTS (raw_operation req) in
        let? n := json_len outputs in
        if (n =? 0)%Z then request_error req (Msg "Outputs for a mint request can't be empty." [])
        else Ok None
    end
  else Ok None.

Definition txn_xfer_public_validate (req : raw_request) : res (option message) :=
  let? xfer := is_type req XFER_PUBLIC in
  if (xfer : bool) then
    let? error := outputs_validate req in
    match error with Some m => Ok (Some m) | None => inputs_validate req end
  else Ok None.

Definition txt_get_utxo_validate (req : raw_request) : res (option message) :=
  let? get_utxo := is_type req GET_UTXO in
  if (get_utxo : bool) then
    let? error := address_validate req in
    match error with Some m => Ok (Some m) | None => from_validate req end
  else Ok None.

(** ** [sovtoken/messages/validation.py], and the [static_validation] of the
    handlers, which is its inner step *)

Definition TXN_STATIC_VALIDATION_MAP : list (string * (raw_request -> res (option message))) :=
  [(MINT_PUBLIC, txn_mint_public_validate); (XFER_PUBLIC, txn_xfer_public_validate);
   (GET_UTXO, txt_get_utxo_validate)].

(** [error = f(request); if error: raise InvalidClientRequest(...)] *)
Definition raise_error (f : raw_request -> res (option message)) (req : raw_request) : res unit :=
  let? error := f req in
  match error with Some m => request_error req m | None => Ok tt end.

(** The exception gets the type as an argument of its own, not in its text. *)
Definition invalid_type (req : raw_request) (txn_type : marg) : res unit :=
  Raise (InvalidClientRequest4 (match raw_identifier req with Some s => MStr s | None => MNone end)
           (match raw_reqId req with Some n => MInt n | None => MNone end)
           (Msg "Invalid type in operation" []) txn_type).

(** [None] is an argument that is not a [Request]. *)
Definition static_req_validation (r : option raw_request) : res unit :=
  match r with
  | None => Raise (InvalidClientRequest MNone MNone (Msg "Invalid request - was not Request type" []))
  | Some req =>
      match get_default_none TXN_TYPE (raw_operation req) with
      | JStr t =>
          if bool_decide (t ∈ ACCEPTABLE_TXN_TYPES) then
            match alookup t TXN_STATIC_VALIDATION_MAP with
            | Some f => raise_error f req
            | None => Raise (KeyError t)
            end
          else invalid_type req (MStr t)
      | JNull => invalid_type req MNone
      | v => invalid_type req (MVal (json_truthy v))
      end
  end.

(** ** The messages of [sovtokenfees/messages/fields.py] and the static validation
    of [SetFeesHandler] and [GetFeeHandler] *)

Definition FEES_ALIAS : string := "alias".
Definition FEES_VALUE : string := "value".

(** The types that may pay fees: a transfer, NYM, ATTRIB, SCHEMA, CRED_DEF,
    REVOC_REG_DEF and REVOC_REG_ENTRY.  Nothing reads this list. *)
Definition ALLOWED_FEES_TXNS : list string := [XFER_PUBLIC; "1"; "100"; "101"; "102"; "113"; "114"].

Definition SetFeesField_specific : validator := fun val =>
  match MapField_specific NonEmptyStringField_validate NonNegativeNumberField_validate val with
  | Ok (Some error) => Ok (Some (Msg "set_fees -- {}" [MMsg error]))
  | r => r
  end.

Definition SetFeesField_validate : validator := FieldBase_validate [TDict] false SetFeesField_specific.

Definition SetFeesMsg_schema : list (string * validator) :=
  [(TXN_TYPE, ConstantField_validate SET_FEES); (FEES, SetFeesField_validate)].

Definition GetFeeMsg_schema : list (string * validator) :=
  [(TXN_TYPE, ConstantField_validate GET_FEE);
   (FEES_ALIAS, LimitedLengthStringField_validate FEE_ALIAS_LENGTH)].

(** [try: cls( **request.operation) except TypeError as exc: raise InvalidClientRequest(...)] *)
Definition message_static_validation (schema : list (string * validator)) (req : raw_request) : res unit :=
  match MessageBase_init schema (raw_operation req) with
  | Raise (TypeError m) => request_error req (Msg "{}" [MMsg m])
  | r => r
  end.

Definition set_fees_static_validation (req : raw_request) : res unit := message_static_validation SetFeesMsg_schema req.
Definition get_fee_static_validation (req : raw_request) : res unit := message_static_validation GetFeeMsg_schema req.

Definition mint_static_validation (req : raw_request) : res unit := raise_error txn_mint_public_validate req.
Definition xfer_static_validation (req : raw_request) : res unit := raise_error txn_xfer_public_validate req.
Definition get_utxo_static_validation (req : raw_request) : res unit := raise_error txt_get_utxo_validate req.
End Fields.

(** ** Typed views of validated values *)

Definition parse_output (v : json) : option POutput :=
  match v with
  | JObj d =>
      match alookup "address" d, alookup "amount" d with
      | Some (JStr a), Some x => mkPOutput a <$> as_int x
      | _, _ => None
      end
  | _ => None
  end.

Definition parse_input (v : json) : option PInput :=
  match v with
  | JObj d =>
      match alookup "address" d, alookup "seqNo" d with
      | Some (JStr a), Some x => mkInput a <$> as_int x
      | _, _ => None
      end
  | _ => None
  end.

Definition enc_output (o : POutput) : json :=
  JObj [("address", JStr (po_address o)); ("amount", JInt (po_amount o))].
Definition enc_input (i : PInput) : json :=
  JObj [("address", JStr (in_address i)); ("seqNo", JInt (in_seqNo i))].

Definition valid_address `{Base58} (a : string) : Prop :=
  exists vk, decode_address_to_vk_bytes a = Ok vk /\ String.length vk = 32%nat.

Definition outputs_ok `{Base58} (outs : list POutput) : Prop :=
  NoDup (po_address <$> outs) /\ Forall (fun o => (0 < po_amount o)%Z /\ valid_address (po_address o)) outs.

Definition inputs_ok `{Base58} (ins : list PInput) : Prop :=
  NoDup ins /\ Forall (fun i => (0 < in_seqNo i)%Z /\ valid_address (in_address i)) ins.

(** ** Lemmas *)

Lemma and_then_None r k : and_then r k = Ok None <-> r = Ok None /\ k = Ok None.
Proof. destruct r as [[]|]; simpl; naive_solver. Qed.

Lemma prefixed_None p r : prefixed p r = Ok None <-> r = Ok None.
Proof. destruct r as [[]|]; simpl; naive_solver. Qed.

Lemma set_of_spec {A} `{EqDecision A} (key : json -> res A) l s :
  set_of key l = Ok s ->
  exists ks, Forall2 (fun x k => key x = Ok k) l ks /\ (forall k, k ∈ s <-> k ∈ ks) /\
    (length s <= length l)%nat /\ (length s = length l <-> NoDup ks).
Proof.
  revert s. induction l as [|x l IH]; intros s.
  { intros [= <-]. exists []. split_and!; [constructor|done|done|]. split; [constructor|done]. }
  cbn [set_of]. rewrite res_bind_Ok. intros (k & Hk & Hs). apply res_bind_Ok in Hs as (s' & Hs' & [= <-]).
  destruct (IH s' Hs') as (ks & Hf & Hin & Hle & Hiff). exists (k :: ks). split_and!.
  - by constructor.
  - intros k'. case_decide as Hd; set_solver.
  - case_decide; simpl; lia.
  - rewrite NoDup_cons, <- Hiff, <- Hin. case_decide as Hd; simpl; split; intros; [lia|tauto|split; [done|lia]|lia].
Qed.

Lemma set_of_total {A} `{EqDecision A} (key : json -> res A) l ks :
  Forall2 (fun x k => key x = Ok k) l ks -> exists s, set_of key l = Ok s.
Proof.
  induction 1 as [|x k l ks Hk _ [s IH]]; [by eexists|]. cbn [set_of]. rewrite Hk, IH. cbn [res_bind]. by eexists.
Qed.

Section Lemmas.
Context `{FieldsLaws} `{Base58}.

Lemma FieldBase_not_null ts f v :
  FieldBase_validate ts false f v = Ok None -> (exists t, t ∈ ts /\ has_type v t = true) /\ f v = Ok None.
Proof. intros [[? ?]|?]%FieldBase_accepts; done. Qed.

Lemma address_field_sound v :
  PublicAddressField_validate v = Ok None -> exists a, v = JStr a /\ valid_address a.
Proof.
  intros [_ Hs]%FieldBase_not_null. destruct v as [| | | |a| |]; try done. exists a. split; [done|].
  unfold PublicAddressField_specific in Hs. destruct (decode_address_to_vk_bytes a) as [vk|e] eqn:Hd.
  - exists vk. split; [done|]. destruct (Nat.eqb_spec (String.length vk) 32); done.
  - by destruct (is_ValueError e).
Qed.

Lemma address_field_complete a : valid_address a -> PublicAddressField_validate (JStr a) = Ok None.
Proof.
  intros (vk & Hd & Hl). unfold PublicAddressField_validate.
  rewrite (FieldBase_typed _ _ _ _ TStr) by (done || by left). simpl. by rewrite Hd, Hl.
Qed.

Lemma amount_field_sound v :
  PublicAmountField_validate v = Ok None -> exists n, as_int v = Some n /\ (0 < n)%Z.
Proof.
  intros [_ Hs]%FieldBase_not_null. unfold PublicAmountField_specific in Hs.
  destruct (as_int v) as [n|]; [|done]. exists n. split; [done|]. destruct (Z.leb_spec n 0); [done|lia].
Qed.

Lemma output_field_sound v :
  PublicOutputField_validate v = Ok None ->
  exists o, parse_output v = Some o /\ output_key v = Ok (inl (po_address o)) /\
            (0 < po_amount o)%Z /\ valid_address (po_address o).
Proof.
  intros [_ [_ Hs]%and_then_None]%FieldBase_not_null.
  destruct v as [| | | | | |d]; try done. simpl in Hs. unfold get_item, dict_item in Hs.
  destruct (alookup "address" d) as [x|] eqn:Ha; [|done]. cbn [res_bind] in Hs.
  apply and_then_None in Hs as [(a & -> & Hv)%prefixed_None%address_field_sound Hs].
  destruct (alookup "amount" d) as [y|] eqn:Hy; [|done]. cbn [res_bind] in Hs.
  apply prefixed_None, amount_field_sound in Hs as (n & Hn & Hpos).
  exists (mkPOutput a n). unfold parse_output, output_key, json_item, get_item, dict_item. rewrite Ha, Hy, Hn. done.
Qed.

Lemma output_field_complete o :
  (0 < po_amount o)%Z -> valid_address (po_address o) -> PublicOutputField_validate (enc_output o) = Ok None.
Proof.
  intros Hpos Hv. unfold PublicOutputField_validate.
  rewrite (FieldBase_typed _ _ _ _ TDict) by (done || by left).
  apply and_then_None. split; [apply AnyMapField_ok|]. cbn. apply and_then_None.
  split; [by apply prefixed_None, address_field_complete|]. apply prefixed_None. unfold PublicAmountField_validate.
  rewrite (FieldBase_typed _ _ _ _ TInt) by (done || by left). unfold PublicAmountField_specific. cbn.
  by rewrite (proj2 (Z.leb_gt _ _) Hpos).
Qed.

Lemma input_field_sound v :
  PublicInputField_validate v = Ok None ->
  exists i, parse_input v = Some i /\ input_key v = Ok (inl (in_address i), inr (in_seqNo i)) /\
            (0 < in_seqNo i)%Z /\ valid_address (in_address i).
Proof.
  intros [_ [_ Hs]%and_then_None]%FieldBase_not_null.
  destruct v as [| | | | | |d]; try done. simpl in Hs. unfold get_item, dict_item in Hs.
  destruct (alookup "address" d) as [x|] eqn:Ha; [|done]. cbn [res_bind] in Hs.
  apply and_then_None in Hs as [(a & -> & Hv)%prefixed_None%address_field_sound Hs].
  destruct (alookup "seqNo" d) as [y|] eqn:Hy; [|done]. cbn [res_bind] in Hs.
  apply prefixed_None, TxnSeqNoField_accepts in Hs as (n & Hn & Hpos).
  exists (mkInput a n). unfold parse_input, input_key, json_item, get_item, dict_item. rewrite Ha, Hy. cbn [res_bind set_key].
  destruct y; simplify_eq/=; done.
Qed.

Lemma input_field_complete i :
  (0 < in_seqNo i)%Z -> valid_address (in_address i) -> PublicInputField_validate (enc_input i) = Ok None.
Proof.
  intros Hpos Hv. unfold PublicInputField_validate.
  rewrite (FieldBase_typed _ _ _ _ TDict) by (done || by left).
  apply and_then_None. split; [apply AnyMapField_ok|]. cbn. apply and_then_None.
  split; [by apply prefixed_None, address_field_complete|]. by apply prefixed_None, TxnSeqNoField_int.
Qed.

(** The two list fields are the same check with another element and key. *)
Section ListField.
Context {O K : Type} `{EqDecision K} (element : validator) (parse : json -> option O) (key : json -> res K) (key_of : O -> K).
Context (good : O -> Prop) (err : message).
Context (element_sound : forall v, element v = Ok None ->
  exists o, parse v = Some o /\ key v = Ok (key_of o) /\ good o).

Definition list_field (min max : option nat) : validator := fun val =>
  and_then (IterableField_specific element min max val)
    (let? elements := json_elements val in
     let? set := set_of key elements in
     if (length elements =? length set)%nat then Ok None else Ok (Some err)).

Lemma list_field_sound min max l :
  list_field min max (JArr l) = Ok None ->
  exists os, Forall2 (fun v o => parse v = Some o) l os /\ within min max (length os) = true /\
    NoDup (key_of <$> os) /\ Forall good os.
Proof.
  intros [[Hw Hall]%IterableField_iff Hs]%and_then_None. cbn [json_elements res_bind] in Hs.
  apply res_bind_Ok in Hs as (s & Hset & Hlen). destruct (Nat.eqb_spec (length l) (length s)) as [Heq|]; [|done].
  destruct (set_of_spec _ _ _ Hset) as (ks & Hks & _ & _ & Hnd).
  assert (exists os, Forall2 (fun v o => parse v = Some o) l os /\ ks = key_of <$> os /\ Forall good os) as (os & Hf & -> & Hg).
  { clear -Hall Hks element_sound. induction Hks as [|v k l ks Hk _ IH]; [exists []; split_and!; constructor|].
    apply Forall_cons in Hall as [Hv Hall]. destruct (IH Hall) as (os & Hf & -> & Hg).
    destruct (element_sound v Hv) as (o & Ho & Hko & Hgo). exists (o :: os).
    split_and!; [by constructor|csimpl; f_equal; congruence|by constructor]. }
  exists os. split_and!; [done| |by apply Hnd|done]. by rewrite <- (Forall2_length _ _ _ Hf).
Qed.

Lemma list_field_complete enc min max (os : list O) :
  (forall o, good o -> element (enc o) = Ok None) -> (forall o, key (enc o) = Ok (key_of o)) ->
  within min max (length os) = true -> Forall good os ->
  (list_field min max (JArr (enc <$> os)) = Ok None <-> NoDup (key_of <$> os)).
Proof.
  intros He Hk Hw Hg. unfold list_field. rewrite and_then_None.
  assert (Forall2 (fun x k => key x = Ok k) (enc <$> os) (key_of <$> os)) as Hks.
  { clear -Hk. induction os; constructor; [apply Hk|done]. }
  destruct (set_of_total key _ _ Hks) as [s Hs]. cbn [json_elements res_bind]. rewrite Hs. cbn [res_bind].
  destruct (set_of_spec _ _ _ Hs) as (ks & Hks' & _ & _ & Hnd).
  assert (ks = key_of <$> os) as ->.
  { clear -Hks Hks'. revert ks Hks'. induction Hks as [|x k l ks' Hxk _ IH]; intros ks Hks'; inversion Hks'; [done|].
    f_equal; [congruence|by apply IH]. }
  rewrite <- Hnd. destruct (Nat.eqb_spec (length (enc <$> os)) (length s)) as [Heq|Hne].
  - split; [done|]. intros _. split; [|done]. apply IterableField_iff. split; [by rewrite length_fmap|].
    apply Forall_fmap. eapply Forall_impl; [exact Hg|]. intros o Ho. by apply He.
  - split; [by intros [_ ?]|]. intros. congruence.
Qed.
End ListField.

Lemma Forall2_mapM {O} (parse : json -> option O) l os :
  Forall2 (fun v o => parse v = Some o) l os -> mapM parse l = Some os.
Proof. intros Hf. by apply mapM_Some. Qed.

Lemma NoDup_inl (outs : list POutput) :
  NoDup ((fun o => inl (B:=Z) (po_address o)) <$> outs) <-> NoDup (po_address <$> outs).
Proof.
  change ((fun o => inl (B:=Z) (po_address o)) <$> outs) with ((inl (B:=Z) ∘ po_address) <$> outs).
  rewrite list_fmap_compose. split; [apply NoDup_fmap_1|apply NoDup_fmap_2; congruence].
Qed.

Lemma NoDup_input_keys (ins : list PInput) :
  NoDup ((fun i => (inl (B:=Z) (in_address i), inr (A:=string) (in_seqNo i))) <$> ins) <-> NoDup ins.
Proof.
  split; [apply NoDup_fmap_1|apply NoDup_fmap_2].
  intros [a s] [a' s'] [= -> ->]. done.
Qed.

Lemma outputs_field_sound min max v :
  PublicOutputsField_validate min max v = Ok None ->
  exists l outs, v = JArr l /\ mapM parse_output l = Some outs /\ within min max (length outs) = true /\ outputs_ok outs.
Proof.
  intros [(t & Ht%list_elem_of_singleton & Hty) Hs]%FieldBase_not_null. subst t.
  destruct v as [| | | | |l|]; try done. exists l.
  apply (list_field_sound PublicOutputField_validate parse_output output_key (fun o => inl (po_address o))
           (fun o => (0 < po_amount o)%Z /\ valid_address (po_address o))) in Hs as (outs & Hf & Hw & Hnd & Hg).
  - exists outs. split_and!; [done|by apply Forall2_mapM|done|]. split; [by apply NoDup_inl|done].
  - intros v' (o & Hp & Hk & Hn & Ha)%output_field_sound. by exists o.
Qed.

Lemma inputs_field_sound min max v :
  PublicInputsField_validate min max v = Ok None ->
  exists l ins, v = JArr l /\ mapM parse_input l = Some ins /\ within min max (length ins) = true /\ inputs_ok ins.
Proof.
  intros [(t & Ht%list_elem_of_singleton & Hty) Hs]%FieldBase_not_null. subst t.
  destruct v as [| | | | |l|]; try done. exists l.
  apply (list_field_sound PublicInputField_validate parse_input input_key (fun i => (inl (in_address i), inr (in_seqNo i)))
           (fun i => (0 < in_seqNo i)%Z /\ valid_address (in_address i))) in Hs as (ins & Hf & Hw & Hnd & Hg).
  - exists ins. split_and!; [done|by apply Forall2_mapM|done|]. split; [by apply NoDup_input_keys|done].
  - intros v' (i & Hp & Hk & Hn & Ha)%input_field_sound. by exists i.
Qed.

Lemma outputs_field_complete (outs : list POutput) :
  Forall (fun o => (0 < po_amount o)%Z /\ valid_address (po_address o)) outs ->
  (PublicOutputsField_validate None None (JArr (enc_output <$> outs)) = Ok None <-> NoDup (po_address <$> outs)).
Proof.
  intros Hg. unfold PublicOutputsField_validate.
  rewrite (FieldBase_typed _ _ _ _ TList) by (done || by left). rewrite <- NoDup_inl.
  apply (list_field_complete PublicOutputField_validate output_key (fun o => inl (po_address o))
           (fun o => (0 < po_amount o)%Z /\ valid_address (po_address o))); try done.
  intros o [? ?]. by apply output_field_complete.
Qed.

Lemma inputs_field_complete (ins : list PInput) :
  Forall (fun i => (0 < in_seqNo i)%Z /\ valid_address (in_address i)) ins ->
  (PublicInputsField_validate None None (JArr (enc_input <$> ins)) = Ok None <-> NoDup ins).
Proof.
  intros Hg. unfold PublicInputsField_validate.
  rewrite (FieldBase_typed _ _ _ _ TList) by (done || by left). rewrite <- NoDup_input_keys.
  apply (list_field_complete PublicInputField_validate input_key (fun i => (inl (in_address i), inr (in_seqNo i)))
           (fun i => (0 < in_seqNo i)%Z /\ valid_address (in_address i))); try done.
  intros i [? ?]. by apply input_field_complete.
Qed.
End Lemmas.

(** ** Properties *)

(** What an accepted list of payments is: the typed payments it stands for. *)
Definition outputs_of (req : raw_request) (outs : list POutput) : Prop :=
  exists l, alookup OUTPUTS (raw_operation req) = Some (JArr l) /\ mapM parse_output l = Some outs.
Definition inputs_of (req : raw_request) (ins : list PInput) : Prop :=
  exists l, alookup INPUTS (raw_operation req) = Some (JArr l) /\ mapM parse_input l = Some ins.

Section Properties.
Context `{FieldsLaws} `{Base58}.

Lemma is_type_true req ty : alookup TXN_TYPE (raw_operation req) = Some (JStr ty) -> is_type req ty = Ok true.
Proof. intros Ht. unfold is_type, get_item. rewrite Ht. simpl. by rewrite bool_decide_true. Qed.

Lemma raise_error_Ok f req : raise_error f req = Ok tt <-> f req = Ok None.
Proof. unfold raise_error, request_error. destruct (f req) as [[]|]; naive_solver. Qed.

Lemma outputs_validate_sound req :
  outputs_validate req = Ok None -> exists outs, outputs_of req outs /\ outputs_ok outs.
Proof.
  unfold outputs_validate, present, request_error. destruct (alookup OUTPUTS (raw_operation req)) as [v|] eqn:Ho; [|done].
  cbn [res_bind]. intros (l & outs & -> & Hp & _ & Hok)%outputs_field_sound. exists outs. split; [by exists l|done].
Qed.

Lemma xfer_static_validation_spec req :
  alookup TXN_TYPE (raw_operation req) = Some (JStr XFER_PUBLIC) -> xfer_static_validation req = Ok tt ->
  exists outs ins sigs, outputs_of req outs /\ inputs_of req ins /\ outputs_ok outs /\ inputs_ok ins /\
    alookup SIGS (raw_operation req) = Some sigs /\ json_len sigs = Ok (Z.of_nat (length ins)).
Proof.
  intros Ht Hs. apply raise_error_Ok in Hs. unfold txn_xfer_public_validate in Hs.
  rewrite is_type_true in Hs by done. cbn [res_bind] in Hs.
  destruct (outputs_validate req) as [[m|]|e] eqn:Ho; cbn [res_bind] in Hs; try done.
  destruct (outputs_validate_sound req Ho) as (outs & Hof & Hook).
  unfold inputs_validate, present, request_error in Hs.
  destruct (alookup INPUTS (raw_operation req)) as [vi|] eqn:Hi; [|done]. cbn [res_bind] in Hs.
  destruct (alookup SIGS (raw_operation req)) as [sigs|] eqn:Hsig; [|done]. cbn [res_bind] in Hs.
  destruct (json_len vi) as [ni|] eqn:Hni; [|done]. cbn [res_bind] in Hs.
  destruct (json_len sigs) as [ns|] eqn:Hns; [|done]. cbn [res_bind] in Hs.
  destruct (Z.eqb_spec ni ns) as [->|]; [|done]. cbn [negb] in Hs.
  apply inputs_field_sound in Hs as (l & ins & -> & Hp & _ & Hok).
  exists outs, ins, sigs. split_and!; try done; [by exists l|]. simpl in Hni. simplify_eq.
  rewrite Hns. do 2 f_equal. by eapply length_mapM.
Qed.

Lemma xfer_static_validation_iff req outs ins sigs :
  alookup TXN_TYPE (raw_operation req) = Some (JStr XFER_PUBLIC) ->
  alookup OUTPUTS (raw_operation req) = Some (JArr (enc_output <$> outs)) ->
  alookup INPUTS (raw_operation req) = Some (JArr (enc_input <$> ins)) ->
  alookup SIGS (raw_operation req) = Some (JArr sigs) ->
  Forall (fun o => (0 < po_amount o)%Z /\ valid_address (po_address o)) outs ->
  Forall (fun i => (0 < in_seqNo i)%Z /\ valid_address (in_address i)) ins ->
  xfer_static_validation req = Ok tt <->
  NoDup (po_address <$> outs) /\ NoDup ins /\ length sigs = length ins.
Proof.
  intros Ht Ho Hi Hs Hgo Hgi. unfold xfer_static_validation. rewrite raise_error_Ok.
  unfold txn_xfer_public_validate, outputs_validate, inputs_validate, PUBLIC_OUTPUTS_VALIDATOR, PUBLIC_INPUTS_VALIDATOR, present.
  rewrite is_type_true, Ho, Hi, Hs by done. cbn [res_bind json_len].
  rewrite <- (outputs_field_complete outs), <- (inputs_field_complete ins) by done. rewrite length_fmap.
  destruct (PublicOutputsField_validate _ _ _) as [[m|]|e]; cbn [res_bind]; try naive_solver.
  destruct (Z.eqb_spec (Z.of_nat (length ins)) (Z.of_nat (length sigs))) as [Heq|Hne]; cbn [negb].
  - apply Nat2Z.inj in Heq. naive_solver.
  - unfold request_error. split; [done|]. intros (_ & _ & Heq). congruence.
Qed.

(** C30: on a transfer whose payments are well typed and name valid addresses and
    positive amounts and numbers, static validation decides exactly three
    things: no output address twice, no input twice, as many signatures as
    inputs.  It does not ask for an output or an input: unlike a mint, a transfer
    without either is accepted ([empty_transfer_accepted]), which the skipped tests
    of test_xfer_handler_static_validation.py say it should not be. *)
Theorem xfer_static_validation_typed req outs ins sigs :
  alookup TXN_TYPE (raw_operation req) = Some (JStr XFER_PUBLIC) ->
  alookup OUTPUTS (raw_operation req) = Some (JArr (enc_output <$> outs)) ->
  alookup INPUTS (raw_operation req) = Some (JArr (enc_input <$> ins)) ->
  alookup SIGS (raw_operation req) = Some (JArr sigs) ->
  Forall (fun o => (0 < po_amount o)%Z /\ valid_address (po_address o)) outs ->
  Forall (fun i => (0 < in_seqNo i)%Z /\ valid_address (in_address i)) ins ->
  xfer_static_validation req = Ok tt <->
  NoDup (po_address <$> outs) /\ NoDup ins /\ length sigs = length ins.
Proof. apply xfer_static_validation_iff. Qed.

(** What an accepted mint is. *)
Lemma mint_static_validation_core req :
  alookup TXN_TYPE (raw_operation req) = Some (JStr MINT_PUBLIC) -> mint_static_validation req = Ok tt ->
  exists outs, outputs_of req outs /\ outputs_ok outs /\ outs <> [].
Proof.
  intros Ht Hs. apply raise_error_Ok in Hs. unfold txn_mint_public_validate in Hs.
  rewrite is_type_true in Hs by done. cbn [res_bind] in Hs.
  destruct (outputs_validate req) as [[m|]|e] eqn:Ho; cbn [res_bind] in Hs; try done.
  destruct (outputs_validate_sound req Ho) as (outs & (l & Hl & Hp) & Hok). exists outs.
  split_and!; [by exists l|done|]. intros ->. unfold get_item in Hs. rewrite Hl in Hs. cbn [dict_item res_bind json_len] in Hs.
  apply length_mapM in Hp. destruct l; done.
Qed.

(** A mint accepted by static validation has at least one output, to distinct
    valid addresses, with positive amounts. *)
Theorem mint_static_validation_sound req :
  alookup TXN_TYPE (raw_operation req) = Some (JStr MINT_PUBLIC) -> mint_static_validation req = Ok tt ->
  exists outs, outputs_of req outs /\ outputs_ok outs /\ outs <> [].
Proof. apply mint_static_validation_core. Qed.

(** What an accepted [fees] field is. *)
Lemma fees_field_core v :
  TxnFeesField_validate v = Ok None ->
  v = JNull \/
  exists vi vo vs ins outs, v = JArr [JArr vi; JArr vo; vs] /\
    mapM parse_input vi = Some ins /\ mapM parse_output vo = Some outs /\
    inputs_ok ins /\ outputs_ok outs /\ (1 <= length ins)%nat /\ (length outs <= 1)%nat /\
    json_len vs = Ok (Z.of_nat (length ins)).
Proof.
  intros [[_ ->]|[(t & Ht%list_elem_of_singleton & Hty) Hs]]%FieldBase_accepts; [by left|right]. subst t.
  destruct v as [| | | | |l|]; try done. unfold TxnFeesField_specific in Hs.
  apply and_then_None in Hs as [Hlen%prefixed_None%FixedLengthField_iff Hs].
  destruct l as [|vi [|vo [|vs [|? ?]]]]; try done. cbn [json_index lookup list_lookup res_bind] in Hs.
  apply and_then_None in Hs as [(li & ins & -> & Hpi & Hwi & Hoki)%prefixed_None%inputs_field_sound Hs].
  apply and_then_None in Hs as [(lo & outs & -> & Hpo & Hwo & Hoko)%prefixed_None%outputs_field_sound Hs].
  apply and_then_None in Hs as [_ Hs]. cbn [json_len res_bind] in Hs.
  apply res_bind_Ok in Hs as (n & Hn & Hs). destruct (Z.eqb_spec (Z.of_nat (length li)) n) as [<-|]; [|done].
  exists li, lo, vs, ins, outs. split_and!; try done.
  - unfold within in Hwi. apply andb_true_iff in Hwi as [Hw _]. by apply Nat.leb_le in Hw.
  - unfold within in Hwo. apply andb_true_iff in Hwo as [_ Hw]. by apply Nat.leb_le in Hw.
  - rewrite Hn. do 2 f_equal. by eapply length_mapM.
Qed.

(** C31: an accepted [fees] field is null, or has exactly the three parts the fee
    handlers unpack: at least one input, all distinct, at most one output, and
    as many signatures as inputs. *)
Theorem fees_field_sound v :
  TxnFeesField_validate v = Ok None ->
  v = JNull \/
  exists vi vo vs ins outs, v = JArr [JArr vi; JArr vo; vs] /\
    mapM parse_input vi = Some ins /\ mapM parse_output vo = Some outs /\
    inputs_ok ins /\ outputs_ok outs /\ (1 <= length ins)%nat /\ (length outs <= 1)%nat /\
    json_len vs = Ok (Z.of_nat (length ins)).
Proof. apply fees_field_core. Qed.

(** An accepted [SET_FEES] request has a table of fees: no alias is empty, and
    every fee is an integer that is not negative. *)
Theorem set_fees_static_validation_sound req :
  set_fees_static_validation req = Ok tt ->
  exists d, alookup FEES (raw_operation req) = Some (JObj d) /\
    Forall (fun kv => kv.1 <> "" /\ exists n, as_int kv.2 = Some n /\ (0 <= n)%Z) d.
Proof.
  unfold set_fees_static_validation, message_static_validation. destruct (MessageBase_init _ _) as [[]|e] eqn:Hm;
    [intros _|unfold request_error; by destruct e].
  apply MessageBase_accepts in Hm. apply Forall_cons in Hm as [_ [(v & Hv & Hf) _]%Forall_cons]. cbn [fst snd] in *.
  apply FieldBase_not_null in Hf as [(t & Ht%list_elem_of_singleton & Hty) Hf]. subst t.
  destruct v as [| | | | | |d]; try done. exists d. split; [done|]. unfold SetFeesField_specific in Hf.
  destruct (MapField_specific _ _ _) as [[]|] eqn:Hmap; try done.
  apply MapField_iff in Hmap as [Hk Hval]. rewrite Forall_fmap in Hk. rewrite Forall_fmap in Hval.
  apply Forall_forall. intros kv Hkv. rewrite Forall_forall in Hk, Hval. split.
  - apply NonEmptyStringField_accepts, (Hk kv Hkv).
  - apply NonNegativeNumberField_accepts, (Hval kv Hkv).
Qed.

(** What static validation does with a request it has no validator for, and
    with each it has: the dispatcher and the handlers' own method agree. *)
Theorem static_req_validation_dispatch req t :
  alookup TXN_TYPE (raw_operation req) = Some (JStr t) ->
  (t ∈ ACCEPTABLE_TXN_TYPES ->
     static_req_validation (Some req) =
       if bool_decide (t = MINT_PUBLIC) then mint_static_validation req
       else if bool_decide (t = XFER_PUBLIC) then xfer_static_validation req
       else get_utxo_static_validation req) /\
  (t ∉ ACCEPTABLE_TXN_TYPES ->
     exists i r, static_req_validation (Some req) =
       Raise (InvalidClientRequest4 i r (Msg "Invalid type in operation" []) (MStr t))).
Proof.
  intros Ht. unfold static_req_validation, get_default_none. rewrite Ht. cbn [default id]. split; intros Hin.
  - rewrite bool_decide_true by done. unfold ACCEPTABLE_TXN_TYPES in Hin.
    rewrite !elem_of_cons, elem_of_nil in Hin. destruct Hin as [->|[->|[->|[]]]]; reflexivity.
  - rewrite bool_decide_false by done. unfold invalid_type. eauto.
Qed.
End Properties.

(** ** Witnesses *)

Module ExFields.
Definition wrong (what : string) : res (option message) := Ok (Some (Msg what [])).

Fixpoint all_valid (f : validator) (l : list json) : res (option message) :=
  match l with
  | [] => Ok None
  | v :: l => match f v with Ok None => all_valid f l | r => r end
  end.

Lemma all_valid_iff f l : all_valid f l = Ok None <-> Forall (fun v => f v = Ok None) l.
Proof.
  induction l as [|v l IH]; cbn [all_valid]; [by split|]. rewrite Forall_cons, <- IH.
  destruct (f v) as [[m|]|e]; naive_solver.
Qed.

#[global] Instance fields : Fields := {
  FieldBase_validate ts nullable f v :=
    if nullable && bool_decide (json_truthy v = false) && (match v with JNull => true | _ => false end) then Ok None
    else if existsb (has_type v) ts then f v else wrong "expected types";
  AnyMapField_specific v := Ok None;
  IterableField_specific f min max v :=
    match v with
    | JArr l => if within min max (length l) then all_valid f l else wrong "length should be within limits"
    | _ => wrong "not a list"
    end;
  FixedLengthField_specific n v :=
    match v with JArr l => if (length l =? n)%nat then Ok None else wrong "should have a fixed length" | _ => wrong "no length" end;
  TxnSeqNoField_validate v :=
    match as_int v with Some n => if (n <? 1)%Z then wrong "cannot be smaller than 1" else Ok None | None => wrong "expected types" end;
  SignatureField_validate v := match v with JStr _ => Ok None | _ => wrong "expected types" end;
  MapField_specific key value v :=
    match v with
    | JObj d => and_then (all_valid key (JStr <$> d.*1)) (all_valid value d.*2)
    | _ => wrong "expected types"
    end;
  NonEmptyStringField_validate v := match v with JStr "" => wrong "empty string" | JStr _ => Ok None | _ => wrong "expected types" end;
  NonNegativeNumberField_validate v :=
    match v with JInt n => if (n <? 0)%Z then wrong "negative value" else Ok None | _ => wrong "expected types" end;
  ConstantField_validate c v := match v with JStr s => if bool_decide (s = c) then Ok None else wrong "has to be equal" | _ => wrong "has to be equal" end;
  LimitedLengthStringField_validate n v :=
    match v with JStr s => if (Z.of_nat (String.length s) <=? n)%Z then Ok None else wrong "is longer than limit" | _ => wrong "expected types" end;
  MessageBase_init schema d :=
    if forallb (fun kv => match alookup kv.1 d with
                          | Some v => match kv.2 v with Ok None => true | _ => false end
                          | None => false end) schema
    then Ok tt else Raise (TypeError (Msg "validation error" []));
}.

#[global] Instance fields_laws : FieldsLaws.
Proof.
  split.
  - intros ts nullable f v. simpl. destruct (nullable && _ && _) eqn:Hn.
    + intros _. left. apply andb_true_iff in Hn as [[-> _]%andb_true_iff Hv]. by destruct v.
    + destruct (existsb (has_type v) ts) eqn:He; [|done]. intros Hf. right. split; [|done].
      apply existsb_exists in He as (t & Ht & Hty). exists t. split; [by apply list_elem_of_In|done].
  - intros ts nullable f v t Ht Hty _. simpl.
    assert (existsb (has_type v) ts = true) as -> by (apply existsb_exists; exists t; split; [by apply list_elem_of_In|done]).
    destruct v; rewrite ?andb_false_r; try done.
  - done.
  - intros f min max l. simpl. destruct (within min max (length l)); [|naive_solver].
    rewrite all_valid_iff. tauto.
  - intros n l. simpl. destruct (Nat.eqb_spec (length l) n); naive_solver.
  - intros v. simpl. destruct (as_int v) as [n|]; [|done]. destruct (Z.ltb_spec n 1); [done|]. exists n. split; [done|lia].
  - intros n Hn. simpl. by rewrite (proj2 (Z.ltb_ge _ _)) by lia.
  - intros key value d. simpl. rewrite and_then_None, !all_valid_iff. rewrite Forall_fmap. done.
  - by intros [].
  - intros v. simpl. destruct v as [| |n| | | |]; try done. destruct (Z.ltb_spec n 0); [done|]. by exists n.
  - intros schema d. simpl. destruct (forallb _ schema) eqn:Hf; [intros _|done].
    rewrite forallb_forall in Hf. apply Forall_forall. intros [k f] Hkv. apply list_elem_of_In in Hkv.
    specialize (Hf _ Hkv). simpl in *. destruct (alookup k d) as [v|]; [|done]. exists v. split; [done|].
    by destruct (f v) as [[]|].
Qed.

Definition addr (c : string) : string := "c" +:+ c +:+ "1234567890123456789012345678901".

Lemma valid c : String.length c = 1%nat /\ ExBase58.escape c = c -> valid_address (addr c).
Proof.
  intros [Hl Hc]. destruct c as [|ch [|]]; try done. simpl in Hc.
  assert (ch <> ":"%char /\ ch <> "\"%char) as [H1 H2] by (split; intros ->; done).
  exists (String ch "1234567890123456789012345678901").
  unfold addr, decode_address_to_vk_bytes. simpl. by rewrite !decide_False.
Qed.

Definition outs : list POutput := [mkPOutput (addr "a") 4; mkPOutput (addr "b") 6].
Definition ins : list PInput := [mkInput (addr "b") 1].
Definition req : raw_request :=
  mkRawRequest (Some "did") (Some 1%Z)
    [(TXN_TYPE, JStr XFER_PUBLIC); (OUTPUTS, JArr (enc_output <$> outs)); (INPUTS, JArr (enc_input <$> ins));
     (SIGS, JArr [JStr "s"])].
Definition mint_req : raw_request :=
  mkRawRequest (Some "did") (Some 1%Z) [(TXN_TYPE, JStr MINT_PUBLIC); (OUTPUTS, JArr (enc_output <$> outs))].
Definition fees_field : json := JArr [JArr (enc_input <$> ins); JArr (enc_output <$> take 1 outs); JArr [JStr "s"]].

Lemma outs_good : Forall (fun o => (0 < po_amount o)%Z /\ valid_address (po_address o)) outs.
Proof. repeat (apply Forall_cons_2 || apply Forall_nil_2); split; (done || by apply valid). Qed.

Lemma ins_good : Forall (fun i => (0 < in_seqNo i)%Z /\ valid_address (in_address i)) ins.
Proof. repeat (apply Forall_cons_2 || apply Forall_nil_2); split; (done || by apply valid). Qed.
End ExFields.

Lemma xfer_static_validation_typed_witness :
  xfer_static_validation ExFields.req = Ok tt <->
  NoDup (po_address <$> ExFields.outs) /\ NoDup ExFields.ins /\ length [JStr "s"] = length ExFields.ins.
Proof.
  by apply (xfer_static_validation_typed ExFields.req ExFields.outs ExFields.ins [JStr "s"] eq_refl eq_refl eq_refl eq_refl
           ExFields.outs_good ExFields.ins_good).
Defined.

(** The gap that the skipped tests name: no inputs, no outputs, no signatures. *)
Lemma empty_transfer_accepted :
  xfer_static_validation (mkRawRequest (Some "did") (Some 1%Z)
    [(TXN_TYPE, JStr XFER_PUBLIC); (OUTPUTS, JArr []); (INPUTS, JArr []); (SIGS, JArr [])]) = Ok tt.
Proof. by vm_compute. Qed.

Lemma mint_static_validation_sound_witness :
  exists outs, outputs_of ExFields.mint_req outs /\ outputs_ok outs /\ outs <> [].
Proof. apply (mint_static_validation_sound ExFields.mint_req eq_refl). vm_compute. reflexivity. Defined.

Lemma fees_field_sound_witness :
  ExFields.fees_field = JNull \/
  exists vi vo vs ins outs, ExFields.fees_field = JArr [JArr vi; JArr vo; vs] /\
    mapM parse_input vi = Some ins /\ mapM parse_output vo = Some outs /\
    inputs_ok ins /\ outputs_ok outs /\ (1 <= length ins)%nat /\ (length outs <= 1)%nat /\
    json_len vs = Ok (Z.of_nat (length ins)).
Proof. apply (fees_field_sound ExFields.fees_field). vm_compute. reflexivity. Defined.

Lemma static_req_validation_dispatch_witness :
  (XFER_PUBLIC ∈ ACCEPTABLE_TXN_TYPES ->
     static_req_validation (Some ExFields.req) =
       if bool_decide (XFER_PUBLIC = MINT_PUBLIC) then mint_static_validation ExFields.req
       else if bool_decide (XFER_PUBLIC = XFER_PUBLIC) then xfer_static_validation ExFields.req
       else get_utxo_static_validation ExFields.req) /\
  (XFER_PUBLIC ∉ ACCEPTABLE_TXN_TYPES ->
     exists i r, static_req_validation (Some ExFields.req) =
       Raise (InvalidClientRequest4 i r (Msg "Invalid type in operation" []) (MStr XFER_PUBLIC))).
Proof. by apply (static_req_validation_dispatch ExFields.req XFER_PUBLIC). Defined.

Lemma set_fees_static_validation_sound_witness :
  exists d, alookup FEES [(TXN_TYPE, JStr SET_FEES); (FEES, JObj [("nym", JInt 5)])] = Some (JObj d) /\
    Forall (fun kv => kv.1 <> "" /\ exists n, as_int kv.2 = Some n /\ (0 <= n)%Z) d.
Proof.
  apply (set_fees_static_validation_sound (mkRawRequest None None [(TXN_TYPE, JStr SET_FEES); (FEES, JObj [("nym", JInt 5)])])).
  vm_compute. reflexivity.
Defined.
