(* ===== verification/StaticErrors.v ===== *)
(** * What static validation raises

    The validators answer with [None] or a message, which becomes an
    [InvalidClientRequest]; but they read the request with [d[key]], [len] and the
    address decoder, which raise exceptions of their own.  Theorem: for every JSON
    operation whatsoever, a mint, a transfer or a GET_UTXO is accepted, refused with
    [InvalidClientRequest], or raises one of the exceptions listed in [escapes],
    each with its cause in the request.

    [FieldsErrorLaws] says of plenum's fields and of base58 what they raise: nothing
    but what the inner validation raises, and [ValueError]. *)

From S2P Require Import Prelude Exceptions PyStr TokenTypes Json Authn Validation.

Open Scope stdpp_scope.

Class FieldsErrorLaws `{Fields} `{Base58} : Prop := {
  FieldBase_raises ts nullable f v e :
    FieldBase_validate ts nullable f v = Raise e -> (exists t, t ∈ ts /\ has_type v t = true) /\ f v = Raise e;
  IterableField_raises f min max l e :
    IterableField_specific f min max (JArr l) = Raise e -> exists v, v ∈ l /\ f v = Raise e;
  FixedLengthField_returns n l e : FixedLengthField_specific n (JArr l) <> Raise e;
  TxnSeqNoField_returns v e : TxnSeqNoField_validate v <> Raise e;
  SignatureField_returns v e : SignatureField_validate v <> Raise e;
  b58decode_check_raises s e : b58decode_check s = Raise e -> is_ValueError e = true;
}.

(** ** Exceptions and their causes *)

(** The text is not base58check: the decoder refuses it. *)
Definition undecodable `{Base58} (v : json) : Prop := exists s, v = JStr s /\ is_ok (b58decode_check s) = false.

(** What the entries [address] and [key] of a dictionary raise when they are read. *)
Inductive entry_error `{Base58} (key : string) (d : dict) : exn -> Prop :=
  | entry_missing k : k ∈ ["address"; key] -> alookup k d = None -> entry_error key d (KeyError k)
  | entry_undecodable v m : alookup "address" d = Some v -> undecodable v -> entry_error key d (UnknownIdentifier m).

Definition list_error `{Base58} (key : string) (l : list json) (e : exn) : Prop :=
  exists d, JObj d ∈ l /\ entry_error key d e.

(** What escapes from the validation of an operation. *)
Inductive escapes `{Base58} (op : dict) : exn -> Prop :=
  | escape_type : alookup TXN_TYPE op = None -> escapes op (KeyError TXN_TYPE)
  | escape_output l e : alookup OUTPUTS op = Some (JArr l) -> list_error "amount" l e -> escapes op e
  | escape_input l e : alookup INPUTS op = Some (JArr l) -> list_error "seqNo" l e -> escapes op e
  | escape_length field v m :
      field ∈ [INPUTS; SIGS] -> alookup field op = Some v -> json_len v = Raise (TypeError m) -> escapes op (TypeError m)
  | escape_address v m : alookup ADDRESS op = Some v -> undecodable v -> escapes op (UnknownIdentifier m).

Definition refused (e : exn) : Prop :=
  exists i r m, e = InvalidClientRequest i r m \/ exists arg, e = InvalidClientRequest4 i r m arg.

(** ** Lemmas *)

Lemma and_then_Raise r k e : and_then r k = Raise e <-> r = Raise e \/ (r = Ok None /\ k = Raise e).
Proof. destruct r as [[]|]; simpl; naive_solver. Qed.

Lemma prefixed_Raise p r e : prefixed p r = Raise e <-> r = Raise e.
Proof. destruct r as [[]|]; simpl; naive_solver. Qed.

Lemma res_bind_Raise {A B} (r : res A) (f : A -> res B) e :
  res_bind r f = Raise e <-> r = Raise e \/ exists a, r = Ok a /\ f a = Raise e.
Proof. destruct r; simpl; naive_solver. Qed.

Lemma json_len_raises v e : json_len v = Raise e -> exists m, e = TypeError m.
Proof. destruct v; simpl; intros [= <-]; by eexists. Qed.

Lemma get_item_raises key d e : get_item key d = Raise e -> alookup key d = None /\ e = KeyError key.
Proof. unfold get_item, dict_item. destruct (alookup key d); naive_solver. Qed.

Lemma get_item_Ok key d v : get_item key d = Ok v -> alookup key d = Some v.
Proof. unfold get_item, dict_item. destruct (alookup key d); naive_solver. Qed.

Section Lemmas.
Context `{FieldsLaws} `{Base58} `{!FieldsErrorLaws}.

Lemma address_field_raises v e :
  PublicAddressField_validate v = Raise e -> undecodable v /\ exists m, e = UnknownIdentifier m.
Proof.
  intros [(t & ->%list_elem_of_singleton & Hty) Hs]%FieldBase_raises. destruct v as [| | | |a| |]; try done.
  unfold PublicAddressField_specific, decode_address_to_vk_bytes in Hs.
  destruct (b58decode_check a) as [vk|e'] eqn:Hd; cbn [res_catch] in Hs; [by destruct (_ =? _)%nat|].
  rewrite (b58decode_check_raises _ _ Hd) in Hs. simplify_eq/=. split; [|by eexists]. exists a. by rewrite Hd.
Qed.

Lemma amount_field_returns v e : PublicAmountField_validate v <> Raise e.
Proof.
  intros [(t & ->%list_elem_of_singleton & Hty) Hs]%FieldBase_raises. unfold PublicAmountField_specific in Hs.
  destruct v; try done; simpl in Hs; by destruct (_ <=? _)%Z.
Qed.

(** The fields of an output and of an input are the same check, with another second
    entry. *)
Definition payment_field (key : string) (entry : validator) : validator :=
  FieldBase_validate [TDict] false (fun val =>
    and_then (AnyMapField_specific val)
      (let? address := json_item "address" val in
       and_then (prefixed "address" (PublicAddressField_validate address))
         (let? x := json_item key val in prefixed key (entry x)))).

Lemma payment_field_raises key entry v e :
  (forall x e, entry x <> Raise e) -> payment_field key entry v = Raise e ->
  exists d, v = JObj d /\ entry_error key d e.
Proof.
  intros Hent [(t & ->%list_elem_of_singleton & Hty) Hs]%FieldBase_raises. destruct v as [| | | | | |d]; try done.
  exists d. split; [done|]. cbn [json_item] in Hs. rewrite AnyMapField_ok in Hs. cbn [and_then] in Hs.
  apply res_bind_Raise in Hs as [[Ha ->]%get_item_raises|(a & Ha%get_item_Ok & Hs)].
  { apply entry_missing; [by left|done]. }
  apply and_then_Raise in Hs as [[Hu [m ->]]%prefixed_Raise%address_field_raises|[_ Hs]].
  { by eapply entry_undecodable. }
  apply res_bind_Raise in Hs as [[Hx ->]%get_item_raises|(x & _ & Hs)].
  { apply entry_missing; [by right; left|done]. }
  apply prefixed_Raise in Hs. by apply Hent in Hs.
Qed.

Lemma list_field_raises {K} `{EqDecision K} element (key : json -> res K) err min max l e :
  (forall v, element v = Ok None -> exists k, key v = Ok k) ->
  list_field element key err min max (JArr l) = Raise e -> exists v, v ∈ l /\ element v = Raise e.
Proof.
  intros Hkey [Hr|[[_ Hall]%IterableField_iff Hs]]%and_then_Raise; [by eapply IterableField_raises|].
  exfalso. assert (exists ks, Forall2 (fun x k => key x = Ok k) l ks) as [ks Hks].
  { clear Hs. induction Hall as [|v l Hv _ [ks IH]]; [by exists []|]. destruct (Hkey v Hv) as [k Hk].
    exists (k :: ks). by constructor. }
  destruct (set_of_total _ _ _ Hks) as [s Hset]. cbn [json_elements res_bind] in Hs. rewrite Hset in Hs.
  cbn [res_bind] in Hs. by destruct (_ =? _)%nat.
Qed.

Lemma outputs_field_raises min max v e :
  PublicOutputsField_validate min max v = Raise e -> exists l, v = JArr l /\ list_error "amount" l e.
Proof.
  intros [(t & ->%list_elem_of_singleton & Hty) Hs]%FieldBase_raises. destruct v as [| | | | |l|]; try done.
  exists l. split; [done|]. apply list_field_raises in Hs as (x & Hx & Hr).
  - apply (payment_field_raises "amount" PublicAmountField_validate) in Hr as (d & -> & Hd); [by exists d|].
    apply amount_field_returns.
  - intros x (o & _ & Hk & _)%output_field_sound. by eexists.
Qed.

Lemma inputs_field_raises min max v e :
  PublicInputsField_validate min max v = Raise e -> exists l, v = JArr l /\ list_error "seqNo" l e.
Proof.
  intros [(t & ->%list_elem_of_singleton & Hty) Hs]%FieldBase_raises. destruct v as [| | | | |l|]; try done.
  exists l. split; [done|]. apply list_field_raises in Hs as (x & Hx & Hr).
  - apply (payment_field_raises "seqNo" TxnSeqNoField_validate) in Hr as (d & -> & Hd); [by exists d|].
    apply TxnSeqNoField_returns.
  - intros x (o & _ & Hk & _)%input_field_sound. by eexists.
Qed.

(** ** The operations *)

Implicit Types (req : raw_request) (e : exn).

Lemma request_error_refused {A} req m e : request_error (A:=A) req m = Raise e -> refused e.
Proof. intros [= <-]. do 3 eexists. by left. Qed.

Lemma invalid_type_refused req m e : invalid_type req m = Raise e -> refused e.
Proof. intros [= <-]. do 3 eexists. right. by eexists. Qed.

Lemma present_raises req key e : present req key = Raise e -> refused e.
Proof. unfold present. destruct (alookup key _); [done|]. apply request_error_refused. Qed.

Lemma present_Ok req key v : present req key = Ok v -> alookup key (raw_operation req) = Some v.
Proof. unfold present. by destruct (alookup key _); [intros [= ->]|]. Qed.

Lemma is_type_raises req ty e : is_type req ty = Raise e -> escapes (raw_operation req) e.
Proof. intros [[Ht ->]%get_item_raises|(v & _ & Hv)]%res_bind_Raise; [by apply escape_type|done]. Qed.

Lemma outputs_validate_raises req e :
  outputs_validate req = Raise e -> refused e \/ escapes (raw_operation req) e.
Proof.
  intros [Hp|(v & Hv%present_Ok & Ho)]%res_bind_Raise; [left; by eapply present_raises|right].
  apply outputs_field_raises in Ho as (l & -> & Hl). by eapply escape_output.
Qed.

Lemma length_raises req field v e :
  field ∈ [INPUTS; SIGS] -> alookup field (raw_operation req) = Some v -> json_len v = Raise e ->
  escapes (raw_operation req) e.
Proof. intros Hf Hv Hl. destruct (json_len_raises v e Hl) as [m ->]. by eapply escape_length. Qed.

Lemma inputs_validate_raises req e :
  inputs_validate req = Raise e -> refused e \/ escapes (raw_operation req) e.
Proof.
  intros [Hp|(ins & Hi%present_Ok & Hv)]%res_bind_Raise; [left; by eapply present_raises|].
  apply res_bind_Raise in Hv as [Hp|(sigs & Hs%present_Ok & Hv)]; [left; by eapply present_raises|].
  apply res_bind_Raise in Hv as [Hl|(n & _ & Hv)]; [right; eapply length_raises; [left|done|done]|].
  apply res_bind_Raise in Hv as [Hl|(k & _ & Hv)]; [right; eapply length_raises; [right; left|done|done]|].
  destruct (negb _); [left; by eapply request_error_refused|right].
  apply inputs_field_raises in Hv as (l & -> & Hl). by eapply escape_input.
Qed.

Lemma mint_validate_raises req e :
  txn_mint_public_validate req = Raise e -> refused e \/ escapes (raw_operation req) e.
Proof.
  intros [Ht|(mint & _ & Hv)]%res_bind_Raise; [right; by eapply is_type_raises|]. destruct mint; [|done].
  apply res_bind_Raise in Hv as [Ho|([m|] & Ho & Hv)]; [by apply outputs_validate_raises|done|].
  apply outputs_validate_sound in Ho as (outs & (l & Hl & _) & _). unfold get_item in Hv. rewrite Hl in Hv.
  cbn [dict_item res_bind json_len] in Hv. destruct (_ =? 0)%Z; [left; by eapply request_error_refused|done].
Qed.

Lemma xfer_validate_raises req e :
  txn_xfer_public_validate req = Raise e -> refused e \/ escapes (raw_operation req) e.
Proof.
  intros [Ht|(xfer & _ & Hv)]%res_bind_Raise; [right; by eapply is_type_raises|]. destruct xfer; [|done].
  apply res_bind_Raise in Hv as [Ho|([m|] & Ho & Hv)]; [by apply outputs_validate_raises|done|].
  by apply inputs_validate_raises.
Qed.

Lemma address_validate_raises req e :
  address_validate req = Raise e -> refused e \/ escapes (raw_operation req) e.
Proof.
  intros [Ha|([m|] & _ & Hm)]%res_bind_Raise; [|left; by eapply request_error_refused|done].
  destruct (alookup ADDRESS _) as [v|] eqn:Hv; [|done]. right.
  apply address_field_raises in Ha as [Hu [m ->]]. by eapply escape_address.
Qed.

Lemma get_utxo_validate_raises req e :
  txt_get_utxo_validate req = Raise e -> refused e \/ escapes (raw_operation req) e.
Proof.
  intros [Ht|(get & _ & Hv)]%res_bind_Raise; [right; by eapply is_type_raises|]. destruct get; [|done].
  apply res_bind_Raise in Hv as [Ho|([m|] & Ho & Hv)]; [by apply address_validate_raises|done|].
  unfold from_validate in Hv. destruct (alookup FROM_SEQNO _) as [v|]; [|done].
  apply res_bind_Raise in Hv as [Hf|(r & _ & Hr)]; [by apply TxnSeqNoField_returns in Hf|done].
Qed.

Lemma raise_error_raises f req e :
  (forall e, f req = Raise e -> refused e \/ escapes (raw_operation req) e) ->
  raise_error f req = Raise e -> refused e \/ escapes (raw_operation req) e.
Proof.
  intros Hf [Hr|([m|] & _ & Hr)]%res_bind_Raise; [by apply Hf|left; by eapply request_error_refused|done].
Qed.

(** ** The field [fees] of a request *)

Definition fees_error (v : json) e : Prop :=
  exists parts l, v = JArr parts /\ JArr l ∈ parts /\ (list_error "amount" l e \/ list_error "seqNo" l e).

Lemma signatures_field_raises v e :
  FieldBase_validate [TList] false (IterableField_specific SignatureField_validate None None) v <> Raise e.
Proof.
  intros [(t & ->%list_elem_of_singleton & Hty) Hs]%FieldBase_raises. destruct v as [| | | | |l|]; try done.
  apply IterableField_raises in Hs as (x & _ & Hx). by apply SignatureField_returns in Hx.
Qed.

Lemma fees_field_raises v e : TxnFeesField_validate v = Raise e -> fees_error v e.
Proof.
  intros [(t & ->%list_elem_of_singleton & Hty) Hs]%FieldBase_raises. destruct v as [| | | | |parts|]; try done.
  unfold TxnFeesField_specific in Hs.
  apply and_then_Raise in Hs as [Hf%prefixed_Raise|[Hf%prefixed_None%FixedLengthField_iff Hs]];
    [by apply FixedLengthField_returns in Hf|].
  destruct parts as [|vi [|vo [|vs [|]]]]; try done. cbn [json_index lookup list_lookup res_bind] in Hs.
  apply and_then_Raise in Hs as [(l & -> & Hl)%prefixed_Raise%inputs_field_raises|[Hi%prefixed_None Hs]].
  { eexists _, l. split_and!; [done|by left|by right]. }
  apply and_then_Raise in Hs as [(l & -> & Hl)%prefixed_Raise%outputs_field_raises|[_ Hs]].
  { eexists _, l. split_and!; [done|by right; left|by left]. }
  apply and_then_Raise in Hs as [Hsig%prefixed_Raise|[Hsig%prefixed_None Hs]]; [by apply signatures_field_raises in Hsig|].
  apply inputs_field_sound in Hi as (li & _ & -> & _).
  apply FieldBase_not_null in Hsig as [(t & ->%list_elem_of_singleton & Hty') _]. destruct vs as [| | | | |ls|]; try done.
  cbn [json_len res_bind] in Hs. by destruct (_ =? _)%Z.
Qed.
End Lemmas.

(** ** Property *)

(** C32: the exceptions of static validation, for every JSON operation: a mint, a
    transfer or a GET_UTXO, through the static validation of its handler or through
    [static_req_validation], is accepted, refused with [InvalidClientRequest], or
    raises an exception of [escapes]: [KeyError] for a missing type or a missing
    entry of an output or input, [UnknownIdentifier] for an address that is not
    base58check, [TypeError] for inputs or signatures without a length.  The field
    [fees] of a request raises for the entries of its payments only. *)
Theorem static_validation_errors `{FieldsLaws} `{Base58} `{!FieldsErrorLaws} :
  (forall validation req e,
    validation ∈ [mint_static_validation; xfer_static_validation; get_utxo_static_validation;
                  (fun req => static_req_validation (Some req))] ->
    validation req = Raise e -> refused e \/ escapes (raw_operation req) e) /\
  (forall v e, TxnFeesField_validate v = Raise e -> fees_error v e).
Proof.
  split; [|exact fees_field_raises].
  intros validation req e Hv Hr. repeat apply elem_of_cons in Hv as [->|Hv]; [..|by apply elem_of_nil in Hv].
  - eapply raise_error_raises; [|exact Hr]. intros. by apply mint_validate_raises.
  - eapply raise_error_raises; [|exact Hr]. intros. by apply xfer_validate_raises.
  - eapply raise_error_raises; [|exact Hr]. intros. by apply get_utxo_validate_raises.
  - simpl in Hr. destruct (get_default_none TXN_TYPE _) as [| | | |t| |]; try (left; by eapply invalid_type_refused).
    destruct (bool_decide (t ∈ ACCEPTABLE_TXN_TYPES)) eqn:Ht; [|left; by eapply invalid_type_refused].
    apply bool_decide_eq_true in Ht. unfold TXN_STATIC_VALIDATION_MAP in Hr.
    repeat apply elem_of_cons in Ht as [->|Ht]; [..|by apply elem_of_nil in Ht]; eapply raise_error_raises; try exact Hr; intros.
    + by apply mint_validate_raises.
    + by apply xfer_validate_raises.
    + by apply get_utxo_validate_raises.
Qed.

(** ** Witness *)

Module ExErrors.
#[global] Instance errors : FieldsErrorLaws (H:=ExFields.fields).
Proof.
  assert (forall f l e, ExFields.all_valid f l = Raise e -> exists v, v ∈ l /\ f v = Raise e) as Hall.
  { intros f l e. induction l as [|v l IH]; [done|]. cbn [ExFields.all_valid].
    destruct (f v) as [[m|]|e'] eqn:Hv; [done| |].
    - intros (x & Hx & Hr)%IH. exists x. split; [by right|done].
    - intros [= ->]. exists v. split; [by left|done]. }
  split.
  - intros ts nullable f v e. simpl. destruct (nullable && _ && _); [done|].
    destruct (existsb (has_type v) ts) eqn:He; [|done]. intros Hf. split; [|done].
    apply existsb_exists in He as (t & Ht & Hty). exists t. split; [by apply list_elem_of_In|done].
  - intros f min max l e. simpl. destruct (within min max (length l)); [apply Hall|done].
  - intros n l e. simpl. by destruct (_ =? _)%nat.
  - intros v e. simpl. destruct (as_int v); [by destruct (_ <? _)%Z|done].
  - intros v e. by destruct v.
  - intros s e. simpl. repeat case_match; naive_solver.
Qed.

Definition transfer (outputs inputs sigs : json) : raw_request :=
  mkRawRequest (Some "did") (Some 1%Z)
    [(TXN_TYPE, JStr XFER_PUBLIC); (OUTPUTS, outputs); (INPUTS, inputs); (SIGS, sigs)].
Definition nobody : json := JArr [JObj [("amount", JInt 1)]].
Definition unknown : json := JArr [JObj [("address", JStr "x"); ("amount", JInt 1)]].
End ExErrors.

(** Each kind of exception does escape. *)
Lemma escapes_happen :
  xfer_static_validation (ExErrors.transfer ExErrors.nobody (JArr []) (JArr [])) = Raise (KeyError "address") /\
  xfer_static_validation (ExErrors.transfer (JArr []) JNull (JArr [])) =
    Raise (TypeError (Msg "object has no len()" [])) /\
  xfer_static_validation (ExErrors.transfer ExErrors.unknown (JArr []) (JArr [])) =
    Raise (UnknownIdentifier (Msg "{} is not a valid base58check value" [MStr "x"])).
Proof. by vm_compute. Qed.

Lemma static_validation_errors_witness :
  refused (KeyError "address") \/
  escapes (raw_operation (ExErrors.transfer ExErrors.nobody (JArr []) (JArr []))) (KeyError "address").
Proof.
  apply (proj1 static_validation_errors xfer_static_validation (ExErrors.transfer ExErrors.nobody (JArr []) (JArr [])));
    [right; left|vm_compute; reflexivity].
Defined.
