(* ===== verification/FeeRules.v ===== *)
(** * Fees and auth rules through the life of a node

    [SET_FEES] fills the table of fees, [AUTH_RULE] and [AUTH_RULES] let the rules
    of the node name its aliases, and the authorizer looks the alias of a rule up
    when a request comes: three handlers and the authorizer, over one config state.
    Theorem: along every run of accepted requests the table read back is the merge
    of all fees set, no fee is negative, and the alias of every accepted rule has a
    fee, which is the one the authorizer asks for. *)

From S2P Require Import Prelude Exceptions PyStr TokenTypes Stores Json GetUtxo FeesState FeesAuthorizer.
From S2P Require Import Authn AuthRules Validation.

Open Scope stdpp_scope.

(** ** What the check of a rule lets pass *)

(** The [metadata] of the role constraints of a rule, at any depth. *)
Fixpoint role_metadata (c : auth_constraint) : list dict :=
  match c with
  | RoleConstraint metadata => [metadata]
  | ForbiddenConstraint => []
  | CombinedConstraint cs => flat_map role_metadata cs
  end.

(** A constraint that names no alias, or one of the table [d]. *)
Definition names_known (d : dict) (metadata : dict) : Prop :=
  let alias := get_default_none FEES_FIELD_NAME metadata in
  json_truthy alias = true -> exists a, alias = JStr a /\ ahas a d = true.

Definition rule_known (d : dict) (c : auth_constraint) : Prop := Forall (names_known d) (role_metadata c).

(** A check that found nothing wrong has looked at every constraint. *)
Lemma validate_metadata_passes d c wrong wrong' :
  validate_metadata (JObj d) c wrong = (Ok tt, wrong') ->
  exists found, wrong' = wrong ++ found /\ (found = [] -> rule_known d c).
Proof.
  unfold rule_known.
  revert wrong wrong'. induction c as [metadata| |cs IH] using auth_constraint_nested_ind; intros wrong wrong'.
  - cbn [validate_metadata role_metadata]. destruct (json_truthy _) eqn:Ht.
    + unfold bind, lift. destruct (in_fees _ _) as [b|] eqn:Hin; [|done].
      destruct b; intros [= <-]; [|eexists; split; [done|]; done].
      exists []. rewrite app_nil_r. split; [done|]. intros _. apply Forall_singleton. intros _.
      destruct (get_default_none _ _) as [| | | |a| |]; try done. exists a. simpl in Hin. by simplify_eq.
    + intros [= <-]. exists []. rewrite app_nil_r. split; [done|]. intros _. apply Forall_singleton.
      intros Ht'. congruence.
  - intros [= <-]. exists []. by rewrite app_nil_r.
  - cbn [validate_metadata role_metadata]. revert wrong wrong'. induction IH as [|c cs Hc _ IH]; intros wrong wrong'.
    + intros [= <-]. exists []. by rewrite app_nil_r.
    + unfold bind at 1. destruct (validate_metadata (JObj d) c wrong) as [[[]|] w1] eqn:H1; [|done].
      intros H2. destruct (Hc _ _ H1) as (f1 & -> & Hf1). destruct (IH _ _ H2) as (f2 & -> & Hf2).
      exists (f1 ++ f2). split; [by rewrite app_assoc|]. intros [-> ->]%app_nil. cbn [flat_map].
      apply Forall_app. auto.
Qed.

Lemma check_constraint_passes req d c : check_constraint req (JObj d) c = Ok tt -> rule_known d c.
Proof.
  unfold check_constraint. destruct (validate_metadata (JObj d) c []) as [[[]|] wrong] eqn:Hv; [|done].
  destruct (validate_metadata_passes _ _ _ _ Hv) as (found & -> & Hf). destruct found as [|v found]; [auto|].
  cbn [app length Nat.ltb Nat.leb]. by destruct (join_args _).
Qed.

Lemma check_constraints_passes req d cs : check_constraints req (JObj d) cs = Ok tt -> Forall (rule_known d) cs.
Proof.
  induction cs as [|c cs IH]; [constructor|]. cbn [check_constraints].
  destruct (check_constraint req (JObj d) c) as [[]|] eqn:Hc; [|done]. cbn [res_bind]. intros Hcs.
  constructor; [by eapply check_constraint_passes|auto].
Qed.

(** ** Runs of the config state *)

Section Runs.
Context {T : Type} `{StateStoreLaws T} `{SerializerLaws} `{FieldsLaws} `{Base58}.
Context (get_auth_constraint : json -> res auth_constraint).
Implicit Types (t : T) (f : string -> option Z) (rules : list auth_constraint).

(** The states that accepted requests lead to, with the fees set so far and the
    rules accepted so far.  The fees of a request are JSON integers, each alias once,
    as in any dictionary; [payload] is the operation in the transaction.  Other
    transactions of the config ledger leave the keys of the fees alone. *)
Inductive config_run : T -> (string -> option Z) -> list auth_constraint -> Prop :=
  | run_start t :
      (forall a, st_get t false (path_of a) = None) -> config_run t (fun _ => None) []
  | run_set_fees t f rules raw payload new r t' :
      config_run t f rules -> set_fees_static_validation raw = Ok tt ->
      alookup FEES (raw_operation raw) = Some (JObj (fees_dict new)) -> NoDup new.*1 ->
      alookup FEES payload = alookup FEES (raw_operation raw) ->
      set_fees_update_state payload t = (r, t') -> config_run t' (merge_fees f new) rules
  | run_auth_rule t f rules raw c :
      config_run t f rules -> auth_rule_fees_specific_validation get_auth_constraint t raw = Ok tt ->
      get_auth_constraint (JObj (raw_operation raw)) = Ok c -> config_run t f (c :: rules)
  | run_auth_rules t f rules raw items cs :
      config_run t f rules -> auth_rules_fees_specific_validation get_auth_constraint t raw = Ok tt ->
      alookup RULES (raw_operation raw) = Some (JArr items) -> map_res get_auth_constraint items = Ok cs ->
      config_run t f (cs ++ rules)
  | run_other t f rules t' :
      config_run t f rules -> (forall a, st_get t' false (path_of a) = st_get t false (path_of a)) ->
      config_run t' f rules.

(** A rule whose aliases all have a fee. *)
Definition rule_has_fees f (c : auth_constraint) : Prop :=
  forall metadata, metadata ∈ role_metadata c -> json_truthy (get_default_none FEES_FIELD_NAME metadata) = true ->
    exists a n, get_default_none FEES_FIELD_NAME metadata = JStr a /\ f a = Some n.

Definition config_inv t f rules : Prop :=
  fees_view t f /\ (forall a n, f a = Some n -> (0 <= n)%Z) /\ Forall (rule_has_fees f) rules.

Lemma fees_view_table t f : fees_view t f -> exists d, stored_table t d /\ forall k, alookup k d = JInt <$> f k.
Proof. intros [(d & Hs & _ & _ & Hl) _]. by exists d. Qed.

Lemma rule_known_fees d f c : (forall k, alookup k d = JInt <$> f k) -> rule_known d c -> rule_has_fees f c.
Proof.
  intros Hl Hc metadata Hm Ht. unfold rule_known in Hc. rewrite Forall_forall in Hc.
  destruct (Hc metadata Hm Ht) as (a & Ha & Hd). exists a. unfold ahas in Hd. rewrite Hl in Hd.
  destruct (f a) as [n|]; [by exists n|done].
Qed.

(** Fees are replaced and added, never removed. *)
Lemma rule_has_fees_merge f new c : rule_has_fees f c -> rule_has_fees (merge_fees f new) c.
Proof.
  intros Hc metadata Hm Ht. destruct (Hc metadata Hm Ht) as (a & n & Ha & Hn). exists a. unfold merge_fees.
  destruct (alookup a new) as [n'|]; [by exists n'|by exists n].
Qed.

(** What the validation of the message says of integer fees. *)
Lemma validated_fees raw new :
  set_fees_static_validation raw = Ok tt -> alookup FEES (raw_operation raw) = Some (JObj (fees_dict new)) ->
  Forall (fun kv => kv.1 <> "" /\ (0 <= kv.2)%Z) new.
Proof.
  intros Hs Hf. destruct (set_fees_static_validation_sound raw Hs) as (d & Hd & Hall). simplify_eq.
  unfold fees_dict in Hall. rewrite Forall_fmap in Hall. eapply Forall_impl; [exact Hall|].
  intros [a n] (Ha & n' & Hn & Hpos). simpl in *. by simplify_eq.
Qed.

Lemma fees_view_same t t' f :
  (forall a, st_get t' false (path_of a) = st_get t false (path_of a)) -> fees_view t f -> fees_view t' f.
Proof.
  intros Hsame [(d & Hs & Hd) Ha]. split.
  - exists d. split; [|done]. unfold stored_table in *. by rewrite Hsame.
  - intros a Hne Hne'. rewrite (get_fee_same t t' a) by done. by apply Ha.
Qed.

Lemma fees_view_start t : (forall a, st_get t false (path_of a) = None) -> fees_view t (fun _ => None).
Proof.
  intros Hnone. split.
  - exists []. split_and!; [|constructor|constructor|done]. unfold stored_table. by rewrite Hnone.
  - intros a Ha _. unfold get_fee_from_state. rewrite build_path_alias by done. cbn [res_bind]. by rewrite Hnone.
Qed.

Lemma set_fees_step t f rules raw payload new :
  config_inv t f rules -> set_fees_static_validation raw = Ok tt ->
  alookup FEES (raw_operation raw) = Some (JObj (fees_dict new)) -> NoDup new.*1 ->
  alookup FEES payload = alookup FEES (raw_operation raw) ->
  exists t', set_fees_update_state payload t = (Ok tt, t') /\ config_inv t' (merge_fees f new) rules.
Proof.
  intros (Hv & Hpos & Hrules) Hs Hf Hnd Hp. pose proof (validated_fees raw new Hs Hf) as Hnew.
  destruct (set_fees_core t f new payload Hv) as (t' & Hrun & Hv' & _); [by rewrite Hp|done| |].
  { eapply Forall_impl; [exact Hnew|]. by intros kv [? _]. }
  exists t'. split; [done|]. split_and!; [done| |].
  - intros a n. unfold merge_fees. destruct (alookup a new) as [n'|] eqn:E; [|apply Hpos].
    intros [= ->]. rewrite Forall_forall in Hnew. apply (Hnew (a, n)). by apply alookup_elem.
  - eapply Forall_impl; [exact Hrules|]. intros c. apply rule_has_fees_merge.
Qed.

Lemma config_run_inv t f rules : config_run t f rules -> config_inv t f rules.
Proof.
  induction 1 as [t Hnone|t f rules raw payload new r t' _ Hinv Hs Hf Hnd Hp Hrun|t f rules raw c _ Hinv Hok Hc
    |t f rules raw items cs _ Hinv Hok Hr Hcs|t f rules t' _ Hinv Hsame].
  - split_and!; [by apply fees_view_start|done|constructor].
  - destruct (set_fees_step t f rules raw payload new Hinv Hs Hf Hnd Hp) as (t'' & Hrun' & Hinv').
    rewrite Hrun in Hrun'. by injection Hrun' as _ ->.
  - destruct Hinv as (Hv & Hpos & Hrules). split_and!; [done..|]. constructor; [|done].
    destruct (fees_view_table t f Hv) as (d & Hd & Hl). unfold auth_rule_fees_specific_validation in Hok.
    rewrite (get_fees_table t d Hd), Hc in Hok. cbn [res_bind] in Hok.
    eapply rule_known_fees; [exact Hl|]. by eapply check_constraint_passes.
  - destruct Hinv as (Hv & Hpos & Hrules). split_and!; [done..|]. apply Forall_app. split; [|done].
    destruct (fees_view_table t f Hv) as (d & Hd & Hl). unfold auth_rules_fees_specific_validation, get_item in Hok.
    rewrite (get_fees_table t d Hd), Hr in Hok. cbn [dict_item res_bind json_iter] in Hok. rewrite Hcs in Hok.
    cbn [res_bind] in Hok. apply check_constraints_passes in Hok. eapply Forall_impl; [exact Hok|].
    intros c. by apply rule_known_fees.
  - destruct Hinv as (Hv & Hinv). split; [by eapply fees_view_same|done].
Qed.

(** C23: along every run of accepted [SET_FEES], [AUTH_RULE] and [AUTH_RULES]
    requests the table of fees read back, and [GET_FEE] of every alias but the
    table's own name, are the merge of all fees set; no fee is negative; an alias
    that an accepted rule names has a fee ever after, and this is the fee that the
    authorizer asks for; and the next [SET_FEES] that passes validation is applied
    without error. *)
Theorem fee_rules_invariant t f rules :
  config_run t f rules ->
  (exists d, get_fees t false = Ok (JObj d) /\ forall a, alookup a d = JInt <$> f a) /\
  (forall a, a <> "" -> a <> FEES_KEY_FOR_ALL ->
    get_fee_from_state t (JStr a) false = Ok match f a with Some n => JInt n | None => JNull end) /\
  (forall a n, f a = Some n -> (0 <= n)%Z) /\
  (forall c metadata, c ∈ rules -> metadata ∈ role_metadata c ->
    json_truthy (get_default_none FEES_FIELD_NAME metadata) = true ->
    exists a n, get_default_none FEES_FIELD_NAME metadata = JStr a /\ f a = Some n /\ required_fee t metadata = Ok n) /\
  (forall raw payload new, set_fees_static_validation raw = Ok tt ->
    alookup FEES (raw_operation raw) = Some (JObj (fees_dict new)) -> NoDup new.*1 ->
    alookup FEES payload = alookup FEES (raw_operation raw) ->
    exists t', set_fees_update_state payload t = (Ok tt, t') /\ config_run t' (merge_fees f new) rules).
Proof.
  intros Hrun. pose proof (config_run_inv _ _ _ Hrun) as (Hv & Hpos & Hrules). split_and!; [|apply Hv|done|..].
  - destruct (fees_view_table t f Hv) as (d & Hd & Hl). exists d. split; [by apply get_fees_table|done].
  - intros c metadata Hc Hm Ht. rewrite Forall_forall in Hrules. destruct (Hrules c Hc metadata Hm Ht) as (a & n & Ha & Hn).
    exists a, n. split_and!; [done..|]. by rewrite (required_fee_view t f metadata (proj1 Hv)), Ha, Hn.
  - intros raw payload new Hs Hf Hnd Hp.
    destruct (set_fees_step t f rules raw payload new) as (t' & Hr & _); [done..|]. exists t'. split; [done|].
    by eapply run_set_fees.
Qed.
End Runs.

(** ** Witness: a fee for NYM, then a rule that names it *)

Module ExRules.
Definition set_nym : raw_request :=
  mkRawRequest (Some "did") (Some 1%Z) [(TXN_TYPE, JStr SET_FEES); (FEES, JObj (fees_dict [("nym", 4%Z)]))].
Definition rule : auth_constraint := CombinedConstraint [RoleConstraint [(FEES_FIELD_NAME, JStr "nym")]; ForbiddenConstraint].
Definition rule_request : raw_request := mkRawRequest (Some "did") (Some 2%Z) [].
Definition get_rule (v : json) : res auth_constraint := Ok rule.

Lemma rule_run : config_run get_rule ExFees.config (merge_fees (fun _ => None) [("nym", 4%Z)]) [rule].
Proof.
  apply (run_auth_rule get_rule _ _ _ rule_request rule); [|by vm_compute|done].
  apply (run_set_fees get_rule Mem.empty_state _ _ set_nym (raw_operation set_nym) _ (Ok tt));
    [by apply run_start|by vm_compute|done|by apply (bool_decide_unpack _)|done|by vm_compute].
Qed.
End ExRules.

Lemma fee_rules_invariant_witness :
  exists a n, JStr "nym" = JStr a /\ merge_fees (fun _ => None) [("nym", 4%Z)] a = Some n /\
    required_fee ExFees.config [(FEES_FIELD_NAME, JStr "nym")] = Ok n.
Proof.
  apply (proj1 (proj2 (proj2 (proj2 (fee_rules_invariant _ _ _ _ ExRules.rule_run)))) ExRules.rule
           [(FEES_FIELD_NAME, JStr "nym")]); [left|left|done].
Defined.
