(* ===== verification/TokenLedger.v ===== *)
(** * The token ledger as a state machine

    The composition of the components: every transaction that changes the token
    state and the UTXO cache (a mint, a transfer in either version and with or
    without the fees plugin, the fee of a domain request), guarded by the
    validation that the code runs before it.  Theorems: along every run the
    supply is what was minted less the fees paid, amounts stay positive, the
    numbers of unspent outputs stay below the ledger's size, and no accepted
    transaction fails when it is applied. *)

From S2P Require Import Prelude Exceptions PyStr TokenTypes Stores UtxoAmounts UtxoCache TokenUtils.
From S2P Require Import TokenHandlers Json GetUtxo FeesState FeesAuthorizer Ledger DomainFees Payments Authn Validation.

Open Scope stdpp_scope.

(** ** Steps *)

Section Machine.
Context {T K L X : Type} `{StateStore T} `{KVStore K} `{TxnOps X} `{LedgerOps L X} `{Serializer} `{Base58}.

(** [ledger_step node p r node' minted fee]: an accepted transaction, which pays
    [p], is applied to [node] with the result [r].  The token ledger of a mint or a transfer is
    extended by plenum's write manager: it grows by one. *)
Inductive ledger_step (node : fee_node T K L) : payment -> res unit -> fee_node T K L -> Z -> Z -> Prop :=
  | step_mint outs r d' l' :
      outputs_ok outs ->
      mint_update_state (mkTxn MINT_PUBLIC None (Some outs) (uncommitted_size (X:=X) (fn_ledger node) + 1))
        false (fn_db node) = (r, d') ->
      uncommitted_size (X:=X) l' = (uncommitted_size (X:=X) (fn_ledger node) + 1)%Z ->
      ledger_step node (mkPayment MINT_PUBLIC [] outs) r (mkFeeNode d' l' (fn_tracker node))
        (zsum (po_amount <$> outs)) 0
  | step_xfer rm req ins outs r d' l' :
      inputs_ok ins -> outputs_ok outs ->
      op_inputs (req_operation req) = Some ins -> op_outputs (req_operation req) = Some outs ->
      do_validate_inputs_ouputs (db_cache (fn_db node)) req = Ok tt ->
      xfer_update rm (mkTxn XFER_PUBLIC (Some ins) (Some outs) (uncommitted_size (X:=X) (fn_ledger node) + 1))
        false (fn_db node) = (r, d') ->
      uncommitted_size (X:=X) l' = (uncommitted_size (X:=X) (fn_ledger node) + 1)%Z ->
      ledger_step node (mkPayment XFER_PUBLIC ins outs) r (mkFeeNode d' l' (fn_tracker node)) 0 0
  | step_xfer_fee rm (config : T) metadata req n msg ins outs r d' l' :
      inputs_ok ins -> outputs_ok outs ->
      op_type (req_operation req) = XFER_PUBLIC ->
      op_inputs (req_operation req) = Some ins -> op_outputs (req_operation req) = Some outs ->
      required_fee config metadata = Ok n ->
      authorize config (db_cache (fn_db node)) req metadata = Ok (true, msg) ->
      xfer_update rm (mkTxn XFER_PUBLIC (Some ins) (Some outs) (uncommitted_size (X:=X) (fn_ledger node) + 1))
        false (fn_db node) = (r, d') ->
      uncommitted_size (X:=X) l' = (uncommitted_size (X:=X) (fn_ledger node) + 1)%Z ->
      ledger_step node (mkPayment XFER_PUBLIC ins outs) r (mkFeeNode d' l' (fn_tracker node)) 0 n
  | step_domain_fee ledger_id (config : T) metadata req prev n msg ins outs sigs r node' :
      inputs_ok ins -> outputs_ok outs ->
      op_type (req_operation req) <> XFER_PUBLIC -> req_fees req = FeesIs (Fees3 ins outs sigs) ->
      required_fee config metadata = Ok n ->
      authorize config (db_cache (fn_db node)) req metadata = Ok (true, msg) ->
      apply_request (X:=X) ledger_id req prev node = (r, node') ->
      ledger_step node (mkPayment FEE_TXN ins outs) r node' 0 n.

(** The nodes reachable from one with an empty token state, with all that has
    been minted and paid as fees on the way. *)
Inductive reachable : fee_node T K L -> Z -> Z -> Prop :=
  | reach_empty node :
      db_repr false (fn_db node) ∅ -> (0 <= uncommitted_size (X:=X) (fn_ledger node))%Z -> reachable node 0 0
  | reach_step node minted fees p r node' a f :
      reachable node minted fees -> ledger_step node p r node' a f ->
      reachable node' (minted + a) (fees + f).

Definition token_inv (node : fee_node T K L) (total : Z) : Prop :=
  exists m, db_repr false (fn_db node) m /\ supply m = total /\
            outputs_inv m (uncommitted_size (X:=X) (fn_ledger node)).
End Machine.

(** ** Lemmas *)

Section Invariant.
Context {T K L X : Type} `{StateStoreLaws T} `{KVStoreLaws K} `{LedgerLaws L X} `{Serializer} `{Base58}.
Implicit Types (node : fee_node T K L).

Lemma outputs_positive outs : outputs_ok outs -> Forall (fun o => 0 < po_amount o)%Z outs.
Proof. intros [_ Ho]. eapply Forall_impl; [exact Ho|]. by intros o [? _]. Qed.

Lemma payment_ok_pays m ty ins outs n :
  pays m ins outs n -> inputs_ok ins -> outputs_ok outs -> payment_ok m (mkPayment ty ins outs).
Proof. intros [Hall _] [Hnd _] Hok. split_and!; [done|done|apply Hok|by apply outputs_positive]. Qed.

(** Payments of a transfer, with or without a fee. *)
Lemma xfer_step rm node m n ins outs r d' :
  let size := uncommitted_size (X:=X) (fn_ledger node) in
  let p := mkPayment XFER_PUBLIC ins outs in
  db_repr false (fn_db node) m -> seqNos_below m size ->
  pays m ins outs n -> inputs_ok ins -> outputs_ok outs ->
  xfer_update rm (mkTxn XFER_PUBLIC (Some ins) (Some outs) (size + 1)) false (fn_db node) = (r, d') ->
  r = Ok tt /\ payment_ok m p /\ db_repr false d' (u_pay m (size + 1) p) /\
  supply (u_pay m (size + 1) p) = (supply m - n)%Z.
Proof.
  intros size p Hr Hb Hpays Hin Hok Hrun.
  assert (payment_ok m p) as Hp by (by eapply payment_ok_pays).
  destruct (xfer_update_repr rm (fn_db node) false m (mkTxn XFER_PUBLIC (Some ins) (Some outs) (size + 1)) ins outs)
    as (d1 & Hrun1 & Hr1); [done..|by apply Hin|by apply Hpays|by apply Hok| |].
  { intros o _. by apply seqNos_below_fresh. }
  rewrite Hrun in Hrun1. simplify_eq. split_and!; try done. by apply supply_u_pay_pays.
Qed.

Lemma mint_step node m outs r d' :
  let size := uncommitted_size (X:=X) (fn_ledger node) in
  let p := mkPayment MINT_PUBLIC [] outs in
  db_repr false (fn_db node) m -> seqNos_below m size -> outputs_ok outs ->
  mint_update_state (mkTxn MINT_PUBLIC None (Some outs) (size + 1)) false (fn_db node) = (r, d') ->
  r = Ok tt /\ payment_ok m p /\ db_repr false d' (u_pay m (size + 1) p) /\
  supply (u_pay m (size + 1) p) = (supply m + zsum (po_amount <$> outs))%Z.
Proof.
  intros size p Hr Hb Hok Hrun.
  destruct (mint_update_repr (fn_db node) false m (mkTxn MINT_PUBLIC None (Some outs) (size + 1)) outs)
    as (d1 & Hrun1 & Hr1); [done|done|by apply Hok| |].
  { intros o _. by apply seqNos_below_fresh. }
  rewrite Hrun in Hrun1. simplify_eq. split_and!; try done; [|by apply supply_add_all].
  split_and!; [constructor|set_solver|apply Hok|by apply outputs_positive].
Qed.

(** What an accepted transaction does, in terms of the outputs. *)
Lemma ledger_step_repr node m p r node' a f :
  let size := uncommitted_size (X:=X) (fn_ledger node) in
  db_repr false (fn_db node) m -> seqNos_below m size -> ledger_step (X:=X) node p r node' a f ->
  r = Ok tt /\ payment_ok m p /\ db_repr false (fn_db node') (u_pay m (size + 1) p) /\
  uncommitted_size (X:=X) (fn_ledger node') = (size + 1)%Z /\
  supply (u_pay m (size + 1) p) = (supply m + a - f)%Z /\
  fees_in_current_batch (fn_tracker node') =
    (fees_in_current_batch (fn_tracker node) + if decide (pay_type p = FEE_TXN) then 1 else 0)%Z.
Proof.
  intros size Hr Hb Hstep.
  destruct Hstep as [outs r d' l' Hok Hrun Hl|rm req ins outs r d' l' Hin Hok Hi Ho Hval Hrun Hl
    |rm config md req n msg ins outs r d' l' Hin Hok Hty Hi Ho Hn Ha Hrun Hl
    |lid config md req prev n msg ins outs sigs r node' Hin Hok Hty Hf Hn Ha Hrun].
  - destruct (mint_step node m outs r d' Hr Hb Hok Hrun) as (-> & ? & ? & Hs). split_and!; [done..|etransitivity; [exact Hs|lia]|by rewrite decide_False, Z.add_0_r].
  - destruct (do_validate_Ok _ m req (proj1 Hr) Hval) as (ins' & outs' & Hi' & Ho' & Hall & Hsum). simplify_eq.
    destruct (xfer_step rm node m 0 ins outs r d' Hr Hb) as (-> & ? & ? & Hs); try done; [split; [done|lia]|].
    split_and!; [done..|etransitivity; [exact Hs|lia]|by rewrite decide_False, Z.add_0_r].
  - pose proof (authorize_xfer_pays config md _ m req n msg ins outs (proj1 Hr) Hty Hi Ho Hn Ha) as Hpays.
    destruct (xfer_step rm node m n ins outs r d' Hr Hb) as (-> & ? & ? & Hs); try done.
    split_and!; [done..|etransitivity; [exact Hs|lia]|by rewrite decide_False, Z.add_0_r].
  - pose proof (authorize_other_pays config md _ m req n msg ins outs sigs (proj1 Hr) Hty Hf Hn Ha) as Hpays.
    destruct (apply_request_pays (X:=X) lid node m req prev n ins outs sigs Hr Hb Hf (proj1 Hin) (proj1 Hok) Hpays)
      as (node1 & Hrun1 & Hr1 & Hsize & Hcount & _). rewrite Hrun in Hrun1. simplify_eq.
    assert (payment_ok m (mkPayment FEE_TXN ins outs)) as Hp by (by eapply payment_ok_pays).
    split_and!; [done..|rewrite (supply_u_pay_pays m _ _ n) by done; lia|by rewrite decide_True].
Qed.

Lemma ledger_step_outputs node p r node' a f : ledger_step (X:=X) node p r node' a f -> outputs_ok (pay_outputs p).
Proof. by destruct 1. Qed.

Lemma ledger_step_inv node p r node' a f total :
  token_inv (X:=X) node total -> ledger_step (X:=X) node p r node' a f ->
  r = Ok tt /\ token_inv (X:=X) node' (total + a - f).
Proof.
  intros (m & Hr & <- & Hinv) Hstep.
  destruct (ledger_step_repr node m p r node' a f Hr) as (-> & Hok & Hr' & Hsize & Hs & _); [apply Hinv|done|].
  split; [done|]. eexists. split_and!; [exact Hr'|done|]. rewrite Hsize. by apply outputs_inv_pay.
Qed.

Lemma reachable_inv node minted fees :
  reachable (X:=X) node minted fees -> token_inv (X:=X) node (minted - fees).
Proof.
  induction 1 as [node Hr _|node minted fees p r node' a f _ IH Hstep].
  - exists ∅. split_and!; [done|done|]. apply outputs_inv_empty.
  - destruct (ledger_step_inv _ _ _ _ _ _ _ IH Hstep) as [_ Hinv].
    by replace (minted + a - (fees + f))%Z with (minted - fees + a - f)%Z by lia.
Qed.
End Invariant.

Lemma ledger_step_type {T K L X} `{StateStore T} `{KVStore K} `{TxnOps X} `{LedgerOps L X} `{Serializer} `{Base58}
    (node : fee_node T K L) p r node' a f :
  ledger_step (X:=X) node p r node' a f ->
  payment_typed p.
Proof. unfold payment_typed. destruct 1; simpl; auto. Qed.

(** ** Properties *)

Section Properties.
Context {T K L X : Type} `{StateStoreLaws T} `{KVStoreLaws K} `{LedgerLaws L X} `{Serializer} `{Base58}.
Implicit Types (node : fee_node T K L).

(** C2: along every run of accepted mints, transfers and fee payments, the token
    state and the UTXO cache show one set of unspent outputs, whose total is all
    that was minted less all fees paid and is never negative; every amount in it
    is positive; and the next accepted transaction is applied without error. *)
Theorem token_supply_invariant node minted fees :
  reachable (X:=X) node minted fees ->
  (exists m, db_repr false (fn_db node) m /\ supply m = (minted - fees)%Z /\ (0 <= minted - fees)%Z /\
     (forall i a, u_amount m i = Some a -> (0 < a)%Z)) /\
  forall p r node' a f, ledger_step (X:=X) node p r node' a f -> r = Ok tt.
Proof.
  intros Hreach. pose proof (reachable_inv _ _ _ Hreach) as Hinv. split.
  - destruct Hinv as (m & Hr & Hs & _ & Hp & _). exists m. split_and!; [done|done| |].
    + rewrite <- Hs. by apply supply_nonneg.
    + intros i a. by apply u_positive_amount.
  - intros p r node' a f Hstep. by apply (ledger_step_inv _ _ _ _ _ _ _ Hinv Hstep).
Qed.

(** C3: the two validations together are enough: a transfer of untyped JSON that
    passes static validation, and whose typed request passes the check of the
    sums, is applied without error by both handler versions on every reachable
    node, and the result is reachable with nothing minted and nothing lost. *)
Theorem validated_transfer_applied `{FieldsLaws} node minted fees raw req ins outs rm l' :
  reachable (X:=X) node minted fees ->
  alookup TXN_TYPE (raw_operation raw) = Some (JStr XFER_PUBLIC) -> xfer_static_validation raw = Ok tt ->
  inputs_of raw ins -> outputs_of raw outs ->
  op_inputs (req_operation req) = Some ins -> op_outputs (req_operation req) = Some outs ->
  do_validate_inputs_ouputs (db_cache (fn_db node)) req = Ok tt ->
  uncommitted_size (X:=X) l' = (uncommitted_size (X:=X) (fn_ledger node) + 1)%Z ->
  exists d', xfer_update rm (mkTxn XFER_PUBLIC (Some ins) (Some outs) (uncommitted_size (X:=X) (fn_ledger node) + 1))
               false (fn_db node) = (Ok tt, d') /\
    reachable (X:=X) (mkFeeNode d' l' (fn_tracker node)) minted fees.
Proof.
  intros Hreach Hty Hst (li & Hli & Hpi) (lo & Hlo & Hpo) Hi Ho Hval Hl.
  destruct (xfer_static_validation_spec raw Hty Hst) as (outs' & ins' & sigs & (lo' & Hlo' & Hpo') & (li' & Hli' & Hpi')
    & Hok & Hin & _). simplify_eq.
  destruct (xfer_update rm _ false (fn_db node)) as [r d'] eqn:Hrun. exists d'.
  assert (ledger_step (X:=X) node (mkPayment XFER_PUBLIC ins outs) r (mkFeeNode d' l' (fn_tracker node)) 0 0) as Hstep
    by (by eapply step_xfer).
  destruct (ledger_step_inv _ _ _ _ _ _ _ (reachable_inv _ _ _ Hreach) Hstep) as [-> _]. split; [done|].
  rewrite <- (Z.add_0_r minted), <- (Z.add_0_r fees). by eapply reach_step.
Qed.
End Properties.

(** ** Witnesses

    A node on which 4 and 6 tokens were minted, then the 6 are paid on. *)

Module ExRun.
Abbreviation node := (fee_node Mem.state Mem.kv MemLedger.ledger).
Definition start : node := mkFeeNode TokenHandlers.Ex.empty (MemLedger.mkLedger 0 []) BatchFeesTracker_init.
Definition minted : node :=
  mkFeeNode (mint_update_state (mkTxn MINT_PUBLIC None (Some ExFields.outs) 1) false TokenHandlers.Ex.empty).2
            (MemLedger.mkLedger 1 []) BatchFeesTracker_init.

Lemma outs_ok : outputs_ok ExFields.outs.
Proof. split; [by apply (bool_decide_unpack _)|apply ExFields.outs_good]. Qed.

Lemma reachable_minted : reachable (X:=MemLedger.mtxn) minted 10 0.
Proof.
  change 10%Z with (0 + zsum (po_amount <$> ExFields.outs))%Z. change 0%Z with (0 + 0)%Z at 2.
  apply (reach_step start _ _ (mkPayment MINT_PUBLIC [] ExFields.outs) (mint_update_state (mkTxn MINT_PUBLIC None (Some ExFields.outs) 1) false TokenHandlers.Ex.empty).1);
    [by apply reach_empty; [apply TokenHandlers.Ex.empty_repr|]|].
  apply (step_mint start ExFields.outs); [apply outs_ok|apply surjective_pairing|reflexivity].
Qed.

Definition xfer_outs : list POutput := [mkPOutput (ExFields.addr "c") 6].
Definition raw : raw_request :=
  mkRawRequest (Some "did") (Some 1%Z)
    [(TXN_TYPE, JStr XFER_PUBLIC); (OUTPUTS, JArr (enc_output <$> xfer_outs)); (INPUTS, JArr (enc_input <$> ExFields.ins));
     (SIGS, JArr [JStr "s"])].
Definition typed : request :=
  mkRequest (Some "did") (Some 1%Z) (mkOperation XFER_PUBLIC (Some ExFields.ins) (Some xfer_outs) (Some ["s"])) FeesMissing.
End ExRun.

Lemma token_supply_invariant_witness :
  (exists m, db_repr false (fn_db ExRun.minted) m /\ supply m = (10 - 0)%Z /\ (0 <= 10 - 0)%Z /\
     (forall i a, u_amount m i = Some a -> (0 < a)%Z)) /\
  forall p r node' a f, ledger_step (X:=MemLedger.mtxn) ExRun.minted p r node' a f -> r = Ok tt.
Proof. apply (token_supply_invariant (X:=MemLedger.mtxn) ExRun.minted 10 0 ExRun.reachable_minted). Defined.

Lemma validated_transfer_applied_witness :
  exists d', xfer_update true (mkTxn XFER_PUBLIC (Some ExFields.ins) (Some ExRun.xfer_outs)
                 (uncommitted_size (X:=MemLedger.mtxn) (fn_ledger ExRun.minted) + 1)) false (fn_db ExRun.minted) = (Ok tt, d') /\
    reachable (X:=MemLedger.mtxn) (mkFeeNode d' (MemLedger.mkLedger 2 []) (fn_tracker ExRun.minted)) 10 0.
Proof.
  apply (validated_transfer_applied (X:=MemLedger.mtxn) ExRun.minted 10 0 ExRun.raw ExRun.typed ExFields.ins
           ExRun.xfer_outs true (MemLedger.mkLedger 2 []) ExRun.reachable_minted);
    try reflexivity; try (vm_compute; reflexivity).
  - exists (enc_input <$> ExFields.ins). by vm_compute.
  - exists (enc_output <$> ExRun.xfer_outs). by vm_compute.
Defined.
