(* ===== verification/StateKeys.v ===== *)
(** * The keys of the token state

    Every key that the handlers write to the token state is the key of an output
    of a valid address, with a positive number.  This is what lets the reader of the state take a key
    apart again (GetUtxo). *)

From S2P Require Import Prelude Exceptions PyStr TokenTypes Stores UtxoAmounts UtxoCache TokenUtils.
From S2P Require Import TokenHandlers Json GetUtxo FeesState FeesAuthorizer Ledger DomainFees Payments Authn Validation TokenLedger.

Open Scope stdpp_scope.

Section Keys.
Context `{Base58}.

(** A trie, given by what it holds, has keys of outputs only: of valid addresses,
    with positive numbers. *)
Definition output_keys (value : string -> option string) : Prop :=
  forall key, is_Some (value key) -> exists a s, key = create_state_key a s /\ valid_address a /\ (0 < s)%Z.

Lemma output_keys_ext v v' : (forall key, v' key = v key) -> output_keys v -> output_keys v'.
Proof. intros Hv Hk key. rewrite Hv. apply Hk. Qed.
End Keys.

Section Preserved.
Context {T K L X : Type} `{StateStoreLaws T} `{KVStoreLaws K} `{LedgerLaws L X} `{Serializer} `{Base58}.

Definition keeps_keys (d d' : token_db T K) : Prop :=
  output_keys (st_get (db_state d) false) -> output_keys (st_get (db_state d') false).

#[export] Instance keeps_keys_preorder : PreOrder keeps_keys.
Proof. split; [by intros d Hd|]. intros d1 d2 d3 E1 E2 Hk. by apply E2, E1. Qed.

Lemma output_keys_set (t : T) a s v :
  valid_address a -> (0 < s)%Z -> output_keys (st_get t false) -> output_keys (st_get (st_set t (create_state_key a s) v) false).
Proof.
  intros Ha Hs Hk key. destruct (decide (create_state_key a s = key)) as [<-|Hne]; [by exists a, s|].
  rewrite st_get_set_ne by done. apply Hk.
Qed.

Lemma output_keys_remove (t : T) key : output_keys (st_get t false) -> output_keys (st_get (st_remove t key) false).
Proof.
  intros Hk key'. destruct (decide (key = key')) as [<-|Hne]; [by rewrite st_get_remove_eq; intros []|].
  rewrite st_get_remove_ne by done. apply Hk.
Qed.

Lemma within_keys_on_cache {A} (m : M K A) : Exceptions.within keeps_keys (on_cache m).
Proof. intros d. unfold on_cache, zoom. destruct (m (db_cache d)). by intros Hk. Qed.

Lemma within_keys_spend a s c rm : valid_address a -> (0 < s)%Z -> Exceptions.within keeps_keys (spend_input a s c rm).
Proof.
  intros Ha Hs. unfold spend_input. apply (within_bind _); [|intros _; apply within_keys_on_cache].
  destruct rm; intros d Hk; [by apply output_keys_remove|by apply output_keys_set].
Qed.

Lemma within_keys_add o c :
  valid_address (out_address o) -> (0 < out_seqNo o)%Z -> Exceptions.within keeps_keys (add_new_output o c).
Proof.
  intros Ha Hs. unfold add_new_output. apply (within_bind _); [|intros _; apply within_keys_on_cache].
  intros d Hk. by apply output_keys_set.
Qed.

Lemma within_keys_spends ins c rm :
  inputs_ok ins -> Exceptions.within keeps_keys (for_each ins (fun i => spend_input (in_address i) (in_seqNo i) c rm)).
Proof.
  intros [_ Hall] d. apply (for_each_invariant (keeps_keys d)); [|reflexivity].
  intros i d' Hi Hd. rewrite Forall_forall in Hall. etransitivity; [exact Hd|].
  by apply within_keys_spend; apply Hall.
Qed.

Lemma within_keys_adds outs n c :
  outputs_ok outs -> (0 < n)%Z ->
  Exceptions.within keeps_keys (for_each outs (fun o => add_new_output (mkOutput (po_address o) n (Some (po_amount o))) c)).
Proof.
  intros [_ Hall] Hn d. apply (for_each_invariant (keeps_keys d)); [|reflexivity].
  intros o d' Ho Hd. rewrite Forall_forall in Hall. etransitivity; [exact Hd|].
  apply within_keys_add; [by apply Hall|done].
Qed.

Lemma within_keys_update_error {A} e (m : M (token_db T K) A) : update_error e = Some m -> Exceptions.within keeps_keys m.
Proof. unfold update_error. destruct (is_UTXOError e); intros; simplify_eq. apply (within_raise _). Qed.

Lemma within_lift_Ok {S A B} (R : relation S) (a : A) (k : A -> M S B) :
  Exceptions.within R (k a) -> Exceptions.within R (bind (lift (Ok a)) k).
Proof. done. Qed.

Lemma within_keys_mint t outs c :
  txn_outputs t = Some outs -> outputs_ok outs -> (0 < txn_seqNo t)%Z ->
  Exceptions.within keeps_keys (mint_update_state t c).
Proof.
  intros Ho Hok Hn. unfold mint_update_state. rewrite Ho. apply (within_catch _); [|apply within_keys_update_error].
  apply within_lift_Ok, (within_keys_adds _ _ _ Hok Hn).
Qed.

Lemma within_keys_xfer rm t ins outs c :
  txn_inputs t = Some ins -> txn_outputs t = Some outs -> inputs_ok ins -> outputs_ok outs ->
  (0 < txn_seqNo t)%Z -> Exceptions.within keeps_keys (xfer_update rm t c).
Proof.
  intros Hi Ho Hin Hout Hn. unfold xfer_update. rewrite Hi, Ho.
  apply (within_catch _); [|apply within_keys_update_error].
  apply within_lift_Ok, (within_bind _); [apply (within_keys_spends _ _ _ Hin)|]. intros _.
  apply within_lift_Ok, (within_keys_adds _ _ _ Hout Hn).
Qed.

Lemma within_keys_update_token (t : X) c :
  inputs_ok (payload_inputs t) -> outputs_ok (payload_outputs t) -> (0 < get_seq_no t)%Z ->
  Exceptions.within keeps_keys (update_token_state t c).
Proof.
  intros Hin Hout Hn. unfold update_token_state.
  apply (within_bind _); [by apply within_keys_spends|]. intros _. by apply within_keys_adds.
Qed.

(** The whole of an accepted transaction. *)
Lemma ledger_step_keys (node : fee_node T K L) p r node' a f :
  (0 <= uncommitted_size (X:=X) (fn_ledger node))%Z ->
  ledger_step (X:=X) node p r node' a f -> keeps_keys (fn_db node) (fn_db node').
Proof.
  intros Hsize. destruct 1 as [outs r d' l' Hok Hrun Hl|rm req ins outs r d' l' Hin Hok Hi Ho Hval Hrun Hl
    |rm config md req n msg ins outs r d' l' Hin Hok Hty Hi Ho Hn Ha Hrun Hl
    |lid config md req prev n msg ins outs sigs r node' Hin Hok Hty Hf Hn Ha Hrun]; cbn [fn_db].
  - replace d' with (r, d').2 by done. rewrite <- Hrun. apply (within_keys_mint _ outs); simpl; (done || lia).
  - replace d' with (r, d').2 by done. rewrite <- Hrun. apply (within_keys_xfer _ _ ins outs); simpl; (done || lia).
  - replace d' with (r, d').2 by done. rewrite <- Hrun. apply (within_keys_xfer _ _ ins outs); simpl; (done || lia).
  - unfold apply_request, has_fees, unpack_fees, fees_of in Hrun. rewrite Hf in Hrun.
    revert Hrun. reduce_monad. destruct (calculate_fees_from_req (db_cache (fn_db node)) req) as [z|e]; [|intros E; injection E as <- <-; by intros Hk].
    set (t := append_txns_metadata _ _ _). unfold on_ledger, on_db, zoom, modify. cbn [fn_db fn_ledger fn_tracker].
    assert (Exceptions.within keeps_keys (update_token_state t false)) as Hw.
    { apply within_keys_update_token; unfold t;
        rewrite ?payload_inputs_reqToTxn, ?payload_outputs_reqToTxn, ?get_seq_no_append; (done || lia). }
    specialize (Hw (fn_db node)). destruct (update_token_state t false (fn_db node)) as [[[]|e] d'].
    + unfold on_tracker, zoom. cbn. intros E; injection E as <- <-. exact Hw.
    + intros E; injection E as <- <-. exact Hw.
Qed.
End Preserved.
