(* ===== verification/Guarantees.v ===== *)
(** * What the token ledger guarantees to the owners of outputs

    Theorems on the whole machine of TokenLedger: sums can never exceed the
    supply, an output disappears only with a signature of its own key, and an
    unspent output can always be spent by its owner. *)

From S2P Require Import Prelude Exceptions PyStr TokenTypes Stores UtxoAmounts UtxoCache TokenUtils.
From S2P Require Import TokenHandlers Json GetUtxo FeesState FeesAuthorizer Ledger DomainFees Payments.
From S2P Require Import Authn Validation TokenLedger.

Open Scope stdpp_scope.

(** ** Every unspent output names a valid address and a positive number *)

Section Valid.
Context {T K L X : Type} `{StateStoreLaws T} `{KVStoreLaws K} `{LedgerLaws L X} `{Serializer} `{Base58}.
Implicit Types (node : fee_node T K L).

Definition u_valid (m : utxos) : Prop :=
  forall i, is_Some (u_amount m i) -> (0 < in_seqNo i)%Z /\ valid_address (in_address i).

Lemma u_valid_pay m n p :
  u_wf m -> u_valid m -> (0 < n)%Z -> outputs_ok (pay_outputs p) -> u_valid (u_pay m n p).
Proof.
  intros Hwf Hv Hn [_ Hok] i [Hi|[-> Ha]]%u_amount_u_pay_inv; [by apply Hv| |done].
  split; [done|]. apply list_elem_of_fmap in Ha as (o & -> & Ho). rewrite Forall_forall in Hok. by apply Hok.
Qed.

Lemma reachable_valid node minted fees :
  reachable (X:=X) node minted fees ->
  exists m, db_repr false (fn_db node) m /\ supply m = (minted - fees)%Z /\ u_valid m /\
    outputs_inv m (uncommitted_size (X:=X) (fn_ledger node)) /\ (0 <= uncommitted_size (X:=X) (fn_ledger node))%Z.
Proof.
  induction 1 as [node Hr Hsize|node minted fees p r node' a f _ IH Hstep].
  - exists ∅. split_and!; [done|done| |apply outputs_inv_empty|done]. intros i [z Hz]. done.
  - destruct IH as (m & Hr & Hs & Hv & Hinv & Hpos).
    destruct (ledger_step_repr node m p r node' a f Hr) as (_ & Hok & Hr' & Hsize & Hs' & _); [apply Hinv|done|].
    eexists. split; [exact Hr'|]. rewrite Hsize. split_and!; [lia| |by apply outputs_inv_pay|lia].
    apply u_valid_pay; [apply Hinv|done|lia|]. by eapply ledger_step_outputs.
Qed.
End Valid.

(** ** Signed payments *)

Section Signed.
Context `{Base58} {Rq : Type}.
Context (serialize_msg_for_signing : PInput -> list POutput -> list json -> string).
Context (verify : verifier_class -> string -> string -> string -> res bool).
Context (super_authenticate : auth_data -> marg -> marg -> verifier_class -> res (list string)).

(** The authenticator of its kind has let the payment pass: [TokenAuthNr] a
    transfer, [FeesAuthNr] the fees of a request. *)
Definition authenticated (p : payment) : Prop :=
  (pay_type p = XFER_PUBLIC ->
     exists req_data identifier signature verifier r,
       op_type (ad_operation req_data) = XFER_PUBLIC /\
       op_inputs (ad_operation req_data) = Some (pay_inputs p) /\
       op_outputs (ad_operation req_data) = Some (pay_outputs p) /\
       token_authenticate serialize_msg_for_signing verify super_authenticate req_data identifier signature verifier = Ok r) /\
  (pay_type p = FEE_TXN ->
     exists req digest sigs r,
       req_fees req = FeesIs (Fees3 (pay_inputs p) (pay_outputs p) sigs) /\
       verify_signature serialize_msg_for_signing verify req digest = Ok r).

(** Some verifier has accepted a signature by the key of the input's address, over
    the input, the outputs and what else is signed. *)
Definition owner_signed (outputs : list POutput) (i : PInput) : Prop :=
  exists verifier sig extra, signed serialize_msg_for_signing (verify verifier) outputs extra i sig.

Lemma payments_owner_signed verifier inputs outputs sigs extra r i :
  verify_signtures_on_payments serialize_msg_for_signing (verify verifier) inputs outputs sigs extra = Ok r ->
  i ∈ inputs -> owner_signed outputs i.
Proof.
  intros (_ & Hle & Hall)%payments_signed_core (k & Hk)%list_elem_of_lookup_1.
  destruct (lookup_lt_is_Some_2 sigs k) as [sig Hsig]; [apply lookup_lt_Some in Hk; lia|].
  exists verifier, sig, extra. by apply (Hall k).
Qed.

Lemma authenticated_signed p i :
  authenticated p -> pay_type p = XFER_PUBLIC \/ pay_type p = FEE_TXN -> i ∈ pay_inputs p ->
  owner_signed (pay_outputs p) i.
Proof.
  intros [Hx Hf] [Ht|Ht] Hi.
  - destruct (Hx Ht) as (rd & idr & sg & v & r & Hty & Hin & Ho & Ha). unfold token_authenticate in Ha.
    rewrite Hty in Ha. rewrite bool_decide_false, bool_decide_true in Ha by done.
    apply res_bind_Ok in Ha as (l & Ha & _). unfold authenticate_xfer in Ha. rewrite Hin, Ho in Ha. cbn [dict_item res_bind] in Ha.
    apply res_bind_Ok in Ha as (sigs & _ & Ha). by eapply payments_owner_signed.
  - destruct (Hf Ht) as (req & dg & sigs & r & Hfees & Ha). unfold verify_signature in Ha. rewrite Hfees in Ha.
    apply res_bind_Ok in Ha as (l & Ha & _). by eapply payments_owner_signed.
Qed.
End Signed.

(** ** Spending one output *)

Section Spending.
Context {T K L X : Type} `{StateStoreLaws T} `{KVStoreLaws K} `{LedgerLaws L X} `{Serializer} `{Base58}.
Implicit Types (node : fee_node T K L) (k : K).

(** A transfer of the whole of one output, less a fee, to one address. *)
Definition spend_request (idr : option string) (rid : option Z) (i : PInput) (o : POutput) (sig : string) : request :=
  mkRequest idr rid (mkOperation XFER_PUBLIC (Some [i]) (Some [o]) (Some [sig])) FeesMissing.

Definition spend_json (idr : option string) (rid : option Z) (i : PInput) (o : POutput) (sig : string) : raw_request :=
  mkRawRequest idr rid
    [(TXN_TYPE, JStr XFER_PUBLIC); (OUTPUTS, JArr (enc_output <$> [o])); (INPUTS, JArr (enc_input <$> [i]));
     (SIGS, JArr [JStr sig])].

(** The same transfer as the authenticators see it, with the acceptance of the
    agreement that the node may ask for, which is signed as well. *)
Definition spend_data (i : PInput) (o : POutput) (sig : string) (taa : json) : auth_data :=
  mkAuthData (req_operation (spend_request None None i o sig)) MNone JNull taa.

Definition signed_fields (taa : json) : list json := if json_truthy taa then [taa] else [].

Lemma spend_authenticated serialize_msg verify super_authenticate i o sig taa identifier signature :
  token_authenticate serialize_msg verify super_authenticate (spend_data i o sig taa) identifier signature None =
    Ok (Some [in_address i]) <->
  signed serialize_msg (verify AddressSigVerifier) [o] (signed_fields taa) i sig.
Proof.
  unfold token_authenticate, authenticate_xfer, spend_data, spend_request, signed_fields.
  cbn [ad_operation req_operation op_type op_inputs op_outputs op_sigs ad_extra ad_taa dict_item json_truthy app res_bind default].
  rewrite bool_decide_false, bool_decide_true by done. rewrite res_bind_Ok. split.
  - intros (l & (-> & _ & Hall)%payments_signed_core & _). by apply (Hall 0%nat).
  - intros Hs. exists [in_address i]. split; [|done]. apply payments_signed_core. split_and!; [done|done|].
    intros [|k] inp sg [= <-] [= <-]. done.
Qed.

Lemma pays_one m i a o fee : u_amount m i = Some a -> (po_amount o + fee = a)%Z -> pays m [i] [o] fee.
Proof.
  intros Hi Ha. split; [intros j ->%list_elem_of_singleton; by eexists|].
  rewrite remove_dups_NoDup_id by apply NoDup_singleton. csimpl. rewrite Hi. csimpl. lia.
Qed.

Lemma do_validate_pays k m req ins outs :
  cache_repr k false m -> op_inputs (req_operation req) = Some ins -> op_outputs (req_operation req) = Some outs ->
  pays m ins outs 0 -> do_validate_inputs_ouputs k req = Ok tt.
Proof.
  intros Hr Hi Ho [Hall Hsum]. unfold do_validate_inputs_ouputs.
  rewrite (sum_request_inputs_repr _ _ _ _ _ Hr Hi Hall). unfold sum_outputs. rewrite Ho. cbn [dict_item res_bind].
  unfold validate_given_inputs_outputs. by rewrite Hsum, Z.add_0_r, Z.eqb_refl.
Qed.

Lemma authorize_pays (config : T) metadata k m req ins outs fee :
  cache_repr k false m -> op_type (req_operation req) = XFER_PUBLIC ->
  op_inputs (req_operation req) = Some ins -> op_outputs (req_operation req) = Some outs ->
  required_fee config metadata = Ok fee -> pays m ins outs fee ->
  exists msg, authorize config k req metadata = Ok (true, msg).
Proof.
  intros Hr Hty Hi Ho Hf Hp.
  destruct (can_pay_fees_spec k m req ins outs fee Hr) as (b & msg & Hc & Hb); [by rewrite bool_decide_true|].
  exists msg. unfold authorize. rewrite Hf. cbn [res_bind]. rewrite bool_decide_false by tauto. rewrite Hc.
  by rewrite (proj2 Hb Hp).
Qed.
End Spending.

(** ** Properties *)

Section Properties.
Context {T K L X : Type} `{StateStoreLaws T} `{KVStoreLaws K} `{LedgerLaws L X} `{Serializer} `{Base58}.
Implicit Types (node : fee_node T K L).

(** C21: no inflation by naming inputs: on every reachable node, whatever inputs a
    request names, repeated or not, a sum that [sum_inputs] returns is at least the
    number of different inputs, so positive when there are any and zero when there
    are none, and at most all that was minted less the fees. *)
Theorem sum_inputs_bounded node minted fees inputs v :
  reachable (X:=X) node minted fees -> sum_inputs (db_cache (fn_db node)) inputs false = Ok v ->
  (Z.of_nat (length (remove_dups inputs)) <= v <= minted - fees)%Z /\
  (inputs <> [] -> 0 < v)%Z /\ (inputs = [] -> v = 0%Z).
Proof.
  intros Hreach Hs. destruct (reachable_valid _ _ _ Hreach) as (m & Hr & <- & _ & (Hwf & Hpos & _) & _).
  destruct (sum_inputs_Ok _ _ m _ _ (proj1 Hr) Hs) as [Hall ->].
  assert (Z.of_nat (length (remove_dups inputs)) <= zsum (omap (u_amount m) (remove_dups inputs)))%Z as Hge.
  { assert (forall i, i ∈ remove_dups inputs -> is_Some (u_amount m i)) as Hall'
      by (intros i Hi; by apply Hall, elem_of_remove_dups).
    clear Hs Hall. induction (remove_dups inputs) as [|i l IH]; csimpl; [done|].
    destruct (Hall' i) as [z Hz]; [by left|]. rewrite Hz. csimpl.
    pose proof (u_positive_amount m i z Hpos Hz). specialize (IH ltac:(intros; apply Hall'; by right)). lia. }
  split_and!; [done|apply supply_bounds_inputs; [done..|apply NoDup_remove_dups]| |by intros ->].
  destruct inputs as [|i inputs]; [done|]. intros _.
  assert (i ∈ remove_dups (i :: inputs)) as Hi by (apply elem_of_remove_dups; by left).
  destruct (remove_dups (i :: inputs)); [by apply elem_of_nil in Hi|]. cbn [length] in Hge. lia.
Qed.

(** C8: only the owner moves tokens: when an accepted and authenticated transaction
    is applied to a reachable node, every unspent output is still there with its
    amount, unless the transaction names it as an input and a signature over this
    input and the outputs verified under the key of the output's own address. *)
Theorem only_owner_spends serialize_msg verify super_authenticate node minted fees p r node' a f m m' i v :
  reachable (X:=X) node minted fees -> ledger_step (X:=X) node p r node' a f ->
  authenticated serialize_msg verify super_authenticate p ->
  db_repr false (fn_db node) m -> db_repr false (fn_db node') m' ->
  u_amount m i = Some v ->
  u_amount m' i = Some v \/ (i ∈ pay_inputs p /\ owner_signed serialize_msg verify (pay_outputs p) i).
Proof.
  intros Hreach Hstep Hauth Hm Hm' Hi. destruct (reachable_valid _ _ _ Hreach) as (m0 & Hr & _ & _ & Hinv & _).
  destruct (ledger_step_repr node m0 p r node' a f Hr) as (_ & Hok & Hr' & _); [apply Hinv|done|].
  rewrite (db_repr_amount _ _ m m0 i Hm Hr) in Hi. rewrite (db_repr_amount _ _ m' _ i Hm' Hr').
  destruct (decide (i ∈ pay_inputs p)) as [Hin|Hni].
  - right. split; [done|]. eapply authenticated_signed; [done| |done].
    destruct (ledger_step_type _ _ _ _ _ _ Hstep) as [[_ Hnil]|]; [|done]. rewrite Hnil in Hin. by apply not_elem_of_nil in Hin.
  - left. by apply u_amount_u_pay_old; [apply Hinv| |].
Qed.

(** C10: no output is ever stuck: on every reachable node, the owner of an unspent
    output worth more than the required fee can send it to any other valid address.
    With a signature that verifies under the key of the output's own address, over
    the input, the new output and the accepted agreement, the request passes static
    validation, both authenticators, the authorizer and, without a fee, the check of
    the sums; its transaction is applied by both handler versions without an
    exception, the new node is reachable with this fee paid, and the receiver has the
    amount less the fee under the transaction's number. *)
Theorem outputs_spendable `{FieldsLaws} serialize_msg verify super_authenticate
    node minted fees m i a fee b (config : T) metadata idr rid sig taa identifier signature digest rm l' :
  reachable (X:=X) node minted fees -> db_repr false (fn_db node) m -> u_amount m i = Some a ->
  required_fee config metadata = Ok fee -> (0 <= fee < a)%Z -> valid_address b ->
  let o := mkPOutput b (a - fee) in
  signed serialize_msg (verify AddressSigVerifier) [o] (signed_fields taa) i sig ->
  uncommitted_size (X:=X) l' = (uncommitted_size (X:=X) (fn_ledger node) + 1)%Z ->
  let n := (uncommitted_size (X:=X) (fn_ledger node) + 1)%Z in
  let req := spend_request idr rid i o sig in
  xfer_static_validation (spend_json idr rid i o sig) = Ok tt /\
  token_authenticate serialize_msg verify super_authenticate (spend_data i o sig taa) identifier signature None =
    Ok (Some [in_address i]) /\
  verify_signature serialize_msg verify req digest = Ok None /\
  (fee = 0%Z -> do_validate_inputs_ouputs (db_cache (fn_db node)) req = Ok tt) /\
  (exists msg, authorize config (db_cache (fn_db node)) req metadata = Ok (true, msg)) /\
  exists d' m', xfer_update rm (mkTxn XFER_PUBLIC (Some [i]) (Some [o]) n) false (fn_db node) = (Ok tt, d') /\
    reachable (X:=X) (mkFeeNode d' l' (fn_tracker node)) minted (fees + fee) /\
    db_repr false d' m' /\ u_amount m' i = None /\ u_amount m' (mkInput b n) = Some (a - fee)%Z.
Proof.
  intros Hreach Hm Hi Hf Hfee Hb o Hsig Hl n req. destruct (reachable_valid _ _ _ Hreach) as (m0 & Hr & _ & Hv & Hinv & _).
  rewrite (db_repr_amount _ _ m m0 i Hm Hr) in Hi. clear m Hm. destruct (Hv i ltac:(by eexists)) as [Hseq Haddr].
  assert (pays m0 [i] [o] fee) as Hp by (apply (pays_one m0 i a); [done|simpl; lia]).
  assert (inputs_ok [i]) as Hin by (split; [apply NoDup_singleton|by constructor]).
  assert (outputs_ok [o]) as Hout by (split; [apply NoDup_singleton|constructor; [simpl; split; [lia|done]|constructor]]).
  destruct (authorize_pays config metadata _ m0 req [i] [o] fee (proj1 Hr)) as [msg Hauth]; [done..|].
  split_and!.
  - refine (proj2 (xfer_static_validation_iff (spend_json idr rid i o sig) [o] [i] [JStr sig] _ _ _ _ _ _) _);
      [done..|apply Hout|apply Hin|]. split_and!; [apply Hout|apply Hin|done].
  - by apply spend_authenticated.
  - done.
  - intros ->. by apply (do_validate_pays _ m0 _ [i] [o]); [apply Hr| | |].
  - by exists msg.
  - destruct (xfer_update rm _ false (fn_db node)) as [r d'] eqn:Hrun.
    assert (ledger_step (X:=X) node (mkPayment XFER_PUBLIC [i] [o]) r (mkFeeNode d' l' (fn_tracker node)) 0 fee) as Hstep
      by (by eapply (step_xfer_fee node rm config metadata req)).
    destruct (ledger_step_repr node m0 _ r _ _ _ Hr (proj2 (proj2 Hinv)) Hstep) as (-> & Hok & Hr' & _).
    eexists _, _. split; [done|]. split.
    { rewrite <- (Z.add_0_r minted). by eapply reach_step. }
    split; [exact Hr'|]. split; [by apply u_amount_u_pay_spent; [apply Hinv|apply Hinv| |left]|].
    apply (u_amount_add_all_in _ n [o] o); [apply NoDup_singleton|by left|].
    apply u_amount_spend_all_None; [apply Hinv|]. by apply seqNos_below_fresh, Hinv.
Qed.
End Properties.

(** ** Witnesses

    The node of [ExRun] with 4 and 6 tokens; the 6 are paid on with a signature. *)

Module ExOwner.
Definition a_mint : payment := mkPayment MINT_PUBLIC [] ExFields.outs.
Definition m0 : utxos := u_pay ∅ 1 a_mint.
Definition pay : payment := mkPayment XFER_PUBLIC ExFields.ins ExRun.xfer_outs.
Definition after : ExRun.node :=
  mkFeeNode (xfer_update true (mkTxn XFER_PUBLIC (Some ExFields.ins) (Some ExRun.xfer_outs) 2) false (fn_db ExRun.minted)).2
            (MemLedger.mkLedger 2 []) BatchFeesTracker_init.

Lemma minted_repr : db_repr false (fn_db ExRun.minted) m0.
Proof.
  destruct (mint_step (X:=MemLedger.mtxn) ExRun.start ∅ ExFields.outs
              (mint_update_state (mkTxn MINT_PUBLIC None (Some ExFields.outs) 1) false TokenHandlers.Ex.empty).1
              (fn_db ExRun.minted) (TokenHandlers.Ex.empty_repr false)) as (_ & _ & Hr & _); [|apply ExRun.outs_ok|apply surjective_pairing|exact Hr].
  apply (outputs_inv_empty 0).
Qed.

Lemma xfer_outs_ok : outputs_ok ExRun.xfer_outs.
Proof.
  split; [by apply (bool_decide_unpack _)|]. constructor; [|constructor]. split; [done|by apply ExFields.valid].
Qed.

Lemma step : ledger_step (X:=MemLedger.mtxn) ExRun.minted pay (Ok tt) after 0 0.
Proof.
  apply (step_xfer ExRun.minted true ExRun.typed ExFields.ins ExRun.xfer_outs (Ok tt)); try reflexivity;
    [split; [by apply (bool_decide_unpack _)|apply ExFields.ins_good]|apply xfer_outs_ok|vm_compute; reflexivity..].
Qed.

Lemma after_repr : db_repr false (fn_db after) (u_pay m0 2 pay).
Proof.
  destruct (ledger_step_repr (X:=MemLedger.mtxn) ExRun.minted m0 pay (Ok tt) after 0 0 minted_repr) as (_ & _ & Hr & _);
    [|apply step|exact Hr].
  apply (outputs_inv_pay ∅ 0 a_mint (outputs_inv_empty 0)). split_and!; [constructor|set_solver|apply ExRun.outs_ok|].
  apply outputs_positive, ExRun.outs_ok.
Qed.

Definition super_authenticate (rd : auth_data) (a b : marg) (v : verifier_class) : res (list string) := Ok [].
Definition verify (v : verifier_class) : string -> string -> string -> res bool := ExBase58.verify.
Definition sig : string := "b1234567890123456789012345678901" +:+ "1".
Definition data : auth_data :=
  mkAuthData (mkOperation XFER_PUBLIC (Some ExFields.ins) (Some ExRun.xfer_outs) (Some [sig])) MNone JNull JNull.

Lemma pay_authenticated : authenticated ExBase58.ser verify super_authenticate pay.
Proof.
  split; [intros _|done]. exists data, MNone, MNone, None, (Some [ExFields.addr "b"]).
  split_and!; reflexivity.
Qed.
End ExOwner.

Lemma sum_inputs_bounded_witness :
  (Z.of_nat (length (remove_dups (ExFields.ins ++ ExFields.ins))) <= 6 <= 10 - 0)%Z /\
  (ExFields.ins ++ ExFields.ins <> [] -> 0 < 6)%Z /\ (ExFields.ins ++ ExFields.ins = [] -> 6 = 0)%Z.
Proof.
  apply (sum_inputs_bounded (X:=MemLedger.mtxn) ExRun.minted 10 0 (ExFields.ins ++ ExFields.ins) 6 ExRun.reachable_minted).
  vm_compute. reflexivity.
Defined.

Lemma only_owner_spends_witness :
  let i := mkInput (ExFields.addr "b") 1 in
  u_amount (u_pay ExOwner.m0 2 ExOwner.pay) i = Some 6%Z \/
  (i ∈ ExFields.ins /\ owner_signed ExBase58.ser ExOwner.verify ExRun.xfer_outs i).
Proof.
  apply (only_owner_spends (X:=MemLedger.mtxn) ExBase58.ser ExOwner.verify ExOwner.super_authenticate ExRun.minted 10 0
           ExOwner.pay (Ok tt) ExOwner.after 0 0 ExOwner.m0 _ (mkInput (ExFields.addr "b") 1) 6
           ExRun.reachable_minted ExOwner.step ExOwner.pay_authenticated ExOwner.minted_repr ExOwner.after_repr).
  vm_compute. reflexivity.
Defined.

Lemma outputs_spendable_witness :
  let i := mkInput (ExFields.addr "b") 1 in
  let o := mkPOutput (ExFields.addr "c") (6 - 4) in
  let req := spend_request None None i o ExOwner.sig in
  xfer_static_validation (spend_json None None i o ExOwner.sig) = Ok tt /\
  token_authenticate ExBase58.ser ExOwner.verify ExOwner.super_authenticate (spend_data i o ExOwner.sig JNull) MNone MNone None =
    Ok (Some [ExFields.addr "b"]) /\
  verify_signature ExBase58.ser ExOwner.verify req (JStr "digest") = Ok None /\
  (4%Z = 0%Z -> do_validate_inputs_ouputs (db_cache (fn_db ExRun.minted)) req = Ok tt) /\
  (exists msg, authorize ExFees.config (db_cache (fn_db ExRun.minted)) req ExFees.nym_rule = Ok (true, msg)) /\
  exists d' m', xfer_update true (mkTxn XFER_PUBLIC (Some [i]) (Some [o]) 2) false (fn_db ExRun.minted) = (Ok tt, d') /\
    reachable (X:=MemLedger.mtxn) (mkFeeNode d' (MemLedger.mkLedger 2 []) (fn_tracker ExRun.minted)) 10 (0 + 4) /\
    db_repr false d' m' /\ u_amount m' i = None /\ u_amount m' (mkInput (ExFields.addr "c") 2) = Some (6 - 4)%Z.
Proof.
  apply (outputs_spendable (X:=MemLedger.mtxn) ExBase58.ser ExOwner.verify ExOwner.super_authenticate
           ExRun.minted 10 0 ExOwner.m0 (mkInput (ExFields.addr "b") 1) 6 4
           (ExFields.addr "c") ExFees.config ExFees.nym_rule None None ExOwner.sig JNull MNone MNone (JStr "digest") true
           (MemLedger.mkLedger 2 [])
           ExRun.reachable_minted ExOwner.minted_repr); try (vm_compute; reflexivity);
    [lia|by apply ExFields.valid|]. eexists _, _. split_and!; vm_compute; reflexivity.
Defined.
