(* ===== verification/Requests.v ===== *)
(** * From the bytes of a request to the ledger

    The validations of the JSON that a client sends, the check of the sums or the
    fees, and the handler that applies the transaction, put together: a mint and a
    domain request with fees (a transfer is in TokenLedger).  Theorems: what has
    passed the validations is applied without an exception, and the node it leads
    to is again one that only accepted transactions lead to. *)

From S2P Require Import Prelude Exceptions PyStr TokenTypes Stores UtxoAmounts UtxoCache TokenUtils.
From S2P Require Import TokenHandlers Json GetUtxo FeesState FeesAuthorizer Ledger DomainFees Payments.
From S2P Require Import Authn Validation TokenLedger.

Open Scope stdpp_scope.

(** The [fees] of a request, typed: [ins] and [outs] are what the first two parts
    of the field say. *)
Definition fees_field_of (v : json) (ins : list PInput) (outs : list POutput) : Prop :=
  exists vi vo vs, v = JArr [JArr vi; JArr vo; vs] /\ mapM parse_input vi = Some ins /\ mapM parse_output vo = Some outs.

Section Requests.
Context {T K L X : Type} `{StateStoreLaws T} `{KVStoreLaws K} `{LedgerLaws L X} `{Serializer} `{Base58} `{FieldsLaws}.
Implicit Types (node : fee_node T K L).

(** C4: a mint of untyped JSON that passes static validation is applied without error
    on every reachable node: the new node is reachable with the sum of its outputs
    minted, each receiver has the amount under the transaction's number, and what
    was unspent stays so. *)
Theorem validated_mint_applied node minted fees raw outs l' :
  reachable (X:=X) node minted fees ->
  alookup TXN_TYPE (raw_operation raw) = Some (JStr MINT_PUBLIC) -> mint_static_validation raw = Ok tt ->
  outputs_of raw outs ->
  uncommitted_size (X:=X) l' = (uncommitted_size (X:=X) (fn_ledger node) + 1)%Z ->
  let n := (uncommitted_size (X:=X) (fn_ledger node) + 1)%Z in
  exists d' m m', mint_update_state (mkTxn MINT_PUBLIC None (Some outs) n) false (fn_db node) = (Ok tt, d') /\
    reachable (X:=X) (mkFeeNode d' l' (fn_tracker node)) (minted + zsum (po_amount <$> outs)) fees /\
    db_repr false (fn_db node) m /\ db_repr false d' m' /\
    (forall o, o ∈ outs -> u_amount m' (mkInput (po_address o) n) = Some (po_amount o)) /\
    (forall i a, u_amount m i = Some a -> u_amount m' i = Some a).
Proof.
  intros Hreach Hty Hst (lo & Hlo & Hpo) Hl n.
  destruct (mint_static_validation_core raw Hty Hst) as (outs' & (lo' & Hlo' & Hpo') & Hok & _). simplify_eq.
  destruct (mint_update_state _ false (fn_db node)) as [r d'] eqn:Hrun.
  assert (ledger_step (X:=X) node (mkPayment MINT_PUBLIC [] outs) r (mkFeeNode d' l' (fn_tracker node))
            (zsum (po_amount <$> outs)) 0) as Hstep by (by apply step_mint).
  destruct (reachable_inv _ _ _ Hreach) as (m & Hr & _ & Hinv).
  destruct (ledger_step_repr node m _ r _ _ _ Hr (proj2 (proj2 Hinv)) Hstep) as (-> & Hpay & Hr' & _).
  exists d', m. eexists. split; [done|]. split.
  { rewrite <- (Z.add_0_r fees). by eapply reach_step. }
  split_and!; [done|exact Hr'| |].
  - intros o Ho. apply (u_amount_u_pay_created m _ (mkPayment MINT_PUBLIC [] outs)); [apply Hinv|apply Hinv|apply Hok|done].
  - intros i a Hi. apply u_amount_u_pay_old; [apply Hinv|done|]. simpl. by intros ?%elem_of_nil.
Qed.

(** C5: a domain request whose raw [fees] field passes validation, and which the
    authorizer accepts for a rule whose fee is [n], is charged exactly [n] on every
    reachable node: [apply_request] returns, the new node is reachable with [n] more
    paid and nothing minted, the inputs are spent, the change exists under the
    number of the new fee transaction, and the tracker knows what was paid. *)
Theorem validated_fees_charged node minted fees v req ins outs sigs (config : T) metadata n msg ledger_id prev :
  reachable (X:=X) node minted fees ->
  TxnFeesField_validate v = Ok None -> fees_field_of v ins outs ->
  op_type (req_operation req) <> XFER_PUBLIC -> req_fees req = FeesIs (Fees3 ins outs sigs) ->
  required_fee config metadata = Ok n -> authorize config (db_cache (fn_db node)) req metadata = Ok (true, msg) ->
  let number := (uncommitted_size (X:=X) (fn_ledger node) + 1)%Z in
  exists node' m', apply_request (X:=X) ledger_id req prev node = (Ok tt, node') /\
    reachable (X:=X) node' minted (fees + n) /\ db_repr false (fn_db node') m' /\
    (forall i, i ∈ ins -> u_amount m' i = None) /\
    (forall o, o ∈ outs -> u_amount m' (mkInput (po_address o) number) = Some (po_amount o)) /\
    alookup (deducted_key (op_type (req_operation req)) (get_seq_no prev)) (deducted_fees (fn_tracker node')) = Some n.
Proof.
  intros Hreach Hv (vi & vo & vs & -> & Hvi & Hvo) Hty Hf Hn Ha number.
  destruct (fees_field_core _ Hv) as [?|(vi' & vo' & vs' & ins' & outs' & [= <- <- <-] & Hvi' & Hvo' & Hin & Hok & _)];
    [done|]. simplify_eq.
  destruct (reachable_inv _ _ _ Hreach) as (m & Hr & _ & Hinv).
  pose proof (authorize_other_pays config metadata _ m req n msg ins outs sigs (proj1 Hr) Hty Hf Hn Ha) as Hpays.
  destruct (apply_request_pays (X:=X) ledger_id node m req prev n ins outs sigs Hr (proj2 (proj2 Hinv)) Hf
              (proj1 Hin) (proj1 Hok) Hpays) as (node' & Hrun & Hr' & _ & _ & Hded & _).
  assert (ledger_step (X:=X) node (mkPayment FEE_TXN ins outs) (Ok tt) node' 0 n) as Hstep
    by (by eapply step_domain_fee).
  exists node', (u_pay m number (mkPayment FEE_TXN ins outs)). split; [done|]. split.
  { rewrite <- (Z.add_0_r minted). by eapply reach_step. }
  assert (payment_ok m (mkPayment FEE_TXN ins outs)) as Hpay by (by eapply payment_ok_pays).
  split_and!; [exact Hr'| | |done].
  - intros i Hi. apply u_amount_u_pay_spent; [apply Hinv|apply Hinv|done|done].
  - intros o Ho. apply (u_amount_u_pay_created m _ (mkPayment FEE_TXN ins outs)); [apply Hinv|apply Hinv|apply Hok|done].
Qed.
End Requests.

(** ** Witnesses

    On the node of [ExRun]: the same mint once more, and a NYM that pays its fee of
    4 with the output of 6. *)

Module ExRequests.
Definition change : list POutput := [mkPOutput (ExFields.addr "a") 2].
Definition field : json := JArr [JArr (enc_input <$> ExFields.ins); JArr (enc_output <$> change); JArr [JStr "s"]].
Definition nym : request :=
  mkRequest (Some "did") (Some 1%Z) (mkOperation "1" None None None) (FeesIs (Fees3 ExFields.ins change ["s"])).
Definition prev : MemLedger.mtxn := MemLedger.mkMTxn "1" 5 (Some 100%Z) (Some 1%Z) None [].

Lemma field_typed : fees_field_of field ExFields.ins change.
Proof. eexists _, _, _. split; [reflexivity|]. split; by vm_compute. Qed.
End ExRequests.

Lemma validated_mint_applied_witness :
  exists d' m m', mint_update_state (mkTxn MINT_PUBLIC None (Some ExFields.outs) 2) false (fn_db ExRun.minted) = (Ok tt, d') /\
    reachable (X:=MemLedger.mtxn) (mkFeeNode d' (MemLedger.mkLedger 2 []) (fn_tracker ExRun.minted))
      (10 + zsum (po_amount <$> ExFields.outs)) 0 /\
    db_repr false (fn_db ExRun.minted) m /\ db_repr false d' m' /\
    (forall o, o ∈ ExFields.outs -> u_amount m' (mkInput (po_address o) 2) = Some (po_amount o)) /\
    (forall i a, u_amount m i = Some a -> u_amount m' i = Some a).
Proof.
  apply (validated_mint_applied (X:=MemLedger.mtxn) ExRun.minted 10 0 ExFields.mint_req ExFields.outs
           (MemLedger.mkLedger 2 []) ExRun.reachable_minted eq_refl); [by vm_compute| |done].
  exists (enc_output <$> ExFields.outs). by vm_compute.
Defined.

Lemma validated_fees_charged_witness :
  exists node' m', apply_request (X:=MemLedger.mtxn) 1 ExRequests.nym ExRequests.prev ExRun.minted = (Ok tt, node') /\
    reachable (X:=MemLedger.mtxn) node' 10 (0 + 4) /\ db_repr false (fn_db node') m' /\
    (forall i, i ∈ ExFields.ins -> u_amount m' i = None) /\
    (forall o, o ∈ ExRequests.change -> u_amount m' (mkInput (po_address o) 2) = Some (po_amount o)) /\
    alookup (deducted_key "1" 5) (deducted_fees (fn_tracker node')) = Some 4%Z.
Proof.
  refine (validated_fees_charged (X:=MemLedger.mtxn) ExRun.minted 10 0 ExRequests.field ExRequests.nym ExFields.ins
            ExRequests.change ["s"] ExFees.config ExFees.nym_rule 4 _ 1 ExRequests.prev ExRun.reachable_minted
            _ ExRequests.field_typed _ eq_refl _ _); [by vm_compute|done|by vm_compute|vm_compute; reflexivity].
Defined.
