(* ===== verification/Catchup.v ===== *)
(** * Catch-up

    A node that was away gets the committed transactions of the token ledger and
    runs [update_state] of each transaction's handler with [is_committed=True];
    for the fee transactions, which no request brings, this is
    [FeeTxnCatchupHandler].  Theorem: it arrives at the outputs of the nodes that
    executed the requests. *)

From S2P Require Import Prelude Exceptions PyStr TokenTypes Stores UtxoAmounts UtxoCache TokenUtils.
From S2P Require Import TokenHandlers Json GetUtxo FeesState FeesAuthorizer Ledger DomainFees Payments.
From S2P Require Import Authn Validation TokenLedger.

Open Scope stdpp_scope.

(** The transaction a payment is on the ledger. *)
Definition pay_txn (n : Z) (p : payment) : txn :=
  mkTxn (pay_type p) (if bool_decide (pay_type p = MINT_PUBLIC) then None else Some (pay_inputs p))
        (Some (pay_outputs p)) n.

Fixpoint txns_from (n : Z) (ps : list payment) : list txn :=
  match ps with [] => [] | p :: ps => pay_txn n p :: txns_from (n + 1) ps end.

Lemma txns_from_snoc n ps p : txns_from n (ps ++ [p]) = txns_from n ps ++ [pay_txn (n + Z.of_nat (length ps)) p].
Proof.
  revert n. induction ps as [|q ps IH]; intros n; cbn [app txns_from length]; [by rewrite Z.add_0_r|].
  rewrite IH. by replace (n + 1 + Z.of_nat (length ps))%Z with (n + Z.of_nat (S (length ps)))%Z by lia.
Qed.

Section Catchup.
Context {T K : Type} `{StateStore T} `{KVStore K}.

(** The handler that plenum's write manager finds for the transaction's type; [v100]
    tells whether it finds the handler of version 1.0.0.  The search is plenum's;
    Dispatch proves that these are the handlers it finds on a node that both
    plugins have loaded. *)
Definition catchup_update_state (v100 : txn -> bool) (t : txn) : M (token_db T K) unit :=
  if bool_decide (txn_type t = MINT_PUBLIC) then mint_update_state t true
  else if bool_decide (txn_type t = XFER_PUBLIC) then
    if v100 t then xfer100_update_state t true else xfer_update_state t true
  else if bool_decide (txn_type t = FEE_TXN) then fee_txn_update_state t true
  else ret tt.

Definition catchup (v100 : txn -> bool) (ts : list txn) : M (token_db T K) unit :=
  for_each ts (catchup_update_state v100).
End Catchup.

Section Replay.
Context {T K L X : Type} `{StateStoreLaws T} `{KVStoreLaws K} `{LedgerLaws L X} `{Serializer} `{Base58}.
Implicit Types (node : fee_node T K L) (d : token_db T K).

(** The nodes that have executed exactly these payments since the ledger was empty. *)
Inductive executed : fee_node T K L -> list payment -> Prop :=
  | executed_nil node :
      db_repr false (fn_db node) ∅ -> uncommitted_size (X:=X) (fn_ledger node) = 0%Z -> executed node []
  | executed_snoc node ps p r node' a f :
      executed node ps -> ledger_step (X:=X) node p r node' a f -> executed node' (ps ++ [p]).

Lemma catchup_update_repr v100 d m n p :
  db_repr true d m -> seqNos_below m n -> payment_ok m p ->
  (pay_type p = MINT_PUBLIC /\ pay_inputs p = []) \/ pay_type p = XFER_PUBLIC \/ pay_type p = FEE_TXN ->
  exists d', catchup_update_state v100 (pay_txn (n + 1) p) d = (Ok tt, d') /\ db_repr true d' (u_pay m (n + 1) p).
Proof.
  intros Hr Hb (Hnd & Hall & Hnd' & _) Hty.
  assert (forall o, o ∈ pay_outputs p -> u_amount m (mkInput (po_address o) (n + 1)) = None) as Hfresh
    by (intros o _; by apply seqNos_below_fresh).
  assert (pay_type p <> MINT_PUBLIC -> forall rm, exists d', xfer_update rm (pay_txn (n + 1) p) true d = (Ok tt, d') /\
    db_repr true d' (u_pay m (n + 1) p)) as Hx.
  { intros Hne rm. apply xfer_update_repr; simpl; try done. by rewrite bool_decide_false. }
  unfold catchup_update_state. cbn [txn_type pay_txn]. destruct Hty as [[Hty Hnil]|[Hty|Hty]]; rewrite Hty in *.
  - rewrite bool_decide_true by done. unfold u_pay. rewrite Hnil. by apply mint_update_repr.
  - rewrite bool_decide_false, bool_decide_true by done. destruct (v100 _); by apply Hx.
  - rewrite !bool_decide_false, bool_decide_true by done. by apply Hx.
Qed.

Lemma catchup_repr v100 node ps d0 :
  executed node ps -> db_repr true d0 ∅ ->
  let m := u_pay_all ∅ 1 ps in
  db_repr false (fn_db node) m /\ outputs_inv m (Z.of_nat (length ps)) /\
  uncommitted_size (X:=X) (fn_ledger node) = Z.of_nat (length ps) /\
  exists d, catchup v100 (txns_from 1 ps) d0 = (Ok tt, d) /\ db_repr true d m.
Proof.
  intros Hex Hd0. induction Hex as [node Hr Hs|node ps p r node' a f _ IH Hstep].
  - split_and!; [done|apply outputs_inv_empty|done|by exists d0].
  - destruct IH as (Hr & Hinv & Hs & d & Hrun & Hd).
    destruct (ledger_step_repr node _ p r node' a f Hr) as (_ & Hok & Hr' & Hs' & _); [rewrite Hs; apply Hinv|done|].
    rewrite Hs in Hr', Hs'. cbv zeta. rewrite u_pay_all_snoc, txns_from_snoc, length_app. cbn [length].
    replace (1 + Z.of_nat (length ps))%Z with (Z.of_nat (length ps) + 1)%Z by lia.
    replace (Z.of_nat (length ps + 1)) with (Z.of_nat (length ps) + 1)%Z by lia.
    destruct (catchup_update_repr v100 d _ _ p Hd (proj2 (proj2 Hinv)) Hok) as (d' & Hrun' & Hd').
    { by eapply ledger_step_type. }
    split_and!; [done|by apply outputs_inv_pay|done|]. exists d'. split; [|done].
    unfold catchup in *. rewrite for_each_app, (bind_Ok _ _ _ _ _ Hrun). cbn [for_each]. by rewrite (bind_Ok _ _ _ _ _ Hrun').
Qed.

Lemma executed_types node ps :
  executed node ps -> Forall (fun p => pay_type p ∈ [MINT_PUBLIC; XFER_PUBLIC; FEE_TXN]) ps.
Proof.
  induction 1 as [|node ps p r node' a f _ IH Hstep]; [done|]. apply Forall_app_2; [done|].
  apply Forall_singleton. apply ledger_step_type in Hstep. unfold payment_typed in Hstep. rewrite !elem_of_cons. tauto.
Qed.

Lemma txns_from_types (P : string -> Prop) n ps t : Forall (fun p => P (pay_type p)) ps -> t ∈ txns_from n ps -> P (txn_type t).
Proof.
  intros Hall. revert n. induction Hall as [|p ps Hp _ IH]; intros n; simpl; [by intros ?%elem_of_nil|].
  intros [->|Ht]%elem_of_cons; [done|by eapply IH].
Qed.

(** Stores that represent the same outputs answer alike. *)
Definition same_outputs (committed uncommitted : token_db T K) : Prop :=
  (forall a, get_unspent_outputs (db_cache committed) a true = get_unspent_outputs (db_cache uncommitted) a false) /\
  (forall a s, nonempty (st_get (db_state committed) false (create_state_key a s)) =
               nonempty (st_get (db_state uncommitted) false (create_state_key a s))) /\
  (forall ins v, sum_inputs (db_cache committed) ins true = Ok v <-> sum_inputs (db_cache uncommitted) ins false = Ok v).

Lemma same_outputs_repr d d' m : db_repr true d m -> db_repr false d' m -> same_outputs d d'.
Proof.
  intros (Hk' & Hs' & _) (Hk & Hs & _). split_and!.
  - intros a. unfold get_unspent_outputs. by rewrite (get_amounts_new _ _ _ _ Hk), (get_amounts_new _ _ _ _ Hk').
  - intros a s. by rewrite Hs, Hs'.
  - intros ins v. split; intros Hv.
    + destruct (sum_inputs_Ok _ _ _ _ _ Hk' Hv) as [Hall ->]. by apply sum_inputs_repr.
    + destruct (sum_inputs_Ok _ _ _ _ _ Hk Hv) as [Hall ->]. by apply sum_inputs_repr.
Qed.

(** Catching up is as good as having been there: replaying the transactions
    that the other nodes have executed, mints, transfers of both versions and fees,
    into empty stores raises nothing; the committed cache then lists for every
    address the same unspent outputs, in the same order, as theirs, and the token
    state has the same non-empty values. *)
Theorem catchup_agrees v100 node ps d0 :
  executed node ps -> db_repr true d0 ∅ ->
  exists d, catchup v100 (txns_from 1 ps) d0 = (Ok tt, d) /\ same_outputs d (fn_db node).
Proof.
  intros Hex Hd0. destruct (catchup_repr v100 node ps d0 Hex Hd0) as (Hr & _ & _ & d & Hrun & Hd).
  exists d. split; [done|by eapply same_outputs_repr].
Qed.
End Replay.

(** ** Witness *)

Lemma executed_minted : executed (X:=MemLedger.mtxn) ExRun.minted [mkPayment MINT_PUBLIC [] ExFields.outs].
Proof.
  apply (executed_snoc (X:=MemLedger.mtxn) ExRun.start [] _
    (mint_update_state (mkTxn MINT_PUBLIC None (Some ExFields.outs) 1) false TokenHandlers.Ex.empty).1 _
    (zsum (po_amount <$> ExFields.outs)) 0).
  - apply executed_nil; [apply TokenHandlers.Ex.empty_repr|done].
  - apply (step_mint ExRun.start ExFields.outs); [apply ExRun.outs_ok|apply surjective_pairing|reflexivity].
Qed.

Lemma catchup_agrees_witness :
  exists d, catchup (fun _ => true) (txns_from 1 [mkPayment MINT_PUBLIC [] ExFields.outs]) TokenHandlers.Ex.empty = (Ok tt, d) /\
    same_outputs d (fn_db ExRun.minted).
Proof.
  apply (catchup_agrees (X:=MemLedger.mtxn) (fun _ => true) ExRun.minted [mkPayment MINT_PUBLIC [] ExFields.outs]
           TokenHandlers.Ex.empty executed_minted (TokenHandlers.Ex.empty_repr true)).
Defined.
