(* ===== verification/NodeBatches.v ===== *)
(** * The life of a batch

    A node applies batches of transactions that are not yet agreed, commits the
    oldest of them or rejects the newest.  Here the batch handlers of the token
    ledger and of the fees run as the node runs them, on the state, the cache, the
    ledger and the trackers together.  The abstract chain is the committed set of
    unspent outputs and the set after each uncommitted batch; [node_repr] is the
    agreement of a node with it.  A batch is a run of transactions ([batch_run]);
    in a batch of the domain ledger every transaction goes through
    [DomainFeeHandler.apply_request] ([domain_run]), which leaves in the tracker of
    fees which of them paid ([domain_run_paid]).  NodeRuns has the runs of a node
    and the theorems.

    Of plenum this uses: the stores' layers ([KVViewLaws], [StateHistoryLaws],
    [LedgerHistoryLaws], [TrackerLaws]), and that a rejected batch of the token
    ledger has its state and ledger reverted by the node before the handlers run
    ([revert_token_batch]). *)

From S2P Require Import Prelude Exceptions PyStr TokenTypes Stores UtxoAmounts UtxoCache TokenUtils.
From S2P Require Import TokenHandlers Json GetUtxo FeesState FeesAuthorizer Ledger DomainFees Payments Frames.
From S2P Require Import BatchHandlers Authn Validation TokenLedger StateKeys.

Open Scope stdpp_scope.

(** ** The handlers of a batch, as registered *)

(** [PlenumBatchHandler] stands for plenum's node registry, primary registry and
    audit handlers, which do not touch the token stores. *)
Inductive batch_handler :=
  | TokenBatchHandler | UTXOBatchHandler | DomainFeeBatchHandler | TrackerBatchHandler
  | PlenumBatchHandler (name : string).

Section Pipelines.
Context {T K L X R : Type} `{StateStore T} `{KVStore K} `{TxnOps X} `{LedgerOps L X} `{TrackerOps R}.
Context (commit_ledger : ThreePcBatch -> M (L * T) (list X)) (b58decode : string -> res string).

Definition handler_applied (batch : ThreePcBatch) (h : batch_handler) : M (batch_node T K L R) unit :=
  match h with
  | TokenBatchHandler => token_post_batch_applied batch
  | UTXOBatchHandler => on_bn_cache (utxo_post_batch_applied batch)
  | DomainFeeBatchHandler => fee_post_batch_applied (X:=X) batch
  | TrackerBatchHandler => tracker_post_batch_applied (X:=X) batch
  | PlenumBatchHandler _ => ret tt
  end.

Definition handler_rejected (ledger_id : Z) (h : batch_handler) : M (batch_node T K L R) unit :=
  match h with
  | TokenBatchHandler => token_post_batch_rejected ledger_id
  | UTXOBatchHandler => on_bn_cache utxo_post_batch_rejected
  | DomainFeeBatchHandler => fee_post_batch_rejected (X:=X) ledger_id
  | TrackerBatchHandler => tracker_post_batch_rejected ledger_id
  | PlenumBatchHandler _ => ret tt
  end.

(** [commit_batch] of the handlers of the token ledger; [TokenBatchHandler]
    inherits plenum's. *)
Definition handler_commit (batch : ThreePcBatch) (h : batch_handler) : M (batch_node T K L R) unit :=
  match h with
  | TokenBatchHandler => on_ledger_state (commit_ledger batch) ;;; ret tt
  | UTXOBatchHandler => on_bn_cache (utxo_commit_batch b58decode batch)
  | TrackerBatchHandler => tracker_commit_batch batch
  | DomainFeeBatchHandler | PlenumBatchHandler _ => ret tt
  end.

(** The order in which both main.py register them. *)
Definition token_batch_handlers : list batch_handler :=
  [TokenBatchHandler; UTXOBatchHandler; PlenumBatchHandler "node_reg_handler";
   PlenumBatchHandler "primary_reg_handler"; PlenumBatchHandler "audit_b_handler"; TrackerBatchHandler].

Definition token_batch_applied (batch : ThreePcBatch) : M (batch_node T K L R) unit :=
  for_each token_batch_handlers (handler_applied batch).

(** Plenum's revert of a batch of [count] transactions, to the state root before it. *)
Definition revert_token_batch (state_root : string) (count : Z) : M (batch_node T K L R) unit :=
  on_ledger_state (modify (fun lt => (discardTxns (X:=X) lt.1 count, st_revertToHead lt.2 state_root))).

Definition token_batch_rejected (state_root : string) (count : Z) : M (batch_node T K L R) unit :=
  revert_token_batch state_root count ;;;
  for_each token_batch_handlers (handler_rejected TOKEN_LEDGER_ID).

Definition token_batch_commit (batch : ThreePcBatch) : M (batch_node T K L R) unit :=
  for_each token_batch_handlers (handler_commit batch).

(** What the pipelines amount to. *)
Lemma token_batch_applied_eq batch (n : batch_node T K L R) :
  token_batch_applied batch n =
    (Ok tt, mkBatchNode (mkFeeNode
       (mkDb (bn_state n) (kv_create_batch_from_current (bn_cache n) (b_state_root batch)))
       (bn_ledger n) (bn_fees n))
       (tr_apply_batch (bn_token_tracker n) (st_headHash (bn_state n))
          (uncommitted_root_hash (X:=X) (bn_ledger n)) (uncommitted_size (X:=X) (bn_ledger n)))).
Proof. by destruct n as [[[t k] l f] r]. Qed.

Lemma token_batch_rejected_eq root count (n : batch_node T K L R) cnt k' h r' :
  kv_reject_batch (bn_cache n) = (Ok cnt, k') -> tr_reject_batch (bn_token_tracker n) = (Ok h, r') ->
  token_batch_rejected root count n =
    (Ok tt, with_tracker (with_cache (with_ledger_state n (discardTxns (X:=X) (bn_ledger n) count)
                                        (st_revertToHead (bn_state n) root)) k') r').
Proof.
  destruct n as [[[t k] l f] r]. intros Hk Hr. cbn in Hk, Hr.
  unfold token_batch_rejected, revert_token_batch, on_ledger_state, zoom. reduce_monad.
  unfold token_batch_handlers. cbn [for_each handler_rejected]. unfold token_post_batch_rejected,
    tracker_post_batch_rejected, utxo_post_batch_rejected, on_bn_cache, on_token_tracker, zoom. reduce_monad.
  unfold bn_cache. cbn [bn_node bn_token_tracker fn_db db_cache]. rewrite Hk. reduce_monad. cbn [bn_token_tracker].
  by rewrite Hr.
Qed.

Lemma token_batch_commit_eq batch (n : batch_node T K L R) txns l' t' k' h r' :
  commit_ledger batch (bn_ledger n, bn_state n) = (Ok txns, (l', t')) ->
  commit_to_utxo_cache b58decode (b_state_root batch) (bn_cache n) = (Ok tt, k') ->
  tr_commit_batch (bn_token_tracker n) = (Ok h, r') ->
  token_batch_commit batch n = (Ok tt, with_tracker (with_cache (with_ledger_state n l' t') k') r').
Proof.
  destruct n as [[[t k] l f] r]. intros Hc Hk Hr.
  cbn [bn_ledger bn_state bn_cache bn_token_tracker bn_node fn_ledger fn_db db_state db_cache] in *.
  unfold token_batch_commit, token_batch_handlers. cbn [for_each handler_commit].
  unfold on_ledger_state, tracker_commit_batch, utxo_commit_batch, on_bn_cache, on_token_tracker, zoom. reduce_monad.
  unfold bn_ledger, bn_state, bn_cache. cbn [bn_node bn_token_tracker fn_db fn_ledger db_cache db_state]. rewrite Hc.
  cbn [bn_node bn_token_tracker fn_db fn_ledger db_cache db_state fst snd]. rewrite Hk. reduce_monad.
  cbn [bn_token_tracker]. by rewrite Hr.
Qed.
End Pipelines.

(** ** The abstract chain *)

Inductive batch_kind := TokenBatch | DomainBatch.

(** The token ledger after a batch: its unspent outputs, its roots, its size, and
    its history: the payments since the ledger was empty, with all that they minted
    and paid as fees. *)
Record snap := mkSnap {
  s_utxos : utxos; s_root : string; s_lroot : string; s_size : nat;
  s_payments : list payment; s_minted : Z; s_fees : Z;
}.

(** The history explains the outputs. *)
Definition history_ok (s : snap) : Prop :=
  payments_ok ∅ 1 (s_payments s) /\ s_utxos s = u_pay_all ∅ 1 (s_payments s) /\
  length (s_payments s) = s_size s /\ supply (s_utxos s) = (s_minted s - s_fees s)%Z.

(** An uncommitted batch; [p_cached] tells whether the cache has a batch for it,
    [p_txns] are the transactions of a domain batch, each with whether it paid a fee. *)
Record pending (X : Type) := mkPending {
  p_kind : batch_kind; p_cached : bool; p_snap : snap; p_txns : list (X * bool);
}.
Arguments mkPending {X} _ _ _ _.
Arguments p_kind {X} _.
Arguments p_cached {X} _.
Arguments p_snap {X} _.
Arguments p_txns {X} _.

Section Chain.
Context {X : Type}.
Implicit Types (p : pending X) (pend : list (pending X)).

Definition last_snap (base : snap) (pend : list (pending X)) : snap := last_or base (p_snap <$> pend).

(** Only a domain batch that took no fee has no batch in the cache, and it has
    changed nothing; one that took fees has changed the state and the ledger. *)
Definition pending_ok (prev : snap) (p : pending X) : Prop :=
  match p_kind p, p_cached p with
  | TokenBatch, true => (s_size prev <= s_size (p_snap p))%nat
  | TokenBatch, false => False
  | DomainBatch, true =>
      (s_size prev < s_size (p_snap p))%nat /\ s_root prev <> s_root (p_snap p) /\
      s_lroot prev <> s_lroot (p_snap p)
  | DomainBatch, false => p_snap p = prev
  end.

Fixpoint chain_ok (prev : snap) (pend : list (pending X)) : Prop :=
  match pend with
  | [] => True
  | p :: pend => pending_ok prev p /\ chain_ok (p_snap p) pend
  end.

Lemma snaps_snoc base pend p :
  base :: (p_snap <$> pend ++ [p]) = (base :: (p_snap <$> pend)) ++ [p_snap p].
Proof. by rewrite fmap_app. Qed.

Lemma last_snap_snoc base pend p : last_snap base (pend ++ [p]) = p_snap p.
Proof. unfold last_snap. rewrite fmap_app. apply last_or_snoc. Qed.

Lemma last_snap_nil base : last_snap base [] = base.
Proof. done. Qed.

Lemma last_snap_cons base p pend : last_snap base (p :: pend) = last_snap (p_snap p) pend.
Proof. done. Qed.

Lemma chain_ok_snoc base pend p :
  chain_ok base (pend ++ [p]) <-> chain_ok base pend /\ pending_ok (last_snap base pend) p.
Proof.
  revert base. induction pend as [|q pend IH]; intros base; simpl; [tauto|].
  rewrite IH, last_snap_cons. tauto.
Qed.

Lemma pending_ok_size prev p : pending_ok prev p -> (s_size prev <= s_size (p_snap p))%nat.
Proof. unfold pending_ok. destruct (p_kind p), (p_cached p); try lia. by intros ->. Qed.

Lemma chain_ok_sizes base pend s :
  chain_ok base pend -> s ∈ base :: (p_snap <$> pend) ->
  (s_size base <= s_size s <= s_size (last_snap base pend))%nat.
Proof.
  revert base s. induction pend as [|p pend IH]; intros base s; csimpl.
  - intros _ ->%list_elem_of_singleton. done.
  - intros [Hp Hc]. pose proof (pending_ok_size _ _ Hp). rewrite last_snap_cons.
    intros [->|Hs]%elem_of_cons; [|specialize (IH _ _ Hc Hs); lia].
    specialize (IH _ (p_snap p) Hc ltac:(by left)). lia.
Qed.

End Chain.

(** ** What the node keeps of the chain *)

(** The texts under which the cache keeps a set of outputs. *)
Definition texts (m : utxos) : gmap string string := utxo_text <$> m.

Definition entry (s : snap) : string * string * Z := (s_root s, s_lroot s, Z.of_nat (s_size s)).

Definition cache_batch {X} (p : pending X) : option (state_root_arg * gmap string string) :=
  if p_cached p then Some (RootBytes (s_root (p_snap p)), texts (s_utxos (p_snap p))) else None.

(** A batch without a cache batch has changed nothing, so the last cache batch has
    the last outputs. *)
Lemma cached_last {X} base (pend : list (pending X)) :
  chain_ok base pend -> last_or (texts (s_utxos base)) (omap cache_batch pend).*2 = texts (s_utxos (last_snap base pend)).
Proof.
  revert base. induction pend as [|p pend IH]; intros base; [done|]. intros [Hp Hc]. rewrite last_snap_cons.
  rewrite <- IH by done. csimpl. unfold cache_batch at 1. destruct (p_cached p) eqn:Hca; [done|].
  unfold pending_ok in Hp. rewrite Hca in Hp. destruct (p_kind p); [done|]. by rewrite Hp.
Qed.

Section Representation.
Context {T K L X R : Type} `{StateHistoryLaws T} `{KVViewLaws K} `{TxnOps X} `{LedgerHistoryLaws L X} `{TrackerLaws R}.
Context `{Base58}.
Implicit Types (n : batch_node T K L R) (t : T) (k : K) (l : L).

(** A version of the token ledger that the state and the ledger remember. *)
Definition snap_ok t l (s : snap) : Prop :=
  outputs_inv (s_utxos s) (Z.of_nat (s_size s)) /\
  st_known t (s_root s) /\
  (forall a q, nonempty (st_at t (s_root s) (create_state_key a q)) = py_str <$> u_amount (s_utxos s) (mkInput a q)) /\
  output_keys (st_at t (s_root s)) /\ history_ok s /\
  (s_size s <= length (lg_leaves (X:=X) l))%nat /\
  exists l0, lg_leaves (X:=X) l0 = take (s_size s) (lg_leaves (X:=X) l) /\
             uncommitted_root_hash (X:=X) l0 = s_lroot s.

Record node_repr n (base : snap) (pend : list (pending X)) : Prop := mkNodeRepr {
  nr_snaps : Forall (snap_ok (bn_state n) (bn_ledger n)) (base :: (p_snap <$> pend));
  nr_chain : chain_ok base pend;
  nr_tracker : tr_view (bn_token_tracker n) = entry <$> (base :: (p_snap <$> pend));
  nr_views : kv_views (bn_cache n) = omap cache_batch pend;
  nr_kcommitted : kv_committed (bn_cache n) = texts (s_utxos base);
  nr_kcurrent : kv_current (bn_cache n) = texts (s_utxos (last_snap base pend));
  nr_chead : st_committedHeadHash (bn_state n) = s_root base;
  nr_head : st_headHash (bn_state n) = s_root (last_snap base pend);
  nr_lcommitted : lg_committed (X:=X) (bn_ledger n) = s_size base;
  nr_lsize : length (lg_leaves (X:=X) (bn_ledger n)) = s_size (last_snap base pend);
  nr_fees : fees_in_current_batch (bn_fees n) = 0%Z;
}.

(** *** The stores and the chain *)

Lemma cache_repr_texts k c m : cache_repr k c m <-> (if c then kv_committed k else kv_current k) = texts m.
Proof.
  unfold texts. split.
  - intros Hr. apply map_eq. intros a. specialize (Hr a). pose proof (kv_get_view k c a) as Hv.
    rewrite lookup_fmap. destruct (m !! a) as [ps|]; simpl.
    + destruct Hr as (v & Hg & Ht). destruct (_ !! a) as [s|]; [|congruence].
      destruct Hv as (v' & Hg' & Ht'). congruence.
    + destruct (_ !! a) as [s|]; [|done]. destruct Hv as (v' & Hg' & _). congruence.
  - intros Ht a. pose proof (kv_get_view k c a) as Hv. rewrite Ht, lookup_fmap in Hv.
    by destruct (m !! a).
Qed.

Lemma snap_ok_last n base pend : node_repr n base pend -> snap_ok (bn_state n) (bn_ledger n) (last_snap base pend).
Proof.
  intros Hr. pose proof (nr_snaps _ _ _ Hr) as Hs. rewrite Forall_forall in Hs. apply Hs, last_or_elem.
Qed.

Lemma snap_ok_base n base pend : node_repr n base pend -> snap_ok (bn_state n) (bn_ledger n) base.
Proof. intros Hr. by apply nr_snaps, Forall_cons in Hr as [? _]. Qed.

(** Between batches the stores show the last version, and the committed cache
    the committed one. *)
Lemma node_repr_db n base pend :
  node_repr n base pend ->
  db_repr false (mkDb (bn_state n) (bn_cache n)) (s_utxos (last_snap base pend)) /\
  cache_repr (bn_cache n) true (s_utxos base).
Proof.
  intros Hr. destruct (snap_ok_last _ _ _ Hr) as (Hinv & _ & Hat & _). split; [split_and!|].
  - apply cache_repr_texts. apply Hr.
  - intros a q. simpl. rewrite st_get_head, (nr_head _ _ _ Hr). apply Hat.
  - apply Hinv.
  - apply cache_repr_texts. apply Hr.
Qed.

Lemma snap_ok_change t t' l l' s :
  state_keeps t t' -> (s_size s <= length (lg_leaves (X:=X) l'))%nat ->
  take (s_size s) (lg_leaves (X:=X) l') = take (s_size s) (lg_leaves (X:=X) l) ->
  snap_ok t l s -> snap_ok t' l' s.
Proof.
  intros Ht Hle Hl (Hinv & Hk & Hat & Hkeys & Hs & _ & l0 & Hl0 & Hroot).
  destruct (Ht _ Hk) as [Hk' Hat']. split_and!; [done|done| | |done|done|].
  - intros a q. rewrite Hat'. apply Hat.
  - by eapply output_keys_ext.
  - exists l0. by rewrite Hl.
Qed.

Lemma snaps_frame n n' ss :
  state_keeps (bn_state n) (bn_state n') -> ledger_frame (X:=X) (bn_ledger n) (bn_ledger n') ->
  Forall (snap_ok (bn_state n) (bn_ledger n)) ss -> Forall (snap_ok (bn_state n') (bn_ledger n')) ss.
Proof.
  intros Ht [_ [ls Hl]] Hs. eapply Forall_impl; [exact Hs|]. intros s Hok.
  assert (s_size s <= length (lg_leaves (X:=X) (bn_ledger n)))%nat by apply Hok.
  apply (snap_ok_change (bn_state n) _ (bn_ledger n)); [done| | |done]; rewrite Hl.
  - rewrite length_app. lia.
  - by apply take_app_le.
Qed.

(** The last version is the one the ledger and the state show. *)
Lemma node_repr_lroot n base pend :
  node_repr n base pend -> s_lroot (last_snap base pend) = uncommitted_root_hash (X:=X) (bn_ledger n).
Proof.
  intros Hr. destruct (snap_ok_last _ _ _ Hr) as (_ & _ & _ & _ & _ & _ & l0 & Hl0 & <-).
  apply lg_root. rewrite Hl0. apply take_ge. rewrite (nr_lsize _ _ _ Hr). done.
Qed.

(** *** A batch is added, dropped or committed *)

Lemma node_repr_append n base pend n2 p :
  node_repr n base pend ->
  state_frame (bn_state n) (bn_state n2) -> ledger_frame (X:=X) (bn_ledger n) (bn_ledger n2) ->
  kv_committed (bn_cache n2) = kv_committed (bn_cache n) ->
  kv_views (bn_cache n2) = kv_views (bn_cache n) ++ omap cache_batch [p] ->
  db_repr false (mkDb (bn_state n2) (bn_cache n2)) (s_utxos (p_snap p)) ->
  outputs_inv (s_utxos (p_snap p)) (Z.of_nat (s_size (p_snap p))) ->
  output_keys (st_get (bn_state n2) false) ->
  history_ok (p_snap p) ->
  s_root (p_snap p) = st_headHash (bn_state n2) ->
  s_lroot (p_snap p) = uncommitted_root_hash (X:=X) (bn_ledger n2) ->
  s_size (p_snap p) = length (lg_leaves (X:=X) (bn_ledger n2)) ->
  pending_ok (last_snap base pend) p ->
  tr_view (bn_token_tracker n2) = tr_view (bn_token_tracker n) ++ [entry (p_snap p)] ->
  fees_in_current_batch (bn_fees n2) = 0%Z ->
  node_repr n2 base (pend ++ [p]).
Proof.
  intros Hr [Hch Hk] Hl Hkc Hkv (Hc & Hst & _) Hinv Hkeys Hsup Hroot Hlroot Hsize Hp Htr Hf.
  assert (snap_ok (bn_state n2) (bn_ledger n2) (p_snap p)) as Hok.
  { split_and!; [done|rewrite Hroot; apply st_known_head| | |done|lia|].
    - intros a q. rewrite Hroot, <- st_get_head. apply Hst.
    - rewrite Hroot. eapply output_keys_ext; [|exact Hkeys]. intros key. by rewrite st_get_head.
    - exists (bn_ledger n2). split; [|done]. rewrite Hsize. by rewrite firstn_all. }
  split; rewrite ?last_snap_snoc, ?fmap_app; try done.
  - rewrite app_comm_cons. apply Forall_app_2; [|by constructor]. eapply (snaps_frame n); [done..|]. apply Hr.
  - apply chain_ok_snoc. split; [apply Hr|done].
  - rewrite Htr, (nr_tracker _ _ _ Hr). csimpl. by rewrite !fmap_app.
  - rewrite Hkv, (nr_views _ _ _ Hr). by rewrite omap_app.
  - rewrite Hkc. apply Hr.
  - by apply cache_repr_texts in Hc.
  - rewrite Hch. apply Hr.
  - rewrite (proj1 Hl). apply Hr.
Qed.

Lemma node_repr_drop n base pend p n2 :
  node_repr n base (pend ++ [p]) ->
  state_frame (bn_state n) (bn_state n2) -> st_headHash (bn_state n2) = s_root (last_snap base pend) ->
  lg_leaves (X:=X) (bn_ledger n2) = take (s_size (last_snap base pend)) (lg_leaves (X:=X) (bn_ledger n)) ->
  lg_committed (X:=X) (bn_ledger n2) = lg_committed (X:=X) (bn_ledger n) ->
  kv_committed (bn_cache n2) = kv_committed (bn_cache n) ->
  kv_views (bn_cache n2) = omap cache_batch pend ->
  kv_current (bn_cache n2) = texts (s_utxos (last_snap base pend)) ->
  tr_view (bn_token_tracker n2) = entry <$> (base :: (p_snap <$> pend)) ->
  fees_in_current_batch (bn_fees n2) = 0%Z ->
  node_repr n2 base pend.
Proof.
  intros Hr [Hch Hk] Hhead Hl Hlc Hkc Hkv Hcur Htr Hf.
  destruct (proj1 (chain_ok_snoc _ _ _) (nr_chain _ _ _ Hr)) as [Hchain Hp]. pose proof (pending_ok_size _ _ Hp) as Hps.
  assert (length (lg_leaves (X:=X) (bn_ledger n)) = s_size (p_snap p)) as Hlen
    by (by rewrite (nr_lsize _ _ _ Hr), last_snap_snoc).
  assert (length (lg_leaves (X:=X) (bn_ledger n2)) = s_size (last_snap base pend)) as Hlen2
    by (rewrite Hl, length_take; lia).
  split; try done.
  - pose proof (nr_snaps _ _ _ Hr) as Hs. rewrite fmap_app, app_comm_cons in Hs. apply Forall_app in Hs as [Hs _].
    rewrite Forall_forall in *. intros s Hin. pose proof (chain_ok_sizes _ _ _ Hchain Hin).
    apply (snap_ok_change (bn_state n) _ (bn_ledger n)); [done|lia| |by apply Hs].
    rewrite Hl, take_take. f_equal. lia.
  - rewrite Hkc. apply Hr.
  - rewrite Hch. apply Hr.
  - rewrite Hlc. apply Hr.
Qed.

Lemma node_repr_commit n base p pend n2 :
  node_repr n base (p :: pend) ->
  state_keeps (bn_state n) (bn_state n2) -> st_headHash (bn_state n2) = st_headHash (bn_state n) ->
  st_committedHeadHash (bn_state n2) = s_root (p_snap p) ->
  lg_leaves (X:=X) (bn_ledger n2) = lg_leaves (X:=X) (bn_ledger n) ->
  lg_committed (X:=X) (bn_ledger n2) = s_size (p_snap p) ->
  kv_committed (bn_cache n2) = texts (s_utxos (p_snap p)) ->
  kv_views (bn_cache n2) = omap cache_batch pend ->
  kv_current (bn_cache n2) = kv_current (bn_cache n) ->
  tr_view (bn_token_tracker n2) = entry <$> (p_snap <$> (p :: pend)) ->
  fees_in_current_batch (bn_fees n2) = 0%Z ->
  node_repr n2 (p_snap p) pend.
Proof.
  intros Hr Hk Hhead Hch Hl Hlc Hkc Hkv Hcur Htr Hf.
  split; try done.
  - pose proof (nr_snaps _ _ _ Hr) as Hs. apply Forall_cons in Hs as [_ Hs].
    eapply Forall_impl; [exact Hs|]. intros s Hok.
    apply (snap_ok_change (bn_state n) _ (bn_ledger n)); rewrite ?Hl; try done. apply Hok.
  - apply (nr_chain _ _ _ Hr).
  - rewrite Hcur. apply Hr.
  - rewrite Hhead. apply Hr.
  - rewrite Hl. apply Hr.
Qed.
End Representation.

(** ** The transactions of a batch *)

Definition payment_of_kind (k : batch_kind) (p : payment) : Prop :=
  match k with
  | TokenBatch => pay_type p <> FEE_TXN
  | DomainBatch => pay_type p = FEE_TXN /\ pay_inputs p <> []
  end.

Section Runs.
Context {T K L X : Type} `{StateStoreLaws T} `{!StateHistoryLaws T} `{KVStoreLaws K} `{!KVViewLaws K}.
Context `{LedgerLaws L X} `{!LedgerHistoryLaws L X} `{Serializer} `{Base58}.
Implicit Types (node : fee_node T K L).

(** Accepted transactions one after the other, with what they mint and pay as
    fees.  Plenum extends the ledger for a mint and a transfer: it appends. *)
Inductive batch_run (k : batch_kind) : fee_node T K L -> list payment -> Z -> Z -> fee_node T K L -> Prop :=
  | run_nil node : batch_run k node [] 0 0 node
  | run_cons node p r node1 a f ps minted fees node2 :
      ledger_step (X:=X) node p r node1 a f -> payment_of_kind k p ->
      ledger_frame (X:=X) (fn_ledger node) (fn_ledger node1) ->
      batch_run k node1 ps minted fees node2 -> batch_run k node (p :: ps) (a + minted) (f + fees) node2.

Lemma ledger_step_frame node p r node' a f :
  ledger_step (X:=X) node p r node' a f -> ledger_frame (X:=X) (fn_ledger node) (fn_ledger node') ->
  node_frame (X:=X) node node'.
Proof.
  intros Hstep Hl. split; [|done].
  destruct Hstep as [outs r d' l' _ Hrun _|rm req ins outs r d' l' _ _ _ _ _ Hrun _
    |rm config md req n msg ins outs r d' l' _ _ _ _ _ _ _ Hrun _
    |lid config md req prev n msg ins outs sigs r node' _ _ _ _ _ _ Hrun]; cbn [fn_db].
  - replace d' with (r, d').2 by done. rewrite <- Hrun. apply within_mint_update.
  - replace d' with (r, d').2 by done. rewrite <- Hrun. apply within_xfer_update.
  - replace d' with (r, d').2 by done. rewrite <- Hrun. apply within_xfer_update.
  - replace node' with (r, node').2 by done. rewrite <- Hrun. apply (within_apply_request (X:=X)).
Qed.

(** What a run does: to the outputs, to the size, to the count of fees, and what
    it leaves alone. *)
Lemma batch_run_spec k node ps minted fees node' m :
  let size := uncommitted_size (X:=X) (fn_ledger node) in
  let m' := u_pay_all m (size + 1) ps in
  batch_run k node ps minted fees node' -> db_repr false (fn_db node) m -> outputs_inv m size ->
  db_repr false (fn_db node') m' /\ outputs_inv m' (size + Z.of_nat (length ps)) /\
  uncommitted_size (X:=X) (fn_ledger node') = (size + Z.of_nat (length ps))%Z /\
  node_frame (X:=X) node node' /\
  fees_in_current_batch (fn_tracker node') = (fees_in_current_batch (fn_tracker node) +
    match k with TokenBatch => 0 | DomainBatch => Z.of_nat (length ps) end)%Z /\
  (forall i, (in_seqNo i <= size)%Z -> u_amount m i = None -> u_amount m' i = None) /\
  supply m' = (supply m + minted - fees)%Z /\ keeps_keys (fn_db node) (fn_db node') /\
  payments_ok m (size + 1) ps.
Proof.
  intros size m' Hrun. revert m m'. subst size.
  induction Hrun as [node|node p r node1 a f ps minted fees node2 Hstep Hk Hl Hrun IH]; intros m m' Hr Hinv.
  - subst m'. cbn [u_pay_all length]. rewrite Z.add_0_r. split_and!; try done; destruct k; lia.
  - set (size := uncommitted_size (fn_ledger node)) in *. subst m'. cbn [u_pay_all length].
    destruct (ledger_step_repr node m p r node1 a f Hr) as (_ & Hok & Hr1 & Hsize & Hs1 & Hc); [apply Hinv|done|].
    fold size in Hr1, Hsize, Hs1.
    assert (outputs_inv (u_pay m (size + 1) p) (uncommitted_size (X:=X) (fn_ledger node1))) as Hinv1
      by (rewrite Hsize; by apply outputs_inv_pay).
    destruct (IH _ Hr1 Hinv1) as (Hr2 & Hinv2 & Hsize2 & Hf2 & Hc2 & Hn2 & Hs2 & Hk2 & Hps2). rewrite Hsize in *.
    replace (size + Z.of_nat (S (length ps)))%Z with (size + 1 + Z.of_nat (length ps))%Z by lia.
    split_and!; [done|done|done| | | |lia|etransitivity; [eapply ledger_step_keys; [unfold size in *; rewrite lg_size; lia|done]|done]
      |split_and!; [done|by eapply ledger_step_type|done]].
    + etransitivity; [by eapply ledger_step_frame|done].
    + rewrite Hc2, Hc. destruct k; simpl in Hk; [rewrite decide_False by done|rewrite decide_True by tauto]; lia.
    + intros i Hi Hni. apply Hn2; [lia|]. apply u_amount_u_pay_None; [apply Hinv|done|done].
Qed.

(** Without fee payments the tracker of fees is left alone. *)
Lemma token_run_tracker node ps minted fees node' :
  batch_run TokenBatch node ps minted fees node' -> fn_tracker node' = fn_tracker node.
Proof.
  induction 1 as [|node p r node1 a f ps minted fees node2 Hstep Hk _ _ IH]; [done|]. rewrite IH.
  by destruct Hstep.
Qed.

(** A run that has spent something ends under another state root. *)
Lemma batch_run_changes node ps minted fees node' m :
  batch_run DomainBatch node ps minted fees node' -> ps <> [] -> db_repr false (fn_db node) m ->
  outputs_inv m (uncommitted_size (X:=X) (fn_ledger node)) ->
  st_headHash (db_state (fn_db node')) <> st_headHash (db_state (fn_db node)).
Proof.
  intros Hrun Hne Hr Hinv Heq. destruct (batch_run_spec _ _ _ _ _ _ m Hrun Hr Hinv) as (Hr' & _ & _ & [[Hsf _] _] & _).
  assert (exists i, is_Some (u_amount m i) /\
    u_amount (u_pay_all m (uncommitted_size (X:=X) (fn_ledger node) + 1) ps) i = None) as (i & [v Hv] & Hn).
  { destruct Hrun as [|node p r node1 a f ps minted fees node' Hstep [_ Hins] Hl Hrun]; [done|]. cbn [u_pay_all].
    destruct (ledger_step_repr node m p r node1 a f Hr) as (_ & Hok & Hr1 & Hsize & _); [apply Hinv|done|].
    assert (outputs_inv (u_pay m (uncommitted_size (X:=X) (fn_ledger node) + 1) p)
              (uncommitted_size (X:=X) (fn_ledger node1))) as Hinv1 by (rewrite Hsize; by apply outputs_inv_pay).
    rewrite <- Hsize in *.
    destruct (batch_run_spec _ _ _ _ _ _ _ Hrun Hr1 Hinv1) as (_ & _ & _ & _ & _ & Hnone & _).
    destruct (pay_inputs p) as [|i ins] eqn:Hp; [done|]. assert (i ∈ pay_inputs p) as Hi by (rewrite Hp; left).
    exists i. assert (is_Some (u_amount m i)) as Hs by (by apply Hok). split; [done|]. apply Hnone.
    - destruct Hinv as (_ & _ & Hb). specialize (Hb i Hs). lia.
    - rewrite Hsize. apply u_amount_u_pay_spent; try done; apply Hinv. }
  destruct i as [a q]. destruct Hr as (_ & Hst & _), Hr' as (_ & Hst' & _).
  specialize (Hst a q). specialize (Hst' a q). rewrite Hv in Hst. rewrite Hn in Hst'.
  rewrite st_get_head in Hst, Hst'. rewrite Heq in Hst'.
  rewrite (proj2 (proj2 Hsf _ (st_known_head _))) in Hst'. rewrite Hst in Hst'. done.
Qed.

(** The domain batch itself: its requests in order, each with the transaction that
    plenum has appended to the domain ledger for it, [DomainFeeHandler.apply_request]
    run on both.  [reqToTxn] gives the transaction the type of the request.  A
    request without fees, or one with the fees that the authorizer has accepted; its
    fees field has passed validation, so it names at least one input. *)
Inductive domain_run : fee_node T K L -> list (X * bool) -> list payment -> Z -> fee_node T K L -> Prop :=
  | domain_nil node : domain_run node [] [] 0 node
  | domain_free ledger_id req x r node node1 xs ps fees node2 :
      has_fees req = false -> get_type x = op_type (req_operation req) ->
      apply_request (X:=X) ledger_id req x node = (r, node1) ->
      domain_run node1 xs ps fees node2 -> domain_run node ((x, false) :: xs) ps fees node2
  | domain_fee ledger_id (config : T) metadata req x n msg ins outs sigs r node node1 xs ps fees node2 :
      inputs_ok ins -> outputs_ok outs -> ins <> [] ->
      op_type (req_operation req) <> XFER_PUBLIC -> req_fees req = FeesIs (Fees3 ins outs sigs) ->
      required_fee config metadata = Ok n ->
      authorize config (db_cache (fn_db node)) req metadata = Ok (true, msg) ->
      get_type x = op_type (req_operation req) ->
      apply_request (X:=X) ledger_id req x node = (r, node1) ->
      domain_run node1 xs ps fees node2 ->
      domain_run node ((x, true) :: xs) (mkPayment FEE_TXN ins outs :: ps) (n + fees) node2.

Lemma apply_request_free ledger_id req (x : X) node :
  has_fees req = false -> apply_request (X:=X) ledger_id req x node = (Ok tt, node).
Proof. intros Hf. unfold apply_request. by rewrite Hf. Qed.

Lemma domain_run_payments node xs ps fees node' :
  domain_run node xs ps fees node' -> batch_run DomainBatch node ps 0 fees node'.
Proof.
  induction 1 as [|lid req x r node node1 xs ps fees node2 Hf _ Hrun _ IH
    |lid config md req x n msg ins outs sigs r node node1 xs ps fees node2 Hin Hok Hne Hty Hf Hn Ha _ Hrun _ IH].
  - apply run_nil.
  - rewrite apply_request_free in Hrun by done. by simplify_eq.
  - apply (run_cons DomainBatch node (mkPayment FEE_TXN ins outs) r node1 0 n ps 0 fees); [|done| |done].
    + by eapply step_domain_fee.
    + replace node1 with (r, node1).2 by done. rewrite <- Hrun. apply (within_apply_request (X:=X)).
Qed.

Lemma domain_run_paid node xs ps fees node' :
  domain_run node xs ps fees node' -> length (List.filter snd xs) = length ps.
Proof. induction 1; cbn; lia. Qed.

(** The record of the fees grows by the types and numbers of those that paid. *)
Lemma domain_run_records node xs ps fees node' m ty q :
  domain_run node xs ps fees node' -> db_repr false (fn_db node) m ->
  outputs_inv m (uncommitted_size (X:=X) (fn_ledger node)) ->
  has_deducted_fees (fn_tracker node') ty q = true <->
  has_deducted_fees (fn_tracker node) ty q = true \/ exists x, (x, true) ∈ xs /\ get_type x = ty /\ get_seq_no x = q.
Proof.
  intros Hrun. revert m.
  induction Hrun as [|lid req x r node node1 xs ps fees node2 Hf _ Hrun _ IH
    |lid config md req x n msg ins outs sigs r node node1 xs ps fees node2 Hin Hok Hne Hty Hf Hn Ha Hx Hrun _ IH];
    intros m Hr Hinv.
  - set_solver.
  - rewrite apply_request_free in Hrun by done. simplify_eq. rewrite (IH m) by done. set_solver.
  - pose proof (authorize_other_pays config md _ m req n msg ins outs sigs (proj1 Hr) Hty Hf Hn Ha) as Hpays.
    destruct (apply_request_pays (X:=X) lid node m req x n ins outs sigs Hr (proj2 (proj2 Hinv)) Hf (proj1 Hin)
                (proj1 Hok) Hpays) as (node1' & Hrun1 & Hr1 & Hsize & _ & _ & Hded).
    rewrite Hrun in Hrun1. simplify_eq. rewrite (IH _ Hr1).
    + rewrite (has_deducted_aset _ _ _ _ _ _ _ Hded), orb_true_iff, bool_decide_eq_true, <- Hx. fold (has_deducted_fees (fn_tracker node) ty q).
      split.
      * intros [[[Hty' Hq]%deducted_key_inj|?]|?]; [right; exists x|left; done|right]; set_solver.
      * intros [?|(y & [[= ->]|Hy]%elem_of_cons & <- & <-)]; [left; by right|by left; left|right; by exists y].
    + rewrite Hsize. apply (outputs_inv_pay m _ (mkPayment FEE_TXN ins outs)); [done|]. by eapply payment_ok_pays.
Qed.
End Runs.

