(* ===== verification/NodeRuns.v ===== *)
(** * Runs of a node over its batches

    The events of a node with both plugins: batches of the token ledger and of the
    domain ledger are applied, the newest is rejected, the oldest is committed.
    [node_step] runs the handlers of NodeBatches on the whole node and says what
    becomes of the abstract chain.  Theorems: the node refines the chain (applying
    appends, rejecting restores, committing advances, and none of them fails) and
    the pending batches can all be committed, in every run in which no record of a
    rejected fee is taken for a payment; and the run in which it is, and committing
    fails.

    Of plenum this uses [_commit] ([commit_law]), that it commits a token batch with
    the roots it was applied with ([commits]) and a domain batch with the
    transactions it was applied with, and that it numbers the transactions of the
    domain ledger in order. *)

From stdpp Require Import sorting.
From S2P Require Import Prelude Exceptions PyStr TokenTypes Stores UtxoAmounts UtxoCache TokenUtils.
From S2P Require Import TokenHandlers Json GetUtxo FeesState FeesAuthorizer Ledger DomainFees Payments Frames.
From S2P Require Import BatchHandlers Authn Validation TokenLedger StateKeys Requests NodeBatches.

Open Scope stdpp_scope.

(** ** The steps of the node *)

Definition failure {A} (r : res A) : option exn := match r with Ok _ => None | Raise e => Some e end.

Definition decode_root (b58decode : string -> res string) (r : state_root_arg) : res string :=
  match r with RootStr s => b58decode s | RootBytes b => Ok b end.

Section Steps.
Context {T K L X R : Type} `{StateStoreLaws T} `{!StateHistoryLaws T} `{KVStoreLaws K} `{!KVViewLaws K}.
Context `{LedgerLaws L X} `{!LedgerHistoryLaws L X} `{TrackerLaws R} `{Serializer} `{Base58}.
Context (commit_ledger : ThreePcBatch -> M (L * T) (list X)) (serialize_txn_root : string -> string).

(** Plenum's [_commit]: the next [n] transactions of the ledger and the state root
    of the batch become committed, provided the batch carries the ledger root
    after these transactions. *)
Definition commit_law : Prop :=
  forall batch root (l l0 : L) (t : T),
    let n := length (b_valid_digests batch) in
    decode_root b58decode (b_state_root batch) = Ok root -> st_known t root ->
    (lg_committed (X:=X) l + n <= length (lg_leaves (X:=X) l))%nat ->
    lg_leaves (X:=X) l0 = take (lg_committed (X:=X) l + n) (lg_leaves (X:=X) l) ->
    b_txn_root batch = serialize_txn_root (uncommitted_root_hash (X:=X) l0) ->
    exists txns l' t', commit_ledger batch (l, t) = (Ok txns, (l', t')) /\ length txns = n /\
      lg_leaves (X:=X) l' = lg_leaves (X:=X) l /\ lg_committed (X:=X) l' = (lg_committed (X:=X) l + n)%nat /\
      state_keeps t t' /\ st_headHash t' = st_headHash t /\ st_committedHeadHash t' = root.

(** What the node is told about the batch it commits. *)
Definition commits (base : snap) (p : pending X) (batch : ThreePcBatch) : Prop :=
  decode_root b58decode (b_state_root batch) = Ok (s_root (p_snap p)) /\
  b_txn_root batch = serialize_txn_root (s_lroot (p_snap p)) /\
  length (b_valid_digests batch) = (s_size (p_snap p) - s_size base)%nat.

(** The version that a run of transactions ends with: the payments on the chain,
    the roots of the node. *)
Definition version (prev : snap) (ps : list payment) (minted fees : Z) (node : fee_node T K L) : snap :=
  mkSnap (u_pay_all (s_utxos prev) (Z.of_nat (s_size prev) + 1) ps)
         (st_headHash (db_state (fn_db node))) (uncommitted_root_hash (X:=X) (fn_ledger node))
         (s_size prev + length ps) (s_payments prev ++ ps) (s_minted prev + minted) (s_fees prev + fees).

(** The transactions of the pending batches that plenum has appended to the domain
    ledger, each with whether it paid a fee. *)
Definition domain_txns (pend : list (pending X)) : list (X * bool) := pend ≫= p_txns.

(** One of the transactions of a batch pays no fee, but the tracker of fees has a
    record under its type and number. *)
Definition stale (f : BatchFeesTracker) (xs : list (X * bool)) : bool :=
  existsb (fun x => negb x.2 && has_deducted_fees f (get_type x.1) (get_seq_no x.1)) xs.

(** Whether a stale record was there for the batch that is applied, and the exception
    the handlers end with, if any. *)
Record event := mkEvent { ev_stale : bool; ev_failure : option exn }.

(** [node_step n base pend e n' base' pend']: the event [e] takes the node [n] with
    the chain [base], [pend] to the node [n'] with the chain [base'], [pend']. *)
Inductive node_step
    : batch_node T K L R -> snap -> list (pending X) -> event ->
      batch_node T K L R -> snap -> list (pending X) -> Prop :=
  | step_apply_token n base pend batch ps minted fees node r n' :
      batch_run (X:=X) TokenBatch (bn_node n) ps minted fees node ->
      b_state_root batch = RootBytes (st_headHash (db_state (fn_db node))) ->
      token_batch_applied (X:=X) batch (mkBatchNode node (bn_token_tracker n)) = (r, n') ->
      node_step n base pend (mkEvent false (failure r)) n' base
        (pend ++ [mkPending TokenBatch true (version (last_snap base pend) ps minted fees node) []])
  | step_apply_domain n base pend batch xs ps fees node r n' :
      domain_run (X:=X) (bn_node n) xs ps fees node ->
      StronglySorted Z.lt (get_seq_no <$> (domain_txns pend ++ xs).*1) ->
      fee_post_batch_applied (X:=X) batch (mkBatchNode node (bn_token_tracker n)) = (r, n') ->
      node_step n base pend (mkEvent (stale (bn_fees n) xs) (failure r)) n' base
        (pend ++ [mkPending DomainBatch (match ps with [] => false | _ => true end)
                    (version (last_snap base pend) ps 0 fees node) xs])
  | step_reject_token n base pend p r n' :
      p_kind p = TokenBatch ->
      token_batch_rejected (X:=X) (s_root (last_snap base pend))
        (Z.of_nat (s_size (p_snap p)) - Z.of_nat (s_size (last_snap base pend))) n = (r, n') ->
      node_step n base (pend ++ [p]) (mkEvent false (failure r)) n' base pend
  | step_reject_domain ledger_id n base pend p r n' :
      p_kind p = DomainBatch ->
      fee_post_batch_rejected (X:=X) ledger_id n = (r, n') ->
      node_step n base (pend ++ [p]) (mkEvent false (failure r)) n' base pend
  | step_commit_token batch n base p pend r n' :
      p_kind p = TokenBatch -> commits base p batch ->
      token_batch_commit commit_ledger b58decode batch n = (r, n') ->
      node_step n base (p :: pend) (mkEvent false (failure r)) n' (p_snap p) pend
  | step_commit_domain batch n base p pend r n' :
      p_kind p = DomainBatch ->
      fee_commit_batch (X:=X) commit_ledger serialize_txn_root b58decode batch (p_txns p).*1 n = (r, n') ->
      node_step n base (p :: pend) (mkEvent false (failure r)) n' (p_snap p) pend.

(** Events one after the other. *)
Inductive node_run
    : batch_node T K L R -> snap -> list (pending X) -> list event ->
      batch_node T K L R -> snap -> list (pending X) -> Prop :=
  | node_run_nil n base pend : node_run n base pend [] n base pend
  | node_run_cons n base pend e n1 base1 pend1 es n2 base2 pend2 :
      node_step n base pend e n1 base1 pend1 -> node_run n1 base1 pend1 es n2 base2 pend2 ->
      node_run n base pend (e :: es) n2 base2 pend2.

Definition unstale (es : list event) : Prop := Forall (fun e => ev_stale e = false) es.

(** The tracker of fees knows of every pending domain transaction whether it paid. *)
Record records_ok (f : BatchFeesTracker) (pend : list (pending X)) : Prop := mkRecordsOk {
  ro_sorted : StronglySorted Z.lt (get_seq_no <$> (domain_txns pend).*1);
  ro_records : Forall (fun x => has_deducted_fees f (get_type x.1) (get_seq_no x.1) = x.2) (domain_txns pend);
}.

(** A domain batch has added one transaction to the token ledger for each that paid. *)
Fixpoint paid_ok (prev : snap) (pend : list (pending X)) : Prop :=
  match pend with
  | [] => True
  | p :: pend =>
      (p_kind p = DomainBatch -> length (List.filter snd (p_txns p)) = (s_size (p_snap p) - s_size prev)%nat) /\
      paid_ok (p_snap p) pend
  end.

(** A node in agreement with its chain. *)
Record node_ok (n : batch_node T K L R) (base : snap) (pend : list (pending X)) : Prop := mkNodeOk {
  ok_repr : node_repr n base pend;
  ok_records : records_ok (bn_fees n) pend;
  ok_paid : paid_ok base pend;
}.

Implicit Types (n : batch_node T K L R).

(** *** Applying *)

(** A run of transactions from a node in agreement with the chain. *)
Lemma node_run_spec k n base pend ps minted fees node :
  node_repr n base pend -> batch_run (X:=X) k (bn_node n) ps minted fees node ->
  let last := last_snap base pend in
  let m' := u_pay_all (s_utxos last) (Z.of_nat (s_size last) + 1) ps in
  db_repr false (fn_db node) m' /\ outputs_inv m' (Z.of_nat (s_size last + length ps)) /\
  length (lg_leaves (X:=X) (fn_ledger node)) = (s_size last + length ps)%nat /\
  node_frame (X:=X) (bn_node n) node /\
  fees_in_current_batch (fn_tracker node) = match k with TokenBatch => 0 | DomainBatch => Z.of_nat (length ps) end%Z /\
  (k = DomainBatch -> ps <> [] -> st_headHash (db_state (fn_db node)) <> s_root last) /\
  output_keys (st_get (db_state (fn_db node)) false) /\
  history_ok (version last ps minted fees node).
Proof.
  intros Hr Hrun last m'. destruct (node_repr_db _ _ _ Hr) as [Hdb _].
  destruct (snap_ok_last _ _ _ Hr) as (Hinv & _ & _ & Hkeys & (Hps & Hu & Hlen & Hsup) & _).
  assert (uncommitted_size (X:=X) (fn_ledger (bn_node n)) = Z.of_nat (s_size last)) as Hsize.
  { rewrite lg_size. f_equal. apply (nr_lsize _ _ _ Hr). }
  assert (db_repr false (fn_db (bn_node n)) (s_utxos last)) as Hdb' by (by destruct n as [[[] ? ?] ?]).
  destruct (batch_run_spec _ _ _ _ _ _ (s_utxos last) Hrun)
    as (Hdb2 & Hinv2 & Hsize2 & Hf & Hc & _ & Hsup2 & Hkeys2 & Hps2); [done|by rewrite Hsize|].
  rewrite Hsize in *. split_and!; try done.
  - by rewrite Nat2Z.inj_add.
  - rewrite lg_size in Hsize2. lia.
  - rewrite Hc. pose proof (nr_fees _ _ _ Hr) as Hf0. unfold bn_fees in Hf0. rewrite Hf0. by destruct k.
  - intros -> Hne Heq. apply (batch_run_changes (bn_node n) ps minted fees node (s_utxos last)); [done..|by rewrite Hsize|].
    rewrite Heq. symmetry. apply (nr_head _ _ _ Hr).
  - apply Hkeys2. eapply output_keys_ext; [|exact Hkeys]. intros key.
    pose proof (nr_head _ _ _ Hr) as Hh. unfold bn_state in Hh. by rewrite st_get_head, Hh.
  - fold m' in Hsup2. unfold history_ok, version. cbn [s_payments s_utxos s_size s_minted s_fees]. split_and!.
    + apply payments_ok_app. fold last in Hlen, Hu. rewrite Hlen, <- Hu, (Z.add_comm 1). done.
    + rewrite u_pay_all_app. fold last in Hlen, Hu. by rewrite Hlen, <- Hu, (Z.add_comm 1).
    + rewrite length_app. fold last in Hlen. lia.
    + fold m'. fold last in Hsup. lia.
Qed.

Lemma repr_apply_token n base pend batch ps minted fees node :
  node_repr n base pend -> batch_run (X:=X) TokenBatch (bn_node n) ps minted fees node ->
  b_state_root batch = RootBytes (st_headHash (db_state (fn_db node))) ->
  exists n', token_batch_applied (X:=X) batch (mkBatchNode node (bn_token_tracker n)) = (Ok tt, n') /\
    node_repr n' base (pend ++ [mkPending TokenBatch true (version (last_snap base pend) ps minted fees node) []]) /\
    bn_fees n' = fn_tracker node.
Proof.
  intros Hr Hrun Hroot.
  destruct (node_run_spec _ _ _ _ _ _ _ _ Hr Hrun)
    as (Hdb & Hinv & Hlen & [[Hst [Hkv Hkc]] Hl] & Hf & _ & Hkeys & Hsup).
  rewrite token_batch_applied_eq. rewrite Hroot. destruct node as [[t k] l f]. cbn in *.
  eexists. split; [reflexivity|]. split; [|done]. eapply (node_repr_append n); cbn; try done.
  - by rewrite kv_committed_create.
  - rewrite kv_views_create, Hkv. f_equal. unfold texts.
    destruct Hdb as (Hc & _). apply cache_repr_texts in Hc. cbn in Hc. by rewrite Hc.
  - destruct Hdb as (Hc & Hrest). split; [|done]. cbn in *. apply cache_repr_texts. rewrite kv_current_create.
    by apply cache_repr_texts in Hc.
  - cbv [pending_ok]. cbn. lia.
  - rewrite tr_view_apply. unfold entry. cbn. by rewrite lg_size, Hlen.
Qed.

Lemma repr_apply_domain n base pend batch ps minted fees node xs :
  node_repr n base pend -> batch_run (X:=X) DomainBatch (bn_node n) ps minted fees node ->
  exists n', fee_post_batch_applied (X:=X) batch (mkBatchNode node (bn_token_tracker n)) = (Ok tt, n') /\
    node_repr n' base (pend ++ [mkPending DomainBatch (match ps with [] => false | _ => true end)
                                  (version (last_snap base pend) ps minted fees node) xs]) /\
    deducted_fees (bn_fees n') = deducted_fees (fn_tracker node).
Proof.
  intros Hr Hrun.
  destruct (node_run_spec _ _ _ _ _ _ _ _ Hr Hrun)
    as (Hdb & Hinv & Hlen & [[Hst [Hkv Hkc]] Hl] & Hf & Hhead & Hkeys & Hsup).
  rewrite fee_applied_eq. unfold bn_fees. cbn [bn_node]. rewrite Hf.
  destruct Hdb as (Hc & Hrest). pose proof (proj1 (cache_repr_texts _ _ _) Hc) as Htexts. cbn in Htexts.
  destruct ps as [|p ps].
  - inversion Hrun; subst node minted fees. change (Z.of_nat (length []) >? 0)%Z with false. cbv iota.
    assert (version (last_snap base pend) [] 0 0 (bn_node n) = last_snap base pend) as Hver.
    { unfold version. cbn. rewrite Nat.add_0_r, app_nil_r, !Z.add_0_r. pose proof (node_repr_lroot _ _ _ Hr) as Hl0.
      pose proof (nr_head _ _ _ Hr) as Hh0. unfold bn_ledger, bn_state in Hl0, Hh0. rewrite <- Hl0, Hh0.
      by destruct (last_snap base pend). }
    rewrite Hver in *. eexists. split; [reflexivity|]. split; [|done]. rewrite Nat.add_0_r in *. cbn [length].
    apply (node_repr_append n); try done; cbn.
    + by rewrite app_nil_r.
    + symmetry. apply (nr_head _ _ _ Hr).
    + rewrite (node_repr_lroot _ _ _ Hr). done.
    + rewrite tr_view_apply. f_equal. f_equal. unfold entry.
      rewrite (node_repr_lroot _ _ _ Hr), <- (nr_head _ _ _ Hr), <- (nr_lsize _ _ _ Hr).
      by rewrite lg_size.
  - rewrite (proj2 (Z.gtb_lt _ _)) by (simpl; lia). destruct node as [[t k] l f]. cbn in *.
    eexists. split; [reflexivity|]. split; [|done]. apply (node_repr_append n); cbn; try done.
    + by rewrite kv_committed_create.
    + rewrite kv_views_create, Hkv. f_equal. unfold texts. by rewrite Htexts.
    + split; [|done]. cbn in *. apply cache_repr_texts. by rewrite kv_current_create.
    + cbv [pending_ok]. cbn. split_and!; [lia|by apply not_eq_sym, Hhead|].
      rewrite (node_repr_lroot _ _ _ Hr). intros Heq%lg_root. apply (f_equal length) in Heq.
      rewrite Hlen, (nr_lsize _ _ _ Hr) in Heq. lia.
    + rewrite tr_view_apply. unfold entry. cbn. by rewrite lg_size, Hlen.
Qed.

(** *** Rejecting *)

Lemma older_tracker n base older p :
  node_repr n base (older ++ [p]) ->
  exists v, tr_view (bn_token_tracker n) = v ++ [entry (last_snap base older); entry (p_snap p)] /\
    v ++ [entry (last_snap base older)] = entry <$> (base :: (p_snap <$> older)).
Proof.
  intros Hr. rewrite (nr_tracker _ _ _ Hr), snaps_snoc, fmap_app.
  destruct older as [|q older _] using rev_ind; [by exists []|].
  exists (entry <$> (base :: (p_snap <$> older))).
  rewrite last_snap_snoc, snaps_snoc, fmap_app. split; [|done]. by rewrite <- app_assoc.
Qed.

Lemma reject_ledger n base older p :
  node_repr n base (older ++ [p]) ->
  let size := s_size (last_snap base older) in
  let l' := discardTxns (X:=X) (bn_ledger n) (Z.of_nat (s_size (p_snap p)) - Z.of_nat size) in
  lg_leaves (X:=X) l' = take size (lg_leaves (X:=X) (bn_ledger n)) /\
  lg_committed (X:=X) l' = lg_committed (X:=X) (bn_ledger n).
Proof.
  intros Hr size l'. destruct (proj1 (chain_ok_snoc _ _ _) (nr_chain _ _ _ Hr)) as [Hc Hp].
  assert (length (lg_leaves (X:=X) (bn_ledger n)) = s_size (p_snap p)) as Hlen
    by (by rewrite (nr_lsize _ _ _ Hr), last_snap_snoc).
  subst l'. rewrite <- Hlen. apply lg_discard. rewrite (nr_lcommitted _ _ _ Hr), Hlen.
  pose proof (pending_ok_size _ _ Hp). pose proof (chain_ok_sizes _ _ _ Hc (last_or_elem base (p_snap <$> older))).
  unfold size. lia.
Qed.

Lemma reject_known n base older p :
  node_repr n base (older ++ [p]) -> st_known (bn_state n) (s_root (last_snap base older)).
Proof.
  intros Hr. pose proof (nr_snaps _ _ _ Hr) as Hs. rewrite fmap_app, app_comm_cons in Hs.
  apply Forall_app in Hs as [Hs _]. rewrite Forall_forall in Hs. by apply (Hs _ (last_or_elem _ _)).
Qed.

Lemma reject_cache n base older p :
  node_repr n base (older ++ [p]) -> p_cached p = true ->
  exists cnt k', kv_reject_batch (bn_cache n) = (Ok cnt, k') /\ kv_views k' = omap cache_batch older /\
    kv_committed k' = kv_committed (bn_cache n) /\ kv_current k' = texts (s_utxos (last_snap base older)).
Proof.
  intros Hr Hp. pose proof (nr_views _ _ _ Hr) as Hv. rewrite omap_app in Hv. unfold cache_batch at 2 in Hv.
  csimpl in Hv. rewrite Hp in Hv.
  destruct (kv_views_reject _ _ _ Hv) as (cnt & k' & Hk & Hv' & Hc' & Hcur).
  { rewrite (nr_kcurrent _ _ _ Hr), last_snap_snoc. done. }
  exists cnt, k'. split_and!; try done. rewrite Hcur, (nr_kcommitted _ _ _ Hr).
  destruct (proj1 (chain_ok_snoc _ _ _) (nr_chain _ _ _ Hr)) as [Hchain _].
  apply (cached_last base older Hchain).
Qed.

Lemma repr_reject_token n base older p :
  node_repr n base (older ++ [p]) -> p_kind p = TokenBatch ->
  exists n', token_batch_rejected (X:=X) (s_root (last_snap base older))
      (Z.of_nat (s_size (p_snap p)) - Z.of_nat (s_size (last_snap base older))) n = (Ok tt, n') /\
    node_repr n' base older /\ bn_fees n' = bn_fees n.
Proof.
  intros Hr Hk. destruct (proj1 (chain_ok_snoc _ _ _) (nr_chain _ _ _ Hr)) as [_ Hp].
  assert (p_cached p = true) as Hcached by (unfold pending_ok in Hp; rewrite Hk in Hp; by destruct (p_cached p)).
  destruct (reject_cache _ _ _ _ Hr Hcached) as (cnt & k' & Hrej & Hv & Hkc & Hcur).
  destruct (older_tracker _ _ _ _ Hr) as (v & Htr & Hv').
  destruct (tr_view_reject _ _ _ _ Htr) as (r' & Htrej & Hr').
  destruct (reject_ledger _ _ _ _ Hr) as [Hl Hlc]. pose proof (reject_known _ _ _ _ Hr) as Hknown.
  rewrite (token_batch_rejected_eq _ _ _ _ _ _ _ Hrej Htrej). eexists. split; [reflexivity|]. split; [|done].
  apply (node_repr_drop n _ _ p); try done; cbn.
  - apply state_frame_write. constructor.
  - by apply st_revert_head.
  - by rewrite Hr', Hv'.
  - apply (nr_fees _ _ _ Hr).
Qed.

Lemma repr_reject_domain ledger_id n base older p :
  node_repr n base (older ++ [p]) -> p_kind p = DomainBatch ->
  exists n', fee_post_batch_rejected (X:=X) ledger_id n = (Ok tt, n') /\ node_repr n' base older /\
    bn_fees n' = bn_fees n.
Proof.
  intros Hr Hk. destruct (proj1 (chain_ok_snoc _ _ _) (nr_chain _ _ _ Hr)) as [_ Hp].
  destruct (older_tracker _ _ _ _ Hr) as (v & Htr & Hv').
  destruct (tr_view_reject _ _ _ _ Htr) as (r' & Htrej & Hr').
  rewrite (fee_rejected_eq _ _ _ _ _ _ Htrej). cbn [entry fst snd].
  pose proof (node_repr_lroot _ _ _ Hr) as Hlroot. pose proof (nr_head _ _ _ Hr) as Hhead.
  rewrite last_snap_snoc in Hlroot, Hhead. rewrite <- Hlroot, Hhead.
  destruct (p_cached p) eqn:Hcached; unfold pending_ok in Hp; rewrite Hk, Hcached in Hp.
  - destruct Hp as (Hsize & Hroot & Hlr).
    destruct (reject_cache _ _ _ _ Hr Hcached) as (cnt & k' & Hrej & Hv & Hkc & Hcur).
    destruct (reject_ledger _ _ _ _ Hr) as [Hl Hlc]. pose proof (reject_known _ _ _ _ Hr) as Hknown.
    rewrite (proj2 (Z.eqb_neq _ _)), !bool_decide_false, Hrej by (try lia; congruence).
    eexists. split; [reflexivity|]. split; [|done]. apply (node_repr_drop n _ _ p); try done; cbn.
    + apply state_frame_write. constructor.
    + by apply st_revert_head.
    + by rewrite Hr', Hv'.
    + apply (nr_fees _ _ _ Hr).
  - rewrite Hp, Z.sub_diag. cbn [Z.eqb orb]. eexists. split; [reflexivity|]. split; [|done].
    assert (lg_leaves (X:=X) (bn_ledger n) = take (s_size (last_snap base older)) (lg_leaves (X:=X) (bn_ledger n))) as Htake.
    { rewrite take_ge; [done|]. rewrite (nr_lsize _ _ _ Hr), last_snap_snoc, Hp. done. }
    apply (node_repr_drop n _ _ p); try done; cbn.
    + by rewrite <- Hp.
    + change (bn_cache (with_tracker n r')) with (bn_cache n). rewrite (nr_views _ _ _ Hr), omap_app.
      unfold cache_batch at 2. csimpl. by rewrite Hcached, app_nil_r.
    + change (bn_cache (with_tracker n r')) with (bn_cache n).
      rewrite (nr_kcurrent _ _ _ Hr), last_snap_snoc. by rewrite Hp.
    + by rewrite Hr', Hv'.
    + apply (nr_fees _ _ _ Hr).
Qed.

(** *** Committing *)

Lemma commit_cache n base p newer b :
  node_repr n base (p :: newer) -> p_cached p = true -> decode_root b58decode b = Ok (s_root (p_snap p)) ->
  exists k', commit_to_utxo_cache b58decode b (bn_cache n) = (Ok tt, k') /\
    kv_views k' = omap cache_batch newer /\ kv_committed k' = texts (s_utxos (p_snap p)) /\
    kv_current k' = kv_current (bn_cache n).
Proof.
  intros Hr Hc Hb. pose proof (nr_views _ _ _ Hr) as Hv. csimpl in Hv. unfold cache_batch at 1 in Hv. rewrite Hc in Hv.
  destruct (kv_views_commit _ _ _ Hv) as (k' & Hk & Hrest). exists k'. split; [|done].
  unfold commit_to_utxo_cache. reduce_monad. unfold decode_root in Hb. rewrite Hb.
  rewrite kv_views_first, Hv. cbn [head fmap option_fmap option_map fst]. by rewrite decide_True.
Qed.

Lemma commit_tracker n base p newer :
  node_repr n base (p :: newer) ->
  exists r', tr_commit_batch (bn_token_tracker n) =
      (Ok (s_root (p_snap p), s_lroot (p_snap p), (Z.of_nat (s_size (p_snap p)) - Z.of_nat (s_size base))%Z), r') /\
    tr_view r' = entry <$> (p_snap <$> (p :: newer)).
Proof.
  intros Hr. pose proof (nr_tracker _ _ _ Hr) as Ht. csimpl in Ht.
  destruct (tr_view_commit _ _ _ _ Ht) as (r' & Hc & Hv). by exists r'.
Qed.

(** [_commit] with the next version's roots and number of transactions. *)
Lemma commit_next n base p newer batch :
  commit_law -> node_repr n base (p :: newer) -> commits base p batch ->
  exists txns l' t', commit_ledger batch (bn_ledger n, bn_state n) = (Ok txns, (l', t')) /\
    length txns = length (b_valid_digests batch) /\
    lg_leaves (X:=X) l' = lg_leaves (X:=X) (bn_ledger n) /\ lg_committed (X:=X) l' = s_size (p_snap p) /\
    state_keeps (bn_state n) t' /\ st_headHash t' = st_headHash (bn_state n) /\
    st_committedHeadHash t' = s_root (p_snap p).
Proof.
  intros Hlaw Hr (Hroot & Htxn & Hlen).
  pose proof (nr_snaps _ _ _ Hr) as Hs. csimpl in Hs. apply Forall_cons in Hs as [_ [Hp _]%Forall_cons].
  destruct Hp as (_ & Hknown & _ & _ & _ & Hle & l0 & Hl0 & Hl0r).
  pose proof (pending_ok_size _ _ (proj1 (nr_chain _ _ _ Hr))) as Hsize.
  assert (lg_committed (X:=X) (bn_ledger n) + length (b_valid_digests batch) = s_size (p_snap p))%nat as Hn
    by (rewrite (nr_lcommitted _ _ _ Hr), Hlen; lia).
  destruct (Hlaw batch (s_root (p_snap p)) (bn_ledger n) l0 (bn_state n)) as (txns & l' & t' & Hc & Ht & Hl & Hlc & Hrest);
    rewrite ?Hn; try done; [by rewrite Htxn, Hl0r|].
  exists txns, l', t'. rewrite Hn in Hlc. done.
Qed.

Lemma repr_commit_token n base p newer batch :
  commit_law -> node_repr n base (p :: newer) -> p_kind p = TokenBatch -> commits base p batch ->
  exists n', token_batch_commit commit_ledger b58decode batch n = (Ok tt, n') /\ node_repr n' (p_snap p) newer /\
    deducted_fees (bn_fees n') = deducted_fees (bn_fees n).
Proof.
  intros Hlaw Hr Hk Hb.
  destruct (commit_next _ _ _ _ _ Hlaw Hr Hb) as (txns & l' & t' & Hc & _ & Hl & Hlc & Hkeep & Hhead & Hch).
  assert (p_cached p = true) as Hcached.
  { pose proof (proj1 (nr_chain _ _ _ Hr)) as Hp. unfold pending_ok in Hp. rewrite Hk in Hp. by destruct (p_cached p). }
  destruct (commit_cache _ _ _ _ _ Hr Hcached (proj1 Hb)) as (k' & Hkc & Hv & Hcom & Hcur).
  destruct (commit_tracker _ _ _ _ Hr) as (r' & Htr & Hr').
  rewrite (token_batch_commit_eq _ _ _ _ _ _ _ _ _ _ Hc Hkc Htr). eexists. split; [reflexivity|].
  split; [|done]. apply (node_repr_commit n base); try done. apply (nr_fees _ _ _ Hr).
Qed.

Lemma repr_commit_domain n base p newer batch txns :
  commit_law -> node_repr n base (p :: newer) -> p_kind p = DomainBatch -> NoDup (get_seq_no <$> txns) ->
  length (seq_nos_with_fees (bn_fees n) txns) = (s_size (p_snap p) - s_size base)%nat ->
  exists txns' n', fee_commit_batch (X:=X) commit_ledger serialize_txn_root b58decode batch txns n = (Ok txns', n') /\
    node_repr n' (p_snap p) newer /\ deducted_fees (bn_fees n') = deducted_fees (bn_fees n).
Proof.
  intros Hlaw Hr Hk Hnd Hlen. destruct (commit_tracker _ _ _ _ Hr) as (r' & Htr & Hr').
  pose proof (proj1 (nr_chain _ _ _ Hr)) as Hp. unfold pending_ok in Hp. rewrite Hk in Hp.
  destruct (p_cached p) eqn:Hcached.
  - set (seq_nos := seq_nos_with_fees (bn_fees n) txns) in *.
    set (fake := token_fake_three_pc_batch serialize_txn_root batch (s_root (p_snap p)) (s_lroot (p_snap p)) seq_nos).
    destruct (commit_next n base p newer fake Hlaw Hr) as (fees & l' & t' & Hc & Hfees & Hl & Hlc & Hkeep & Hhead & Hch).
    { split_and!; [done|done|]. cbn. by rewrite length_fmap, length_seq, Hlen. }
    destruct (commit_cache n base p newer (RootBytes (s_root (p_snap p))) Hr Hcached eq_refl) as (k' & Hkc & Hv & Hcom & Hcur).
    destruct (fee_commit_some commit_ledger serialize_txn_root b58decode batch txns n _ _ _ r' fees l' t' k' Htr)
      as (txns' & _ & Hrun); fold seq_nos; try done.
    + intros Hnil. rewrite Hnil in Hlen. simpl in Hlen. lia.
    + rewrite Hfees. cbn. rewrite length_fmap, length_seq. unfold seq_nos, seq_nos_with_fees.
      rewrite paying_filter by done. by rewrite length_fmap.
    + eexists _, _. split; [exact Hrun|]. split; [|done]. by apply (node_repr_commit n base).
  - rewrite Hp, Nat.sub_diag in Hlen. apply nil_length_inv in Hlen.
    eexists _, _. split; [by eapply fee_commit_none|].
    split; [|done].
    apply (node_repr_commit n base p); cbn; rewrite ?Hp; try done; try apply Hr.
    + change (bn_cache (with_tracker n r')) with (bn_cache n). rewrite (nr_views _ _ _ Hr). csimpl.
      unfold cache_batch at 1. by rewrite Hcached.
    + rewrite Hr'. csimpl. by rewrite Hp.
Qed.

(** *** The record of the fees *)

Lemma domain_txns_snoc pend p : domain_txns (pend ++ [p]) = domain_txns pend ++ p_txns p.
Proof. unfold domain_txns. by rewrite bind_app, bind_cons, app_nil_r. Qed.

Lemma domain_txns_cons p pend : domain_txns (p :: pend) = p_txns p ++ domain_txns pend.
Proof. done. Qed.

Lemma paid_ok_snoc base pend p :
  paid_ok base (pend ++ [p]) <->
  paid_ok base pend /\
  (p_kind p = DomainBatch ->
     length (List.filter snd (p_txns p)) = (s_size (p_snap p) - s_size (last_snap base pend))%nat).
Proof.
  revert base. induction pend as [|q pend IH]; intros base; simpl; [tauto|]. rewrite IH, last_snap_cons. tauto.
Qed.

Lemma records_ok_ext f f' pend : deducted_fees f' = deducted_fees f -> records_ok f pend -> records_ok f' pend.
Proof. intros Hf [Hs Hr]. split; [done|]. unfold has_deducted_fees in *. by rewrite Hf. Qed.

Lemma records_ok_drop f pend p : records_ok f (pend ++ [p]) -> records_ok f pend.
Proof.
  intros [Hs Hr]. rewrite domain_txns_snoc in *. rewrite !fmap_app in Hs.
  split; [by apply StronglySorted_app in Hs as (_ & ? & _)|by apply Forall_app in Hr as [? _]].
Qed.

Lemma records_ok_tail f p pend : records_ok f (p :: pend) -> records_ok f pend.
Proof.
  intros [Hs Hr]. rewrite domain_txns_cons in *. rewrite !fmap_app in Hs.
  split; [by apply StronglySorted_app in Hs as (_ & _ & ?)|by apply Forall_app in Hr as [_ ?]].
Qed.

Lemma sorted_numbers (xs : list (X * bool)) x y :
  StronglySorted Z.lt (get_seq_no <$> xs.*1) -> x ∈ xs -> y ∈ xs -> get_seq_no x.1 = get_seq_no y.1 -> x = y.
Proof.
  induction xs as [|z xs IH]; [by intros _ ?%elem_of_nil|]. csimpl. intros [Hs Hz]%StronglySorted_inv Hx Hy Heq.
  assert (forall w, w ∈ xs -> (get_seq_no z.1 < get_seq_no w.1)%Z) as Hlt.
  { intros w Hw. rewrite Forall_forall in Hz. by apply Hz, list_elem_of_fmap_2, list_elem_of_fmap_2. }
  apply elem_of_cons in Hx as [->|Hx], Hy as [->|Hy]; [done| | |by apply IH].
  - specialize (Hlt y Hy). lia.
  - specialize (Hlt x Hx). lia.
Qed.

Lemma sorted_numbers_NoDup (xs : list X) : StronglySorted Z.lt (get_seq_no <$> xs) -> NoDup (get_seq_no <$> xs).
Proof.
  induction xs as [|x xs IH]; csimpl; [constructor|]. intros [Hs Hx]%StronglySorted_inv.
  constructor; [|by apply IH]. intros Hin. rewrite Forall_forall in Hx. specialize (Hx _ Hin). lia.
Qed.

Lemma records_ok_apply node xs ps fees node' m pend p :
  records_ok (fn_tracker node) pend -> p_txns p = xs -> domain_run (X:=X) node xs ps fees node' ->
  db_repr false (fn_db node) m -> outputs_inv m (uncommitted_size (X:=X) (fn_ledger node)) ->
  StronglySorted Z.lt (get_seq_no <$> (domain_txns pend ++ xs).*1) -> stale (fn_tracker node) xs = false ->
  records_ok (fn_tracker node') (pend ++ [p]).
Proof.
  intros [_ Hr] Hp Hrun Hdb Hinv Hs Hst. subst xs.
  assert (forall ty q, _) as Hrec by (intros ty q; exact (domain_run_records _ _ _ _ _ m ty q Hrun Hdb Hinv)).
  split; rewrite domain_txns_snoc; [done|]. apply Forall_app; rewrite !Forall_forall in *.
  assert (forall x y, x ∈ domain_txns pend ++ p_txns p -> (y, true) ∈ p_txns p ->
            get_seq_no y = get_seq_no x.1 -> x = (y, true)) as Huniq.
  { intros x y Hx Hy Hq. apply (sorted_numbers _ _ _ Hs Hx); [|done]. apply elem_of_app. by right. }
  split; intros [x b] Hx; cbn [fst snd]; apply eq_true_iff_eq; rewrite Hrec.
  - specialize (Hr _ Hx). cbn [fst snd] in Hr. rewrite Hr. split; [|by left].
    intros [?|(y & Hy & _ & Hq)]; [done|].
    by injection (Huniq (x, b) y ltac:(apply elem_of_app; by left) Hy Hq) as _ ->.
  - destruct b.
    + split; [done|]. intros _. right. by exists x.
    + split; [|done]. intros [Hh|(y & Hy & _ & Hq)].
      * assert (stale (fn_tracker node) (p_txns p) = true) as Ht; [|congruence].
        apply existsb_exists. exists (x, false). by split; [apply list_elem_of_In|].
      * by discriminate (Huniq (x, false) y ltac:(apply elem_of_app; by right) Hy Hq).
Qed.

(** Committing finds the transactions that paid. *)
Lemma own_seq_nos f p pend :
  records_ok f (p :: pend) ->
  NoDup (get_seq_no <$> (p_txns p).*1) /\
  length (seq_nos_with_fees f (p_txns p).*1) = length (List.filter snd (p_txns p)).
Proof.
  intros [Hs Hr]. rewrite domain_txns_cons in *. rewrite !fmap_app in Hs. apply Forall_app in Hr as [Hr _].
  apply StronglySorted_app in Hs as (_ & Hs & _). split; [by apply sorted_numbers_NoDup|].
  unfold seq_nos_with_fees. rewrite length_fmap. clear Hs.
  induction Hr as [|[x b] xs Hx _ IH]; [done|]. cbn in Hx |- *. rewrite Hx. destruct b; cbn; [f_equal|]; apply IH.
Qed.

(** *** Every step *)

Lemma node_ok_start n base : node_repr n base [] -> node_ok n base [].
Proof. intros Hr. split; [done| |done]. split; [constructor|by apply Forall_nil]. Qed.

Lemma node_ok_bn n base pend :
  node_repr n base pend -> db_repr false (fn_db (bn_node n)) (s_utxos (last_snap base pend)) /\
  outputs_inv (s_utxos (last_snap base pend)) (uncommitted_size (X:=X) (fn_ledger (bn_node n))).
Proof.
  intros Hr. pose proof (proj1 (node_repr_db _ _ _ Hr)) as Hdb. destruct (snap_ok_last _ _ _ Hr) as (Hinv & _).
  split; [by destruct n as [[[] ? ?] ?]|]. rewrite lg_size. pose proof (nr_lsize _ _ _ Hr) as Hl.
  unfold bn_ledger in Hl. by rewrite Hl.
Qed.

Lemma commit_domain_ok n base p pend batch :
  commit_law -> node_ok n base (p :: pend) -> p_kind p = DomainBatch ->
  exists txns' n', fee_commit_batch (X:=X) commit_ledger serialize_txn_root b58decode batch (p_txns p).*1 n = (Ok txns', n') /\
    node_ok n' (p_snap p) pend.
Proof.
  intros Hlaw [Hr Hrec [Hpaid Hpaid']] Hk. destruct (own_seq_nos _ _ _ Hrec) as [Hnd Hlen].
  destruct (repr_commit_domain _ _ _ _ batch (p_txns p).*1 Hlaw Hr Hk Hnd) as (txns' & n' & Hc & Hr' & Hd).
  { rewrite Hlen. by apply Hpaid. }
  exists txns', n'. split; [done|]. split; [done| |done]. by eapply records_ok_ext, records_ok_tail.
Qed.

Lemma commit_token_ok n base p pend batch :
  commit_law -> node_ok n base (p :: pend) -> p_kind p = TokenBatch -> commits base p batch ->
  exists n', token_batch_commit commit_ledger b58decode batch n = (Ok tt, n') /\ node_ok n' (p_snap p) pend.
Proof.
  intros Hlaw [Hr Hrec [_ Hpaid]] Hk Hb. destruct (repr_commit_token _ _ _ _ _ Hlaw Hr Hk Hb) as (n' & Hc & Hr' & Hd).
  exists n'. split; [done|]. split; [done| |done]. by eapply records_ok_ext, records_ok_tail.
Qed.

Lemma reject_ok n n' base pend p :
  node_ok n base (pend ++ [p]) -> node_repr n' base pend -> bn_fees n' = bn_fees n -> node_ok n' base pend.
Proof.
  intros [_ Hrec Hpaid] Hr' Hf. split; [done| |by apply paid_ok_snoc in Hpaid as [? _]].
  rewrite Hf. by eapply records_ok_drop.
Qed.

Lemma node_step_refines n base pend e n' base' pend' :
  commit_law -> node_ok n base pend -> node_step n base pend e n' base' pend' -> ev_stale e = false ->
  ev_failure e = None /\ node_ok n' base' pend'.
Proof.
  intros Hlaw Hok Hstep.
  destruct Hstep as [n base pend batch ps minted fees node r n' Hrun Hroot Hap
    |n base pend batch xs ps fees node r n' Hrun Hs Hap
    |n base pend p r n' Hk Hrej|lid n base pend p r n' Hk Hrej
    |batch n base p pend r n' Hk Hb Hc|batch n base p pend r n' Hk Hc]; cbn [ev_stale ev_failure]; intros Hst.
  - pose proof (ok_repr _ _ _ Hok) as Hr. destruct Hok as [_ Hrec Hpaid].
    destruct (repr_apply_token n base pend batch ps minted fees node Hr Hrun Hroot) as (n1 & Hap' & Hr' & Hf).
    rewrite Hap in Hap'. simplify_eq. split; [done|]. split; [done| |by apply paid_ok_snoc].
    rewrite Hf, (token_run_tracker _ _ _ _ _ Hrun). destruct Hrec as [Hs Hrec].
    split; by rewrite domain_txns_snoc, app_nil_r.
  - pose proof (ok_repr _ _ _ Hok) as Hr. destruct Hok as [_ Hrec Hpaid].
    destruct (repr_apply_domain n base pend batch ps 0 fees node xs Hr (domain_run_payments _ _ _ _ _ Hrun))
      as (n1 & Hap' & Hr' & Hf).
    rewrite Hap in Hap'. simplify_eq. split; [done|]. destruct (node_ok_bn _ _ _ Hr) as [Hdb Hinv]. split; [done| |].
    + eapply records_ok_ext; [exact Hf|]. by eapply (records_ok_apply (bn_node n)).
    + apply paid_ok_snoc. split; [done|]. intros _. cbn. rewrite (domain_run_paid _ _ _ _ _ Hrun). lia.
  - destruct (repr_reject_token n base pend p (ok_repr _ _ _ Hok) Hk) as (n1 & Hrej' & Hr' & Hf). rewrite Hrej in Hrej'.
    simplify_eq. split; [done|]. by eapply reject_ok.
  - destruct (repr_reject_domain lid n base pend p (ok_repr _ _ _ Hok) Hk) as (n1 & Hrej' & Hr' & Hf). rewrite Hrej in Hrej'.
    simplify_eq. split; [done|]. by eapply reject_ok.
  - destruct (commit_token_ok n base p pend batch Hlaw Hok Hk Hb) as (n1 & Hc' & Hok'). rewrite Hc in Hc'. by simplify_eq.
  - destruct (commit_domain_ok n base p pend batch Hlaw Hok Hk) as (txns' & n1 & Hc' & Hok').
    rewrite Hc in Hc'. by simplify_eq.
Qed.

Lemma node_run_refines n base pend es n' base' pend' :
  commit_law -> node_ok n base pend -> node_run n base pend es n' base' pend' -> unstale es ->
  Forall (fun e => ev_failure e = None) es /\ node_ok n' base' pend'.
Proof.
  intros Hlaw Hok Hrun. induction Hrun as [|n base pend e n1 base1 pend1 es n2 base2 pend2 Hstep _ IH]; [by split|].
  intros [He Hes]%Forall_cons. destruct (node_step_refines _ _ _ _ _ _ _ Hlaw Hok Hstep He) as [Hf Hok1].
  destruct (IH Hok1 Hes) as [Hfs Hok2]. split; [by constructor|done].
Qed.

Lemma node_run_app n base pend es1 n1 base1 pend1 es2 n2 base2 pend2 :
  node_run n base pend es1 n1 base1 pend1 -> node_run n1 base1 pend1 es2 n2 base2 pend2 ->
  node_run n base pend (es1 ++ es2) n2 base2 pend2.
Proof. induction 1; intros Hrun; [done|]. cbn. econstructor; [done|]. by auto. Qed.

(** *** Committing all that is pending *)

(** Plenum commits the pending batch [p] as [batch]. *)
Definition commit_pending (p : pending X) (batch : ThreePcBatch) : M (batch_node T K L R) unit :=
  match p_kind p with
  | TokenBatch => token_batch_commit commit_ledger b58decode batch
  | DomainBatch =>
      fee_commit_batch (X:=X) commit_ledger serialize_txn_root b58decode batch (p_txns p).*1 ;;; ret tt
  end.

Definition commit_all (batches : list (pending X * ThreePcBatch)) : M (batch_node T K L R) unit :=
  for_each batches (fun pb => commit_pending pb.1 pb.2).

(** One batch for each pending one; those of the token ledger with the roots and the
    number of transactions they were applied with. *)
Fixpoint batches_for (prev : snap) (pend : list (pending X)) (batches : list ThreePcBatch) : Prop :=
  match pend, batches with
  | [], [] => True
  | p :: pend, batch :: batches =>
      (p_kind p = TokenBatch -> commits prev p batch) /\ batches_for (p_snap p) pend batches
  | _, _ => False
  end.

Lemma commit_all_ok n base pend batches :
  commit_law -> node_ok n base pend -> batches_for base pend batches ->
  exists n', commit_all (zip pend batches) n = (Ok tt, n') /\ node_ok n' (last_snap base pend) [].
Proof.
  intros Hlaw. revert n base batches. induction pend as [|p pend IH]; intros n base [|batch batches] Hok; try done.
  - intros _. by exists n.
  - intros [Hb Hbs]. rewrite last_snap_cons.
    assert (exists n1, commit_pending p batch n = (Ok tt, n1) /\ node_ok n1 (p_snap p) pend) as (n1 & Hc & Hok1).
    { unfold commit_pending. destruct (p_kind p) eqn:Hk; [exact (commit_token_ok n base p pend batch Hlaw Hok Hk (Hb eq_refl))|].
      destruct (commit_domain_ok n base p pend batch Hlaw Hok Hk) as (txns & n1 & Hc & Hok1).
      exists n1. by rewrite (bind_Ok _ _ _ _ _ Hc). }
    destruct (IH n1 (p_snap p) batches Hok1 Hbs) as (n' & Hrun & Hok'). exists n'. split; [|done].
    unfold commit_all. cbn [zip zip_with for_each fst snd]. by rewrite (bind_Ok _ _ _ _ _ Hc).
Qed.
End Steps.

(** ** Properties *)

Section Properties.
Context {T K L X R : Type} `{StateStoreLaws T} `{!StateHistoryLaws T} `{KVStoreLaws K} `{!KVViewLaws K}.
Context `{LedgerLaws L X} `{!LedgerHistoryLaws L X} `{TrackerLaws R} `{Serializer} `{Base58}.
Context (commit_ledger : ThreePcBatch -> M (L * T) (list X)) (serialize_txn_root : string -> string).
Implicit Types (n : batch_node T K L R).

(** C1: a node refines its chain in every run without a stale record: a run in which
    no applied domain transaction that pays no fee has the type and number of one
    that the tracker of fees remembers, which happens only after a batch with this
    number has been rejected ([stale_record_raises] is such a run).  Batches of the
    token and of the domain ledger, with and without fees, are applied, rejected and
    committed, a domain batch with the transactions it was applied with, and no
    handler raises; between two events the uncommitted state and cache show the
    outputs after the newest pending batch, the committed state and cache the outputs
    that the committed batches left, and in both the supply is what was minted until
    then less the fees paid; the tracker has the roots and sizes of all versions, the
    ledger as many transactions, and the record of fees tells of every pending
    domain transaction whether it paid. *)
Theorem node_refines_chain n base pend es n' base' pend' :
  commit_law commit_ledger serialize_txn_root -> node_ok n base pend ->
  node_run commit_ledger serialize_txn_root n base pend es n' base' pend' -> unstale es ->
  Forall (fun e => ev_failure e = None) es /\ node_ok n' base' pend' /\
  db_repr false (mkDb (bn_state n') (bn_cache n')) (s_utxos (last_snap base' pend')) /\
  cache_repr (bn_cache n') true (s_utxos base') /\
  (forall a q, nonempty (st_get (bn_state n') true (create_state_key a q)) = py_str <$> u_amount (s_utxos base') (mkInput a q)) /\
  (forall s, s ∈ base' :: (p_snap <$> pend') -> supply (s_utxos s) = (s_minted s - s_fees s)%Z) /\
  tr_view (bn_token_tracker n') = entry <$> (base' :: (p_snap <$> pend')) /\
  uncommitted_size (X:=X) (bn_ledger n') = Z.of_nat (s_size (last_snap base' pend')) /\
  (forall x paid, (x, paid) ∈ domain_txns pend' -> has_deducted_fees (bn_fees n') (get_type x) (get_seq_no x) = paid).
Proof.
  intros Hlaw Hok Hrun Hst. destruct (node_run_refines _ _ _ _ _ _ _ _ _ Hlaw Hok Hrun Hst) as [Hes Hok'].
  pose proof (ok_repr _ _ _ Hok') as Hr'. destruct (node_repr_db _ _ _ Hr') as [Hdb Hc]. split_and!; try done.
  - intros a q. rewrite st_get_committed, (nr_chead _ _ _ Hr'). apply (snap_ok_base _ _ _ Hr').
  - intros s Hs. pose proof (nr_snaps _ _ _ Hr') as Hall. rewrite Forall_forall in Hall.
    destruct (Hall s Hs) as (_ & _ & _ & _ & Hh & _). apply Hh.
  - apply Hr'.
  - rewrite lg_size. f_equal. apply Hr'.
  - intros x paid Hx. pose proof (ro_records _ _ (ok_records _ _ _ Hok')) as Hall. rewrite Forall_forall in Hall.
    apply (Hall _ Hx).
Qed.

(** C11: pending batches never block: after any run without a stale record, from a
    node with nothing pending, plenum can commit all pending batches, oldest first:
    those of the domain ledger with their own transactions, those of the token ledger
    with the roots they were applied with.  No handler raises; then nothing is
    pending and the committed cache shows the outputs that the uncommitted one
    showed. *)
Theorem pending_batches_commit n0 base0 es n base pend batches :
  commit_law commit_ledger serialize_txn_root -> node_repr n0 base0 [] ->
  node_run commit_ledger serialize_txn_root n0 base0 [] es n base pend -> unstale es ->
  batches_for serialize_txn_root base pend batches ->
  exists n', commit_all commit_ledger serialize_txn_root (zip pend batches) n = (Ok tt, n') /\
    kv_views (bn_cache n') = [] /\ cache_repr (bn_cache n') true (s_utxos (last_snap base pend)) /\
    db_repr false (mkDb (bn_state n') (bn_cache n')) (s_utxos (last_snap base pend)) /\
    st_committedHeadHash (bn_state n') = st_headHash (bn_state n').
Proof.
  intros Hlaw Hr0 Hrun Hst Hbs.
  destruct (node_run_refines _ _ _ _ _ _ _ _ _ Hlaw (node_ok_start _ _ Hr0) Hrun Hst) as [_ Hok].
  destruct (commit_all_ok _ _ _ _ _ _ Hlaw Hok Hbs) as (n' & Hc & Hok'). pose proof (ok_repr _ _ _ Hok') as Hr.
  destruct (node_repr_db _ _ _ Hr) as [Hdb Hcache]. exists n'. split_and!; try done; [apply (nr_views _ _ _ Hr)|].
  by rewrite (nr_chead _ _ _ Hr), (nr_head _ _ _ Hr).
Qed.
End Properties.

(** ** Examples

    An empty node mints 10 tokens in a token batch, applies a domain batch without
    transactions, rejects it, and commits the token batch. *)

Module ExChain.
Abbreviation node := (batch_node Mem.state Mem.kv MemLedger.ledger MemLedger.tracker).

Definition commit (batch : ThreePcBatch) : M (MemLedger.ledger * Mem.state) (list MemLedger.mtxn) := fun lt =>
  let n := length (b_valid_digests batch) in
  let chead := match decode_root b58decode (b_state_root batch) with
               | Ok root => default (Mem.chead lt.2) (Mem.unhash root)
               | Raise _ => Mem.chead lt.2
               end in
  (Ok (take n (MemLedger.l_txns lt.1)),
   (MemLedger.mkLedger (MemLedger.l_committed lt.1 + n) (drop n (MemLedger.l_txns lt.1)), Mem.mkState (Mem.head lt.2) chead)).

Lemma commit_lawful : commit_law (X:=MemLedger.mtxn) commit (fun s => s).
Proof.
  intros batch root l l0 t n Hroot [m ->] Hle _ _. unfold commit. rewrite Hroot. cbn [fst snd default].
  rewrite Mem.unhash_hash. eexists _, _, _. split; [reflexivity|]. fold n. simpl in *. rewrite length_replicate in Hle.
  split_and!; try done.
  - rewrite length_take. lia.
  - rewrite length_drop. f_equal. lia.
Qed.

Definition root0 : string := Mem.hash ∅.
Definition start : node :=
  mkBatchNode (mkFeeNode (mkDb Mem.empty_state Mem.empty_kv) (MemLedger.mkLedger 0 []) BatchFeesTracker_init)
              (MemLedger.mkTracker (root0, "root0", 0%Z) []).
Definition base0 : snap := mkSnap ∅ root0 "root0" 0 [] 0 0.

Lemma start_repr : node_repr (X:=MemLedger.mtxn) start base0 [].
Proof.
  split; try done. constructor; [|constructor].
  split_and!; [apply outputs_inv_empty|by exists ∅|done|by intros key [v Hv]|done|done|].
  by exists (MemLedger.mkLedger 0 []).
Qed.

Definition mint : payment := mkPayment MINT_PUBLIC [] ExFields.outs.
Definition minted : fee_node Mem.state Mem.kv MemLedger.ledger :=
  mkFeeNode (mint_update_state (mkTxn MINT_PUBLIC None (Some ExFields.outs) 1) false (fn_db (bn_node start))).2
            (appendTxns (MemLedger.mkLedger 0 []) (MemLedger.mkMTxn MINT_PUBLIC 1 None None None [])) BatchFeesTracker_init.

Lemma mint_run : batch_run (X:=MemLedger.mtxn) TokenBatch (bn_node start) [mint] 10 0 minted.
Proof.
  change 10%Z with (zsum (po_amount <$> ExFields.outs) + 0)%Z. change 0%Z with (0 + 0)%Z at 2.
  eapply run_cons; [|done| |apply run_nil].
  - apply (step_mint (X:=MemLedger.mtxn) (bn_node start) ExFields.outs); [apply ExRun.outs_ok|apply surjective_pairing|reflexivity].
  - apply (ledger_frame_append (X:=MemLedger.mtxn)).
Qed.

Definition batch (root : string) : ThreePcBatch := mkBatch TOKEN_LEDGER_ID 0 0 1 100 (RootBytes root) "root1" [] [1%Z] "d".
Definition root1 : string := st_headHash (db_state (fn_db minted)).
Definition p1 : pending MemLedger.mtxn := mkPending TokenBatch true (version (X:=MemLedger.mtxn) base0 [mint] 10 0 minted) [].
Definition n1 : node := (token_batch_applied (X:=MemLedger.mtxn) (batch root1) (mkBatchNode minted (bn_token_tracker start))).2.
Definition n2 : node := (fee_post_batch_applied (X:=MemLedger.mtxn) (batch root1) (mkBatchNode (bn_node n1) (bn_token_tracker n1))).2.
Definition n3 : node := (fee_post_batch_rejected (X:=MemLedger.mtxn) 1 n2).2.
Definition n4 : node := (token_batch_commit commit b58decode (batch root1) n3).2.

Lemma commits_p1 : commits (X:=MemLedger.mtxn) (fun s => s) base0 p1 (batch root1).
Proof. split_and!; vm_compute; reflexivity. Qed.

Definition quiet : event := mkEvent false None.
Definition no_txns : pending MemLedger.mtxn :=
  mkPending DomainBatch false (version (X:=MemLedger.mtxn) (p_snap p1) [] 0 0 (bn_node n1)) [].

Lemma apply_p1 : node_step (X:=MemLedger.mtxn) commit (fun s => s) start base0 [] quiet n1 base0 [p1].
Proof.
  apply (step_apply_token commit (fun s => s) start base0 [] (batch root1) [mint] 10 0 minted (Ok tt)); [apply mint_run|done|].
  vm_compute. reflexivity.
Qed.

Lemma apply_no_txns : node_step (X:=MemLedger.mtxn) commit (fun s => s) n1 base0 [p1] quiet n2 base0 [p1; no_txns].
Proof.
  apply (step_apply_domain commit (fun s => s) n1 base0 [p1] (batch root1) [] [] 0 (bn_node n1) (Ok tt));
    [apply domain_nil|constructor|]. vm_compute. reflexivity.
Qed.

Lemma run : node_run (X:=MemLedger.mtxn) commit (fun s => s) start base0 [] [quiet; quiet; quiet; quiet] n4 (p_snap p1) [].
Proof.
  eapply node_run_cons; [apply apply_p1|]. eapply node_run_cons; [apply apply_no_txns|].
  apply (node_run_cons _ _ n2 base0 [p1; no_txns] quiet n3 base0 [p1]).
  { apply (step_reject_domain commit (fun s => s) 1 n2 base0 [p1] no_txns (Ok tt)); [done|]. vm_compute. reflexivity. }
  eapply node_run_cons; [|constructor].
  apply (step_commit_token commit (fun s => s) (batch root1) n3 base0 p1 [] (Ok tt)); [done|apply commits_p1|].
  vm_compute. reflexivity.
Qed.

Lemma unstale_quiet k : unstale (replicate k quiet).
Proof. by apply Forall_replicate. Qed.

Lemma n1_repr : node_repr (X:=MemLedger.mtxn) n1 base0 [p1].
Proof.
  destruct (repr_apply_token (X:=MemLedger.mtxn) start base0 [] (batch root1) [mint] 10 0 minted start_repr mint_run eq_refl)
    as (n & Hn & Hr & _). unfold n1. rewrite Hn. exact Hr.
Qed.

Lemma n4_ok : node_ok (X:=MemLedger.mtxn) n4 (p_snap p1) [].
Proof.
  apply (node_run_refines commit (fun s => s) start base0 [] [quiet; quiet; quiet; quiet] n4 (p_snap p1) [] commit_lawful
           (node_ok_start _ _ start_repr) run (unstale_quiet 4)).
Qed.

End ExChain.

(** On top of the mint, a domain batch of a request without fees and a NYM that pays
    4 of the minted tokens. *)
Module ExFeeBatch.
Import ExChain.
Definition free_request : request := mkRequest (Some "did") (Some 2%Z) (mkOperation "100" None None None) FeesMissing.
Definition attrib : MemLedger.mtxn := MemLedger.mkMTxn "100" 4 (Some 100%Z) (Some 2%Z) None [].
Definition nym : MemLedger.mtxn := ExRequests.prev.
Definition txns : list (MemLedger.mtxn * bool) := [(attrib, false); (nym, true)].
Definition fee : payment := mkPayment FEE_TXN ExFields.ins ExRequests.change.
Definition charged (n : node) : fee_node Mem.state Mem.kv MemLedger.ledger :=
  (apply_request (X:=MemLedger.mtxn) 1 ExRequests.nym nym (bn_node n)).2.

Lemma nym_run (n : node) :
  (exists msg, authorize ExFees.config (db_cache (fn_db (bn_node n))) ExRequests.nym ExFees.nym_rule = Ok (true, msg)) ->
  domain_run (X:=MemLedger.mtxn) (bn_node n) txns [fee] 4 (charged n).
Proof.
  intros [msg Ha]. apply (domain_free 1 free_request attrib (Ok tt) (bn_node n) (bn_node n)); [done..|].
  change 4%Z with (4 + 0)%Z.
  apply (domain_fee 1 ExFees.config ExFees.nym_rule ExRequests.nym nym 4 msg ExFields.ins ExRequests.change ["s"]
           (apply_request (X:=MemLedger.mtxn) 1 ExRequests.nym nym (bn_node n)).1 (bn_node n) (charged n));
    [| |done..|vm_compute; reflexivity|exact Ha|done|apply surjective_pairing|apply domain_nil].
  - split; [by apply (bool_decide_unpack _)|apply ExFields.ins_good].
  - split; [by apply (bool_decide_unpack _)|]. constructor; [|constructor]. split; [done|by apply ExFields.valid].
Qed.

Definition paid (n : node) : pending MemLedger.mtxn :=
  mkPending DomainBatch true (version (X:=MemLedger.mtxn) (p_snap p1) [fee] 0 4 (charged n)) txns.
Definition apply (n : node) : node :=
  (fee_post_batch_applied (X:=MemLedger.mtxn) (batch root1) (mkBatchNode (charged n) (bn_token_tracker n))).2.

(** applied, rejected, applied again, both batches committed *)
Definition f2 : node := apply n1.
Definition f3 : node := (fee_post_batch_rejected (X:=MemLedger.mtxn) 1 f2).2.
Definition f4 : node := apply f3.
Definition f5 : node := (token_batch_commit commit b58decode (batch root1) f4).2.
Definition f6 : node := (fee_commit_batch (X:=MemLedger.mtxn) commit (fun s => s) b58decode (batch root1) txns.*1 f5).2.

Lemma apply_paid (n : node) :
  (exists msg, authorize ExFees.config (db_cache (fn_db (bn_node n))) ExRequests.nym ExFees.nym_rule = Ok (true, msg)) ->
  stale (X:=MemLedger.mtxn) (bn_fees n) txns = false ->
  (fee_post_batch_applied (X:=MemLedger.mtxn) (batch root1) (mkBatchNode (charged n) (bn_token_tracker n))).1 = Ok tt ->
  node_step (X:=MemLedger.mtxn) commit (fun s => s) n base0 [p1] quiet (apply n) base0 [p1; paid n].
Proof.
  intros Ha Hst Hok. unfold quiet. rewrite <- Hst. change None with (failure (Ok tt)). rewrite <- Hok.
  apply (step_apply_domain commit (fun s => s) n base0 [p1] (batch root1) txns [fee] 4 (charged n)).
  - by apply nym_run.
  - repeat constructor.
  - apply surjective_pairing.
Qed.

Lemma fee_run : node_run (X:=MemLedger.mtxn) commit (fun s => s) start base0 [] [quiet; quiet; quiet; quiet] f4 base0 [p1; paid f3].
Proof.
  eapply node_run_cons; [apply apply_p1|].
  eapply node_run_cons; [apply (apply_paid n1); [eexists|..]; vm_compute; reflexivity|].
  apply (node_run_cons _ _ f2 base0 [p1; paid n1] quiet f3 base0 [p1]).
  { apply (step_reject_domain commit (fun s => s) 1 f2 base0 [p1] (paid n1) (Ok tt)); [done|]. vm_compute. reflexivity. }
  eapply node_run_cons; [apply (apply_paid f3); [eexists|..]; vm_compute; reflexivity|]. constructor.
Qed.

Lemma commits_both : batches_for (X:=MemLedger.mtxn) (fun s => s) base0 [p1; paid f3] [batch root1; batch "none"].
Proof. split; [intros _; apply ExChain.commits_p1|]. by split. Qed.

Lemma run_committed :
  node_run (X:=MemLedger.mtxn) commit (fun s => s) f4 base0 [p1; paid f3] [quiet; quiet] f6 (p_snap (paid f3)) [].
Proof.
  apply (node_run_cons _ _ f4 base0 [p1; paid f3] quiet f5 (p_snap p1) [paid f3]).
  { apply (step_commit_token commit (fun s => s) (batch root1) f4 base0 p1 [paid f3] (Ok tt)); [done|apply ExChain.commits_p1|].
    vm_compute. reflexivity. }
  apply (node_run_cons _ _ f5 (p_snap p1) [paid f3] quiet f6 (p_snap (paid f3)) []); [|constructor].
  eapply (step_commit_domain commit (fun s => s) (batch root1) f5 (p_snap p1) (paid f3) [] (Ok _)); [done|].
  vm_compute. reflexivity.
Qed.

(** After the rejection a NYM without fees gets the number of the one that paid. *)
Definition free_nym : request := mkRequest (Some "did") (Some 3%Z) (mkOperation "1" None None None) FeesMissing.
Definition unpaid (n : node) : pending MemLedger.mtxn :=
  mkPending DomainBatch false (version (X:=MemLedger.mtxn) (p_snap p1) [] 0 0 (bn_node n)) [(nym, false)].
Definition g4 : node := (fee_post_batch_applied (X:=MemLedger.mtxn) (batch root1) f3).2.
Definition g5 : node := (token_batch_commit commit b58decode (batch root1) g4).2.
Definition commit_g5 : res (list MemLedger.mtxn) * node :=
  fee_commit_batch (X:=MemLedger.mtxn) commit (fun s => s) b58decode (batch root1) [nym] g5.
End ExFeeBatch.

(** Without the condition on the records the handlers do fail: a NYM pays its fee, its
    batch is rejected, and a NYM without fees is applied under its number; committing
    this batch takes the NYM for one that paid, commits one more transaction of the
    token ledger than the batch has, and raises at the cache, which has no batch left. *)
Lemma stale_record_raises :
  (exists e, ev_failure e <> None /\
    node_run (X:=MemLedger.mtxn) ExChain.commit (fun s => s) ExChain.start ExChain.base0 []
      [ExChain.quiet; ExChain.quiet; ExChain.quiet; mkEvent true None; ExChain.quiet; e]
      ExFeeBatch.commit_g5.2 (p_snap (ExFeeBatch.unpaid ExFeeBatch.f3)) []).
Proof.
  exists (mkEvent false (failure ExFeeBatch.commit_g5.1)). split; [vm_compute; congruence|].
  eapply node_run_cons; [apply ExChain.apply_p1|].
  eapply node_run_cons; [apply (ExFeeBatch.apply_paid ExChain.n1); [eexists|..]; vm_compute; reflexivity|].
  apply (node_run_cons _ _ ExFeeBatch.f2 ExChain.base0 [ExChain.p1; ExFeeBatch.paid ExChain.n1] ExChain.quiet
           ExFeeBatch.f3 ExChain.base0 [ExChain.p1]).
  { apply (step_reject_domain ExChain.commit (fun s => s) 1 ExFeeBatch.f2 ExChain.base0 [ExChain.p1]
             (ExFeeBatch.paid ExChain.n1) (Ok tt)); [done|]. vm_compute. reflexivity. }
  apply (node_run_cons _ _ ExFeeBatch.f3 ExChain.base0 [ExChain.p1] (mkEvent true None) ExFeeBatch.g4 ExChain.base0
           [ExChain.p1; ExFeeBatch.unpaid ExFeeBatch.f3]).
  { assert (stale (bn_fees ExFeeBatch.f3) [(ExFeeBatch.nym, false)] = true) as <- by (vm_compute; reflexivity).
    apply (step_apply_domain ExChain.commit (fun s => s) ExFeeBatch.f3 ExChain.base0 [ExChain.p1]
             (ExChain.batch ExChain.root1) [(ExFeeBatch.nym, false)] [] 0 (bn_node ExFeeBatch.f3) (Ok tt));
      [|repeat constructor|vm_compute; reflexivity].
    apply (domain_free 1 ExFeeBatch.free_nym ExFeeBatch.nym (Ok tt) (bn_node ExFeeBatch.f3) (bn_node ExFeeBatch.f3));
      [done..|apply domain_nil]. }
  apply (node_run_cons _ _ ExFeeBatch.g4 ExChain.base0 [ExChain.p1; ExFeeBatch.unpaid ExFeeBatch.f3] ExChain.quiet
           ExFeeBatch.g5 (p_snap ExChain.p1) [ExFeeBatch.unpaid ExFeeBatch.f3]).
  { apply (step_commit_token ExChain.commit (fun s => s) (ExChain.batch ExChain.root1) ExFeeBatch.g4 ExChain.base0 ExChain.p1
             [ExFeeBatch.unpaid ExFeeBatch.f3] (Ok tt)); [done|apply ExChain.commits_p1|]. vm_compute. reflexivity. }
  eapply node_run_cons; [|constructor].
  apply (step_commit_domain ExChain.commit (fun s => s) (ExChain.batch ExChain.root1) ExFeeBatch.g5 (p_snap ExChain.p1)
           (ExFeeBatch.unpaid ExFeeBatch.f3) [] ExFeeBatch.commit_g5.1); [done|]. apply surjective_pairing.
Qed.

(** ** Witnesses *)

(** From the mint with both batches pending to the node that has committed them. *)
Lemma node_refines_chain_witness :
  let last := p_snap (ExFeeBatch.paid ExFeeBatch.f3) in
  Forall (fun e => ev_failure e = None) [ExChain.quiet; ExChain.quiet; ExChain.quiet; ExChain.quiet; ExChain.quiet; ExChain.quiet] /\
  node_ok (X:=MemLedger.mtxn) ExFeeBatch.f6 last [] /\
  db_repr false (mkDb (bn_state ExFeeBatch.f6) (bn_cache ExFeeBatch.f6)) (s_utxos last) /\
  cache_repr (bn_cache ExFeeBatch.f6) true (s_utxos last) /\
  (forall a q, nonempty (st_get (bn_state ExFeeBatch.f6) true (create_state_key a q)) =
     py_str <$> u_amount (s_utxos last) (mkInput a q)) /\
  (forall s, s ∈ [last] -> supply (s_utxos s) = (s_minted s - s_fees s)%Z) /\
  tr_view (bn_token_tracker ExFeeBatch.f6) = [entry last] /\
  uncommitted_size (X:=MemLedger.mtxn) (bn_ledger ExFeeBatch.f6) = Z.of_nat (s_size last) /\
  (forall x paid, (x, paid) ∈ ([] : list (MemLedger.mtxn * bool)) ->
     has_deducted_fees (bn_fees ExFeeBatch.f6) (get_type x) (get_seq_no x) = paid).
Proof.
  apply (node_refines_chain (X:=MemLedger.mtxn) ExChain.commit (fun s => s) ExChain.start ExChain.base0 []
           _ ExFeeBatch.f6 (p_snap (ExFeeBatch.paid ExFeeBatch.f3)) [] ExChain.commit_lawful
           (node_ok_start _ _ ExChain.start_repr) (node_run_app _ _ _ _ _ _ _ _ _ _ _ _ _ ExFeeBatch.fee_run ExFeeBatch.run_committed)
           (ExChain.unstale_quiet 6)).
Defined.

(** A mint and a domain batch with a fee are pending. *)
Lemma pending_batches_commit_witness :
  let last := p_snap (ExFeeBatch.paid ExFeeBatch.f3) in
  exists n', commit_all (X:=MemLedger.mtxn) ExChain.commit (fun s => s)
      (zip [ExChain.p1; ExFeeBatch.paid ExFeeBatch.f3] [ExChain.batch ExChain.root1; ExChain.batch "none"]) ExFeeBatch.f4 = (Ok tt, n') /\
    kv_views (bn_cache n') = [] /\ cache_repr (bn_cache n') true (s_utxos last) /\
    db_repr false (mkDb (bn_state n') (bn_cache n')) (s_utxos last) /\
    st_committedHeadHash (bn_state n') = st_headHash (bn_state n').
Proof.
  apply (pending_batches_commit (X:=MemLedger.mtxn) ExChain.commit (fun s => s) ExChain.start ExChain.base0
           [ExChain.quiet; ExChain.quiet; ExChain.quiet; ExChain.quiet] ExFeeBatch.f4 ExChain.base0
           [ExChain.p1; ExFeeBatch.paid ExFeeBatch.f3] [ExChain.batch ExChain.root1; ExChain.batch "none"]
           ExChain.commit_lawful ExChain.start_repr ExFeeBatch.fee_run (ExChain.unstale_quiet 4) ExFeeBatch.commits_both).
Defined.
