(* ===== verification/ChainCatchup.v ===== *)
(** * Catching up with a node that has batches

    Catch-up (Catchup) composed with the life of batches (NodeBatches): the
    transactions that the committed batches left on the ledger, replayed into
    empty stores, give the committed outputs of the node that ran the batches. *)

From S2P Require Import Prelude Exceptions PyStr TokenTypes Stores UtxoAmounts UtxoCache TokenUtils.
From S2P Require Import TokenHandlers Json GetUtxo FeesState FeesAuthorizer Ledger DomainFees Payments Frames.
From S2P Require Import BatchHandlers Authn Validation TokenLedger StateKeys Catchup NodeBatches NodeRuns.

Open Scope stdpp_scope.

(** Payments that are possible one after the other are replayed without error. *)
Lemma catchup_replays {T K} `{StateStoreLaws T} `{KVStoreLaws K} v100 (d : token_db T K) m n ps :
  db_repr true d m -> outputs_inv m n -> payments_ok m (n + 1) ps ->
  exists d', catchup v100 (txns_from (n + 1) ps) d = (Ok tt, d') /\ db_repr true d' (u_pay_all m (n + 1) ps).
Proof.
  revert d m n. induction ps as [|p ps IH]; intros d m n Hr Hinv; [by exists d|].
  intros (Hok & Hty & Hps). cbn [txns_from u_pay_all].
  destruct (catchup_update_repr v100 d m n p Hr (proj2 (proj2 Hinv)) Hok Hty) as (d1 & Hrun & Hr1).
  destruct (IH d1 (u_pay m (n + 1) p) (n + 1)%Z Hr1) as (d' & Hrun' & Hr'); [by apply outputs_inv_pay|done|].
  exists d'. split; [|done]. unfold catchup in *. cbn [for_each]. by rewrite (bind_Ok _ _ _ _ _ Hrun).
Qed.

Section Property.
Context {T K L X R : Type} `{StateStoreLaws T} `{!StateHistoryLaws T} `{KVStoreLaws K} `{!KVViewLaws K}.
Context `{LedgerLaws L X} `{!LedgerHistoryLaws L X} `{TrackerLaws R} `{Serializer} `{Base58}.

(** C9: catching up is as good as having been there: take a node after any batches
    of the token and the domain ledger, applied, rejected and committed, some
    perhaps pending.  As many transactions are committed on its ledger as its
    committed history has payments; replaying them, mints, transfers of both
    versions and fees, into empty stores raises nothing; and the stores then
    answer as the committed ones of the node: the same unspent outputs of every
    address in the same order, the same sums of inputs, the same values in the
    state. *)
Theorem chain_catchup v100 (n : batch_node T K L R) base pend (d0 : token_db T K) :
  node_repr (X:=X) n base pend -> db_repr true d0 ∅ ->
  lg_committed (X:=X) (bn_ledger n) = length (s_payments base) /\
  exists d, catchup v100 (txns_from 1 (s_payments base)) d0 = (Ok tt, d) /\
    (forall a, get_unspent_outputs (db_cache d) a true = get_unspent_outputs (bn_cache n) a true) /\
    (forall ins v, sum_inputs (db_cache d) ins true = Ok v <-> sum_inputs (bn_cache n) ins true = Ok v) /\
    (forall a s, nonempty (st_get (db_state d) false (create_state_key a s)) =
                 nonempty (st_get (bn_state n) true (create_state_key a s))).
Proof.
  intros Hr Hd0. destruct (snap_ok_base _ _ _ Hr) as (_ & _ & Hat & _ & (Hps & Hu & Hlen & _) & _).
  destruct (node_repr_db _ _ _ Hr) as [_ Hk]. split; [by rewrite (nr_lcommitted _ _ _ Hr)|].
  destruct (catchup_replays v100 d0 ∅ 0 (s_payments base) Hd0 (outputs_inv_empty 0) Hps) as (d & Hrun & Hk' & Hs' & _).
  change (0 + 1)%Z with 1%Z in Hrun, Hk', Hs'. rewrite <- Hu in Hk', Hs'. exists d. split_and!; [done|..].
  - intros a. by rewrite (get_unspent_outputs_repr _ _ _ _ Hk), (get_unspent_outputs_repr _ _ _ _ Hk').
  - intros ins v. split; intros Hv.
    + destruct (sum_inputs_Ok _ _ _ _ _ Hk' Hv) as [Hall ->]. by apply sum_inputs_repr.
    + destruct (sum_inputs_Ok _ _ _ _ _ Hk Hv) as [Hall ->]. by apply sum_inputs_repr.
  - intros a s. rewrite Hs', st_get_committed, (nr_chead _ _ _ Hr). by rewrite Hat.
Qed.
End Property.

(** ** Witness: the node of [ExChain], its mint committed *)

Lemma chain_catchup_witness :
  lg_committed (X:=MemLedger.mtxn) (bn_ledger ExChain.n4) = 1%nat /\
  exists d, catchup (fun _ => true) (txns_from 1 [ExChain.mint]) TokenHandlers.Ex.empty = (Ok tt, d) /\
    (forall a, get_unspent_outputs (db_cache d) a true = get_unspent_outputs (bn_cache ExChain.n4) a true) /\
    (forall ins v, sum_inputs (db_cache d) ins true = Ok v <-> sum_inputs (bn_cache ExChain.n4) ins true = Ok v) /\
    (forall a s, nonempty (st_get (db_state d) false (create_state_key a s)) =
                 nonempty (st_get (bn_state ExChain.n4) true (create_state_key a s))).
Proof.
  apply (chain_catchup (X:=MemLedger.mtxn) (fun _ => true) ExChain.n4 (p_snap ExChain.p1) [] TokenHandlers.Ex.empty).
  - apply (ok_repr _ _ _ ExChain.n4_ok).
  - apply (TokenHandlers.Ex.empty_repr true).
Defined.
