(* ===== verification/QueryUtxo.v ===== *)
(** * What a client learns from GET_UTXO

    The read handler of GetUtxo on a node of NodeBatches: the query of the
    committed state, the sorting, the pages, and the client that follows them.
    Theorems: the client gets the committed unspent outputs of the address, all
    of them, each once, by increasing number, however many batches are pending;
    these are the outputs that the committed history created and did not spend; and
    nodes with the same committed history give the same answers.

    The query itself is plenum's: [prefix_law] says that it finds the entries of
    the committed state whose key starts with the text given, here the address
    (without the delimiter that the keys have after it). *)

From stdpp Require Import sorting.
From S2P Require Import Prelude Exceptions PyStr TokenTypes Stores UtxoAmounts UtxoCache TokenUtils.
From S2P Require Import TokenHandlers SortedItems Json GetUtxo FeesState FeesAuthorizer Ledger DomainFees Payments.
From S2P Require Import BatchHandlers Authn Validation TokenLedger StateKeys NodeBatches NodeRuns.

Open Scope stdpp_scope.

(** ** Prefixes *)

Definition is_prefix (a key : string) : Prop := exists rest, key = a +:+ rest.

(** An address is a prefix of another output's key only when it is a prefix of the
    output's address. *)
Lemma prefix_state_key a b s : has_char ":" a = false -> is_prefix a (create_state_key b s) -> is_prefix a b.
Proof.
  rewrite create_state_key_eq. intros Ha [rest Hk]. revert b Hk.
  induction a as [|c a IH]; intros b Hk; [by exists b|]. simpl in Ha. apply orb_false_iff in Ha as [Hc Ha].
  apply bool_decide_eq_false in Hc. destruct b as [|c' b]; rewrite ?sapp_cons in Hk.
  - change ("" +:+ ?x) with x in Hk. congruence.
  - injection Hk as -> Hk. destruct (IH Ha b Hk) as [rest' ->]. exists rest'. by rewrite sapp_cons.
Qed.

Lemma prefix_own_key a s : is_prefix a (create_state_key a s).
Proof. rewrite create_state_key_eq. by eexists. Qed.

(** ** The query of the state *)

Section Query.
Context {T S P : Type} `{StateStore T} `{Base58Laws}.
Context (proof_for_prefix : T -> json -> res (P * list (string * string))).
Context (rlp_decode : string -> res (list string)).

Definition prefix_law : Prop :=
  forall t a, exists p rv, proof_for_prefix t (JStr a) = Ok (p, rv) /\ NoDup rv.*1 /\
    (forall key, key ∈ rv.*1 <-> is_prefix a key /\ is_Some (st_get t true key)) /\
    (forall key v, (key, v) ∈ rv ->
       exists w rest, st_get t true key = Some w /\ rlp_decode v = Ok (w :: rest)).

(** The unspent outputs of [a] in [m]. *)
Definition unspent (m : utxos) (a : string) : list Output :=
  (fun p => mkOutput a p.1 (Some p.2)) <$> u_list m a.

Lemma elem_of_unspent m a o :
  u_wf m -> o ∈ unspent m a <-> exists s n, o = mkOutput a s (Some n) /\ u_amount m (mkInput a s) = Some n.
Proof.
  intros Hwf. unfold unspent, u_amount. rewrite list_elem_of_fmap. simpl. split.
  - intros ([s n] & -> & Hin). exists s, n. split; [done|]. by apply alookup_NoDup.
  - intros (s & n & -> & Hin). exists (s, n). split; [done|]. by apply alookup_elem.
Qed.

Lemma NoDup_unspent m a : u_wf m -> NoDup (unspent m a).
Proof.
  intros Hwf. specialize (Hwf a). unfold unspent. apply (NoDup_fmap_1 out_seqNo).
  rewrite <- list_fmap_compose. exact Hwf.
Qed.

Lemma valid_address_no_colon a : valid_address a -> has_char ":" a = false.
Proof.
  intros (vk & Hvk & _). unfold decode_address_to_vk_bytes in Hvk.
  destruct (b58decode_check a) as [x|e] eqn:Hx; [by eapply b58decode_check_alphabet|].
  simpl in Hvk. by destruct (is_ValueError e).
Qed.

(** The entries of the state as the outputs they stand for. *)
Lemma entries_show t m rv :
  (forall a s, nonempty (st_get t true (create_state_key a s)) = py_str <$> u_amount m (mkInput a s)) ->
  output_keys (st_get t true) -> NoDup rv.*1 ->
  (forall key v, (key, v) ∈ rv -> exists w rest, st_get t true key = Some w /\ rlp_decode v = Ok (w :: rest)) ->
  exists l, rv_shows rlp_decode rv l /\ NoDup l /\
    forall o, o ∈ l <-> exists a s n, o = mkOutput a s (Some n) /\ create_state_key a s ∈ rv.*1 /\
                                    u_amount m (mkInput a s) = Some n.
Proof.
  intros Ht Hkeys. induction rv as [|[key v] rv IH]; intros Hnd Hdec.
  { exists []. split_and!; [constructor|constructor|]. intros o. split; [by intros ?%elem_of_nil|].
    by intros (a & s & n & _ & ?%elem_of_nil & _). }
  apply NoDup_cons in Hnd as [Hn Hnd].
  destruct IH as (l & Hrv & Hl & Hel); [done|intros; apply Hdec; by right|].
  destruct (Hdec key v) as (w & rest & Hw & Hv); [by left|].
  destruct (Hkeys key) as (a & s & -> & Ha & _); [by eexists|].
  specialize (Ht a s). rewrite Hw in Ht. apply valid_address_no_colon in Ha.
  destruct (u_amount m (mkInput a s)) as [n|] eqn:Hu; simpl in Ht.
  - assert (w = py_str n) as -> by (by destruct w; simplify_eq/=).
    exists (mkOutput a s (Some n) :: l). split_and!; [by eapply rv_live| |].
    + constructor; [|done]. rewrite Hel. intros (a' & s' & n' & [= <- <- <-] & Hin & _). done.
    + intros o. rewrite elem_of_cons, Hel. csimpl. setoid_rewrite elem_of_cons. split.
      * intros [->|(a' & s' & n' & -> & ? & ?)]; [by exists a, s, n; auto|by exists a', s', n'; auto].
      * intros (a' & s' & n' & -> & [[-> ->]%create_state_key_inj|Hin] & Hu'); [left; congruence|].
        right. by exists a', s', n'.
  - assert (w = "") as -> by (by destruct w).
    exists l. split_and!; [by eapply rv_spent|done|]. intros o. rewrite Hel. csimpl. setoid_rewrite elem_of_cons. split.
    + intros (a' & s' & n' & -> & ? & ?). by exists a', s', n'; auto.
    + intros (a' & s' & n' & -> & [[-> ->]%create_state_key_inj|Hin] & Hu'); [congruence|]. by exists a', s', n'.
Qed.

(** No other address that holds outputs starts with [a]. *)
Definition prefix_free (m : utxos) (a : string) : Prop :=
  forall b, is_prefix a b -> u_list m b <> [] -> b = a.

(** What the query finds for an address are its unspent outputs. *)
Lemma query_shows t m a :
  prefix_law ->
  (forall a s, nonempty (st_get t true (create_state_key a s)) = py_str <$> u_amount m (mkInput a s)) ->
  output_keys (st_get t true) -> u_wf m -> valid_address a -> prefix_free m a ->
  exists p rv l, proof_for_prefix t (JStr a) = Ok (p, rv) /\ rv_shows rlp_decode rv l /\ l ≡ₚ unspent m a.
Proof.
  intros Hlaw Ht Hkeys Hwf Ha Hfree. destruct (Hlaw t a) as (p & rv & Hq & Hnd & Hin & Hdec).
  destruct (entries_show t m rv) as (l & Hrv & Hl & Hel); [done..|].
  exists p, rv, l. split_and!; [done..|]. apply NoDup_Permutation; [done|by apply NoDup_unspent|].
  intros o. rewrite Hel, elem_of_unspent by done. split.
  - intros (b & s & n & -> & Hb & Hu). apply Hin in Hb as [Hb _].
    apply prefix_state_key in Hb; [|by apply valid_address_no_colon].
    assert (b = a) as ->; [|by eauto]. apply Hfree; [done|]. intros Hnil. unfold u_amount in Hu.
    simpl in Hu. by rewrite Hnil in Hu.
  - intros (s & n & -> & Hu). exists a, s, n. split_and!; [done| |done]. apply Hin. split; [apply prefix_own_key|].
    specialize (Ht a s). rewrite Hu in Ht. destruct (st_get t true _); [by eexists|done].
Qed.
End Query.

(** ** The client *)

Section Client.
Context {P : Type} (answer : raw_request -> res (list (string * result_value P))).
Context (idr : option string) (rid : option Z) (a : string).

Definition utxo_query (from_seqno : json) : raw_request :=
  mkRawRequest idr rid
    ([(TXN_TYPE, JStr GET_UTXO); (ADDRESS, JStr a)] ++
     match from_seqno with JNull => [] | _ => [(FROM_SEQNO, from_seqno)] end).

(** Ask again from [next] until a reply has none. *)
Fixpoint follow (fuel : nat) (from_seqno : json) : option (res (list Output)) :=
  match fuel with
  | O => None
  | S fuel =>
      match answer (utxo_query from_seqno) with
      | Raise e => Some (Raise e)
      | Ok result =>
          match alookup OUTPUTS result, alookup NEXT_SEQNO result with
          | Some (ROutputs got), Some (RSeqNo n) =>
              match follow fuel (JInt n) with
              | Some (Ok rest) => Some (Ok (got ++ rest))
              | r => r
              end
          | Some (ROutputs got), None => Some (Ok got)
          | _, _ => Some (Raise (KeyError OUTPUTS))
          end
      end
  end.
End Client.

Lemma page_next l got n : page l = (got, Some n) -> exists o, o ∈ l /\ out_seqNo o = n.
Proof.
  destruct (page_split l) as [->|(o & l2 & -> & Hl & _)]; [done|]. intros [= <- <-].
  exists o. split; [|done]. rewrite Hl, elem_of_app, elem_of_cons. auto.
Qed.

Lemma select_page_next v l got n : select_page v l = Ok (got, Some n) -> exists o, o ∈ l /\ out_seqNo o = n.
Proof.
  intros Hs. assert (exists l', page l' = (got, Some n) /\ forall o, o ∈ l' -> o ∈ l) as (l' & Hp & Hin).
  { unfold select_page in Hs. destruct (json_truthy v).
    - destruct (find_from v l 0) as [[[|i]|]|e]; cbn [res_bind] in Hs; try done.
      exists (drop (S i) l). split; [|intros o Ho; by apply (subseteq_drop (S i) l)].
      unfold page. destruct (_ <? _)%nat; congruence.
    - exists l. split; [|done]. cbn [res_bind] in Hs. unfold page. destruct (_ <? _)%nat; congruence. }
  destruct (page_next _ _ _ Hp) as (o & Ho & Hn). exists o. auto.
Qed.

Lemma sorted_lt (l : list Output) :
  StronglySorted seqNo_le l -> NoDup (out_seqNo <$> l) -> StronglySorted seqNo_lt l.
Proof.
  induction 1 as [|o l _ IH Ho]; csimpl; [constructor|]. intros [Hn Hnd]%NoDup_cons.
  constructor; [by apply IH|]. rewrite Forall_forall in *. intros o' Ho'. specialize (Ho o' Ho').
  unfold seqNo_le, seqNo_lt in *. assert (out_seqNo o <> out_seqNo o'); [|lia].
  intros Heq. apply Hn. rewrite Heq. by apply list_elem_of_fmap_2.
Qed.

Lemma sorted_lt_unique l l' : l ≡ₚ l' -> StronglySorted seqNo_lt l -> StronglySorted seqNo_lt l' -> l = l'.
Proof.
  intros Hp Hl Hl'. assert (AntiSymm eq seqNo_lt) by (intros x y; unfold seqNo_lt; lia).
  by apply (StronglySorted_unique seqNo_lt).
Qed.

Section Complete.
Context {T S P : Type} (proof_for_prefix : T -> json -> res (P * list (string * string))).
Context (rlp_decode : string -> res (list string)) (root_of : T -> string).
Context (bls_get : string -> option S) (proof_dict : S -> string -> P -> P).
Context (dumps_len : list (string * result_value P) -> Z) (msg_limit : Z).

Definition answer (state : T) : raw_request -> res (list (string * result_value P)) :=
  get_result proof_for_prefix rlp_decode root_of bls_get proof_dict dumps_len msg_limit state.

(** Over the replies, the client does what [fetch_all] does over the sorted outputs. *)
Lemma follow_fetch state a p rv l idr rid :
  proof_for_prefix state (JStr a) = Ok (p, rv) -> rv_shows rlp_decode rv l ->
  Forall (fun o => 0 < out_seqNo o)%Z l ->
  exists utxos, utxos ≡ₚ l /\ StronglySorted seqNo_le utxos /\
    forall fuel from_seqno, from_seqno = JNull \/ (exists n, from_seqno = JInt n) ->
      follow (answer state) idr rid a fuel from_seqno = fetch_all fuel from_seqno utxos.
Proof.
  intros Hp Hrv Hpos.
  destruct (get_result_core proof_for_prefix rlp_decode root_of bls_get proof_dict dumps_len msg_limit
              state (JStr a) p rv l Hp Hrv) as (utxos & Hperm & Hsort & Hreply).
  exists utxos. split_and!; [done..|]. induction fuel as [|fuel IH]; intros v Hv; [done|]. cbn [follow fetch_all].
  specialize (Hreply (utxo_query idr rid a v)). cbv zeta in Hreply.
  assert (get_default_none FROM_SEQNO (raw_operation (utxo_query idr rid a v)) = v) as Hfrom
    by (destruct Hv as [-> | [n ->]]; reflexivity).
  rewrite Hfrom in Hreply. clear Hfrom. fold (answer state) in Hreply.
  destruct (select_page v utxos) as [[got next]|e] eqn:Hs.
  - destruct Hreply as (result & -> & Hout & _ & Hnext & _);
      [reflexivity|by destruct Hv as [-> | [n ->]]; apply (bool_decide_unpack _)..|].
    rewrite Hout, Hnext. destruct next as [n|]; [|done].
    destruct (select_page_next _ _ _ _ Hs) as (o & Ho & <-).
    rewrite Forall_forall in Hpos. rewrite Hperm in Ho. specialize (Hpos o Ho).
    rewrite (proj2 (Z.eqb_neq _ _)) by lia. rewrite IH by eauto.
    by destruct (fetch_all fuel _ utxos) as [[]|].
  - rewrite Hreply; [done|reflexivity|by destruct Hv as [-> | [n ->]]; apply (bool_decide_unpack _)..].
Qed.
End Complete.

(** ** Property *)

Section Property.
Context {T K L X R S P : Type} `{StateStoreLaws T} `{!StateHistoryLaws T} `{KVStoreLaws K} `{!KVViewLaws K}.
Context `{LedgerLaws L X} `{!LedgerHistoryLaws L X} `{TrackerLaws R} `{Serializer} `{Base58Laws}.
Context (proof_for_prefix : T -> json -> res (P * list (string * string))).
Context (rlp_decode : string -> res (list string)) (root_of : T -> string).
Context (bls_get : string -> option S) (proof_dict : S -> string -> P -> P).
Context (dumps_len : list (string * result_value P) -> Z) (msg_limit : Z).

(** A client that asks for the unspent outputs of an address and follows the
    pages gets exactly those that the committed cache holds, once each and by
    increasing number, after finitely many requests: on every node that agrees
    with its chain, whatever batches are pending, for every valid address that
    no other holder's address starts with. *)
Lemma query_core (n : batch_node T K L R) base pend a idr rid :
  node_repr (X:=X) n base pend -> prefix_law proof_for_prefix rlp_decode ->
  valid_address a -> prefix_free (s_utxos base) a ->
  exists outs utxos,
    get_unspent_outputs (bn_cache n) a true = Ok outs /\
    follow (answer proof_for_prefix rlp_decode root_of bls_get proof_dict dumps_len msg_limit (bn_state n))
      idr rid a (Datatypes.S (length outs)) JNull = Some (Ok utxos) /\
    utxos ≡ₚ outs /\ StronglySorted seqNo_lt utxos.
Proof.
  intros Hr Hlaw Ha Hfree. destruct (snap_ok_base _ _ _ Hr) as ((Hwf & _ & _) & _ & Hat & Hkeys & _).
  destruct (node_repr_db _ _ _ Hr) as [_ Hcache].
  assert (forall key, st_get (bn_state n) true key = st_at (bn_state n) (s_root base) key) as Hget
    by (intros key; by rewrite st_get_committed, (nr_chead _ _ _ Hr)).
  assert (output_keys (st_get (bn_state n) true)) as Hkeys' by (by eapply output_keys_ext).
  assert (forall b s, nonempty (st_get (bn_state n) true (create_state_key b s)) =
    py_str <$> u_amount (s_utxos base) (mkInput b s)) as Hst by (intros b s; by rewrite Hget).
  destruct (query_shows proof_for_prefix rlp_decode (bn_state n) (s_utxos base) a) as (p & rv & l & Hq & Hrv & Hl);
    [done..|].
  assert (Forall (fun o => 0 < out_seqNo o)%Z l) as Hpos.
  { apply Forall_forall. intros o Ho. rewrite Hl in Ho. apply elem_of_unspent in Ho as (s & v & -> & Hu); [|done].
    simpl. destruct (Hkeys' (create_state_key a s)) as (b & s' & [_ ->]%create_state_key_inj & _ & ?); [|done].
    specialize (Hst a s). rewrite Hu in Hst. destruct (st_get (bn_state n) true _); [by eexists|done]. }
  destruct (follow_fetch proof_for_prefix rlp_decode root_of bls_get proof_dict dumps_len msg_limit
              (bn_state n) a p rv l idr rid Hq Hrv Hpos) as (utxos & Hperm & Hsort & Hfollow).
  exists (unspent (s_utxos base) a), utxos. split; [by apply get_unspent_outputs_repr|].
  assert (utxos ≡ₚ unspent (s_utxos base) a) as Hpu by (by rewrite Hperm).
  assert (StronglySorted seqNo_lt utxos) as Hlt.
  { apply sorted_lt; [done|]. rewrite Hpu. unfold unspent. rewrite <- list_fmap_compose. apply Hwf. }
  split_and!; [|done..]. rewrite Hfollow by (by left). rewrite <- Hpu. apply pagination_core; [done|].
  rewrite Hperm. eapply Forall_impl; [exact Hpos|]. simpl. intros; lia.
Qed.

(** The unspent outputs of [a] after a history of payments, the first of them with the
    number 1: one of them created the output and no later one spends it. *)
Definition unspent_in_history (ps : list payment) (a : string) (o : Output) : Prop :=
  exists k p v, ps !! k = Some p /\ o = mkOutput a (1 + Z.of_nat k) (Some v) /\ mkPOutput a v ∈ pay_outputs p /\
    Forall (fun q => mkInput a (1 + Z.of_nat k) ∉ pay_inputs q) (drop (Datatypes.S k) ps).

(** C12: what a client learns from GET_UTXO is the history of the ledger: a client
    that asks for an address and follows the pages gets, after finitely many
    requests, once each and by increasing number, the outputs which some committed
    mint, transfer or fee transaction created for this address under its own number
    and no later committed transaction spent; the same as the committed cache
    holds.  On every node that agrees with its chain, whatever batches are pending,
    for every valid address that no other holder's address starts with. *)
Theorem query_shows_history (n : batch_node T K L R) base pend a idr rid :
  node_repr (X:=X) n base pend -> prefix_law proof_for_prefix rlp_decode ->
  valid_address a -> prefix_free (s_utxos base) a ->
  exists outs utxos,
    get_unspent_outputs (bn_cache n) a true = Ok outs /\
    follow (answer proof_for_prefix rlp_decode root_of bls_get proof_dict dumps_len msg_limit (bn_state n))
      idr rid a (Datatypes.S (length outs)) JNull = Some (Ok utxos) /\
    utxos ≡ₚ outs /\ StronglySorted seqNo_lt utxos /\
    length (s_payments base) = lg_committed (X:=X) (bn_ledger n) /\
    forall o, o ∈ utxos <-> unspent_in_history (s_payments base) a o.
Proof.
  intros Hr Hlaw Ha Hfree. destruct (query_core n base pend a idr rid Hr Hlaw Ha Hfree) as (outs & utxos & Ho & Hf & Hp & Hs).
  exists outs, utxos. destruct (snap_ok_base _ _ _ Hr) as ((Hwf & _) & _ & _ & _ & (Hps & Hu & Hlen & _) & _).
  destruct (node_repr_db _ _ _ Hr) as [_ Hcache].
  split_and!; [done..|by rewrite (nr_lcommitted _ _ _ Hr)|].
  rewrite (get_unspent_outputs_repr _ _ _ _ Hcache) in Ho. injection Ho as <-. intros o. rewrite Hp.
  change (o ∈ unspent (s_utxos base) a <-> unspent_in_history (s_payments base) a o).
  rewrite elem_of_unspent by done. rewrite Hu.
  pose proof (fun s v => u_pay_all_history ∅ 0 (s_payments base) (mkInput a s) v (outputs_inv_empty 0) Hps) as Hh.
  split.
  - intros (s & v & -> & Hv). apply Hh in Hv as [[Hv _]|(k & p & Hk & Hsk & Hin & Hall)]; [done|].
    simpl in *. subst. by exists k, p, v.
  - intros (k & p & v & Hk & -> & Hin & Hall). exists (1 + Z.of_nat k)%Z, v. split; [done|]. apply Hh. right. by exists k, p.
Qed.

(** C13: the nodes of a pool answer alike: two nodes whose committed histories have
    the same payments, whatever each has pending and however its batches were cut,
    give a client that follows the pages the same list, in the same order, after
    the same number of requests. *)
Theorem replicas_answer_alike (n1 n2 : batch_node T K L R) base1 base2 pend1 pend2 a idr1 rid1 idr2 rid2 :
  node_repr (X:=X) n1 base1 pend1 -> node_repr (X:=X) n2 base2 pend2 ->
  s_payments base1 = s_payments base2 -> prefix_law proof_for_prefix rlp_decode ->
  valid_address a -> prefix_free (s_utxos base1) a ->
  let client n idr rid fuel :=
    follow (answer proof_for_prefix rlp_decode root_of bls_get proof_dict dumps_len msg_limit (bn_state n))
      idr rid a fuel JNull in
  exists fuel utxos, client n1 idr1 rid1 fuel = Some (Ok utxos) /\ client n2 idr2 rid2 fuel = Some (Ok utxos).
Proof.
  intros Hn1 Hn2 Hps Hlaw Ha Hfree client.
  destruct (snap_ok_base _ _ _ Hn1) as (_ & _ & _ & _ & (_ & Hu1 & _) & _).
  destruct (snap_ok_base _ _ _ Hn2) as (_ & _ & _ & _ & (_ & Hu2 & _) & _).
  assert (s_utxos base2 = s_utxos base1) as Hu by (by rewrite Hu1, Hu2, Hps).
  destruct (query_core n1 base1 pend1 a idr1 rid1) as (outs1 & l1 & Ho1 & Hf1 & Hp1 & Hs1); [done..|].
  destruct (query_core n2 base2 pend2 a idr2 rid2) as (outs2 & l2 & Ho2 & Hf2 & Hp2 & Hs2); [by rewrite ?Hu..|].
  rewrite (get_unspent_outputs_repr _ _ _ _ (proj2 (node_repr_db _ _ _ Hn1))) in Ho1.
  rewrite (get_unspent_outputs_repr _ _ _ _ (proj2 (node_repr_db _ _ _ Hn2))), Hu, Ho1 in Ho2. injection Ho2 as <-.
  exists (Datatypes.S (length outs1)), l1. split; [exact Hf1|].
  rewrite (sorted_lt_unique l1 l2); [exact Hf2| |done..]. by rewrite Hp1, Hp2.
Qed.
End Property.

(** ** Witness

    The node of [ExChain] whose mint is committed; the query filters the entries
    of the committed trie. *)

Module ExQuery.
Definition query (t : Mem.state) (address : json) : res (unit * list (string * string)) :=
  match address with
  | JStr a => Ok (tt, filter (fun kv => String.prefix a kv.1 = true) (map_to_list (Mem.chead t)))
  | _ => Raise (TypeError (Msg "expected a str" []))
  end.

Definition decode (v : string) : res (list string) := Ok [v].

Lemma prefix_is a key : String.prefix a key = true <-> is_prefix a key.
Proof.
  revert key. induction a as [|c a IH]; intros key.
  - split; [intros _; by exists key|]. by destruct key.
  - destruct key as [|c' key]; simpl.
    + split; [done|]. intros [rest ?]. done.
    + destruct (Ascii.ascii_dec c c') as [->|Hne].
      * rewrite IH. split; intros [rest Hk]; exists rest; [by rewrite sapp_cons, Hk|].
        rewrite sapp_cons in Hk. congruence.
      * split; [done|]. intros [rest Hk]. rewrite sapp_cons in Hk. congruence.
Qed.

Lemma lawful : prefix_law query decode.
Proof.
  intros t a. eexists _, _. split; [reflexivity|]. split_and!.
  - refine (sublist_NoDup _ _ (NoDup_fst_map_to_list (Mem.chead t)) _). apply fmap_sublist, sublist_filter.
  - intros key. rewrite list_elem_of_fmap. split.
    + intros ([k v] & -> & [Hp%prefix_is Hin%elem_of_map_to_list]%list_elem_of_filter). split; [done|by exists v].
    + intros [Hp%prefix_is [v Hv]]. exists (key, v). split; [done|]. apply list_elem_of_filter.
      split; [done|]. by apply elem_of_map_to_list.
  - intros key v [_ Hin%elem_of_map_to_list]%list_elem_of_filter. by exists v, [].
Qed.

Definition b : string := ExFields.addr "b".

Lemma free : prefix_free (s_utxos (p_snap ExChain.p1)) b.
Proof.
  intros b' Hb Hne. unfold u_list in Hne. destruct (s_utxos (p_snap ExChain.p1) !! b') as [l|] eqn:E; [|done].
  apply elem_of_map_to_list in E. vm_compute in E. apply prefix_is in Hb.
  repeat (apply elem_of_cons in E as [E|E]; [injection E as -> _; vm_compute in Hb |- *; congruence|]).
  by apply elem_of_nil in E.
Qed.

(** The node of [ExChain] that has rejected its domain batch and committed the mint. *)
Lemma n4_repr : node_repr (X:=MemLedger.mtxn) ExChain.n4 (p_snap ExChain.p1) [].
Proof. apply (ok_repr _ _ _ ExChain.n4_ok). Qed.

(** Another node, which commits the mint while its domain batch is pending. *)
Definition n5 : ExChain.node :=
  (token_batch_commit ExChain.commit b58decode (ExChain.batch ExChain.root1) ExChain.n2).2.

Lemma n5_repr : node_repr (X:=MemLedger.mtxn) n5 (p_snap ExChain.p1) [ExChain.no_txns].
Proof.
  apply (node_run_refines ExChain.commit (fun s => s) ExChain.start ExChain.base0 []
           [ExChain.quiet; ExChain.quiet; ExChain.quiet] n5 _ _ ExChain.commit_lawful (node_ok_start _ _ ExChain.start_repr));
    [|apply (ExChain.unstale_quiet 3)].
  eapply node_run_cons; [apply ExChain.apply_p1|]. eapply node_run_cons; [apply ExChain.apply_no_txns|].
  apply (node_run_cons _ _ ExChain.n2 ExChain.base0 [ExChain.p1; ExChain.no_txns] ExChain.quiet n5 (p_snap ExChain.p1)
           [ExChain.no_txns]); [|constructor].
  apply (step_commit_token ExChain.commit (fun s => s) (ExChain.batch ExChain.root1) ExChain.n2 ExChain.base0 ExChain.p1
           [ExChain.no_txns] (Ok tt)); [done|apply ExChain.commits_p1|]. vm_compute. reflexivity.
Qed.
End ExQuery.

Lemma query_shows_history_witness :
  exists outs utxos,
    get_unspent_outputs (bn_cache ExChain.n4) ExQuery.b true = Ok outs /\
    follow (answer ExQuery.query ExQuery.decode (fun t => Mem.hash (Mem.chead t)) (fun _ => Some tt) (fun _ _ p => p) (fun _ => 0%Z) 100
              (bn_state ExChain.n4)) None None ExQuery.b (S (length outs)) JNull = Some (Ok utxos) /\
    utxos ≡ₚ outs /\ StronglySorted seqNo_lt utxos /\
    length (s_payments (p_snap ExChain.p1)) = lg_committed (X:=MemLedger.mtxn) (bn_ledger ExChain.n4) /\
    forall o, o ∈ utxos <-> unspent_in_history (s_payments (p_snap ExChain.p1)) ExQuery.b o.
Proof.
  apply (query_shows_history (X:=MemLedger.mtxn) ExQuery.query ExQuery.decode (fun t => Mem.hash (Mem.chead t))
           (fun _ => Some tt) (fun _ _ p => p) (fun _ => 0%Z) 100 ExChain.n4 (p_snap ExChain.p1) [] ExQuery.b None None).
  - apply ExQuery.n4_repr.
  - apply ExQuery.lawful.
  - by apply ExFields.valid.
  - apply ExQuery.free.
Defined.

(** Two nodes with the mint committed, one of them with a domain batch pending. *)
Lemma replicas_answer_alike_witness :
  let client state idr fuel :=
    follow (answer ExQuery.query ExQuery.decode (fun t => Mem.hash (Mem.chead t)) (fun _ => Some tt) (fun _ _ p => p) (fun _ => 0%Z) 100
              state) idr None ExQuery.b fuel JNull in
  exists fuel utxos, client (bn_state ExChain.n4) (Some "one") fuel = Some (Ok utxos) /\
    client (bn_state ExQuery.n5) (Some "two") fuel = Some (Ok utxos).
Proof.
  apply (replicas_answer_alike (X:=MemLedger.mtxn) ExQuery.query ExQuery.decode (fun t => Mem.hash (Mem.chead t))
           (fun _ => Some tt) (fun _ _ p => p) (fun _ => 0%Z) 100 ExChain.n4 ExQuery.n5 (p_snap ExChain.p1) (p_snap ExChain.p1)
           [] [ExChain.no_txns] ExQuery.b (Some "one") None (Some "two") None);
    [apply ExQuery.n4_repr|apply ExQuery.n5_repr|done|apply ExQuery.lawful|by apply ExFields.valid|apply ExQuery.free].
Defined.
