(* ===== verification/Registries.v ===== *)
(** * The registries of a node

    What a plugin touches in plenum's node when it is loaded: configuration,
    databases, request managers, batch handlers, authenticators, callbacks.  An
    object of the code is named by the constructor call that makes it.  The node
    itself is plenum's: the class [PlenumNode] has the calls the plugins make, and
    [PlenumNodeLaws] says what each of them does to the registries.  The theorem
    is that a program of such calls does on every node what it does on the bare
    registries ([simulates]), so that the plugins' set-up can be computed.

    Objects of the node that every constructor is given ([db_manager],
    [write_req_validator], [idr_cache]) are left out of the constructor calls. *)

From S2P Require Import Prelude Exceptions PyStr TokenTypes.

Open Scope stdpp_scope.

(** ** Objects *)

(** A value of [node.config]; [Rocksdb] is [KeyValueStorageType.Rocksdb]. *)
Inductive config_value := CfgStr (s : string) | CfgInt (z : Z) | CfgBool (b : bool) | Rocksdb.

(** [initKeyValueStorage(storage, dataLocation, dbName, db_config=..)] *)
Record kv_storage := mkStorage {
  ks_type : config_value; ks_location : string; ks_name : config_value; ks_db_config : option config_value;
}.

(** [PruningState(storage)] *)
Inductive state_object := PruningState (storage : kv_storage) | OtherState (name : string).

(** [Ledger(CompactMerkleTree(hashStore=..), dataDir, fileName, ensureDurability)] *)
Inductive ledger_object :=
  | NewLedger (hash_store dataDir : string) (fileName ensureDurability : config_value)
  | OtherLedger (name : string).

Inductive store_object := UTXOCacheStore (storage : kv_storage) | OtherStore (name : string).

(** [LedgerUncommittedTracker(committed_root, uncommitted_root, ledger_size)] *)
Record tracker_object := LedgerUncommittedTracker {
  lt_committed_root : string; lt_uncommitted_root : string; lt_size : Z;
}.

(** The [BatchFeesTracker] is shared by reference. *)
Definition fees_tracker_ref : Type := nat.

Inductive handler :=
  | XferHandler | XferHandler100 | MintHandler | GetUtxoHandler (msg_limit : config_value)
  | SetFeesHandler | SetFeesHandler093 | XferFeeHandler
  | DomainFeeHandler (fees_tracker : fees_tracker_ref) | FeeTxnCatchupHandler
  | GetFeeHandler | GetFeesHandler | AuthRuleFeeHandler (get_fees : handler) | AuthRulesFeeHandler (get_fees : handler)
  | OtherHandler (txn_type : option string) (ledger_id : Z).

Inductive batch_object :=
  | TokenBatchObject | UTXOBatchObject | DomainFeeBatchObject (fees_tracker : fees_tracker_ref)
  | TrackerBatchObject | OtherBatchObject (name : string) (ledger_id : Z).

Inductive authnr :=
  | TokenAuthNr (write_types query_types action_types : gset string)
  | FeesAuthNr (write_types query_types action_types : gset string) (token_authnr : authnr)
  | OtherAuthNr (name : string).

Inductive authorizer :=
  | FeesAuthorizer (config_state : option state_object) (utxo_cache : option store_object)
  | OtherAuthorizer (name : string).

(** [postCatchupCompleteClbk] and [postTxnAddedToLedgerClbk] of a ledger. *)
Inductive catchup_clb := PostCatchupComplete (origin : option catchup_clb) | OtherCatchupClb (name : string).
Inductive added_clb :=
  | PostTxnFromCatchupAddedToLedger | FilterFees (origin : option added_clb) | OtherAddedClb (name : string).

Record ledger_info := mkLedgerInfo {
  li_ledger : option ledger_object;
  li_postCatchupComplete : option catchup_clb;
  li_postTxnAdded : option added_clb;
}.

(** [AuthConstraint(role, sig_count)] *)
Record auth_rule := mkAuthRule { rule_role : string; rule_sig_count : Z }.

(** A handler on the internal bus of one instance. *)
Record subscription := mkSubscription { sub_message : string; sub_authnr : authnr; sub_instance : Z }.

(** ** What the constructors of the handlers pass to their base classes *)

Record handler_base := mkBase { hb_txn_type : option string; hb_ledger_id : Z }.

(** Plenum's ledger ids, indy's transaction types, and what removing the handlers of
    a type does to the set of types of each ledger (at most, it removes this type). *)
Class Plenum := {
  DOMAIN_LEDGER_ID : Z;
  CONFIG_LEDGER_ID : Z;
  AUTH_RULE : string;
  AUTH_RULES : string;
  types_without : option string -> gset (option string) -> gset (option string);
}.

Class PlenumLaws `{Plenum} : Prop := {
  domain_not_token : DOMAIN_LEDGER_ID <> TOKEN_LEDGER_ID;
  config_not_token : CONFIG_LEDGER_ID <> TOKEN_LEDGER_ID;
  domain_not_config : DOMAIN_LEDGER_ID <> CONFIG_LEDGER_ID;
  mint_type_new : MINT_PUBLIC <> AUTH_RULE /\ MINT_PUBLIC <> AUTH_RULES;
  auth_types_new : NoDup [AUTH_RULE; AUTH_RULES; XFER_PUBLIC; SET_FEES; FEE_TXN];
  types_without_other t (s : gset (option string)) : t ∉ s -> types_without t s = s;
}.

Section Constructors.
Context `{Plenum}.

Definition XferHandler_init : handler_base := mkBase (Some (token_txn_value XFER_PUBLIC_TXN)) TOKEN_LEDGER_ID.
Definition MintHandler_init : handler_base := mkBase (Some (token_txn_value MINT_PUBLIC_TXN)) TOKEN_LEDGER_ID.
Definition GetUtxoHandler_init : handler_base := mkBase (Some (token_txn_value GET_UTXO_TXN)) TOKEN_LEDGER_ID.
Definition SetFeesHandler_init : handler_base := mkBase (Some (fees_txn_value SET_FEES_TXN)) CONFIG_LEDGER_ID.
Definition DomainFeeHandler_init : handler_base := mkBase None DOMAIN_LEDGER_ID.
Definition FeeTxnCatchupHandler_init : handler_base := mkBase (Some FEE_TXN) TOKEN_LEDGER_ID.
Definition GetFeeHandler_init : handler_base := mkBase (Some (fees_txn_value GET_FEE_TXN)) CONFIG_LEDGER_ID.
Definition GetFeesHandler_init : handler_base := mkBase (Some (fees_txn_value GET_FEES_TXN)) CONFIG_LEDGER_ID.
Definition AuthRuleFeeHandler_init : handler_base := mkBase (Some AUTH_RULE) CONFIG_LEDGER_ID.
Definition AuthRulesFeeHandler_init : handler_base := mkBase (Some AUTH_RULES) CONFIG_LEDGER_ID.

(** [XferHandler100], [XferFeeHandler] and [SetFeesHandler093] inherit theirs. *)
Definition handler_init (h : handler) : handler_base :=
  match h with
  | XferHandler | XferHandler100 | XferFeeHandler => XferHandler_init
  | MintHandler => MintHandler_init
  | GetUtxoHandler _ => GetUtxoHandler_init
  | SetFeesHandler | SetFeesHandler093 => SetFeesHandler_init
  | DomainFeeHandler _ => DomainFeeHandler_init
  | FeeTxnCatchupHandler => FeeTxnCatchupHandler_init
  | GetFeeHandler => GetFeeHandler_init
  | GetFeesHandler => GetFeesHandler_init
  | AuthRuleFeeHandler _ => AuthRuleFeeHandler_init
  | AuthRulesFeeHandler _ => AuthRulesFeeHandler_init
  | OtherHandler typ lid => mkBase typ lid
  end.

Definition TokenBatchHandler_init : Z := TOKEN_LEDGER_ID.
Definition UTXOBatchHandler_init : Z := TOKEN_LEDGER_ID.
Definition DomainFeeBatchHandler_init : Z := DOMAIN_LEDGER_ID.
Definition TrackerBatchHandler_init : Z := TOKEN_LEDGER_ID.

Definition batch_ledger_id (b : batch_object) : Z :=
  match b with
  | TokenBatchObject => TokenBatchHandler_init
  | UTXOBatchObject => UTXOBatchHandler_init
  | DomainFeeBatchObject _ => DomainFeeBatchHandler_init
  | TrackerBatchObject => TrackerBatchHandler_init
  | OtherBatchObject _ lid => lid
  end.
End Constructors.

(** ** The registries *)

Record registries := mkRegistries {
  r_config : gmap string config_value;                    (** [node.config] *)
  r_data_location : string;                               (** [node.dataLocation] *)
  r_ledger_ids : list Z;                                  (** [node.ledger_ids] *)
  r_auth_map : list (string * auth_rule);                 (** [write_req_validator.auth_map] *)
  r_databases : gmap Z (ledger_object * state_object);    (** [db_manager.databases] *)
  r_stores : gmap string store_object;                    (** [db_manager.stores] *)
  r_trackers : gmap Z tracker_object;                     (** [db_manager.trackers] *)
  r_ledger_registry : gmap Z ledger_info;                 (** [ledgerManager.ledgerRegistry] *)
  r_handlers : gmap (option string) (list handler);       (** [write_manager.request_handlers] *)
  r_versioned : gmap (option string * string) handler;    (** the handlers with a version *)
  r_types : gmap Z (gset (option string));                (** [write_manager.ledger_id_to_types] *)
  r_read_handlers : list handler;                         (** all that [read_manager] was given *)
  r_batch_handlers : gmap Z (list batch_object);          (** [write_manager.batch_handlers] *)
  r_authnrs : list authnr;                                (** [clientAuthNr]'s authenticators *)
  r_authorizers : list authorizer;                        (** [write_req_validator]'s authorizers *)
  r_bus : list subscription;                              (** the internal buses *)
  r_master_instance : Z;                                  (** [master_replica.instId] *)
  r_next_fees_tracker : fees_tracker_ref;                 (** the next [BatchFeesTracker] object *)
  (** The roots and sizes of the databases, which loading does not change. *)
  r_committedHeadHash : state_object -> string;
  r_uncommitted_root_hash : ledger_object -> string;
  r_ledger_size : ledger_object -> Z;
}.

(** One field replaced. *)
Ltac update_field r field v :=
  let eta := constr:(mkRegistries (r_config r) (r_data_location r) (r_ledger_ids r) (r_auth_map r)
    (r_databases r) (r_stores r) (r_trackers r) (r_ledger_registry r) (r_handlers r) (r_versioned r) (r_types r)
    (r_read_handlers r) (r_batch_handlers r) (r_authnrs r) (r_authorizers r) (r_bus r) (r_master_instance r)
    (r_next_fees_tracker r) (r_committedHeadHash r) (r_uncommitted_root_hash r) (r_ledger_size r)) in
  let eta := eval pattern (field r) in eta in
  match eta with ?f _ => let r' := eval cbv beta in (f v) in exact r' end.

Section Setters.
Implicit Types r : registries.
Definition set_config v r : registries := ltac:(update_field r r_config v).
Definition set_ledger_ids v r : registries := ltac:(update_field r r_ledger_ids v).
Definition set_auth_map v r : registries := ltac:(update_field r r_auth_map v).
Definition set_databases v r : registries := ltac:(update_field r r_databases v).
Definition set_stores v r : registries := ltac:(update_field r r_stores v).
Definition set_trackers v r : registries := ltac:(update_field r r_trackers v).
Definition set_ledger_registry v r : registries := ltac:(update_field r r_ledger_registry v).
Definition set_handlers v r : registries := ltac:(update_field r r_handlers v).
Definition set_versioned v r : registries := ltac:(update_field r r_versioned v).
Definition set_types v r : registries := ltac:(update_field r r_types v).
Definition set_read_handlers v r : registries := ltac:(update_field r r_read_handlers v).
Definition set_batch_handlers v r : registries := ltac:(update_field r r_batch_handlers v).
Definition set_authnrs v r : registries := ltac:(update_field r r_authnrs v).
Definition set_authorizers v r : registries := ltac:(update_field r r_authorizers v).
Definition set_bus v r : registries := ltac:(update_field r r_bus v).
Definition set_next_fees_tracker v r : registries := ltac:(update_field r r_next_fees_tracker v).
End Setters.

(** ** The calls *)

Inductive call :=
  | SetConfig (key : string) (v : config_value)
  | UpdateAuthMap (rules : list (string * auth_rule))
  | AppendLedgerId (ledger_id : Z)
  | RegisterNewDatabase (ledger_id : Z) (l : ledger_object) (t : state_object)
  | RegisterNewStore (label : string) (store : store_object)
  | RegisterNewTracker (ledger_id : Z) (tracker : tracker_object)
  | AddLedger (ledger_id : Z) (l : option ledger_object) (post_added : added_clb)
  | OnNewLedgerAdded (ledger_id : Z)
  | RegisterReqHandler (h : handler) (typ : option string)
  | RegisterReqHandlerWithVersion (h : handler) (version : string)
  | RemoveReqHandler (typ : string)
  | RegisterReadHandler (h : handler)
  | RegisterBatchHandler (b : batch_object) (ledger_id : option Z) (add_to_begin : bool)
  | RegisterAuthenticator (a : authnr)
  | RegisterAuthorizer (a : authorizer)
  | SubscribeToInternalBus (s : subscription)
  | SetPostCatchupComplete (ledger_id : Z) (clb : catchup_clb)
  | SetPostTxnAdded (ledger_id : Z) (clb : added_clb)
  | NewBatchFeesTracker.

Section Calls.
Context `{Plenum}.

(** Calls that raise: a name that is taken, a handler or a ledger that is not there. *)
Definition refuses (c : call) (r : registries) : option exn :=
  match c with
  | RegisterNewDatabase lid _ _ =>
      if r_databases r !! lid is Some _ then Some (LogicError (Msg "Trying to add already existing database" [])) else None
  | RegisterNewStore label _ =>
      if r_stores r !! label is Some _ then Some (LogicError (Msg "Trying to add already existing store" [])) else None
  | RegisterNewTracker lid _ =>
      if r_trackers r !! lid is Some _ then Some (LogicError (Msg "Trying to add already existing tracker" [])) else None
  | RemoveReqHandler typ => if r_handlers r !! Some typ is Some _ then None else Some (KeyError typ)
  | SetPostCatchupComplete lid _ | SetPostTxnAdded lid _ =>
      if r_ledger_registry r !! lid is Some _ then None else Some (KeyError (py_str lid))
  | _ => None
  end.

(** [d.setdefault(k, []).append(x)] *)
Definition append_at {Key A} `{Countable Key} (k : Key) (x : A) (m : gmap Key (list A)) : gmap Key (list A) :=
  partial_alter (fun l => Some (default [] l ++ [x])) k m.
(** [d.setdefault(k, []).insert(0, x)] *)
Definition prepend_at {Key A} `{Countable Key} (k : Key) (x : A) (m : gmap Key (list A)) : gmap Key (list A) :=
  partial_alter (fun l => Some (x :: default [] l)) k m.

Section AtLemmas.
Context {Key A : Type} `{Countable Key}.
Implicit Types (k : Key) (x : A) (m : gmap Key (list A)).

Lemma append_at_eq k x m : append_at k x m !! k = Some (default [] (m !! k) ++ [x]).
Proof. unfold append_at, prepend_at. by rewrite lookup_partial_alter_eq. Qed.

Lemma append_at_ne k k' x m : k <> k' -> append_at k x m !! k' = m !! k'.
Proof. unfold append_at, prepend_at. apply lookup_partial_alter_ne. Qed.

Lemma append_at_lookup k k' x m :
  append_at k x m !! k' = if decide (k = k') then Some (default [] (m !! k') ++ [x]) else m !! k'.
Proof. case_decide; [subst; apply append_at_eq|by apply append_at_ne]. Qed.

Lemma prepend_at_eq k x m : prepend_at k x m !! k = Some (x :: default [] (m !! k)).
Proof. unfold append_at, prepend_at. by rewrite lookup_partial_alter_eq. Qed.

Lemma prepend_at_ne k k' x m : k <> k' -> prepend_at k x m !! k' = m !! k'.
Proof. unfold append_at, prepend_at. apply lookup_partial_alter_ne. Qed.
End AtLemmas.

Definition effect (c : call) (r : registries) : registries :=
  match c with
  | SetConfig key v => set_config (<[key := v]> (r_config r)) r
  | UpdateAuthMap rules => set_auth_map (aupdate (r_auth_map r) rules) r
  | AppendLedgerId lid => set_ledger_ids (r_ledger_ids r ++ [lid]) r
  | RegisterNewDatabase lid l t => set_databases (<[lid := (l, t)]> (r_databases r)) r
  | RegisterNewStore label store => set_stores (<[label := store]> (r_stores r)) r
  | RegisterNewTracker lid tracker => set_trackers (<[lid := tracker]> (r_trackers r)) r
  | AddLedger lid l clb =>
      if r_ledger_registry r !! lid is Some _ then r
      else set_ledger_registry (<[lid := mkLedgerInfo l None (Some clb)]> (r_ledger_registry r)) r
  | OnNewLedgerAdded _ => r
  | RegisterReqHandler h typ =>
      let typ := match typ with Some t => Some t | None => hb_txn_type (handler_init h) end in
      let lid := hb_ledger_id (handler_init h) in
      set_types (partial_alter (fun s => Some ({[typ]} ∪ default ∅ s)) lid (r_types r))
        (set_handlers (append_at typ h (r_handlers r)) r)
  | RegisterReqHandlerWithVersion h v =>
      set_versioned (<[(hb_txn_type (handler_init h), v) := h]> (r_versioned r)) r
  | RemoveReqHandler typ =>
      set_types (types_without (Some typ) <$> r_types r) (set_handlers (delete (Some typ) (r_handlers r)) r)
  | RegisterReadHandler h => set_read_handlers (r_read_handlers r ++ [h]) r
  | RegisterBatchHandler b lid add_to_begin =>
      let lid := default (batch_ledger_id b) lid in
      set_batch_handlers
        (if add_to_begin : bool then prepend_at lid b (r_batch_handlers r) else append_at lid b (r_batch_handlers r)) r
  | RegisterAuthenticator a => set_authnrs (r_authnrs r ++ [a]) r
  | RegisterAuthorizer a => set_authorizers (r_authorizers r ++ [a]) r
  | SubscribeToInternalBus s => set_bus (r_bus r ++ [s]) r
  | SetPostCatchupComplete lid clb =>
      set_ledger_registry
        (alter (fun i => mkLedgerInfo (li_ledger i) (Some clb) (li_postTxnAdded i)) lid (r_ledger_registry r)) r
  | SetPostTxnAdded lid clb =>
      set_ledger_registry
        (alter (fun i => mkLedgerInfo (li_ledger i) (li_postCatchupComplete i) (Some clb)) lid (r_ledger_registry r)) r
  | NewBatchFeesTracker => set_next_fees_tracker (S (r_next_fees_tracker r)) r
  end.

(** ** Nodes *)

Class PlenumNode (N : Type) := {
  registries_of : N -> registries;
  do_call : call -> M N unit;
}.

(** What plenum's methods do, as far as the registries tell. *)
Class PlenumNodeLaws (N : Type) `{PlenumNode N} : Prop := {
  do_call_effect c n :
    match refuses c (registries_of n) with
    | Some e => (do_call c n).1 = Raise e /\ registries_of (do_call c n).2 = registries_of n
    | None => (do_call c n).1 = Ok tt /\ registries_of (do_call c n).2 = effect c (registries_of n)
    end;
}.

(** The bare registries as a node. *)
#[global] Instance bare_node : PlenumNode registries := {
  registries_of r := r;
  do_call c r := match refuses c r with Some e => (Raise e, r) | None => (Ok tt, effect c r) end;
}.

#[global] Instance bare_node_laws : PlenumNodeLaws registries.
Proof. split. intros c r. simpl. by destruct (refuses c r). Qed.

(** A read of the registries. *)
Definition ask {N A} `{PlenumNode N} (f : registries -> A) : M N A := fun n => (Ok (f (registries_of n)), n).

(** ** Programs on a node are programs on its registries *)

Section Simulation.
Context {N : Type} `{PlenumNodeLaws N}.

Definition simulates {A} (m : M N A) (m' : M registries A) : Prop :=
  forall n, m' (registries_of n) = ((m n).1, registries_of (m n).2).

Lemma simulates_ret {A} (a : A) : simulates (ret a) (ret a).
Proof. by intros n. Qed.

Lemma simulates_raise {A} e : simulates (A:=A) (raise e) (raise e).
Proof. by intros n. Qed.

Lemma simulates_lift {A} (x : res A) : simulates (lift x) (lift x).
Proof. by intros n. Qed.

Lemma simulates_ask {A} (f : registries -> A) : simulates (ask f) (ask f).
Proof. by intros n. Qed.

Lemma simulates_call c : simulates (do_call c) (do_call c).
Proof.
  intros n. pose proof (do_call_effect c n) as Hc. simpl.
  by destruct (refuses c (registries_of n)); destruct Hc as [-> ->].
Qed.

Lemma simulates_bind {A B} (m : M N A) m' (f : A -> M N B) f' :
  simulates m m' -> (forall a, simulates (f a) (f' a)) -> simulates (bind m f) (bind m' f').
Proof.
  intros Hm Hf n. unfold bind. rewrite (Hm n). destruct (m n) as [[a|e] n']; [apply Hf|done].
Qed.

Lemma simulates_for_each {A} (l : list A) (f : A -> M N unit) f' :
  (forall a, simulates (f a) (f' a)) -> simulates (for_each l f) (for_each l f').
Proof.
  intros Hf. induction l as [|a l IH]; simpl; [apply simulates_ret|]. by apply simulates_bind.
Qed.
End Simulation.
End Calls.

(** ** Running a program on the registries *)

Section Running.
Context `{Plenum}.
Implicit Types r : registries.

Lemma run_call {B} c (k : unit -> M registries B) r :
  refuses c r = None -> bind (do_call c) k r = k tt (effect c r).
Proof. intros Hc. unfold bind. cbn [do_call bare_node]. by rewrite Hc. Qed.

Lemma run_last_call c r : refuses c r = None -> do_call c r = (Ok tt, effect c r).
Proof. cbn [do_call bare_node]. by intros ->. Qed.

Lemma run_ask {A B} (f : registries -> A) (k : A -> M registries B) r : bind (ask f) k r = k (f r) r.
Proof. done. Qed.

Lemma run_assoc {A B C} (m : M registries A) (f : A -> M registries B) (k : B -> M registries C) r :
  bind (bind m f) k r = bind m (fun a => bind (f a) k) r.
Proof. unfold bind. by destruct (m r) as [[a|e] r']. Qed.

Lemma run_ret {A B} (a : A) (k : A -> M registries B) r : bind (ret a) k r = k a r.
Proof. done. Qed.

Lemma run_lift {A B} (x : res A) a (k : A -> M registries B) r : x = Ok a -> bind (lift x) k r = k a r.
Proof. by intros ->. Qed.

(** [for typ in types: register_req_handler(h, typ=typ)], for a handler without a type of its own *)
Definition append_all {Key A} `{Countable Key} (ks : list Key) (x : A) (m : gmap Key (list A)) : gmap Key (list A) :=
  foldl (fun m k => append_at k x m) m ks.

Lemma append_all_lookup {Key A} `{Countable Key} (ks : list Key) (x : A) m k :
  NoDup ks ->
  append_all ks x m !! k = if decide (k ∈ ks) then Some (default [] (m !! k) ++ [x]) else m !! k.
Proof.
  intros Hnd. revert m. induction Hnd as [|k0 ks Hk0 _ IH]; intros m; unfold append_all in *; cbn [foldl].
  - case_decide; set_solver.
  - rewrite IH. destruct (decide (k = k0)) as [->|Hne].
    + rewrite append_at_eq. repeat case_decide; set_solver.
    + rewrite append_at_ne by done. repeat case_decide; set_solver.
Qed.

Lemma run_register_all {B} types h (k : unit -> M registries B) r :
  hb_txn_type (handler_init h) = None ->
  exists all_types,
    (forall lid, lid <> hb_ledger_id (handler_init h) -> all_types !! lid = r_types r !! lid) /\
    (forall s, r_types r !! hb_ledger_id (handler_init h) = Some s -> Forall (fun typ => typ ∈ s) types ->
       all_types !! hb_ledger_id (handler_init h) = Some s) /\
    bind (for_each types (fun typ => do_call (RegisterReqHandler h typ))) k r =
      k tt (set_types all_types (set_handlers (append_all types h (r_handlers r)) r)).
Proof.
  intros Hh. revert r. induction types as [|typ types IH]; intros r; cbn [for_each].
  - exists (r_types r). by destruct r.
  - rewrite run_assoc, run_call by done.
    destruct (IH (effect (RegisterReqHandler h typ) r)) as (tys & Hne & Heq & ->).
    exists tys. simpl in *. rewrite Hh in *. split_and!; [| |by destruct typ].
    + intros lid Hlid. by rewrite Hne, lookup_partial_alter_ne.
    + intros s Hs [Htyp Hall]%Forall_cons. apply Heq; [|done]. rewrite lookup_partial_alter_eq, Hs. simpl. f_equal.
      destruct typ; set_solver.
Qed.

Lemma effect_add_ledger lid l clb r :
  r_ledger_registry r !! lid = None ->
  effect (AddLedger lid l clb) r =
    set_ledger_registry (<[lid := mkLedgerInfo l None (Some clb)]> (r_ledger_registry r)) r.
Proof. simpl. by intros ->. Qed.
End Running.

Create HintDb node_programs.
#[export] Hint Resolve simulates_ret simulates_raise simulates_lift simulates_ask simulates_call : node_programs.

(** Follow the shape of a program; smaller programs come from [node_programs]. *)
Ltac solve_simulates :=
  repeat match goal with
  | |- simulates (bind _ _) _ => apply simulates_bind; [|intros ?]
  | |- simulates (for_each _ _) _ => apply simulates_for_each; intros ?
  | |- simulates (match ?x with _ => _ end) _ => destruct x
  | |- simulates _ _ => solve [eauto with node_programs]
  end.

(** Read a field of updated registries. *)
Ltac read_registries :=
  cbn [effect refuses registries_of bare_node
    r_config r_data_location r_ledger_ids r_auth_map r_databases r_stores r_trackers r_ledger_registry r_handlers
    r_versioned r_types r_read_handlers r_batch_handlers r_authnrs r_authorizers r_bus r_master_instance
    r_next_fees_tracker r_committedHeadHash r_uncommitted_root_hash r_ledger_size
    set_config set_ledger_ids set_auth_map set_databases set_stores set_trackers set_ledger_registry set_handlers
    set_versioned set_types set_read_handlers set_batch_handlers set_authnrs set_authorizers set_bus
    set_next_fees_tracker].

Ltac solve_registries := read_registries; by simplify_map_eq.

(** One step of a program on the registries. *)
Ltac run_step :=
  first
    [ rewrite run_assoc | rewrite run_ret | rewrite run_ask
    | rewrite run_call by solve_registries
    | rewrite run_last_call by solve_registries ].
Ltac run := repeat (run_step; cbv beta).
