(* ===== verification/Wiring.v ===== *)
(** * Integration into a node

    [sovtoken/main.py] and [sovtokenfees/main.py]: what the two plugins do to a node
    when they are loaded, call by call, on the registries of [Registries.v]; the
    auth rules they add; and the two callbacks of the token ledger they wrap.
    Theorems: loading both succeeds on a node that has neither, and then the
    node's handlers, batch handlers, authenticators, authorizer and callbacks are
    those that the other files compose; the fees plugin alone fails to load. *)

From S2P Require Import Prelude Exceptions PyStr TokenTypes Stores TokenHandlers Ledger BatchHandlers NodeBatches Registries.

Open Scope stdpp_scope.

(** ** Auth maps *)

Section AuthMaps.
(** [AbstractAuthAction.get_action_id], and indy's [TRUSTEE] *)
Context (get_action_id : auth_action -> string) (TRUSTEE : string).

Definition add_mint : auth_action := AuthActionAdd MINT_PUBLIC "*" "*".
Definition add_xfer : auth_action := AuthActionAdd XFER_PUBLIC "*" "*".
Definition edit_fees : auth_action := AuthActionEdit SET_FEES "*" "*" "*".
Definition anyone_constraint : auth_rule := mkAuthRule "*" 0.
Definition three_trustee_constraint : auth_rule := mkAuthRule TRUSTEE 3.

Definition sovtoken_auth_map : list (string * auth_rule) :=
  [(get_action_id add_mint, three_trustee_constraint); (get_action_id add_xfer, anyone_constraint)].
Definition sovtokenfees_auth_map : list (string * auth_rule) :=
  [(get_action_id edit_fees, three_trustee_constraint)].
End AuthMaps.

(** ** sovtoken/main.py *)

Section Main.
Context `{Plenum} {N : Type} `{PlenumNode N}.

(** [node.config.<key>] *)
Definition config (key : string) : M N config_value :=
  let! c := ask r_config in
  match c !! key with
  | Some v => ret v
  | None => raise (AttributeError (Msg "config has no attribute {}" [MStr key]))
  end.

Definition update_config : M N unit :=
  do_call (SetConfig "tokenTransactionsFile" (CfgStr "sovtoken_transactions")) ;;;
  do_call (SetConfig "tokenStateStorage" Rocksdb) ;;;
  do_call (SetConfig "tokenStateDbName" (CfgStr "sovtoken_state")) ;;;
  do_call (SetConfig "utxoCacheStorage" Rocksdb) ;;;
  do_call (SetConfig "utxoCacheDbName" (CfgStr "utxo_cache")).

Definition init_token_ledger : M N ledger_object :=
  let! dataDir := ask r_data_location in
  let! fileName := config "tokenTransactionsFile" in
  let! ensureDurability := config "EnsureLedgerDurability" in
  ret (NewLedger "sovtoken" dataDir fileName ensureDurability).

Definition init_token_state : M N state_object :=
  let! storage := config "tokenStateStorage" in
  let! location := ask r_data_location in
  let! name := config "tokenStateDbName" in
  let! db_config := config "db_state_config" in
  ret (PruningState (mkStorage storage location name (Some db_config))).

(** [db_manager.get_ledger(lid)] and [get_state(lid)] return [None] for an unknown id. *)
Definition get_ledger (lid : Z) : M N (option ledger_object) := ask (fun r => fst <$> r_databases r !! lid).
Definition get_state (lid : Z) : M N (option state_object) := ask (fun r => snd <$> r_databases r !! lid).

Definition init_token_database : M N unit :=
  let! l := get_ledger TOKEN_LEDGER_ID in
  do_call (AddLedger TOKEN_LEDGER_ID l PostTxnFromCatchupAddedToLedger) ;;;
  do_call (OnNewLedgerAdded TOKEN_LEDGER_ID).

Definition init_storages : M N unit :=
  let! ids := ask r_ledger_ids in
  (if bool_decide (TOKEN_LEDGER_ID ∈ ids) then ret tt else do_call (AppendLedgerId TOKEN_LEDGER_ID)) ;;;
  let! token_state := init_token_state in
  let! token_ledger := init_token_ledger in
  do_call (RegisterNewDatabase TOKEN_LEDGER_ID token_ledger token_state) ;;;
  init_token_database ;;;
  let! storage := config "utxoCacheStorage" in
  let! location := ask r_data_location in
  let! name := config "utxoCacheDbName" in
  do_call (RegisterNewStore UTXO_CACHE_LABEL (UTXOCacheStore (mkStorage storage location name None))).

Definition token_register_req_handlers : M N unit :=
  do_call (RegisterReqHandler XferHandler None) ;;;
  do_call (RegisterReqHandlerWithVersion XferHandler100 "1.0.0") ;;;
  do_call (RegisterReqHandler MintHandler None) ;;;
  let! msg_limit := config "MSG_LEN_LIMIT" in
  do_call (RegisterReadHandler (GetUtxoHandler msg_limit)).

(** The node registry, primary registry and audit handlers are plenum's. *)
Definition token_register_batch_handlers : M N unit :=
  do_call (RegisterBatchHandler UTXOBatchObject None true) ;;;
  do_call (RegisterBatchHandler TokenBatchObject None true) ;;;
  do_call (RegisterBatchHandler (OtherBatchObject "node_reg_handler" 0) (Some TOKEN_LEDGER_ID) false) ;;;
  do_call (RegisterBatchHandler (OtherBatchObject "primary_reg_handler" 0) (Some TOKEN_LEDGER_ID) false) ;;;
  do_call (RegisterBatchHandler (OtherBatchObject "audit_b_handler" 0) (Some TOKEN_LEDGER_ID) false).

Definition token_authnr : authnr :=
  TokenAuthNr ACCEPTABLE_WRITE_TYPES ACCEPTABLE_QUERY_TYPES ACCEPTABLE_ACTION_TYPES.

Definition token_register_authentication : M N unit := do_call (RegisterAuthenticator token_authnr).

(** [AbstractAuthAction.get_action_id], and indy's [TRUSTEE] *)
Context (get_action_id : auth_action -> string) (TRUSTEE : string).

Definition sovtoken_integrate_plugin_in_node : M N unit :=
  update_config ;;;
  do_call (UpdateAuthMap (sovtoken_auth_map get_action_id TRUSTEE)) ;;;
  init_storages ;;;
  token_register_req_handlers ;;;
  token_register_batch_handlers ;;;
  token_register_authentication.

(** ** sovtokenfees/main.py *)

(** [list(s)] enumerates a set in an order of Python's choosing. *)
Context (list_of_set : gset (option string) -> list (option string)).

(** [token_state.committedHeadHash] and the like, when the object is [None] *)
Definition not_none {A} (attribute : string) (o : option A) : M N A :=
  match o with
  | Some a => ret a
  | None => raise (AttributeError (Msg "'NoneType' object has no attribute '{}'" [MStr attribute]))
  end.

Definition register_trackers (token_state : option state_object) (token_ledger : option ledger_object)
    : M N fees_tracker_ref :=
  let! fees_tracker := ask r_next_fees_tracker in
  do_call NewBatchFeesTracker ;;;
  let! t := not_none "committedHeadHash" token_state in
  let! committed := ask (fun r => r_committedHeadHash r t) in
  let! l := not_none "uncommitted_root_hash" token_ledger in
  let! uncommitted := ask (fun r => r_uncommitted_root_hash r l) in
  let! size := ask (fun r => r_ledger_size r l) in
  do_call (RegisterNewTracker TOKEN_LEDGER_ID (LedgerUncommittedTracker committed uncommitted size)) ;;;
  ret fees_tracker.

(** [ledger_id_to_types[lid]] *)
Definition types_of_ledger (lid : Z) : M N (gset (option string)) :=
  let! types := ask r_types in
  lift (dict_item (py_str lid) (types !! lid)).

Definition fees_register_req_handlers (fees_tracker : fees_tracker_ref) : M N unit :=
  do_call (RegisterReqHandler SetFeesHandler None) ;;;
  do_call (RegisterReqHandlerWithVersion SetFeesHandler093 "0.9.3") ;;;
  let! request_handlers := ask r_handlers in
  (if request_handlers !! Some XFER_PUBLIC is Some _ then ret tt
   else raise (ImportError (Msg "sovtoken plugin should be loaded, request handler not found" []))) ;;;
  do_call (RemoveReqHandler XFER_PUBLIC) ;;;
  do_call (RegisterReqHandler XferFeeHandler None) ;;;
  let domain_fee_r_h := DomainFeeHandler fees_tracker in
  let! types := types_of_ledger DOMAIN_LEDGER_ID in
  for_each (list_of_set types) (fun typ => do_call (RegisterReqHandler domain_fee_r_h typ)) ;;;
  do_call (RegisterReqHandler FeeTxnCatchupHandler None) ;;;
  do_call (RegisterReadHandler GetFeeHandler) ;;;
  let gfs_handler := GetFeesHandler in
  do_call (RegisterReadHandler gfs_handler) ;;;
  do_call (RegisterReqHandler (AuthRuleFeeHandler gfs_handler) None) ;;;
  do_call (RegisterReqHandler (AuthRulesFeeHandler gfs_handler) None).

Definition fees_register_batch_handlers (fees_tracker : fees_tracker_ref) : M N unit :=
  do_call (RegisterBatchHandler (DomainFeeBatchObject fees_tracker) None false) ;;;
  do_call (RegisterBatchHandler TrackerBatchObject None false).

(** [node.ledgerManager.ledgerRegistry[TOKEN_LEDGER_ID]] *)
Definition token_ledger_info : M N ledger_info :=
  let! registry := ask r_ledger_registry in
  lift (dict_item (py_str TOKEN_LEDGER_ID) (registry !! TOKEN_LEDGER_ID)).

Definition set_post_catchup_callback : M N unit :=
  let! info := token_ledger_info in
  do_call (SetPostCatchupComplete TOKEN_LEDGER_ID (PostCatchupComplete (li_postCatchupComplete info))).

Definition set_post_added_txn_callback : M N unit :=
  let! info := token_ledger_info in
  do_call (SetPostTxnAdded TOKEN_LEDGER_ID (FilterFees (li_postTxnAdded info))).

Definition set_callbacks : M N unit := set_post_catchup_callback ;;; set_post_added_txn_callback.

(** [clientAuthNr.get_authnr_by_type(TokenAuthNr)]: the first authenticator of the class. *)
Definition is_token_authnr (a : authnr) : bool := match a with TokenAuthNr _ _ _ => true | _ => false end.

Definition fees_authnr (token_authnr : authnr) : authnr :=
  FeesAuthNr ACCEPTABLE_WRITE_TYPES_FEE ACCEPTABLE_QUERY_TYPES_FEE ACCEPTABLE_ACTION_TYPES_FEE token_authnr.

Definition fees_register_authentication : M N authnr :=
  let! utxo_cache := ask (fun r => r_stores r !! UTXO_CACHE_LABEL) in
  let! authnrs := ask r_authnrs in
  match filter (fun a => is_token_authnr a) authnrs with
  | [] => raise (ImportError (Msg "sovtoken plugin should be loaded, authenticator not found" []))
  | token_authnr :: _ =>
      do_call (RegisterAuthenticator (fees_authnr token_authnr)) ;;;
      let! config_state := get_state CONFIG_LEDGER_ID in
      do_call (RegisterAuthorizer (FeesAuthorizer config_state utxo_cache)) ;;;
      ret (fees_authnr token_authnr)
  end.

(** The hook runs [verify_signature] of the authenticator. *)
Definition register_auth_hooks (a : authnr) : M N unit :=
  let! instId := ask r_master_instance in
  do_call (SubscribeToInternalBus (mkSubscription "PreSigVerification" a instId)).

Definition register_hooks (a : authnr) : M N unit := register_auth_hooks a.

Definition sovtokenfees_integrate_plugin_in_node : M N unit :=
  let! token_ledger := get_ledger TOKEN_LEDGER_ID in
  let! token_state := get_state TOKEN_LEDGER_ID in
  let! fees_tracker := register_trackers token_state token_ledger in
  do_call (UpdateAuthMap (sovtokenfees_auth_map get_action_id TRUSTEE)) ;;;
  fees_register_req_handlers fees_tracker ;;;
  fees_register_batch_handlers fees_tracker ;;;
  set_callbacks ;;;
  let! a := fees_register_authentication in
  register_hooks a.
End Main.

(** ** Callbacks of the token ledger *)

Section Callbacks.
Context {X S R L T : Type} `{TxnOps X} `{TrackerOps R} `{LedgerOps L X} `{StateStore T}.

(** [filter_fees]: the third argument is the flag that plenum's callback takes; it
    is false exactly for fee transactions, which no request of a client asked for. *)
Definition filter_fees (origin_clb : Z -> X -> bool -> S) (ledger_id : Z) (t : X) : S :=
  origin_clb ledger_id t (bool_decide (get_type t <> fees_txn_value FEES_TXN)).

(** [postCatchupCompleteClb]; [ledger_size] is [token_ledger.size]. *)
Definition postCatchupCompleteClb (origin_clb : option (R -> R)) (token_state : T) (token_ledger : L)
    (ledger_size : Z) (token_tracker : R) : R :=
  let token_tracker := match origin_clb with Some f => f token_tracker | None => token_tracker end in
  tr_set_last_committed token_tracker (st_committedHeadHash token_state)
    (uncommitted_root_hash (X:=X) token_ledger) ledger_size.
End Callbacks.

(** ** Properties *)

Section Loading.
Context `{PlenumLaws} (get_action_id : auth_action -> string) (TRUSTEE : string).
Context (list_of_set : gset (option string) -> list (option string)).
Implicit Types r : registries.

(** Each program does on a node what it does on the node's registries. *)
Section Programs.
Context {N : Type} `{!PlenumNode N, !PlenumNodeLaws N}.

Lemma simulates_sovtoken :
  simulates (N:=N) (sovtoken_integrate_plugin_in_node get_action_id TRUSTEE)
    (sovtoken_integrate_plugin_in_node get_action_id TRUSTEE).
Proof.
  unfold sovtoken_integrate_plugin_in_node, update_config, init_storages, init_token_state, init_token_ledger,
    init_token_database, token_register_req_handlers, token_register_batch_handlers,
    token_register_authentication, get_ledger, config.
  solve_simulates.
Qed.

Lemma simulates_sovtokenfees :
  simulates (N:=N) (sovtokenfees_integrate_plugin_in_node get_action_id TRUSTEE list_of_set)
    (sovtokenfees_integrate_plugin_in_node get_action_id TRUSTEE list_of_set).
Proof.
  unfold sovtokenfees_integrate_plugin_in_node, register_trackers, fees_register_req_handlers,
    fees_register_batch_handlers, set_callbacks, set_post_catchup_callback, set_post_added_txn_callback,
    fees_register_authentication, register_hooks, register_auth_hooks, get_ledger, get_state, types_of_ledger,
    token_ledger_info, not_none.
  solve_simulates.
Qed.
End Programs.

(** What sovtoken needs of the node: the settings it reads, and that nothing of it
    is there yet. *)
Record ready_for_sovtoken r : Prop := {
  rs_durability : is_Some (r_config r !! "EnsureLedgerDurability");
  rs_db_config : is_Some (r_config r !! "db_state_config");
  rs_msg_limit : is_Some (r_config r !! "MSG_LEN_LIMIT");
  rs_database : r_databases r !! TOKEN_LEDGER_ID = None;
  rs_store : r_stores r !! UTXO_CACHE_LABEL = None;
  rs_registry : r_ledger_registry r !! TOKEN_LEDGER_ID = None;
}.

(** The objects it creates. *)
Definition setting r (key : string) : config_value := default Rocksdb (r_config r !! key).
Definition token_state_object r : state_object :=
  PruningState (mkStorage Rocksdb (r_data_location r) (CfgStr "sovtoken_state") (Some (setting r "db_state_config"))).
Definition token_ledger_object r : ledger_object :=
  NewLedger "sovtoken" (r_data_location r) (CfgStr "sovtoken_transactions") (setting r "EnsureLedgerDurability").
Definition utxo_store_object r : store_object :=
  UTXOCacheStore (mkStorage Rocksdb (r_data_location r) (CfgStr "utxo_cache") None).

Definition token_ids r : list Z :=
  if bool_decide (TOKEN_LEDGER_ID ∈ r_ledger_ids r) then r_ledger_ids r else r_ledger_ids r ++ [TOKEN_LEDGER_ID].

(** [node.config] with the settings of [update_config]. *)
Definition token_config r : gmap string config_value :=
  <["utxoCacheDbName" := CfgStr "utxo_cache"]> (<["utxoCacheStorage" := Rocksdb]>
    (<["tokenStateDbName" := CfgStr "sovtoken_state"]> (<["tokenStateStorage" := Rocksdb]>
    (<["tokenTransactionsFile" := CfgStr "sovtoken_transactions"]> (r_config r))))).

(** What sovtoken leaves behind in the registries. *)
Record sovtoken_loaded r r' : Prop := {
  sl_config : r_config r' = token_config r;
  sl_location : r_data_location r' = r_data_location r;
  sl_ids : r_ledger_ids r' = token_ids r;
  sl_auth_map : r_auth_map r' = aupdate (r_auth_map r) (sovtoken_auth_map get_action_id TRUSTEE);
  sl_databases : r_databases r' = <[TOKEN_LEDGER_ID := (token_ledger_object r, token_state_object r)]> (r_databases r);
  sl_stores : r_stores r' = <[UTXO_CACHE_LABEL := utxo_store_object r]> (r_stores r);
  sl_trackers : r_trackers r' = r_trackers r;
  sl_registry : r_ledger_registry r' = <[TOKEN_LEDGER_ID :=
    mkLedgerInfo (Some (token_ledger_object r)) None (Some PostTxnFromCatchupAddedToLedger)]> (r_ledger_registry r);
  sl_handlers : r_handlers r' =
    append_at (Some MINT_PUBLIC) MintHandler (append_at (Some XFER_PUBLIC) XferHandler (r_handlers r));
  sl_types lid : lid <> TOKEN_LEDGER_ID -> r_types r' !! lid = r_types r !! lid;
  sl_token_types : r_types r' !! TOKEN_LEDGER_ID =
    Some ({[Some MINT_PUBLIC]} ∪ ({[Some XFER_PUBLIC]} ∪ default ∅ (r_types r !! TOKEN_LEDGER_ID)));
  sl_read : r_read_handlers r' = r_read_handlers r ++ [GetUtxoHandler (setting r "MSG_LEN_LIMIT")];
  sl_batch : r_batch_handlers r' !! TOKEN_LEDGER_ID = Some
    (TokenBatchObject :: UTXOBatchObject :: default [] (r_batch_handlers r !! TOKEN_LEDGER_ID) ++
      [OtherBatchObject "node_reg_handler" 0; OtherBatchObject "primary_reg_handler" 0;
       OtherBatchObject "audit_b_handler" 0]);
  sl_other_batch lid : lid <> TOKEN_LEDGER_ID -> r_batch_handlers r' !! lid = r_batch_handlers r !! lid;
  sl_versioned : r_versioned r' = <[(Some XFER_PUBLIC, "1.0.0") := XferHandler100]> (r_versioned r);
  sl_authnrs : r_authnrs r' = r_authnrs r ++ [token_authnr];
  sl_authorizers : r_authorizers r' = r_authorizers r;
  sl_bus : r_bus r' = r_bus r /\ r_master_instance r' = r_master_instance r;
  sl_heads : r_committedHeadHash r' = r_committedHeadHash r /\
    r_uncommitted_root_hash r' = r_uncommitted_root_hash r /\ r_ledger_size r' = r_ledger_size r;
  sl_next : r_next_fees_tracker r' = r_next_fees_tracker r;
}.

Lemma run_config {B} r key v (k : config_value -> M registries B) :
  r_config r !! key = Some v -> bind (config key) k r = k v r.
Proof. intros Hk. unfold config. rewrite run_assoc, run_ask. by rewrite Hk. Qed.

Definition after_config r : registries :=
  set_config (token_config r) r.

Lemma run_update_config {B} (k : unit -> M registries B) r : bind update_config k r = k tt (after_config r).
Proof. done. Qed.

(** The settings that [init_storages] reads. *)
Record configured r : Prop := {
  cf_file : r_config r !! "tokenTransactionsFile" = Some (CfgStr "sovtoken_transactions");
  cf_state : r_config r !! "tokenStateStorage" = Some Rocksdb;
  cf_state_name : r_config r !! "tokenStateDbName" = Some (CfgStr "sovtoken_state");
  cf_cache : r_config r !! "utxoCacheStorage" = Some Rocksdb;
  cf_cache_name : r_config r !! "utxoCacheDbName" = Some (CfgStr "utxo_cache");
}.

Definition after_storages r : registries :=
  set_stores (<[UTXO_CACHE_LABEL := utxo_store_object r]> (r_stores r))
  (set_ledger_registry (<[TOKEN_LEDGER_ID := mkLedgerInfo (Some (token_ledger_object r)) None
                            (Some PostTxnFromCatchupAddedToLedger)]> (r_ledger_registry r))
  (set_databases (<[TOKEN_LEDGER_ID := (token_ledger_object r, token_state_object r)]> (r_databases r))
  (set_ledger_ids (token_ids r) r))).

Ltac run_step ::=
  first
    [ rewrite run_assoc | rewrite run_ret | rewrite run_ask
    | rewrite run_call by solve_registries
    | rewrite run_last_call by solve_registries
    | erewrite run_config by solve_registries ].

Lemma run_init_storages {B} (k : unit -> M registries B) r :
  ready_for_sovtoken r -> configured r -> bind init_storages k r = k tt (after_storages r).
Proof.
  intros [[dur Hd] [dbc Hc] _ Hdb Hst Hreg] [].
  unfold after_storages, token_ledger_object, token_state_object, utxo_store_object, setting, token_ids. rewrite Hd, Hc.
  unfold init_storages, init_token_state, init_token_ledger, init_token_database, get_ledger.
  run. destruct (bool_decide (TOKEN_LEDGER_ID ∈ r_ledger_ids r)); run.
  all: rewrite effect_add_ledger by solve_registries; read_registries; by simplify_map_eq.
Qed.

Lemma run_token_req_handlers {B} (k : unit -> M registries B) r msg :
  r_config r !! "MSG_LEN_LIMIT" = Some msg ->
  exists types, (forall lid, lid <> TOKEN_LEDGER_ID -> types !! lid = r_types r !! lid) /\
    types !! TOKEN_LEDGER_ID =
      Some ({[Some MINT_PUBLIC]} ∪ ({[Some XFER_PUBLIC]} ∪ default ∅ (r_types r !! TOKEN_LEDGER_ID))) /\
    bind token_register_req_handlers k r =
      k tt (set_read_handlers (r_read_handlers r ++ [GetUtxoHandler msg])
        (set_versioned (<[(Some XFER_PUBLIC, "1.0.0") := XferHandler100]> (r_versioned r))
        (set_types types (set_handlers (append_at (Some MINT_PUBLIC) MintHandler
          (append_at (Some XFER_PUBLIC) XferHandler (r_handlers r))) r)))).
Proof.
  intros Hm. unfold token_register_req_handlers. run. match goal with |- context [k () ?r' = _] => exists (r_types r') end. split_and!; [| |done]; read_registries.
  - intros lid Hlid. by rewrite !lookup_partial_alter_ne by done.
  - by rewrite !lookup_partial_alter_eq.
Qed.

Lemma run_token_batch_handlers {B} (k : unit -> M registries B) r :
  exists bs, bs !! TOKEN_LEDGER_ID = Some
      (TokenBatchObject :: UTXOBatchObject :: default [] (r_batch_handlers r !! TOKEN_LEDGER_ID) ++
        [OtherBatchObject "node_reg_handler" 0; OtherBatchObject "primary_reg_handler" 0;
         OtherBatchObject "audit_b_handler" 0]) /\
    (forall lid, lid <> TOKEN_LEDGER_ID -> bs !! lid = r_batch_handlers r !! lid) /\
    bind token_register_batch_handlers k r = k tt (set_batch_handlers bs r).
Proof.
  unfold token_register_batch_handlers. run.
  match goal with |- context [k () ?r' = _] => exists (r_batch_handlers r') end.
  read_registries. cbn [default from_option id batch_ledger_id]. unfold TokenBatchHandler_init, UTXOBatchHandler_init.
  split_and!; [|intros lid Hlid; by rewrite !append_at_ne, !prepend_at_ne by done|done].
  rewrite !append_at_eq, !prepend_at_eq. simpl. by rewrite <-!(assoc_L (++)).
Qed.

Lemma sovtoken_loads r :
  ready_for_sovtoken r ->
  exists r', sovtoken_integrate_plugin_in_node (N:=registries) get_action_id TRUSTEE r = (Ok tt, r') /\
    sovtoken_loaded r r'.
Proof.
  intros Hr. pose proof Hr as [[dur Hd] [dbc Hc] [msg Hm] Hdb Hst Hreg].
  unfold sovtoken_integrate_plugin_in_node. rewrite run_update_config. run.
  rewrite run_init_storages; [|split; try eexists; unfold after_config, token_config; solve_registries
    |split; unfold after_config, token_config; solve_registries]. cbv beta.
  edestruct (run_token_req_handlers (B:=unit)) as (types & Htypes & Htoken & ->);
    [unfold after_config, token_config; solve_registries|]. cbv beta.
  edestruct (run_token_batch_handlers (B:=unit)) as (bs & Hbs & Hbs' & ->). cbv beta.
  unfold token_register_authentication. run. eexists. split; [reflexivity|].
  unfold after_storages, after_config, token_ids, token_config in *.
  split; read_registries; unfold token_ledger_object, token_state_object, utxo_store_object, setting;
    read_registries; rewrite ?Hd, ?Hc, ?Hm; simplify_map_eq; try done.
Qed.

(** What the fees plugin needs, and what it does. *)
Definition own_types : list (option string) :=
  Some <$> [AUTH_RULE; AUTH_RULES; XFER_PUBLIC; SET_FEES; FEE_TXN].

Record ready_for_fees r (s : gset (option string)) (l : ledger_object) (t : state_object)
    (info : ledger_info) (a : authnr) : Prop := {
  rf_database : r_databases r !! TOKEN_LEDGER_ID = Some (l, t);
  rf_tracker : r_trackers r !! TOKEN_LEDGER_ID = None;
  rf_registry : r_ledger_registry r !! TOKEN_LEDGER_ID = Some info;
  rf_xfer : is_Some (r_handlers r !! Some XFER_PUBLIC);
  rf_types : r_types r !! DOMAIN_LEDGER_ID = Some s;
  rf_own_types : forall typ, typ ∈ own_types -> typ ∉ s;
  rf_authnr : head (filter (fun a => is_token_authnr a) (r_authnrs r)) = Some a;
}.

Definition fees_handlers : list handler :=
  [SetFeesHandler; FeeTxnCatchupHandler; AuthRuleFeeHandler GetFeesHandler; AuthRulesFeeHandler GetFeesHandler].

(** [ledger_id_to_types] after it: the types [s] of the domain ledger stay, and
    removing the transfer handler takes its type out of every ledger before it is
    registered again. *)
Record fees_types (types : gmap Z (gset (option string))) (s : gset (option string))
    (types' : gmap Z (gset (option string))) : Prop := {
  ft_domain : types' !! DOMAIN_LEDGER_ID = Some s;
  ft_token : types' !! TOKEN_LEDGER_ID = Some ({[Some FEE_TXN]} ∪ ({[Some XFER_PUBLIC]} ∪
    default ∅ (types_without (Some XFER_PUBLIC) <$> types !! TOKEN_LEDGER_ID)));
  ft_config : types' !! CONFIG_LEDGER_ID = Some ({[Some AUTH_RULES]} ∪ ({[Some AUTH_RULE]} ∪
    types_without (Some XFER_PUBLIC) ({[Some SET_FEES]} ∪ default ∅ (types !! CONFIG_LEDGER_ID))));
  ft_other lid : lid ∉ [DOMAIN_LEDGER_ID; TOKEN_LEDGER_ID; CONFIG_LEDGER_ID] ->
    types' !! lid = types_without (Some XFER_PUBLIC) <$> types !! lid;
}.

Record fees_loaded r (s : gset (option string)) l t info a r' : Prop := {
  fl_auth_map : r_auth_map r' = aupdate (r_auth_map r) (sovtokenfees_auth_map get_action_id TRUSTEE);
  fl_trackers : r_trackers r' = <[TOKEN_LEDGER_ID := LedgerUncommittedTracker (r_committedHeadHash r t)
                  (r_uncommitted_root_hash r l) (r_ledger_size r l)]> (r_trackers r);
  fl_registry : r_ledger_registry r' !! TOKEN_LEDGER_ID = Some (mkLedgerInfo (li_ledger info)
    (Some (PostCatchupComplete (li_postCatchupComplete info))) (Some (FilterFees (li_postTxnAdded info))));
  fl_xfer : r_handlers r' !! Some XFER_PUBLIC = Some [XferFeeHandler];
  fl_domain typ : typ ∈ s ->
    r_handlers r' !! typ = Some (default [] (r_handlers r !! typ) ++ [DomainFeeHandler (r_next_fees_tracker r)]);
  fl_own h : h ∈ fees_handlers ->
    r_handlers r' !! hb_txn_type (handler_init h) = Some (default [] (r_handlers r !! hb_txn_type (handler_init h)) ++ [h]);
  fl_other typ : typ ∉ s -> typ ∉ own_types ->
    r_handlers r' !! typ = r_handlers r !! typ;
  fl_versioned : r_versioned r' = <[(Some SET_FEES, "0.9.3") := SetFeesHandler093]> (r_versioned r);
  fl_batch_token : r_batch_handlers r' !! TOKEN_LEDGER_ID =
    Some (default [] (r_batch_handlers r !! TOKEN_LEDGER_ID) ++ [TrackerBatchObject]);
  fl_batch_domain : r_batch_handlers r' !! DOMAIN_LEDGER_ID =
    Some (default [] (r_batch_handlers r !! DOMAIN_LEDGER_ID) ++ [DomainFeeBatchObject (r_next_fees_tracker r)]);
  fl_authnrs : r_authnrs r' = r_authnrs r ++ [fees_authnr a];
  fl_authorizers : r_authorizers r' =
    r_authorizers r ++ [FeesAuthorizer (snd <$> r_databases r !! CONFIG_LEDGER_ID) (r_stores r !! UTXO_CACHE_LABEL)];
  fl_bus : r_bus r' = r_bus r ++ [mkSubscription "PreSigVerification" (fees_authnr a) (r_master_instance r)];
  fl_read : r_read_handlers r' = r_read_handlers r ++ [GetFeeHandler; GetFeesHandler];
  fl_types : fees_types (r_types r) s (r_types r');
  fl_other_registry lid : lid <> TOKEN_LEDGER_ID -> r_ledger_registry r' !! lid = r_ledger_registry r !! lid;
  fl_other_batch lid : lid <> TOKEN_LEDGER_ID -> lid <> DOMAIN_LEDGER_ID ->
    r_batch_handlers r' !! lid = r_batch_handlers r !! lid;
  fl_next : r_next_fees_tracker r' = S (r_next_fees_tracker r);
  fl_kept : r_config r' = r_config r /\ r_data_location r' = r_data_location r /\ r_ledger_ids r' = r_ledger_ids r /\
    r_databases r' = r_databases r /\ r_stores r' = r_stores r /\ r_master_instance r' = r_master_instance r /\
    r_committedHeadHash r' = r_committedHeadHash r /\ r_uncommitted_root_hash r' = r_uncommitted_root_hash r /\
    r_ledger_size r' = r_ledger_size r;
}.

Context (list_of_set_elements : forall s, list_of_set s ≡ₚ elements s).

Lemma run_register_trackers {B} (k : fees_tracker_ref -> M registries B) r l t :
  r_trackers r !! TOKEN_LEDGER_ID = None ->
  bind (register_trackers (Some t) (Some l)) k r =
    k (r_next_fees_tracker r)
      (set_trackers (<[TOKEN_LEDGER_ID := LedgerUncommittedTracker (r_committedHeadHash r t)
                         (r_uncommitted_root_hash r l) (r_ledger_size r l)]> (r_trackers r))
        (set_next_fees_tracker (S (r_next_fees_tracker r)) r)).
Proof. intros Htr. unfold register_trackers, not_none. by run. Qed.

(** [request_handlers] after the fees plugin has registered its handlers. *)
Definition handlers_with_fees (ft : fees_tracker_ref) (types : list (option string))
    (hs : gmap (option string) (list handler)) : gmap (option string) (list handler) :=
  append_at (Some AUTH_RULES) (AuthRulesFeeHandler GetFeesHandler)
  (append_at (Some AUTH_RULE) (AuthRuleFeeHandler GetFeesHandler)
  (append_at (Some FEE_TXN) FeeTxnCatchupHandler
  (append_all types (DomainFeeHandler ft)
  (append_at (Some XFER_PUBLIC) XferFeeHandler
  (delete (Some XFER_PUBLIC)
  (append_at (Some SET_FEES) SetFeesHandler hs)))))).

Lemma run_fees_req_handlers {B} (k : unit -> M registries B) r ft s :
  is_Some (r_handlers r !! Some XFER_PUBLIC) -> r_types r !! DOMAIN_LEDGER_ID = Some s -> Some XFER_PUBLIC ∉ s ->
  list_of_set s ≡ₚ elements s ->
  exists types, fees_types (r_types r) s types /\
    bind (fees_register_req_handlers list_of_set ft) k r =
      k tt (set_read_handlers (r_read_handlers r ++ [GetFeeHandler; GetFeesHandler])
        (set_versioned (<[(Some SET_FEES, "0.9.3") := SetFeesHandler093]> (r_versioned r)) (set_types types
        (set_handlers (handlers_with_fees ft (list_of_set s) (r_handlers r)) r)))).
Proof.
  intros [hs Hxf] Hty Hs Hel.
  pose proof domain_not_config as Hdc. pose proof domain_not_token as Hdt. pose proof config_not_token as Hct.
  unfold fees_register_req_handlers, types_of_ledger. run. read_registries. rewrite append_at_ne, Hxf by done. run.
  rewrite run_call by (read_registries; rewrite append_at_ne by done; by rewrite Hxf). run.
  erewrite run_lift; cycle 1.
  { read_registries. rewrite lookup_partial_alter_ne, lookup_fmap, lookup_partial_alter_ne, Hty by done. simpl.
    by rewrite types_without_other. }
  cbv beta. run.
  edestruct (run_register_all (B:=B) (list_of_set s) (DomainFeeHandler ft)) as (all_types & Hne & Heq & ->); [done|].
  run. match goal with |- context [k () ?r' = _] => exists (r_types r') end.
  revert Hne Heq. cbn [handler_init hb_ledger_id DomainFeeHandler_init]. read_registries.
  cbn [handler_init hb_ledger_id hb_txn_type SetFeesHandler_init XferHandler_init FeeTxnCatchupHandler_init
    AuthRuleFeeHandler_init AuthRulesFeeHandler_init]. intros Hne Heq. split.
  - split.
    + rewrite !lookup_partial_alter_ne by done. apply Heq.
      * rewrite lookup_partial_alter_ne, lookup_fmap, lookup_partial_alter_ne, Hty by done. simpl.
        by rewrite types_without_other.
      * apply Forall_forall. intros typ Htyp. rewrite Hel in Htyp. by apply elem_of_elements in Htyp.
    + rewrite !(lookup_partial_alter_ne _ _ CONFIG_LEDGER_ID), lookup_partial_alter_eq, Hne by done.
      by rewrite lookup_partial_alter_eq, lookup_fmap, lookup_partial_alter_ne by done.
    + rewrite !lookup_partial_alter_eq, (lookup_partial_alter_ne _ _ TOKEN_LEDGER_ID), Hne by done.
      by rewrite lookup_partial_alter_ne, lookup_fmap, lookup_partial_alter_eq by done.
    + intros lid Hlid. rewrite !not_elem_of_cons in Hlid. destruct Hlid as (? & ? & ? & _).
      rewrite !lookup_partial_alter_ne, Hne by done.
      by rewrite lookup_partial_alter_ne, lookup_fmap, lookup_partial_alter_ne by done.
  - f_equal; read_registries. by rewrite <-(assoc_L (++)).
Qed.

Lemma run_fees_batch_handlers {B} (k : unit -> M registries B) r ft :
  bind (fees_register_batch_handlers ft) k r =
    k tt (set_batch_handlers (append_at TOKEN_LEDGER_ID TrackerBatchObject
      (append_at DOMAIN_LEDGER_ID (DomainFeeBatchObject ft) (r_batch_handlers r))) r).
Proof. unfold fees_register_batch_handlers. by run. Qed.

Lemma run_set_callbacks {B} (k : unit -> M registries B) r info :
  r_ledger_registry r !! TOKEN_LEDGER_ID = Some info ->
  exists registry,
    registry !! TOKEN_LEDGER_ID = Some (mkLedgerInfo (li_ledger info)
      (Some (PostCatchupComplete (li_postCatchupComplete info))) (Some (FilterFees (li_postTxnAdded info)))) /\
    (forall lid, lid <> TOKEN_LEDGER_ID -> registry !! lid = r_ledger_registry r !! lid) /\
    bind set_callbacks k r = k tt (set_ledger_registry registry r).
Proof.
  intros Hinfo. unfold set_callbacks, set_post_catchup_callback, set_post_added_txn_callback, token_ledger_info. run.
  rewrite Hinfo. cbn [dict_item]. erewrite run_lift by done. cbv beta. run.
  read_registries. rewrite lookup_alter_eq, Hinfo. cbn [dict_item fmap option_fmap option_map].
  erewrite run_lift by done. cbv beta.
  rewrite run_call by (read_registries; by rewrite lookup_alter_eq, Hinfo).
  match goal with |- context [k () ?r' = _] => exists (r_ledger_registry r') end.
  split_and!; [| |done]; read_registries; [by rewrite !lookup_alter_eq, Hinfo|].
  intros lid Hlid. by rewrite !lookup_alter_ne.
Qed.

Lemma run_fees_authentication {B} (k : authnr -> M registries B) r a :
  head (filter (fun a => is_token_authnr a) (r_authnrs r)) = Some a ->
  bind fees_register_authentication k r =
    k (fees_authnr a) (set_authorizers (r_authorizers r ++
        [FeesAuthorizer (snd <$> r_databases r !! CONFIG_LEDGER_ID) (r_stores r !! UTXO_CACHE_LABEL)])
      (set_authnrs (r_authnrs r ++ [fees_authnr a]) r)).
Proof.
  intros Ha. unfold fees_register_authentication, get_state. run. cbv beta.
  destruct (filter _ (r_authnrs r)) as [|a' l']; [done|]. injection Ha as ->. by run.
Qed.

Ltac keys_differ := first [congruence|discriminate].
Ltac solve_own_types := unfold own_types; csimpl; rewrite !elem_of_cons; tauto.

Lemma own_types_ne :
  AUTH_RULE <> AUTH_RULES /\ Forall (fun t => AUTH_RULE <> t /\ AUTH_RULES <> t) [XFER_PUBLIC; SET_FEES; FEE_TXN].
Proof. pose proof auth_types_new as Hnew. rewrite !NoDup_cons in Hnew. rewrite !Forall_cons. set_solver. Qed.

Lemma fees_handlers_types h :
  h ∈ fees_handlers ->
  hb_txn_type (handler_init h) <> Some XFER_PUBLIC /\ hb_txn_type (handler_init h) <> Some MINT_PUBLIC.
Proof.
  destruct own_types_ne as [_ Hne]. rewrite !Forall_cons in Hne. destruct_and! Hne. destruct mint_type_new.
  unfold fees_handlers. rewrite !elem_of_cons, elem_of_nil.
  intros [->|[->|[->|[->|[]]]]]; simpl; split; keys_differ.
Qed.

(** The handlers a type has in the end. *)
Section HandlersWithFees.
Context (ft : fees_tracker_ref) (types : list (option string)) (hs : gmap (option string) (list handler)).
Context (types_NoDup : NoDup types) (types_foreign : forall typ, typ ∈ own_types -> typ ∉ types).

Lemma handlers_with_fees_foreign typ :
  typ ∉ own_types ->
  handlers_with_fees ft types hs !! typ =
    if decide (typ ∈ types) then Some (default [] (hs !! typ) ++ [DomainFeeHandler ft]) else hs !! typ.
Proof.
  intros Ht. unfold own_types in Ht. csimpl in Ht. rewrite !not_elem_of_cons in Ht.
  destruct Ht as (? & ? & ? & ? & ? & _). unfold handlers_with_fees.
  rewrite !append_at_ne, append_all_lookup by done. by rewrite append_at_ne, lookup_delete_ne, append_at_ne by done.
Qed.

Lemma handlers_with_fees_own typ :
  typ ∈ own_types ->
  handlers_with_fees ft types hs !! typ =
    (append_at (Some AUTH_RULES) (AuthRulesFeeHandler GetFeesHandler)
      (append_at (Some AUTH_RULE) (AuthRuleFeeHandler GetFeesHandler)
      (append_at (Some FEE_TXN) FeeTxnCatchupHandler
      (append_at (Some XFER_PUBLIC) XferFeeHandler
        (delete (Some XFER_PUBLIC) (append_at (Some SET_FEES) SetFeesHandler hs)))))) !! typ.
Proof.
  intros Ht. unfold handlers_with_fees. rewrite !append_at_lookup, append_all_lookup by done.
  rewrite (decide_False (P:=typ ∈ types)) by auto. by rewrite append_at_lookup.
Qed.

Lemma handlers_with_fees_xfer : handlers_with_fees ft types hs !! Some XFER_PUBLIC = Some [XferFeeHandler].
Proof.
  destruct own_types_ne as [_ Hne]. rewrite !Forall_cons in Hne. destruct_and! Hne.
  rewrite handlers_with_fees_own by solve_own_types.
  rewrite !append_at_ne by keys_differ. by rewrite append_at_eq, lookup_delete_eq.
Qed.

Lemma handlers_with_fees_new h :
  h ∈ fees_handlers ->
  handlers_with_fees ft types hs !! hb_txn_type (handler_init h) =
    Some (default [] (hs !! hb_txn_type (handler_init h)) ++ [h]).
Proof.
  destruct own_types_ne as [Hr Hne]. rewrite !Forall_cons in Hne. destruct_and! Hne.
  intros Hh. unfold fees_handlers in Hh. rewrite !elem_of_cons, elem_of_nil in Hh.
  destruct Hh as [->|[->|[->|[->|[]]]]]; cbn [handler_init hb_txn_type SetFeesHandler_init FeeTxnCatchupHandler_init
    AuthRuleFeeHandler_init AuthRulesFeeHandler_init];
    change (fees_txn_value SET_FEES_TXN) with SET_FEES; rewrite handlers_with_fees_own by solve_own_types.
  - rewrite !append_at_ne by keys_differ. by rewrite lookup_delete_ne, append_at_eq by keys_differ.
  - rewrite (append_at_ne (Some AUTH_RULES)), (append_at_ne (Some AUTH_RULE)), append_at_eq by keys_differ.
    by rewrite append_at_ne, lookup_delete_ne, append_at_ne by keys_differ.
  - rewrite (append_at_ne (Some AUTH_RULES)), append_at_eq by keys_differ.
    by rewrite !append_at_ne, lookup_delete_ne, append_at_ne by keys_differ.
  - rewrite append_at_eq. by rewrite !append_at_ne, lookup_delete_ne, append_at_ne by keys_differ.
Qed.
End HandlersWithFees.

Lemma sovtokenfees_loads r s l t info a :
  ready_for_fees r s l t info a ->
  exists r', sovtokenfees_integrate_plugin_in_node (N:=registries) get_action_id TRUSTEE list_of_set r = (Ok tt, r') /\
    fees_loaded r s l t info a r'.
Proof.
  intros [Hdb Htr Hreg Hxf Hty Hown Ha].
  assert (NoDup (list_of_set s)) as Hnd by (rewrite list_of_set_elements; apply NoDup_elements).
  assert (forall typ, typ ∈ list_of_set s <-> typ ∈ s) as Hel
    by (intros typ; by rewrite list_of_set_elements, elem_of_elements).
  assert (forall typ, typ ∈ own_types -> typ ∉ list_of_set s) as Hown' by (intros typ; rewrite Hel; auto).
  unfold sovtokenfees_integrate_plugin_in_node, get_ledger, get_state. run. rewrite Hdb. cbn [fmap option_fmap option_map].
  rewrite run_register_trackers by done. run.
  edestruct (run_fees_req_handlers (B:=unit)) as (types & Htypes & ->); [solve_registries..|
    apply Hown; set_solver|apply list_of_set_elements|]. cbv beta.
  rewrite run_fees_batch_handlers.
  edestruct (run_set_callbacks (B:=unit)) as (registry & Hregistry & Hother & ->); [read_registries; exact Hreg|]. cbv beta.
  rewrite (run_fees_authentication _ _ a) by done. unfold register_hooks, register_auth_hooks. run.
  eexists. split; [reflexivity|]. pose proof domain_not_token.
  split; read_registries; simplify_map_eq; try done.
  - by apply handlers_with_fees_xfer.
  - intros typ Htyp. rewrite handlers_with_fees_foreign by naive_solver. by rewrite decide_True by by apply Hel.
  - intros h Hh. by apply handlers_with_fees_new.
  - intros typ Htyp Hty'. rewrite handlers_with_fees_foreign by done. by rewrite decide_False by by rewrite Hel.
  - by rewrite append_at_eq, append_at_ne.
  - by rewrite append_at_ne, append_at_eq.
  - intros lid Hlid Hlid'. by rewrite !append_at_ne.
Qed.

(** ** Both plugins *)

Definition batch_handler_of (b : batch_object) : batch_handler :=
  match b with
  | TokenBatchObject => TokenBatchHandler
  | UTXOBatchObject => UTXOBatchHandler
  | DomainFeeBatchObject _ => DomainFeeBatchHandler
  | TrackerBatchObject => TrackerBatchHandler
  | OtherBatchObject name _ => PlenumBatchHandler name
  end.

(** A node that has neither plugin, whose domain ledger has the transaction types [s]. *)
Record unplugged r (s : gset (option string)) : Prop := {
  up_ready : ready_for_sovtoken r;
  up_tracker : r_trackers r !! TOKEN_LEDGER_ID = None;
  up_batch : r_batch_handlers r !! TOKEN_LEDGER_ID = None;
  up_authnrs : filter (fun a => is_token_authnr a) (r_authnrs r) = [];
  up_types : r_types r !! DOMAIN_LEDGER_ID = Some s;
  up_own : forall typ, typ ∈ Some MINT_PUBLIC :: own_types -> typ ∉ s;
}.

Lemma sovtoken_makes_ready r s r' :
  unplugged r s -> sovtoken_loaded r r' ->
  ready_for_fees r' s (token_ledger_object r) (token_state_object r)
    (mkLedgerInfo (Some (token_ledger_object r)) None (Some PostTxnFromCatchupAddedToLedger)) token_authnr.
Proof.
  intros [_ Htr _ Hau Hty Hown] []. split.
  - by rewrite sl_databases0, lookup_insert_eq.
  - by rewrite sl_trackers0.
  - by rewrite sl_registry0, lookup_insert_eq.
  - rewrite sl_handlers0, append_at_ne, append_at_eq by discriminate. by eexists.
  - by rewrite sl_types0 by apply domain_not_token.
  - intros typ Htyp. apply Hown. by right.
  - by rewrite sl_authnrs0, filter_app, Hau.
Qed.

Definition token_handlers r : option (list batch_handler) :=
  map batch_handler_of <$> r_batch_handlers r !! TOKEN_LEDGER_ID.

(** The node's registries [r'] once both plugins have loaded into [r]. *)
Record both_loaded r (s : gset (option string)) r' : Prop := {
  bl_xfer : r_handlers r' !! Some XFER_PUBLIC = Some [XferFeeHandler];
  bl_mint : r_handlers r' !! Some MINT_PUBLIC = Some (default [] (r_handlers r !! Some MINT_PUBLIC) ++ [MintHandler]);
  (** the handler and the batch handler of domain fees share one tracker *)
  bl_domain : exists fees_tracker,
    (forall typ, typ ∈ s ->
      r_handlers r' !! typ = Some (default [] (r_handlers r !! typ) ++ [DomainFeeHandler fees_tracker])) /\
    r_batch_handlers r' !! DOMAIN_LEDGER_ID =
      Some (default [] (r_batch_handlers r !! DOMAIN_LEDGER_ID) ++ [DomainFeeBatchObject fees_tracker]);
  (** other types, among them SET_FEES and FEE_TXN, get their handlers after those they have *)
  bl_own h : h ∈ fees_handlers ->
    r_handlers r' !! hb_txn_type (handler_init h) =
      Some (default [] (r_handlers r !! hb_txn_type (handler_init h)) ++ [h]);
  bl_versioned : r_versioned r' = <[(Some SET_FEES, "0.9.3") := SetFeesHandler093]>
    (<[(Some XFER_PUBLIC, "1.0.0") := XferHandler100]> (r_versioned r));
  bl_batch : token_handlers r' = Some token_batch_handlers;
  bl_callbacks : r_ledger_registry r' !! TOKEN_LEDGER_ID = Some (mkLedgerInfo (Some (token_ledger_object r))
    (Some (PostCatchupComplete None)) (Some (FilterFees (Some PostTxnFromCatchupAddedToLedger))));
  bl_tracker : r_trackers r' !! TOKEN_LEDGER_ID = Some (LedgerUncommittedTracker
    (r_committedHeadHash r (token_state_object r)) (r_uncommitted_root_hash r (token_ledger_object r))
    (r_ledger_size r (token_ledger_object r)));
  bl_authnrs : r_authnrs r' = r_authnrs r ++ [token_authnr; fees_authnr token_authnr];
  bl_authorizers : r_authorizers r' = r_authorizers r ++
    [FeesAuthorizer (snd <$> r_databases r !! CONFIG_LEDGER_ID) (Some (utxo_store_object r))];
  bl_bus : r_bus r' = r_bus r ++
    [mkSubscription "PreSigVerification" (fees_authnr token_authnr) (r_master_instance r)];
  bl_auth_map : r_auth_map r' = aupdate (aupdate (r_auth_map r) (sovtoken_auth_map get_action_id TRUSTEE))
    (sovtokenfees_auth_map get_action_id TRUSTEE);
}.

(** The rest of the registries: what else the plugins add, and what they leave alone. *)
Record rest_loaded r (s : gset (option string)) r' : Prop := {
  rl_read : r_read_handlers r' =
    r_read_handlers r ++ [GetUtxoHandler (setting r "MSG_LEN_LIMIT"); GetFeeHandler; GetFeesHandler];
  rl_databases : r_databases r' = <[TOKEN_LEDGER_ID := (token_ledger_object r, token_state_object r)]> (r_databases r);
  rl_stores : r_stores r' = <[UTXO_CACHE_LABEL := utxo_store_object r]> (r_stores r);
  rl_ids : r_ledger_ids r' = token_ids r;
  rl_config : r_config r' = token_config r;
  rl_types : exists types,
    (forall lid, lid <> TOKEN_LEDGER_ID -> types !! lid = r_types r !! lid) /\
    types !! TOKEN_LEDGER_ID =
      Some ({[Some MINT_PUBLIC]} ∪ ({[Some XFER_PUBLIC]} ∪ default ∅ (r_types r !! TOKEN_LEDGER_ID))) /\
    fees_types types s (r_types r');
  (** the types of no plugin and of no domain transaction keep their handlers *)
  rl_handlers typ : typ ∉ s -> typ ∉ Some MINT_PUBLIC :: own_types -> r_handlers r' !! typ = r_handlers r !! typ;
  rl_batch lid : lid <> TOKEN_LEDGER_ID -> lid <> DOMAIN_LEDGER_ID ->
    r_batch_handlers r' !! lid = r_batch_handlers r !! lid;
  rl_registry lid : lid <> TOKEN_LEDGER_ID -> r_ledger_registry r' !! lid = r_ledger_registry r !! lid;
  rl_trackers lid : lid <> TOKEN_LEDGER_ID -> r_trackers r' !! lid = r_trackers r !! lid;
  rl_next : r_next_fees_tracker r' = S (r_next_fees_tracker r);
  rl_kept : r_data_location r' = r_data_location r /\ r_master_instance r' = r_master_instance r /\
    r_committedHeadHash r' = r_committedHeadHash r /\ r_uncommitted_root_hash r' = r_uncommitted_root_hash r /\
    r_ledger_size r' = r_ledger_size r;
}.

Lemma contracts_compose r s r1 r2 :
  unplugged r s -> sovtoken_loaded r r1 ->
  fees_loaded r1 s (token_ledger_object r) (token_state_object r)
    (mkLedgerInfo (Some (token_ledger_object r)) None (Some PostTxnFromCatchupAddedToLedger)) token_authnr r2 ->
  both_loaded r s r2.
Proof.
  intros [] [] []. pose proof domain_not_token. pose proof config_not_token.
  assert (forall typ, typ ∈ s -> typ ∉ Some MINT_PUBLIC :: own_types) as Hown by naive_solver.
  assert (Some MINT_PUBLIC ∉ own_types) as Hmint.
  { unfold own_types. csimpl. pose proof mint_type_new. set_solver. }
  split.
  - done.
  - rewrite fl_other0, sl_handlers0, append_at_eq, append_at_ne by first [discriminate | apply up_own0; by left | done]. done.
  - exists (r_next_fees_tracker r1). split; [|by rewrite fl_batch_domain0, sl_other_batch0].
    intros typ Htyp. specialize (Hown typ Htyp). apply not_elem_of_cons in Hown as [Hne Hown].
    rewrite fl_domain0, sl_handlers0, !append_at_ne by first [done | intros <-; apply Hown; solve_own_types]. done.
  - intros h Hh. destruct (fees_handlers_types h Hh).
    by rewrite fl_own0, sl_handlers0, !append_at_ne by done.
  - by rewrite fl_versioned0, sl_versioned0.
  - unfold token_handlers. by rewrite fl_batch_token0, sl_batch0, up_batch0.
  - done.
  - destruct sl_heads0 as (Hh & Hu & Hs). by rewrite fl_trackers0, lookup_insert_eq, Hh, Hu, Hs.
  - by rewrite fl_authnrs0, sl_authnrs0, <-(assoc_L (++)).
  - by rewrite fl_authorizers0, sl_authorizers0, sl_databases0, sl_stores0, lookup_insert_eq, lookup_insert_ne.
  - destruct sl_bus0 as [Hb Hi]. by rewrite fl_bus0, Hb, Hi.
  - by rewrite fl_auth_map0, sl_auth_map0.
Qed.

Lemma rest_compose r s r1 r2 :
  sovtoken_loaded r r1 ->
  fees_loaded r1 s (token_ledger_object r) (token_state_object r)
    (mkLedgerInfo (Some (token_ledger_object r)) None (Some PostTxnFromCatchupAddedToLedger)) token_authnr r2 ->
  rest_loaded r s r2.
Proof.
  intros [] []. destruct_and! fl_kept0. destruct_and! sl_heads0. destruct_and! sl_bus0. split; try congruence.
  - by rewrite fl_read0, sl_read0, <-(assoc_L (++)).
  - by exists (r_types r1).
  - intros typ Hs [Hne Hown]%not_elem_of_cons. rewrite fl_other0, sl_handlers0 by done.
    assert (Some XFER_PUBLIC <> typ) by (intros <-; apply Hown; unfold own_types; csimpl; rewrite !elem_of_cons; tauto).
    by rewrite !append_at_ne by done.
  - intros lid Ht Hd. by rewrite fl_other_batch0, sl_other_batch0.
  - intros lid Ht. rewrite fl_other_registry0, sl_registry0 by done. by rewrite lookup_insert_ne.
  - intros lid Ht. rewrite fl_trackers0, lookup_insert_ne by done. by rewrite sl_trackers0.
  - split_and!; congruence.
Qed.

Section Node.
Context {N : Type} `{!PlenumNode N, !PlenumNodeLaws N}.

Definition load_both : M N unit :=
  sovtoken_integrate_plugin_in_node get_action_id TRUSTEE ;;;
  sovtokenfees_integrate_plugin_in_node get_action_id TRUSTEE list_of_set.

(** C25: on a node that has neither plugin, loading sovtoken and then sovtokenfees
    succeeds.  Afterwards transfers are handled by [XferFeeHandler] alone and mints by
    [MintHandler]; every type of the domain ledger keeps its handlers and gets one
    [DomainFeeHandler], which shares its fees tracker with the batch handler added to
    the domain ledger; the batch handlers of the token ledger are
    [NodeBatches.token_batch_handlers], in this order; the token ledger's callbacks are
    the wrapped ones, its tracker starts at the roots of its state and ledger, and the
    fees authenticator and authorizer have the objects that sovtoken made.  The read
    manager has got the handlers of GET_UTXO, GET_FEE and GET_FEES, the token ledger
    its database, UTXO store and id, the settings are those of [update_config]; every
    other type, ledger, callback, tracker and batch handler is what it was. *)
Theorem plugins_loaded (n : N) (s : gset (option string)) :
  unplugged (registries_of n) s ->
  exists n', load_both n = (Ok tt, n') /\ both_loaded (registries_of n) s (registries_of n') /\
    rest_loaded (registries_of n) s (registries_of n').
Proof.
  intros Hup. destruct (sovtoken_loads _ (up_ready _ _ Hup)) as (r1 & Hrun1 & Hsl).
  destruct (sovtokenfees_loads _ _ _ _ _ _ (sovtoken_makes_ready _ _ _ Hup Hsl)) as (r2 & Hrun2 & Hfl).
  pose proof (simulates_bind _ _ _ _ simulates_sovtoken (fun _ => simulates_sovtokenfees) n) as Hsim.
  rewrite (bind_Ok _ _ _ _ _ Hrun1), Hrun2 in Hsim. injection Hsim as Hok Hr2.
  exists (load_both n).2. unfold load_both. rewrite <-Hr2. split_and!; [|by eapply contracts_compose|by eapply rest_compose].
  by destruct (bind _ _ n); simpl in *; subst.
Qed.

(** The fees plugin refuses to load without sovtoken.  On a node without a token
    database it raises [AttributeError] and registers nothing; its own [ImportError]
    is only raised when the database is there but no handler of transfers is, and
    then the handler of SET_FEES has been registered already. *)
Theorem fees_load_fails (n : N) :
  let r := registries_of n in
  let result := sovtokenfees_integrate_plugin_in_node get_action_id TRUSTEE list_of_set n in
  (r_databases r !! TOKEN_LEDGER_ID = None ->
    result.1 = Raise (AttributeError (Msg "'NoneType' object has no attribute '{}'" [MStr "committedHeadHash"])) /\
    registries_of result.2 = set_next_fees_tracker (S (r_next_fees_tracker r)) r) /\
  (is_Some (r_databases r !! TOKEN_LEDGER_ID) -> r_trackers r !! TOKEN_LEDGER_ID = None ->
    r_handlers r !! Some XFER_PUBLIC = None ->
    result.1 = Raise (ImportError (Msg "sovtoken plugin should be loaded, request handler not found" [])) /\
    r_handlers (registries_of result.2) = append_at (Some SET_FEES) SetFeesHandler (r_handlers r)).
Proof.
  pose proof (simulates_sovtokenfees n) as Hsim. cbv zeta.
  destruct (sovtokenfees_integrate_plugin_in_node _ _ _ n) as [res n']. cbn [fst snd] in *. revert Hsim.
  generalize (registries_of n) as r, (registries_of n') as r'. intros r r'.
  unfold sovtokenfees_integrate_plugin_in_node, get_ledger, get_state. intros Hrun. split.
  - intros Hdb. revert Hrun. run. rewrite Hdb. by intros [= <- <-].
  - intros [[l t] Hdb] Htr Hxf. revert Hrun. run. rewrite Hdb. cbn [fmap option_fmap option_map].
    rewrite run_register_trackers by done. run. unfold fees_register_req_handlers. run.
    read_registries. rewrite append_at_ne, Hxf by done. by intros [= <- <-].
Qed.
End Node.
End Loading.

(** After both plugins have updated the auth map, a mint and a change of the
    fees need three trustees, a transfer needs nobody, and every other rule of
    the node is what it was. *)
Theorem auth_map_updated get_action_id TRUSTEE (auth_map : list (string * auth_rule)) :
  let ids := get_action_id <$> [add_mint; add_xfer; edit_fees] in
  NoDup ids ->
  let auth_map' := aupdate (aupdate auth_map (sovtoken_auth_map get_action_id TRUSTEE))
                           (sovtokenfees_auth_map get_action_id TRUSTEE) in
  alookup (get_action_id add_mint) auth_map' = Some (mkAuthRule TRUSTEE 3) /\
  alookup (get_action_id edit_fees) auth_map' = Some (mkAuthRule TRUSTEE 3) /\
  alookup (get_action_id add_xfer) auth_map' = Some (mkAuthRule "*" 0) /\
  forall k, k ∉ ids -> alookup k auth_map' = alookup k auth_map.
Proof.
  intros ids Hnd auth_map'. unfold ids in Hnd. csimpl in Hnd.
  apply NoDup_cons in Hnd as [H1 [H2 _]%NoDup_cons]. apply not_elem_of_cons in H1 as [H1 [H1' _]%not_elem_of_cons].
  apply not_elem_of_cons in H2 as [H2 _]. unfold auth_map', aupdate. simpl. split_and!.
  - by rewrite alookup_aset_ne, alookup_aset_ne, alookup_aset_eq by congruence.
  - by rewrite alookup_aset_eq.
  - by rewrite alookup_aset_ne, alookup_aset_eq by congruence.
  - intros k Hk. unfold ids in Hk. csimpl in Hk. by rewrite !alookup_aset_ne by set_solver.
Qed.

(** ** Witnesses *)

Module ExNode.
#[global] Instance plenum : Plenum := {
  DOMAIN_LEDGER_ID := 1; CONFIG_LEDGER_ID := 2; AUTH_RULE := "120"; AUTH_RULES := "122";
  types_without t s := s ∖ {[t]};
}.

#[global] Instance plenum_laws : PlenumLaws.
Proof. split; [done..| |set_solver]. by apply (bool_decide_unpack _). Qed.

Definition action_id (a : auth_action) : string :=
  match a with AuthActionAdd t _ _ => "ADD--" +:+ t | AuthActionEdit t _ _ _ => "EDIT--" +:+ t end.

Definition domain_types : gset (option string) := {[Some "1"; Some "101"]}.

(** A node with its pool, domain and config ledgers. *)
Definition node : registries := {|
  r_config := {["EnsureLedgerDurability" := CfgBool true; "db_state_config" := CfgStr "default";
                "MSG_LEN_LIMIT" := CfgInt 131072]};
  r_data_location := "/var/lib/indy"; r_ledger_ids := [0; 1; 2]%Z; r_auth_map := [];
  r_databases := {[1%Z := (OtherLedger "domain", OtherState "domain"); 2%Z := (OtherLedger "config", OtherState "config")]};
  r_stores := ∅; r_trackers := ∅; r_ledger_registry := ∅;
  r_handlers := {[Some "1" := [OtherHandler (Some "1") 1]; Some "101" := [OtherHandler (Some "101") 1]]};
  r_versioned := ∅; r_types := {[1%Z := domain_types]}; r_read_handlers := [];
  r_batch_handlers := {[1%Z := [OtherBatchObject "domain" 1]]};
  r_authnrs := [OtherAuthNr "core"]; r_authorizers := []; r_bus := []; r_master_instance := 0;
  r_next_fees_tracker := 0%nat; r_committedHeadHash := fun _ => "state root";
  r_uncommitted_root_hash := fun _ => "ledger root"; r_ledger_size := fun _ => 0%Z;
|}.

Lemma unplugged_node : unplugged node domain_types.
Proof.
  split; [split; try done; by eexists|done..|].
  apply Forall_forall, (bool_decide_unpack _). by vm_compute.
Qed.
End ExNode.

Lemma plugins_loaded_witness :
  exists r', load_both ExNode.action_id "0" elements ExNode.node = (Ok tt, r') /\
    both_loaded ExNode.action_id "0" (registries_of ExNode.node) ExNode.domain_types (registries_of r') /\
    rest_loaded (registries_of ExNode.node) ExNode.domain_types (registries_of r').
Proof.
  apply (plugins_loaded ExNode.action_id "0" elements (fun s => reflexivity _) (N:=registries) ExNode.node
    ExNode.domain_types).
  exact ExNode.unplugged_node.
Defined.

(** Loading alone, and loading where another plugin has the token database but no transfers. *)
Lemma fees_load_fails_witness :
  (sovtokenfees_integrate_plugin_in_node ExNode.action_id "0" elements ExNode.node).1 =
    Raise (AttributeError (Msg "'NoneType' object has no attribute '{}'" [MStr "committedHeadHash"])) /\
  let n := set_databases (<[TOKEN_LEDGER_ID := (OtherLedger "token", OtherState "token")]> (r_databases ExNode.node))
             ExNode.node in
  (sovtokenfees_integrate_plugin_in_node ExNode.action_id "0" elements n).1 =
    Raise (ImportError (Msg "sovtoken plugin should be loaded, request handler not found" [])).
Proof.
  split.
  - by apply (fees_load_fails ExNode.action_id "0" elements (N:=registries) ExNode.node).
  - apply (fees_load_fails ExNode.action_id "0" elements (N:=registries)); [by eexists|done..].
Defined.


Lemma auth_map_updated_witness :
  let auth_map' := aupdate (aupdate [("ADD--1", mkAuthRule "0" 1)] (sovtoken_auth_map ExNode.action_id "0"))
                           (sovtokenfees_auth_map ExNode.action_id "0") in
  alookup (ExNode.action_id add_mint) auth_map' = Some (mkAuthRule "0" 3) /\
  alookup (ExNode.action_id edit_fees) auth_map' = Some (mkAuthRule "0" 3) /\
  alookup (ExNode.action_id add_xfer) auth_map' = Some (mkAuthRule "*" 0) /\
  forall k, k ∉ ExNode.action_id <$> [add_mint; add_xfer; edit_fees] ->
    alookup k auth_map' = alookup k [("ADD--1", mkAuthRule "0" 1)].
Proof. apply (auth_map_updated ExNode.action_id "0" [("ADD--1", mkAuthRule "0" 1)]). by apply (bool_decide_unpack _). Defined.
