(* ===== verification/Dispatch.v ===== *)
(** * Requests through a node's write handlers

    The write manager runs the methods of every handler of a request's type, in the
    order of registration; a handler with a version takes over the transactions of
    this version.  Here the methods of all the plugins' write handlers
    ([static_validation], [dynamic_validation], [update_state]) are put together, so
    that the node that both plugins have loaded ([Wiring.both_loaded]) can be run on
    requests and transactions.  Theorems: which checks a request of each type meets
    on such a node, under which auth rule; and that the handlers it runs on a
    transaction during catch-up are those of [Catchup.v]. *)

From S2P Require Import Prelude Exceptions PyStr TokenTypes Stores UtxoAmounts UtxoCache TokenUtils.
From S2P Require Import TokenHandlers Json GetUtxo FeesState FeesAuthorizer Ledger DomainFees Payments.
From S2P Require Import Authn AuthRules Validation TokenLedger Catchup Registries Wiring.

Open Scope stdpp_scope.

(** ** The remaining methods of the fees plugin's handlers *)

Definition set_fees_dynamic_validation {A} (validator : request -> list auth_action -> res A) (req : request) : res A :=
  validator req [AuthActionEdit SET_FEES "*" "*" "*"].

(** [DomainFeeHandler] adds nothing to validation and to the domain state. *)
Definition domain_fee_static_validation (raw : raw_request) : res unit := Ok tt.
Definition domain_fee_dynamic_validation (req : request) : res unit := Ok tt.
Definition domain_fee_update_state {S} (t : txn) (is_committed : bool) : M S unit := ret tt.

Section AuthRuleMethods.
Context {T : Type} `{StateStore T} `{Serializer} (get_auth_constraint : json -> res auth_constraint).

Definition auth_rule_static_validation (raw : raw_request) : res unit := Ok tt.
Definition auth_rule_dynamic_validation (config_state : T) (raw : raw_request) : res unit :=
  auth_rule_fees_specific_validation get_auth_constraint config_state raw.
Definition auth_rule_update_state {S} (t : txn) (is_committed : bool) : M S unit := ret tt.
(** [return None, None, None]: no start, no transaction and no result *)
Definition auth_rule_apply_request {S} (raw : raw_request) : M S (option Z * option txn * option json) :=
  ret (None, None, None).

Definition auth_rules_static_validation (raw : raw_request) : res unit := Ok tt.
Definition auth_rules_dynamic_validation (config_state : T) (raw : raw_request) : res unit :=
  auth_rules_fees_specific_validation get_auth_constraint config_state raw.
Definition auth_rules_update_state {S} (t : txn) (is_committed : bool) : M S unit := ret tt.
Definition auth_rules_apply_request {S} (raw : raw_request) : M S (option Z * option txn * option json) :=
  ret (None, None, None).
End AuthRuleMethods.

(** ** The methods of every handler *)

(** The stores the write handlers reach. *)
Record write_node (T K : Type) := mkWriteNode { wn_db : token_db T K; wn_config : T }.
Arguments mkWriteNode {T K} _ _.
Arguments wn_db {T K} _.
Arguments wn_config {T K} _.

(** The handlers of plenum, of indy and of other plugins, and what the node gives to
    all of them: indy's [WriteRequestValidator.validate] and [get_auth_constraint],
    plenum's [get_payload_data]. *)
Class Environment (T K : Type) := {
  other_static : handler -> raw_request -> res unit;
  other_dynamic : handler -> write_node T K -> raw_request -> request -> res unit;
  other_update : handler -> txn -> bool -> M (write_node T K) unit;
  validate : request -> list auth_action -> res unit;
  get_auth_constraint : json -> res auth_constraint;
  get_payload_data : txn -> dict;
}.

Section Methods.
Context {T K : Type} `{StateStore T} `{KVStore K} `{Serializer} `{Base58} `{Fields} `{Environment T K}.

Definition on_db {A} (m : M (token_db T K) A) : M (write_node T K) A :=
  zoom wn_db (fun d n => mkWriteNode d (wn_config n)) m.
Definition on_config {A} (m : M T A) : M (write_node T K) A :=
  zoom wn_config (fun c n => mkWriteNode (wn_db n) c) m.

Definition handler_static_validation (raw : raw_request) (h : handler) : res unit :=
  match h with
  | XferHandler | XferHandler100 | XferFeeHandler => xfer_static_validation raw
  | MintHandler => mint_static_validation raw
  | SetFeesHandler | SetFeesHandler093 => set_fees_static_validation raw
  | DomainFeeHandler _ => domain_fee_static_validation raw
  | FeeTxnCatchupHandler => Ok tt
  | AuthRuleFeeHandler _ => auth_rule_static_validation raw
  | AuthRulesFeeHandler _ => auth_rules_static_validation raw
  | _ => other_static h raw
  end.

Definition handler_dynamic_validation (n : write_node T K) (raw : raw_request) (req : request) (h : handler) : res unit :=
  match h with
  | XferHandler | XferHandler100 => xfer_dynamic_validation validate (db_cache (wn_db n)) req
  | XferFeeHandler => xfer_fee_dynamic_validation validate req
  | MintHandler => mint_dynamic_validation validate req
  | SetFeesHandler | SetFeesHandler093 => set_fees_dynamic_validation validate req
  | DomainFeeHandler _ => domain_fee_dynamic_validation req
  | FeeTxnCatchupHandler => fee_txn_dynamic_validation req
  | AuthRuleFeeHandler _ => auth_rule_dynamic_validation get_auth_constraint (wn_config n) raw
  | AuthRulesFeeHandler _ => auth_rules_dynamic_validation get_auth_constraint (wn_config n) raw
  | _ => other_dynamic h n raw req
  end.

Definition handler_update_state (t : txn) (is_committed : bool) (h : handler) : M (write_node T K) unit :=
  match h with
  | XferHandler | XferFeeHandler => on_db (xfer_update_state t is_committed)
  | XferHandler100 => on_db (xfer100_update_state t is_committed)
  | MintHandler => on_db (mint_update_state t is_committed)
  | FeeTxnCatchupHandler => on_db (fee_txn_update_state t is_committed)
  | SetFeesHandler => on_config (set_fees_update_state (get_payload_data t))
  | SetFeesHandler093 => on_config (set_fees_093_update_state (get_payload_data t))
  | DomainFeeHandler _ => domain_fee_update_state t is_committed
  | AuthRuleFeeHandler _ => auth_rule_update_state t is_committed
  | AuthRulesFeeHandler _ => auth_rules_update_state t is_committed
  | _ => other_update h t is_committed
  end.

(** ** The write manager's loops over the handlers of a type *)

Fixpoint run_all (f : handler -> res unit) (hs : list handler) : res unit :=
  match hs with [] => Ok tt | h :: hs => let? _ := f h in run_all f hs end.

Lemma run_all_snoc f hs h : run_all f (hs ++ [h]) = res_bind (run_all f hs) (fun _ => f h).
Proof.
  induction hs as [|h' hs IH]; simpl; [by destruct (f h) as [[]|]|]. destruct (f h') as [[]|]; [apply IH|done].
Qed.

Definition handlers_of (r : registries) (typ : string) : list handler := default [] (r_handlers r !! Some typ).

(** The handlers of a transaction: the one of its version, if there is one. *)
Definition handlers_of_txn (r : registries) (version : txn -> string) (t : txn) : list handler :=
  match r_versioned r !! (Some (txn_type t), version t) with
  | Some h => [h]
  | None => handlers_of r (txn_type t)
  end.

(** A type that no handler was registered for is a [LogicError]. *)
Definition static_validation (r : registries) (typ : string) (raw : raw_request) : res unit :=
  match r_handlers r !! Some typ with
  | Some hs => run_all (handler_static_validation raw) hs
  | None => Raise (LogicError (Msg "" []))
  end.

(** Runs only after the static validation. *)

Definition dynamic_validation (r : registries) (n : write_node T K) (typ : string) (raw : raw_request) (req : request)
    : res unit :=
  run_all (handler_dynamic_validation n raw req) (handlers_of r typ).

Definition update_state (r : registries) (version : txn -> string) (t : txn) (is_committed : bool)
    : M (write_node T K) unit :=
  for_each (handlers_of_txn r version t) (handler_update_state t is_committed).
End Methods.

(** ** Lemmas *)

Section LoadedNode.
Context {T K : Type} `{StateStore T} `{KVStore K} `{Serializer} `{Base58} `{Fields} `{Environment T K} `{PlenumLaws}.
Context (get_action_id : auth_action -> string) (TRUSTEE : string).
Context (r r' : registries) (s : gset (option string)) (loaded : both_loaded get_action_id TRUSTEE r s r').

(** The plugins' own types had no handlers before. *)
Definition own_types_unused : Prop :=
  Forall (fun typ => r_handlers r !! Some typ = None) [MINT_PUBLIC; SET_FEES; FEE_TXN].

Lemma handlers_of_own typ h :
  h ∈ fees_handlers -> hb_txn_type (handler_init h) = Some typ -> handlers_of r' typ = handlers_of r typ ++ [h].
Proof. intros Hh Htyp. unfold handlers_of. by rewrite <-Htyp, (bl_own _ _ _ _ _ loaded h Hh). Qed.

Lemma handlers_of_xfer : handlers_of r' XFER_PUBLIC = [XferFeeHandler].
Proof. unfold handlers_of. by rewrite (bl_xfer _ _ _ _ _ loaded). Qed.

Lemma handlers_of_mint : own_types_unused -> handlers_of r' MINT_PUBLIC = [MintHandler].
Proof. intros [Hm _]%Forall_cons. unfold handlers_of. by rewrite (bl_mint _ _ _ _ _ loaded), Hm. Qed.

Lemma handlers_of_set_fees : own_types_unused -> handlers_of r' SET_FEES = [SetFeesHandler].
Proof.
  intros [_ [Hs _]%Forall_cons]%Forall_cons. rewrite (handlers_of_own SET_FEES SetFeesHandler); [|by left|done].
  unfold handlers_of. by rewrite Hs.
Qed.

Lemma handlers_of_fee_txn : own_types_unused -> handlers_of r' FEE_TXN = [FeeTxnCatchupHandler].
Proof.
  intros [_ [_ [Hf _]%Forall_cons]%Forall_cons]%Forall_cons.
  rewrite (handlers_of_own FEE_TXN FeeTxnCatchupHandler); [|by right; left|done].
  unfold handlers_of. by rewrite Hf.
Qed.

Lemma handlers_of_domain typ : Some typ ∈ s -> exists ft, handlers_of r' typ = handlers_of r typ ++ [DomainFeeHandler ft].
Proof.
  intros Htyp. destruct (bl_domain _ _ _ _ _ loaded) as (ft & Hd & _). exists ft.
  unfold handlers_of. by rewrite (Hd _ Htyp).
Qed.

Lemma handlers_of_auth_rule : handlers_of r' AUTH_RULE = handlers_of r AUTH_RULE ++ [AuthRuleFeeHandler GetFeesHandler].
Proof. apply handlers_of_own; [|done]. unfold fees_handlers. set_solver. Qed.

Lemma handlers_of_auth_rules : handlers_of r' AUTH_RULES = handlers_of r AUTH_RULES ++ [AuthRulesFeeHandler GetFeesHandler].
Proof. apply handlers_of_own; [|done]. unfold fees_handlers. set_solver. Qed.

Lemma static_validation_handlers r0 typ raw :
  handlers_of r0 typ <> [] -> static_validation r0 typ raw = run_all (handler_static_validation raw) (handlers_of r0 typ).
Proof. unfold static_validation, handlers_of. by destruct (r_handlers r0 !! Some typ). Qed.

Lemma static_validation_known typ raw :
  is_Some (r_handlers r !! Some typ) ->
  static_validation r typ raw = run_all (handler_static_validation raw) (handlers_of r typ).
Proof. intros [hs Hs]. unfold static_validation, handlers_of. by rewrite Hs. Qed.

Lemma res_bind_Ok_tt (x : res unit) : res_bind x (fun _ => Ok tt) = x.
Proof. by destruct x as [[]|]. Qed.

Lemma for_each_one {S A} (f : A -> M S unit) a n : for_each [a] f n = f a n.
Proof. simpl. unfold bind. by destruct (f a n) as [[[]|] ?]. Qed.

(** C27: the checks of a request on a node with both plugins: a transfer is checked for
    its shape and needs whatever the rule of [add_xfer] asks, a mint the rule of
    [add_mint], a change of fees the rule of [edit_fees]; these rules are nobody's
    signature, three trustees and three trustees.  The plugins leave the validation of
    every request of the domain ledger as it was, and add to the validation of auth
    rules exactly the check of the fee aliases; a type of the domain ledger that had no
    handler would have [DomainFeeHandler] alone, which checks nothing.  A request for a
    fee transaction would pass every check, but no authenticator of the plugins takes
    one; a request whose type has no handler is a [LogicError]. *)
Theorem loaded_node_validates (n : write_node T K) raw req :
  own_types_unused -> NoDup (get_action_id <$> [add_mint; add_xfer; edit_fees]) ->
  let static := fun typ => static_validation r' typ raw in
  let dynamic := fun typ => dynamic_validation r' n typ raw req in
  (static XFER_PUBLIC = xfer_static_validation raw /\ dynamic XFER_PUBLIC = validate req [add_xfer] /\
   alookup (get_action_id add_xfer) (r_auth_map r') = Some (mkAuthRule "*" 0)) /\
  (static MINT_PUBLIC = mint_static_validation raw /\ dynamic MINT_PUBLIC = validate req [add_mint] /\
   alookup (get_action_id add_mint) (r_auth_map r') = Some (mkAuthRule TRUSTEE 3)) /\
  (static SET_FEES = set_fees_static_validation raw /\ dynamic SET_FEES = validate req [edit_fees] /\
   alookup (get_action_id edit_fees) (r_auth_map r') = Some (mkAuthRule TRUSTEE 3)) /\
  (static FEE_TXN = Ok tt /\ dynamic FEE_TXN = Ok tt /\
   FEE_TXN ∉ ACCEPTABLE_WRITE_TYPES ∪ ACCEPTABLE_QUERY_TYPES ∪ ACCEPTABLE_WRITE_TYPES_FEE ∪ ACCEPTABLE_QUERY_TYPES_FEE) /\
  (forall typ, Some typ ∈ s ->
     (is_Some (r_handlers r !! Some typ) -> static typ = static_validation r typ raw) /\
     (r_handlers r !! Some typ = None -> static typ = Ok tt) /\ dynamic typ = dynamic_validation r n typ raw req) /\
  ((is_Some (r_handlers r !! Some AUTH_RULE) -> static AUTH_RULE = static_validation r AUTH_RULE raw) /\
   (r_handlers r !! Some AUTH_RULE = None -> static AUTH_RULE = Ok tt) /\
   dynamic AUTH_RULE = res_bind (dynamic_validation r n AUTH_RULE raw req)
     (fun _ => auth_rule_fees_specific_validation get_auth_constraint (wn_config n) raw)) /\
  ((is_Some (r_handlers r !! Some AUTH_RULES) -> static AUTH_RULES = static_validation r AUTH_RULES raw) /\
   (r_handlers r !! Some AUTH_RULES = None -> static AUTH_RULES = Ok tt) /\
   dynamic AUTH_RULES = res_bind (dynamic_validation r n AUTH_RULES raw req)
     (fun _ => auth_rules_fees_specific_validation get_auth_constraint (wn_config n) raw)) /\
  (forall typ, r_handlers r' !! Some typ = None -> static typ = Raise (LogicError (Msg "" []))).
Proof.
  intros Hown Hids static dynamic. unfold static, dynamic, dynamic_validation.
  rewrite !(static_validation_handlers r');
    rewrite ?handlers_of_xfer, ?handlers_of_mint, ?handlers_of_set_fees, ?handlers_of_fee_txn, ?handlers_of_auth_rule,
      ?handlers_of_auth_rules by done; try (by intros ?); try (by intros [_ ?]%app_nil).
  rewrite !run_all_snoc. cbn [run_all handler_static_validation handler_dynamic_validation]. rewrite !res_bind_Ok_tt.
  rewrite (bl_auth_map _ _ _ _ _ loaded).
  destruct (auth_map_updated get_action_id TRUSTEE (r_auth_map r) Hids) as (Hm & Hf & Hx & _).
  split_and!; try done; try (intros Hr; by rewrite static_validation_known);
    try (unfold handlers_of; by intros ->);
    [|intros typ Hn; unfold static_validation; by rewrite Hn].
  intros typ Htyp. destruct (handlers_of_domain typ Htyp) as [ft Hft].
  rewrite static_validation_handlers; rewrite Hft; [|by intros [_ ?]%app_nil]. rewrite !run_all_snoc.
  cbn [handler_static_validation handler_dynamic_validation]. unfold domain_fee_static_validation, domain_fee_dynamic_validation.
  rewrite !res_bind_Ok_tt. split_and!; [intros Hr; by rewrite static_validation_known| |done].
  unfold handlers_of. by intros ->.
Qed.

(** ** Replaying transactions *)

Lemma on_db_for_each (f : txn -> M (token_db T K) unit) ts n :
  for_each ts (fun t => on_db (f t)) n = on_db (for_each ts f) n.
Proof.
  revert n. induction ts as [|t ts IH]; intros [d c]; [done|]. simpl. unfold bind, on_db, zoom in *. simpl.
  destruct (f t d) as [[[]|e] d']; [apply IH|done].
Qed.

Lemma for_each_ext {S A} (f g : A -> M S unit) l n :
  (forall a n, a ∈ l -> f a n = g a n) -> for_each l f n = for_each l g n.
Proof.
  revert n. induction l as [|a l IH]; intros n Hfg; [done|]. simpl. unfold bind. rewrite Hfg by left.
  destruct (g a n) as [[[]|e] n']; [|done]. apply IH. intros. apply Hfg. by right.
Qed.

Context (version : txn -> string).

Lemma update_state_token t n :
  own_types_unused -> (forall v, r_versioned r !! (Some (txn_type t), v) = None) ->
  txn_type t ∈ [MINT_PUBLIC; XFER_PUBLIC; FEE_TXN] ->
  update_state r' version t true n = on_db (catchup_update_state (fun t => bool_decide (version t = "1.0.0")) t) n.
Proof.
  intros Hown Hv Ht. rewrite !elem_of_cons, elem_of_nil in Ht. unfold update_state, handlers_of_txn. rewrite (bl_versioned _ _ _ _ _ loaded).
  rewrite lookup_insert_ne by (intros [= Heq _]; rewrite <-Heq in Ht; intuition discriminate).
  unfold catchup_update_state.
  destruct Ht as [Ht|[Ht|[Ht|[]]]]; rewrite Ht in *.
  - rewrite lookup_insert_ne, Hv, handlers_of_mint by done. by rewrite for_each_one.
  - destruct (decide (version t = "1.0.0")) as [->|Hne].
    + rewrite lookup_insert_eq, for_each_one. done.
    + rewrite lookup_insert_ne, Hv, handlers_of_xfer by congruence. rewrite for_each_one.
      by rewrite (bool_decide_false (version t = _)).
  - rewrite lookup_insert_ne, Hv, handlers_of_fee_txn by done. by rewrite for_each_one.
Qed.

(** C26: catch-up through the registered handlers: on a node that both plugins have
    loaded, running for each committed transaction the handlers that the node has for
    its type and version raises nothing, leaves the config state alone, and arrives at
    the outputs of the nodes that executed the requests; the handlers that the fees
    plugin adds to the types of the domain ledger change nothing. *)
Theorem loaded_node_catches_up {L X} `{LedgerLaws L X, !StateStoreLaws T, !KVStoreLaws K}
    (node : fee_node T K L) ps (n : write_node T K) :
  own_types_unused -> (forall typ v, r_versioned r !! (typ, v) = None) ->
  executed (X:=X) node ps -> db_repr true (wn_db n) ∅ ->
  (exists n', for_each (txns_from 1 ps) (fun t => update_state r' version t true) n = (Ok tt, n') /\
     wn_config n' = wn_config n /\ same_outputs (wn_db n') (fn_db node)) /\
  (forall t is_committed n, Some (txn_type t) ∈ s -> txn_type t <> XFER_PUBLIC -> txn_type t <> SET_FEES ->
     update_state r' version t is_committed n = update_state r version t is_committed n).
Proof.
  intros Hown Hv Hex Hn. split.
  - destruct (catchup_repr (fun t => bool_decide (version t = "1.0.0")) node ps _ Hex Hn) as (Hr & _ & _ & d & Hrun & Hd).
    exists (mkWriteNode d (wn_config n)). split_and!; [|done|by eapply same_outputs_repr].
    rewrite (for_each_ext _ (fun t => on_db (catchup_update_state (fun t => bool_decide (version t = "1.0.0")) t))).
    + rewrite on_db_for_each. unfold on_db, zoom. unfold catchup in Hrun. by rewrite Hrun.
    + intros t n0 Ht. apply update_state_token; [done..|].
      by eapply (txns_from_types (fun typ => typ ∈ _)); [apply (executed_types (X:=X) node)|].
  - intros t c n0 Htyp Hx Hf. unfold update_state, handlers_of_txn. rewrite (bl_versioned _ _ _ _ _ loaded).
    rewrite !lookup_insert_ne, Hv by congruence. destruct (handlers_of_domain _ Htyp) as [ft ->].
    rewrite for_each_app. unfold bind. by destruct (for_each _ _ n0) as [[[]|] ?].
Qed.
End LoadedNode.

(** ** Witnesses

    The node of [Wiring.ExNode] once both plugins have loaded, with a validator that
    lets everything pass. *)

Module ExDispatch.
#[global] Instance environment : Environment Mem.state Mem.kv := {
  other_static _ _ := Ok tt;
  other_dynamic _ _ _ _ := Ok tt;
  other_update _ _ _ := ret tt;
  validate _ _ := Ok tt;
  get_auth_constraint _ := Ok (RoleConstraint []);
  get_payload_data _ := [];
}.

Definition loaded (r' : registries) : Prop :=
  both_loaded ExNode.action_id "0" ExNode.node ExNode.domain_types r'.

Lemma node_loads : exists r', loaded r'.
Proof.
  destruct (sovtoken_loads ExNode.action_id "0" _ (up_ready _ _ ExNode.unplugged_node)) as (r1 & _ & H1).
  destruct (sovtokenfees_loads ExNode.action_id "0" elements (fun s => reflexivity _) _ _ _ _ _ _
              (sovtoken_makes_ready _ _ _ _ _ ExNode.unplugged_node H1)) as (r2 & _ & H2).
  exists r2. by eapply (contracts_compose _ _ elements); [|exact ExNode.unplugged_node|..].
Qed.

Definition empty : write_node Mem.state Mem.kv := mkWriteNode TokenHandlers.Ex.empty ExFees.config.
Definition raw : raw_request := mkRawRequest None None [].
Definition version (t : txn) : string := "1.0.0".
End ExDispatch.

Lemma loaded_node_validates_witness :
  exists r', ExDispatch.loaded r' /\ static_validation r' XFER_PUBLIC ExDispatch.raw = xfer_static_validation ExDispatch.raw /\
    dynamic_validation r' ExDispatch.empty "1" ExDispatch.raw ExRun.typed =
      dynamic_validation ExNode.node ExDispatch.empty "1" ExDispatch.raw ExRun.typed.
Proof.
  destruct ExDispatch.node_loads as [r' Hr']. exists r'.
  destruct (loaded_node_validates ExNode.action_id "0" ExNode.node r' ExNode.domain_types Hr' ExDispatch.empty
              ExDispatch.raw ExRun.typed) as ([Hx _] & _ & _ & _ & Hd & _).
  - by repeat constructor.
  - by apply (bool_decide_unpack _).
  - split_and!; [done|done|]. apply Hd. by apply (bool_decide_unpack _).
Defined.

Lemma loaded_node_catches_up_witness :
  exists r', ExDispatch.loaded r' /\
    exists n', for_each (txns_from 1 [mkPayment MINT_PUBLIC [] ExFields.outs])
        (fun t => update_state r' ExDispatch.version t true) ExDispatch.empty = (Ok tt, n') /\
      wn_config n' = ExFees.config /\ same_outputs (wn_db n') (fn_db ExRun.minted).
Proof.
  destruct ExDispatch.node_loads as [r' Hr']. exists r'. split; [done|].
  apply (loaded_node_catches_up ExNode.action_id "0" ExNode.node r' ExNode.domain_types Hr' ExDispatch.version
           (X:=MemLedger.mtxn) ExRun.minted [mkPayment MINT_PUBLIC [] ExFields.outs] ExDispatch.empty).
  - by repeat constructor.
  - done.
  - exact executed_minted.
  - apply TokenHandlers.Ex.empty_repr.
Defined.
